(* ===== verification/_CoqProject ===== *)
-Q . S2P
Prelude.v
Bytes.v
Decode.v
DecodeWp.v
DecodeSafe.v
DecodeProps.v
DecodeMono.v
DecodeLocal.v
Reader.v
ReaderProps.v
ReaderStatus.v
Builder.v
Packets.v
PacketProps.v
PacketTheorems.v
PcapProps.v
Flow.v
FlowProps.v
TopN.v
FlowTheorems.v
Frag.v
Stats.v
StatsProps.v
Text.v
Stdio.v
Bytebuf.v
BytebufProps.v
Addr.v
AddrText.v
Report.v
ReportProps.v
Csv.v
Tables.v
ReportAlike.v
Analyze.v
AnalyzeProps.v
AnalysisFits.v
Main.v
MainReports.v
MainProps.v
Determinism.v
Reorder.v
EndToEnd.v
Mutate.v
MutateProps.v
Fuzz.v
FuzzProps.v
FuzzRun.v
FuzzReplay.v
TestDecode.v
TestGtpu.v
TestFlow.v
TestPcap.v
TestReport.v
TestTunnels.v
Witnesses.v
OutputWitnesses.v
Findings.v
FuzzWitnesses.v
BytebufWitnesses.v
PacketWitnesses.v
EndToEndWitnesses.v
