(* ===== verification/Prelude.v ===== *)
(** * pcapstat: a verification development

    pcapstat reads a pcap capture, decodes each frame (Ethernet, VLAN, IPv4, IPv6,
    TCP, UDP, ICMP and the GTP-U tunnels of mobile networks), counts, groups packets
    into flows and tunnels, and prints a summary, top-N tables and CSV files.  This
    library models the whole program (src/src), its fuzzer (src/fuzz) and the packet
    builder the fuzzer is made with (src/tests/builder.c), and proves what makes
    them correct.

    ** How the program fits together

    [main] (main.c) parses the command line, opens the capture (pcap_reader.c) and
    calls [analysis_run] (analyze.c), which for every record calls [decode_frame]
    (decode.c), lets the fragment cache (frag.c) give ports to later IP fragments,
    updates the counters (stats.c) and adds the packet to the flow table and to the
    tunnel table (both flow.c).  The reports (report.c, addresses by addr.c) then
    read the counters and the two tables.  The fuzzer (fuzz_decode.c) mutates seed
    frames and captures, runs the same code on them and calls [fail] when one of its
    checks does not hold.

    ** Conventions

    A w-bit unsigned integer is a [Z]; [wrap w] (here, with [u8] to [u64]) is the
    conversion of C, written wherever the code can wrap around.  Memory is a list of
    bytes and every access is checked: a definition returns [None] where the C code
    would have undefined behaviour, and where a loop would run out of fuel, so "it
    returns [Some]" is safety and termination in one.  A pointer is an offset or an
    index.  The outcome of an allocation, the device behind a stream (which writes it
    refuses, see [Stdio]) and the contents of uninitialised arrays ([junk]) are
    arguments.  Open streams and heap blocks are counted ([resources] below, and in each
    table), so that a missing [fclose] or [free] shows.  [qsort] is the class [Flow.QSort],
    the promise of the C standard; [TopN.insertion_qsort] is an instance.  Records
    are updated with [r <| field := v |>] (classes [Eta] and [Setter] below).

    ** Files and what they model
    - [Bytes]: src/bytes.h and src/hash.h.
    - [Decode]: src/decode.c, one definition per function, in the monad [D] over a
      [span] and the [packet_info] under construction.  [DecodeWp] has its weakest
      preconditions, [DecodeSafe] a specification per decoder, [DecodeProps] the
      fuzzer's [check_invariants] and the theorems about [decode_frame].
      [DecodeMono] relates the decoding of a prefix and of the whole frame by a
      simulation; [DecodeLocal] shows that bytes behind the captured ones are
      irrelevant, through an order on decoders that every combinator respects.
    - [Reader]: src/pcap_reader.c; a [FILE] is the bytes it will deliver, its
      position and whether it ends in an error.  [ReaderProps] and [ReaderStatus]
      prove it against [split_record] and [capture_of], the pcap format as a
      function of the bytes; [PcapProps] states the properties.
    - [Builder]: src/tests/builder.c as functions on the bytes written so far.
      [Bytebuf] has the same functions on the growing block of the [struct bytebuf],
      with its capacity, allocations that may fail and [bb_write_file];
      [BytebufProps] proves that they append what [Builder] says, through the class
      [Writes].
    - [Packets]: a grammar of well-formed frames, with the bytes the builder makes
      of each and the fields the decoder owes for it.  [PacketProps] (the transport
      and network layers) and [PacketTheorems] (tunnels, tags and frames) prove that
      the decoder pays.
    - [Flow]: src/flow.c (keys, open addressing, growth, iteration, the heap of the
      top-N selection).  [FlowProps] proves that the slots refine the finite map
      [tmap]; [TopN] that the heap selects the head of the sorted flows;
      [FlowTheorems] states the properties, with [represents t l]: table [t] holds
      exactly what the list [l] of accounted packets makes of each key.
    - [Frag]: src/frag.c, and its specification over the history of packets.
    - [Stats]: src/stats.c; [StatsProps] gives every counter as the number of
      packets with a property.
    - [Text], [Stdio]: what the output code uses of the C library (snprintf and the
      conversions, buffered output streams on devices with faults, double arithmetic,
      gmtime).
    - [Addr]: src/addr.c with the RFC 5952 text as an inductive relation;
      [AddrText] reads the text back and shows it is unique.
    - [Report]: src/report.c.  [ReportProps] and [Tables] give every report as a text
      ([summary_text], [flows_table], [gtpu_text], [tunnels_table]); [Csv] proves that
      a table has one ranking and that both CSV files read back to it;
      [ReportAlike] that no report depends on the contents of uninitialised arrays.
    - [Analyze]: src/analyze.c; [AnalyzeProps] proves it against the specification
      [accounts_for ps]: counters, flows, tunnels and cache are those of the packets
      [ps].  [AnalysisFits] shows the result fits the reports' arrays and types.
    - [Main]: src/main.c, the command line and the run, in a [world] of files,
      streams and resources.  [MainReports] has what the reports leave: the standard
      output as a function of the analysis ([report_text]), the CSV files, the exit
      status.  [MainProps] specifies [main] by the relations [command] (the command
      line) and [reads] (the capture).  [Determinism] shows that the packets determine
      the output, and [Reorder] that their order does not matter.  [EndToEnd] composes
      builder, reader, decoder, accounting and reports.
    - [Mutate], [Fuzz]: src/fuzz/fuzz_decode.c, in a state monad [F] with early
      exit.  [MutateProps] has its program logic [runs], over a [luck] that says what
      the environment grants and which early stops it excuses, and the mutation engine,
      [FuzzProps] the checks, the readers in lockstep and the damaged captures,
      [FuzzRun] the loop, the final checks and [main]; [FuzzReplay] relates two runs
      whose uninitialised memory differs.
    - [TestDecode], [TestGtpu], [TestFlow], [TestPcap], [TestReport], [TestTunnels]: the
      unit tests of src/tests run on the model, which passes them.
    - [Witnesses], [OutputWitnesses], [FuzzWitnesses], [BytebufWitnesses],
      [PacketWitnesses], [EndToEndWitnesses]: the theorems applied to concrete
      frames, captures, command lines and runs.  [Findings]: two behaviours that
      differ from what the code or its comments say; a third is
      [BytebufProps.reserve_hangs].

    ** What the theorems show
    - Decoder: no read past the captured bytes and no endless chain, for any bytes
      ([decode_frame_safe], [decode_frame_local]); every documented relation between
      the fields ([decode_frame_invariants], [decode_frame_fields]); a truncated
      capture is blamed on the capture ([decode_frame_snapshot]); and a well-formed
      frame decodes to exactly its fields ([decode_built_frame]).
    - Reader: exactly the records of the format ([pcap_next_refines]), the same from
      memory and from a stream, bounds, errors, truncation, and the round trip with
      the builder, in memory and through a file ([capture_file_roundtrip]).
    - Builder: on its real memory, any sequence of calls appends exactly its bytes
      or aborts because an allocation failed ([builder_appends]).
    - Tables: every packet is accounted to the one entry of its key
      ([flow_accounting]), top-N is the head of the ranking, iteration visits every
      flow once; the fragment cache refines its history.
    - Counters: their meaning and their conservation laws.
    - Pipeline and program: the result stands for exactly the packets of the capture
      ([analysis_run_refines]), and every packet that decoded is in the flows, every
      tunnelled one in the tunnels ([analysis_run_totals]).  [main] always ends with
      status 0, 1 or 2, every stream closed and every block freed ([main_total]);
      status 0 means that all of the capture was reported and the report flushed
      ([main_success]); a damaged capture is reported up to the damage, which the
      status and a message tell ([main_reports]); a bad command line touches nothing
      ([main_usage]).  From end to end, what is reported about a capture built from
      frames, or about the beginning of one, is a function of those frames, without
      reader or decoder ([traffic_is_reported], [cut_traffic_is_reported]).
    - Output: addresses and CSV files read back; what is printed and written depends
      on the packets and the command line only ([main_deterministic]), and not on the
      order of the packets when their ports and directions are their own
      ([reordered_capture]).
    - Fuzzer: whatever it draws, no [fail] is reached, unless [inet_ntop] itself does
      not write the text of RFC 5952 ([fuzz_finds_nothing]), and a run can be replayed,
      the runs that fail included ([fuzz_replays]).

    ** Fuel
    Loops bounded by the code take that bound: [vlan_loop], [ipv6_ext_loop] and
    [gtpu_ext_loop] one more than the header limits; probes, iteration and heap
    moves the number of slots or of elements; address loops the 8 groups.
    [analysis_run], [run_capture] and [main] take fuel that must exceed the length of
    the capture, since every record takes at least 16 bytes; [read_lockstep] gets
    the length of the file.  The doubling in [reserve] takes [growth_fuel], one more
    than the width of [size_t]: a capacity that has not reached the size asked for
    by then has wrapped to 0, and never will.  The theorems prove that this is
    enough.

    ** Not modelled
    The text of the messages of [fail]; [inet_ntop], a parameter of which nothing is
    assumed; the memory of the byte buffers in which the fuzzer builds seeds and
    captures (lists there; [Bytebuf] has it); setvbuf, which has no observable effect; two names of one file other than equal text (the code
    compares text as well); the unit tests that need files or hundreds of packets, the
    test runner, the shell tests, gen_pcap.py and the Makefile, which hold no logic of
    the program. *)
From Stdlib Require Export ZArith Lia.
From stdpp Require Export base list numbers option.

#[global] Open Scope Z_scope.

(** ** Machine integers

    A C unsigned integer of width [w] is a [Z]; [wrap w] is the conversion the
    language applies when a value is stored in such a type. *)
Definition wrap (w x : Z) : Z := x mod 2 ^ w.

Abbreviation u8 := (wrap 8).
Abbreviation u16 := (wrap 16).
Abbreviation u32 := (wrap 32).
Abbreviation u64 := (wrap 64).

(** [size_t] is 64 bits wide on the platforms the Makefile builds for. *)
Abbreviation size_wrap := (wrap 64).
Definition SIZE_MAX : Z := 2 ^ 64 - 1.

Definition is_u (w x : Z) : Prop := 0 <= x < 2 ^ w.
#[global] Hint Unfold is_u : core.

(** A byte is a [Z] below 256; a buffer is a list of bytes. *)
Abbreviation is_byte := (is_u 8).
Abbreviation bytes := (list Z).

(** ** Resources

    The open streams of the process, and its heap blocks outside the tables and the
    fragment cache, which count their own: record buffers, working arrays, copies.
    Whether [malloc] returns a block is an argument of each operation; it calls
    [malloc] below when it got one. *)
Record resources := Resources { os_files : Z; os_blocks : Z }.

Definition malloc (os : resources) : resources := Resources (os_files os) (os_blocks os + 1).
Definition free (os : resources) : resources := Resources (os_files os) (os_blocks os - 1).

Lemma free_malloc os : free (malloc os) = os.
Proof. destruct os. unfold free, malloc. cbn. f_equal. lia. Qed.

(** ** Checked memory

    [byte_at m i] is the load [m[i]]; [None] is an access outside the object,
    which is undefined behaviour in C.  [bytes_at m i n] is the source range of
    a [memcpy] of [n] bytes from [m + i]. *)
Definition byte_at (m : bytes) (i : Z) : option Z :=
  if decide (0 <= i) then m !! Z.to_nat i else None.

Definition bytes_at (m : bytes) (i n : Z) : option bytes :=
  if decide (0 <= i /\ 0 <= n /\ i + n <= Z.of_nat (length m))
  then Some (take (Z.to_nat n) (drop (Z.to_nat i) m)) else None.

(** [memcpy(dst, src, sizeof src)] into the front of the array [dst]. *)
Definition overwrite (dst src : bytes) : bytes := src ++ drop (length src) dst.

(** [memcmp] on arrays of the same length: negative, zero or positive. *)
Fixpoint memcmp (a b : bytes) : Z :=
  match a, b with
  | x :: a', y :: b' => if x =? y then memcmp a' b' else if x <? y then -1 else 1
  | _, _ => 0
  end.

(** ** Functional record update

    [r <| field := v |>] is the assignment [r.field = v].  Each record declares
    its eta expansion once; [solve_setter] derives a setter from it. *)
Class Eta (R : Type) := eta : R -> R.
Class Setter {R E : Type} (p : R -> E) := update : (E -> E) -> R -> R.
Arguments update {R E} p {_} f r.

Ltac solve_setter :=
  match goal with
  | |- @Setter ?R ?E ?p =>
      let i := constr:(_ : Eta R) in
      let i' := eval red in i in
      exact (fun (f : E -> E) (r : R) =>
        ltac:(let b := eval cbv beta in (i' r) in
              match eval pattern (p r) in b with
              | ?g _ => let t := eval cbv beta in (g (f (p r))) in exact t
              end))
  end.

Declare Scope record_scope.
Delimit Scope record_scope with record.
Notation "r <| p := v |>" := (update p (fun _ => v) r)
  (at level 1, left associativity, p at level 200,
   format "r  <| p  :=  v |>") : record_scope.
Notation "r <| p ::= f |>" := (update p f r)
  (at level 1, left associativity, p at level 200,
   format "r  <| p  ::=  f |>") : record_scope.
#[global] Open Scope record_scope.

(** ** Lemmas on machine integers *)
Create HintDb ints discriminated.

Lemma wrap_small w x : is_u w x -> wrap w x = x.
Proof. unfold wrap, is_u. intros H. by apply Z.mod_small. Qed.

Lemma wrap_is_u w x : 0 <= w -> is_u w (wrap w x).
Proof. intros Hw. apply Z.mod_pos_bound. by apply Z.pow_pos_nonneg. Qed.

Lemma is_u_weaken w w' x : 0 <= w <= w' -> is_u w x -> is_u w' x.
Proof.
  unfold is_u. intros [Hw Hw'] [H0 H1]. split; [done|].
  eapply Z.lt_le_trans; [exact H1|]. apply Z.pow_le_mono_r; lia.
Qed.

Lemma u8_u16 x : is_u 8 x -> is_u 16 x.
Proof. by apply is_u_weaken. Qed.
Lemma u16_u32 x : is_u 16 x -> is_u 32 x.
Proof. by apply is_u_weaken. Qed.
Lemma u32_u64 x : is_u 32 x -> is_u 64 x.
Proof. by apply is_u_weaken. Qed.
#[export] Hint Resolve u8_u16 u16_u32 u32_u64 : ints.

Lemma wrap_wrap w x : wrap w (wrap w x) = wrap w x.
Proof. unfold wrap. apply Zmod_mod. Qed.

Lemma wrap_add_l w x y : wrap w (wrap w x + y) = wrap w (x + y).
Proof. unfold wrap. apply Zplus_mod_idemp_l. Qed.

Lemma wrap_0 w : wrap w 0 = 0.
Proof. unfold wrap. by apply Zmod_0_l. Qed.

#[export] Hint Resolve wrap_is_u : ints.
#[export] Hint Extern 1 (_ <= _) => lia : ints.
#[export] Hint Extern 1 (_ < _) => lia : ints.

(** A [size_t] difference that does not go below zero. *)
Lemma size_sub_small a n : 0 <= n <= a -> a <= SIZE_MAX -> size_wrap (a - n) = a - n.
Proof. unfold SIZE_MAX. intros. apply wrap_small. unfold is_u. lia. Qed.

Lemma land_ones_is_u w x : 0 <= w -> is_u w (Z.land x (Z.ones w)).
Proof. intros Hw. rewrite Z.land_ones by done. by apply wrap_is_u. Qed.

(** Shifted fields do not overlap, so or-ing them is adding them. *)
Lemma lor_shiftl_add hi lo k :
  0 <= k -> 0 <= lo < 2 ^ k -> Z.lor (Z.shiftl hi k) lo = hi * 2 ^ k + lo.
Proof.
  intros Hk Hlo. rewrite <- Z.add_nocarry_lor.
  { by rewrite Z.shiftl_mul_pow2. }
  apply Z.bits_inj'. intros n Hn. rewrite Z.land_spec, Z.bits_0.
  destruct (decide (n < k)) as [Hlt|Hge].
  - by rewrite Z.shiftl_spec_low.
  - rewrite <- (Z.mod_small lo (2 ^ k)) by done.
    rewrite Z.mod_pow2_bits_high by lia. apply andb_false_r.
Qed.

Lemma shiftr_byte_is_u x w n : 0 <= n <= w -> is_u w x -> is_u (w - n) (Z.shiftr x n).
Proof.
  unfold is_u. intros Hn [H0 H1]. rewrite Z.shiftr_div_pow2 by lia. split.
  - apply Z.div_pos; [done|]. apply Z.pow_pos_nonneg; lia.
  - apply Z.div_lt_upper_bound; [apply Z.pow_pos_nonneg; lia|].
    rewrite <- Z.pow_add_r by lia. by replace (n + (w - n)) with w by lia.
Qed.

(** ** Lemmas on checked memory *)
Lemma byte_at_Some m i :
  0 <= i < Z.of_nat (length m) -> Forall is_byte m ->
  exists b, byte_at m i = Some b /\ is_byte b.
Proof.
  intros Hi Hm. unfold byte_at. rewrite decide_True by lia.
  destruct (lookup_lt_is_Some_2 m (Z.to_nat i)) as [b Hb]; [lia|].
  exists b. split; [done|]. by eapply Forall_lookup_1.
Qed.

Lemma byte_at_inv m i b :
  byte_at m i = Some b -> 0 <= i < Z.of_nat (length m).
Proof.
  unfold byte_at. case_decide; [|done]. intros Hb.
  apply lookup_lt_Some in Hb. lia.
Qed.

Lemma byte_at_take m k i :
  i < Z.of_nat k -> byte_at (take k m) i = byte_at m i.
Proof.
  intros Hi. unfold byte_at. case_decide; [|done]. apply lookup_take_lt. lia.
Qed.

Lemma bytes_at_Some m i n :
  0 <= i -> 0 <= n -> i + n <= Z.of_nat (length m) -> Forall is_byte m ->
  exists l, bytes_at m i n = Some l /\ length l = Z.to_nat n /\ Forall is_byte l.
Proof.
  intros Hi Hn Hle Hm. unfold bytes_at. rewrite decide_True by done.
  eexists. split; [done|]. split.
  - rewrite length_take, length_drop. lia.
  - by apply Forall_take, Forall_drop.
Qed.

Lemma bytes_at_take m k i n :
  i + n <= Z.of_nat k -> Z.of_nat k <= Z.of_nat (length m) ->
  bytes_at (take k m) i n = bytes_at m i n.
Proof.
  intros Hk Hm. unfold bytes_at. rewrite length_take.
  case_decide; case_decide; try lia; [|done].
  f_equal. rewrite skipn_firstn_comm, take_take. f_equal. lia.
Qed.

Lemma length_overwrite dst src :
  (length src <= length dst)%nat -> length (overwrite dst src) = length dst.
Proof. intros H. unfold overwrite. rewrite length_app, length_drop. lia. Qed.

Lemma overwrite_full dst src : length src = length dst -> overwrite dst src = src.
Proof. intros H. unfold overwrite. by rewrite drop_ge, app_nil_r by lia. Qed.

Lemma Forall_overwrite P dst src :
  Forall P dst -> Forall P src -> Forall P (overwrite dst src).
Proof. intros Hd Hs. apply Forall_app. split; [done|by apply Forall_drop]. Qed.

Lemma zero_bytes n : Forall is_byte (replicate n 0).
Proof. apply Forall_replicate. unfold is_u. simpl. lia. Qed.

Lemma memcmp_refl a : memcmp a a = 0.
Proof. induction a as [|x a IH]; simpl; [done|]. by rewrite Z.eqb_refl. Qed.

Lemma memcmp_eq a b : length a = length b -> memcmp a b = 0 <-> a = b.
Proof.
  revert b. induction a as [|x a IH]; intros [|y b] Hl; simpl in *; try done; try lia.
  injection Hl as Hl. destruct (Z.eqb_spec x y) as [->|Hne].
  - rewrite IH by done. split; congruence.
  - split; [by destruct (x <? y)|congruence].
Qed.

Lemma memcmp_sign a b : length a = length b -> memcmp b a = - memcmp a b.
Proof.
  revert b. induction a as [|x a IH]; intros [|y b] Hl; simpl in *; try done; try lia.
  injection Hl as Hl. rewrite Z.eqb_sym. destruct (Z.eqb_spec x y); [by apply IH|].
  destruct (Z.ltb_spec x y), (Z.ltb_spec y x); lia.
Qed.

Lemma memcmp_trans a b c :
  length a = length b -> length b = length c ->
  memcmp a b <= 0 -> memcmp b c <= 0 -> memcmp a c <= 0.
Proof.
  revert b c. induction a as [|x a IH]; intros [|y b] [|z c] H1 H2; simpl in *; try (done || lia).
  injection H1 as H1. injection H2 as H2.
  destruct (Z.eqb_spec x y), (Z.eqb_spec y z), (Z.eqb_spec x z); try congruence;
    try (by eapply IH);
    destruct (Z.ltb_spec x y), (Z.ltb_spec y z), (Z.ltb_spec x z); lia.
Qed.
