(* ===== verification/Bytes.v ===== *)
(** Byte-order-explicit loads (src/bytes.h) and the FNV-1a hash (src/hash.h).

    A load takes the buffer and the offset its pointer argument stands for, and
    is [None] when one of its bytes is outside the buffer. *)
From S2P Require Export Prelude.

Section Loads.
Context (m : bytes).

Definition load_be16 (p : Z) : option Z :=
  b0 ← byte_at m p; b1 ← byte_at m (p + 1);
  Some (u16 (Z.lor (Z.shiftl b0 8) b1)).

Definition load_le16 (p : Z) : option Z :=
  b0 ← byte_at m p; b1 ← byte_at m (p + 1);
  Some (u16 (Z.lor (Z.shiftl b1 8) b0)).

Definition load_be32 (p : Z) : option Z :=
  b0 ← byte_at m p; b1 ← byte_at m (p + 1);
  b2 ← byte_at m (p + 2); b3 ← byte_at m (p + 3);
  Some (Z.lor (Z.lor (Z.lor (u32 (Z.shiftl b0 24)) (u32 (Z.shiftl b1 16)))
                     (u32 (Z.shiftl b2 8))) b3).

Definition load_le32 (p : Z) : option Z :=
  b0 ← byte_at m p; b1 ← byte_at m (p + 1);
  b2 ← byte_at m (p + 2); b3 ← byte_at m (p + 3);
  Some (Z.lor (Z.lor (Z.lor (u32 (Z.shiftl b3 24)) (u32 (Z.shiftl b2 16)))
                     (u32 (Z.shiftl b1 8))) b0).
End Loads.

Definition FNV64_OFFSET : Z := 0xcbf29ce484222325.
Definition FNV64_PRIME : Z := 0x100000001b3.

(** The loop of [fnv1a]: [h ^= p[i]; h *= FNV64_PRIME;] on a [uint64_t]. *)
Fixpoint fnv1a (h : Z) (p : bytes) : Z :=
  match p with
  | [] => h
  | b :: p' => fnv1a (u64 (Z.lxor h b * FNV64_PRIME)) p'
  end.

(** ** Arithmetic meaning of the loads *)
Definition be16 (b0 b1 : Z) : Z := b0 * 256 + b1.
Definition be32 (b0 b1 b2 b3 : Z) : Z := ((b0 * 256 + b1) * 256 + b2) * 256 + b3.

Lemma be16_is_u b0 b1 : is_byte b0 -> is_byte b1 -> is_u 16 (be16 b0 b1).
Proof. unfold be16, is_u. simpl. lia. Qed.

Lemma be32_is_u b0 b1 b2 b3 :
  is_byte b0 -> is_byte b1 -> is_byte b2 -> is_byte b3 -> is_u 32 (be32 b0 b1 b2 b3).
Proof. unfold be32, is_u. simpl. lia. Qed.
#[export] Hint Resolve be16_is_u be32_is_u : ints.

Lemma lor16 b0 b1 :
  is_byte b0 -> is_byte b1 -> u16 (Z.lor (Z.shiftl b0 8) b1) = be16 b0 b1.
Proof.
  intros H0 H1. rewrite lor_shiftl_add by (unfold is_u in *; lia).
  apply wrap_small. by apply be16_is_u.
Qed.

Lemma lor32 b0 b1 b2 b3 :
  is_byte b0 -> is_byte b1 -> is_byte b2 -> is_byte b3 ->
  Z.lor (Z.lor (Z.lor (u32 (Z.shiftl b0 24)) (u32 (Z.shiftl b1 16)))
               (u32 (Z.shiftl b2 8))) b3 = be32 b0 b1 b2 b3.
Proof.
  unfold is_u. intros H0 H1 H2 H3.
  assert (E : forall b k, 0 <= b < 2 ^ 8 -> 0 <= k <= 24 ->
              u32 (Z.shiftl b k) = Z.shiftl b k).
  { intros b k Hb Hk. apply wrap_small. unfold is_u.
    rewrite Z.shiftl_mul_pow2 by lia.
    assert (0 < 2 ^ k <= 2 ^ 24).
    { split; [apply Z.pow_pos_nonneg; lia|apply Z.pow_le_mono_r; lia]. }
    simpl in *. nia. }
  rewrite !E by lia.
  replace (Z.shiftl b0 24) with (Z.shiftl (Z.shiftl (Z.shiftl b0 8) 8) 8)
    by (by rewrite !Z.shiftl_shiftl by lia).
  replace (Z.shiftl b1 16) with (Z.shiftl (Z.shiftl b1 8) 8)
    by (by rewrite !Z.shiftl_shiftl by lia).
  rewrite <- !Z.shiftl_lor, !lor_shiftl_add by lia. unfold be32. simpl. lia.
Qed.

Lemma load_be16_bytes m p b0 b1 :
  byte_at m p = Some b0 -> byte_at m (p + 1) = Some b1 ->
  is_byte b0 -> is_byte b1 -> load_be16 m p = Some (be16 b0 b1).
Proof. intros E0 E1 ??. unfold load_be16. rewrite E0, E1. simpl. by rewrite lor16. Qed.

Lemma load_le16_bytes m p b0 b1 :
  byte_at m p = Some b0 -> byte_at m (p + 1) = Some b1 ->
  is_byte b0 -> is_byte b1 -> load_le16 m p = Some (be16 b1 b0).
Proof. intros E0 E1 ??. unfold load_le16. rewrite E0, E1. simpl. by rewrite lor16. Qed.

Lemma load_be32_bytes m p b0 b1 b2 b3 :
  byte_at m p = Some b0 -> byte_at m (p + 1) = Some b1 ->
  byte_at m (p + 2) = Some b2 -> byte_at m (p + 3) = Some b3 ->
  is_byte b0 -> is_byte b1 -> is_byte b2 -> is_byte b3 ->
  load_be32 m p = Some (be32 b0 b1 b2 b3).
Proof.
  intros E0 E1 E2 E3 ????. unfold load_be32. rewrite E0, E1, E2, E3. simpl.
  by rewrite lor32.
Qed.

Lemma load_le32_bytes m p b0 b1 b2 b3 :
  byte_at m p = Some b0 -> byte_at m (p + 1) = Some b1 ->
  byte_at m (p + 2) = Some b2 -> byte_at m (p + 3) = Some b3 ->
  is_byte b0 -> is_byte b1 -> is_byte b2 -> is_byte b3 ->
  load_le32 m p = Some (be32 b3 b2 b1 b0).
Proof.
  intros E0 E1 E2 E3 ????. unfold load_le32. rewrite E0, E1, E2, E3. simpl.
  by rewrite lor32.
Qed.

(** Inside a buffer of bytes every load succeeds with a value of its width. *)
Section InBounds.
Context (m : bytes) (Hm : Forall is_byte m).

Ltac load_tac :=
  intros; repeat (match goal with
  | |- context [byte_at m ?i] =>
      let b := fresh "b" in let E := fresh "E" in let H := fresh "H" in
      destruct (byte_at_Some m i) as (b & E & H); [lia|done|]; rewrite E; simpl
  end).

Lemma load_be16_Some p :
  0 <= p -> p + 2 <= Z.of_nat (length m) ->
  exists v, load_be16 m p = Some v /\ is_u 16 v.
Proof. unfold load_be16. load_tac. eexists. split; [done|]. auto with ints. Qed.

Lemma load_le16_Some p :
  0 <= p -> p + 2 <= Z.of_nat (length m) ->
  exists v, load_le16 m p = Some v /\ is_u 16 v.
Proof. unfold load_le16. load_tac. eexists. split; [done|]. auto with ints. Qed.

Lemma load_be32_Some p :
  0 <= p -> p + 4 <= Z.of_nat (length m) ->
  exists v, load_be32 m p = Some v /\ is_u 32 v.
Proof.
  unfold load_be32. load_tac. eexists. split; [done|].
  rewrite lor32 by done. auto with ints.
Qed.

Lemma load_le32_Some p :
  0 <= p -> p + 4 <= Z.of_nat (length m) ->
  exists v, load_le32 m p = Some v /\ is_u 32 v.
Proof.
  unfold load_le32. load_tac. eexists. split; [done|].
  rewrite lor32 by done. auto with ints.
Qed.
End InBounds.

(** ** The hash *)
Lemma fnv1a_app h a b : fnv1a (fnv1a h a) b = fnv1a h (a ++ b).
Proof. revert h. induction a as [|x a IH]; intros h; simpl; [done|]. apply IH. Qed.

Lemma fnv1a_is_u h p : is_u 64 h -> is_u 64 (fnv1a h p).
Proof.
  revert h. induction p as [|b p IH]; intros h Hh; simpl; [done|].
  apply IH. auto with ints.
Qed.
#[export] Hint Resolve fnv1a_is_u : ints.

Lemma FNV64_OFFSET_is_u : is_u 64 FNV64_OFFSET.
Proof. done. Qed.
#[export] Hint Resolve FNV64_OFFSET_is_u : ints.
