(* ===== verification/Decode.v ===== *)
(** The frame decoder: Ethernet, VLAN, IPv4, IPv6, TCP, UDP, ICMP and GTP-U
    (src/decode.h, src/decode.c).  Definitions only; [DecodeSafe],
    [DecodeProps], [DecodeMono] and [DecodeLocal] hold the theorems.

    The frame is a buffer [buf]; [span.p] is an offset into it.  A decoder is a
    computation over the state (the span and the [packet_info] under
    construction) that yields a [decode_status], or [None] when the C code would
    read or point outside the frame, or when a loop ran out of fuel. *)
From Stdlib Require Import String.
From S2P Require Export Bytes.

(** ** Constants *)
Definition DECODE_MAX_VLANS := 2.
Definition ETHERTYPE_IPV4 := 0x0800.
Definition ETHERTYPE_ARP := 0x0806.
Definition ETHERTYPE_VLAN := 0x8100.
Definition ETHERTYPE_QINQ := 0x88A8.
Definition ETHERTYPE_QINQ_LEGACY := 0x9100.
Definition ETHERTYPE_IPV6 := 0x86DD.
Definition IPPROTO_NUM_ICMP := 1.
Definition IPPROTO_NUM_TCP := 6.
Definition IPPROTO_NUM_UDP := 17.
Definition IPPROTO_NUM_ICMPV6 := 58.
Definition GTPU_PORT := 2152.
Definition GTPU_FLAG_PT := 0x10.
Definition GTPU_FLAG_E := 0x04.
Definition GTPU_FLAG_S := 0x02.
Definition GTPU_FLAG_PN := 0x01.
Definition GTPU_MSG_ECHO_REQUEST := 1.
Definition GTPU_MSG_ECHO_RESPONSE := 2.
Definition GTPU_MSG_ERROR_INDICATION := 26.
Definition GTPU_MSG_END_MARKER := 254.
Definition GTPU_MSG_GPDU := 255.
Definition GTPU_MAX_EXT_HEADERS := 16.

Definition ETH_HDR_LEN := 14.
Definition VLAN_TAG_LEN := 4.
Definition IPV4_MIN_HDR := 20.
Definition IPV6_HDR_LEN := 40.
Definition IPV6_FRAG_LEN := 8.
Definition TCP_MIN_HDR := 20.
Definition UDP_HDR_LEN := 8.
Definition ICMP_MIN_HDR := 4.
Definition GTPU_HDR_LEN := 8.
Definition GTPU_OPT_LEN := 4.
Definition IP6_EXT_HOPOPTS := 0.
Definition IP6_EXT_ROUTING := 43.
Definition IP6_EXT_FRAGMENT := 44.
Definition IP6_EXT_DSTOPTS := 60.
Definition IPV6_MAX_EXT_HEADERS := 8.

(** ** Data *)
Inductive decode_status :=
| DEC_OK
| DEC_TRUNC_ETHERNET | DEC_TRUNC_VLAN | DEC_TRUNC_IPV4 | DEC_TRUNC_IPV6
| DEC_TRUNC_IPV6_EXT | DEC_TRUNC_TCP | DEC_TRUNC_UDP | DEC_TRUNC_ICMP
| DEC_TRUNC_GTPU | DEC_TRUNC_GTPU_EXT | DEC_TRUNC_GTPU_INNER
| DEC_BAD_SHORT_FRAME | DEC_BAD_VLAN_DEPTH | DEC_BAD_IPV4_VERSION
| DEC_BAD_IPV4_IHL | DEC_BAD_IPV4_TOTAL_LEN | DEC_BAD_IPV6_VERSION
| DEC_BAD_IPV6_PAYLOAD_LEN | DEC_BAD_IPV6_EXT | DEC_BAD_L4_LEN
| DEC_BAD_TCP_DOFF | DEC_BAD_UDP_LEN | DEC_BAD_GTPU_LEN
| DEC_BAD_GTPU_EXT_LEN | DEC_BAD_GTPU_EXT | DEC_BAD_GTPU_INNER
| DEC_BAD_GTPU_INNER_SHORT
| DEC_STATUS_COUNT.

(** The value of an enumerator: its position in the declaration. *)
Definition status_val (s : decode_status) : Z :=
  match s with
  | DEC_OK => 0
  | DEC_TRUNC_ETHERNET => 1 | DEC_TRUNC_VLAN => 2 | DEC_TRUNC_IPV4 => 3
  | DEC_TRUNC_IPV6 => 4 | DEC_TRUNC_IPV6_EXT => 5 | DEC_TRUNC_TCP => 6
  | DEC_TRUNC_UDP => 7 | DEC_TRUNC_ICMP => 8 | DEC_TRUNC_GTPU => 9
  | DEC_TRUNC_GTPU_EXT => 10 | DEC_TRUNC_GTPU_INNER => 11
  | DEC_BAD_SHORT_FRAME => 12 | DEC_BAD_VLAN_DEPTH => 13
  | DEC_BAD_IPV4_VERSION => 14 | DEC_BAD_IPV4_IHL => 15
  | DEC_BAD_IPV4_TOTAL_LEN => 16 | DEC_BAD_IPV6_VERSION => 17
  | DEC_BAD_IPV6_PAYLOAD_LEN => 18 | DEC_BAD_IPV6_EXT => 19
  | DEC_BAD_L4_LEN => 20 | DEC_BAD_TCP_DOFF => 21 | DEC_BAD_UDP_LEN => 22
  | DEC_BAD_GTPU_LEN => 23 | DEC_BAD_GTPU_EXT_LEN => 24 | DEC_BAD_GTPU_EXT => 25
  | DEC_BAD_GTPU_INNER => 26 | DEC_BAD_GTPU_INNER_SHORT => 27
  | DEC_STATUS_COUNT => 28
  end.

#[export] Instance decode_status_eq_dec : EqDecision decode_status.
Proof. solve_decision. Defined.

Inductive frag_kind := FRAG_NONE | FRAG_FIRST | FRAG_LATER.

#[export] Instance frag_kind_eq_dec : EqDecision frag_kind.
Proof. solve_decision. Defined.

(** [struct packet_info].  The 0/1 bytes are booleans; the two address arrays
    have 16 elements and [vlan_ids] has [DECODE_MAX_VLANS]. *)
Record packet_info := Packet_info {
  pi_status : decode_status;
  pi_has_l2 : bool;
  pi_has_l3 : bool;
  pi_has_l4 : bool;
  pi_ethertype : Z;
  pi_vlan_count : Z;
  pi_vlan_ids : list Z;
  pi_ip_version : Z;
  pi_ip_proto : Z;
  pi_src_addr : bytes;
  pi_dst_addr : bytes;
  pi_frag : frag_kind;
  pi_frag_id : Z;
  pi_src_port : Z;
  pi_dst_port : Z;
  pi_tcp_flags : Z;
  pi_icmp_type : Z;
  pi_icmp_code : Z;
  pi_is_gtpu : bool;
  pi_gtp_status : decode_status;
  pi_gtp_v1u : bool;
  pi_gtp_flags : Z;
  pi_gtp_msg_type : Z;
  pi_gtp_msg_ok : bool;
  pi_gtp_seq : Z;
  pi_teid : Z;
  pi_gtp_ext_count : Z;
  pi_has_inner : bool;
  pi_inner_has_l4 : bool;
  pi_gtp_nested : bool;
  pi_inner_version : Z;
  pi_inner_proto : Z;
  pi_inner_src : bytes;
  pi_inner_dst : bytes;
  pi_inner_src_port : Z;
  pi_inner_dst_port : Z
}.

#[export] Instance packet_info_eta : Eta packet_info := fun r =>
  Packet_info (r.(pi_status)) (r.(pi_has_l2)) (r.(pi_has_l3)) (r.(pi_has_l4))
    (r.(pi_ethertype)) (r.(pi_vlan_count)) (r.(pi_vlan_ids)) (r.(pi_ip_version))
    (r.(pi_ip_proto)) (r.(pi_src_addr)) (r.(pi_dst_addr)) (r.(pi_frag))
    (r.(pi_frag_id)) (r.(pi_src_port)) (r.(pi_dst_port)) (r.(pi_tcp_flags))
    (r.(pi_icmp_type)) (r.(pi_icmp_code)) (r.(pi_is_gtpu)) (r.(pi_gtp_status))
    (r.(pi_gtp_v1u)) (r.(pi_gtp_flags)) (r.(pi_gtp_msg_type)) (r.(pi_gtp_msg_ok))
    (r.(pi_gtp_seq)) (r.(pi_teid)) (r.(pi_gtp_ext_count)) (r.(pi_has_inner))
    (r.(pi_inner_has_l4)) (r.(pi_gtp_nested)) (r.(pi_inner_version))
    (r.(pi_inner_proto)) (r.(pi_inner_src)) (r.(pi_inner_dst)) (r.(pi_inner_src_port))
    (r.(pi_inner_dst_port)).

#[export] Instance set_pi_status : Setter pi_status. Proof. solve_setter. Defined.
#[export] Instance set_pi_has_l2 : Setter pi_has_l2. Proof. solve_setter. Defined.
#[export] Instance set_pi_has_l3 : Setter pi_has_l3. Proof. solve_setter. Defined.
#[export] Instance set_pi_has_l4 : Setter pi_has_l4. Proof. solve_setter. Defined.
#[export] Instance set_pi_ethertype : Setter pi_ethertype. Proof. solve_setter. Defined.
#[export] Instance set_pi_vlan_count : Setter pi_vlan_count. Proof. solve_setter. Defined.
#[export] Instance set_pi_vlan_ids : Setter pi_vlan_ids. Proof. solve_setter. Defined.
#[export] Instance set_pi_ip_version : Setter pi_ip_version. Proof. solve_setter. Defined.
#[export] Instance set_pi_ip_proto : Setter pi_ip_proto. Proof. solve_setter. Defined.
#[export] Instance set_pi_src_addr : Setter pi_src_addr. Proof. solve_setter. Defined.
#[export] Instance set_pi_dst_addr : Setter pi_dst_addr. Proof. solve_setter. Defined.
#[export] Instance set_pi_frag : Setter pi_frag. Proof. solve_setter. Defined.
#[export] Instance set_pi_frag_id : Setter pi_frag_id. Proof. solve_setter. Defined.
#[export] Instance set_pi_src_port : Setter pi_src_port. Proof. solve_setter. Defined.
#[export] Instance set_pi_dst_port : Setter pi_dst_port. Proof. solve_setter. Defined.
#[export] Instance set_pi_tcp_flags : Setter pi_tcp_flags. Proof. solve_setter. Defined.
#[export] Instance set_pi_icmp_type : Setter pi_icmp_type. Proof. solve_setter. Defined.
#[export] Instance set_pi_icmp_code : Setter pi_icmp_code. Proof. solve_setter. Defined.
#[export] Instance set_pi_is_gtpu : Setter pi_is_gtpu. Proof. solve_setter. Defined.
#[export] Instance set_pi_gtp_status : Setter pi_gtp_status. Proof. solve_setter. Defined.
#[export] Instance set_pi_gtp_v1u : Setter pi_gtp_v1u. Proof. solve_setter. Defined.
#[export] Instance set_pi_gtp_flags : Setter pi_gtp_flags. Proof. solve_setter. Defined.
#[export] Instance set_pi_gtp_msg_type : Setter pi_gtp_msg_type. Proof. solve_setter. Defined.
#[export] Instance set_pi_gtp_msg_ok : Setter pi_gtp_msg_ok. Proof. solve_setter. Defined.
#[export] Instance set_pi_gtp_seq : Setter pi_gtp_seq. Proof. solve_setter. Defined.
#[export] Instance set_pi_teid : Setter pi_teid. Proof. solve_setter. Defined.
#[export] Instance set_pi_gtp_ext_count : Setter pi_gtp_ext_count. Proof. solve_setter. Defined.
#[export] Instance set_pi_has_inner : Setter pi_has_inner. Proof. solve_setter. Defined.
#[export] Instance set_pi_inner_has_l4 : Setter pi_inner_has_l4. Proof. solve_setter. Defined.
#[export] Instance set_pi_gtp_nested : Setter pi_gtp_nested. Proof. solve_setter. Defined.
#[export] Instance set_pi_inner_version : Setter pi_inner_version. Proof. solve_setter. Defined.
#[export] Instance set_pi_inner_proto : Setter pi_inner_proto. Proof. solve_setter. Defined.
#[export] Instance set_pi_inner_src : Setter pi_inner_src. Proof. solve_setter. Defined.
#[export] Instance set_pi_inner_dst : Setter pi_inner_dst. Proof. solve_setter. Defined.
#[export] Instance set_pi_inner_src_port : Setter pi_inner_src_port. Proof. solve_setter. Defined.
#[export] Instance set_pi_inner_dst_port : Setter pi_inner_dst_port. Proof. solve_setter. Defined.

(** [memset(pi, 0, sizeof *pi)] *)
Definition packet_info_zero : packet_info :=
  {| pi_status := DEC_OK; pi_has_l2 := false; pi_has_l3 := false;
     pi_has_l4 := false; pi_ethertype := 0; pi_vlan_count := 0;
     pi_vlan_ids := [0; 0]; pi_ip_version := 0; pi_ip_proto := 0;
     pi_src_addr := replicate 16 0; pi_dst_addr := replicate 16 0;
     pi_frag := FRAG_NONE; pi_frag_id := 0; pi_src_port := 0; pi_dst_port := 0;
     pi_tcp_flags := 0; pi_icmp_type := 0; pi_icmp_code := 0;
     pi_is_gtpu := false; pi_gtp_status := DEC_OK; pi_gtp_v1u := false;
     pi_gtp_flags := 0; pi_gtp_msg_type := 0; pi_gtp_msg_ok := false;
     pi_gtp_seq := 0; pi_teid := 0; pi_gtp_ext_count := 0;
     pi_has_inner := false; pi_inner_has_l4 := false; pi_gtp_nested := false;
     pi_inner_version := 0; pi_inner_proto := 0;
     pi_inner_src := replicate 16 0; pi_inner_dst := replicate 16 0;
     pi_inner_src_port := 0; pi_inner_dst_port := 0 |}.

(** ** Spans *)
Record span := Span { sp_p : Z; sp_cap : Z; sp_wire : Z }.

Definition need (s : span) (n : Z) (truncated malformed : decode_status)
  : decode_status :=
  if n <=? sp_cap s then DEC_OK
  else if n <=? sp_wire s then truncated else malformed.

Definition advance (s : span) (n : Z) : span :=
  Span (sp_p s + n) (size_wrap (sp_cap s - n)) (size_wrap (sp_wire s - n)).

Definition clip (s : span) (len : Z) : span :=
  Span (sp_p s) (if sp_cap s >? len then len else sp_cap s) len.

(** ** The decoder monad *)
Record dstate := DState { ds_span : span; ds_pi : packet_info }.

Definition D (A : Type) : Type := dstate -> option (A * dstate).

#[export] Instance D_ret : MRet D := fun A a d => Some (a, d).
#[export] Instance D_bind : MBind D := fun A B k m d =>
  match m d with Some (a, d') => k a d' | None => None end.

Definition get_span : D span := fun d => Some (ds_span d, d).
Definition get_pi : D packet_info := fun d => Some (ds_pi d, d).
Definition set_span (s : span) : D unit := fun d => Some (tt, DState s (ds_pi d)).
Definition modify_pi (f : packet_info -> packet_info) : D unit :=
  fun d => Some (tt, DState (ds_span d) (f (ds_pi d))).
Definition lift {A} (o : option A) : D A :=
  fun d => match o with Some a => Some (a, d) | None => None end.

(** [pi->field = v;] *)
Notation "'SET' p ':=' v ';;' k" :=
  (mbind (fun _ : unit => k) (modify_pi (update p (fun _ => v))))
  (at level 100, p at level 9, v at level 99, k at level 200, right associativity).

(** [if (c) return r;] *)
Notation "'RETURN_IF' c 'WITH' r ';;' k" :=
  (if c then mret r else k)
  (at level 100, c at level 99, r at level 99, k at level 200, right associativity).

Definition status_eqb (a b : decode_status) : bool := bool_decide (a = b).

Definition do_need (n : Z) (truncated malformed : decode_status) : D decode_status :=
  s ← get_span; mret (need s n truncated malformed).

(** [st = need(s, n, t, m); if (st != DEC_OK) return st;], in a function that
    returns a status and in a loop body that may return from its function. *)
Notation "'NEED' n t m ';;' k" :=
  (mbind (fun st : decode_status =>
            RETURN_IF negb (status_eqb st DEC_OK) WITH st;; k) (do_need n t m))
  (at level 100, n at level 9, t at level 9, m at level 9, k at level 200,
   right associativity).
Notation "'NEED_IN_LOOP' n t m ';;' k" :=
  (mbind (fun st : decode_status =>
            RETURN_IF negb (status_eqb st DEC_OK) WITH inl st;; k) (do_need n t m))
  (at level 100, n at level 9, t at level 9, m at level 9, k at level 200,
   right associativity).

Definition is_ipv6_ext (next : Z) : bool :=
  (next =? IP6_EXT_HOPOPTS) || (next =? IP6_EXT_ROUTING) ||
  (next =? IP6_EXT_FRAGMENT) || (next =? IP6_EXT_DSTOPTS).

Definition decode_is_gtpu_port (pi : packet_info) : bool :=
  pi_has_l4 pi && (pi_ip_proto pi =? IPPROTO_NUM_UDP) &&
  ((pi_src_port pi =? GTPU_PORT) || (pi_dst_port pi =? GTPU_PORT)).

Definition is_vlan_type (type : Z) : bool :=
  (type =? ETHERTYPE_VLAN) || (type =? ETHERTYPE_QINQ) ||
  (type =? ETHERTYPE_QINQ_LEGACY).

(** [pi->vlan_ids[i] = v]; the array has [DECODE_MAX_VLANS] elements. *)
Definition store_vlan (i v : Z) : D unit :=
  pi ← get_pi;
  if (0 <=? i) && (i <? Z.of_nat (length (pi_vlan_ids pi)))
  then modify_pi (update pi_vlan_ids (fun ids => <[Z.to_nat i := v]> ids))
  else fun _ => None.

(** ** The decoders *)
Section Frame.
Context (buf : bytes).

(** [s->p[i]], [load_be16(s->p + i)], [load_be32(s->p + i)] and the [n] bytes
    at [s->p + i]. *)
Definition rd (i : Z) : D Z := s ← get_span; lift (byte_at buf (sp_p s + i)).
Definition rd16 (i : Z) : D Z := s ← get_span; lift (load_be16 buf (sp_p s + i)).
Definition rd32 (i : Z) : D Z := s ← get_span; lift (load_be32 buf (sp_p s + i)).
Definition rdn (i n : Z) : D bytes :=
  s ← get_span; lift (bytes_at buf (sp_p s + i) n).

(** [advance(s, n)]; the new pointer must stay inside the frame or one past
    its end, as C requires. *)
Definition do_advance (n : Z) : D unit :=
  s ← get_span;
  if (0 <=? sp_p s + n) && (sp_p s + n <=? Z.of_nat (length buf))
  then set_span (advance s n) else fun _ => None.
Definition do_clip (len : Z) : D unit := s ← get_span; set_span (clip s len).

Definition decode_tcp : D decode_status :=
  NEED TCP_MIN_HDR DEC_TRUNC_TCP DEC_BAD_L4_LEN;;
  sport ← rd16 0; SET pi_src_port := sport;;
  dport ← rd16 2; SET pi_dst_port := dport;;
  flags ← rd 13; SET pi_tcp_flags := flags;;
  b12 ← rd 12;
  let hlen := Z.shiftr b12 4 * 4 in
  s ← get_span;
  RETURN_IF (hlen <? TCP_MIN_HDR) || (hlen >? sp_wire s) WITH DEC_BAD_TCP_DOFF;;
  RETURN_IF hlen >? sp_cap s WITH DEC_TRUNC_TCP;;
  SET pi_has_l4 := true;;
  mret DEC_OK.

Definition decode_udp : D decode_status :=
  NEED UDP_HDR_LEN DEC_TRUNC_UDP DEC_BAD_L4_LEN;;
  sport ← rd16 0; SET pi_src_port := sport;;
  dport ← rd16 2; SET pi_dst_port := dport;;
  ulen ← rd16 4;
  s ← get_span; pi ← get_pi;
  RETURN_IF (ulen <? UDP_HDR_LEN) ||
            (bool_decide (pi_frag pi = FRAG_NONE) && (ulen >? sp_wire s))
    WITH DEC_BAD_UDP_LEN;;
  _ ← (if bool_decide (pi_frag pi = FRAG_NONE) then do_clip ulen else mret tt);
  SET pi_has_l4 := true;;
  mret DEC_OK.

Definition decode_icmp : D decode_status :=
  NEED ICMP_MIN_HDR DEC_TRUNC_ICMP DEC_BAD_L4_LEN;;
  ty ← rd 0; SET pi_icmp_type := ty;;
  code ← rd 1; SET pi_icmp_code := code;;
  SET pi_has_l4 := true;;
  mret DEC_OK.

(** The [switch] of [decode_l4]; its three cases are the definitions above. *)
Definition decode_l4 : D decode_status :=
  pi ← get_pi;
  if pi_ip_proto pi =? IPPROTO_NUM_TCP then decode_tcp
  else if pi_ip_proto pi =? IPPROTO_NUM_UDP then decode_udp
  else if (pi_ip_proto pi =? IPPROTO_NUM_ICMP) ||
          (pi_ip_proto pi =? IPPROTO_NUM_ICMPV6) then decode_icmp
  else mret DEC_OK.

Definition decode_ipv4 : D decode_status :=
  NEED IPV4_MIN_HDR DEC_TRUNC_IPV4 DEC_BAD_SHORT_FRAME;;
  ip0 ← rd 0;
  RETURN_IF negb (Z.shiftr ip0 4 =? 4) WITH DEC_BAD_IPV4_VERSION;;
  let hlen := Z.land ip0 0x0F * 4 in
  RETURN_IF hlen <? IPV4_MIN_HDR WITH DEC_BAD_IPV4_IHL;;
  tot ← rd16 2;
  s ← get_span;
  let total := if tot =? 0 then sp_wire s else tot in
  RETURN_IF (total <? hlen) || (total >? sp_wire s) WITH DEC_BAD_IPV4_TOTAL_LEN;;
  RETURN_IF hlen >? sp_cap s WITH DEC_TRUNC_IPV4;;
  SET pi_ip_version := 4;;
  proto ← rd 9; SET pi_ip_proto := proto;;
  src ← rdn 12 4; pi ← get_pi; SET pi_src_addr := overwrite (pi_src_addr pi) src;;
  dst ← rdn 16 4; pi ← get_pi; SET pi_dst_addr := overwrite (pi_dst_addr pi) dst;;
  id ← rd16 4; SET pi_frag_id := id;;
  w ← rd16 6;
  let frag_offset := Z.land w 0x1FFF in
  let more_frags := Z.land w 0x2000 in
  _ ← (if negb (frag_offset =? 0)
       then modify_pi (update pi_frag (fun _ => FRAG_LATER))
       else if negb (more_frags =? 0)
       then modify_pi (update pi_frag (fun _ => FRAG_FIRST))
       else mret tt);
  SET pi_has_l3 := true;;
  _ ← do_clip total;
  _ ← do_advance hlen;
  pi ← get_pi;
  RETURN_IF bool_decide (pi_frag pi = FRAG_LATER) WITH DEC_OK;;
  decode_l4.

(** The extension header loop of [decode_ipv6].  [inl st] is a [return st]
    from inside the loop, [inr next] its normal exit. *)
Fixpoint ipv6_ext_loop (fuel : nat) (next hops : Z) : D (decode_status + Z) :=
  match fuel with
  | O => fun _ => None
  | S fuel =>
    if negb (is_ipv6_ext next) then mret (inr next) else
    RETURN_IF hops =? IPV6_MAX_EXT_HEADERS WITH inl DEC_BAD_IPV6_EXT;;
    if next =? IP6_EXT_FRAGMENT then
      NEED_IN_LOOP IPV6_FRAG_LEN DEC_TRUNC_IPV6_EXT DEC_BAD_IPV6_EXT;;
      off_flags ← rd16 2;
      id ← rd32 4; SET pi_frag_id := id;;
      _ ← (if negb (Z.shiftr off_flags 3 =? 0)
           then modify_pi (update pi_frag (fun _ => FRAG_LATER))
           else if negb (Z.land off_flags 1 =? 0)
           then modify_pi (update pi_frag (fun _ => FRAG_FIRST))
           else mret tt);
      next' ← rd 0;
      _ ← do_advance IPV6_FRAG_LEN;
      pi ← get_pi;
      if bool_decide (pi_frag pi = FRAG_LATER) then
        SET pi_ip_proto := u8 next';;
        mret (inl DEC_OK)
      else ipv6_ext_loop fuel next' (hops + 1)
    else
      NEED_IN_LOOP 2 DEC_TRUNC_IPV6_EXT DEC_BAD_IPV6_EXT;;
      b1 ← rd 1;
      let len := (b1 + 1) * 8 in
      NEED_IN_LOOP len DEC_TRUNC_IPV6_EXT DEC_BAD_IPV6_EXT;;
      next' ← rd 0;
      _ ← do_advance len;
      ipv6_ext_loop fuel next' (hops + 1)
  end.

Definition decode_ipv6 : D decode_status :=
  NEED IPV6_HDR_LEN DEC_TRUNC_IPV6 DEC_BAD_SHORT_FRAME;;
  ip0 ← rd 0;
  RETURN_IF negb (Z.shiftr ip0 4 =? 6) WITH DEC_BAD_IPV6_VERSION;;
  payload ← rd16 4;
  s ← get_span;
  RETURN_IF payload >? size_wrap (sp_wire s - IPV6_HDR_LEN)
    WITH DEC_BAD_IPV6_PAYLOAD_LEN;;
  SET pi_ip_version := 6;;
  next ← rd 6;
  src ← rdn 8 16; pi ← get_pi; SET pi_src_addr := overwrite (pi_src_addr pi) src;;
  dst ← rdn 24 16; pi ← get_pi; SET pi_dst_addr := overwrite (pi_dst_addr pi) dst;;
  SET pi_has_l3 := true;;
  _ ← do_advance IPV6_HDR_LEN;
  _ ← do_clip payload;
  r ← ipv6_ext_loop (S (Z.to_nat IPV6_MAX_EXT_HEADERS)) next 0;
  match r with
  | inl st => mret st
  | inr next => SET pi_ip_proto := u8 next;; decode_l4
  end.

(** Run a decoder on a scratch [packet_info], as [decode_gtpu_inner] does with
    its local [in]; the span is shared. *)
Definition with_scratch (m : D decode_status) : D (decode_status * packet_info) :=
  fun d => match m (DState (ds_span d) packet_info_zero) with
           | Some (st, d') => Some ((st, ds_pi d'), DState (ds_span d') (ds_pi d))
           | None => None
           end.

(** The second half of [decode_gtpu_inner]: copy out what was decoded. *)
Definition copy_inner (st : decode_status) (inn : packet_info) : D decode_status :=
  let st := if status_eqb st DEC_BAD_SHORT_FRAME
            then DEC_BAD_GTPU_INNER_SHORT else st in
  _ ← (if pi_has_l3 inn then
         SET pi_has_inner := true;;
         SET pi_inner_version := pi_ip_version inn;;
         SET pi_inner_proto := pi_ip_proto inn;;
         SET pi_inner_src := pi_src_addr inn;;
         SET pi_inner_dst := pi_dst_addr inn;;
         mret tt
       else mret tt);
  _ ← (if pi_has_l4 inn then
         SET pi_inner_has_l4 := true;;
         SET pi_inner_src_port := pi_src_port inn;;
         SET pi_inner_dst_port := pi_dst_port inn;;
         SET pi_gtp_nested := decode_is_gtpu_port inn;;
         mret tt
       else mret tt);
  mret st.

Definition decode_gtpu_inner : D decode_status :=
  NEED 1 DEC_TRUNC_GTPU_INNER DEC_BAD_GTPU_INNER;;
  b0 ← rd 0;
  let v := Z.shiftr b0 4 in
  if v =? 4 then '(st, inn) ← with_scratch decode_ipv4; copy_inner st inn
  else if v =? 6 then '(st, inn) ← with_scratch decode_ipv6; copy_inner st inn
  else mret DEC_BAD_GTPU_INNER.

(** The extension header loop of [decode_gtpu]: [Some st] is a [return st]
    from inside it. *)
Fixpoint gtpu_ext_loop (fuel : nat) (next hops : Z) : D (decode_status + unit) :=
  match fuel with
  | O => fun _ => None
  | S fuel =>
    if next =? 0 then mret (inr tt) else
    RETURN_IF hops =? GTPU_MAX_EXT_HEADERS WITH inl DEC_BAD_GTPU_EXT;;
    NEED_IN_LOOP 1 DEC_TRUNC_GTPU_EXT DEC_BAD_GTPU_EXT;;
    b0 ← rd 0;
    let elen := b0 * 4 in
    RETURN_IF elen =? 0 WITH inl DEC_BAD_GTPU_EXT_LEN;;
    NEED_IN_LOOP elen DEC_TRUNC_GTPU_EXT DEC_BAD_GTPU_EXT;;
    next' ← rd (elen - 1);
    _ ← do_advance elen;
    SET pi_gtp_ext_count := u8 (hops + 1);;
    gtpu_ext_loop fuel next' (hops + 1)
  end.

(** The optional fields of [decode_gtpu]: the type of the first extension
    header, or a [return]. *)
Definition gtpu_opt (flags : Z) : D (decode_status + Z) :=
  if negb (Z.land flags (Z.lor (Z.lor GTPU_FLAG_E GTPU_FLAG_S) GTPU_FLAG_PN) =? 0)
  then
    NEED_IN_LOOP GTPU_OPT_LEN DEC_TRUNC_GTPU DEC_BAD_GTPU_LEN;;
    _ ← (if negb (Z.land flags GTPU_FLAG_S =? 0)
         then seq ← rd16 0; modify_pi (update pi_gtp_seq (fun _ => seq))
         else mret tt);
    next ← (if negb (Z.land flags GTPU_FLAG_E =? 0) then rd 3 else mret 0);
    _ ← do_advance GTPU_OPT_LEN;
    mret (inr next)
  else mret (inr 0).

Definition decode_gtpu : D decode_status :=
  NEED GTPU_HDR_LEN DEC_TRUNC_GTPU DEC_BAD_GTPU_LEN;;
  flags ← rd 0;
  RETURN_IF negb (Z.shiftr flags 5 =? 1) || (Z.land flags GTPU_FLAG_PT =? 0)
    WITH DEC_OK;;
  SET pi_gtp_v1u := true;;
  SET pi_gtp_flags := u8 flags;;
  ty ← rd 1; SET pi_gtp_msg_type := ty;;
  len ← rd16 2;
  teid ← rd32 4; SET pi_teid := teid;;
  s ← get_span;
  RETURN_IF len >? size_wrap (sp_wire s - GTPU_HDR_LEN) WITH DEC_BAD_GTPU_LEN;;
  _ ← do_advance GTPU_HDR_LEN;
  _ ← do_clip len;
  o ← gtpu_opt flags;
  match o with
  | inl st => mret st
  | inr next =>
    r ← gtpu_ext_loop (S (Z.to_nat GTPU_MAX_EXT_HEADERS)) next 0;
    match r with
    | inl st => mret st
    | inr _ =>
      SET pi_gtp_msg_ok := true;;
      pi ← get_pi;
      RETURN_IF negb (pi_gtp_msg_type pi =? GTPU_MSG_GPDU) WITH DEC_OK;;
      decode_gtpu_inner
    end
  end.

(** The VLAN loop of [decode_frame]. *)
Fixpoint vlan_loop (fuel : nat) (type : Z) : D (decode_status + Z) :=
  match fuel with
  | O => fun _ => None
  | S fuel =>
    if negb (is_vlan_type type) then mret (inr type) else
    pi ← get_pi;
    if pi_vlan_count pi =? DECODE_MAX_VLANS then
      SET pi_status := DEC_BAD_VLAN_DEPTH;; mret (inl DEC_BAD_VLAN_DEPTH)
    else
      st ← do_need VLAN_TAG_LEN DEC_TRUNC_VLAN DEC_BAD_SHORT_FRAME;
      SET pi_status := st;;
      RETURN_IF negb (status_eqb st DEC_OK) WITH inl st;;
      w ← rd16 0;
      _ ← store_vlan (pi_vlan_count pi) (Z.land w 0x0FFF);
      SET pi_vlan_count := u8 (pi_vlan_count pi + 1);;
      type' ← rd16 2;
      _ ← do_advance VLAN_TAG_LEN;
      vlan_loop fuel type'
  end.

(** The part of [decode_frame] after the link layer: dispatch on the ethertype,
    then GTP-U once the outer packet has decoded cleanly. *)
Definition decode_network (type : Z) : D decode_status :=
  st ← (if type =? ETHERTYPE_IPV4 then decode_ipv4
        else if type =? ETHERTYPE_IPV6 then decode_ipv6
        else mret DEC_OK);
  SET pi_status := st;;
  pi ← get_pi; s ← get_span;
  if status_eqb (pi_status pi) DEC_OK && bool_decide (pi_frag pi = FRAG_NONE) &&
     decode_is_gtpu_port pi && (sp_wire s >=? UDP_HDR_LEN + GTPU_HDR_LEN)
  then
    SET pi_is_gtpu := true;;
    _ ← do_advance UDP_HDR_LEN;
    gst ← decode_gtpu;
    SET pi_gtp_status := gst;;
    pi ← get_pi; mret (pi_status pi)
  else mret (pi_status pi).

Definition decode_frame_body : D decode_status :=
  st ← do_need ETH_HDR_LEN DEC_TRUNC_ETHERNET DEC_BAD_SHORT_FRAME;
  SET pi_status := st;;
  RETURN_IF negb (status_eqb st DEC_OK) WITH st;;
  type ← rd16 12;
  _ ← do_advance ETH_HDR_LEN;
  r ← vlan_loop (S (Z.to_nat DECODE_MAX_VLANS)) type;
  match r with
  | inl st => mret st
  | inr type =>
    SET pi_ethertype := u16 type;;
    SET pi_has_l2 := true;;
    decode_network type
  end.
End Frame.

(** [decode_frame(frame, caplen, wirelen, pi)]: the returned status and the
    filled [*pi]. *)
Definition decode_frame (frame : bytes) (caplen wirelen : Z)
  : option (decode_status * packet_info) :=
  let s := Span 0 caplen (if wirelen >? caplen then wirelen else caplen) in
  match decode_frame_body frame (DState s packet_info_zero) with
  | Some (st, d) => Some (st, ds_pi d)
  | None => None
  end.

Definition decode_status_is_truncation (s : decode_status) : bool :=
  (status_val s >=? status_val DEC_TRUNC_ETHERNET) &&
  (status_val s <=? status_val DEC_TRUNC_GTPU_INNER).

Local Open Scope string_scope.

Definition decode_status_str (s : decode_status) : string :=
  match s with
  | DEC_OK => "ok"
  | DEC_TRUNC_ETHERNET => "truncated Ethernet header"
  | DEC_TRUNC_VLAN => "truncated VLAN tag"
  | DEC_TRUNC_IPV4 => "truncated IPv4 header"
  | DEC_TRUNC_IPV6 => "truncated IPv6 header"
  | DEC_TRUNC_IPV6_EXT => "truncated IPv6 extension header"
  | DEC_TRUNC_TCP => "truncated TCP header"
  | DEC_TRUNC_UDP => "truncated UDP header"
  | DEC_TRUNC_ICMP => "truncated ICMP header"
  | DEC_TRUNC_GTPU => "truncated GTP-U header"
  | DEC_TRUNC_GTPU_EXT => "truncated GTP-U extension header"
  | DEC_TRUNC_GTPU_INNER => "G-PDU truncated before its IP packet"
  | DEC_BAD_SHORT_FRAME => "frame too short for its headers"
  | DEC_BAD_VLAN_DEPTH => "more than 2 VLAN tags"
  | DEC_BAD_IPV4_VERSION => "IPv4 ethertype with wrong IP version"
  | DEC_BAD_IPV4_IHL => "IPv4 header length < 20"
  | DEC_BAD_IPV4_TOTAL_LEN => "IPv4 total length invalid"
  | DEC_BAD_IPV6_VERSION => "IPv6 ethertype with wrong IP version"
  | DEC_BAD_IPV6_PAYLOAD_LEN => "IPv6 payload length exceeds frame"
  | DEC_BAD_IPV6_EXT => "IPv6 extension header invalid"
  | DEC_BAD_L4_LEN => "IP payload too short for L4 header"
  | DEC_BAD_TCP_DOFF => "TCP data offset invalid"
  | DEC_BAD_UDP_LEN => "UDP length invalid"
  | DEC_BAD_GTPU_LEN => "GTP-U length invalid"
  | DEC_BAD_GTPU_EXT_LEN => "GTP-U extension header length 0"
  | DEC_BAD_GTPU_EXT => "GTP-U extension header invalid"
  | DEC_BAD_GTPU_INNER => "G-PDU payload not IPv4 or IPv6"
  | DEC_BAD_GTPU_INNER_SHORT => "G-PDU payload too short for IP header"
  | DEC_STATUS_COUNT => "unknown"
  end.
