(* ===== verification/DecodeWp.v ===== *)
(** Weakest preconditions for the decoder monad of [Decode]: a rule per
    primitive, and the symbolic execution tactics built on them.  [wp m Q d]
    says that [m] run from [d] has no undefined behaviour, does not run out of
    fuel, and ends in a result that satisfies [Q]. *)
From S2P Require Export Decode.

Definition wp {A} (m : D A) (Q : A -> dstate -> Prop) (d : dstate) : Prop :=
  match m d with Some (a, d') => Q a d' | None => False end.

(** The span invariant of decode.c: [cap <= wire], and the [cap] bytes at [p]
    are inside the buffer. *)
Definition span_ok (buf : bytes) (s : span) : Prop :=
  0 <= sp_p s /\ 0 <= sp_cap s <= sp_wire s /\
  sp_p s + sp_cap s <= Z.of_nat (length buf) /\ sp_wire s <= SIZE_MAX.

(** The whole of the span was captured. *)
Definition complete (s : span) : Prop := sp_cap s = sp_wire s.

Section Rules.
Context {A : Type}.
Implicit Types (Q : A -> dstate -> Prop) (d : dstate).

Lemma wp_ret (a : A) Q d : Q a d -> wp (mret a) Q d.
Proof. done. Qed.

Lemma wp_bind {B} (m : D B) (k : B -> D A) Q d :
  wp m (fun b => wp (k b) Q) d -> wp (m ≫= k) Q d.
Proof. unfold wp, mbind, D_bind. by destruct (m d) as [[b d']|]. Qed.

Lemma wp_mono (m : D A) (P Q : A -> dstate -> Prop) d :
  wp m P d -> (forall a d', P a d' -> Q a d') -> wp m Q d.
Proof. unfold wp. destruct (m d) as [[a d']|]; naive_solver. Qed.

Lemma wp_if (b : bool) (m1 m2 : D A) Q d :
  (b = true -> wp m1 Q d) -> (b = false -> wp m2 Q d) ->
  wp (if b then m1 else m2) Q d.
Proof. by destruct b; intros H1 H2; [apply H1|apply H2]. Qed.

Lemma wp_return_if (b : bool) (r : A) (k : D A) Q d :
  (b = true -> Q r d) -> (b = false -> wp k Q d) ->
  wp (RETURN_IF b WITH r;; k) Q d.
Proof. intros. by apply wp_if. Qed.

(** One rule for both forms of [NEED]: the room test and its early return. *)
Lemma wp_need (f : decode_status -> A) n t m (k : D A) Q s pi :
  t <> DEC_OK -> m <> DEC_OK ->
  (n <= sp_cap s -> wp k Q (DState s pi)) ->
  (sp_cap s < n <= sp_wire s -> Q (f t) (DState s pi)) ->
  (sp_cap s < n -> sp_wire s < n -> Q (f m) (DState s pi)) ->
  wp (mbind (fun st => RETURN_IF negb (status_eqb st DEC_OK) WITH f st;; k)
            (do_need n t m)) Q (DState s pi).
Proof.
  intros Ht Hm Hk HQt HQm. apply wp_bind. unfold wp at 1. simpl.
  unfold need. destruct (Z.leb_spec n (sp_cap s)); [by apply Hk|].
  destruct (Z.leb_spec n (sp_wire s)).
  - unfold status_eqb. rewrite bool_decide_false by done. by apply HQt.
  - unfold status_eqb. rewrite bool_decide_false by done. by apply HQm.
Qed.
End Rules.

(** The same where the status is also stored in [pi->status]. *)
Lemma wp_need_status {A} (f : decode_status -> A) n t m (k : D A) Q s pi :
  t <> DEC_OK -> m <> DEC_OK ->
  (n <= sp_cap s -> wp k Q (DState s (pi <| pi_status := DEC_OK |>))) ->
  (sp_cap s < n <= sp_wire s -> Q (f t) (DState s (pi <| pi_status := t |>))) ->
  (sp_cap s < n -> sp_wire s < n -> Q (f m) (DState s (pi <| pi_status := m |>))) ->
  wp (mbind (fun st => SET pi_status := st;;
                       RETURN_IF negb (status_eqb st DEC_OK) WITH f st;; k)
            (do_need n t m)) Q (DState s pi).
Proof.
  intros Ht Hm Hk HQt HQm. apply wp_bind. unfold wp at 1. simpl.
  unfold need. destruct (Z.leb_spec n (sp_cap s)); [by apply Hk|].
  destruct (Z.leb_spec n (sp_wire s)).
  - unfold status_eqb. rewrite bool_decide_false by done. by apply HQt.
  - unfold status_eqb. rewrite bool_decide_false by done. by apply HQm.
Qed.

(** A store inside the two elements of [vlan_ids]. *)
Lemma wp_store_vlan i v Q s pi :
  0 <= i < Z.of_nat (length (pi_vlan_ids pi)) ->
  Q tt (DState s (pi <| pi_vlan_ids := <[Z.to_nat i := v]> (pi_vlan_ids pi) |>)) ->
  wp (store_vlan i v) Q (DState s pi).
Proof.
  intros Hi HQ. unfold wp, store_vlan, mbind, D_bind, get_pi. simpl.
  destruct (Z.leb_spec 0 i), (Z.ltb_spec i (Z.of_nat (length (pi_vlan_ids pi)))); try lia.
  exact HQ.
Qed.

Lemma wp_get_span Q s pi : Q s (DState s pi) -> wp get_span Q (DState s pi).
Proof. done. Qed.

Lemma wp_get_pi Q s pi : Q pi (DState s pi) -> wp get_pi Q (DState s pi).
Proof. done. Qed.

Lemma wp_modify f Q s pi : Q tt (DState s (f pi)) -> wp (modify_pi f) Q (DState s pi).
Proof. done. Qed.

Lemma wp_do_clip n Q s pi : Q tt (DState (clip s n) pi) -> wp (do_clip n) Q (DState s pi).
Proof. done. Qed.

Section Memory.
Context (buf : bytes) (Hbuf : Forall is_byte buf).
Context (s : span) (Hs : span_ok buf s) (pi : packet_info).

Lemma wp_rd i Q :
  0 <= i < sp_cap s -> (forall b, is_byte b -> Q b (DState s pi)) ->
  wp (rd buf i) Q (DState s pi).
Proof.
  intros Hi HQ. destruct Hs as (?&?&?&?).
  destruct (byte_at_Some buf (sp_p s + i)) as (b & E & Hb); [lia|done|].
  unfold wp, rd, mbind, D_bind, get_span, lift. simpl. rewrite E. by apply HQ.
Qed.

Lemma wp_rd16 i Q :
  0 <= i -> i + 2 <= sp_cap s -> (forall v, is_u 16 v -> Q v (DState s pi)) ->
  wp (rd16 buf i) Q (DState s pi).
Proof.
  intros Hi Hle HQ. destruct Hs as (?&?&?&?).
  destruct (load_be16_Some buf Hbuf (sp_p s + i)) as (v & E & Hv); [lia..|].
  unfold wp, rd16, mbind, D_bind, get_span, lift. simpl. rewrite E. by apply HQ.
Qed.

Lemma wp_rd32 i Q :
  0 <= i -> i + 4 <= sp_cap s -> (forall v, is_u 32 v -> Q v (DState s pi)) ->
  wp (rd32 buf i) Q (DState s pi).
Proof.
  intros Hi Hle HQ. destruct Hs as (?&?&?&?).
  destruct (load_be32_Some buf Hbuf (sp_p s + i)) as (v & E & Hv); [lia..|].
  unfold wp, rd32, mbind, D_bind, get_span, lift. simpl. rewrite E. by apply HQ.
Qed.

Lemma wp_rdn i n Q :
  0 <= i -> 0 <= n -> i + n <= sp_cap s ->
  (forall l, length l = Z.to_nat n -> Forall is_byte l -> Q l (DState s pi)) ->
  wp (rdn buf i n) Q (DState s pi).
Proof.
  intros Hi Hn Hle HQ. destruct Hs as (?&?&?&?).
  destruct (bytes_at_Some buf (sp_p s + i) n) as (l & E & Hl & Hb); [lia..|done|].
  unfold wp, rdn, mbind, D_bind, get_span, lift. simpl. rewrite E. by apply HQ.
Qed.

Lemma advance_eq n :
  0 <= n <= sp_cap s ->
  advance s n = Span (sp_p s + n) (sp_cap s - n) (sp_wire s - n).
Proof.
  intros Hn. destruct Hs as (?&?&?&?). unfold advance.
  by rewrite !size_sub_small by lia.
Qed.

Lemma wp_do_advance n Q :
  0 <= n <= sp_cap s ->
  Q tt (DState (Span (sp_p s + n) (sp_cap s - n) (sp_wire s - n)) pi) ->
  wp (do_advance buf n) Q (DState s pi).
Proof.
  intros Hn HQ. destruct Hs as (?&?&?&?).
  unfold wp, do_advance, mbind, D_bind, get_span. simpl.
  destruct (Z.leb_spec 0 (sp_p s + n)); [|lia].
  destruct (Z.leb_spec (sp_p s + n) (Z.of_nat (length buf))); [|lia].
  simpl. by rewrite advance_eq.
Qed.

Lemma span_ok_advance n :
  0 <= n <= sp_cap s ->
  span_ok buf (Span (sp_p s + n) (sp_cap s - n) (sp_wire s - n)).
Proof. intros Hn. destruct Hs as (?&?&?&?). unfold span_ok. simpl. lia. Qed.

Lemma span_ok_clip n : 0 <= n <= sp_wire s -> span_ok buf (clip s n).
Proof.
  intros Hn. destruct Hs as (?&?&?&?). unfold span_ok, clip. simpl.
  rewrite Z.gtb_ltb. destruct (Z.ltb_spec n (sp_cap s)); lia.
Qed.
End Memory.

Lemma complete_advance s n :
  complete s -> complete (Span (sp_p s + n) (sp_cap s - n) (sp_wire s - n)).
Proof. unfold complete. simpl. lia. Qed.

Lemma complete_clip s n : complete s -> n <= sp_wire s -> complete (clip s n).
Proof.
  unfold complete, clip. simpl. intros H Hn.
  rewrite Z.gtb_ltb. destruct (Z.ltb_spec n (sp_cap s)); lia.
Qed.

Lemma clip_cap s n : sp_cap (clip s n) = Z.min (sp_cap s) n.
Proof. unfold clip. simpl. rewrite Z.gtb_ltb. destruct (Z.ltb_spec n (sp_cap s)); lia. Qed.

Lemma clip_wire s n : sp_wire (clip s n) = n.
Proof. done. Qed.

Lemma clip_p s n : sp_p (clip s n) = sp_p s.
Proof. done. Qed.

Create HintDb decode.
#[export] Hint Extern 2 (_ <= _ <= _) => lia : decode.
#[export] Hint Extern 2 (_ <= _) => lia : decode.
#[export] Hint Resolve span_ok_advance span_ok_clip complete_advance complete_clip : decode.

(** ** Tactics *)

(** Compute a field of an updated [packet_info], leaving the chain of updates
    folded everywhere else. *)
Ltac pi_eval t :=
  eval cbn [update
      set_pi_status set_pi_has_l2 set_pi_has_l3 set_pi_has_l4 set_pi_ethertype
      set_pi_vlan_count set_pi_vlan_ids set_pi_ip_version set_pi_ip_proto
      set_pi_src_addr set_pi_dst_addr set_pi_frag set_pi_frag_id set_pi_src_port
      set_pi_dst_port set_pi_tcp_flags set_pi_icmp_type set_pi_icmp_code
      set_pi_is_gtpu set_pi_gtp_status set_pi_gtp_v1u set_pi_gtp_flags
      set_pi_gtp_msg_type set_pi_gtp_msg_ok set_pi_gtp_seq set_pi_teid
      set_pi_gtp_ext_count set_pi_has_inner set_pi_inner_has_l4 set_pi_gtp_nested
      set_pi_inner_version set_pi_inner_proto set_pi_inner_src set_pi_inner_dst
      set_pi_inner_src_port set_pi_inner_dst_port
      pi_status pi_has_l2 pi_has_l3 pi_has_l4 pi_ethertype pi_vlan_count
      pi_vlan_ids pi_ip_version pi_ip_proto pi_src_addr pi_dst_addr
      pi_frag pi_frag_id pi_src_port pi_dst_port pi_tcp_flags pi_icmp_type
      pi_icmp_code pi_is_gtpu pi_gtp_status pi_gtp_v1u pi_gtp_flags
      pi_gtp_msg_type pi_gtp_msg_ok pi_gtp_seq pi_teid pi_gtp_ext_count
      pi_has_inner pi_inner_has_l4 pi_gtp_nested pi_inner_version pi_inner_proto
      pi_inner_src pi_inner_dst pi_inner_src_port pi_inner_dst_port
     ] in t.

Ltac pi_simpl :=
  repeat match goal with
  | |- context [?f (@update packet_info ?E ?p ?i ?g ?r)] =>
      let t := constr:(f (@update packet_info E p i g r)) in
      let v := pi_eval t in progress change t with v
  end;
  repeat match goal with
  | H : context [?f (@update packet_info ?E ?p ?i ?g ?r)] |- _ =>
      let t := constr:(f (@update packet_info E p i g r)) in
      let v := pi_eval t in progress change t with v in H
  end.

(** Case on a boolean test of the code and turn it into arithmetic. *)
Ltac test_to_prop :=
  repeat match goal with
  | H : (_ && _) = true |- _ => apply andb_true_iff in H as [? ?]
  | H : (_ || _) = false |- _ => apply orb_false_iff in H as [? ?]
  | H : (_ && _) = false |- _ => apply andb_false_iff in H as [?|?]
  | H : (_ || _) = true |- _ => apply orb_true_iff in H as [?|?]
  | H : negb _ = true |- _ => apply negb_true_iff in H
  | H : negb _ = false |- _ => apply negb_false_iff in H
  | H : (_ >? _) = _ |- _ => rewrite Z.gtb_ltb in H
  | H : (_ >=? _) = _ |- _ => rewrite Z.geb_leb in H
  | H : (_ <? _) = true |- _ => apply Z.ltb_lt in H
  | H : (_ <? _) = false |- _ => apply Z.ltb_ge in H
  | H : (_ <=? _) = true |- _ => apply Z.leb_le in H
  | H : (_ <=? _) = false |- _ => apply Z.leb_gt in H
  | H : (_ =? _) = true |- _ => apply Z.eqb_eq in H
  | H : (_ =? _) = false |- _ => apply Z.eqb_neq in H
  | H : bool_decide _ = true |- _ => apply bool_decide_eq_true in H
  | H : bool_decide _ = false |- _ => apply bool_decide_eq_false in H
  | H : status_eqb _ _ = true |- _ => apply bool_decide_eq_true in H
  | H : status_eqb _ _ = false |- _ => apply bool_decide_eq_false in H
  end.

(** One step of symbolic execution of a decoder, on a frame with bytes [Hbuf]. *)
Ltac wp_step Hbuf :=
  lazymatch goal with
  | |- wp (mbind _ (do_need _ _ _)) _ _ =>
      first [ apply (wp_need (fun st => st)); [done|done|intros|intros|intros]
            | apply (wp_need inl); [done|done|intros|intros|intros]
            | apply (wp_need_status (fun st => st)); [done|done|intros|intros|intros]
            | apply (wp_need_status inl); [done|done|intros|intros|intros] ]
  | |- wp (mbind _ _) _ _ => apply wp_bind
  | |- wp (mret _) _ _ => apply wp_ret
  | |- wp get_span _ _ => apply wp_get_span
  | |- wp get_pi _ _ => apply wp_get_pi
  | |- wp (modify_pi _) _ _ => apply wp_modify
  | |- wp (do_clip _) _ _ => apply wp_do_clip
  | |- wp (store_vlan _ _) _ _ => apply wp_store_vlan
  | |- wp (rd _ _) _ _ => apply wp_rd; [exact Hbuf|eauto with decode|try lia|intros]
  | |- wp (rd16 _ _) _ _ => apply wp_rd16; [exact Hbuf|eauto with decode|try lia|try lia|intros]
  | |- wp (rd32 _ _) _ _ => apply wp_rd32; [exact Hbuf|eauto with decode|try lia|try lia|intros]
  | |- wp (rdn _ _ _) _ _ =>
      apply wp_rdn; [exact Hbuf|eauto with decode|try lia|try lia|try lia|intros]
  | |- wp (do_advance _ _) _ _ =>
      apply wp_do_advance; [eauto with decode|try lia|]
  | |- wp (if _ then _ else _) _ _ => apply wp_if; intros
  end.
