(* ===== verification/DecodeSafe.v ===== *)
(** Safety and classification of the decoder: every decoder of [Decode] is given
    a specification against which its callers are verified, and the top of the
    file states what [decode_frame] guarantees for every frame. *)
From S2P Require Export DecodeWp.

(** The lengths and offsets the decoders test, as numbers. *)
Ltac consts :=
  unfold TCP_MIN_HDR, UDP_HDR_LEN, ICMP_MIN_HDR, IPV4_MIN_HDR, IPV6_HDR_LEN,
    IPV6_FRAG_LEN, VLAN_TAG_LEN, ETH_HDR_LEN, GTPU_HDR_LEN, GTPU_OPT_LEN in *.

(** ** Layers of [packet_info] *)

(** The transport fields, reset: two states with equal [clear_l4] differ only in
    what [decode_l4] writes. *)
Definition clear_l4 (pi : packet_info) : packet_info :=
  pi <| pi_has_l4 := false |> <| pi_src_port := 0 |> <| pi_dst_port := 0 |>
     <| pi_tcp_flags := 0 |> <| pi_icmp_type := 0 |> <| pi_icmp_code := 0 |>.

(** The network fields, and the network and transport fields, reset. *)
Definition clear_l3 (pi : packet_info) : packet_info :=
  pi <| pi_has_l3 := false |> <| pi_ip_version := 0 |>
     <| pi_ip_proto := 0 |> <| pi_src_addr := replicate 16 0 |>
     <| pi_dst_addr := replicate 16 0 |> <| pi_frag := FRAG_NONE |>
     <| pi_frag_id := 0 |>.

Definition clear_ip (pi : packet_info) : packet_info := clear_l3 (clear_l4 pi).

Definition l4_wf (pi : packet_info) : Prop :=
  is_u 16 (pi_src_port pi) /\ is_u 16 (pi_dst_port pi) /\
  is_byte (pi_tcp_flags pi) /\ is_byte (pi_icmp_type pi) /\ is_byte (pi_icmp_code pi).

Definition addr_wf (a : bytes) : Prop := length a = 16%nat /\ Forall is_byte a.

Definition is_l4_status (st : decode_status) : bool :=
  match st with
  | DEC_OK | DEC_TRUNC_TCP | DEC_TRUNC_UDP | DEC_TRUNC_ICMP
  | DEC_BAD_L4_LEN | DEC_BAD_TCP_DOFF | DEC_BAD_UDP_LEN => true
  | _ => false
  end.

(** What the IPv6 extension header loop writes, reset. *)
Definition clear_frag (pi : packet_info) : packet_info :=
  pi <| pi_frag := FRAG_NONE |> <| pi_frag_id := 0 |> <| pi_ip_proto := 0 |>.

Definition is_ip_status (st : decode_status) : bool :=
  match st with
  | DEC_TRUNC_IPV4 | DEC_TRUNC_IPV6 | DEC_TRUNC_IPV6_EXT | DEC_BAD_SHORT_FRAME
  | DEC_BAD_IPV4_VERSION | DEC_BAD_IPV4_IHL | DEC_BAD_IPV4_TOTAL_LEN
  | DEC_BAD_IPV6_VERSION | DEC_BAD_IPV6_PAYLOAD_LEN | DEC_BAD_IPV6_EXT => true
  | _ => is_l4_status st
  end.

Definition is_chain_status (st : decode_status) : bool :=
  match st with DEC_TRUNC_IPV6_EXT | DEC_BAD_IPV6_EXT => true | _ => false end.

Definition ip_wf (pi : packet_info) : Prop :=
  l4_wf pi /\ is_byte (pi_ip_proto pi) /\ is_u 32 (pi_frag_id pi) /\
  addr_wf (pi_src_addr pi) /\ addr_wf (pi_dst_addr pi).

(** An IPv4 address uses the first 4 bytes of its array. *)
Definition v4_tail_zero (pi : packet_info) : Prop :=
  pi_ip_version pi = 4 ->
  drop 4 (pi_src_addr pi) = replicate 12 0 /\ drop 4 (pi_dst_addr pi) = replicate 12 0.

(** The user packet fields, the optional GTP-U fields, and all GTP-U fields,
    reset. *)
Definition clear_inner (pi : packet_info) : packet_info :=
  pi <| pi_has_inner := false |> <| pi_inner_has_l4 := false |>
     <| pi_gtp_nested := false |> <| pi_inner_version := 0 |>
     <| pi_inner_proto := 0 |> <| pi_inner_src := replicate 16 0 |>
     <| pi_inner_dst := replicate 16 0 |> <| pi_inner_src_port := 0 |>
     <| pi_inner_dst_port := 0 |>.

Definition clear_gtp_opt (pi : packet_info) : packet_info :=
  pi <| pi_gtp_seq := 0 |> <| pi_gtp_ext_count := 0 |>.

Definition clear_gtp_hdr (pi : packet_info) : packet_info :=
  pi <| pi_gtp_v1u := false |> <| pi_gtp_flags := 0 |>
     <| pi_gtp_msg_type := 0 |> <| pi_gtp_msg_ok := false |> <| pi_teid := 0 |>.

Definition clear_gtp (pi : packet_info) : packet_info :=
  clear_gtp_hdr (clear_gtp_opt (clear_inner pi)).

(** The reasons that stop [decode_gtpu] before it has read every GTP-U header. *)
Definition is_gtpu_header_problem (s : decode_status) : bool :=
  status_eqb s DEC_TRUNC_GTPU || status_eqb s DEC_TRUNC_GTPU_EXT ||
  status_eqb s DEC_BAD_GTPU_LEN || status_eqb s DEC_BAD_GTPU_EXT_LEN ||
  status_eqb s DEC_BAD_GTPU_EXT.

(** The reasons a G-PDU's user packet is rejected for. *)
Definition is_inner_status (st : decode_status) : bool :=
  match st with
  | DEC_BAD_SHORT_FRAME => false
  | DEC_TRUNC_GTPU_INNER | DEC_BAD_GTPU_INNER | DEC_BAD_GTPU_INNER_SHORT => true
  | _ => is_ip_status st
  end.

Definition gtp_opt_wf (pi : packet_info) : Prop :=
  is_u 16 (pi_gtp_seq pi) /\ 0 <= pi_gtp_ext_count pi <= GTPU_MAX_EXT_HEADERS.

Definition inner_wf (pi : packet_info) : Prop :=
  is_byte (pi_inner_proto pi) /\ is_u 16 (pi_inner_src_port pi) /\
  is_u 16 (pi_inner_dst_port pi) /\ addr_wf (pi_inner_src pi) /\
  addr_wf (pi_inner_dst pi) /\
  (pi_inner_version pi = 4 -> drop 4 (pi_inner_src pi) = replicate 12 0 /\
                              drop 4 (pi_inner_dst pi) = replicate 12 0).

Abbreviation truncation st := (decode_status_is_truncation st = true).

(** ** Transport layer *)
Section Safe.
Context (buf : bytes) (Hbuf : Forall is_byte buf).

(** What a decoder promises about the span: it stays inside the frame, and a
    span captured in full stays so and is never blamed on the capture. *)
Definition span_post (s0 : span) (st : decode_status) (s : span) : Prop :=
  span_ok buf s /\ (complete s0 -> complete s /\ ~ truncation st).

Record l4_post (s0 : span) (pi0 : packet_info) (st : decode_status)
               (s : span) (pi : packet_info) : Prop := {
  l4_span : span_post s0 st s;
  l4_status : is_l4_status st = true;
  l4_frame : clear_l4 pi = clear_l4 pi0;
  l4_has : pi_has_l4 pi = true -> st = DEC_OK;
  l4_udp : pi_has_l4 pi = true -> pi_ip_proto pi = IPPROTO_NUM_UDP ->
           pi_frag pi = FRAG_NONE -> UDP_HDR_LEN <= sp_cap s;
  l4_fields : l4_wf pi
}.

Ltac span_post_tac :=
  split;
  [ eauto with decode
  | let Hc := fresh "Hc" in intros Hc; split;
    [ eauto with decode
    | first [ by vm_compute | exfalso; unfold complete in Hc; lia ] ] ].

Lemma decode_l4_safe s pi :
  span_ok buf s -> pi_has_l4 pi = false -> l4_wf pi ->
  wp (decode_l4 buf) (fun st d => l4_post s pi st (ds_span d) (ds_pi d))
     (DState s pi).
Proof.
  intros Hs H4 Hwf. unfold decode_l4, decode_tcp, decode_udp, decode_icmp.
  consts. repeat (wp_step Hbuf; cbv beta).
  all: simpl ds_span; simpl ds_pi; pi_simpl; test_to_prop; try congruence.
  all: split; [span_post_tac|done|reflexivity|pi_simpl; try done|pi_simpl; try done|].
  all: try (unfold l4_wf in *; pi_simpl; tauto).
  all: consts; intros; rewrite ?clip_cap; try congruence; try lia.
Qed.

(** ** Network layer *)
Record ip_post (s0 : span) (pi0 : packet_info) (st : decode_status)
               (s : span) (pi : packet_info) : Prop := {
  ip_span : span_post s0 st s;
  ip_status : is_ip_status st = true;
  ip_frame : clear_ip pi = clear_ip pi0;
  ip_fields : ip_wf pi;
  ip_tail : v4_tail_zero pi;
  ip_version_ok : pi_has_l3 pi = true -> pi_ip_version pi = 4 \/ pi_ip_version pi = 6;
  ip_l4 : pi_has_l4 pi = true ->
          pi_has_l3 pi = true /\ st = DEC_OK /\ pi_frag pi <> FRAG_LATER;
  ip_ok : st = DEC_OK -> pi_has_l3 pi = true;
  ip_udp : pi_has_l4 pi = true -> pi_ip_proto pi = IPPROTO_NUM_UDP ->
           pi_frag pi = FRAG_NONE -> UDP_HDR_LEN <= sp_cap s;
  ip_chain : is_chain_status st = true ->
             pi_has_l3 pi = true /\ pi_ip_version pi = 6 /\ pi_ip_proto pi = 0;
  ip_short : st = DEC_BAD_SHORT_FRAME -> pi_has_l3 pi = false
}.

Definition fresh_ip (pi : packet_info) : Prop := clear_ip pi = pi.

(** The state in which an IP decoder has validated the network header. *)
Record l3_ready (s0 : span) (pi0 : packet_info) (s : span) (pi : packet_info) : Prop := {
  rd_span : span_ok buf s;
  rd_complete : complete s0 -> complete s;
  rd_frame : clear_ip pi = clear_ip pi0;
  rd_l3 : pi_has_l3 pi = true;
  rd_l4 : pi_has_l4 pi = false;
  rd_version : pi_ip_version pi = 4 \/ pi_ip_version pi = 6;
  rd_wf : ip_wf pi;
  rd_tail : v4_tail_zero pi
}.

(** No transport header is decoded: a later fragment. *)
Lemma ip_post_no_l4 s0 pi0 s pi : l3_ready s0 pi0 s pi -> ip_post s0 pi0 DEC_OK s pi.
Proof.
  intros [Hs Hc Hf H3 H4 Hv Hwf Ht].
  split; try assumption; rewrite ?H4; try done. split; auto.
Qed.

(** The extension header chain is broken. *)
Lemma ip_post_chain s0 pi0 st s pi :
  l3_ready s0 pi0 s pi -> is_chain_status st = true ->
  (complete s0 -> ~ truncation st) -> pi_ip_version pi = 6 -> pi_ip_proto pi = 0 ->
  ip_post s0 pi0 st s pi.
Proof.
  intros [Hs Hc Hf H3 H4 Hv Hwf Ht] Hch Htr H6 Hp.
  split; try assumption; rewrite ?H4; try done.
  - split; auto.
  - by destruct st.
  - by destruct st.
Qed.

(** The transport header is decoded from a validated network header. *)
Lemma decode_l4_ready s0 pi0 s1 pi1 :
  l3_ready s0 pi0 s1 pi1 -> pi_frag pi1 <> FRAG_LATER ->
  wp (decode_l4 buf) (fun st d => ip_post s0 pi0 st (ds_span d) (ds_pi d))
     (DState s1 pi1).
Proof.
  intros [Hs Hc Hf H3 H4 Hv Hwf Ht] Hfr. destruct Hwf as (Hwf & Hp & Hid & Hsrc & Hdst).
  eapply wp_mono; [by apply decode_l4_safe|].
  intros st [s pi] [[Hspan Hcomp] Hst Hframe Hl4 Hudp Hwf']. cbn [ds_span ds_pi] in *.
  assert (E3 : pi_has_l3 pi = pi_has_l3 pi1) by exact (f_equal pi_has_l3 Hframe).
  assert (Ev : pi_ip_version pi = pi_ip_version pi1) by exact (f_equal pi_ip_version Hframe).
  assert (Ep : pi_ip_proto pi = pi_ip_proto pi1) by exact (f_equal pi_ip_proto Hframe).
  assert (Ei : pi_frag_id pi = pi_frag_id pi1) by exact (f_equal pi_frag_id Hframe).
  assert (Es : pi_src_addr pi = pi_src_addr pi1) by exact (f_equal pi_src_addr Hframe).
  assert (Ed : pi_dst_addr pi = pi_dst_addr pi1) by exact (f_equal pi_dst_addr Hframe).
  assert (Ef : pi_frag pi = pi_frag pi1) by exact (f_equal pi_frag Hframe).
  split; unfold ip_wf, v4_tail_zero; rewrite ?E3, ?Ev, ?Ep, ?Ei, ?Es, ?Ed, ?Ef;
    try (by destruct st); auto 10.
  - split; auto.
  - rewrite <- Hf. exact (f_equal clear_l3 Hframe).
  - rewrite <- Ep, <- Ef. exact Hudp.
Qed.

(** The fields of a state no IP decoder has written yet. *)
Lemma fresh_ip_wf pi :
  fresh_ip pi ->
  pi_has_l3 pi = false /\ pi_has_l4 pi = false /\ pi_frag pi = FRAG_NONE /\
  pi_ip_version pi = 0 /\ pi_ip_proto pi = 0 /\
  pi_src_addr pi = replicate 16 0 /\ pi_dst_addr pi = replicate 16 0 /\ ip_wf pi.
Proof.
  intros <-. repeat split; try (unfold is_u; simpl; lia); try done;
    by repeat constructor.
Qed.

(** A header rejected before any field was stored. *)
Lemma ip_post_early s pi st :
  span_ok buf s -> fresh_ip pi -> (complete s -> ~ truncation st) ->
  is_ip_status st = true -> st <> DEC_OK -> is_chain_status st = false ->
  ip_post s pi st s pi.
Proof.
  intros Hs Hf Hc Hst Hne Hch.
  destruct (fresh_ip_wf pi Hf) as (E3 & E4 & Efr & Ev & Ep & Es & Ed & Hwf).
  split; try done; rewrite ?E3, ?E4, ?Hch; try done.
  - split; auto.
  - unfold v4_tail_zero. by rewrite Ev.
Qed.

Lemma overwrite_addr4 a l :
  addr_wf a -> length l = 4%nat -> Forall is_byte l -> addr_wf (overwrite a l).
Proof.
  intros [Hl Ha] Hl4 Hb. split.
  - rewrite length_overwrite; lia.
  - by apply Forall_overwrite.
Qed.

(** The two halves of an IPv4 address store: 4 bytes into a zeroed array. *)
Lemma overwrite_v4 l :
  length l = 4%nat -> Forall is_byte l ->
  addr_wf (overwrite (replicate 16 0) l) /\
  drop 4 (overwrite (replicate 16 0) l) = replicate 12 0.
Proof.
  intros Hl Hb. unfold overwrite. rewrite Hl. split; [split|].
  - rewrite length_app, length_drop, Hl, length_replicate. lia.
  - apply Forall_app. split; [done|]. apply Forall_drop, zero_bytes.
  - rewrite drop_app_ge by lia. by rewrite Hl.
Qed.

Ltac early_tac :=
  apply ip_post_early;
  [ done | done
  | let Hc := fresh "Hc" in intros Hc;
    first [ by vm_compute | exfalso; unfold complete in Hc; lia ]
  | done | done | done ].

Ltac ip_fields_tac :=
  unfold v4_tail_zero, ip_wf, l4_wf in *; pi_simpl; intuition eauto with ints.

Lemma decode_ipv4_safe s pi :
  span_ok buf s -> fresh_ip pi ->
  wp (decode_ipv4 buf) (fun st d => ip_post s pi st (ds_span d) (ds_pi d))
     (DState s pi).
Proof.
  intros Hs Hf. unfold decode_ipv4.
  consts.
  destruct (fresh_ip_wf pi Hf) as (E3 & E4 & Efr & Ev & Ep & Es & Ed & Hwf).
  repeat (wp_step Hbuf; cbv beta).
  all: cbn [ds_span ds_pi]; test_to_prop; pi_simpl.
  all: try early_tac.
  all: match goal with
       | |- _ <= _ <= _ => rewrite clip_cap; lia
       | |- ip_post _ _ _ _ _ => apply ip_post_no_l4
       | |- wp (decode_l4 _) _ _ => apply decode_l4_ready; [|pi_simpl; congruence]
       end.
  all: destruct (overwrite_v4 l) as [Hsrc Hsrc0]; [done..|].
  all: destruct (overwrite_v4 l0) as [Hdst Hdst0]; [done..|].
  all: rewrite ?Es, ?Ed; split; pi_simpl; auto.
  all: first [ apply span_ok_advance; [apply span_ok_clip|rewrite clip_cap]; auto; lia
             | intros; apply complete_advance, complete_clip; auto; lia
             | ip_fields_tac ].
Qed.

(** The extension header walk.  [hops] headers have been read, and the fuel
    covers the rest of the [IPV6_MAX_EXT_HEADERS] bound. *)
Definition ext_post (s0 : span) (pi0 : packet_info) (r : decode_status + Z)
           (s : span) (pi : packet_info) : Prop :=
  span_ok buf s /\ (complete s0 -> complete s) /\
  clear_frag pi = clear_frag pi0 /\ is_u 32 (pi_frag_id pi) /\
  match r with
  | inl st => (st = DEC_OK /\ is_byte (pi_ip_proto pi)) \/
              (is_chain_status st = true /\ pi_ip_proto pi = 0 /\
               (complete s0 -> ~ truncation st))
  | inr next => is_byte next /\ pi_frag pi <> FRAG_LATER
  end.

Lemma ext_post_step s0 pi0 s1 pi1 r s pi :
  ext_post s1 pi1 r s pi -> (complete s0 -> complete s1) ->
  clear_frag pi1 = clear_frag pi0 -> ext_post s0 pi0 r s pi.
Proof.
  intros (Hs & Hc & Hf & Hid & Hr) Hc1 Hf1. unfold ext_post.
  rewrite Hf.
  refine (conj Hs (conj _ (conj Hf1 (conj Hid _)))); [auto|].
  destruct r as [st|next]; [|exact Hr]. destruct Hr as [?|(?&?&?)]; [by left|right]; auto 10.
Qed.

Lemma ipv6_ext_loop_safe fuel next hops s pi :
  span_ok buf s -> is_byte next -> 0 <= hops <= IPV6_MAX_EXT_HEADERS ->
  Z.of_nat fuel + hops = IPV6_MAX_EXT_HEADERS + 1 ->
  pi_frag pi <> FRAG_LATER -> pi_ip_proto pi = 0 -> is_u 32 (pi_frag_id pi) ->
  wp (ipv6_ext_loop buf fuel next hops)
     (fun r d => ext_post s pi r (ds_span d) (ds_pi d)) (DState s pi).
Proof.
  revert next hops s pi. induction fuel as [|fuel IH]; intros next hops s pi
    Hs Hn Hh Hfuel Hfr Hp Hid; [lia|].
  cbn [ipv6_ext_loop]. consts.
  repeat (wp_step Hbuf; cbv beta).
  all: cbn [ds_span ds_pi]; test_to_prop; pi_simpl; unfold is_u, IPV6_MAX_EXT_HEADERS in *;
    try lia.
  all: try (eapply wp_mono; [apply IH; unfold is_u, IPV6_MAX_EXT_HEADERS in *;
                             pi_simpl; auto; try lia|]; cbv beta).
  all: try (intros r d Hr; eapply ext_post_step; [exact Hr| |reflexivity]).
  all: try congruence.
  all: try (apply span_ok_advance; [assumption|lia]).
  all: try (intros; by apply complete_advance).
  all: split; [first [assumption | apply span_ok_advance; [assumption|lia]]|];
    split; [auto using complete_advance|]; split; [reflexivity|];
    split; [pi_simpl; auto|].
  all: first [ by auto | left; split; [done|]; by apply wrap_is_u
             | right; split; [done|]; split; [done|]; intros Hc;
               first [ by vm_compute | exfalso; unfold complete in Hc; lia ] ].
Qed.

Lemma size_sub_hdr s n : span_ok buf s -> 0 <= n <= sp_cap s ->
  size_wrap (sp_wire s - n) = sp_wire s - n.
Proof. intros (?&?&?&?) Hn. apply size_sub_small; lia. Qed.

(** What the extension header walk writes keeps the network header valid. *)
Lemma l3_ready_frag s0 pi0 s1 pi1 s pi :
  l3_ready s0 pi0 s1 pi1 -> span_ok buf s -> (complete s1 -> complete s) ->
  clear_frag pi = clear_frag pi1 -> is_u 32 (pi_frag_id pi) ->
  is_byte (pi_ip_proto pi) -> l3_ready s0 pi0 s pi.
Proof.
  intros [Hs1 Hc1 Hf1 H3 H4 Hv Hwf Ht] Hs Hc Hf Hid Hp.
  destruct Hwf as ((W1 & W2 & W3 & W4 & W5) & _ & _ & W6 & W7).
  unfold v4_tail_zero in Ht.
  rewrite <- (f_equal pi_has_l3 Hf : pi_has_l3 pi = pi_has_l3 pi1) in H3.
  rewrite <- (f_equal pi_has_l4 Hf : pi_has_l4 pi = pi_has_l4 pi1) in H4.
  rewrite <- (f_equal pi_ip_version Hf : pi_ip_version pi = pi_ip_version pi1) in Hv, Ht.
  rewrite <- (f_equal pi_src_addr Hf : pi_src_addr pi = pi_src_addr pi1) in W6, Ht.
  rewrite <- (f_equal pi_dst_addr Hf : pi_dst_addr pi = pi_dst_addr pi1) in W7, Ht.
  rewrite <- (f_equal pi_src_port Hf : pi_src_port pi = pi_src_port pi1) in W1.
  rewrite <- (f_equal pi_dst_port Hf : pi_dst_port pi = pi_dst_port pi1) in W2.
  rewrite <- (f_equal pi_tcp_flags Hf : pi_tcp_flags pi = pi_tcp_flags pi1) in W3.
  rewrite <- (f_equal pi_icmp_type Hf : pi_icmp_type pi = pi_icmp_type pi1) in W4.
  rewrite <- (f_equal pi_icmp_code Hf : pi_icmp_code pi = pi_icmp_code pi1) in W5.
  split; auto.
  - rewrite <- Hf1. exact (f_equal clear_ip Hf).
  - repeat split; try assumption; first [apply W6 | apply W7 | apply W1 | apply W2
      | apply W3 | apply W4 | apply W5 | apply Hid | apply Hp].
Qed.

Lemma ipv6_chain_safe s0 pi0 s1 pi1 next :
  l3_ready s0 pi0 s1 pi1 -> pi_frag pi1 <> FRAG_LATER -> pi_ip_proto pi1 = 0 ->
  pi_ip_version pi1 = 6 -> is_byte next ->
  wp (ipv6_ext_loop buf (S (Z.to_nat IPV6_MAX_EXT_HEADERS)) next 0)
     (fun r => wp match r with
                  | inl st => mret st
                  | inr next => SET pi_ip_proto := u8 next;; decode_l4 buf
                  end (fun st d => ip_post s0 pi0 st (ds_span d) (ds_pi d)))
     (DState s1 pi1).
Proof.
  intros Hr Hfr Hp H6 Hn. pose proof Hr as [Hs1 Hc1 _ _ _ _ Hwf _].
  destruct Hwf as (_ & _ & Hid & _).
  eapply wp_mono; [by apply ipv6_ext_loop_safe|].
  intros [st|next'] [s pi] (Hs & Hc & Hf & Hid' & Hres); cbn [ds_span ds_pi] in *.
  - apply wp_ret. destruct Hres as [[-> Hb]|(Hch & Hp0 & Htr)].
    + by eapply ip_post_no_l4, l3_ready_frag.
    + assert (Hb : is_byte (pi_ip_proto pi)) by (rewrite Hp0; unfold is_u; simpl; lia).
      apply ip_post_chain; auto.
      * by eapply l3_ready_frag.
      * rewrite <- H6. exact (f_equal pi_ip_version Hf).
  - destruct Hres as [Hb Hl]. apply wp_bind, wp_modify. apply decode_l4_ready; [|done].
    apply (l3_ready_frag s0 pi0 s1 pi1); auto. by apply wrap_is_u.
Qed.

Lemma decode_ipv6_safe s pi :
  span_ok buf s -> fresh_ip pi ->
  wp (decode_ipv6 buf) (fun st d => ip_post s pi st (ds_span d) (ds_pi d))
     (DState s pi).
Proof.
  intros Hs Hf. unfold decode_ipv6.
  destruct (fresh_ip_wf pi Hf) as (E3 & E4 & Efr & Ev & Ep & Es & Ed & Hwf).
  consts. repeat (wp_step Hbuf; cbv beta).
  all: cbn [ds_span ds_pi]; test_to_prop; pi_simpl; try early_tac.
  apply ipv6_chain_safe; auto; pi_simpl; try congruence.
  rewrite size_sub_hdr in * by (auto; lia).
  rewrite Es, Ed, !overwrite_full by (rewrite length_replicate; done).
  split; pi_simpl; auto.
  - apply span_ok_clip; [by apply span_ok_advance; [|lia]|simpl; unfold is_u in *; lia].
  - intros Hc. apply complete_clip; [by apply complete_advance|simpl; lia].
  - unfold ip_wf, l4_wf, addr_wf in *. pi_simpl. intuition auto.
  - unfold v4_tail_zero. by pi_simpl.
Qed.

(** ** GTP-U *)

(** The user packet: what [decode_gtpu_inner] leaves in the inner fields. *)
Record inner_post (s0 : span) (pi0 : packet_info) (st : decode_status)
                  (s : span) (pi : packet_info) : Prop := {
  in_span : span_post s0 st s;
  in_status : is_inner_status st = true;
  in_frame : clear_inner pi = clear_inner pi0;
  in_fields : inner_wf pi;
  in_version : pi_has_inner pi = true ->
               pi_inner_version pi = 4 \/ pi_inner_version pi = 6;
  in_l4 : pi_inner_has_l4 pi = true -> pi_has_inner pi = true;
  in_ok : st = DEC_OK -> pi_has_inner pi = true;
  in_chain : is_chain_status st = true ->
             pi_has_inner pi = true /\ pi_inner_version pi = 6 /\ pi_inner_proto pi = 0;
  in_nested : pi_gtp_nested pi = true ->
              pi_inner_has_l4 pi = true /\ pi_inner_proto pi = IPPROTO_NUM_UDP /\
              (pi_inner_src_port pi = GTPU_PORT \/ pi_inner_dst_port pi = GTPU_PORT)
}.

Definition fresh_inner (pi : packet_info) : Prop :=
  pi_has_inner pi = false /\ pi_inner_has_l4 pi = false /\
  pi_gtp_nested pi = false /\ inner_wf pi.

Lemma inner_post_early s pi st :
  span_ok buf s -> fresh_inner pi -> (complete s -> ~ truncation st) ->
  is_inner_status st = true -> st <> DEC_OK -> is_chain_status st = false ->
  inner_post s pi st s pi.
Proof.
  intros Hs Hf Hc Hst Hne Hch.
  destruct Hf as (E1 & E2 & E3 & Hwf).
  split; try done; rewrite ?E1, ?E2, ?E3, ?Hch; try done. split; auto.
Qed.

Lemma copy_inner_safe s0 s pi st inn :
  ip_post s0 packet_info_zero st s inn -> fresh_inner pi ->
  wp (copy_inner st inn) (fun st d => inner_post s0 pi st (ds_span d) (ds_pi d))
     (DState s pi).
Proof.
  intros [[Hs Hc] Hst _ Hwf Htail Hv Hl4 Hok _ Hch _] Hf.
  destruct Hf as (E1 & E2 & E3 & Hiwf).
  destruct Hwf as ((Hsp & Hdp & _) & Hp & _ & Hsrc & Hdst).
  unfold copy_inner. cbv zeta.
  set (st' := if status_eqb st DEC_BAD_SHORT_FRAME then _ else st).
  assert (Hst' : is_inner_status st' = true) by (subst st'; by destruct st).
  assert (Hc' : complete s0 -> complete s /\ ~ truncation st').
  { intros H0. destruct (Hc H0). split; [done|]. subst st'. by destruct st. }
  assert (Hok' : st' = DEC_OK -> st = DEC_OK) by (subst st'; by destruct st).
  assert (Hch' : is_chain_status st' = true -> is_chain_status st = true)
    by (subst st'; by destruct st).
  clearbody st'. repeat (wp_step Hbuf; cbv beta).
  all: cbn [ds_span ds_pi]; test_to_prop.
  all: split; pi_simpl; try done; try congruence.
  all: unfold inner_wf, v4_tail_zero in *; pi_simpl; try tauto.
  all: unfold decode_is_gtpu_port; intros; test_to_prop; intuition congruence.
Qed.

Lemma wp_with_scratch (m : D decode_status) Q s pi :
  wp m (fun st d => Q (st, ds_pi d) (DState (ds_span d) pi)) (DState s packet_info_zero) ->
  wp (with_scratch m) Q (DState s pi).
Proof.
  unfold wp, with_scratch. cbn [ds_span ds_pi].
  by destruct (m (DState s packet_info_zero)) as [[st d]|].
Qed.

Lemma decode_gtpu_inner_safe s pi :
  span_ok buf s -> fresh_inner pi ->
  wp (decode_gtpu_inner buf) (fun st d => inner_post s pi st (ds_span d) (ds_pi d))
     (DState s pi).
Proof.
  intros Hs Hf. unfold decode_gtpu_inner. repeat (wp_step Hbuf; cbv beta).
  all: cbn [ds_span ds_pi].
  1: apply wp_with_scratch; eapply wp_mono;
     [by apply decode_ipv4_safe|intros st d Hip; by apply copy_inner_safe].
  1: apply wp_with_scratch; eapply wp_mono;
     [by apply decode_ipv6_safe|intros st d Hip; by apply copy_inner_safe].
  all: apply inner_post_early; try done; intros Hc;
    first [ by vm_compute | exfalso; unfold complete in Hc; lia ].
Qed.

(** The extension header walk of [decode_gtpu]. *)
Definition is_gtpu_ext_status (st : decode_status) : bool :=
  match st with
  | DEC_TRUNC_GTPU_EXT | DEC_BAD_GTPU_EXT | DEC_BAD_GTPU_EXT_LEN => true
  | _ => false
  end.

Definition gext_post (s0 : span) (pi0 : packet_info) (r : decode_status + unit)
           (s : span) (pi : packet_info) : Prop :=
  span_ok buf s /\ (complete s0 -> complete s) /\
  clear_gtp_opt pi = clear_gtp_opt pi0 /\ gtp_opt_wf pi /\
  match r with
  | inl st => is_gtpu_ext_status st = true /\ (complete s0 -> ~ truncation st)
  | inr _ => True
  end.

Lemma gext_post_step s0 pi0 s1 pi1 r s pi :
  gext_post s1 pi1 r s pi -> (complete s0 -> complete s1) ->
  clear_gtp_opt pi1 = clear_gtp_opt pi0 -> gext_post s0 pi0 r s pi.
Proof.
  intros (Hs & Hc & Hf & Hwf & Hr) Hc1 Hf1. unfold gext_post. rewrite Hf.
  refine (conj Hs (conj _ (conj Hf1 (conj Hwf _)))); [auto|].
  destruct r as [st|]; [|done]. destruct Hr. auto.
Qed.

Lemma gtpu_ext_loop_safe fuel next hops s pi :
  span_ok buf s -> is_byte next -> 0 <= hops <= GTPU_MAX_EXT_HEADERS ->
  Z.of_nat fuel + hops = GTPU_MAX_EXT_HEADERS + 1 -> gtp_opt_wf pi ->
  wp (gtpu_ext_loop buf fuel next hops)
     (fun r d => gext_post s pi r (ds_span d) (ds_pi d)) (DState s pi).
Proof.
  revert next hops s pi. induction fuel as [|fuel IH]; intros next hops s pi
    Hs Hn Hh Hfuel Hwf; [lia|].
  cbn [gtpu_ext_loop]. repeat (wp_step Hbuf; cbv beta).
  all: cbn [ds_span ds_pi]; test_to_prop; pi_simpl; unfold is_u, GTPU_MAX_EXT_HEADERS in *.
  all: try lia.
  all: try (eapply wp_mono; [apply IH; auto; try lia|]; cbv beta).
  all: try (apply span_ok_advance; [assumption|lia]).
  all: try (destruct Hwf; split; pi_simpl; [done|]; unfold wrap, GTPU_MAX_EXT_HEADERS;
            rewrite Z.mod_small; lia).
  all: try (intros r d Hr; eapply gext_post_step; [exact Hr| |reflexivity];
            intros; by apply complete_advance).
  all: split; [done|]; split; [done|]; split; [done|]; split; [done|].
  all: first [ done | split; [done|]; intros Hc;
               first [ by vm_compute | exfalso; unfold complete in Hc; lia ] ].
Qed.

Definition is_gtpu_opt_status (st : decode_status) : bool :=
  match st with DEC_TRUNC_GTPU | DEC_BAD_GTPU_LEN => true | _ => false end.

Lemma gtpu_opt_safe flags s pi :
  span_ok buf s -> gtp_opt_wf pi ->
  wp (gtpu_opt buf flags)
     (fun r d => span_ok buf (ds_span d) /\ (complete s -> complete (ds_span d)) /\
                 clear_gtp_opt (ds_pi d) = clear_gtp_opt pi /\ gtp_opt_wf (ds_pi d) /\
                 match r with
                 | inl st => is_gtpu_opt_status st = true /\ (complete s -> ~ truncation st)
                 | inr next => is_byte next
                 end) (DState s pi).
Proof.
  intros Hs Hwf. unfold gtpu_opt. consts. repeat (wp_step Hbuf; cbv beta).
  all: cbn [ds_span ds_pi].
  all: split; [first [assumption | apply span_ok_advance; [assumption|lia]]|].
  all: split; [first [by intros|intros; by apply complete_advance]|]; split; [reflexivity|].
  all: split; [unfold gtp_opt_wf in *; pi_simpl; tauto|].
  all: first [ assumption | by (unfold is_u; simpl; lia) | split; [done|]; intros Hc;
               first [ by vm_compute | exfalso; unfold complete in Hc; lia ] ].
Qed.

Record gtp_post (s0 : span) (pi0 : packet_info) (st : decode_status)
                (s : span) (pi : packet_info) : Prop := {
  g_span : span_post s0 st s;
  g_status : is_inner_status st || is_gtpu_header_problem st = true;
  g_frame : clear_gtp pi = clear_gtp pi0;
  g_fields : gtp_opt_wf pi /\ inner_wf pi /\ is_byte (pi_gtp_flags pi) /\
             is_byte (pi_gtp_msg_type pi) /\ is_u 32 (pi_teid pi);
  g_other : pi_gtp_v1u pi = false ->
            pi_gtp_msg_ok pi = false /\ (st = DEC_OK \/ st = DEC_TRUNC_GTPU);
  g_v1u : pi_gtp_v1u pi = true ->
          Z.shiftr (pi_gtp_flags pi) 5 = 1 /\ Z.land (pi_gtp_flags pi) GTPU_FLAG_PT <> 0 /\
          pi_gtp_msg_ok pi = negb (is_gtpu_header_problem st);
  g_signalling : pi_gtp_msg_ok pi = true -> pi_gtp_msg_type pi <> GTPU_MSG_GPDU ->
                 st = DEC_OK;
  g_has_inner : pi_has_inner pi = true ->
                pi_gtp_msg_ok pi = true /\ pi_gtp_msg_type pi = GTPU_MSG_GPDU;
  g_version : pi_has_inner pi = true ->
              pi_inner_version pi = 4 \/ pi_inner_version pi = 6;
  g_l4 : pi_inner_has_l4 pi = true -> pi_has_inner pi = true;
  g_gpdu : pi_gtp_msg_ok pi = true -> pi_gtp_msg_type pi = GTPU_MSG_GPDU ->
           st = DEC_OK -> pi_has_inner pi = true;
  g_chain : is_chain_status st = true ->
            pi_has_inner pi = true /\ pi_inner_version pi = 6 /\ pi_inner_proto pi = 0;
  g_nested : pi_gtp_nested pi = true ->
             pi_inner_has_l4 pi = true /\ pi_inner_proto pi = IPPROTO_NUM_UDP /\
             (pi_inner_src_port pi = GTPU_PORT \/ pi_inner_dst_port pi = GTPU_PORT)
}.

(** A GTPv1-U header has been read into [pi]; the user packet fields are still
    unwritten. *)
Record hdr_ready (s0 : span) (pi0 : packet_info) (s : span) (pi : packet_info) : Prop := {
  h_span : span_ok buf s;
  h_complete : complete s0 -> complete s;
  h_frame : clear_gtp pi = clear_gtp pi0;
  h_fields : gtp_opt_wf pi /\ is_byte (pi_gtp_flags pi) /\
             is_byte (pi_gtp_msg_type pi) /\ is_u 32 (pi_teid pi);
  h_inner : fresh_inner pi;
  h_v1u : pi_gtp_v1u pi = true;
  h_flags : Z.shiftr (pi_gtp_flags pi) 5 = 1 /\ Z.land (pi_gtp_flags pi) GTPU_FLAG_PT <> 0
}.

(** The message stops at a problem in its own headers. *)
Lemma gtp_post_hdr s0 pi0 st s pi :
  hdr_ready s0 pi0 s pi -> pi_gtp_msg_ok pi = false ->
  is_gtpu_header_problem st = true -> (complete s0 -> ~ truncation st) ->
  gtp_post s0 pi0 st s pi.
Proof.
  intros [Hs Hc Hf (W1 & W2 & W3 & W4) Hin Hv Hfl] Hok Hst Htr.
  destruct Hin as (E1 & E2 & E3 & Hiwf).
  split; rewrite ?E1, ?E2, ?E3, ?Hok, ?Hv, ?Hst, ?orb_true_r; try done; auto.
  - split; auto.
  - intros _. destruct Hfl as [Hfl Hpt]. by refine (conj Hfl (conj Hpt _)).
  - by destruct st.
Qed.

(** Every header of a signalling message has been read. *)
Lemma gtp_post_signalling s0 pi0 s pi :
  hdr_ready s0 pi0 s pi -> pi_gtp_msg_ok pi = true ->
  pi_gtp_msg_type pi <> GTPU_MSG_GPDU -> gtp_post s0 pi0 DEC_OK s pi.
Proof.
  intros [Hs Hc Hf (W1 & W2 & W3 & W4) Hin Hv Hfl] Hok Hty.
  destruct Hin as (E1 & E2 & E3 & Hiwf).
  split; rewrite ?E1, ?E2, ?E3, ?Hok, ?Hv; try done; auto.
  - split; auto.
  - intros _. destruct Hfl as [Hfl Hpt]. by refine (conj Hfl (conj Hpt _)).
Qed.

(** Every header of a G-PDU has been read, and its user packet decoded. *)
Lemma gtp_post_gpdu s0 pi0 s1 pi1 st s pi :
  hdr_ready s0 pi0 s1 pi1 -> pi_gtp_msg_ok pi1 = true ->
  pi_gtp_msg_type pi1 = GTPU_MSG_GPDU -> inner_post s1 pi1 st s pi ->
  gtp_post s0 pi0 st s pi.
Proof.
  intros [Hs Hc Hf ((W1a & W1b) & W2 & W3 & W4) _ Hv [Hfl Hpt]] Hok Hty
    [[Hs' Hc'] Hst Hframe Hiwf Hver Hl4 Hdok Hch Hnest].
  rewrite <- (f_equal pi_gtp_msg_ok Hframe : pi_gtp_msg_ok pi = pi_gtp_msg_ok pi1) in Hok.
  rewrite <- (f_equal pi_gtp_msg_type Hframe : pi_gtp_msg_type pi = pi_gtp_msg_type pi1)
    in Hty, W3.
  rewrite <- (f_equal pi_gtp_v1u Hframe : pi_gtp_v1u pi = pi_gtp_v1u pi1) in Hv.
  rewrite <- (f_equal pi_gtp_flags Hframe : pi_gtp_flags pi = pi_gtp_flags pi1)
    in Hfl, Hpt, W2.
  rewrite <- (f_equal pi_teid Hframe : pi_teid pi = pi_teid pi1) in W4.
  rewrite <- (f_equal pi_gtp_seq Hframe : pi_gtp_seq pi = pi_gtp_seq pi1) in W1a.
  rewrite <- (f_equal pi_gtp_ext_count Hframe : pi_gtp_ext_count pi = pi_gtp_ext_count pi1)
    in W1b.
  split; rewrite ?Hok, ?Hv, ?Hst; try done; auto.
  - split; [done|]. intros H0. destruct (Hc' (Hc H0)). by split.
  - rewrite <- Hf. exact (f_equal (fun p => clear_gtp_hdr (clear_gtp_opt p)) Hframe).
  - intros _. refine (conj Hfl (conj Hpt _)). by destruct st.
Qed.

(** What the optional fields and extension headers write keeps the header. *)
Lemma hdr_ready_opt s0 pi0 s1 pi1 s pi :
  hdr_ready s0 pi0 s1 pi1 -> span_ok buf s -> (complete s1 -> complete s) ->
  clear_gtp_opt pi = clear_gtp_opt pi1 -> gtp_opt_wf pi -> hdr_ready s0 pi0 s pi.
Proof.
  intros [Hs1 Hc1 Hf1 (_ & W2 & W3 & W4) Hin Hv [Hfl Hpt]] Hs Hc Hf Hwf.
  rewrite <- (f_equal pi_gtp_msg_type Hf : pi_gtp_msg_type pi = pi_gtp_msg_type pi1) in W3.
  rewrite <- (f_equal pi_gtp_v1u Hf : pi_gtp_v1u pi = pi_gtp_v1u pi1) in Hv.
  rewrite <- (f_equal pi_gtp_flags Hf : pi_gtp_flags pi = pi_gtp_flags pi1)
    in Hfl, Hpt, W2.
  rewrite <- (f_equal pi_teid Hf : pi_teid pi = pi_teid pi1) in W4.
  split; auto.
  - rewrite <- Hf1. exact (f_equal clear_gtp Hf).
  - change (fresh_inner (clear_gtp_opt pi)). by rewrite Hf.
Qed.

Definition gtp_zero (pi : packet_info) : Prop :=
  pi_gtp_v1u pi = false /\ pi_gtp_msg_ok pi = false /\ gtp_opt_wf pi /\
  fresh_inner pi /\ is_byte (pi_gtp_flags pi) /\ is_byte (pi_gtp_msg_type pi) /\
  is_u 32 (pi_teid pi).

(** The message stops before a GTPv1-U header is recognised. *)
Lemma gtp_post_early s pi st :
  span_ok buf s -> gtp_zero pi -> (complete s -> ~ truncation st) ->
  st = DEC_OK \/ st = DEC_TRUNC_GTPU -> gtp_post s pi st s pi.
Proof.
  intros Hs (Hv & Hok & Hopt & (E1 & E2 & E3 & Hiwf) & W2 & W3 & W4) Htr Hst.
  split; rewrite ?E1, ?E2, ?E3, ?Hok, ?Hv; try done; auto.
  - split; auto.
  - by destruct Hst as [-> | ->].
  - by destruct Hst as [-> | ->].
Qed.

(** The rest of [decode_gtpu] once the fixed header has been read. *)
Lemma gtpu_body_safe s0 pi0 s1 pi1 flags :
  hdr_ready s0 pi0 s1 pi1 -> pi_gtp_msg_ok pi1 = false ->
  wp (gtpu_opt buf flags)
     (fun o => wp match o with
        | inl st => mret st
        | inr next =>
          r ← gtpu_ext_loop buf (S (Z.to_nat GTPU_MAX_EXT_HEADERS)) next 0;
          match r with
          | inl st => mret st
          | inr _ =>
            SET pi_gtp_msg_ok := true;;
            pi ← get_pi;
            RETURN_IF negb (pi_gtp_msg_type pi =? GTPU_MSG_GPDU) WITH DEC_OK;;
            decode_gtpu_inner buf
          end
        end (fun st d => gtp_post s0 pi0 st (ds_span d) (ds_pi d)))
     (DState s1 pi1).
Proof.
  intros Hr Hok. pose proof Hr as [Hs1 Hc1 _ (Hopt & _) _ _ _].
  eapply wp_mono; [by apply gtpu_opt_safe|].
  intros [st|next] [s2 pi2] (Hs2 & Hc2 & Hf2 & Hwf2 & Hres); cbn [ds_span ds_pi] in *.
  all: assert (Hr2 : hdr_ready s0 pi0 s2 pi2) by (by eapply hdr_ready_opt).
  all: assert (Hok2 : pi_gtp_msg_ok pi2 = false)
    by (rewrite <- Hok; exact (f_equal pi_gtp_msg_ok Hf2)).
  { apply wp_ret. destruct Hres as [Hst Htr].
    apply gtp_post_hdr; auto. by destruct st. }
  apply wp_bind. eapply wp_mono; [by apply gtpu_ext_loop_safe|].
  intros [st|[]] [s3 pi3] (Hs3 & Hc3 & Hf3 & Hwf3 & Hres3); cbn [ds_span ds_pi] in *.
  all: assert (Hr3 : hdr_ready s0 pi0 s3 pi3) by (by eapply hdr_ready_opt).
  all: assert (Hok3 : pi_gtp_msg_ok pi3 = false)
    by (rewrite <- Hok2; exact (f_equal pi_gtp_msg_ok Hf3)).
  { apply wp_ret. destruct Hres3 as [Hst Htr].
    apply gtp_post_hdr; auto; by destruct st. }
  repeat (wp_step Hbuf; cbv beta); cbn [ds_span ds_pi]; test_to_prop; pi_simpl.
  all: assert (Hr4 : hdr_ready s0 pi0 s3 (pi3 <| pi_gtp_msg_ok := true |>))
    by (destruct Hr3 as [A1 A2 A3 A4 A5 A6 A7]; split; assumption).
  - by apply gtp_post_signalling.
  - eapply wp_mono; [apply decode_gtpu_inner_safe; apply Hr4|].
    intros st [s4 pi4] Hin. by eapply gtp_post_gpdu.
Qed.

Lemma decode_gtpu_safe s pi :
  span_ok buf s -> GTPU_HDR_LEN <= sp_wire s -> gtp_zero pi ->
  wp (decode_gtpu buf) (fun st d => gtp_post s pi st (ds_span d) (ds_pi d))
     (DState s pi).
Proof.
  intros Hs Hw Hz. pose proof Hz as (Hv & Hok & Hopt & Hin & W2 & W3 & W4).
  unfold decode_gtpu. consts. repeat (wp_step Hbuf; cbv beta).
  all: cbn [ds_span ds_pi]; pi_simpl.
  1: by apply gtp_post_early; [..|by vm_compute|left].
  4: lia.
  3: { apply gtp_post_early; auto. unfold complete. lia. }
  all: apply orb_false_iff in H1 as [Hver Hpt]; test_to_prop.
  all: assert (Hb : u8 b = b) by (by apply wrap_small).
  all: rewrite size_sub_hdr in * by (auto; lia).
  - apply gtp_post_hdr; [|by pi_simpl|done|by vm_compute].
    split; pi_simpl; rewrite ?Hb; auto.
  - apply gtpu_body_safe; [|by pi_simpl].
    split; pi_simpl; rewrite ?Hb; auto.
    + apply span_ok_clip; [by apply span_ok_advance; [|lia]|simpl; unfold is_u in *; lia].
    + intros Hc. apply complete_clip; [by apply complete_advance|simpl; lia].
Qed.

(** ** Link layer *)

(** The state before [decode_network]: only the link layer has been written. *)
Definition l2_wf (pi : packet_info) : Prop :=
  0 <= pi_vlan_count pi <= DECODE_MAX_VLANS /\ length (pi_vlan_ids pi) = 2%nat /\
  Forall (is_u 12) (pi_vlan_ids pi) /\ is_u 16 (pi_ethertype pi).

Definition gtp_unset (pi : packet_info) : Prop :=
  pi_is_gtpu pi = false /\ pi_gtp_status pi = DEC_OK /\ gtp_zero pi.

Record l2_ready (s : span) (pi : packet_info) : Prop := {
  l2_span : span_ok buf s;
  l2_fields : l2_wf pi;
  l2_fresh : fresh_ip pi;
  l2_gtp : gtp_unset pi
}.

Definition is_l2_status (st : decode_status) : bool :=
  match st with
  | DEC_TRUNC_ETHERNET | DEC_TRUNC_VLAN | DEC_BAD_SHORT_FRAME | DEC_BAD_VLAN_DEPTH => true
  | _ => false
  end.

Lemma l2_ready_status s pi st : l2_ready s pi -> l2_ready s (pi <| pi_status := st |>).
Proof.
  intros [Hs H2 Hf Hg]. split; [done|exact H2| |exact Hg].
  exact (f_equal (fun p => p <| pi_status := st |>) Hf).
Qed.

(** The VLAN loop.  Its state is the number of tags recorded. *)
Lemma vlan_loop_safe fuel type s pi :
  l2_ready s pi -> is_u 16 type -> pi_has_l2 pi = false ->
  Z.of_nat fuel + pi_vlan_count pi = DECODE_MAX_VLANS + 1 ->
  wp (vlan_loop buf fuel type)
     (fun r d => l2_ready (ds_span d) (ds_pi d) /\ pi_has_l2 (ds_pi d) = false /\
                 (complete s -> complete (ds_span d)) /\
                 match r with
                 | inl st => is_l2_status st = true /\ pi_status (ds_pi d) = st /\
                             (complete s -> ~ truncation st)
                 | inr type => is_u 16 type
                 end) (DState s pi).
Proof.
  revert type s pi. induction fuel as [|fuel IH]; intros type s pi Hr Ht H2 Hfuel.
  { destruct Hr as [_ (Hv & _) _ _]. lia. }
  pose proof Hr as [Hs (Hv & Hlen & Hids & Het) Hf Hg].
  cbn [vlan_loop]. consts. repeat (wp_step Hbuf; cbv beta).
  all: cbn [ds_span ds_pi]; unfold DECODE_MAX_VLANS in *; test_to_prop; pi_simpl.
  all: try lia.
  all: try (assert (Hids' : Forall (is_u 12)
             (<[Z.to_nat (pi_vlan_count pi):=Z.land v 0x0FFF]> (pi_vlan_ids pi)))
    by (apply Forall_insert; [done|apply (land_ones_is_u 12); lia])).
  3: { assert (Hc : u8 (pi_vlan_count pi + 1) = pi_vlan_count pi + 1)
         by (apply wrap_small; unfold is_u; simpl; lia).
       rewrite Hc. eapply wp_mono; [apply IH; [|done|done|pi_simpl; lia]|].
       - split; [apply span_ok_advance; [done|lia]| | |exact Hg].
         + unfold l2_wf, DECODE_MAX_VLANS. pi_simpl. rewrite length_insert.
           repeat (split; [first [done|lia]|]). done.
         + exact (f_equal (fun p => p <| pi_status := DEC_OK |>
             <| pi_vlan_ids := <[Z.to_nat (pi_vlan_count pi):=Z.land v 4095]> (pi_vlan_ids pi) |>
             <| pi_vlan_count := pi_vlan_count pi + 1 |>) Hf).
       - cbv beta. intros r d (A1 & A2 & A3 & A4). split; [done|]. split; [done|].
         split; [intros Hc0; by apply A3, complete_advance|].
         destruct r; [|done]. destruct A4 as (A5 & A6 & A7). repeat split; try done.
         intros Hc0. by apply A7, complete_advance. }
  1: done.
  all: split; [apply l2_ready_status; assumption|]; split; [done|]; split; [done|].
  all: split; [done|]; split; [done|]; intros Hc;
    first [ by vm_compute | exfalso; unfold complete in Hc; lia ].
Qed.

(** ** The whole frame *)

Definition is_frame_status (st : decode_status) : bool := is_l2_status st || is_ip_status st.

(** The ethertypes of IP. *)
Definition ip_type (type : Z) : bool := (type =? ETHERTYPE_IPV4) || (type =? ETHERTYPE_IPV6).

(** What [decode_frame] guarantees of its result.  [full] says the frame was
    captured in full. *)
Record packet_ok (full : Prop) (st : decode_status) (pi : packet_info) : Prop := {
  po_ret : pi_status pi = st;
  po_status : is_frame_status st = true;
  po_full : full -> ~ truncation st /\ ~ truncation (pi_gtp_status pi);
  po_l2 : l2_wf pi;
  po_ip : ip_wf pi;
  po_tail : v4_tail_zero pi;
  po_ok : st = DEC_OK -> pi_has_l2 pi = true;
  po_l3 : pi_has_l3 pi = true ->
          pi_has_l2 pi = true /\ (pi_ip_version pi = 4 \/ pi_ip_version pi = 6);
  po_l4 : pi_has_l4 pi = true ->
          pi_has_l3 pi = true /\ st = DEC_OK /\ pi_frag pi <> FRAG_LATER;
  po_chain : is_chain_status st = true ->
             pi_has_l3 pi = true /\ pi_ip_version pi = 6 /\ pi_ip_proto pi = 0;
  po_short : st = DEC_BAD_SHORT_FRAME -> pi_has_l3 pi = false;
  po_type : pi_has_l2 pi = true -> pi_has_l3 pi = false ->
            status_eqb st DEC_OK = negb (ip_type (pi_ethertype pi));
  po_gtpu : pi_is_gtpu pi = true ->
            st = DEC_OK /\ pi_frag pi = FRAG_NONE /\ decode_is_gtpu_port pi = true /\
            exists s0 pi0 s, gtp_post s0 pi0 (pi_gtp_status pi) s pi;
  po_no_gtpu : pi_is_gtpu pi = false -> gtp_unset pi
}.

(** A result decoded without GTP-U. *)
Lemma packet_ok_no_gtpu full st pi :
  pi_status pi = st -> is_frame_status st = true -> (full -> ~ truncation st) ->
  l2_wf pi -> ip_wf pi -> v4_tail_zero pi -> gtp_unset pi ->
  (st = DEC_OK -> pi_has_l2 pi = true) ->
  (pi_has_l3 pi = true ->
   pi_has_l2 pi = true /\ (pi_ip_version pi = 4 \/ pi_ip_version pi = 6)) ->
  (pi_has_l4 pi = true -> pi_has_l3 pi = true /\ st = DEC_OK /\ pi_frag pi <> FRAG_LATER) ->
  (is_chain_status st = true ->
   pi_has_l3 pi = true /\ pi_ip_version pi = 6 /\ pi_ip_proto pi = 0) ->
  (st = DEC_BAD_SHORT_FRAME -> pi_has_l3 pi = false) ->
  (pi_has_l2 pi = true -> pi_has_l3 pi = false -> status_eqb st DEC_OK = negb (ip_type (pi_ethertype pi))) ->
  packet_ok full st pi.
Proof.
  intros Hret Hst Htr H2 Hip Ht Hg Hok Hl3 Hl4 Hch Hsh Hty.
  pose proof Hg as (Hng & Hgs & _).
  split; auto; [|congruence].
  intros Hfull. split; [auto|]. rewrite Hgs. by vm_compute.
Qed.

(** A frame rejected by the link layer. *)
Lemma packet_ok_l2 full st s pi :
  l2_ready s pi -> pi_has_l2 pi = false -> pi_status pi = st -> is_l2_status st = true ->
  (full -> ~ truncation st) -> packet_ok full st pi.
Proof.
  intros [Hs H2 Hf Hg] Hno Hret Hst Htr.
  destruct (fresh_ip_wf pi Hf) as (E3 & E4 & Efr & Ev & Ep & Es & Ed & Hwf).
  apply packet_ok_no_gtpu; auto; rewrite ?E3, ?E4; try done.
  - unfold is_frame_status. by rewrite Hst.
  - unfold v4_tail_zero. by rewrite Ev.
  - by destruct st.
  - by destruct st.
  - by rewrite Hno.
Qed.

(** The last step of [decode_network]: store the status, and decode GTP-U if
    the packet carries it. *)
Definition network_tail (st : decode_status) : D decode_status :=
  SET pi_status := st;;
  pi ← get_pi; s ← get_span;
  if status_eqb (pi_status pi) DEC_OK && bool_decide (pi_frag pi = FRAG_NONE) &&
     decode_is_gtpu_port pi && (sp_wire s >=? UDP_HDR_LEN + GTPU_HDR_LEN)
  then
    SET pi_is_gtpu := true;;
    _ ← do_advance buf UDP_HDR_LEN;
    gst ← decode_gtpu buf;
    SET pi_gtp_status := gst;;
    pi ← get_pi; mret (pi_status pi)
  else mret (pi_status pi).

(** A result decoded with GTP-U: [pi1] is the packet before [decode_gtpu]. *)
Lemma packet_ok_gtpu full s1 pi1 gst s pi :
  gtp_post s1 pi1 gst s pi -> packet_ok full DEC_OK (pi1 <| pi_is_gtpu := false |>) ->
  pi_is_gtpu pi1 = true -> pi_frag pi1 = FRAG_NONE -> decode_is_gtpu_port pi1 = true ->
  (full -> complete s1) ->
  packet_ok full (pi_status pi) (pi <| pi_gtp_status := gst |>).
Proof.
  intros Hg [Hret _ Hfull H2 Hip Ht Hok Hl3 Hl4 _ _ Hty _ _] Hgu Hfr Hport Hcomp.
  pose proof (g_frame _ _ _ _ _ Hg) as Hframe.
  assert (Est : pi_status pi = DEC_OK) by (rewrite <- Hret; exact (f_equal pi_status Hframe)).
  assert (Egu : pi_is_gtpu pi = true) by (rewrite <- Hgu; exact (f_equal pi_is_gtpu Hframe)).
  rewrite Est. split; try done; pi_simpl.
  - intros Hf. split; [by vm_compute|]. apply (g_span _ _ _ _ _ Hg). auto.
  - change (l2_wf (clear_gtp pi)). by rewrite Hframe.
  - change (ip_wf (clear_gtp pi)). by rewrite Hframe.
  - change (v4_tail_zero (clear_gtp pi)). by rewrite Hframe.
  - intros _. rewrite (f_equal pi_has_l2 Hframe : pi_has_l2 pi = pi_has_l2 pi1). by apply Hok.
  - change (pi_has_l3 (clear_gtp pi) = true ->
            pi_has_l2 (clear_gtp pi) = true /\
            (pi_ip_version (clear_gtp pi) = 4 \/ pi_ip_version (clear_gtp pi) = 6)).
    by rewrite Hframe.
  - change (pi_has_l4 (clear_gtp pi) = true ->
            pi_has_l3 (clear_gtp pi) = true /\ DEC_OK = DEC_OK /\
            pi_frag (clear_gtp pi) <> FRAG_LATER).
    by rewrite Hframe.
  - change (pi_has_l2 (clear_gtp pi) = true -> pi_has_l3 (clear_gtp pi) = false ->
            status_eqb DEC_OK DEC_OK = negb (ip_type (pi_ethertype (clear_gtp pi)))).
    by rewrite Hframe.
  - intros _. split; [done|].
    rewrite (f_equal pi_frag Hframe : pi_frag pi = pi_frag pi1). split; [done|].
    split.
    + change (decode_is_gtpu_port (clear_gtp pi) = true). by rewrite Hframe.
    + exists s1, (pi1 <| pi_gtp_status := gst |>), s.
      destruct Hg as [A1 A2 A3 A4 A5 A6 A7 A8 A9 A10 A11 A12 A13].
      split; try assumption. exact (f_equal (fun p => p <| pi_gtp_status := gst |>) A3).
  - congruence.
Qed.

Lemma network_tail_safe (full : Prop) s0 pi0 st s pi :
  l2_ready s0 pi0 -> pi_has_l2 pi0 = true -> ip_type (pi_ethertype pi0) = true -> (full -> complete s0) ->
  ip_post s0 pi0 st s pi ->
  wp (network_tail st) (fun st d => packet_ok full st (ds_pi d)) (DState s pi).
Proof.
  intros [_ H2 _ Hg] Hl2 Hty Hfull [[Hs Hc] Hst Hframe Hwf Ht Hv Hl4 Hok Hudp Hch Hsh].
  assert (Hpo : packet_ok full st (pi <| pi_status := st |>)).
  { apply packet_ok_no_gtpu; pi_simpl; auto.
    - unfold is_frame_status. rewrite Hst. apply orb_true_r.
    - intros Hf. by apply Hc, Hfull.
    - change (l2_wf (clear_ip pi)). by rewrite Hframe.
    - change (gtp_unset (clear_ip pi)). by rewrite Hframe.
    - intros _. by rewrite (f_equal pi_has_l2 Hframe : pi_has_l2 pi = pi_has_l2 pi0).
    - intros H3. split; [|auto].
      by rewrite (f_equal pi_has_l2 Hframe : pi_has_l2 pi = pi_has_l2 pi0).
    - intros _ H3. rewrite (f_equal pi_ethertype Hframe : pi_ethertype pi = pi_ethertype pi0), Hty.
      unfold status_eqb. apply bool_decide_false. intros E. rewrite Hok in H3; done. }
  assert (Hgz : gtp_unset pi).
  { change (gtp_unset (clear_ip pi)). by rewrite Hframe. }
  destruct Hgz as (Hgu & Hgs & Hgz).
  unfold network_tail. consts. repeat (wp_step Hbuf; cbv beta); cbn [ds_span ds_pi];
    pi_simpl; [| |exact Hpo].
  all: test_to_prop; subst st.
  all: match goal with H : decode_is_gtpu_port ?p = true |- _ =>
         pose proof H as Hport; unfold decode_is_gtpu_port in Hport; pi_simpl end.
  all: apply andb_true_iff in Hport as [Hport _]; apply andb_true_iff in Hport as [H4 Hp];
    apply Z.eqb_eq in Hp; specialize (Hudp H4 Hp ltac:(assumption)); unfold UDP_HDR_LEN in Hudp.
  { lia. }
  eapply wp_mono; [apply decode_gtpu_safe;
                   [by apply span_ok_advance; [|lia]|simpl; unfold GTPU_HDR_LEN; lia|exact Hgz]|].
  intros gst [s2 pi2] Hgp. cbn [ds_pi] in *.
  apply wp_bind, wp_modify, wp_bind, wp_get_pi, wp_ret. pi_simpl.
  eapply packet_ok_gtpu; [exact Hgp| |done|by pi_simpl|done|].
  - destruct Hpo as [A1 A2 A3 A4 A5 A6 A7 A8 A9 A10 A11 A12 A13 A14].
    split; try assumption; pi_simpl; try congruence. intros _.
    exact (conj eq_refl (conj Hgs Hgz)).
  - intros Hf. apply complete_advance, Hc; auto.
Qed.

(** A frame that carries neither IPv4 nor IPv6. *)
Lemma network_tail_other (full : Prop) s pi :
  l2_ready s pi -> pi_has_l2 pi = true -> ip_type (pi_ethertype pi) = false ->
  wp (network_tail DEC_OK) (fun st d => packet_ok full st (ds_pi d)) (DState s pi).
Proof.
  intros [Hs H2 Hf Hg] Hl2 Hty.
  destruct (fresh_ip_wf pi Hf) as (E3 & E4 & Efr & Ev & Ep & Es & Ed & Hwf).
  unfold network_tail.
  apply wp_bind, wp_modify, wp_bind, wp_get_pi, wp_bind, wp_get_span.
  replace (decode_is_gtpu_port _) with false
    by (unfold decode_is_gtpu_port; pi_simpl; by rewrite E4).
  rewrite andb_false_r. apply wp_ret. cbn [ds_pi]. pi_simpl.
  apply packet_ok_no_gtpu; try done; pi_simpl; rewrite ?E3, ?E4; try done.
  - unfold v4_tail_zero. pi_simpl. by rewrite Ev.
  - intros _ _. by rewrite Hty.
Qed.

Lemma decode_network_safe (full : Prop) s pi type :
  l2_ready s pi -> pi_has_l2 pi = true -> pi_ethertype pi = type -> (full -> complete s) ->
  wp (decode_network buf type) (fun st d => packet_ok full st (ds_pi d)) (DState s pi).
Proof.
  intros Hr H2 Hty Hfull. pose proof Hr as [Hs _ Hf _].
  change (decode_network buf type) with
    (st ← (if type =? ETHERTYPE_IPV4 then decode_ipv4 buf
           else if type =? ETHERTYPE_IPV6 then decode_ipv6 buf else mret DEC_OK);
     network_tail st).
  apply wp_bind. apply wp_if; intros H4; [|apply wp_if; intros H6].
  - eapply wp_mono; [by apply decode_ipv4_safe|]. intros st [s' pi'] Hip.
    eapply network_tail_safe; try done. unfold ip_type. by rewrite Hty, H4.
  - eapply wp_mono; [by apply decode_ipv6_safe|]. intros st [s' pi'] Hip.
    eapply network_tail_safe; try done. unfold ip_type. by rewrite Hty, H6, orb_true_r.
  - apply wp_ret. apply network_tail_other; try done. unfold ip_type. by rewrite Hty, H4, H6.
Qed.

Lemma l2_ready_zero s : span_ok buf s -> l2_ready s packet_info_zero.
Proof.
  intros Hs. split; [done| |reflexivity|]; repeat split;
    simpl; try (unfold is_u, DECODE_MAX_VLANS; simpl; lia); try done; by repeat constructor.
Qed.

Lemma decode_frame_body_safe s :
  span_ok buf s ->
  wp (decode_frame_body buf) (fun st d => packet_ok (complete s) st (ds_pi d))
     (DState s packet_info_zero).
Proof.
  intros Hs. pose proof (l2_ready_zero s Hs) as Hz.
  unfold decode_frame_body. consts. repeat (wp_step Hbuf; cbv beta).
  2-3: cbn [ds_pi]; eapply packet_ok_l2; [by apply l2_ready_status|done|done|done|].
  2-3: intros Hc; first [ by vm_compute | exfalso; unfold complete in Hc; lia ].
  eapply wp_mono; [apply vlan_loop_safe; try done|].
  { apply l2_ready_status. apply l2_ready_zero, span_ok_advance; [done|lia]. }
  intros [st|type] [s2 pi2] (Hr2 & H2 & Hc2 & Hres); cbn [ds_span ds_pi] in *.
  - destruct Hres as (Hst & Hret & Htr). apply wp_ret. cbn [ds_pi].
    eapply packet_ok_l2; [done..|]. intros Hc. by apply Htr, complete_advance.
  - apply wp_bind, wp_modify, wp_bind, wp_modify. cbn [ds_span ds_pi].
    eapply decode_network_safe; [|done| |intros Hc; by apply Hc2, complete_advance].
    2:{ cbn. by apply wrap_small. }
    destruct Hr2 as [Hs2 (Hv & Hlen & Hids & _) Hf Hg].
    split; [done| | |exact Hg].
    + repeat (split; [by first [exact Hv|exact Hlen|exact Hids]|]). by apply wrap_is_u.
    + exact (f_equal (fun p => p <| pi_ethertype := u16 type |> <| pi_has_l2 := true |>) Hf).
Qed.
End Safe.
