(* ===== verification/DecodeProps.v ===== *)
(** What [decode_frame] promises for every frame: the checks of the fuzzer's
    [check_invariants] (src/fuzz/fuzz_decode.c) as a boolean definition, and the
    theorems that they can never fail. *)
From S2P Require Export DecodeSafe.

(** [check_invariants]: [true] when none of its calls to [fail] is reached. *)
Definition check_invariants (pi : packet_info) (st : decode_status) (complete : bool) : bool :=
  status_eqb st (pi_status pi) &&
  (status_val st <? status_val DEC_STATUS_COUNT) &&
  (pi_vlan_count pi <=? DECODE_MAX_VLANS) &&
  negb (pi_has_l4 pi && negb (pi_has_l3 pi)) &&
  negb (pi_has_l3 pi && negb (pi_has_l2 pi)) &&
  negb (pi_has_l3 pi && negb (pi_ip_version pi =? 4) && negb (pi_ip_version pi =? 6)) &&
  negb (bool_decide (pi_frag pi = FRAG_LATER) && pi_has_l4 pi) &&
  negb (status_eqb st DEC_OK && negb (pi_has_l2 pi)) &&
  negb (complete && decode_status_is_truncation st) &&
  (status_val (pi_gtp_status pi) <? status_val DEC_STATUS_COUNT) &&
  negb (pi_is_gtpu pi && (negb (status_eqb st DEC_OK) ||
                          negb (bool_decide (pi_frag pi = FRAG_NONE)) ||
                          negb (decode_is_gtpu_port pi))) &&
  negb (negb (pi_is_gtpu pi) && (negb (status_eqb (pi_gtp_status pi) DEC_OK) ||
                                 pi_gtp_v1u pi || pi_gtp_msg_ok pi || pi_has_inner pi)) &&
  negb (pi_gtp_msg_ok pi && negb (pi_gtp_v1u pi)) &&
  negb (pi_gtp_v1u pi &&
        negb (Bool.eqb (pi_gtp_msg_ok pi) (negb (is_gtpu_header_problem (pi_gtp_status pi))))) &&
  negb (pi_gtp_msg_ok pi && negb (pi_gtp_msg_type pi =? GTPU_MSG_GPDU) &&
        negb (status_eqb (pi_gtp_status pi) DEC_OK)) &&
  negb (pi_has_inner pi && negb (pi_gtp_msg_ok pi)) &&
  negb (pi_has_inner pi && (negb (pi_gtp_v1u pi) ||
                            negb (pi_gtp_msg_type pi =? GTPU_MSG_GPDU))) &&
  negb (pi_has_inner pi && negb (pi_inner_version pi =? 4) &&
        negb (pi_inner_version pi =? 6)) &&
  negb (pi_inner_has_l4 pi && negb (pi_has_inner pi)) &&
  negb (pi_gtp_nested pi &&
        negb (pi_inner_has_l4 pi && (pi_inner_proto pi =? IPPROTO_NUM_UDP) &&
              ((pi_inner_src_port pi =? GTPU_PORT) || (pi_inner_dst_port pi =? GTPU_PORT)))) &&
  (pi_gtp_ext_count pi <=? GTPU_MAX_EXT_HEADERS) &&
  negb (pi_gtp_v1u pi && status_eqb (pi_gtp_status pi) DEC_OK &&
        (pi_gtp_msg_type pi =? GTPU_MSG_GPDU) && negb (pi_has_inner pi)) &&
  negb (complete && decode_status_is_truncation (pi_gtp_status pi)).

(** A frame in memory, with the length it had on the wire. *)
Definition frame_ok (frame : bytes) (wirelen : Z) : Prop :=
  Forall is_byte frame /\ Z.of_nat (length frame) <= SIZE_MAX /\ 0 <= wirelen <= SIZE_MAX.

Abbreviation caplen_of frame := (Z.of_nat (length frame)).

(** The frame was captured in full: no byte of the wire length is missing. *)
Definition captured_in_full (frame : bytes) (wirelen : Z) : Prop := wirelen <= caplen_of frame.

(** The specification of [decode_frame] every theorem below reads off. *)
Lemma decode_frame_packet_ok frame wirelen :
  frame_ok frame wirelen ->
  exists st pi, decode_frame frame (caplen_of frame) wirelen = Some (st, pi) /\
                packet_ok frame (captured_in_full frame wirelen) st pi.
Proof.
  intros (Hb & Hcap & Hw). unfold decode_frame.
  set (s := Span _ _ _).
  assert (Hs : span_ok frame s).
  { unfold span_ok, s. simpl. rewrite Z.gtb_ltb. destruct (Z.ltb_spec (caplen_of frame) wirelen); lia. }
  assert (Hfull : captured_in_full frame wirelen -> complete s).
  { unfold captured_in_full, complete, s. simpl. rewrite Z.gtb_ltb. intros.
    destruct (Z.ltb_spec (caplen_of frame) wirelen); lia. }
  pose proof (decode_frame_body_safe frame Hb s Hs) as Hwp. unfold wp in Hwp.
  destruct (decode_frame_body frame _) as [[st d]|]; [|done].
  exists st, (ds_pi d). split; [done|].
  destruct Hwp as [A1 A2 A3 A4 A5 A6 A7 A8 A9 A10 A11 A12 A13]. split; auto.
Qed.

(** ** The fuzzer's invariants *)

Lemma status_val_lt st :
  st <> DEC_STATUS_COUNT -> (status_val st <? status_val DEC_STATUS_COUNT) = true.
Proof. by destruct st. Qed.

Lemma gtp_status_valid buf s0 pi0 st s pi :
  gtp_post buf s0 pi0 st s pi -> st <> DEC_STATUS_COUNT.
Proof. intros Hg. pose proof (g_status _ _ _ _ _ _ Hg) as H. by destruct st. Qed.

(** The GTP-U part of the invariants, from the specification of [decode_gtpu]. *)
Record gtp_facts (pi : packet_info) : Prop := {
  gf_valid : pi_gtp_status pi <> DEC_STATUS_COUNT;
  gf_other : pi_gtp_v1u pi = false -> pi_gtp_msg_ok pi = false;
  gf_v1u : pi_gtp_v1u pi = true ->
           pi_gtp_msg_ok pi = negb (is_gtpu_header_problem (pi_gtp_status pi));
  gf_signalling : pi_gtp_msg_ok pi = true -> pi_gtp_msg_type pi <> GTPU_MSG_GPDU ->
                  pi_gtp_status pi = DEC_OK;
  gf_inner : pi_has_inner pi = true ->
             pi_gtp_msg_ok pi = true /\ pi_gtp_msg_type pi = GTPU_MSG_GPDU /\
             (pi_inner_version pi = 4 \/ pi_inner_version pi = 6);
  gf_l4 : pi_inner_has_l4 pi = true -> pi_has_inner pi = true;
  gf_gpdu : pi_gtp_msg_ok pi = true -> pi_gtp_msg_type pi = GTPU_MSG_GPDU ->
            pi_gtp_status pi = DEC_OK -> pi_has_inner pi = true;
  gf_nested : pi_gtp_nested pi = true ->
              pi_inner_has_l4 pi = true /\ pi_inner_proto pi = IPPROTO_NUM_UDP /\
              (pi_inner_src_port pi = GTPU_PORT \/ pi_inner_dst_port pi = GTPU_PORT);
  gf_ext : pi_gtp_ext_count pi <= GTPU_MAX_EXT_HEADERS;
  gf_fields : gtp_opt_wf pi /\ inner_wf pi /\ is_byte (pi_gtp_flags pi) /\
              is_byte (pi_gtp_msg_type pi) /\ is_u 32 (pi_teid pi);
  gf_chain : is_chain_status (pi_gtp_status pi) = true ->
             pi_has_inner pi = true /\ pi_inner_version pi = 6 /\ pi_inner_proto pi = 0
}.

Lemma gtp_facts_ok buf full st pi : packet_ok buf full st pi -> gtp_facts pi.
Proof.
  intros Hp. destruct (pi_is_gtpu pi) eqn:Eg.
  - destruct (po_gtpu _ _ _ _ Hp Eg) as (_ & _ & _ & s0 & pi0 & s & Hg).
    pose proof (gtp_status_valid _ _ _ _ _ _ Hg) as Hval.
    destruct Hg as [A1 A2 A3 A4 A5 A6 A7 A8 A9 A10 A11 A12 A13]. split; auto.
    + intros H. by apply A5.
    + intros H. by apply A6.
    + intros H. destruct (A8 H). auto.
    + by destruct A4 as [[_ [_ ?]] _].
  - destruct (po_no_gtpu _ _ _ _ Hp Eg) as (_ & Hst & (Hv & Hok & Hopt & (E1 & E2 & E3 & Hi) & F)).
    split; rewrite ?Hst, ?E1, ?E2, ?E3, ?Hok, ?Hv; try done. by destruct Hopt as [_ [_ ?]].
Qed.

(** Refute one call of [fail]. *)
Ltac refute_fail :=
  apply negb_true_iff, not_true_is_false; let H := fresh "H" in intros H;
  test_to_prop; try done.

(** Forward chaining through the facts, then contradiction. *)
Ltac chain :=
  repeat match goal with
  | H : ?P -> _, H' : ?P |- _ => specialize (H H')
  | H : ?x <> ?x -> _ |- _ => clear H
  | H : _ /\ _ |- _ => destruct H
  end; repeat match goal with H : _ \/ _ |- _ => destruct H end.

Lemma check_invariants_ok buf full st pi complete :
  packet_ok buf full st pi -> (complete = true -> full) ->
  check_invariants pi st complete = true.
Proof.
  intros Hp Hc. pose proof (gtp_facts_ok _ _ _ _ Hp) as [G1 G2 G3 G4 G5 G6 G7 G8 G9 _].
  destruct Hp as [P1 P2 P3 P4 P5 _ P7 P8 P9 _ _ _ P12 P13].
  assert (Hst : st <> DEC_STATUS_COUNT) by (by intros ->).
  unfold gtp_unset, gtp_zero, fresh_inner in P13. unfold check_invariants.
  repeat (apply andb_true_intro; split).
  all: try refute_fail; try (by apply status_val_lt).
  all: repeat match goal with H : Bool.eqb _ _ = false |- _ => apply Bool.eqb_false_iff in H end.
  all: try (chain; (done || congruence)).
  all: try (apply Z.leb_le; done || apply P4). all: try (by apply bool_decide_eq_true).
  specialize (G3 ltac:(assumption)). rewrite H2 in G3.
  change (pi_gtp_msg_ok pi = true) in G3. chain; congruence.
Qed.

(** ** Properties *)

(** C1. [decode_frame] is memory-safe and total: for every frame and every wire
    length, no load and no pointer leaves the [caplen] bytes of the frame, every
    loop ends within its bound, and the status returned is [pi->status]. *)
Theorem decode_frame_safe frame wirelen :
  frame_ok frame wirelen ->
  exists st pi, decode_frame frame (caplen_of frame) wirelen = Some (st, pi) /\
                pi_status pi = st.
Proof.
  intros Hf. destruct (decode_frame_packet_ok frame wirelen Hf) as (st & pi & E & Hp).
  exists st, pi. split; [done|]. apply Hp.
Qed.

(** C14. The invariants the fuzzer checks hold of every result: for any frame
    and wire length no call of [fail] in [check_invariants] can be reached, with
    [complete] set when the frame was captured in full. *)
Theorem decode_frame_invariants frame wirelen st pi :
  frame_ok frame wirelen ->
  decode_frame frame (caplen_of frame) wirelen = Some (st, pi) ->
  check_invariants pi st (caplen_of frame >=? wirelen) = true.
Proof.
  intros Hf E. destruct (decode_frame_packet_ok frame wirelen Hf) as (st' & pi' & E' & Hp).
  rewrite E in E'. injection E' as <- <-.
  eapply check_invariants_ok; [exact Hp|]. unfold captured_in_full.
  rewrite Z.geb_leb, Z.leb_le. lia.
Qed.

(** C40. Every field of the result fits its C type and its documented range: at
    most two VLAN tags with 12-bit identifiers, 8-bit protocol numbers, 16-bit
    ports, 32-bit identifiers, and 16-byte address arrays of which IPv4 uses the
    first four bytes, in the outer header and in the user packet. *)
Theorem decode_frame_fields frame wirelen st pi :
  frame_ok frame wirelen ->
  decode_frame frame (caplen_of frame) wirelen = Some (st, pi) ->
  l2_wf pi /\ ip_wf pi /\ v4_tail_zero pi /\ gtp_opt_wf pi /\ inner_wf pi /\
  is_byte (pi_gtp_flags pi) /\ is_byte (pi_gtp_msg_type pi) /\ is_u 32 (pi_teid pi).
Proof.
  intros Hf E. destruct (decode_frame_packet_ok frame wirelen Hf) as (st' & pi' & E' & Hp).
  rewrite E in E'. injection E' as <- <-.
  destruct (gf_fields _ (gtp_facts_ok _ _ _ _ Hp)) as (F1 & F2 & F3 & F4 & F5).
  destruct Hp. auto 10.
Qed.

(** A broken IPv6 extension chain leaves the protocol 0, for the outer
    header and for the user packet of a tunnel, while the addresses stay valid;
    and a frame too short for a fixed header never counts as an IP packet. *)
Lemma decode_frame_chain frame wirelen st pi :
  frame_ok frame wirelen ->
  decode_frame frame (caplen_of frame) wirelen = Some (st, pi) ->
  (is_chain_status st = true ->
     pi_has_l3 pi = true /\ pi_ip_version pi = 6 /\ pi_ip_proto pi = 0) /\
  (is_chain_status (pi_gtp_status pi) = true ->
     pi_has_inner pi = true /\ pi_inner_version pi = 6 /\ pi_inner_proto pi = 0) /\
  (st = DEC_BAD_SHORT_FRAME -> pi_has_l3 pi = false).
Proof.
  intros Hf E. destruct (decode_frame_packet_ok frame wirelen Hf) as (st' & pi' & E' & Hp).
  rewrite E in E'. injection E' as <- <-.
  split; [apply Hp|]. split; [apply (gtp_facts_ok _ _ _ _ Hp)|apply Hp].
Qed.
