(* ===== verification/DecodeMono.v ===== *)
(** Snapshot monotonicity of the decoder: the decode of the first [k] bytes of a
    frame is either blamed on the capture or is the decode of the whole frame.
    The proof is a simulation between the run on [take k frame] and the run on
    [frame], one rule per primitive of the decoder monad. *)
From S2P Require Export DecodeProps.

Section Mono.
Context (buf : bytes) (Hbuf : Forall is_byte buf) (k : nat) (Hk : (k <= length buf)%nat).
Abbreviation small := (take k buf).

(** The two spans differ only in [cap]. *)
Definition caps (c1 c2 w : Z) : Prop := 0 <= c1 <= c2 /\ c2 <= w <= SIZE_MAX.

(** [m1] on the snapshot either ends as [T] says, blamed on the capture, or is
    matched by [m2] on the frame with the same result and the same packet. *)
Definition rwp {A} (m1 m2 : D A) (T : A -> packet_info -> Prop)
           (p w c1 c2 : Z) (pi : packet_info) : Prop :=
  forall a d1, m1 (DState (Span p c1 w) pi) = Some (a, d1) ->
    T a (ds_pi d1) \/
    exists p' w' c1' c2' pi', d1 = DState (Span p' c1' w') pi' /\
      m2 (DState (Span p c2 w) pi) = Some (a, DState (Span p' c2' w') pi') /\
      caps c1' c2' w'.

Section Rules.
Context {A : Type} (T : A -> packet_info -> Prop) (p w c1 c2 : Z) (pi : packet_info).
Context (Hc : caps c1 c2 w).

Lemma rwp_ret a : rwp (mret a) (mret a) T p w c1 c2 pi.
Proof. intros b d [= <- <-]. right. by exists p, w, c1, c2, pi. Qed.

Lemma rwp_trunc (a : A) m2 : T a pi -> rwp (mret a) m2 T p w c1 c2 pi.
Proof. intros HT b d [= <- <-]. by left. Qed.

Lemma rwp_ret_bind {B} (b : B) (k1 k2 : B -> D A) :
  rwp (k1 b) (k2 b) T p w c1 c2 pi ->
  rwp (mret b ≫= k1) (mret b ≫= k2) T p w c1 c2 pi.
Proof. done. Qed.

Lemma rwp_assoc {B C} (m1 m2 : D C) (f1 f2 : C -> D B) (k1 k2 : B -> D A) :
  rwp (m1 ≫= fun c => f1 c ≫= k1) (m2 ≫= fun c => f2 c ≫= k2) T p w c1 c2 pi ->
  rwp ((m1 ≫= f1) ≫= k1) ((m2 ≫= f2) ≫= k2) T p w c1 c2 pi.
Proof.
  unfold rwp, mbind, D_bind. intros H a d.
  specialize (H a d). destruct (m1 _) as [[c e]|]; [|done].
  intros E. destruct (H E) as [HT|(p'&w'&c1'&c2'&pi'&?&E2&?)]; [by left|].
  right. exists p', w', c1', c2', pi'. split; [done|]. split; [|done].
  by destruct (m2 _) as [[]|].
Qed.

Lemma rwp_bind {B} (T' : B -> packet_info -> Prop) (m1 m2 : D B) (k1 k2 : B -> D A) :
  rwp m1 m2 T' p w c1 c2 pi ->
  (forall b d a e, T' b (ds_pi d) -> k1 b d = Some (a, e) -> T a (ds_pi e)) ->
  (forall b p' w' c1' c2' pi', caps c1' c2' w' ->
     rwp (k1 b) (k2 b) T p' w' c1' c2' pi') ->
  rwp (m1 ≫= k1) (m2 ≫= k2) T p w c1 c2 pi.
Proof.
  unfold rwp at 1 3, mbind, D_bind. intros H HT Hk' a d.
  destruct (m1 _) as [[b e]|]; [|done]. intros E.
  destruct (H b e eq_refl) as [Hb|(p'&w'&c1'&c2'&pi'&->&->&Hc')].
  - left. by eapply HT.
  - exact (Hk' _ _ _ _ _ _ Hc' a d E).
Qed.

Lemma rwp_get_span (k1 k2 : span -> D A) :
  rwp (k1 (Span p c1 w)) (k2 (Span p c2 w)) T p w c1 c2 pi ->
  rwp (get_span ≫= k1) (get_span ≫= k2) T p w c1 c2 pi.
Proof. done. Qed.

Lemma rwp_get_pi (k1 k2 : packet_info -> D A) :
  rwp (k1 pi) (k2 pi) T p w c1 c2 pi ->
  rwp (get_pi ≫= k1) (get_pi ≫= k2) T p w c1 c2 pi.
Proof. done. Qed.

Lemma rwp_modify f (k1 k2 : unit -> D A) :
  rwp (k1 tt) (k2 tt) T p w c1 c2 (f pi) ->
  rwp (modify_pi f ≫= k1) (modify_pi f ≫= k2) T p w c1 c2 pi.
Proof. done. Qed.

Lemma rwp_if (b : bool) (x1 y1 x2 y2 : D A) :
  (b = true -> rwp x1 x2 T p w c1 c2 pi) -> (b = false -> rwp y1 y2 T p w c1 c2 pi) ->
  rwp (if b then x1 else y1) (if b then x2 else y2) T p w c1 c2 pi.
Proof. destruct b; auto. Qed.

(** A test of [cap] whose failure blames the capture. *)
Lemma rwp_cap_if (n : Z) (r : A) (k1 k2 : D A) :
  T r pi -> (n <= c1 -> rwp k1 k2 T p w c1 c2 pi) ->
  rwp (RETURN_IF n >? c1 WITH r;; k1) (RETURN_IF n >? c2 WITH r;; k2) T p w c1 c2 pi.
Proof.
  pose proof Hc as [Hc1 Hc2]. intros HT H. rewrite !Z.gtb_ltb.
  destruct (Z.ltb_spec c1 n); [by apply rwp_trunc|].
  destruct (Z.ltb_spec c2 n); [lia|auto].
Qed.

Lemma rwp_need (f : decode_status -> A) n t m (k1 k2 : D A) :
  t <> DEC_OK -> m <> DEC_OK -> T (f t) pi ->
  (n <= c1 -> rwp k1 k2 T p w c1 c2 pi) ->
  rwp (mbind (fun st => RETURN_IF negb (status_eqb st DEC_OK) WITH f st;; k1)
             (do_need n t m))
      (mbind (fun st => RETURN_IF negb (status_eqb st DEC_OK) WITH f st;; k2)
             (do_need n t m)) T p w c1 c2 pi.
Proof.
  pose proof Hc as [Hc1 Hc2]. intros Ht Hm HT Hk' a d. unfold mbind, D_bind, do_need. simpl.
  unfold need. simpl.
  destruct (Z.leb_spec n c1), (Z.leb_spec n c2); try lia; simpl.
  - by apply Hk'.
  - destruct (Z.leb_spec n w); [|lia]. unfold status_eqb.
    rewrite bool_decide_false by done. simpl. intros [= <- <-]. by left.
  - unfold status_eqb. destruct (Z.leb_spec n w);
      rewrite bool_decide_false by done; simpl; intros [= <- <-]; [by left|].
    right. by exists p, w, c1, c2, pi.
Qed.

(** The same where the status is stored in [pi->status] too. *)
Lemma rwp_need_status (f : decode_status -> A) n t m (k1 k2 : D A) :
  t <> DEC_OK -> m <> DEC_OK -> T (f t) (pi <| pi_status := t |>) ->
  (n <= c1 -> rwp k1 k2 T p w c1 c2 (pi <| pi_status := DEC_OK |>)) ->
  rwp (mbind (fun st => SET pi_status := st;;
                        RETURN_IF negb (status_eqb st DEC_OK) WITH f st;; k1)
             (do_need n t m))
      (mbind (fun st => SET pi_status := st;;
                        RETURN_IF negb (status_eqb st DEC_OK) WITH f st;; k2)
             (do_need n t m)) T p w c1 c2 pi.
Proof.
  pose proof Hc as [Hc1 Hc2]. intros Ht Hm HT Hk' a d. unfold mbind, D_bind, do_need. simpl.
  unfold need. simpl.
  destruct (Z.leb_spec n c1), (Z.leb_spec n c2); try lia; simpl.
  - by apply Hk'.
  - destruct (Z.leb_spec n w); [|lia]. unfold status_eqb.
    rewrite bool_decide_false by done. simpl. intros [= <- <-]. by left.
  - unfold status_eqb. destruct (Z.leb_spec n w);
      rewrite bool_decide_false by done; simpl; intros [= <- <-]; [by left|].
    right. by exists p, w, c1, c2, (pi <| pi_status := m |>).
Qed.

(** Reads: what the snapshot holds, the frame holds. *)
Lemma lift_sim {B} (o1 o2 : option B) (P : B -> Prop) (k1 k2 : B -> D A) :
  (forall b, o1 = Some b -> o2 = Some b /\ P b) ->
  (forall b, P b -> rwp (k1 b) (k2 b) T p w c1 c2 pi) ->
  rwp (lift o1 ≫= k1) (lift o2 ≫= k2) T p w c1 c2 pi.
Proof.
  unfold rwp, mbind, D_bind, lift. intros Ho Hk' a d.
  destruct o1 as [b|]; [|done]. destruct (Ho b eq_refl) as [-> Hb]. by apply Hk'.
Qed.

Lemma byte_at_small i b : byte_at small i = Some b -> byte_at buf i = Some b /\ is_byte b.
Proof.
  intros H. pose proof (byte_at_inv _ _ _ H) as Hi. rewrite length_take in Hi.
  rewrite byte_at_take in H by lia. split; [done|].
  destruct (byte_at_Some buf i) as (b' & E & Hb); [lia|done|]. congruence.
Qed.

Lemma load_be16_small i v : load_be16 small i = Some v -> load_be16 buf i = Some v /\ is_u 16 v.
Proof.
  unfold load_be16. destruct (byte_at small i) as [b0|] eqn:E0; [|done].
  destruct (byte_at small (i + 1)) as [b1|] eqn:E1; [|done]. simpl.
  apply byte_at_small in E0 as [-> H0]. apply byte_at_small in E1 as [-> H1]. simpl.
  intros [= <-]. auto with ints.
Qed.

Lemma load_be32_small i v : load_be32 small i = Some v -> load_be32 buf i = Some v /\ is_u 32 v.
Proof.
  unfold load_be32.
  destruct (byte_at small i) as [b0|] eqn:E0; [|done].
  destruct (byte_at small (i + 1)) as [b1|] eqn:E1; [|done].
  destruct (byte_at small (i + 2)) as [b2|] eqn:E2; [|done].
  destruct (byte_at small (i + 3)) as [b3|] eqn:E3; [|done]. simpl.
  apply byte_at_small in E0 as [-> H0]. apply byte_at_small in E1 as [-> H1].
  apply byte_at_small in E2 as [-> H2]. apply byte_at_small in E3 as [-> H3]. simpl.
  intros [= <-]. rewrite lor32 by done. auto with ints.
Qed.

Lemma bytes_at_small i n l : bytes_at small i n = Some l -> bytes_at buf i n = Some l /\ True.
Proof.
  intros H. split; [|done]. rewrite bytes_at_take in H; [done| |lia].
  unfold bytes_at in H. rewrite length_take in H. case_decide; [lia|done].
Qed.

Lemma rwp_rd i (k1 k2 : Z -> D A) :
  (forall b, is_byte b -> rwp (k1 b) (k2 b) T p w c1 c2 pi) ->
  rwp (rd small i ≫= k1) (rd buf i ≫= k2) T p w c1 c2 pi.
Proof. intros H. apply rwp_assoc, rwp_get_span. eapply lift_sim; [apply byte_at_small|done]. Qed.

Lemma rwp_rd16 i (k1 k2 : Z -> D A) :
  (forall v, is_u 16 v -> rwp (k1 v) (k2 v) T p w c1 c2 pi) ->
  rwp (rd16 small i ≫= k1) (rd16 buf i ≫= k2) T p w c1 c2 pi.
Proof. intros H. apply rwp_assoc, rwp_get_span. eapply lift_sim; [apply load_be16_small|done]. Qed.

Lemma rwp_rd32 i (k1 k2 : Z -> D A) :
  (forall v, is_u 32 v -> rwp (k1 v) (k2 v) T p w c1 c2 pi) ->
  rwp (rd32 small i ≫= k1) (rd32 buf i ≫= k2) T p w c1 c2 pi.
Proof. intros H. apply rwp_assoc, rwp_get_span. eapply lift_sim; [apply load_be32_small|done]. Qed.

Lemma rwp_rdn i n (k1 k2 : bytes -> D A) :
  (forall l, rwp (k1 l) (k2 l) T p w c1 c2 pi) ->
  rwp (rdn small i n ≫= k1) (rdn buf i n ≫= k2) T p w c1 c2 pi.
Proof. intros H. apply rwp_assoc, rwp_get_span. eapply lift_sim; [apply bytes_at_small|auto]. Qed.

Lemma rwp_advance n (k1 k2 : unit -> D A) :
  0 <= n <= c1 ->
  rwp (k1 tt) (k2 tt) T (p + n) (w - n) (c1 - n) (c2 - n) pi ->
  rwp (do_advance small n ≫= k1) (do_advance buf n ≫= k2) T p w c1 c2 pi.
Proof.
  intros Hn H a d. pose proof Hc as [Hc1 Hc2].
  unfold mbind, D_bind, do_advance, get_span, mbind, D_bind. cbn [ds_span sp_p].
  rewrite length_take.
  destruct (Z.leb_spec 0 (p + n)); [|done]. cbn [andb].
  destruct (Z.leb_spec (p + n) (Z.of_nat (k `min` length buf))); [|done].
  destruct (Z.leb_spec (p + n) (Z.of_nat (length buf))); [|lia].
  unfold set_span, advance. cbn [sp_p sp_cap sp_wire].
  rewrite !size_sub_small by lia. apply H.
Qed.

Lemma rwp_clip n (k1 k2 : unit -> D A) :
  rwp (k1 tt) (k2 tt) T p n (Z.min c1 n) (Z.min c2 n) pi ->
  rwp (do_clip n ≫= k1) (do_clip n ≫= k2) T p w c1 c2 pi.
Proof.
  intros H a d. unfold mbind, D_bind, do_clip, get_span, mbind, D_bind, set_span, clip.
  cbn [ds_span sp_p sp_cap sp_wire ds_pi].
  replace (if c1 >? n then n else c1) with (Z.min c1 n)
    by (rewrite Z.gtb_ltb; destruct (Z.ltb_spec n c1); lia).
  replace (if c2 >? n then n else c2) with (Z.min c2 n)
    by (rewrite Z.gtb_ltb; destruct (Z.ltb_spec n c2); lia).
  apply H.
Qed.

Lemma rwp_store_vlan i v (k1 k2 : unit -> D A) :
  (forall pi', rwp (k1 tt) (k2 tt) T p w c1 c2 pi') ->
  rwp (store_vlan i v ≫= k1) (store_vlan i v ≫= k2) T p w c1 c2 pi.
Proof.
  intros H a d. unfold mbind, D_bind, store_vlan, get_pi, mbind, D_bind. cbn [ds_pi].
  destruct (_ && _); [|done]. apply H.
Qed.
End Rules.
Ltac caps_tac :=
  test_to_prop; unfold caps, SIZE_MAX, is_u in *;
  repeat match goal with
  | |- context [if ?b then _ else _] =>
      let E := fresh in destruct b eqn:E; rewrite ?E in *; test_to_prop
  end; lia.

(** One step of the simulation. *)
Ltac sim_need :=
  first [ apply (rwp_need _ _ _ _ _ _) with (f := fun st : decode_status => st)
        | apply (rwp_need _ _ _ _ _ _) with (f := @inl decode_status _)
        | apply (rwp_need_status _ _ _ _ _ _) with (f := fun st : decode_status => st)
        | apply (rwp_need_status _ _ _ _ _ _) with (f := @inl decode_status _) ];
  [assumption|done|done|try (by vm_compute)|intros].

Ltac sim_step :=
  lazymatch goal with
  | |- rwp (mret _) (mret _) _ _ _ _ _ _ => apply rwp_ret; first [assumption | caps_tac | idtac]
  | |- rwp (mbind _ (do_need _ _ _)) _ _ _ _ _ _ _ => sim_need
  | |- rwp (mbind _ (mret _)) _ _ _ _ _ _ _ => apply rwp_ret_bind
  | |- rwp (mbind _ (mbind _ _)) _ _ _ _ _ _ _ => apply rwp_assoc
  | |- rwp (mbind _ (if ?b then _ else _)) _ _ _ _ _ _ _ => destruct b eqn:?
  | |- rwp (mbind _ get_span) _ _ _ _ _ _ _ => apply rwp_get_span
  | |- rwp (mbind _ get_pi) _ _ _ _ _ _ _ => apply rwp_get_pi
  | |- rwp (mbind _ (modify_pi _)) _ _ _ _ _ _ _ => apply rwp_modify
  | |- rwp (mbind _ (rd _ _)) _ _ _ _ _ _ _ => apply rwp_rd; intros
  | |- rwp (mbind _ (rd16 _ _)) _ _ _ _ _ _ _ => apply rwp_rd16; intros
  | |- rwp (mbind _ (rd32 _ _)) _ _ _ _ _ _ _ => apply rwp_rd32; intros
  | |- rwp (mbind _ (rdn _ _ _)) _ _ _ _ _ _ _ => apply rwp_rdn; intros
  | |- rwp (mbind _ (do_advance _ _)) _ _ _ _ _ _ _ =>
      apply rwp_advance; [first [assumption|caps_tac]|try caps_tac|]
  | |- rwp (mbind _ (do_clip _)) _ _ _ _ _ _ _ => apply rwp_clip
  | |- rwp (if _ then _ else _) _ _ _ _ _ _ _ =>
      first [ apply rwp_if; intros | apply rwp_cap_if; [assumption|try by vm_compute|intros] ]
  end; cbv beta; cbn [sp_p sp_cap sp_wire].

Definition T_st (st : decode_status) (_ : packet_info) : Prop := truncation st.

Lemma decode_l4_sim p w c1 c2 pi :
  caps c1 c2 w -> rwp (decode_l4 small) (decode_l4 buf) T_st p w c1 c2 pi.
Proof.
  intros Hc. unfold decode_l4, decode_tcp, decode_udp, decode_icmp.
  repeat sim_step.
Qed.

Lemma decode_ipv4_sim p w c1 c2 pi :
  caps c1 c2 w -> rwp (decode_ipv4 small) (decode_ipv4 buf) T_st p w c1 c2 pi.
Proof.
  intros Hc. unfold decode_ipv4. consts. repeat sim_step.

  all: apply decode_l4_sim. all: caps_tac.
Qed.

(** A loop that may return from its function. *)
Definition T_loop {A} (r : decode_status + A) (_ : packet_info) : Prop :=
  match r with inl st => truncation st | inr _ => False end.

Lemma ipv6_ext_loop_sim fuel next hops p w c1 c2 pi :
  caps c1 c2 w ->
  rwp (ipv6_ext_loop small fuel next hops) (ipv6_ext_loop buf fuel next hops) T_loop
      p w c1 c2 pi.
Proof.
  revert next hops p w c1 c2 pi. induction fuel as [|fuel IH];
    intros next hops p w c1 c2 pi Hc; [done|].
  cbn [ipv6_ext_loop]. consts. repeat sim_step.
  all: apply IH; caps_tac.
Qed.

Lemma decode_ipv6_sim p w c1 c2 pi :
  caps c1 c2 w -> rwp (decode_ipv6 small) (decode_ipv6 buf) T_st p w c1 c2 pi.
Proof.
  intros Hc. unfold decode_ipv6. consts. repeat sim_step.
  eapply (rwp_bind _ _ _ _ _ _) with (T' := T_loop). 
  - apply ipv6_ext_loop_sim. caps_tac.
  - intros [st|next] d a e; [|done]. simpl. by intros HT [= <- <-].
  - intros [st|next] p' w' c1' c2' pi' Hc'; repeat sim_step. by apply decode_l4_sim.
Qed.

(** ** GTP-U *)
Lemma with_scratch_sim (m1 m2 : D decode_status) p w c1 c2 pi :
  rwp m1 m2 T_st p w c1 c2 packet_info_zero ->
  rwp (with_scratch m1) (with_scratch m2) (fun r _ => truncation r.1) p w c1 c2 pi.
Proof.
  unfold rwp, with_scratch. cbn [ds_span ds_pi]. intros H [st inn] d1.
  destruct (m1 _) as [[st' d]|]; [|done]. intros [= -> <- <-].
  destruct (H _ _ eq_refl) as [HT|(p'&w'&c1'&c2'&pi'&->&->&Hc)]; [by left|].
  right. cbn [ds_span ds_pi]. by exists p', w', c1', c2', pi.
Qed.

Lemma copy_inner_trunc st inn d a e :
  truncation st -> copy_inner st inn d = Some (a, e) -> truncation a.
Proof.
  intros HT E.
  assert (Hst : status_eqb st DEC_BAD_SHORT_FRAME = false) by (by destruct st).
  assert (Hwp : wp (copy_inner st inn) (fun a _ => a = st) d).
  { destruct d as [s pi]. unfold copy_inner. rewrite Hst.
    by repeat (wp_step Hbuf; cbv beta). }
  unfold wp in Hwp. rewrite E in Hwp. by rewrite Hwp.
Qed.

Lemma copy_inner_sim st inn p w c1 c2 pi :
  caps c1 c2 w -> rwp (copy_inner st inn) (copy_inner st inn) T_st p w c1 c2 pi.
Proof. intros Hc. unfold copy_inner. cbv zeta. repeat sim_step. Qed.

Lemma decode_gtpu_inner_sim p w c1 c2 pi :
  caps c1 c2 w ->
  rwp (decode_gtpu_inner small) (decode_gtpu_inner buf) T_st p w c1 c2 pi.
Proof.
  intros Hc. unfold decode_gtpu_inner. sim_step. sim_step. apply rwp_if; intros _.
  2: apply rwp_if; intros _; [|by apply rwp_ret].
  all: eapply (rwp_bind _ _ _ _ _ _);
    [ apply with_scratch_sim; by first [apply decode_ipv4_sim | apply decode_ipv6_sim]
    | intros [st inn] d a e; apply copy_inner_trunc
    | intros [st inn] p' w' c1' c2' pi' Hc'; by apply copy_inner_sim ].
Qed.

Lemma gtpu_ext_loop_sim fuel next hops p w c1 c2 pi :
  caps c1 c2 w ->
  rwp (gtpu_ext_loop small fuel next hops) (gtpu_ext_loop buf fuel next hops) T_loop
      p w c1 c2 pi.
Proof.
  revert next hops p w c1 c2 pi. induction fuel as [|fuel IH];
    intros next hops p w c1 c2 pi Hc; [done|].
  cbn [gtpu_ext_loop]. consts. repeat sim_step. apply IH; caps_tac.
Qed.

Lemma gtpu_opt_sim flags p w c1 c2 pi :
  caps c1 c2 w ->
  rwp (gtpu_opt small flags) (gtpu_opt buf flags) T_loop p w c1 c2 pi.
Proof. intros Hc. unfold gtpu_opt. consts. repeat sim_step. Qed.

Lemma decode_gtpu_sim p w c1 c2 pi :
  caps c1 c2 w -> rwp (decode_gtpu small) (decode_gtpu buf) T_st p w c1 c2 pi.
Proof.
  intros Hc. unfold decode_gtpu. consts. repeat sim_step.
  eapply (rwp_bind _ _ _ _ _ _) with (T' := T_loop). 
  - apply gtpu_opt_sim. caps_tac.
  - intros [st|next] d a e; [|done]. simpl. by intros HT [= <- <-].
  - intros [st|next] p' w' c1' c2' pi' Hc'; [by repeat sim_step|].
    eapply (rwp_bind _ _ _ _ _ _) with (T' := T_loop). 
    + by apply gtpu_ext_loop_sim.
    + intros [st|u] d a e; [|done]. simpl. by intros HT [= <- <-].
    + intros [st|u] p2 w2 c12 c22 pi2 Hc2; repeat sim_step. by apply decode_gtpu_inner_sim.
Qed.

(** ** The frame *)
Definition T_frame (st : decode_status) (pi : packet_info) : Prop :=
  truncation st \/ truncation (pi_gtp_status pi).

(** A packet whose own headers are truncated returns that status. *)
Lemma network_tail_trunc st d a e :
  truncation st -> network_tail small st d = Some (a, e) -> truncation a.
Proof.
  intros HT E.
  assert (Hwp : wp (network_tail small st) (fun a _ => a = st) d).
  { destruct d as [s pi]. unfold network_tail.
    apply wp_bind, wp_modify, wp_bind, wp_get_pi, wp_bind, wp_get_span.
    cbn [ds_span ds_pi]. pi_simpl.
    replace (status_eqb st DEC_OK) with false by (by destruct st). by apply wp_ret. }
  unfold wp in Hwp. rewrite E in Hwp. by rewrite Hwp.
Qed.

(** Sequencing with what is known of the run on the snapshot. *)
Lemma rwp_bind_wp {A B} (T : A -> packet_info -> Prop) p w c1 c2 pi
    (Q : B -> dstate -> Prop) (T' : B -> packet_info -> Prop)
    (m1 m2 : D B) (k1 k2 : B -> D A) :
  wp m1 Q (DState (Span p c1 w) pi) ->
  rwp m1 m2 T' p w c1 c2 pi ->
  (forall b d a e, T' b (ds_pi d) -> k1 b d = Some (a, e) -> T a (ds_pi e)) ->
  (forall b p' w' c1' c2' pi', caps c1' c2' w' ->
     Q b (DState (Span p' c1' w') pi') -> rwp (k1 b) (k2 b) T p' w' c1' c2' pi') ->
  rwp (m1 ≫= k1) (m2 ≫= k2) T p w c1 c2 pi.
Proof.
  unfold wp, rwp at 1 3, mbind, D_bind. intros HQ H HT Hk' a d.
  destruct (m1 _) as [[b e]|]; [|done]. intros E.
  destruct (H b e eq_refl) as [Hb|(p'&w'&c1'&c2'&pi'&->&->&Hc')].
  - left. by eapply HT.
  - exact (Hk' _ _ _ _ _ _ Hc' HQ a d E).
Qed.

Lemma network_tail_sim st p w c1 c2 pi :
  caps c1 c2 w ->
  (pi_has_l4 pi = true -> pi_ip_proto pi = IPPROTO_NUM_UDP ->
   pi_frag pi = FRAG_NONE -> UDP_HDR_LEN <= c1) ->
  rwp (network_tail small st) (network_tail buf st) T_frame p w c1 c2 pi.
Proof.
  intros Hc Hudp. unfold network_tail. consts. do 3 sim_step.
  apply rwp_if; intros H; [|repeat sim_step].
  assert (H8 : 8 <= c1).
  { test_to_prop. unfold decode_is_gtpu_port in *. pi_simpl. test_to_prop; by apply Hudp. }
  repeat sim_step.
  eapply (rwp_bind _ _ _ _ _ _) with (T' := T_st).
  - apply decode_gtpu_sim. caps_tac.
  - intros gst d a e HT [= <- <-]. right. exact HT.
  - intros gst p' w' c1' c2' pi' Hc'. repeat sim_step.
Qed.

Lemma decode_network_sim type p w c1 c2 pi :
  caps c1 c2 w -> span_ok small (Span p c1 w) -> fresh_ip pi ->
  rwp (decode_network small type) (decode_network buf type) T_frame p w c1 c2 pi.
Proof.
  intros Hc Hs Hf. assert (Hsmall : Forall is_byte small) by (by apply Forall_take).
  destruct (fresh_ip_wf pi Hf) as (_ & H4 & _).
  set (m := fun b : bytes => if type =? ETHERTYPE_IPV4 then decode_ipv4 b
                     else if type =? ETHERTYPE_IPV6 then decode_ipv6 b else mret DEC_OK).
  change (rwp (m small ≫= network_tail small) (m buf ≫= network_tail buf) T_frame
              p w c1 c2 pi).
  eapply (rwp_bind_wp _ _ _ _ _ _) with (T' := T_st)
    (Q := fun _ d => pi_has_l4 (ds_pi d) = true -> pi_ip_proto (ds_pi d) = IPPROTO_NUM_UDP ->
            pi_frag (ds_pi d) = FRAG_NONE -> UDP_HDR_LEN <= sp_cap (ds_span d)).
  - unfold m. apply wp_if; intros _; [|apply wp_if; intros _].
    + eapply wp_mono; [by apply decode_ipv4_safe|]. intros st d Hp. apply Hp.
    + eapply wp_mono; [by apply decode_ipv6_safe|]. intros st d Hp. apply Hp.
    + apply wp_ret. cbn [ds_pi]. by rewrite H4.
  - unfold m. apply rwp_if; intros _; [by apply decode_ipv4_sim|].
    apply rwp_if; intros _; [by apply decode_ipv6_sim|by apply rwp_ret].
  - intros st d a e HT E. left. by eapply network_tail_trunc.
  - intros st p' w' c1' c2' pi' Hc' HQ. by apply network_tail_sim.
Qed.

Lemma vlan_loop_sim fuel type p w c1 c2 pi :
  caps c1 c2 w ->
  rwp (vlan_loop small fuel type) (vlan_loop buf fuel type) T_loop p w c1 c2 pi.
Proof.
  revert type p w c1 c2 pi. induction fuel as [|fuel IH]; intros type p w c1 c2 pi Hc; [done|].
  cbn [vlan_loop]. consts. repeat sim_step.
  apply rwp_store_vlan. intros pi'. repeat sim_step. apply IH. caps_tac.
Qed.

Lemma frame_body_sim w c1 c2 :
  caps c1 c2 w -> c1 <= Z.of_nat (length small) ->
  rwp (decode_frame_body small) (decode_frame_body buf) T_frame 0 w c1 c2 packet_info_zero.
Proof.
  intros Hc Hk1. assert (Hsmall : Forall is_byte small) by (by apply Forall_take).
  unfold decode_frame_body. consts. sim_need; [by left|]. repeat sim_step.
  eapply (rwp_bind_wp _ _ _ _ _ _) with (T' := T_loop).
  - apply vlan_loop_safe; try done. apply l2_ready_status, l2_ready_zero.
    unfold span_ok, caps in *. cbn [sp_p sp_cap sp_wire]. lia.
  - apply vlan_loop_sim. caps_tac.
  - intros [st|type] d a e; [|done]. simpl. intros HT [= <- <-]. by left.
  - intros [st|type] p' w' c1' c2' pi' Hc'; cbn [ds_span ds_pi]; intros (Hr & _);
      repeat sim_step.
    apply decode_network_sim; [done|apply Hr|].
    destruct Hr as [_ _ Hf _].
    exact (f_equal (fun p => p <| pi_ethertype := u16 type |> <| pi_has_l2 := true |>) Hf).
Qed.
End Mono.

(** C16. A snapshot never changes a verdict: decoding only the first [k] bytes of
    a frame either stops at a header the capture cut (the outer status or the
    GTP-U status is a truncation), or gives exactly the result of decoding all
    the bytes, every field of it. *)
Theorem decode_frame_snapshot frame k wirelen st1 pi1 :
  frame_ok frame wirelen -> (k <= length frame)%nat -> caplen_of frame <= wirelen ->
  decode_frame (take k frame) (Z.of_nat k) wirelen = Some (st1, pi1) ->
  decode_status_is_truncation st1 = true \/
  decode_status_is_truncation (pi_gtp_status pi1) = true \/
  decode_frame frame (caplen_of frame) wirelen = Some (st1, pi1).
Proof.
  intros (Hb & _ & Hw) Hk Hwire E. unfold decode_frame in *.
  set (w1 := if wirelen >? Z.of_nat k then _ else _) in E.
  set (w2 := if wirelen >? caplen_of frame then _ else _).
  assert (Ew1 : w1 = wirelen).
  { unfold w1. rewrite Z.gtb_ltb. destruct (Z.ltb_spec (Z.of_nat k) wirelen); lia. }
  assert (Ew2 : w2 = wirelen).
  { unfold w2. rewrite Z.gtb_ltb. destruct (Z.ltb_spec (caplen_of frame) wirelen); lia. }
  clearbody w1 w2. subst w1 w2.
  destruct (decode_frame_body (take k frame) _) as [[st d]|] eqn:E1; [|done].
  injection E as <- <-.
  destruct (frame_body_sim frame Hb k Hk wirelen (Z.of_nat k) (caplen_of frame)
              ltac:(unfold caps; lia) ltac:(rewrite length_take; lia) _ _ E1)
    as [[HT|HT]|(p'&w'&c1'&c2'&pi'&->&->&_)]; [by left|by right; left|].
  by right; right.
Qed.
