(* ===== verification/DecodeLocal.v ===== *)
(** Locality of the decoder: its result depends on the [caplen] captured bytes
    only, whatever lies behind them in memory.  A run on the captured bytes is
    matched step by step by the run on a longer object; [approx] orders decoders
    by the runs they complete, and every combinator respects it. *)
From S2P Require Export DecodeProps.

(** [m2] completes every run of [m1], with the same result. *)
Definition approx {A} (m1 m2 : D A) : Prop := forall d r, m1 d = Some r -> m2 d = Some r.

#[export] Instance approx_preorder A : PreOrder (@approx A).
Proof. split; [by intros m d r|intros m1 m2 m3 H1 H2 d r E; by apply H2, H1]. Qed.

#[export] Instance approx_bind A B :
  Proper (pointwise_relation A approx ==> approx ==> approx) (@mbind D D_bind A B).
Proof.
  intros k1 k2 Hk m1 m2 Hm d r. unfold mbind, D_bind.
  destruct (m1 d) as [[a d']|] eqn:E; [|done]. rewrite (Hm _ _ E). apply Hk.
Qed.

#[export] Instance approx_scratch : Proper (approx ==> approx) with_scratch.
Proof.
  intros m1 m2 Hm d r. unfold with_scratch.
  destruct (m1 _) as [[st d']|] eqn:E; [|done]. by rewrite (Hm _ _ E).
Qed.

Section Local.
Context (buf past : bytes).

Lemma byte_at_past i b : byte_at buf i = Some b -> byte_at (buf ++ past) i = Some b.
Proof.
  intros H. pose proof (byte_at_inv _ _ _ H) as Hi. unfold byte_at in *.
  rewrite decide_True in H |- * by lia. by apply lookup_app_l_Some.
Qed.

Lemma load_be16_past i v : load_be16 buf i = Some v -> load_be16 (buf ++ past) i = Some v.
Proof.
  unfold load_be16. destruct (byte_at buf i) as [b0|] eqn:E0; [|done].
  destruct (byte_at buf (i + 1)) as [b1|] eqn:E1; [|done].
  by rewrite (byte_at_past _ _ E0), (byte_at_past _ _ E1).
Qed.

Lemma load_be32_past i v : load_be32 buf i = Some v -> load_be32 (buf ++ past) i = Some v.
Proof.
  unfold load_be32. destruct (byte_at buf i) as [b0|] eqn:E0; [|done].
  destruct (byte_at buf (i + 1)) as [b1|] eqn:E1; [|done].
  destruct (byte_at buf (i + 2)) as [b2|] eqn:E2; [|done].
  destruct (byte_at buf (i + 3)) as [b3|] eqn:E3; [|done].
  by rewrite (byte_at_past _ _ E0), (byte_at_past _ _ E1), (byte_at_past _ _ E2), (byte_at_past _ _ E3).
Qed.

Lemma bytes_at_past i n l : bytes_at buf i n = Some l -> bytes_at (buf ++ past) i n = Some l.
Proof.
  unfold bytes_at. case_decide as Hc; [|done]. rewrite length_app, decide_True by lia.
  intros [= <-]. f_equal. rewrite drop_app_le by lia. apply take_app_le. rewrite length_drop. lia.
Qed.

Lemma lift_approx {A} (o1 o2 : option A) : (forall a, o1 = Some a -> o2 = Some a) -> approx (lift o1) (lift o2).
Proof. intros H d r. unfold lift. destruct o1 as [a|]; [|done]. by rewrite (H a eq_refl). Qed.

Lemma reader_approx {A} (load : bytes -> Z -> option A) i :
  (forall j a, load buf j = Some a -> load (buf ++ past) j = Some a) ->
  approx (s ← get_span; lift (load buf (sp_p s + i))) (s ← get_span; lift (load (buf ++ past) (sp_p s + i))).
Proof. intros H. apply approx_bind; [|done]. intros s. apply lift_approx, H. Qed.

Lemma rd_approx i : approx (rd buf i) (rd (buf ++ past) i).
Proof. apply (reader_approx byte_at), byte_at_past. Qed.
Lemma rd16_approx i : approx (rd16 buf i) (rd16 (buf ++ past) i).
Proof. apply (reader_approx load_be16), load_be16_past. Qed.
Lemma rd32_approx i : approx (rd32 buf i) (rd32 (buf ++ past) i).
Proof. apply (reader_approx load_be32), load_be32_past. Qed.
Lemma rdn_approx i n : approx (rdn buf i n) (rdn (buf ++ past) i n).
Proof. apply (reader_approx (fun b j => bytes_at b j n)). intros j a. apply bytes_at_past. Qed.

Lemma advance_approx n : approx (do_advance buf n) (do_advance (buf ++ past) n).
Proof.
  apply approx_bind; [|done]. intros s d r. rewrite length_app.
  destruct (Z.leb_spec 0 (sp_p s + n)); [|done]. cbn [andb].
  destruct (Z.leb_spec (sp_p s + n) (Z.of_nat (length buf))); [|done].
  by destruct (Z.leb_spec (sp_p s + n) (Z.of_nat (length buf + length past))); [|lia].
Qed.

(** One combinator at a time; equal computations approximate each other. *)
Ltac local_step :=
  match goal with
  | |- approx ?m ?m => reflexivity
  | |- approx (mbind _ _) (mbind _ _) => apply approx_bind; [intros ?|]
  | |- approx (if ?b then _ else _) (if ?b then _ else _) => destruct b
  | |- approx (match ?x with inl _ => _ | inr _ => _ end) _ => destruct x
  | |- approx (match ?x with (_, _) => _ end) _ => destruct x
  | |- approx (with_scratch _) _ => apply approx_scratch
  | |- approx (rd _ _) _ => apply rd_approx
  | |- approx (rd16 _ _) _ => apply rd16_approx
  | |- approx (rd32 _ _) _ => apply rd32_approx
  | |- approx (rdn _ _ _) _ => apply rdn_approx
  | |- approx (do_advance _ _) _ => apply advance_approx
  end.
Ltac local := cbv zeta; repeat local_step; auto.

Lemma decode_l4_local : approx (decode_l4 buf) (decode_l4 (buf ++ past)).
Proof. unfold decode_l4, decode_tcp, decode_udp, decode_icmp. local. Qed.

Lemma decode_ipv4_local : approx (decode_ipv4 buf) (decode_ipv4 (buf ++ past)).
Proof. pose proof decode_l4_local. unfold decode_ipv4. local. Qed.

Lemma ipv6_ext_loop_local fuel next hops :
  approx (ipv6_ext_loop buf fuel next hops) (ipv6_ext_loop (buf ++ past) fuel next hops).
Proof. revert next hops. induction fuel; intros next hops; cbn [ipv6_ext_loop]; local. Qed.

Lemma decode_ipv6_local : approx (decode_ipv6 buf) (decode_ipv6 (buf ++ past)).
Proof. pose proof decode_l4_local. pose proof ipv6_ext_loop_local. unfold decode_ipv6. local. Qed.

Lemma gtpu_ext_loop_local fuel next hops :
  approx (gtpu_ext_loop buf fuel next hops) (gtpu_ext_loop (buf ++ past) fuel next hops).
Proof. revert next hops. induction fuel; intros next hops; cbn [gtpu_ext_loop]; local. Qed.

Lemma decode_gtpu_local : approx (decode_gtpu buf) (decode_gtpu (buf ++ past)).
Proof.
  pose proof decode_ipv4_local. pose proof decode_ipv6_local. pose proof gtpu_ext_loop_local.
  unfold decode_gtpu, gtpu_opt, decode_gtpu_inner. local.
Qed.

Lemma vlan_loop_local fuel type : approx (vlan_loop buf fuel type) (vlan_loop (buf ++ past) fuel type).
Proof. revert type. induction fuel; intros type; cbn [vlan_loop]; local. Qed.

Lemma decode_frame_body_local : approx (decode_frame_body buf) (decode_frame_body (buf ++ past)).
Proof.
  pose proof decode_ipv4_local. pose proof decode_ipv6_local. pose proof decode_gtpu_local.
  pose proof vlan_loop_local. unfold decode_frame_body, decode_network. local.
Qed.
End Local.

Lemma decode_frame_past frame past caplen wirelen r :
  decode_frame frame caplen wirelen = Some r -> decode_frame (frame ++ past) caplen wirelen = Some r.
Proof.
  unfold decode_frame. destruct (decode_frame_body frame _) as [[st d]|] eqn:E; [|done].
  by rewrite (decode_frame_body_local _ past _ _ E).
Qed.

(** C33. The decoder looks at the captured bytes only: with anything at all behind
    the [caplen] bytes of a frame, [decode_frame] returns the same status and fills
    in the same fields. *)
Theorem decode_frame_local frame past1 past2 wirelen :
  frame_ok frame wirelen ->
  exists r, decode_frame (frame ++ past1) (caplen_of frame) wirelen = Some r /\
            decode_frame (frame ++ past2) (caplen_of frame) wirelen = Some r.
Proof.
  intros Hf. destruct (decode_frame_packet_ok frame wirelen Hf) as (st & pi & E & _).
  exists (st, pi). split; by apply decode_frame_past.
Qed.
