(* ===== verification/Reader.v ===== *)
(** The pcap file reader (src/pcap_reader.h, src/pcap_reader.c).  Definitions
    only; [ReaderProps] holds the theorems.

    A [FILE] is what the reader uses of a stdio stream: the bytes it will still
    deliver, and whether it then reports end of file or a read error.  A pointer
    into the input is an offset into [mem] or the start of the record buffer.
    [None] is undefined behaviour: a load outside an object, or a [fread] that
    would overrun the record buffer. *)
From Stdlib Require Import String.
From S2P Require Export Bytes.

Definition PCAP_GLOBAL_HDR_LEN := 24.
Definition PCAP_RECORD_HDR_LEN := 16.
Definition PCAP_MAX_CAPLEN := 262144.
Definition PCAP_LINKTYPE_ETHERNET := 1.

Definition MAGIC_USEC := 0xA1B2C3D4.
Definition MAGIC_NSEC := 0xA1B23C4D.
Definition MAGIC_USEC_SWAPPED := 0xD4C3B2A1.
Definition MAGIC_NSEC_SWAPPED := 0x4D3CB2A1.
Definition MAGIC_PCAPNG := 0x0A0D0D0A.
Definition LINKTYPE_MASK := 0x03FFFFFF.

(** ** Data *)
Inductive pcap_status :=
| PCAP_OK
| PCAP_EOF
| PCAP_ERR_OPEN
| PCAP_ERR_IO
| PCAP_ERR_NOMEM
| PCAP_ERR_SHORT_HEADER
| PCAP_ERR_BAD_MAGIC
| PCAP_ERR_PCAPNG
| PCAP_ERR_BAD_VERSION
| PCAP_ERR_BAD_LINKTYPE
| PCAP_ERR_TRUNC_RECORD_HDR
| PCAP_ERR_TRUNC_RECORD
| PCAP_ERR_BAD_CAPLEN.

#[export] Instance pcap_status_eq_dec : EqDecision pcap_status.
Proof. solve_decision. Defined.

Definition pstatus_eqb (a b : pcap_status) : bool := bool_decide (a = b).

(** [struct pcap_file_info]; [fi_big_endian] and [fi_nsec] are 0/1 ints. *)
Record pcap_file_info := File_info {
  fi_big_endian : bool;
  fi_nsec : bool;
  fi_version_major : Z;
  fi_version_minor : Z;
  fi_snaplen : Z;
  fi_linktype : Z
}.

Definition file_info_zero : pcap_file_info := File_info false false 0 0 0 0.

(** Where [pcap_record.data] points: the record buffer, or inside [mem]. *)
Inductive data_ptr := InBuf | InMem (off : Z).

Record pcap_record := Pcap_record {
  rec_ts_ns : Z;
  rec_caplen : Z;
  rec_wirelen : Z;
  rec_data : option data_ptr
}.

(** A stdio stream: [f_data] holds the bytes it delivers from its start,
    [f_pos] how many were read; past them it reports the error [f_errno], or end
    of file when there is none.  [f_error] is the stream's error indicator. *)
Record FILE := File {
  f_data : bytes;
  f_pos : Z;
  f_errno : option Z;
  f_error : bool
}.

Record pcap_reader := Pcap_reader {
  r_fp : option FILE;
  r_mem : bytes;
  r_mem_len : Z;
  r_mem_pos : Z;
  r_buf : option bytes;
  r_info : pcap_file_info;
  r_records : Z;
  r_error : pcap_status;
  r_sys_errno : Z
}.

#[export] Instance file_info_eta : Eta pcap_file_info := fun i =>
  File_info (i.(fi_big_endian)) (i.(fi_nsec)) (i.(fi_version_major))
    (i.(fi_version_minor)) (i.(fi_snaplen)) (i.(fi_linktype)).
#[export] Instance set_fi_big_endian : Setter fi_big_endian. Proof. solve_setter. Defined.
#[export] Instance set_fi_nsec : Setter fi_nsec. Proof. solve_setter. Defined.
#[export] Instance set_fi_version_major : Setter fi_version_major. Proof. solve_setter. Defined.
#[export] Instance set_fi_version_minor : Setter fi_version_minor. Proof. solve_setter. Defined.
#[export] Instance set_fi_snaplen : Setter fi_snaplen. Proof. solve_setter. Defined.
#[export] Instance set_fi_linktype : Setter fi_linktype. Proof. solve_setter. Defined.

#[export] Instance record_eta : Eta pcap_record := fun c =>
  Pcap_record (c.(rec_ts_ns)) (c.(rec_caplen)) (c.(rec_wirelen)) (c.(rec_data)).
#[export] Instance set_rec_ts_ns : Setter rec_ts_ns. Proof. solve_setter. Defined.
#[export] Instance set_rec_caplen : Setter rec_caplen. Proof. solve_setter. Defined.
#[export] Instance set_rec_wirelen : Setter rec_wirelen. Proof. solve_setter. Defined.
#[export] Instance set_rec_data : Setter rec_data. Proof. solve_setter. Defined.

#[export] Instance reader_eta : Eta pcap_reader := fun r =>
  Pcap_reader (r.(r_fp)) (r.(r_mem)) (r.(r_mem_len)) (r.(r_mem_pos)) (r.(r_buf))
    (r.(r_info)) (r.(r_records)) (r.(r_error)) (r.(r_sys_errno)).
#[export] Instance set_r_fp : Setter r_fp. Proof. solve_setter. Defined.
#[export] Instance set_r_mem : Setter r_mem. Proof. solve_setter. Defined.
#[export] Instance set_r_mem_len : Setter r_mem_len. Proof. solve_setter. Defined.
#[export] Instance set_r_mem_pos : Setter r_mem_pos. Proof. solve_setter. Defined.
#[export] Instance set_r_buf : Setter r_buf. Proof. solve_setter. Defined.
#[export] Instance set_r_info : Setter r_info. Proof. solve_setter. Defined.
#[export] Instance set_r_records : Setter r_records. Proof. solve_setter. Defined.
#[export] Instance set_r_error : Setter r_error. Proof. solve_setter. Defined.
#[export] Instance set_r_sys_errno : Setter r_sys_errno. Proof. solve_setter. Defined.

(** ** Header parsers

    The [hdr] pointer is an object and an offset into it. *)
Section Parse.
Context (obj : bytes) (hdr : Z).

Definition rd32 (off : Z) (big_endian : bool) : option Z :=
  if big_endian then load_be32 obj (hdr + off) else load_le32 obj (hdr + off).
Definition rd16 (off : Z) (big_endian : bool) : option Z :=
  if big_endian then load_be16 obj (hdr + off) else load_le16 obj (hdr + off).

(** The part of [pcap_parse_global_header] after the magic number: [info] has
    the byte order and the timestamp unit. *)
Definition parse_after_magic (len : Z) (info : pcap_file_info)
  : option (pcap_status * pcap_file_info) :=
  if len <? PCAP_GLOBAL_HDR_LEN then Some (PCAP_ERR_SHORT_HEADER, info) else
  let be := fi_big_endian info in
  major ← rd16 4 be; let info := info <| fi_version_major := major |> in
  minor ← rd16 6 be; let info := info <| fi_version_minor := minor |> in
  snaplen ← rd32 16 be; let info := info <| fi_snaplen := snaplen |> in
  linktype ← rd32 20 be;
  let info := info <| fi_linktype := Z.land linktype LINKTYPE_MASK |> in
  if negb (fi_version_major info =? 2) || negb (fi_version_minor info =? 4)
  then Some (PCAP_ERR_BAD_VERSION, info)
  else if negb (fi_linktype info =? PCAP_LINKTYPE_ETHERNET)
  then Some (PCAP_ERR_BAD_LINKTYPE, info)
  else Some (PCAP_OK, info).

(** The returned status and the filled [*info]. *)
Definition pcap_parse_global_header (len : Z) : option (pcap_status * pcap_file_info) :=
  let info := file_info_zero in
  if len <? 4 then Some (PCAP_ERR_SHORT_HEADER, info) else
  magic ← load_le32 obj hdr;
  let known be nsec :=
    parse_after_magic len (info <| fi_big_endian := be |> <| fi_nsec := nsec |>) in
  if magic =? MAGIC_USEC then known false false
  else if magic =? MAGIC_NSEC then known false true
  else if magic =? MAGIC_USEC_SWAPPED then known true false
  else if magic =? MAGIC_NSEC_SWAPPED then known true true
  else if magic =? MAGIC_PCAPNG then Some (PCAP_ERR_PCAPNG, info)
  else Some (PCAP_ERR_BAD_MAGIC, info).

Definition pcap_parse_record_header (info : pcap_file_info) (rec : pcap_record)
  : option (pcap_status * pcap_record) :=
  let be := fi_big_endian info in
  sec ← rd32 0 be;
  frac ← rd32 4 be;
  caplen ← rd32 8 be; let rec := rec <| rec_caplen := caplen |> in
  wirelen ← rd32 12 be; let rec := rec <| rec_wirelen := wirelen |> in
  let rec := rec <| rec_data := None |> in
  if rec_caplen rec >? PCAP_MAX_CAPLEN then Some (PCAP_ERR_BAD_CAPLEN, rec) else
  let rec := if rec_wirelen rec <? rec_caplen rec
             then rec <| rec_wirelen := rec_caplen rec |> else rec in
  let frac_ns := if fi_nsec info then frac else u64 (frac * 1000) in
  Some (PCAP_OK, rec <| rec_ts_ns := u64 (u64 (sec * 1000000000) + frac_ns) |>).
End Parse.

(** ** Reader operations *)

Definition reader_zero : pcap_reader :=
  Pcap_reader None [] 0 0 None file_info_zero 0 PCAP_OK 0.

(** [reader_reset] ignores the old contents of [*r]. *)
Definition reader_reset : pcap_reader := reader_zero <| r_error := PCAP_OK |>.

(** [fread(buf, 1, n, fp)]: the count, the stream and the buffer after it. *)
Definition fread (buf : bytes) (n : Z) (fp : FILE) : option (Z * FILE * bytes) :=
  if n >? Z.of_nat (length buf) then None else
  let left := Z.of_nat (length (f_data fp)) - f_pos fp in
  let got := Z.min n left in
  chunk ← bytes_at (f_data fp) (f_pos fp) got;
  let failed := (got <? n) && bool_decide (is_Some (f_errno fp)) in
  Some (got, File (f_data fp) (f_pos fp + got) (f_errno fp) (f_error fp || failed),
        overwrite buf chunk).

(** [take(r, n, &got)]: the pointer (NULL is [None]), [*got] and the reader. *)
Definition take_input (r : pcap_reader) (n : Z) : option (option data_ptr * Z * pcap_reader) :=
  match r_fp r with
  | Some fp =>
    buf ← r_buf r;
    '(got, fp, buf) ← fread buf n fp;
    Some (if got =? n then Some InBuf else None, got,
          r <| r_fp := Some fp |> <| r_buf := Some buf |>)
  | None =>
    let left := size_wrap (r_mem_len r - r_mem_pos r) in
    if n >? left then Some (None, left, r <| r_mem_pos := r_mem_len r |>)
    else
      let p := r_mem_pos r in
      if (0 <=? p) && (p + n <=? Z.of_nat (length (r_mem r))) then
        Some (Some (InMem p), n, r <| r_mem_pos := size_wrap (p + n) |>)
      else None
  end.

(** The object and the offset a pointer stands for. *)
Definition deref (r : pcap_reader) (p : data_ptr) : option (bytes * Z) :=
  match p with
  | InBuf => buf ← r_buf r; Some (buf, 0)
  | InMem off => Some (r_mem r, off)
  end.

(** The [caplen] bytes [rec->data] points at. *)
Definition rec_bytes (r : pcap_reader) (rec : pcap_record) : option bytes :=
  p ← rec_data rec; '(obj, off) ← deref r p; bytes_at obj off (rec_caplen rec).

Definition short_read_status (r : pcap_reader) (at_eof : pcap_status)
  : pcap_status * pcap_reader :=
  match r_fp r with
  | Some fp =>
    if f_error fp
    then (PCAP_ERR_IO, r <| r_sys_errno := default 0 (f_errno fp) |>)
    else (at_eof, r)
  | None => (at_eof, r)
  end.

Definition read_global_header (r : pcap_reader) : option (pcap_status * pcap_reader) :=
  '(hdr, got, r) ← take_input r PCAP_GLOBAL_HDR_LEN;
  match hdr with
  | None =>
    let '(st, r) := short_read_status r PCAP_ERR_SHORT_HEADER in
    if pstatus_eqb st PCAP_ERR_SHORT_HEADER && (got >=? 4) then
      partial ← (match r_fp r with Some _ => r_buf r | None => Some (r_mem r) end);
      '(st, _) ← pcap_parse_global_header partial 0 got;
      Some (st, r)
    else Some (st, r)
  | Some p =>
    '(obj, off) ← deref r p;
    '(st, info) ← pcap_parse_global_header obj off PCAP_GLOBAL_HDR_LEN;
    Some (st, r <| r_info := info |>)
  end.

(** [fclose] and [free] release what the reader owns. *)
Definition pcap_close (r : pcap_reader) (os : resources) : pcap_reader * resources :=
  let files := match r_fp r with Some _ => os_files os - 1 | None => os_files os end in
  let bufs := match r_buf r with Some _ => os_blocks os - 1 | None => os_blocks os end in
  (reader_reset, Resources files bufs).

(** [open_stream(r, fp)]; [alloc] is what [malloc(PCAP_MAX_CAPLEN)] returns, with
    its indeterminate contents. *)
Definition open_stream (r : pcap_reader) (fp : FILE) (alloc : option bytes) (os : resources)
  : option (pcap_status * pcap_reader * resources) :=
  let r := r <| r_fp := Some fp |> <| r_buf := alloc |> in
  let os := Resources (os_files os)
              (match alloc with Some _ => os_blocks os + 1 | None => os_blocks os end) in
  '(st, r) ← (match r_buf r with
              | None => Some (PCAP_ERR_NOMEM, r)
              | Some _ => read_global_header r
              end);
  if negb (pstatus_eqb st PCAP_OK) then
    let saved_errno := r_sys_errno r in
    let '(r, os) := pcap_close r os in
    let r := r <| r_sys_errno := saved_errno |> <| r_error := st |> in
    Some (st, r, os)
  else Some (st, r, os).

(** [opened] is what [fopen] returns: a stream, or the [errno] it fails with. *)
Definition pcap_open_file (opened : FILE + Z) (alloc : option bytes) (os : resources)
  : option (pcap_status * pcap_reader * resources) :=
  let r := reader_reset in
  match opened with
  | inr err => Some (PCAP_ERR_OPEN, r <| r_sys_errno := err |> <| r_error := PCAP_ERR_OPEN |>, os)
  | inl fp => open_stream r fp alloc (Resources (os_files os + 1) (os_blocks os))
  end.

(** The stream is already open, and its ownership passes to the reader. *)
Definition pcap_open_stream (fp : option FILE) (alloc : option bytes) (os : resources)
  : option (pcap_status * pcap_reader * resources) :=
  let r := reader_reset in
  match fp with
  | None => Some (PCAP_ERR_OPEN, r <| r_error := PCAP_ERR_OPEN |>, os)
  | Some fp => open_stream r fp alloc os
  end.

Definition pcap_open_mem (data : bytes) (len : Z) : option (pcap_status * pcap_reader) :=
  let r := reader_reset <| r_mem := data |> <| r_mem_len := len |> in
  '(st, r) ← read_global_header r;
  if negb (pstatus_eqb st PCAP_OK) then Some (st, r <| r_error := st |>) else Some (st, r).

(** [pcap_next(r, rec)]: the status, the reader and the filled [*rec]. *)
Definition pcap_next (r : pcap_reader) (rec : pcap_record)
  : option (pcap_status * pcap_reader * pcap_record) :=
  if negb (pstatus_eqb (r_error r) PCAP_OK) then Some (r_error r, r, rec) else
  '(p, got, r) ← take_input r PCAP_RECORD_HDR_LEN;
  match p with
  | None =>
    let '(st, r) := short_read_status r
      (if got =? 0 then PCAP_EOF else PCAP_ERR_TRUNC_RECORD_HDR) in
    Some (st, r <| r_error := st |>, rec)
  | Some p =>
    '(obj, off) ← deref r p;
    '(st, rec) ← pcap_parse_record_header obj off (r_info r) rec;
    if negb (pstatus_eqb st PCAP_OK) then Some (st, r <| r_error := st |>, rec) else
    '(p, got, r) ← take_input r (rec_caplen rec);
    match p with
    | None =>
      let '(st, r) := short_read_status r PCAP_ERR_TRUNC_RECORD in
      Some (st, r <| r_error := st |>, rec)
    | Some p =>
      Some (PCAP_OK, r <| r_records := u64 (r_records r + 1) |>, rec <| rec_data := Some p |>)
    end
  end.

Local Open Scope string_scope.

Definition pcap_status_str (s : pcap_status) : string :=
  match s with
  | PCAP_OK => "ok"
  | PCAP_EOF => "end of file"
  | PCAP_ERR_OPEN => "cannot open file"
  | PCAP_ERR_IO => "read error"
  | PCAP_ERR_NOMEM => "out of memory"
  | PCAP_ERR_SHORT_HEADER => "file too short for a pcap global header"
  | PCAP_ERR_BAD_MAGIC => "not a pcap file (unknown magic number)"
  | PCAP_ERR_PCAPNG => "pcapng files are not supported (convert with: editcap -F pcap in.pcapng out.pcap)"
  | PCAP_ERR_BAD_VERSION => "unsupported pcap version (expected 2.4)"
  | PCAP_ERR_BAD_LINKTYPE => "unsupported link type (only Ethernet, linktype 1, is supported)"
  | PCAP_ERR_TRUNC_RECORD_HDR => "truncated file: record header cut short"
  | PCAP_ERR_TRUNC_RECORD => "truncated file: packet data cut short"
  | PCAP_ERR_BAD_CAPLEN => "corrupt record: captured length exceeds 262144 bytes"
  end.
