(* ===== verification/ReaderProps.v ===== *)
(** The pcap reader against its specification: a capture file is a header and a
    list of records, read the same way from memory and from a stream. *)
From S2P Require Export Reader.

(** ** The file format *)

(** The unsigned integer stored in [l] in the given byte order. *)
Definition be_val (l : bytes) : Z := fold_left (fun a b => a * 256 + b) l 0.
Definition int_val (big_endian : bool) (l : bytes) : Z :=
  be_val (if big_endian then l else reverse l).
Definition field (big_endian : bool) (data : bytes) (off n : nat) : Z :=
  int_val big_endian (take n (drop off data)).

(** One packet of a capture. *)
Record captured := Captured { cp_ts_ns : Z; cp_wirelen : Z; cp_data : bytes }.

(** The first record of [data] and what follows it, or the status that ends the
    capture there. *)
Definition split_record (info : pcap_file_info) (data : bytes)
  : pcap_status + (captured * bytes) :=
  let be := fi_big_endian info in
  let caplen := field be data 8 4 in
  if decide (length data = 0%nat) then inl PCAP_EOF
  else if decide (length data < 16)%nat then inl PCAP_ERR_TRUNC_RECORD_HDR
  else if decide (caplen > 262144) then inl PCAP_ERR_BAD_CAPLEN
  else if decide (Z.of_nat (length data) - 16 < caplen) then inl PCAP_ERR_TRUNC_RECORD
  else inr (Captured (field be data 0 4 * 10 ^ 9 +
                      field be data 4 4 * (if fi_nsec info then 1 else 1000))
                     (Z.max caplen (field be data 12 4))
                     (take (Z.to_nat caplen) (drop 16 data)),
            drop (16 + Z.to_nat caplen) data).

(** The packets of the record area [data], and the status that ends it. *)
Fixpoint pcap_packets (fuel : nat) (info : pcap_file_info) (data : bytes)
  : list captured * pcap_status :=
  match fuel with
  | O => ([], PCAP_EOF)
  | S fuel =>
    match split_record info data with
    | inl st => ([], st)
    | inr (p, rest) =>
      let '(ps, st) := pcap_packets fuel info rest in (p :: ps, st)
    end
  end.

(** ** Integers of the file *)
Lemma byte_at_sub obj off n l i :
  bytes_at obj off n = Some l -> 0 <= i < n -> byte_at obj (off + i) = byte_at l i.
Proof.
  unfold bytes_at, byte_at. case_decide as H; [|done]. intros [= <-] Hi.
  rewrite !decide_True by lia.
  rewrite lookup_take_lt, lookup_drop by lia. f_equal. lia.
Qed.

Lemma bytes_at_inv obj off n l :
  bytes_at obj off n = Some l ->
  0 <= off /\ 0 <= n /\ off + n <= Z.of_nat (length obj) /\ length l = Z.to_nat n /\
  l = take (Z.to_nat n) (drop (Z.to_nat off) obj).
Proof.
  unfold bytes_at. case_decide as H; [|done]. intros [= <-].
  rewrite length_take, length_drop. repeat split; lia.
Qed.

Lemma field_2 (be : bool) l off b0 b1 :
  l !! off = Some b0 -> l !! S off = Some b1 ->
  field be l off 2 = if be then be16 b0 b1 else be16 b1 b0.
Proof.
  intros H0 H1. unfold field, int_val.
  rewrite (drop_S _ b0 off), (drop_S _ b1 (S off)) by done. by destruct be.
Qed.

Lemma field_4 (be : bool) l off b0 b1 b2 b3 :
  l !! off = Some b0 -> l !! S off = Some b1 -> l !! S (S off) = Some b2 ->
  l !! S (S (S off)) = Some b3 ->
  field be l off 4 = if be then be32 b0 b1 b2 b3 else be32 b3 b2 b1 b0.
Proof.
  intros H0 H1 H2 H3. unfold field, int_val.
  rewrite (drop_S _ b0 off), (drop_S _ b1 (S off)), (drop_S _ b2 (S (S off))),
    (drop_S _ b3 (S (S (S off)))) by done. by destruct be.
Qed.

Lemma byte_at_nat l (i : nat) : byte_at l (Z.of_nat i) = l !! i.
Proof. unfold byte_at. rewrite decide_True by lia. by rewrite Nat2Z.id. Qed.

(** The byte of [l] at an index below its length. *)
Ltac get_byte l Hl i b :=
  let E := fresh "E" in let H := fresh "H" in
  destruct (lookup_lt_is_Some_2 l i) as [b E]; [lia|];
  assert (H : is_byte b) by (by eapply (Forall_lookup_1 _ _ _ _ Hl E)).

Lemma load16_field (be : bool) l off :
  Forall is_byte l -> (off + 2 <= length l)%nat ->
  (if be then load_be16 l (Z.of_nat off) else load_le16 l (Z.of_nat off))
  = Some (field be l off 2) /\ is_u 16 (field be l off 2).
Proof.
  intros Hl Hn. get_byte l Hl off b0. get_byte l Hl (S off) b1.
  rewrite (field_2 _ _ _ b0 b1) by done.
  assert (byte_at l (Z.of_nat off) = Some b0) by (by rewrite byte_at_nat).
  assert (byte_at l (Z.of_nat off + 1) = Some b1)
    by (replace (Z.of_nat off + 1) with (Z.of_nat (S off)) by lia; by rewrite byte_at_nat).
  destruct be; (split; [|auto with ints]).
  - by apply load_be16_bytes.
  - by apply load_le16_bytes.
Qed.

Lemma load32_field (be : bool) l off :
  Forall is_byte l -> (off + 4 <= length l)%nat ->
  (if be then load_be32 l (Z.of_nat off) else load_le32 l (Z.of_nat off))
  = Some (field be l off 4) /\ is_u 32 (field be l off 4).
Proof.
  intros Hl Hn. get_byte l Hl off b0. get_byte l Hl (S off) b1.
  get_byte l Hl (S (S off)) b2. get_byte l Hl (S (S (S off))) b3.
  rewrite (field_4 _ _ _ b0 b1 b2 b3) by done.
  assert (byte_at l (Z.of_nat off) = Some b0) by (by rewrite byte_at_nat).
  assert (byte_at l (Z.of_nat off + 1) = Some b1)
    by (replace (Z.of_nat off + 1) with (Z.of_nat (S off)) by lia; by rewrite byte_at_nat).
  assert (byte_at l (Z.of_nat off + 2) = Some b2)
    by (replace (Z.of_nat off + 2) with (Z.of_nat (S (S off))) by lia; by rewrite byte_at_nat).
  assert (byte_at l (Z.of_nat off + 3) = Some b3)
    by (replace (Z.of_nat off + 3) with (Z.of_nat (S (S (S off)))) by lia; by rewrite byte_at_nat).
  destruct be; (split; [|auto with ints]).
  - by apply load_be32_bytes.
  - by apply load_le32_bytes.
Qed.

(** Loads through a pointer see the bytes it points at. *)
Section Through.
Context (obj : bytes) (hdr n : Z) (l : bytes).
Context (Hobj : bytes_at obj hdr n = Some l) (Hl : Forall is_byte l).

Lemma through_byte (i : nat) : (i < length l)%nat -> byte_at obj (hdr + Z.of_nat i) = l !! i.
Proof.
  intros Hi. destruct (bytes_at_inv _ _ _ _ Hobj) as (_ & Hn & _ & Hlen & _).
  rewrite (byte_at_sub _ _ _ _ _ Hobj) by lia. apply byte_at_nat.
Qed.

Lemma rd16_field (off : nat) be :
  (off + 2 <= length l)%nat -> rd16 obj hdr (Z.of_nat off) be = Some (field be l off 2).
Proof.
  intros Hn. rewrite <- (proj1 (load16_field be l off Hl Hn)). unfold rd16, load_be16, load_le16.
  replace (hdr + Z.of_nat off + 1) with (hdr + Z.of_nat (off + 1)) by lia.
  replace (Z.of_nat off + 1) with (Z.of_nat (off + 1)) by lia.
  by rewrite !through_byte, !byte_at_nat by lia.
Qed.

Lemma rd32_field (off : nat) be :
  (off + 4 <= length l)%nat -> rd32 obj hdr (Z.of_nat off) be = Some (field be l off 4).
Proof.
  intros Hn. rewrite <- (proj1 (load32_field be l off Hl Hn)). unfold rd32, load_be32, load_le32.
  replace (hdr + Z.of_nat off + 1) with (hdr + Z.of_nat (off + 1)) by lia.
  replace (hdr + Z.of_nat off + 2) with (hdr + Z.of_nat (off + 2)) by lia.
  replace (hdr + Z.of_nat off + 3) with (hdr + Z.of_nat (off + 3)) by lia.
  replace (Z.of_nat off + 1) with (Z.of_nat (off + 1)) by lia.
  replace (Z.of_nat off + 2) with (Z.of_nat (off + 2)) by lia.
  replace (Z.of_nat off + 3) with (Z.of_nat (off + 3)) by lia.
  by rewrite !through_byte, !byte_at_nat by lia.
Qed.
End Through.

(** ** The global header *)

(** A header of the classic pcap format, in the byte order [fi_big_endian info]. *)
Definition valid_header (data : bytes) (info : pcap_file_info) : Prop :=
  let be := fi_big_endian info in
  (24 <= length data)%nat /\
  field be data 0 4 = (if fi_nsec info then 0xA1B23C4D else 0xA1B2C3D4) /\
  field be data 4 2 = 2 /\ field be data 6 2 = 4 /\
  Z.land (field be data 20 4) 0x03FFFFFF = 1 /\
  info = File_info be (fi_nsec info) 2 4 (field be data 16 4) 1.

(** A big-endian magic number read as little-endian is the swapped constant. *)
Lemma magic_swapped data :
  Forall is_byte data -> (4 <= length data)%nat ->
  (field true data 0 4 = MAGIC_USEC <-> field false data 0 4 = MAGIC_USEC_SWAPPED) /\
  (field true data 0 4 = MAGIC_NSEC <-> field false data 0 4 = MAGIC_NSEC_SWAPPED).
Proof.
  intros Hd Hlen. get_byte data Hd 0%nat b0. get_byte data Hd 1%nat b1.
  get_byte data Hd 2%nat b2. get_byte data Hd 3%nat b3.
  rewrite !(field_4 _ _ _ b0 b1 b2 b3) by done.
  unfold be32, is_u, MAGIC_USEC, MAGIC_NSEC, MAGIC_USEC_SWAPPED, MAGIC_NSEC_SWAPPED in *. lia.
Qed.

Section Header.
Context (obj : bytes) (hdr : Z) (data : bytes).
Context (Hobj : bytes_at obj hdr (Z.of_nat (length data)) = Some data).
Context (Hdata : Forall is_byte data).
Abbreviation len := (Z.of_nat (length data)).

Lemma parse_after_magic_ok info :
  fi_version_major info = 0 -> fi_version_minor info = 0 -> fi_snaplen info = 0 ->
  fi_linktype info = 0 ->
  exists st info', parse_after_magic obj hdr len info = Some (st, info') /\
    (st = PCAP_OK <->
     (24 <= length data)%nat /\ field (fi_big_endian info) data 4 2 = 2 /\
     field (fi_big_endian info) data 6 2 = 4 /\
     Z.land (field (fi_big_endian info) data 20 4) 0x03FFFFFF = 1) /\
    (st = PCAP_OK ->
     info' = File_info (fi_big_endian info) (fi_nsec info) 2 4
                       (field (fi_big_endian info) data 16 4) 1) /\
    (st <> PCAP_OK -> (length data < 24)%nat -> st = PCAP_ERR_SHORT_HEADER).
Proof.
  intros E1 E2 E3 E4. unfold parse_after_magic, PCAP_GLOBAL_HDR_LEN.
  destruct (Z.ltb_spec len 24).
  { eexists _, _. split; [done|]. repeat split; try done; try lia. }
  rewrite (rd16_field _ _ _ data Hobj Hdata 4) by lia. simpl.
  rewrite (rd16_field _ _ _ data Hobj Hdata 6) by lia. simpl.
  rewrite (rd32_field _ _ _ data Hobj Hdata 16) by lia. simpl.
  rewrite (rd32_field _ _ _ data Hobj Hdata 20) by lia. simpl.
  set (be := fi_big_endian info). unfold PCAP_LINKTYPE_ETHERNET, LINKTYPE_MASK.
  destruct (Z.eqb_spec (field be data 4 2) 2) as [Ea|Ea],
    (Z.eqb_spec (field be data 6 2) 4) as [Eb|Eb],
    (Z.eqb_spec (Z.land (field be data 20 4) 0x03FFFFFF) 1) as [Ec|Ec]; simpl;
    eexists _, _; (split; [done|]);
    (split; [first [ split; [by intros|by intros (?&?&?&?)]
                   | split; [intros _; split; [lia|done]|done] ]|]);
    (split; [|done || lia]); try done.
  intros _. rewrite Ea, Eb, Ec. by destruct info.
Qed.

(** The first word of a header of each kind, read as little-endian. *)
Definition magic_word (be nsec : bool) : Z :=
  if be then if nsec then MAGIC_NSEC_SWAPPED else MAGIC_USEC_SWAPPED
  else if nsec then MAGIC_NSEC else MAGIC_USEC.

Lemma magic_kind (be nsec : bool) :
  (4 <= length data)%nat ->
  field be data 0 4 = (if nsec then 0xA1B23C4D else 0xA1B2C3D4) <-> field false data 0 4 = magic_word be nsec.
Proof. intros Hl. destruct (magic_swapped data Hdata Hl) as [Hu Hn]. by destruct be, nsec. Qed.

Lemma magic_word_inj be nsec be' nsec' : magic_word be nsec = magic_word be' nsec' -> be = be' /\ nsec = nsec'.
Proof. by destruct be, nsec, be', nsec'. Qed.

Lemma parse_known_magic be nsec :
  (4 <= length data)%nat -> field false data 0 4 = magic_word be nsec ->
  exists st info,
    parse_after_magic obj hdr len (file_info_zero <| fi_big_endian := be |> <| fi_nsec := nsec |>) = Some (st, info) /\
    (st = PCAP_OK -> valid_header data info) /\
    (forall info', valid_header data info' -> st = PCAP_OK /\ info = info').
Proof.
  intros Hl Hm.
  destruct (parse_after_magic_ok (file_info_zero <| fi_big_endian := be |> <| fi_nsec := nsec |>))
    as (st & info & E & Hiff & Hinfo & _); try done.
  exists st, info. split; [exact E|]. simpl in Hiff, Hinfo. split.
  - intros Hst. rewrite (Hinfo Hst). destruct (proj1 Hiff Hst) as (H1 & H2 & H3 & H4).
    unfold valid_header. simpl. by rewrite (magic_kind be nsec).
  - intros info' (H1 & H2 & H3 & H4 & H5 & H6). rewrite magic_kind, Hm in H2 by done.
    apply magic_word_inj in H2 as [Eb En]. rewrite <- Eb, <- En in *.
    assert (st = PCAP_OK) as Hst by by apply Hiff. split; [done|]. by rewrite (Hinfo Hst).
Qed.

(** The header parser never reads outside its bytes, accepts exactly the valid
    headers, and reports a header cut short as such or as a foreign format. *)
Lemma parse_global_header_ok :
  exists st info, pcap_parse_global_header obj hdr len = Some (st, info) /\
    (st = PCAP_OK -> valid_header data info) /\
    (forall info', valid_header data info' -> st = PCAP_OK /\ info = info').
Proof.
  unfold pcap_parse_global_header.
  destruct (Z.ltb_spec len 4).
  { eexists _, _. split; [done|]. split; [done|]. intros info' [? _]. lia. }
  replace (load_le32 obj hdr) with (rd32 obj hdr (Z.of_nat 0) false)
    by (unfold rd32; by rewrite Z.add_0_r).
  rewrite (rd32_field _ _ _ data Hobj Hdata 0) by lia. cbn [mbind option_bind].
  assert (Hl : (4 <= length data)%nat) by lia.
  assert (Hno : (forall be nsec, field false data 0 4 <> magic_word be nsec) -> forall info, ~ valid_header data info).
  { intros Hno info (_ & H2 & _). apply magic_kind in H2; [|done]. by eapply Hno. }
  pose proof parse_known_magic as Hpar. unfold magic_word in Hpar, Hno.
  repeat match goal with
  | |- context [field false data 0 4 =? ?m] => destruct (Z.eqb_spec (field false data 0 4) m)
  end.
  1: by apply (Hpar false false).
  1: by apply (Hpar false true).
  1: by apply (Hpar true false).
  1: by apply (Hpar true true).
  all: eexists _, _; split; [done|]; split; [done|].
  all: intros info' Hv; exfalso; revert Hv; apply Hno; by intros [] [].
Qed.
End Header.

(** ** Input *)

(** The bytes the reader has not consumed, and the error a stream ends in. *)
Definition remaining (r : pcap_reader) : bytes :=
  match r_fp r with
  | Some fp => drop (Z.to_nat (f_pos fp)) (f_data fp)
  | None => drop (Z.to_nat (r_mem_pos r)) (r_mem r)
  end.

Definition input_errno (r : pcap_reader) : option Z := fp ← r_fp r; f_errno fp.

(** The reader's invariant: the record buffer of file input is whole, memory
    input stays within its length, and a stream that has failed ended the
    reader. *)
Record reader_ok (r : pcap_reader) : Prop := {
  ro_file : forall fp, r_fp r = Some fp ->
    Forall is_byte (f_data fp) /\ 0 <= f_pos fp <= Z.of_nat (length (f_data fp)) /\
    (exists buf, r_buf r = Some buf /\ Z.of_nat (length buf) = PCAP_MAX_CAPLEN) /\
    (f_error fp = true -> r_error r <> PCAP_OK);
  ro_mem : r_fp r = None ->
    Forall is_byte (r_mem r) /\ r_mem_len r = Z.of_nat (length (r_mem r)) /\
    0 <= r_mem_pos r <= r_mem_len r /\ r_mem_len r <= SIZE_MAX
}.

(** Two readers that differ only in how much input is left. *)
Record same_reader (r r' : pcap_reader) : Prop := {
  sr_info : r_info r' = r_info r;
  sr_records : r_records r' = r_records r;
  sr_error : r_error r' = r_error r;
  sr_errno : r_sys_errno r' = r_sys_errno r;
  sr_input : input_errno r' = input_errno r;
  sr_mem : r_mem r' = r_mem r;
  sr_file : is_Some (r_fp r') <-> is_Some (r_fp r)
}.

Lemma overwrite_head (buf l : bytes) :
  (length l <= length buf)%nat -> bytes_at (overwrite buf l) 0 (Z.of_nat (length l)) = Some l.
Proof.
  intros H. unfold bytes_at. rewrite decide_True by (rewrite length_overwrite by done; lia).
  rewrite Nat2Z.id. unfold overwrite. change (Z.to_nat 0) with 0%nat. by rewrite drop_0, take_app_length.
Qed.

(** [fread] on a stream that holds enough, and on one that does not. *)
Section Fread.
Context (buf : bytes) (n : Z) (fp : FILE).
Context (Hpos : 0 <= f_pos fp <= Z.of_nat (length (f_data fp))).
Context (Hbuf : 0 <= n <= Z.of_nat (length buf)).
Abbreviation left := (drop (Z.to_nat (f_pos fp)) (f_data fp)).

Lemma fread_full :
  n <= Z.of_nat (length left) ->
  fread buf n fp = Some (n, File (f_data fp) (f_pos fp + n) (f_errno fp) (f_error fp),
                         overwrite buf (take (Z.to_nat n) left)).
Proof.
  rewrite length_drop. intros Hn. unfold fread. rewrite Z.gtb_ltb.
  destruct (Z.ltb_spec (Z.of_nat (length buf)) n); [lia|].
  rewrite Z.min_l by lia. unfold bytes_at. rewrite decide_True by lia.
  cbn [mbind option_bind]. by rewrite Z.ltb_irrefl, andb_false_l, orb_false_r.
Qed.

Lemma fread_short :
  Z.of_nat (length left) < n ->
  fread buf n fp =
    Some (Z.of_nat (length left),
          File (f_data fp) (f_pos fp + Z.of_nat (length left)) (f_errno fp)
               (f_error fp || bool_decide (is_Some (f_errno fp))),
          overwrite buf left).
Proof.
  rewrite length_drop. intros Hn. unfold fread. rewrite Z.gtb_ltb.
  destruct (Z.ltb_spec (Z.of_nat (length buf)) n); [lia|].
  replace (Z.of_nat (length (f_data fp)) - f_pos fp) with
    (Z.of_nat (length (f_data fp) - Z.to_nat (f_pos fp))) by lia.
  rewrite Z.min_r by lia. unfold bytes_at. rewrite decide_True by lia.
  cbn [mbind option_bind].
  destruct (Z.ltb_spec (Z.of_nat (length (f_data fp) - Z.to_nat (f_pos fp))) n); [|lia].
  rewrite (take_ge left) by (rewrite length_drop; lia). done.
Qed.
End Fread.

Ltac same_tac Efp := split; try done; unfold input_errno; cbn; by rewrite Efp.

(** The input that is there is returned in full. *)
Lemma take_input_full r n :
  reader_ok r -> r_error r = PCAP_OK -> 0 <= n <= PCAP_MAX_CAPLEN ->
  n <= Z.of_nat (length (remaining r)) ->
  exists p r' obj off, take_input r n = Some (Some p, n, r') /\ deref r' p = Some (obj, off) /\
    bytes_at obj off n = Some (take (Z.to_nat n) (remaining r)) /\
    remaining r' = drop (Z.to_nat n) (remaining r) /\ reader_ok r' /\ same_reader r r'.
Proof.
  intros [Hfile Hmem] Herr Hn Hlen. unfold take_input, remaining in *.
  destruct (r_fp r) as [fp|] eqn:Efp.
  - destruct (Hfile _ eq_refl) as (Hb & Hpos & (buf & Ebuf & Hbuf) & Hfe).
    rewrite Ebuf. cbn [mbind option_bind]. rewrite fread_full by (done || lia).
    cbn [mbind option_bind]. rewrite Z.eqb_refl. rewrite length_drop in Hlen.
    set (l := take _ _).
    assert (Hll : length l = Z.to_nat n) by (unfold l; rewrite length_take, length_drop; lia).
    eexists InBuf, _, (overwrite buf l), 0. split; [done|]. split; [done|]. split.
    { replace n with (Z.of_nat (length l)) at 1 by lia. apply overwrite_head. lia. }
    split; [|split; [|same_tac Efp]].
    + cbn. rewrite drop_drop. f_equal. lia.
    + split; [|done]. cbn. intros fp' [= <-]. cbn. split; [done|]. split; [lia|]. split; [|done].
      exists (overwrite buf l). split; [done|]. rewrite length_overwrite; lia.
  - destruct (Hmem eq_refl) as (Hb & Hml & Hpos & Hsz).
    rewrite length_drop in Hlen.
    rewrite size_sub_small by lia. rewrite Z.gtb_ltb.
    destruct (Z.ltb_spec (r_mem_len r - r_mem_pos r) n); [lia|].
    destruct (Z.leb_spec 0 (r_mem_pos r)); [|lia].
    destruct (Z.leb_spec (r_mem_pos r + n) (Z.of_nat (length (r_mem r)))); [|lia]. cbn [andb].
    rewrite wrap_small by (unfold is_u, SIZE_MAX in *; lia).
    eexists (InMem (r_mem_pos r)), _, (r_mem r), (r_mem_pos r).
    split; [done|]. split; [done|]. split; [|split; [|split; [|same_tac Efp]]].
    + unfold bytes_at. by rewrite decide_True by lia.
    + cbn. rewrite Efp, drop_drop. f_equal. lia.
    + split; cbn; [by rewrite Efp|]. intros _. repeat (split; [done || lia|]). lia.
Qed.

(** What a read that finds too little leaves: [st] is what the caller reports at
    end of file, and a stream that failed reports its error instead. *)
Definition short_post (r r' : pcap_reader) (st : pcap_status) : Prop :=
  exists r2,
    short_read_status r' st = (from_option (fun _ => PCAP_ERR_IO) st (input_errno r), r2) /\
    same_reader r (r2 <| r_sys_errno := r_sys_errno r |>) /\
    r_sys_errno r2 = default (r_sys_errno r) (input_errno r) /\
    (forall st', st' <> PCAP_OK -> reader_ok (r2 <| r_error := st' |>)) /\
    match r_fp r2 with
    | Some _ => exists buf, r_buf r2 = Some buf /\
                  bytes_at buf 0 (Z.of_nat (length (remaining r))) = Some (remaining r)
    | None => r_mem r2 = r_mem r
    end.

Lemma short_post_file r fp buf st :
  r_fp r = Some fp -> Forall is_byte (f_data fp) ->
  0 <= f_pos fp <= Z.of_nat (length (f_data fp)) -> f_error fp = false ->
  Z.of_nat (length buf) = PCAP_MAX_CAPLEN ->
  (length (remaining r) <= length buf)%nat ->
  short_post r (r <| r_fp := Some (File (f_data fp)
                       (f_pos fp + Z.of_nat (length (remaining r))) (f_errno fp)
                       (bool_decide (is_Some (f_errno fp)))) |>
                  <| r_buf := Some (overwrite buf (remaining r)) |>) st.
Proof.
  intros Efp Hb Hpos Ee Hbuf Hlen. unfold short_post, short_read_status, input_errno.
  assert (Hrem : Z.of_nat (length (remaining r)) = Z.of_nat (length (f_data fp)) - f_pos fp)
    by (unfold remaining; rewrite Efp, length_drop; lia).
  cbn. rewrite Efp. cbn.
  assert (Hok : forall e st', st' <> PCAP_OK -> reader_ok
    (r <| r_fp := Some (File (f_data fp) (f_pos fp + Z.of_nat (length (remaining r)))
           (f_errno fp) (bool_decide (is_Some (f_errno fp)))) |>
       <| r_buf := Some (overwrite buf (remaining r)) |>
       <| r_sys_errno := e |> <| r_error := st' |>)).
  { intros e st' Hst'. split; [|done]. cbn. intros fp' [= <-]. cbn. split; [done|].
    split; [lia|]. split; [|done]. exists (overwrite buf (remaining r)). split; [done|].
    by rewrite length_overwrite. }
  assert (Hov := overwrite_head buf (remaining r) Hlen).
  destruct (f_errno fp) as [e|] eqn:Een; cbn; eexists; (split; [done|]);
    (split; [split; try done; unfold input_errno; cbn; rewrite Efp; cbn; congruence|]).
  - split; [done|]. split; [apply Hok|]. by eexists.
  - split; [done|]. split; [by apply (Hok (r_sys_errno r))|]. by eexists.
Qed.

(** A read that finds too little consumes the rest of the input. *)
Lemma take_input_short r n :
  reader_ok r -> r_error r = PCAP_OK -> 0 <= n <= PCAP_MAX_CAPLEN ->
  Z.of_nat (length (remaining r)) < n ->
  exists r', take_input r n = Some (None, Z.of_nat (length (remaining r)), r') /\
    forall st, short_post r r' st.
Proof.
  intros [Hfile Hmem] Herr Hn Hlen. unfold take_input.
  destruct (r_fp r) as [fp|] eqn:Efp.
  - destruct (Hfile _ eq_refl) as (Hb & Hpos & (buf & Ebuf & Hbuf) & Hfe).
    assert (Ee : f_error fp = false) by (destruct (f_error fp); naive_solver).
    assert (Hrem : remaining r = drop (Z.to_nat (f_pos fp)) (f_data fp))
      by (unfold remaining; by rewrite Efp).
    rewrite Ebuf. cbn [mbind option_bind].
    rewrite fread_short by first [done | lia | rewrite <- Hrem; lia]. rewrite <- Hrem, Ee.
    cbn [mbind option_bind orb].
    destruct (Z.eqb_spec (Z.of_nat (length (remaining r))) n); [lia|].
    eexists. split; [done|]. intros st. apply short_post_file; auto; lia.
  - destruct (Hmem eq_refl) as (Hb & Hml & Hpos & Hsz).
    assert (Hrem : remaining r = drop (Z.to_nat (r_mem_pos r)) (r_mem r))
      by (unfold remaining; by rewrite Efp).
    rewrite Hrem, length_drop in Hlen |- *.
    rewrite size_sub_small by lia. rewrite Z.gtb_ltb.
    destruct (Z.ltb_spec (r_mem_len r - r_mem_pos r) n); [|lia].
    replace (r_mem_len r - r_mem_pos r) with
      (Z.of_nat (length (r_mem r) - Z.to_nat (r_mem_pos r))) by lia.
    eexists. split; [done|]. intros st.
    unfold short_post, short_read_status, input_errno. cbn. rewrite Efp. cbn.
    eexists. split; [done|]. split; [split; try done; unfold input_errno; cbn; by rewrite Efp|].
    split; [done|]. split; [|cbn; by rewrite Efp].
    intros st' Hst'. split; cbn; [by rewrite Efp|]. intros _.
    repeat (split; [done || lia|]). lia.
Qed.

(** ** Records *)

(** The timestamp of the widest fields still fits 64 bits. *)
Lemma ts_exact sec frac (nsec : bool) :
  is_u 32 sec -> is_u 32 frac ->
  u64 (u64 (sec * 1000000000) + (if nsec then frac else u64 (frac * 1000))) =
  sec * 10 ^ 9 + frac * (if nsec then 1 else 1000).
Proof.
  intros Hs Hf. unfold is_u in *. rewrite (wrap_small 64 (sec * 1000000000)) by (unfold is_u; lia).
  destruct nsec; [rewrite wrap_small by (unfold is_u; lia); lia|].
  rewrite (wrap_small 64 (frac * 1000)) by (unfold is_u; lia).
  rewrite wrap_small by (unfold is_u; lia). lia.
Qed.

(** The record header parser on the 16 bytes [hd] that [data] starts with. *)
Lemma parse_record_header_spec obj off data info rec :
  Forall is_byte data -> (16 <= length data)%nat ->
  bytes_at obj off 16 = Some (take 16 data) ->
  let be := fi_big_endian info in
  let caplen := field be data 8 4 in
  let wirelen := field be data 12 4 in
  is_u 32 caplen /\ is_u 32 wirelen /\
  pcap_parse_record_header obj off info rec =
    Some (if decide (caplen > 262144)
          then (PCAP_ERR_BAD_CAPLEN, Pcap_record (rec_ts_ns rec) caplen wirelen None)
          else (PCAP_OK, Pcap_record (field be data 0 4 * 10 ^ 9 +
                                      field be data 4 4 * (if fi_nsec info then 1 else 1000))
                                     caplen (Z.max caplen wirelen) None)).
Proof.
  intros Hd Hlen Hobj be caplen wirelen.
  assert (Hf : forall o, (o + 4 <= 16)%nat -> rd32 obj off (Z.of_nat o) be = Some (field be data o 4) /\
                         is_u 32 (field be data o 4)).
  { intros o Ho.
    assert (Ht : Forall is_byte (take 16 data)) by (by apply Forall_take).
    assert (Hl : length (take 16 data) = 16%nat) by (rewrite length_take; lia).
    assert (E : field be (take 16 data) o 4 = field be data o 4).
    { unfold field. rewrite skipn_firstn_comm, take_take. do 3 f_equal. lia. }
    rewrite <- E. split; [apply (rd32_field _ _ 16 _ Hobj Ht); lia|].
    apply load32_field; [done|lia]. }
  split; [apply Hf; lia|]. split; [apply Hf; lia|].
  unfold pcap_parse_record_header. fold be.
  rewrite (proj1 (Hf 0%nat ltac:(lia)) : rd32 obj off 0 be = Some _). cbn [mbind option_bind].
  rewrite (proj1 (Hf 4%nat ltac:(lia)) : rd32 obj off 4 be = Some _). cbn [mbind option_bind].
  rewrite (proj1 (Hf 8%nat ltac:(lia)) : rd32 obj off 8 be = Some _). cbn [mbind option_bind].
  rewrite (proj1 (Hf 12%nat ltac:(lia)) : rd32 obj off 12 be = Some _). cbn [mbind option_bind].
  fold caplen wirelen. cbn. unfold PCAP_MAX_CAPLEN. rewrite Z.gtb_ltb.
  destruct (Z.ltb_spec 262144 caplen); case_decide; try lia; [done|].
  rewrite ts_exact by (apply Hf; lia).
  destruct (Z.ltb_spec wirelen caplen); cbn.
  - by rewrite Z.max_l by lia.
  - by rewrite Z.max_r by lia.
Qed.

(** What [pcap_next] reports where the specification ends the capture: a stream
    that fails reports its error in place of an end. *)
Definition is_end (st : pcap_status) : bool :=
  match st with PCAP_EOF | PCAP_ERR_TRUNC_RECORD_HDR | PCAP_ERR_TRUNC_RECORD => true | _ => false end.

Definition end_status (st : pcap_status) (err : option Z) : pcap_status :=
  if is_end st then from_option (fun _ => PCAP_ERR_IO) st err else st.

(** The reader after a packet [p] was returned in [rec], with [rest] left. *)
Record next_ok (r r' : pcap_reader) (rec : pcap_record) (p : captured) (rest : bytes) : Prop := {
  no_ts : rec_ts_ns rec = cp_ts_ns p;
  no_caplen : rec_caplen rec = Z.of_nat (length (cp_data p));
  no_wirelen : rec_wirelen rec = cp_wirelen p;
  no_bytes : rec_bytes r' rec = Some (cp_data p);
  no_rest : remaining r' = rest;
  no_ok : reader_ok r';
  no_same : same_reader r (r' <| r_records := r_records r |>);
  no_records : r_records r' = u64 (r_records r + 1)
}.

(** The reader after it ended with [st]. *)
Record end_ok (r r' : pcap_reader) (st : pcap_status) : Prop := {
  eo_error : r_error r' = end_status st (input_errno r);
  eo_errno : r_sys_errno r' = (if is_end st then default (r_sys_errno r) (input_errno r)
                               else r_sys_errno r);
  eo_records : r_records r' = r_records r;
  eo_ok : reader_ok r'
}.

Definition next_post (r : pcap_reader) (sp : pcap_status + (captured * bytes))
           (res : option (pcap_status * pcap_reader * pcap_record)) : Prop :=
  match sp with
  | inl st => exists r' rec, res = Some (end_status st (input_errno r), r', rec) /\ end_ok r r' st
  | inr (p, rest) => exists r' rec, res = Some (PCAP_OK, r', rec) /\ next_ok r r' rec p rest
  end.

Lemma short_end r r' st (rec : pcap_record) :
  (forall st, short_post r r' st) -> st <> PCAP_OK -> is_end st = true ->
  exists r2 rec', (let '(st, r2) := short_read_status r' st in
                   Some (st, r2 <| r_error := st |>, rec)) =
                  Some (end_status st (input_errno r), r2, rec') /\ end_ok r r2 st.
Proof.
  intros H Hst He. destruct (H st) as (r2 & E & Hs & Herr & Hok & _). rewrite E.
  unfold end_status. rewrite He. eexists _, rec. split; [done|]. split; cbn.
  - unfold end_status. by rewrite He.
  - by rewrite He.
  - apply (sr_records _ _ Hs).
  - apply Hok. by destruct (input_errno r).
Qed.

Lemma reader_ok_error r st : reader_ok r -> st <> PCAP_OK -> reader_ok (r <| r_error := st |>).
Proof.
  intros [Hf Hm] Hst. split; cbn; [|exact Hm].
  intros fp Efp. destruct (Hf _ Efp) as (A & B & C & _). auto.
Qed.

Lemma end_ok_same r r' r2 st : same_reader r r' -> end_ok r' r2 st -> end_ok r r2 st.
Proof.
  intros Hs [A B C D]. split; [| | |done].
  - by rewrite <- (sr_input _ _ Hs).
  - by rewrite <- (sr_input _ _ Hs), <- (sr_errno _ _ Hs).
  - by rewrite <- (sr_records _ _ Hs).
Qed.

(** The packet bytes: the second read of a record. *)
Lemma next_ok_intro r r' r2 p obj off data ts caplen wirelen :
  same_reader r r' -> same_reader r' r2 -> reader_ok r2 ->
  deref r2 p = Some (obj, off) -> 0 <= caplen ->
  (Z.to_nat caplen <= length data - 16)%nat ->
  bytes_at obj off caplen = Some (take (Z.to_nat caplen) (drop 16 data)) ->
  remaining r2 = drop (Z.to_nat caplen) (drop 16 data) ->
  next_ok r (r2 <| r_records := u64 (r_records r2 + 1) |>)
    ((Pcap_record ts caplen wirelen None) <| rec_data := Some p |>)
    (Captured ts wirelen (take (Z.to_nat caplen) (drop 16 data)))
    (drop (16 + Z.to_nat caplen) data).
Proof.
  intros [] [] [Hf Hm] Hd Hc Hle Hb Hr. split; cbn; try done.
  - rewrite length_take, length_drop. lia.
  - unfold rec_bytes. cbn.
    replace (deref (r2 <| r_records := u64 (r_records r2 + 1) |>) p) with (deref r2 p)
      by (by destruct p). by rewrite Hd.
  - change (remaining r2 = drop (16 + Z.to_nat caplen) data). by rewrite Hr, drop_drop.
  - split; cbn; try (by destruct r2); try congruence.
    + change (input_errno r2 = input_errno r). congruence.
    + by etrans.
  - congruence.
Qed.

(** [pcap_next] implements [split_record], on a stream and in memory. *)
Lemma pcap_next_spec r rec :
  reader_ok r -> r_error r = PCAP_OK -> Forall is_byte (remaining r) ->
  next_post r (split_record (r_info r) (remaining r)) (pcap_next r rec).
Proof.
  intros Hok Herr Hb. unfold pcap_next, pstatus_eqb. rewrite Herr. cbn [negb bool_decide].
  rewrite bool_decide_true by done. cbn [negb].
  unfold PCAP_RECORD_HDR_LEN.
  set (data := remaining r) in *. unfold split_record.
  destruct (decide (Z.of_nat (length data) < 16)) as [Hs|Hl].
  { destruct (take_input_short r 16) as (r' & E & Hpost); try done. rewrite E.
    cbn [mbind option_bind]. fold data.
    destruct (decide (length data = 0%nat)) as [H0|H0].
    - rewrite H0. cbn [Z.of_nat Z.eqb]. simpl. by apply short_end.
    - destruct (decide (length data < 16)%nat); [|lia].
      destruct (Z.eqb_spec (Z.of_nat (length data)) 0); [lia|].
      by apply short_end. }
  destruct (decide (length data = 0%nat)); [lia|].
  destruct (decide (length data < 16)%nat); [lia|].
  destruct (take_input_full r 16) as (p & r' & obj & off & E & Ed & Ebytes & Erem & Hok' & Hsame);
    try done; [subst data; lia|]. rewrite E. cbn [mbind option_bind]. rewrite Ed. cbn [mbind option_bind].
  rewrite (sr_info _ _ Hsame). fold data in Ebytes, Erem.
  destruct (parse_record_header_spec obj off data (r_info r) rec) as (Hc & Hw & ->); [done|lia|done|].
  set (be := fi_big_endian (r_info r)) in *. set (caplen := field be data 8 4) in *.
  fold data in Hsame.
  destruct (decide (caplen > 262144)).
  { cbn. eexists _, _. split; [done|]. split; cbn; try apply Hsame; try done.
    by apply reader_ok_error. }
  assert (Hlen' : length (remaining r') = (length data - 16)%nat)
    by (rewrite Erem, length_drop; lia).
  assert (Herr' : r_error r' = PCAP_OK) by (rewrite (sr_error _ _ Hsame); done).
  cbn [mbind option_bind]. rewrite bool_decide_true by done. cbn [negb rec_caplen].
  destruct (decide (Z.of_nat (length data) - 16 < caplen)) as [Ht|Ht].
  - destruct (take_input_short r' caplen) as (r2 & E2 & Hpost);
      [done|done|unfold is_u, PCAP_MAX_CAPLEN in *; lia|lia|].
    rewrite E2. cbn [mbind option_bind].
    unfold next_post. rewrite <- (sr_input _ _ Hsame).
    destruct (short_end r' r2 PCAP_ERR_TRUNC_RECORD
                {| rec_ts_ns := field be data 0 4 * 10 ^ 9 +
                     field be data 4 4 * (if fi_nsec (r_info r) then 1 else 1000);
                   rec_caplen := caplen; rec_wirelen := caplen `max` field be data 12 4;
                   rec_data := None |}) as (r3 & rec' & E3 & Hend); try done.
    rewrite E3. exists r3, rec'. split; [done|]. by apply (end_ok_same r r').
  - destruct (take_input_full r' caplen) as (p2 & r2 & obj2 & off2 & E2 & Ed2 & Eb2 & Er2 & Hok2 & Hs2);
      [done|done|unfold is_u, PCAP_MAX_CAPLEN in *; lia|lia|].
    rewrite E2. cbn [mbind option_bind]. eexists _, _. split; [done|].
    rewrite Erem in Eb2, Er2. change (Z.to_nat 16) with 16%nat in *.
    apply (next_ok_intro r r' r2 p2 obj2 off2); try done; unfold is_u in *; lia.
Qed.

(** ** The whole capture *)

(** The loop every client of the reader runs: fetch records until one call does
    not return [PCAP_OK]. *)
Fixpoint read_all (fuel : nat) (r : pcap_reader) (rec : pcap_record)
  : option (list captured * pcap_status * pcap_reader) :=
  match fuel with
  | O => None
  | S fuel =>
    '(st, r, rec) ← pcap_next r rec;
    if pstatus_eqb st PCAP_OK then
      d ← rec_bytes r rec;
      '(ps, st, r) ← read_all fuel r rec;
      Some (Captured (rec_ts_ns rec) (rec_wirelen rec) d :: ps, st, r)
    else Some ([], st, r)
  end.

Lemma split_record_shorter info data p rest :
  split_record info data = inr (p, rest) -> (length rest < length data)%nat.
Proof.
  unfold split_record. repeat case_decide; try done. intros [= _ <-].
  rewrite length_drop. lia.
Qed.

Lemma split_record_rest info data p rest :
  split_record info data = inr (p, rest) -> exists k, rest = drop k data.
Proof. unfold split_record. repeat case_decide; try done. intros [= _ <-]. eauto. Qed.

Lemma split_record_not_ok info data st : split_record info data = inl st -> st <> PCAP_OK.
Proof. unfold split_record. repeat case_decide; try done; by intros [= <-]. Qed.

Lemma pcap_packets_fuel fuel fuel' info data :
  (length data < fuel)%nat -> (length data < fuel')%nat ->
  pcap_packets fuel info data = pcap_packets fuel' info data.
Proof.
  revert fuel' data. induction fuel as [|fuel IH]; intros [|fuel'] data H H'; try lia.
  cbn [pcap_packets]. destruct (split_record info data) as [st|[p rest]] eqn:E; [done|].
  apply split_record_shorter in E. rewrite (IH fuel') by lia. done.
Qed.

(** All the packets of a record area. *)
Definition capture_of (info : pcap_file_info) (data : bytes) : list captured * pcap_status :=
  pcap_packets (S (length data)) info data.

Lemma end_status_not_ok st e : st <> PCAP_OK -> end_status st e <> PCAP_OK.
Proof. unfold end_status. by destruct st, e. Qed.

Lemma read_all_spec fuel r rec :
  reader_ok r -> r_error r = PCAP_OK -> Forall is_byte (remaining r) ->
  (length (remaining r) < fuel)%nat ->
  exists r', read_all fuel r rec =
    Some ((capture_of (r_info r) (remaining r)).1,
          end_status (capture_of (r_info r) (remaining r)).2 (input_errno r), r') /\
    r_error r' = end_status (capture_of (r_info r) (remaining r)).2 (input_errno r) /\
    r_records r' = fold_left (fun n _ => u64 (n + 1))
                     (capture_of (r_info r) (remaining r)).1 (r_records r).
Proof.
  unfold capture_of. revert r rec. induction fuel as [|fuel IH]; intros r rec Hok He Hb Hf; [lia|].
  cbn [read_all]. pose proof (pcap_next_spec r rec Hok He Hb) as Hn.
  cbn [pcap_packets].
  destruct (split_record (r_info r) (remaining r)) as [st|[p rest]] eqn:E; cbn [next_post] in Hn.
  - destruct Hn as (r' & rec' & -> & Hend). cbn [mbind option_bind]. unfold pstatus_eqb.
    apply split_record_not_ok in E.
    rewrite bool_decide_false by (by apply end_status_not_ok). exists r'. split; [done|].
    split; apply Hend.
  - destruct Hn as (r' & rec' & -> & [N1 N2 N3 N4 N5 N6 N7 N8]). cbn [mbind option_bind].
    unfold pstatus_eqb. rewrite bool_decide_true by done. rewrite N4. cbn [mbind option_bind].
    pose proof (split_record_shorter _ _ _ _ E) as Hsh.
    destruct (split_record_rest _ _ _ _ E) as [k Hk].
    pose proof (sr_info _ _ N7 : r_info r' = r_info r) as Ei.
    pose proof (sr_input _ _ N7 : input_errno r' = input_errno r) as Ein.
    pose proof (sr_error _ _ N7 : r_error r' = r_error r) as Ee.
    destruct (IH r' rec') as (r2 & -> & E2 & E3); [done|congruence|rewrite N5, Hk; by apply Forall_drop|
      rewrite N5; lia|].
    rewrite Ei, Ein, N5 in *.
    rewrite (pcap_packets_fuel (length (remaining r)) (S (length rest))) by lia.
    cbn [mbind option_bind].
    destruct (pcap_packets (S (length rest)) (r_info r) rest) as [ps st]. cbn [fst snd] in *.
    exists r2. split; [|split; [done|]].
    + rewrite N1, N3. by destruct p.
    + cbn [fold_left]. by rewrite E3, N8.
Qed.

(** ** Opening *)

Lemma field_take be data k off n :
  (off + n <= k)%nat -> field be (take k data) off n = field be data off n.
Proof.
  intros H. unfold field. rewrite skipn_firstn_comm, take_take. do 3 f_equal. lia.
Qed.

(** Only the first 24 bytes of the input matter. *)
Lemma valid_header_take data info :
  valid_header (take 24 data) info <-> valid_header data info.
Proof.
  unfold valid_header. rewrite length_take, !field_take by lia.
  split; intros (H & ?); (split; [lia|done]).
Qed.

(** A reader at the start of its input, with nothing read. *)
Record reader_fresh (r : pcap_reader) : Prop := {
  rf_ok : reader_ok r;
  rf_error : r_error r = PCAP_OK;
  rf_start : r_fp r = None -> remaining r = r_mem r;
  rf_bytes : Forall is_byte (remaining r)
}.

Definition is_open_error (st : pcap_status) : bool :=
  match st with
  | PCAP_ERR_SHORT_HEADER | PCAP_ERR_BAD_MAGIC | PCAP_ERR_PCAPNG | PCAP_ERR_BAD_VERSION
  | PCAP_ERR_BAD_LINKTYPE => true
  | _ => false
  end.

(** What reading the global header does.  [PCAP_OK] exactly on a valid header,
    with the reader then at the first record. *)
Record open_post (r : pcap_reader) (st : pcap_status) (r' : pcap_reader) : Prop := {
  op_iff : st = PCAP_OK <-> exists info, valid_header (remaining r) info;
  op_ok : st = PCAP_OK -> valid_header (remaining r) (r_info r') /\
            remaining r' = drop 24 (remaining r) /\ reader_ok r' /\
            r_error r' = PCAP_OK /\ r_records r' = r_records r /\
            input_errno r' = input_errno r;
  op_io : forall e, (length (remaining r) < 24)%nat -> input_errno r = Some e ->
            st = PCAP_ERR_IO /\ r_sys_errno r' = e;
  op_other : (length (remaining r) < 24)%nat -> input_errno r = None ->
            st = PCAP_ERR_SHORT_HEADER \/ st = PCAP_ERR_BAD_MAGIC \/ st = PCAP_ERR_PCAPNG
}.

Lemma short_header_status obj data st info :
  bytes_at obj 0 (Z.of_nat (length data)) = Some data -> Forall is_byte data ->
  (length data < 24)%nat ->
  pcap_parse_global_header obj 0 (Z.of_nat (length data)) = Some (st, info) ->
  st = PCAP_ERR_SHORT_HEADER \/ st = PCAP_ERR_BAD_MAGIC \/ st = PCAP_ERR_PCAPNG.
Proof.
  intros Hobj Hd Hlen. unfold pcap_parse_global_header, parse_after_magic, PCAP_GLOBAL_HDR_LEN.
  destruct (Z.ltb_spec (Z.of_nat (length data)) 24); [|lia].
  destruct (Z.of_nat (length data) <? 4); [intros [= <- _]; auto|].
  destruct (load_le32 obj 0); [|done]. cbn [mbind option_bind].
  repeat (case_match; [intros [= <- _]; auto|]). intros [= <- _]; auto.
Qed.

(** A header cut short: the bytes there are are where the parser looks for them. *)
Lemma short_bytes_there r r2 :
  (r_fp r = None -> remaining r = r_mem r) -> (is_Some (r_fp r2) <-> is_Some (r_fp r)) ->
  match r_fp r2 with
  | Some _ => exists buf, r_buf r2 = Some buf /\
                bytes_at buf 0 (Z.of_nat (length (remaining r))) = Some (remaining r)
  | None => r_mem r2 = r_mem r
  end ->
  exists obj, (match r_fp r2 with Some _ => r_buf r2 | None => Some (r_mem r2) end) = Some obj /\
    bytes_at obj 0 (Z.of_nat (length (remaining r))) = Some (remaining r).
Proof.
  intros Hstart Hf Hbuf. destruct (r_fp r2) as [fp|]; [destruct Hbuf as (buf & -> & ?); eauto|].
  exists (r_mem r2). split; [done|]. rewrite Hbuf, <- Hstart.
  - unfold bytes_at. rewrite decide_True by lia. change (Z.to_nat 0) with 0%nat. by rewrite Nat2Z.id, drop_0, firstn_all.
  - destruct (r_fp r); [|done]. destruct Hf as [_ Hf]. by destruct Hf.
Qed.

Lemma read_short_header r :
  reader_fresh r -> (length (remaining r) < 24)%nat ->
  exists st r', read_global_header r = Some (st, r') /\ open_post r st r'.
Proof.
  intros [Hok Herr Hstart Hb] Hs. unfold read_global_header, PCAP_GLOBAL_HDR_LEN.
  set (data := remaining r) in *.
  destruct (take_input_short r 24) as (r' & E & Hpost); try done; [subst data; lia|].
  rewrite E. cbn [mbind option_bind].
  destruct (Hpost PCAP_ERR_SHORT_HEADER) as (r2 & E2 & Hsame & Hno & _ & Hbuf).
  rewrite E2. fold data in Hbuf |- *.
  assert (Hnv : forall info, ~ valid_header data info) by (intros info [? _]; lia).
  destruct (input_errno r) as [e|] eqn:Ee; cbn [from_option].
  { eexists _, r2. split; [done|]. split; fold data; try done.
    - split; [done|]. intros [info Hv]. by apply Hnv in Hv.
    - intros e' _. rewrite Ee. intros [= <-]. by rewrite Hno.
    - by rewrite Ee. }
  unfold pstatus_eqb. rewrite bool_decide_true by done. cbn [andb].
  rewrite Z.geb_leb. destruct (Z.leb_spec 4 (Z.of_nat (length data))).
  2: { eexists _, r2. split; [done|]. split; fold data; try done; [|by rewrite Ee|auto].
       split; [done|]. intros [info Hv]. by apply Hnv in Hv. }
  destruct (short_bytes_there r r2 Hstart (sr_file _ _ Hsame) Hbuf) as (obj & -> & Hobj).
  cbn [mbind option_bind].
  destruct (parse_global_header_ok obj 0 data Hobj Hb) as (st & info & Ep & Hval & _).
  rewrite Ep. cbn [mbind option_bind].
  exists st, r2. split; [done|].
  pose proof (short_header_status _ _ _ _ Hobj Hb Hs Ep) as Hst.
  split; fold data; [..|by rewrite Ee|done].
  - split; [by destruct Hst as [->|[->| ->]]|]. intros [info' Hv]. by apply Hnv in Hv.
  - by destruct Hst as [->|[->| ->]].
Qed.

Lemma read_full_header r :
  reader_fresh r -> (24 <= length (remaining r))%nat ->
  exists st r', read_global_header r = Some (st, r') /\ open_post r st r'.
Proof.
  intros [Hok Herr Hstart Hb] Hl. unfold read_global_header, PCAP_GLOBAL_HDR_LEN.
  set (data := remaining r) in *.
  destruct (take_input_full r 24) as (p & r' & obj & off & E & Ed & Ebytes & Erem & Hok' & Hsame);
    try done; [subst data; lia|]. rewrite E. cbn [mbind option_bind].
  rewrite Ed. cbn [mbind option_bind]. fold data in Ebytes, Erem.
  change (Z.to_nat 24) with 24%nat in *.
  assert (Hlen : length (take 24 data) = 24%nat) by (rewrite length_take; lia).
  destruct (parse_global_header_ok obj off (take 24 data)) as (st & info & Ep & Hval & Huniq).
  { by rewrite Hlen. } { by apply Forall_take. }
  rewrite Hlen in Ep. change (Z.of_nat 24) with 24 in Ep. rewrite Ep. cbn [mbind option_bind].
  eexists st, _. split; [done|]. split; fold data; try lia.
  - split; [intros Hst; exists info; by apply valid_header_take, Hval|].
    intros [info' Hv]. apply valid_header_take in Hv. by apply (Huniq info').
  - intros Hst. cbn. split; [by apply valid_header_take, Hval|]. split; [exact Erem|].
    split; [by destruct Hok'|]. split; [by rewrite (sr_error _ _ Hsame)|].
    split; [apply Hsame|]. exact (sr_input _ _ Hsame).
Qed.

Lemma read_global_header_spec r :
  reader_fresh r ->
  exists st r', read_global_header r = Some (st, r') /\ open_post r st r'.
Proof.
  intros Hr. destruct (decide (length (remaining r) < 24)%nat);
    [by apply read_short_header|apply read_full_header; [done|lia]].
Qed.

(** ** Ownership

    What the reader owns: an open stream, and a record buffer.  Reading never
    changes it. *)
Definition owns (r : pcap_reader) : bool * bool :=
  (bool_decide (is_Some (r_fp r)), bool_decide (is_Some (r_buf r))).

Lemma take_input_owns r n p got r' : take_input r n = Some (p, got, r') -> owns r' = owns r.
Proof.
  unfold take_input, owns. destruct (r_fp r) as [fp|] eqn:Efp.
  - destruct (r_buf r) as [buf|] eqn:Eb; [|done]. cbn [mbind option_bind].
    destruct (fread buf n fp) as [[[g fp'] buf']|]; [|done]. cbn [mbind option_bind].
    by intros [= _ _ <-].
  - repeat case_match; try done; intros [= _ _ <-]; cbn; by rewrite Efp.
Qed.

Lemma short_read_status_owns r st st' r' :
  short_read_status r st = (st', r') -> owns r' = owns r.
Proof.
  unfold short_read_status. repeat case_match; intros [= _ <-]; try done.
Qed.

Lemma read_global_header_owns r st r' :
  read_global_header r = Some (st, r') -> owns r' = owns r.
Proof.
  unfold read_global_header.
  destruct (take_input r _) as [[[p got] r1]|] eqn:E1; [|done]. apply take_input_owns in E1.
  cbn [mbind option_bind]. destruct p as [p|].
  - destruct (deref r1 p) as [[obj off]|]; [|done]. cbn [mbind option_bind].
    destruct (pcap_parse_global_header _ _ _) as [[st' info]|]; [|done].
    cbn [mbind option_bind]. intros [= _ <-]. exact E1.
  - destruct (short_read_status r1 _) as [st1 r2] eqn:E2. apply short_read_status_owns in E2.
    destruct (_ && _); [|intros [= _ <-]; congruence].
    destruct (match r_fp r2 with Some _ => _ | None => _ end); [|done]. cbn [mbind option_bind].
    destruct (pcap_parse_global_header _ _ _) as [[st' info]|]; [|done].
    cbn [mbind option_bind]. intros [= _ <-]. congruence.
Qed.

Lemma pcap_close_owns r os b :
  owns r = (true, b) ->
  pcap_close r os = (reader_reset, Resources (os_files os - 1) (os_blocks os - Z.b2z b)).
Proof.
  unfold owns, pcap_close. destruct (r_fp r), (r_buf r); intros [= <-]; cbn; try done.
  by rewrite Z.sub_0_r.
Qed.

(** A stream positioned at [f_pos] that has not failed, and a record buffer of
    the size [open_stream] asks for. *)
Definition stream_ok (fp : FILE) : Prop :=
  Forall is_byte (f_data fp) /\ 0 <= f_pos fp <= Z.of_nat (length (f_data fp)) /\
  f_error fp = false.

Definition buffer_ok (alloc : option bytes) : Prop :=
  forall buf, alloc = Some buf -> Z.of_nat (length buf) = PCAP_MAX_CAPLEN.

Definition stream_rest (fp : FILE) : bytes := drop (Z.to_nat (f_pos fp)) (f_data fp).

(** A reader that accepted the header of [input], which ends in [err]. *)
Record opened (input : bytes) (err : option Z) (r : pcap_reader) : Prop := {
  opn_header : valid_header input (r_info r);
  opn_rest : remaining r = drop 24 input;
  opn_ok : reader_ok r;
  opn_error : r_error r = PCAP_OK;
  opn_records : r_records r = 0;
  opn_errno : input_errno r = err
}.

(** A reader that failed to open owns nothing and repeats its error. *)
Definition failed_open (st : pcap_status) (r : pcap_reader) : Prop :=
  r_fp r = None /\ r_buf r = None /\ r_error r = st.

Lemma stream_fresh fp buf :
  stream_ok fp -> Z.of_nat (length buf) = PCAP_MAX_CAPLEN ->
  reader_fresh (reader_reset <| r_fp := Some fp |> <| r_buf := Some buf |>).
Proof.
  intros (Hb & Hpos & He) Hbuf. split; try done.
  - split; [|done]. cbn. intros fp' [= <-]. rewrite He. eauto 10.
  - cbn. by apply Forall_drop.
Qed.

Lemma open_stream_spec fp alloc os :
  stream_ok fp -> buffer_ok alloc ->
  exists st r os', open_stream reader_reset fp alloc os = Some (st, r, os') /\
    (st = PCAP_OK <-> is_Some alloc /\ exists info, valid_header (stream_rest fp) info) /\
    (st = PCAP_OK -> opened (stream_rest fp) (f_errno fp) r /\
                     pcap_close r os' = (reader_reset, Resources (os_files os - 1) (os_blocks os))) /\
    (st <> PCAP_OK -> failed_open st r /\ os' = Resources (os_files os - 1) (os_blocks os)) /\
    (alloc = None -> st = PCAP_ERR_NOMEM) /\
    (is_Some alloc -> forall e, f_errno fp = Some e -> (length (stream_rest fp) < 24)%nat ->
       st = PCAP_ERR_IO /\ r_sys_errno r = e).
Proof.
  intros Hfp Halloc. unfold open_stream. destruct alloc as [buf|].
  - cbn [r_buf update set_r_fp set_r_buf]. cbn [mbind option_bind].
    set (r0 := reader_reset <| r_fp := Some fp |> <| r_buf := Some buf |>).
    destruct (read_global_header_spec r0) as (st & r & E & [Hiff Hok Hio Hother]);
      [by apply stream_fresh; [|by apply Halloc]|].
    change (remaining r0) with (stream_rest fp) in *.
    change (input_errno r0) with (f_errno fp) in *.
    assert (Hclose : pcap_close r (Resources (os_files os) (os_blocks os + 1)) =
                     (reader_reset, Resources (os_files os - 1) (os_blocks os))).
    { rewrite (pcap_close_owns r _ true) by (by rewrite (read_global_header_owns _ _ _ E)).
      cbn. do 2 f_equal. lia. }
    rewrite E. cbn [mbind option_bind]. cbn [os_files os_blocks].
    unfold pstatus_eqb. destruct (decide (st = PCAP_OK)) as [Hst|Hst].
    + rewrite bool_decide_true by done. cbn [negb].
      destruct (Hok Hst) as (A1 & A2 & A3 & A4 & A5 & A6).
      eexists st, r, _. split; [done|]. split.
      { split; [intros; split; [done|by apply Hiff]|intros [_ ?]; by apply Hiff]. }
      split; [intros _; split; [by split|done]|]. split; [done|]. split; [done|].
      intros _ e He Hlen. by apply Hio.
    + rewrite bool_decide_false by done. cbn [negb]. rewrite Hclose.
      eexists st, _, _. split; [done|].
      split; [split; [done|intros [_ ?]; by apply Hiff]|].
      split; [done|]. split; [done|]. split; [done|]. intros _ e He Hlen. by apply Hio.
  - eexists PCAP_ERR_NOMEM, _, _. split; [done|].
    split; [split; [done|by intros [[] _]]|]. split; [done|]. split; [done|].
    split; [done|]. by intros [].
Qed.

Lemma open_mem_spec data :
  Forall is_byte data -> Z.of_nat (length data) <= SIZE_MAX ->
  exists st r, pcap_open_mem data (Z.of_nat (length data)) = Some (st, r) /\
    (st = PCAP_OK <-> exists info, valid_header data info) /\
    (st = PCAP_OK -> opened data None r) /\
    (st <> PCAP_OK -> failed_open st r) /\
    ((length data < 24)%nat ->
       st = PCAP_ERR_SHORT_HEADER \/ st = PCAP_ERR_BAD_MAGIC \/ st = PCAP_ERR_PCAPNG).
Proof.
  intros Hb Hsz. unfold pcap_open_mem.
  set (r0 := reader_reset <| r_mem := data |> <| r_mem_len := Z.of_nat (length data) |>).
  assert (Hrem : remaining r0 = data).
  { unfold remaining. cbn. change (Z.to_nat 0) with 0%nat. apply drop_0. }
  assert (Hfresh : reader_fresh r0).
  { split; [|done|by rewrite Hrem|by rewrite Hrem]. split; [done|]. cbn. intros _.
    repeat (split; [done || lia|]). lia. }
  destruct (read_global_header_spec r0 Hfresh) as (st & r & E & [Hiff Hok _ Hother]).
  pose proof (read_global_header_owns _ _ _ E) as Ho.
  rewrite Hrem in *. rewrite E. cbn [mbind option_bind]. unfold pstatus_eqb.
  destruct (decide (st = PCAP_OK)) as [Hst|Hst].
  - rewrite bool_decide_true by done. exists st, r. split; [done|]. split; [done|].
    split; [|split; [done|by intros; apply Hother]]. intros _.
    destruct (Hok Hst) as (A1 & A2 & A3 & A4 & A5 & A6). by split.
  - rewrite bool_decide_false by done. eexists st, _. split; [done|]. split; [done|].
    split; [done|]. split; [|by intros; apply Hother]. intros _.
    unfold failed_open, owns in *. cbn. destruct (r_fp r), (r_buf r); done.
Qed.
