(* ===== verification/ReaderStatus.v ===== *)
(** More on the pcap reader: the verdict on a header depends on its bytes only,
    wherever they come from, and where a record returned from memory lies. *)
From S2P Require Export ReaderProps.

(** ** The header parser reads its bytes only *)
Section Local.
Context (obj : bytes) (off : Z) (data : bytes).
Context (Hobj : bytes_at obj off (Z.of_nat (length data)) = Some data).

Lemma byte_at_there i : 0 <= i < Z.of_nat (length data) -> byte_at obj (off + i) = byte_at data (0 + i).
Proof. intros Hi. by rewrite (byte_at_sub _ _ _ _ _ Hobj). Qed.

Lemma load_le32_there i : 0 <= i -> i + 4 <= Z.of_nat (length data) -> load_le32 obj (off + i) = load_le32 data (0 + i).
Proof.
  intros H0 H4. unfold load_le32. rewrite <- !Z.add_assoc. by rewrite !byte_at_there by lia.
Qed.
Lemma load_be32_there i : 0 <= i -> i + 4 <= Z.of_nat (length data) -> load_be32 obj (off + i) = load_be32 data (0 + i).
Proof.
  intros H0 H4. unfold load_be32. rewrite <- !Z.add_assoc. by rewrite !byte_at_there by lia.
Qed.
Lemma load_le16_there i : 0 <= i -> i + 2 <= Z.of_nat (length data) -> load_le16 obj (off + i) = load_le16 data (0 + i).
Proof.
  intros H0 H4. unfold load_le16. rewrite <- !Z.add_assoc. by rewrite !byte_at_there by lia.
Qed.
Lemma load_be16_there i : 0 <= i -> i + 2 <= Z.of_nat (length data) -> load_be16 obj (off + i) = load_be16 data (0 + i).
Proof.
  intros H0 H4. unfold load_be16. rewrite <- !Z.add_assoc. by rewrite !byte_at_there by lia.
Qed.

Lemma parse_global_header_there :
  pcap_parse_global_header obj off (Z.of_nat (length data)) =
  pcap_parse_global_header data 0 (Z.of_nat (length data)).
Proof.
  assert (Hafter : forall info, parse_after_magic obj off (Z.of_nat (length data)) info =
    parse_after_magic data 0 (Z.of_nat (length data)) info).
  { intros info. unfold parse_after_magic, PCAP_GLOBAL_HDR_LEN.
    destruct (Z.ltb_spec (Z.of_nat (length data)) 24); [done|]. unfold rd16, rd32.
    destruct (fi_big_endian info);
      rewrite ?load_be16_there, ?load_be32_there, ?load_le16_there, ?load_le32_there by lia; done. }
  unfold pcap_parse_global_header. destruct (Z.ltb_spec (Z.of_nat (length data)) 4); [done|].
  pose proof (load_le32_there 0 ltac:(lia) ltac:(lia)) as E. change (0 + 0) with 0 in E. rewrite Z.add_0_r in E. rewrite E.
  destruct (load_le32 data 0); [|done]. cbn [mbind option_bind]. by rewrite !Hafter.
Qed.
End Local.

(** The verdict on the bytes a capture starts with. *)
Definition header_status (data : bytes) : pcap_status :=
  match pcap_parse_global_header (take 24 data) 0 (Z.of_nat (length (take 24 data))) with
  | Some (st, _) => st
  | None => PCAP_OK
  end.

Lemma read_global_header_status r st r' :
  reader_fresh r -> input_errno r = None -> read_global_header r = Some (st, r') ->
  st = header_status (remaining r).
Proof.
  intros [Hok Herr Hstart Hb] Hno. unfold read_global_header, PCAP_GLOBAL_HDR_LEN.
  set (data := remaining r) in *. unfold header_status.
  destruct (decide (length data < 24)%nat) as [Hs|Hl].
  - rewrite (take_ge data) by lia.
    destruct (take_input_short r 24) as (r1 & E & Hpost); try done; [subst data; lia|].
    rewrite E. cbn [mbind option_bind].
    destruct (Hpost PCAP_ERR_SHORT_HEADER) as (r2 & E2 & Hsame & _ & _ & Hbuf).
    rewrite E2, Hno. fold data in Hbuf |- *. cbn [from_option].
    unfold pstatus_eqb. rewrite bool_decide_true by done. cbn [andb].
    rewrite Z.geb_leb. destruct (Z.leb_spec 4 (Z.of_nat (length data))) as [H4|H4].
    2: { intros [= <- _]. unfold pcap_parse_global_header.
         by destruct (Z.ltb_spec (Z.of_nat (length data)) 4); [|lia]. }
    destruct (match r_fp r2 with Some _ => r_buf r2 | None => Some (r_mem r2) end) as [obj|] eqn:Eo; [|done].
    cbn [mbind option_bind].
    assert (Hobj : bytes_at obj 0 (Z.of_nat (length data)) = Some data).
    { destruct (r_fp r2) as [fp|] eqn:Efp.
      - destruct Hbuf as (buf & Hbuf & Hd). congruence.
      - injection Eo as <-. rewrite Hbuf, <- Hstart.
        + fold data. unfold bytes_at. rewrite decide_True by lia.
          change (Z.to_nat 0) with 0%nat. by rewrite Nat2Z.id, drop_0, firstn_all.
        + pose proof (sr_file _ _ Hsame : is_Some (r_fp r2) <-> is_Some (r_fp r)) as Hf.
          rewrite Efp in Hf. destruct (r_fp r); [|done]. destruct Hf as [_ Hf]. by destruct Hf. }
    rewrite (parse_global_header_there obj 0 data Hobj).
    destruct (pcap_parse_global_header data 0 _) as [[st1 info]|]; [|done]. by intros [= <- _].
  - destruct (take_input_full r 24) as (p & r1 & obj & off & E & Ed & Ebytes & _);
      try done; [subst data; lia|]. rewrite E. cbn [mbind option_bind].
    rewrite Ed. cbn [mbind option_bind]. fold data in Ebytes. change (Z.to_nat 24) with 24%nat in *.
    assert (Hlen : Z.of_nat (length (take 24 data)) = 24) by (rewrite length_take; lia).
    rewrite <- Hlen in Ebytes at 1. rewrite <- Hlen at 1. rewrite (parse_global_header_there obj off _ Ebytes).
    destruct (pcap_parse_global_header (take 24 data) 0 _) as [[st1 info]|]; [|done]. by intros [= <- _].
Qed.

Lemma open_mem_status data st r :
  Forall is_byte data -> Z.of_nat (length data) <= SIZE_MAX ->
  pcap_open_mem data (Z.of_nat (length data)) = Some (st, r) -> st = header_status data.
Proof.
  intros Hb Hsz. unfold pcap_open_mem.
  set (r0 := reader_reset <| r_mem := data |> <| r_mem_len := Z.of_nat (length data) |>).
  assert (Hrem : remaining r0 = data)
    by (unfold remaining; cbn; change (Z.to_nat 0) with 0%nat; apply drop_0).
  assert (Hfresh : reader_fresh r0).
  { split; [|done|by rewrite Hrem|by rewrite Hrem]. split; [done|]. cbn. intros _.
    repeat (split; [done || lia|]). lia. }
  destruct (read_global_header r0) as [[st1 r1]|] eqn:E; [|done]. cbn [mbind option_bind].
  pose proof (read_global_header_status r0 st1 r1 Hfresh eq_refl E) as Hst. rewrite Hrem in Hst.
  destruct (negb _); by intros [= <- _].
Qed.

Lemma open_stream_status fp buf os st r os' :
  stream_ok fp -> f_errno fp = None -> Z.of_nat (length buf) = PCAP_MAX_CAPLEN ->
  open_stream reader_reset fp (Some buf) os = Some (st, r, os') -> st = header_status (stream_rest fp).
Proof.
  intros Hfp Hno Hbuf. unfold open_stream. cbn [r_buf update set_r_fp set_r_buf]. cbn [mbind option_bind].
  set (r0 := reader_reset <| r_fp := Some fp |> <| r_buf := Some buf |>).
  destruct (read_global_header r0) as [[st1 r1]|] eqn:E; [|done]. cbn [mbind option_bind].
  pose proof (read_global_header_status r0 st1 r1 (stream_fresh fp buf Hfp Hbuf) Hno E) as Hst.
  change (remaining r0) with (stream_rest fp) in Hst.
  destruct (negb _); [destruct (pcap_close _ _)|]; by intros [= <- _ _].
Qed.

(** ** What a reader owns, and where a record lies *)
(** What reading packets never changes: what the reader owns, and the header it
    accepted. *)
Definition settled (r : pcap_reader) : bool * bool * pcap_file_info := (owns r, r_info r).

Lemma take_input_settled r n p got r' : take_input r n = Some (p, got, r') -> settled r' = settled r.
Proof.
  intros E. pose proof (take_input_owns _ _ _ _ _ E) as Ho. unfold settled. rewrite Ho. f_equal.
  clear Ho. revert E. unfold take_input. destruct (r_fp r) as [fp|].
  - destruct (r_buf r) as [buf|]; [|done]. cbn [mbind option_bind].
    destruct (fread buf n fp) as [[[g fp'] buf']|]; [|done]. cbn [mbind option_bind]. by intros [= _ _ <-].
  - repeat case_match; try done; by intros [= _ _ <-].
Qed.

Lemma short_read_status_settled r st st' r' : short_read_status r st = (st', r') -> settled r' = settled r.
Proof. unfold short_read_status. repeat case_match; intros [= _ <-]; try done. Qed.

Lemma pcap_next_settled r rec st r' rec' : pcap_next r rec = Some (st, r', rec') -> settled r' = settled r.
Proof.
  unfold pcap_next. destruct (negb _); [by intros [= <- <- <-]|].
  destruct (take_input r PCAP_RECORD_HDR_LEN) as [[[[p|] got] r1]|] eqn:E1; cbn [mbind option_bind]; try done.
  2:{ destruct (short_read_status _ _) as [s r2] eqn:E2. intros [= <- <- <-].
      apply take_input_settled in E1. apply short_read_status_settled in E2. transitivity (settled r2); [done|congruence]. }
  destruct (deref r1 p) as [[obj off]|]; cbn [mbind option_bind]; [|done].
  destruct (pcap_parse_record_header _ _ _ _) as [[s rc]|]; cbn [mbind option_bind]; [|done].
  apply take_input_settled in E1.
  destruct (negb _); [by intros [= <- <- <-]|].
  destruct (take_input r1 (rec_caplen rc)) as [[[[q|] got2] r2]|] eqn:E2; cbn [mbind option_bind]; try done.
  - intros [= <- <- <-]. apply take_input_settled in E2. transitivity (settled r2); [done|congruence].
  - destruct (short_read_status _ _) as [s3 r3] eqn:E3. intros [= <- <- <-].
    apply take_input_settled in E2. apply short_read_status_settled in E3. transitivity (settled r3); [done|congruence].
Qed.

Lemma pcap_next_owns r rec st r' rec' : pcap_next r rec = Some (st, r', rec') -> owns r' = owns r.
Proof. intros E%pcap_next_settled. exact (f_equal fst E). Qed.

(** A record of a reader without a buffer points into the memory it reads. *)
Lemma rec_bytes_in_mem r rec d :
  r_buf r = None -> rec_bytes r rec = Some d ->
  exists off, rec_data rec = Some (InMem off) /\ 0 <= off /\ 0 <= rec_caplen rec /\
    off + rec_caplen rec <= Z.of_nat (length (r_mem r)).
Proof.
  intros Hbuf. unfold rec_bytes. destruct (rec_data rec) as [[|off]|]; cbn [mbind option_bind deref].
  - by rewrite Hbuf.
  - unfold bytes_at. case_decide as Hc; [|done]. intros _. exists off. split; [done|lia].
  - done.
Qed.

Lemma close_same_owner r r' os : owns r = owns r' -> (pcap_close r os).2 = (pcap_close r' os).2.
Proof.
  unfold owns, pcap_close. intros [= H1 H2]. cbn. f_equal; [clear H2|clear H1].
  - by destruct (r_fp r), (r_fp r').
  - by destruct (r_buf r), (r_buf r').
Qed.

Lemma close_owns_nothing r os : owns r = (false, false) -> (pcap_close r os).2 = os.
Proof. unfold owns, pcap_close. destruct (r_fp r), (r_buf r), os; by intros [= ]. Qed.

(** ** What opening leaves alone *)
Definition kept_part (r : pcap_reader) : Z * bytes := (r_records r, r_mem r).

Lemma take_input_part r n p got r' : take_input r n = Some (p, got, r') -> kept_part r' = kept_part r.
Proof.
  unfold take_input. destruct (r_fp r) as [fp|].
  - destruct (r_buf r) as [buf|]; [|done]. cbn [mbind option_bind].
    destruct (fread buf n fp) as [[[g fp'] buf']|]; [|done]. cbn [mbind option_bind]. by intros [= _ _ <-].
  - repeat case_match; try done; by intros [= _ _ <-].
Qed.

Lemma short_read_status_part r st st' r' : short_read_status r st = (st', r') -> kept_part r' = kept_part r.
Proof. unfold short_read_status. repeat case_match; by intros [= _ <-]. Qed.

Lemma read_global_header_part r st r' : read_global_header r = Some (st, r') -> kept_part r' = kept_part r.
Proof.
  unfold read_global_header.
  destruct (take_input r _) as [[[p got] r1]|] eqn:E1; [|done]. apply take_input_part in E1.
  cbn [mbind option_bind]. destruct p as [p|].
  - destruct (deref r1 p) as [[obj off]|]; [|done]. cbn [mbind option_bind].
    destruct (pcap_parse_global_header _ _ _) as [[st' info]|]; [|done].
    cbn [mbind option_bind]. intros [= _ <-]. exact E1.
  - destruct (short_read_status r1 _) as [st1 r2] eqn:E2. apply short_read_status_part in E2.
    destruct (_ && _); [|intros [= _ <-]; congruence].
    destruct (match r_fp r2 with Some _ => _ | None => _ end); [|done]. cbn [mbind option_bind].
    destruct (pcap_parse_global_header _ _ _) as [[st' info]|]; [|done].
    cbn [mbind option_bind]. intros [= _ <-]. congruence.
Qed.

Lemma open_mem_part data len st r :
  pcap_open_mem data len = Some (st, r) -> r_records r = 0 /\ r_mem r = data /\ owns r = (false, false).
Proof.
  unfold pcap_open_mem. destruct (read_global_header _) as [[st1 r1]|] eqn:E; [|done].
  pose proof (read_global_header_part _ _ _ E) as [= H1 H2]. pose proof (read_global_header_owns _ _ _ E) as Ho.
  cbn [mbind option_bind]. destruct (negb _); by intros [= _ <-].
Qed.

Lemma open_stream_failed fp alloc os st r os' :
  open_stream reader_reset fp alloc os = Some (st, r, os') -> st <> PCAP_OK -> r_records r = 0 /\ owns r = (false, false).
Proof.
  unfold open_stream. destruct (match r_buf _ with None => _ | Some _ => _ end) as [[st1 r1]|]; [|done].
  cbn [mbind option_bind]. destruct (negb _) eqn:E; cbn [pcap_close].
  - by intros [= _ <- _].
  - intros [= <- _ _] Hne. unfold pstatus_eqb in E. by rewrite bool_decide_false in E by done.
Qed.

(** What opening a stream leaves open does not depend on the record buffer. *)
Lemma open_stream_same_os fp b1 b2 os st r1 r2 os1 os2 :
  stream_ok fp -> buffer_ok (Some b1) -> buffer_ok (Some b2) ->
  open_stream reader_reset fp (Some b1) os = Some (st, r1, os1) ->
  open_stream reader_reset fp (Some b2) os = Some (st, r2, os2) -> os1 = os2.
Proof.
  intros Hfp H1 H2 E1 E2. destruct (decide (st = PCAP_OK)) as [->|Hne].
  - assert (H : forall b r os', open_stream reader_reset fp (Some b) os = Some (PCAP_OK, r, os') ->
      os' = Resources (os_files os) (os_blocks os + 1)).
    { intros b r os'. unfold open_stream. destruct (match r_buf _ with None => _ | Some _ => _ end) as [[st' r']|];
        cbn [mbind option_bind]; [|done].
      destruct (negb _) eqn:E; cbn [pcap_close]; [|by intros [= _ _ <-]]. by intros [= -> _ _]. }
    by rewrite (H _ _ _ E1), (H _ _ _ E2).
  - destruct (open_stream_spec fp (Some b1) os Hfp H1) as (st1 & q1 & o1 & F1 & _ & _ & B1 & _).
    destruct (open_stream_spec fp (Some b2) os Hfp H2) as (st2 & q2 & o2 & F2 & _ & _ & B2 & _).
    rewrite E1 in F1. rewrite E2 in F2. injection F1 as <- <- <-. injection F2 as <- <- <-.
    destruct (B1 Hne) as [_ ->]. by destruct (B2 Hne) as [_ ->].
Qed.
