(* ===== verification/Builder.v ===== *)
(** The packet and pcap file builder (src/tests/builder.c): every header field by
    field in its byte order.  Definitions, and what the built bytes hold.

    Here a [bytebuf] is the list of its [len] bytes.  [Bytebuf] runs the same
    functions on its memory, with the capacity and the allocations that fail. *)
From S2P Require Export Bytes.

Definition bb_u8 (b : bytes) (v : Z) : bytes := b ++ [u8 v].

Definition bb_be16 (b : bytes) (v : Z) : bytes :=
  bb_u8 (bb_u8 b (Z.land (Z.shiftr v 8) 0xFF)) (Z.land v 0xFF).

Definition bb_be32 (b : bytes) (v : Z) : bytes :=
  bb_be16 (bb_be16 b (Z.shiftr v 16)) (Z.land v 0xFFFF).

Definition bb_u16 (b : bytes) (v : Z) (big_endian : bool) : bytes :=
  if big_endian then bb_be16 b v
  else bb_u8 (bb_u8 b (Z.land v 0xFF)) (Z.land (Z.shiftr v 8) 0xFF).

Definition bb_u32 (b : bytes) (v : Z) (big_endian : bool) : bytes :=
  if big_endian then bb_be32 b v
  else bb_u16 (bb_u16 b (Z.land v 0xFFFF) false) (Z.shiftr v 16) false.

Definition bb_bytes (b p : bytes) : bytes := b ++ p.
Definition bb_fill (b : bytes) (v : Z) (n : nat) : bytes := b ++ replicate n (u8 (Z.land v 0xFF)).

(** ** Protocol headers *)
Definition put_eth (b : bytes) (ethertype : Z) : bytes :=
  let dst := [0x02; 0x00; 0x00; 0x00; 0x00; 0x02] in
  let src := [0x02; 0x00; 0x00; 0x00; 0x00; 0x01] in
  bb_be16 (bb_bytes (bb_bytes b dst) src) ethertype.

Definition put_vlan (b : bytes) (vid next_ethertype : Z) : bytes :=
  bb_be16 (bb_be16 b (Z.land vid 0x0FFF)) next_ethertype.

Definition put_ipv4 (b : bytes) (proto : Z) (src dst : bytes) (payload_len opt_words : nat)
           (frag : Z) : bytes :=
  let hlen := 20 + 4 * Z.of_nat opt_words in
  let b := bb_u8 b (Z.lor 0x40 (Z.land (5 + Z.of_nat opt_words) 0x0F)) in
  let b := bb_u8 b 0 in
  let b := bb_be16 b (u32 (hlen + Z.of_nat payload_len)) in
  let b := bb_be16 b 0x1234 in
  let b := bb_be16 b frag in
  let b := bb_u8 b 64 in
  let b := bb_u8 b proto in
  let b := bb_be16 b 0 in
  let b := bb_bytes b src in
  let b := bb_bytes b dst in
  bb_fill b 0x01 (4 * opt_words).

Definition put_ipv6 (b : bytes) (next : Z) (src dst : bytes) (payload_len : nat) : bytes :=
  let b := bb_be32 b 0x60000000 in
  let b := bb_be16 b (u32 (Z.of_nat payload_len)) in
  let b := bb_u8 b next in
  let b := bb_u8 b 64 in
  let b := bb_bytes b src in
  bb_bytes b dst.

Definition put_tcp (b : bytes) (sport dport flags : Z) : bytes :=
  let b := bb_be16 b sport in
  let b := bb_be16 b dport in
  let b := bb_be32 b 1000 in
  let b := bb_be32 b 2000 in
  let b := bb_u8 b (Z.shiftl 5 4) in
  let b := bb_u8 b flags in
  let b := bb_be16 b 65535 in
  let b := bb_be16 b 0 in
  bb_be16 b 0.

Definition put_udp (b : bytes) (sport dport : Z) (payload_len : nat) : bytes :=
  let b := bb_be16 b sport in
  let b := bb_be16 b dport in
  let b := bb_be16 b (u32 (8 + Z.of_nat payload_len)) in
  bb_be16 b 0.

Definition put_icmp (b : bytes) (type code : Z) : bytes :=
  let b := bb_u8 b type in
  let b := bb_u8 b code in
  let b := bb_be16 b 0 in
  let b := bb_be16 b 0x0042 in
  bb_be16 b 1.

Definition put_gtpu (b : bytes) (flags type : Z) (length : nat) (teid : Z) : bytes :=
  let b := bb_u8 b flags in
  let b := bb_u8 b type in
  let b := bb_be16 b (u32 (Z.of_nat length)) in
  bb_be32 b teid.

Definition put_gtpu_opt (b : bytes) (seq npdu next_type : Z) : bytes :=
  bb_u8 (bb_u8 (bb_be16 b seq) npdu) next_type.

Definition put_gtpu_ext (b : bytes) (units : nat) (next_type : Z) : bytes :=
  bb_u8 (bb_fill (bb_u8 b (Z.of_nat units)) 0 (4 * units - 2)) next_type.

(** ** Whole frames *)
Definition frame_v4_tcp (b src dst : bytes) (sport dport flags : Z) (payload : nat) : bytes :=
  let b := put_eth b 0x0800 in
  let b := put_ipv4 b 6 src dst (20 + payload) 0 0x4000 in
  let b := put_tcp b sport dport flags in
  bb_fill b 0xAB payload.

Definition frame_v4_udp (b src dst : bytes) (sport dport : Z) (payload : nat) : bytes :=
  let b := put_eth b 0x0800 in
  let b := put_ipv4 b 17 src dst (8 + payload) 0 0 in
  let b := put_udp b sport dport payload in
  bb_fill b 0xCD payload.

Definition frame_v6_tcp (b src dst : bytes) (sport dport flags : Z) (payload : nat) : bytes :=
  let b := put_eth b 0x86DD in
  let b := put_ipv6 b 6 src dst (20 + payload) in
  let b := put_tcp b sport dport flags in
  bb_fill b 0xEF payload.

(** ** pcap files *)
Definition pcap_put_global (b : bytes) (big_endian nsec : bool) (snaplen linktype : Z) : bytes :=
  let b := bb_u32 b (if nsec then 0xA1B23C4D else 0xA1B2C3D4) big_endian in
  let b := bb_u16 b 2 big_endian in
  let b := bb_u16 b 4 big_endian in
  let b := bb_u32 b 0 big_endian in
  let b := bb_u32 b 0 big_endian in
  let b := bb_u32 b snaplen big_endian in
  bb_u32 b linktype big_endian.

Definition pcap_put_record (b : bytes) (big_endian : bool) (sec frac : Z) (data : bytes)
           (wirelen : Z) : bytes :=
  let b := bb_u32 b sec big_endian in
  let b := bb_u32 b frac big_endian in
  let b := bb_u32 b (Z.of_nat (length data)) big_endian in
  let b := bb_u32 b wirelen big_endian in
  bb_bytes b data.

(** ** What the builder writes *)

(** [lia] with division and remainder. *)
#[local] Ltac Zify.zify_post_hook ::= Z.to_euclidean_division_equations.

(** The bytes of a 16-bit and a 32-bit value, most significant first. *)
Definition hi8 (v : Z) : Z := u8 (Z.land (Z.shiftr v 8) 0xFF).
Definition lo8 (v : Z) : Z := u8 (Z.land v 0xFF).

Lemma land_FF v : Z.land v 0xFF = v mod 256.
Proof. by apply (Z.land_ones v 8). Qed.

Lemma hi8_eq v : hi8 v = v / 256 mod 256.
Proof.
  unfold hi8. rewrite land_FF, Z.shiftr_div_pow2 by done. unfold wrap. by apply Z.mod_mod.
Qed.

Lemma lo8_eq v : lo8 v = v mod 256.
Proof. unfold lo8. rewrite land_FF. unfold wrap. by apply Z.mod_mod. Qed.

Lemma hi8_is_byte v : is_byte (hi8 v).
Proof. apply wrap_is_u. lia. Qed.
Lemma lo8_is_byte v : is_byte (lo8 v).
Proof. apply wrap_is_u. lia. Qed.
#[export] Hint Resolve hi8_is_byte lo8_is_byte : ints.

Lemma be16_built v : is_u 16 v -> be16 (hi8 v) (lo8 v) = v.
Proof. intros Hv. rewrite hi8_eq, lo8_eq. unfold be16, is_u in *. lia. Qed.

Definition hi16 (v : Z) : Z := Z.shiftr v 16.
Definition lo16 (v : Z) : Z := Z.land v 0xFFFF.

Lemma be32_built v :
  is_u 32 v -> be32 (hi8 (hi16 v)) (lo8 (hi16 v)) (hi8 (lo16 v)) (lo8 (lo16 v)) = v.
Proof.
  intros Hv. rewrite !hi8_eq, !lo8_eq. unfold hi16, lo16.
  rewrite Z.shiftr_div_pow2 by done. change 0xFFFF with (Z.ones 16).
  rewrite Z.land_ones by done. unfold be32, is_u in *. simpl in *. lia.
Qed.

(** The builder appends: what it writes does not depend on what is there. *)
Lemma bb_u8_app b v : bb_u8 b v = b ++ [u8 v].
Proof. done. Qed.
Lemma bb_be16_app b v : bb_be16 b v = b ++ [hi8 v; lo8 v].
Proof. unfold bb_be16, bb_u8. by rewrite <- app_assoc. Qed.
Lemma bb_be32_app b v :
  bb_be32 b v = b ++ [hi8 (hi16 v); lo8 (hi16 v); hi8 (lo16 v); lo8 (lo16 v)].
Proof. unfold bb_be32. rewrite !bb_be16_app. by rewrite <- app_assoc. Qed.
Lemma bb_u16_app b v be :
  bb_u16 b v be = b ++ (if be then [hi8 v; lo8 v] else [lo8 v; hi8 v]).
Proof.
  unfold bb_u16. destruct be; [apply bb_be16_app|]. unfold bb_u8. by rewrite <- app_assoc.
Qed.
Lemma bb_u32_app b v be :
  bb_u32 b v be = b ++ (if be then [hi8 (hi16 v); lo8 (hi16 v); hi8 (lo16 v); lo8 (lo16 v)]
                        else [lo8 (lo16 v); hi8 (lo16 v); lo8 (hi16 v); hi8 (hi16 v)]).
Proof.
  unfold bb_u32. destruct be; [apply bb_be32_app|]. rewrite !bb_u16_app. by rewrite <- app_assoc.
Qed.
Create Rewrite HintDb builder.
#[export] Hint Rewrite bb_be16_app bb_be32_app bb_u16_app bb_u32_app : builder.

(** Normalise a built buffer to [b ++ literal bytes]. *)
Ltac build_simpl :=
  unfold put_eth, put_vlan, put_ipv4, put_ipv6, put_tcp, put_udp, put_icmp, put_gtpu,
    put_gtpu_opt, put_gtpu_ext, pcap_put_global, pcap_put_record;
  cbv zeta; autorewrite with builder; unfold bb_u8, bb_bytes, bb_fill;
  rewrite <- ?app_assoc.

Lemma put_eth_app b t : put_eth b t = b ++ put_eth [] t.
Proof. by build_simpl. Qed.
Lemma put_vlan_app b v t : put_vlan b v t = b ++ put_vlan [] v t.
Proof. by build_simpl. Qed.
Lemma put_ipv4_app b p s d n o f : put_ipv4 b p s d n o f = b ++ put_ipv4 [] p s d n o f.
Proof. by build_simpl. Qed.
Lemma put_ipv6_app b p s d n : put_ipv6 b p s d n = b ++ put_ipv6 [] p s d n.
Proof. by build_simpl. Qed.
Lemma put_tcp_app b s d f : put_tcp b s d f = b ++ put_tcp [] s d f.
Proof. by build_simpl. Qed.
Lemma put_udp_app b s d n : put_udp b s d n = b ++ put_udp [] s d n.
Proof. by build_simpl. Qed.
Lemma put_gtpu_app b f t n teid : put_gtpu b f t n teid = b ++ put_gtpu [] f t n teid.
Proof. by build_simpl. Qed.
Lemma pcap_put_record_app b be s f d w :
  pcap_put_record b be s f d w = b ++ pcap_put_record [] be s f d w.
Proof. by build_simpl. Qed.
