(* ===== verification/Packets.v ===== *)
(** Well-formed packets: a grammar of what travels in a frame, the bytes the builder
    makes of it (src/tests/builder.c), and the [packet_info] the decoder owes for
    it (src/decode.h).

    This is the specification of [PacketProps]: it does not mention spans, reads or
    statuses.  A packet is a value; [*_bytes] writes it with the functions of
    [Builder] (the IPv6 extension headers, which the builder lacks, as RFC 8200
    draws them), and [*_result] says which fields it fills in. *)
From S2P Require Export Builder DecodeWp.
#[global] Open Scope Z_scope.

(** ** Transport *)

(** [Udp]: [len] is the payload length of the header, which the IP payload may
    exceed, and which a first fragment need not contain. *)
Inductive l4 :=
  | Tcp (sport dport flags : Z) (payload : bytes)
  | Udp (sport dport : Z) (len : nat) (payload : bytes)
  | Icmp (v6 : bool) (type code : Z) (payload : bytes)
  | Other (proto : Z) (payload : bytes).

Definition l4_proto (l : l4) : Z :=
  match l with
  | Tcp _ _ _ _ => 6 | Udp _ _ _ _ => 17
  | Icmp v6 _ _ _ => if v6 then 58 else 1 | Other p _ => p
  end.

Definition l4_bytes (l : l4) : bytes :=
  match l with
  | Tcp s d f p => put_tcp [] s d f ++ p
  | Udp s d n p => put_udp [] s d n ++ p
  | Icmp _ t c p => put_icmp [] t c ++ p
  | Other _ p => p
  end.

Definition is_frag (k : frag_kind) : bool := match k with FRAG_NONE => false | _ => true end.

(** [k]: the fragment that carries [l]. *)
Definition l4_valid (k : frag_kind) (l : l4) : Prop :=
  match l with
  | Tcp s d f p => is_u 16 s /\ is_u 16 d /\ is_byte f /\ Forall is_byte p
  | Udp s d n p => is_u 16 s /\ is_u 16 d /\ Forall is_byte p /\ Z.of_nat n <= 65527 /\
      (k = FRAG_NONE -> (n <= length p)%nat)
  | Icmp _ t c p => is_byte t /\ is_byte c /\ Forall is_byte p
  | Other proto p => is_byte proto /\ is_ipv6_ext proto = false /\
      proto <> 1 /\ proto <> 6 /\ proto <> 17 /\ proto <> 58 /\ Forall is_byte p
  end.

Definition l4_result (l : l4) (pi : packet_info) : packet_info :=
  match l with
  | Tcp s d f _ => pi <| pi_src_port := s |> <| pi_dst_port := d |> <| pi_tcp_flags := f |> <| pi_has_l4 := true |>
  | Udp s d _ _ => pi <| pi_src_port := s |> <| pi_dst_port := d |> <| pi_has_l4 := true |>
  | Icmp _ t c _ => pi <| pi_icmp_type := t |> <| pi_icmp_code := c |> <| pi_has_l4 := true |>
  | Other _ _ => pi
  end.

(** ** Fragmentation *)
Definition kind_of (offset : Z) (more : bool) : frag_kind :=
  if offset =? 0 then (if more then FRAG_FIRST else FRAG_NONE) else FRAG_LATER.

Definition set_kind (k : frag_kind) (pi : packet_info) : packet_info :=
  match k with FRAG_NONE => pi | _ => pi <| pi_frag := k |> end.

(** A later fragment has no transport header. *)
Definition transport_result (k : frag_kind) (l : l4) (pi : packet_info) : packet_info :=
  if bool_decide (k = FRAG_LATER) then pi else l4_result l pi.

(** ** IPv6 extension headers *)
Inductive ext6 :=
  | Options (type : Z) (body : bytes)
  | Fragment (reserved offset : Z) (flag2 : Z) (more : bool) (id : Z).

Definition ext_type (e : ext6) : Z := match e with Options t _ => t | Fragment _ _ _ _ _ => 44 end.

Definition ext_bytes (e : ext6) (next : Z) : bytes :=
  match e with
  | Options _ body => [next; Z.of_nat (length body + 2) / 8 - 1] ++ body
  | Fragment r off f2 more id =>
    [next; r] ++ (bb_be16 [] (8 * off + 2 * f2 + Z.b2z more) ++ bb_be32 [] id)
  end.

Definition ext_valid (e : ext6) : Prop :=
  match e with
  | Options t body => (t = 0 \/ t = 43 \/ t = 60) /\ Forall is_byte body /\
      Z.of_nat (length body + 2) mod 8 = 0 /\ Z.of_nat (length body + 2) <= 2048
  | Fragment r off f2 _ id => is_byte r /\ is_u 13 off /\ 0 <= f2 < 4 /\ is_u 32 id
  end.

(** The next-header value before the chain [es] that ends in protocol [last]. *)
Definition chain_type (es : list ext6) (last : Z) : Z :=
  match es with [] => last | e :: _ => ext_type e end.

Fixpoint chain_bytes (es : list ext6) (last : Z) : bytes :=
  match es with [] => [] | e :: es => ext_bytes e (chain_type es last) ++ chain_bytes es last end.

(** The fragment the chain makes of the packet; a later fragment ends the chain. *)
Fixpoint chain_kind (es : list ext6) (k : frag_kind) : frag_kind :=
  match es with
  | [] => k
  | Options _ _ :: es => chain_kind es k
  | Fragment _ off _ more _ :: es =>
    match kind_of off more with
    | FRAG_LATER => FRAG_LATER
    | FRAG_FIRST => chain_kind es FRAG_FIRST
    | FRAG_NONE => chain_kind es k
    end
  end.

Fixpoint chain_result (es : list ext6) (last : Z) (pi : packet_info) : packet_info :=
  match es with
  | [] => pi <| pi_ip_proto := last |>
  | Options _ _ :: es => chain_result es last pi
  | Fragment _ off _ more id :: es =>
    let pi := pi <| pi_frag_id := id |> in
    match kind_of off more with
    | FRAG_LATER => (set_kind FRAG_LATER pi) <| pi_ip_proto := chain_type es last |>
    | k => chain_result es last (set_kind k pi)
    end
  end.

(** ** IP *)
Inductive ip :=
  | V4 (src dst : bytes) (opt_words : nat) (df more : bool) (offset : Z) (body : l4)
  | V6 (src dst : bytes) (exts : list ext6) (body : l4).

Definition ip_body (p : ip) : l4 := match p with V4 _ _ _ _ _ _ l => l | V6 _ _ _ l => l end.
Definition ip_ethertype (p : ip) : Z := match p with V4 _ _ _ _ _ _ _ => 0x0800 | V6 _ _ _ _ => 0x86DD end.
Definition ip_kind (p : ip) : frag_kind :=
  match p with
  | V4 _ _ _ _ more off _ => kind_of off more
  | V6 _ _ es _ => chain_kind es FRAG_NONE
  end.

Definition ip_bytes (p : ip) : bytes :=
  match p with
  | V4 src dst ow df more off l =>
    put_ipv4 [] (l4_proto l) src dst (length (l4_bytes l)) ow (0x4000 * Z.b2z df + 0x2000 * Z.b2z more + off) ++
    l4_bytes l
  | V6 src dst es l =>
    let rest := chain_bytes es (l4_proto l) ++ l4_bytes l in
    put_ipv6 [] (chain_type es (l4_proto l)) src dst (length rest) ++ rest
  end.

Definition ip_valid (p : ip) : Prop :=
  l4_valid (ip_kind p) (ip_body p) /\
  match p with
  | V4 src dst ow _ _ off l =>
    length src = 4%nat /\ Forall is_byte src /\ length dst = 4%nat /\ Forall is_byte dst /\
    (ow <= 10)%nat /\ is_u 13 off /\ Z.of_nat (20 + 4 * ow + length (l4_bytes l)) <= 65535
  | V6 src dst es l =>
    length src = 16%nat /\ Forall is_byte src /\ length dst = 16%nat /\ Forall is_byte dst /\
    Forall ext_valid es /\ (length es <= 8)%nat /\
    Z.of_nat (length (chain_bytes es (l4_proto l) ++ l4_bytes l)) <= 65535
  end.

Definition ip_result (p : ip) (pi : packet_info) : packet_info :=
  match p with
  | V4 src dst _ _ more off l =>
    transport_result (kind_of off more) l
      ((set_kind (kind_of off more) (pi <| pi_ip_version := 4 |> <| pi_ip_proto := l4_proto l |>
          <| pi_src_addr ::= fun a => overwrite a src |> <| pi_dst_addr ::= fun a => overwrite a dst |>
          <| pi_frag_id := 0x1234 |>)) <| pi_has_l3 := true |>)
  | V6 src dst es l =>
    transport_result (ip_kind p) l
      (chain_result es (l4_proto l)
        (pi <| pi_ip_version := 6 |> <| pi_src_addr ::= fun a => overwrite a src |>
            <| pi_dst_addr ::= fun a => overwrite a dst |> <| pi_has_l3 := true |>))
  end.

(** ** GTP-U *)

(** The flags E, S and PN, the spare bit; the optional fields; extension headers
    as type and size in units of 4 bytes; for a G-PDU the packet inside; and what
    follows it. *)
Record gtpu := Gtpu {
  g_e : bool; g_s : bool; g_pn : bool; g_spare : bool;
  g_type : Z; g_teid : Z; g_seq : Z; g_npdu : Z;
  g_exts : list (Z * nat);
  g_inner : option ip;
  g_rest : bytes
}.

Definition g_flags (g : gtpu) : Z :=
  0x30 + 8 * Z.b2z (g_spare g) + 4 * Z.b2z (g_e g) + 2 * Z.b2z (g_s g) + Z.b2z (g_pn g).

Definition gext_type (es : list (Z * nat)) : Z := match es with [] => 0 | (t, _) :: _ => t end.
Fixpoint gext_bytes (es : list (Z * nat)) : bytes :=
  match es with [] => [] | (_, units) :: es => put_gtpu_ext [] units (gext_type es) ++ gext_bytes es end.

Definition gtpu_tail (g : gtpu) : bytes :=
  (if g_e g || g_s g || g_pn g then put_gtpu_opt [] (g_seq g) (g_npdu g) (gext_type (g_exts g)) else []) ++
  gext_bytes (g_exts g) ++ default [] (ip_bytes <$> g_inner g) ++ g_rest g.

Definition gtpu_bytes (g : gtpu) : bytes :=
  put_gtpu [] (g_flags g) (g_type g) (length (gtpu_tail g)) (g_teid g) ++ gtpu_tail g.

Definition gtpu_valid (g : gtpu) : Prop :=
  is_byte (g_type g) /\ is_u 32 (g_teid g) /\ is_u 16 (g_seq g) /\ is_byte (g_npdu g) /\
  Forall (fun e => 0 < e.1 < 256 /\ (1 <= e.2 <= 255)%nat) (g_exts g) /\ (length (g_exts g) <= 16)%nat /\
  (g_e g = false -> g_exts g = []) /\
  (g_type g = 255 <-> is_Some (g_inner g)) /\
  (forall p, g_inner g = Some p -> ip_valid p) /\
  Forall is_byte (g_rest g).

Definition inner_result (p : ip) (pi : packet_info) : packet_info :=
  let inn := ip_result p packet_info_zero in
  let pi := pi <| pi_has_inner := true |> <| pi_inner_version := pi_ip_version inn |>
               <| pi_inner_proto := pi_ip_proto inn |> <| pi_inner_src := pi_src_addr inn |>
               <| pi_inner_dst := pi_dst_addr inn |> in
  if pi_has_l4 inn
  then pi <| pi_inner_has_l4 := true |> <| pi_inner_src_port := pi_src_port inn |>
          <| pi_inner_dst_port := pi_dst_port inn |> <| pi_gtp_nested := decode_is_gtpu_port inn |>
  else pi.

Definition gtpu_result (g : gtpu) (pi : packet_info) : packet_info :=
  let pi := pi <| pi_gtp_v1u := true |> <| pi_gtp_flags := g_flags g |> <| pi_gtp_msg_type := g_type g |>
               <| pi_teid := g_teid g |> in
  let pi := if g_s g then pi <| pi_gtp_seq := g_seq g |> else pi in
  let pi := if g_exts g is [] then pi else pi <| pi_gtp_ext_count := Z.of_nat (length (g_exts g)) |> in
  let pi := pi <| pi_gtp_msg_ok := true |> in
  match g_inner g with Some p => inner_result p pi | None => pi end.

(** ** Frames *)
Inductive net :=
  | Ip (p : ip)
  | Tunnel (p : ip) (g : gtpu)
  | Raw (ethertype : Z) (payload : bytes).

(** VLAN tags as protocol and identifier, outermost first, and what follows the
    packet (Ethernet padding). *)
Record frame := Frame { fr_vlans : list (Z * Z); fr_net : net; fr_trailer : bytes }.

Definition net_type (n : net) : Z :=
  match n with Ip p | Tunnel p _ => ip_ethertype p | Raw t _ => t end.
Definition net_bytes (n : net) : bytes :=
  match n with Ip p | Tunnel p _ => ip_bytes p | Raw _ b => b end.

Definition tag_type (vs : list (Z * Z)) (last : Z) : Z := match vs with [] => last | (t, _) :: _ => t end.
Fixpoint vlan_bytes (vs : list (Z * Z)) (last : Z) : bytes :=
  match vs with [] => [] | (_, vid) :: vs => put_vlan [] vid (tag_type vs last) ++ vlan_bytes vs last end.

Definition frame_bytes (f : frame) : bytes :=
  put_eth [] (tag_type (fr_vlans f) (net_type (fr_net f))) ++
  vlan_bytes (fr_vlans f) (net_type (fr_net f)) ++ net_bytes (fr_net f) ++ fr_trailer f.

(** The decoder takes [p] for the carrier of a GTP-U message. *)
Definition carries_gtpu (p : ip) : Prop :=
  ip_kind p = FRAG_NONE /\
  match ip_body p with Udp s d n _ => (s = 2152 \/ d = 2152) /\ (8 <= n)%nat | _ => False end.

Definition net_valid (n : net) : Prop :=
  match n with
  | Ip p => ip_valid p /\ ~ carries_gtpu p
  | Tunnel p g => ip_valid p /\ carries_gtpu p /\ gtpu_valid g /\
      match ip_body p with Udp _ _ n payload => take n payload = gtpu_bytes g | _ => False end
  | Raw t b => is_u 16 t /\ is_vlan_type t = false /\ t <> 0x0800 /\ t <> 0x86DD /\ Forall is_byte b
  end.

Definition frame_valid (f : frame) : Prop :=
  (length (fr_vlans f) <= 2)%nat /\
  Forall (fun v => is_vlan_type v.1 = true /\ is_u 12 v.2) (fr_vlans f) /\
  net_valid (fr_net f) /\ Forall is_byte (fr_trailer f) /\
  Z.of_nat (length (frame_bytes f)) <= SIZE_MAX.

Definition net_result (n : net) (pi : packet_info) : packet_info :=
  match n with
  | Ip p => ip_result p pi
  | Tunnel p g => (gtpu_result g ((ip_result p pi) <| pi_is_gtpu := true |>)) <| pi_gtp_status := DEC_OK |>
  | Raw _ _ => pi
  end.

Definition frame_result (f : frame) : packet_info :=
  net_result (fr_net f)
    (packet_info_zero <| pi_has_l2 := true |> <| pi_ethertype := net_type (fr_net f) |>
       <| pi_vlan_count := Z.of_nat (length (fr_vlans f)) |>
       <| pi_vlan_ids := overwrite [0; 0] (map snd (fr_vlans f)) |>).
