(* ===== verification/PacketProps.v ===== *)
(** The decoder reads what the builder writes: [decode_frame] of a well-formed
    frame is [DEC_OK] with the fields [Packets] promises.

    [view buf s data]: the span [s] covers exactly the bytes [data].  Under a view,
    a read is a lookup in [data], [advance] drops a prefix and [clip] a suffix, so
    each decoder is proved against the grammar of its layer, for any bytes after. *)
From S2P Require Export Packets DecodeSafe.
#[global] Open Scope Z_scope.

(** ** Views *)
Record view (buf : bytes) (s : span) (data : bytes) : Prop := {
  v_bytes : Forall is_byte buf;
  v_size : Z.of_nat (length buf) <= SIZE_MAX;
  v_start : 0 <= sp_p s;
  v_end : sp_p s + Z.of_nat (length data) <= Z.of_nat (length buf);
  v_cap : sp_cap s = Z.of_nat (length data);
  v_wire : sp_wire s = Z.of_nat (length data);
  v_data : take (length data) (drop (Z.to_nat (sp_p s)) buf) = data
}.

Lemma view_lookup buf s data i b :
  view buf s data -> data !! i = Some b -> byte_at buf (sp_p s + Z.of_nat i) = Some b.
Proof.
  intros [_ _ Hp _ _ _ Ht] Hi. unfold byte_at. rewrite decide_True by lia.
  pose proof (lookup_lt_Some _ _ _ Hi) as Hlt.
  rewrite <- Ht, lookup_take_lt, lookup_drop in Hi by done.
  rewrite <- Hi. f_equal. lia.
Qed.

Lemma view_byte buf s data i b : view buf s data -> data !! i = Some b -> is_byte b.
Proof.
  intros [Hb _ _ _ _ _ Ht] Hi. eapply Forall_lookup_1; [|exact Hi].
  rewrite <- Ht. by apply Forall_take, Forall_drop.
Qed.

Lemma view_bytes_at buf s data i n l :
  view buf s data -> bytes_at data i n = Some l -> bytes_at buf (sp_p s + i) n = Some l.
Proof.
  intros [_ _ Hp He _ _ Ht]. unfold bytes_at. case_decide as Hd; [|done]. intros [= <-].
  rewrite decide_True by lia. f_equal.
  assert (E : drop (Z.to_nat i) data = take (length data - Z.to_nat i) (drop (Z.to_nat (sp_p s + i)) buf)).
  { rewrite <- Ht at 1. rewrite skipn_firstn_comm, drop_drop. f_equal. f_equal. lia. }
  rewrite E, take_take. f_equal. lia.
Qed.

Lemma view_max buf s data : view buf s data -> sp_wire s <= SIZE_MAX.
Proof. intros [_ Hz Hp He _ Hw _]. lia. Qed.

Lemma view_advance buf s a b :
  view buf s (a ++ b) -> view buf (advance s (Z.of_nat (length a))) b.
Proof.
  intros [Hb Hz Hp He Hc Hw Ht]. rewrite length_app in *. unfold SIZE_MAX in *.
  split; cbn; [done|done|lia|lia|rewrite Hc|rewrite Hw|].
  1, 2: rewrite wrap_small by (unfold is_u; lia); lia.
  apply (f_equal (drop (length a))) in Ht. rewrite drop_app_length in Ht.
  etransitivity; [|exact Ht]. rewrite skipn_firstn_comm, drop_drop. f_equal; [lia|]. f_equal. lia.
Qed.

Lemma view_clip buf s a b :
  view buf s (a ++ b) -> view buf (clip s (Z.of_nat (length a))) a.
Proof.
  intros [Hb Hz Hp He Hc Hw Ht]. rewrite length_app in *.
  split; cbn; [done|done|lia|lia| |done|].
  - rewrite Hc. rewrite Z.gtb_ltb. by destruct (Z.ltb_spec (Z.of_nat (length a)) (Z.of_nat (length a + length b))); [|lia].
  - apply (f_equal (take (length a))) in Ht. rewrite take_app_length in Ht.
    etransitivity; [|exact Ht]. rewrite take_take. f_equal. lia.
Qed.

(** ** Rules for reading under a view *)
Section Rules.
Context (buf : bytes) (s : span) (data : bytes) (Hv : view buf s data) (pi : packet_info).

Lemma vp_rd i b Q :
  0 <= i -> data !! Z.to_nat i = Some b -> Q b (DState s pi) -> wp (rd buf i) Q (DState s pi).
Proof.
  intros Hi E HQ. pose proof (view_lookup _ _ _ _ _ Hv E) as Hb. rewrite Z2Nat.id in Hb by done.
  unfold wp, rd, mbind, D_bind, get_span, lift. cbn. by rewrite Hb.
Qed.

Lemma vp_rd16 i b0 b1 Q :
  0 <= i -> data !! Z.to_nat i = Some b0 -> data !! S (Z.to_nat i) = Some b1 ->
  Q (be16 b0 b1) (DState s pi) -> wp (rd16 buf i) Q (DState s pi).
Proof.
  intros Hi E0 E1 HQ. pose proof (view_byte _ _ _ _ _ Hv E0). pose proof (view_byte _ _ _ _ _ Hv E1).
  apply (view_lookup _ _ _ _ _ Hv) in E0, E1. unfold wp, rd16, mbind, D_bind, get_span, lift. cbn.
  rewrite (load_be16_bytes _ _ b0 b1); [done| | |done|done].
  - by rewrite <- E0, Z2Nat.id.
  - rewrite <- E1. f_equal. lia.
Qed.

Lemma vp_rd32 i b0 b1 b2 b3 Q :
  0 <= i -> data !! Z.to_nat i = Some b0 -> data !! S (Z.to_nat i) = Some b1 ->
  data !! S (S (Z.to_nat i)) = Some b2 -> data !! S (S (S (Z.to_nat i))) = Some b3 ->
  Q (be32 b0 b1 b2 b3) (DState s pi) -> wp (rd32 buf i) Q (DState s pi).
Proof.
  intros Hi E0 E1 E2 E3 HQ.
  pose proof (view_byte _ _ _ _ _ Hv E0). pose proof (view_byte _ _ _ _ _ Hv E1).
  pose proof (view_byte _ _ _ _ _ Hv E2). pose proof (view_byte _ _ _ _ _ Hv E3).
  apply (view_lookup _ _ _ _ _ Hv) in E0, E1, E2, E3.
  unfold wp, rd32, mbind, D_bind, get_span, lift. cbn.
  rewrite (load_be32_bytes _ _ b0 b1 b2 b3); try done;
    [rewrite <- E0|rewrite <- E1|rewrite <- E2|rewrite <- E3]; f_equal; lia.
Qed.

Lemma vp_rdn i n l Q :
  0 <= i -> 0 <= n -> i + n <= sp_cap s -> take (Z.to_nat n) (drop (Z.to_nat i) data) = l ->
  Q l (DState s pi) -> wp (rdn buf i n) Q (DState s pi).
Proof.
  intros Hi Hn Hle <- HQ. unfold wp, rdn, mbind, D_bind, get_span, lift. cbn.
  erewrite view_bytes_at; [exact HQ|exact Hv|]. unfold bytes_at.
  rewrite (v_cap _ _ _ Hv) in Hle. by rewrite decide_True.
Qed.

Lemma vp_need {A} (f : decode_status -> A) n t m (k : D A) Q :
  n <= sp_cap s -> wp k Q (DState s pi) ->
  wp (mbind (fun st => RETURN_IF negb (status_eqb st DEC_OK) WITH f st;; k)
            (do_need n t m)) Q (DState s pi).
Proof.
  intros Hn Hk. unfold wp, do_need, mbind, D_bind, get_span, need, mret, D_ret. cbn.
  by destruct (Z.leb_spec n (sp_cap s)); [|lia].
Qed.
End Rules.

Lemma vp_advance buf s a b n pi Q :
  view buf s (a ++ b) -> n = Z.of_nat (length a) ->
  (view buf (advance s n) b -> Q tt (DState (advance s n) pi)) ->
  wp (do_advance buf n) Q (DState s pi).
Proof.
  intros Hv -> HQ. pose proof (view_advance _ _ _ _ Hv) as Hv'.
  destruct Hv as [_ _ Hp He _ _ _]. rewrite length_app in He.
  unfold wp, do_advance, mbind, D_bind, get_span. cbn.
  destruct (Z.leb_spec 0 (sp_p s + Z.of_nat (length a))); [|lia].
  destruct (Z.leb_spec (sp_p s + Z.of_nat (length a)) (Z.of_nat (length buf))); [|lia]. by apply HQ.
Qed.

Lemma vp_clip buf s a b n pi Q :
  view buf s (a ++ b) -> n = Z.of_nat (length a) ->
  (view buf (clip s n) a -> Q tt (DState (clip s n) pi)) ->
  wp (do_clip n) Q (DState s pi).
Proof. intros Hv -> HQ. apply wp_do_clip, HQ. by eapply view_clip. Qed.

Lemma vp_if_false {A} (c : bool) (m k : D A) Q d : c = false -> wp k Q d -> wp (if c then m else k) Q d.
Proof. by intros ->. Qed.
Lemma vp_if_true {A} (c : bool) (m k : D A) Q d : c = true -> wp m Q d -> wp (if c then m else k) Q d.
Proof. by intros ->. Qed.

(** The value of a slice at constant places. *)
Ltac slice :=
  lazymatch goal with
  | |- take (Z.to_nat ?n) (drop (Z.to_nat ?i) _) = _ =>
    let n' := eval vm_compute in (Z.to_nat n) in let i' := eval vm_compute in (Z.to_nat i) in
    change (Z.to_nat n) with n'; change (Z.to_nat i) with i'
  end;
  lazy beta match fix delta [app take drop]; reflexivity.

(** One step under the view [Hv]; tests and lengths are left to [side]. *)
Ltac vp_step Hv side :=
  lazymatch goal with
  | |- wp (mbind _ (do_need _ _ _)) _ _ =>
      first [ apply (vp_need _ _ (fun st => st)) | apply (vp_need _ _ inl) ]; [side|]
  | |- wp (mbind _ _) _ _ => apply wp_bind
  | |- wp (mret _) _ _ => apply wp_ret
  | |- wp get_span _ _ => apply wp_get_span
  | |- wp get_pi _ _ => apply wp_get_pi
  | |- wp (modify_pi _) _ _ => apply wp_modify
  | |- wp (rd _ _) _ _ => eapply (vp_rd _ _ _ Hv); [side|reflexivity|]
  | |- wp (rd16 _ _) _ _ => eapply (vp_rd16 _ _ _ Hv); [side|reflexivity|reflexivity|]
  | |- wp (rd32 _ _) _ _ => eapply (vp_rd32 _ _ _ Hv); [side|reflexivity|reflexivity|reflexivity|reflexivity|]
  | |- wp (rdn _ _ _) _ _ => eapply (vp_rdn _ _ _ Hv); [side|side|side|slice|]
  | |- wp (if _ then _ else _) _ _ => apply vp_if_false; [side|]
  end.

(** A test of the code that comes out false, and a bound. *)
Ltac vp_side :=
  solve [ reflexivity | consts; cbn; lia
        | apply not_true_is_false; intros ?; test_to_prop; consts; lia ].

(** ** Transport headers *)
Lemma put_tcp_bytes s d f :
  put_tcp [] s d f = [hi8 s; lo8 s; hi8 d; lo8 d; 0; 0; 3; 232; 0; 0; 7; 208; 80; u8 f; 255; 255; 0; 0; 0; 0].
Proof. reflexivity. Qed.
Lemma put_udp_bytes s d n :
  put_udp [] s d n = [hi8 s; lo8 s; hi8 d; lo8 d; hi8 (u32 (8 + Z.of_nat n)); lo8 (u32 (8 + Z.of_nat n)); 0; 0].
Proof. reflexivity. Qed.
Lemma put_icmp_bytes t c : put_icmp [] t c = [u8 t; u8 c; 0; 0; 0; 66; 0; 1].
Proof. reflexivity. Qed.

Section L4.
Context (buf : bytes) (s : span) (pi : packet_info) (Q : decode_status -> dstate -> Prop).

Lemma decode_tcp_reads sport dport flags p :
  view buf s (put_tcp [] sport dport flags ++ p) -> is_u 16 sport -> is_u 16 dport -> is_byte flags ->
  Q DEC_OK (DState s (l4_result (Tcp sport dport flags p) pi)) ->
  wp (decode_tcp buf) Q (DState s pi).
Proof.
  intros Hv Hs Hd Hf HQ. rewrite put_tcp_bytes in Hv. pose proof (v_wire _ _ _ Hv) as Hw.
  pose proof (v_cap _ _ _ Hv) as Hc. rewrite length_app in Hc, Hw. cbn [length] in Hc, Hw. unfold decode_tcp.
  repeat vp_step Hv vp_side. change (Z.shiftr 80 4 * 4) with 20. repeat vp_step Hv vp_side.
  rewrite !be16_built, (wrap_small 8 flags) by done. exact HQ.
Qed.

Lemma decode_udp_reads sport dport n p :
  view buf s (put_udp [] sport dport n ++ p) -> is_u 16 sport -> is_u 16 dport ->
  Z.of_nat n <= 65527 -> (pi_frag pi = FRAG_NONE -> (n <= length p)%nat) ->
  (forall s', (pi_frag pi = FRAG_NONE -> view buf s' (put_udp [] sport dport n ++ take n p)) ->
     Q DEC_OK (DState s' (l4_result (Udp sport dport n p) pi))) ->
  wp (decode_udp buf) Q (DState s pi).
Proof.
  intros Hv Hs Hd Hn Hfull HQ. rewrite put_udp_bytes in Hv, HQ.
  rewrite wrap_small in Hv, HQ by (unfold is_u; lia). pose proof (v_wire _ _ _ Hv) as Hw.
  pose proof (v_cap _ _ _ Hv) as Hc. rewrite length_app in Hc, Hw. cbn [length] in Hc, Hw. unfold decode_udp.
  do 11 vp_step Hv vp_side.
  rewrite !be16_built by (done || unfold is_u; lia).
  repeat vp_step Hv vp_side.
  pi_simpl. destruct (decide (pi_frag pi = FRAG_NONE)) as [E|E].
  - specialize (Hfull E). rewrite bool_decide_true by done. cbn [andb].
    rewrite <- (take_drop n p), app_assoc in Hv.
    vp_step Hv ltac:(vp_side).
    apply wp_bind. eapply vp_clip; [exact Hv| |].
    { rewrite length_app, length_take. cbn [length]. lia. }
    intros Hv'. repeat vp_step Hv vp_side. by apply HQ.
  - rewrite bool_decide_false by done. cbn [andb].
    repeat vp_step Hv vp_side. by apply HQ.
Qed.

Lemma decode_icmp_reads v6 type code p :
  view buf s (put_icmp [] type code ++ p) -> is_byte type -> is_byte code ->
  Q DEC_OK (DState s (l4_result (Icmp v6 type code p) pi)) ->
  wp (decode_icmp buf) Q (DState s pi).
Proof.
  intros Hv Ht Hd HQ. rewrite put_icmp_bytes in Hv.
  pose proof (v_cap _ _ _ Hv) as Hc. rewrite length_app in Hc. cbn [length] in Hc. unfold decode_icmp.
  repeat vp_step Hv vp_side. by rewrite !(wrap_small 8) by done.
Qed.

(** The payload of an unfragmented UDP packet is cut to the length it states. *)
Definition l4_view (s' : span) (l : l4) : Prop :=
  match l with
  | Udp sport dport n p => view buf s' (put_udp [] sport dport n ++ take n p)
  | _ => True
  end.

Lemma decode_l4_reads l :
  view buf s (l4_bytes l) -> l4_valid (pi_frag pi) l -> pi_ip_proto pi = l4_proto l ->
  (forall s', (pi_frag pi = FRAG_NONE -> l4_view s' l) -> Q DEC_OK (DState s' (l4_result l pi))) ->
  wp (decode_l4 buf) Q (DState s pi).
Proof.
  intros Hv Hok Hp HQ. unfold decode_l4. apply wp_bind, wp_get_pi. rewrite Hp.
  destruct l as [sp dp f p|sp dp n p|v6 t c p|proto p]; cbn [l4_proto l4_bytes l4_valid] in *.
  - destruct Hok as (? & ? & ? & ?). apply vp_if_true; [done|].
    eapply decode_tcp_reads; [exact Hv|done..|]. by apply HQ.
  - destruct Hok as (? & ? & ? & ? & ?). apply vp_if_false; [done|]. apply vp_if_true; [done|].
    eapply decode_udp_reads; [exact Hv|done..|]. intros s' Hs'. by apply HQ.
  - destruct Hok as (? & ? & ?). do 2 (apply vp_if_false; [by destruct v6|]).
    apply vp_if_true; [by destruct v6|]. eapply decode_icmp_reads; [exact Hv|done..|]. by apply HQ.
  - destruct Hok as (_ & _ & ? & ? & ? & ? & _).
    unfold IPPROTO_NUM_TCP, IPPROTO_NUM_UDP, IPPROTO_NUM_ICMP, IPPROTO_NUM_ICMPV6.
    repeat (apply vp_if_false; [vp_side|]). apply wp_ret. by apply HQ.
Qed.
End L4.

(** ** Internet headers *)
Lemma put_ipv4_bytes proto s0 s1 s2 s3 d0 d1 d2 d3 n ow w :
  (ow <= 10)%nat -> is_byte proto -> Z.of_nat (20 + 4 * ow + n) <= 65535 ->
  put_ipv4 [] proto [s0; s1; s2; s3] [d0; d1; d2; d3] n ow w =
  [69 + Z.of_nat ow; 0; hi8 (20 + 4 * Z.of_nat ow + Z.of_nat n); lo8 (20 + 4 * Z.of_nat ow + Z.of_nat n);
   18; 52; hi8 w; lo8 w; 64; proto; 0; 0; s0; s1; s2; s3; d0; d1; d2; d3] ++ replicate (4 * ow) 1.
Proof.
  intros How Hp Hn.
  transitivity ([u8 (Z.lor 64 (Z.land (5 + Z.of_nat ow) 15)); 0; hi8 (u32 (20 + 4 * Z.of_nat ow + Z.of_nat n));
    lo8 (u32 (20 + 4 * Z.of_nat ow + Z.of_nat n)); 18; 52; hi8 w; lo8 w; 64; u8 proto; 0; 0;
    s0; s1; s2; s3; d0; d1; d2; d3] ++ replicate (4 * ow) 1); [reflexivity|].
  rewrite (wrap_small 32) by (unfold is_u; lia). rewrite (wrap_small 8 proto) by done.
  f_equal. f_equal. do 11 (destruct ow as [|ow]; [reflexivity|]). lia.
Qed.

Lemma put_ipv6_bytes next src dst n :
  is_byte next -> Z.of_nat n <= 65535 ->
  put_ipv6 [] next src dst n =
  [96; 0; 0; 0; hi8 (Z.of_nat n); lo8 (Z.of_nat n); next; 64] ++ src ++ dst.
Proof.
  intros Hp Hn.
  transitivity ([96; 0; 0; 0; hi8 (u32 (Z.of_nat n)); lo8 (u32 (Z.of_nat n)); u8 next; 64] ++ src ++ dst);
    [|by rewrite !wrap_small by (done || unfold is_u; lia)].
  unfold put_ipv6, bb_bytes. by rewrite <- app_assoc.
Qed.

Lemma list4 {A} (l : list A) : length l = 4%nat -> exists a b c d, l = [a; b; c; d].
Proof. destruct l as [|a [|b [|c [|d [|]]]]]; try done. eauto. Qed.


Lemma ihl_facts ow : (ow <= 10)%nat ->
  Z.shiftr (69 + Z.of_nat ow) 4 = 4 /\ Z.land (69 + Z.of_nat ow) 0x0F * 4 = 20 + 4 * Z.of_nat ow.
Proof. intros How. do 11 (destruct ow as [|ow]; [by split|]). lia. Qed.

(** A test of one flag. *)
Lemma land_pow2 w n : 0 <= n -> Z.land w (2 ^ n) = if Z.testbit w n then 2 ^ n else 0.
Proof.
  intros Hn. apply Z.bits_inj'. intros i Hi. rewrite Z.land_spec, Z.pow2_bits_eqb by done.
  destruct (Z.eqb_spec n i) as [->|Hne].
  - destruct (Z.testbit w i); [by rewrite Z.pow2_bits_true|by rewrite Z.bits_0].
  - rewrite andb_false_r. destruct (Z.testbit w n); [by rewrite Z.pow2_bits_false|by rewrite Z.bits_0].
Qed.

Lemma flag_set w n : 0 <= n -> negb (Z.land w (2 ^ n) =? 0) = Z.odd (w / 2 ^ n).
Proof.
  intros Hn. rewrite land_pow2, Z.testbit_odd, Z.shiftr_div_pow2 by done.
  destruct (Z.odd _); [|done]. by rewrite (proj2 (Z.eqb_neq _ _)) by (pose proof (Z.pow_pos_nonneg 2 n); lia).
Qed.

(** The flags and the offset of an IPv4 header. *)
Lemma frag_word_facts df more off : is_u 13 off ->
  let w := 0x4000 * Z.b2z df + 0x2000 * Z.b2z more + off in
  is_u 16 w /\ Z.land w 0x1FFF = off /\ negb (Z.land w 0x2000 =? 0) = more.
Proof.
  intros Ho w. unfold is_u in *. split; [destruct df, more; cbn in *; lia|]. split.
  - change 0x1FFF with (Z.ones 13). rewrite Z.land_ones by done. subst w.
    destruct df, more; cbn in *; Z.to_euclidean_division_equations; lia.
  - change 0x2000 with (2 ^ 13). rewrite flag_set by done.
    assert (Hw : w / 2 ^ 13 = 2 * Z.b2z df + Z.b2z more).
    { subst w. destruct df, more; cbn in *; Z.to_euclidean_division_equations; lia. }
    rewrite Hw. by destruct df, more.
Qed.

(** The decoders' two tests of a fragment field. *)
Lemma vp_kind (off : Z) (more : bool) s pi Q :
  Q tt (DState s (set_kind (kind_of off more) pi)) ->
  wp (if negb (off =? 0) then modify_pi (update pi_frag (fun _ => FRAG_LATER))
      else if more then modify_pi (update pi_frag (fun _ => FRAG_FIRST)) else mret tt) Q (DState s pi).
Proof. unfold kind_of. by destruct (off =? 0), more. Qed.

Lemma set_kind_frag k pi : pi_frag pi = FRAG_NONE -> pi_frag (set_kind k pi) = k.
Proof. by destruct k. Qed.
Lemma set_kind_proto k pi : pi_ip_proto (set_kind k pi) = pi_ip_proto pi.
Proof. by destruct k. Qed.
(** The transport layer behind an IP header, but not in a later fragment. *)
Lemma transport_reads buf s pi l k Q :
  view buf s (l4_bytes l) -> l4_valid k l -> pi_frag pi = k -> pi_ip_proto pi = l4_proto l ->
  (forall s', (k = FRAG_NONE -> l4_view buf s' l) -> Q DEC_OK (DState s' (transport_result k l pi))) ->
  wp (RETURN_IF bool_decide (pi_frag pi = FRAG_LATER) WITH DEC_OK;; decode_l4 buf) Q (DState s pi).
Proof.
  intros Hv Hl <- Hp HQ. unfold transport_result in HQ. destruct (decide (pi_frag pi = FRAG_LATER)) as [E|E].
  - rewrite bool_decide_true in * by done. apply HQ. by rewrite E.
  - rewrite bool_decide_false in * by done. apply decode_l4_reads with (l := l); [done..|].
    intros s' Hs'. by apply HQ.
Qed.

Section Ip.
Context (buf : bytes) (s : span) (pi : packet_info) (Q : decode_status -> dstate -> Prop).
Context (Hnone : pi_frag pi = FRAG_NONE).

Lemma decode_ipv4_reads src dst ow df more off l trailer :
  let p := V4 src dst ow df more off l in
  view buf s (ip_bytes p ++ trailer) -> ip_valid p ->
  (forall s', (ip_kind p = FRAG_NONE -> l4_view buf s' (ip_body p)) -> Q DEC_OK (DState s' (ip_result p pi))) ->
  wp (decode_ipv4 buf) Q (DState s pi).
Proof.
  intros p Hv [Hl (Hs & Hsb & Hd & Hdb & How & Hoff & Hlen)] HQ. subst p. cbn [ip_body ip_kind ip_bytes] in *.
  destruct (list4 src Hs) as (s0 & s1 & s2 & s3 & ->). destruct (list4 dst Hd) as (d0 & d1 & d2 & d3 & ->).
  destruct (frag_word_facts df more off Hoff) as (Hw & Hwo & Hwm). cbv zeta in Hw, Hwo, Hwm.
  set (w := 0x4000 * _ + _ + _) in *. destruct (ihl_facts ow How) as [Hver Hihl].
  assert (Hproto : is_byte (l4_proto l)).
  { destruct l as [| |[]|]; cbn in *; try (unfold is_u; lia). apply Hl. }
  set (hdr := put_ipv4 _ _ _ _ _ _ _) in Hv. pose proof (eq_refl : hdr = _) as Eh. subst hdr.
  rewrite put_ipv4_bytes in Hv by (done || lia).
  pose proof (v_cap _ _ _ Hv) as Hc. pose proof (v_wire _ _ _ Hv) as Hwr.
  rewrite !length_app, length_replicate in Hc, Hwr. cbn [length] in Hc, Hwr. unfold decode_ipv4.
  rewrite <- !app_assoc in Hv.
  repeat vp_step Hv vp_side. rewrite be16_built, Hihl by (unfold is_u; lia).
  rewrite (proj2 (Z.eqb_neq (20 + _ + _) 0)) by lia.
  repeat vp_step Hv vp_side. rewrite !be16_built, Hwo, Hwm by done.
  apply vp_kind. do 3 vp_step Hv vp_side.
  rewrite app_assoc in Hv. rewrite (app_assoc _ _ trailer) in Hv.
  eapply vp_clip; [exact Hv| |intros Hv'].
  { rewrite !length_app, length_replicate. cbn [length]. lia. }
  apply wp_bind. eapply vp_advance; [exact Hv'| |intros Hv''].
  { rewrite length_app, length_replicate. cbn [length]. lia. }
  do 2 vp_step Hv vp_side. change (be16 18 52) with 0x1234.
  apply transport_reads with (l := l) (k := kind_of off more); [done|done| | |].
  - apply (set_kind_frag (kind_of off more)). exact Hnone.
  - exact (set_kind_proto (kind_of off more) _).
  - exact HQ.
Qed.
End Ip.

(** ** The IPv6 extension headers *)
Lemma ext_type_facts e : ext_valid e ->
  is_ipv6_ext (ext_type e) = true /\ is_byte (ext_type e) /\
  (ext_type e =? IP6_EXT_FRAGMENT) = (if e is Fragment _ _ _ _ _ then true else false).
Proof.
  destruct e as [t body|]; cbn [ext_valid ext_type]; [|intros _; split; [done|]; split; [split; lia|done]].
  intros ([-> | [-> | ->]] & _); (split; [done|]; split; [split; lia|done]).
Qed.

Lemma chain_type_byte es last : Forall ext_valid es -> is_byte last -> is_byte (chain_type es last).
Proof. intros [|e es' He _] Hl; [done|]. by apply ext_type_facts. Qed.

Lemma options_length (body : bytes) :
  Z.of_nat (length body + 2) mod 8 = 0 -> ((Z.of_nat (length body + 2) / 8 - 1) + 1) * 8 = Z.of_nat (length body + 2).
Proof. intros H. Z.to_euclidean_division_equations. lia. Qed.

(** The offset and the M flag of a fragment header. *)
Lemma fragment_word off f2 more : is_u 13 off -> 0 <= f2 < 4 ->
  let w := 8 * off + 2 * f2 + Z.b2z more in
  is_u 16 w /\ Z.shiftr w 3 = off /\ negb (Z.land w 1 =? 0) = more.
Proof.
  intros Ho Hf w. unfold is_u in *. split; [destruct more; cbn in *; lia|]. split.
  - rewrite Z.shiftr_div_pow2 by done. subst w. destruct more; cbn in *; Z.to_euclidean_division_equations; lia.
  - change 1 with (2 ^ 0). rewrite flag_set, Z.div_1_r by done. subst w.
    rewrite <- Z.add_assoc, !Z.odd_add, !Z.odd_mul. by destruct more.
Qed.

Section Chain.
Context (buf rest : bytes) (last : Z) (Hlast : is_byte last) (Hend : is_ipv6_ext last = false).
Context (Q : decode_status + Z -> dstate -> Prop).

Lemma chain_reads es fuel hops s pi :
  Forall ext_valid es -> (length es < fuel)%nat -> hops + Z.of_nat (length es) <= 8 ->
  view buf s (chain_bytes es last ++ rest) ->
  (forall s' pi', chain_kind es (pi_frag pi) <> FRAG_LATER -> view buf s' rest ->
     pi' <| pi_ip_proto := last |> = chain_result es last pi -> pi_frag pi' = chain_kind es (pi_frag pi) ->
     Q (inr last) (DState s' pi')) ->
  (forall s', chain_kind es (pi_frag pi) = FRAG_LATER -> Q (inl DEC_OK) (DState s' (chain_result es last pi))) ->
  pi_frag pi <> FRAG_LATER ->
  wp (ipv6_ext_loop buf fuel (chain_type es last) hops) Q (DState s pi).
Proof.
  intros Hes. revert fuel hops s pi. induction Hes as [|e es He Hes IH]; intros fuel hops s pi Hf Hh Hv HQ HQL Hk.
  - destruct fuel as [|fuel]; [cbn in Hf; lia|]. cbn [ipv6_ext_loop chain_type]. rewrite Hend.
    apply HQ; try done.
  - destruct fuel as [|fuel]; [cbn in Hf; lia|]. cbn [ipv6_ext_loop chain_type length] in *.
    destruct (ext_type_facts e He) as (-> & Hb & ->). cbn [negb].
    pose proof (chain_type_byte es last Hes Hlast) as Hnext.
    vp_step Hv ltac:(unfold IPV6_MAX_EXT_HEADERS; vp_side).
    destruct e as [t body|r off f2 more id]; cbn [ext_valid chain_bytes ext_bytes] in *.
    + destruct He as (_ & _ & Hm & Hl). pose proof (options_length body Hm) as Hlen.
      pose proof (v_cap _ _ _ Hv) as Hc. rewrite !length_app in Hc. cbn [length] in Hc.
      rewrite <- !app_assoc in Hv.
      do 3 vp_step Hv vp_side. rewrite Hlen.
      do 4 vp_step Hv vp_side. rewrite 2!app_assoc in Hv. rewrite <- app_assoc in Hv.
      eapply vp_advance; [exact Hv|rewrite length_app; cbn [length]; lia|intros Hv'].
      apply IH; try done; lia.
    + destruct He as (Hr & Ho & Hf2 & Hid). destruct (fragment_word off f2 more Ho Hf2) as (Hw & Hwo & Hwm).
      cbv zeta in Hw, Hwo, Hwm. set (w := 8 * off + _ + _) in *.
      change (([chain_type es last; r] ++ bb_be16 [] w ++ bb_be32 [] id)) with
        [chain_type es last; r; hi8 w; lo8 w; hi8 (hi16 id); lo8 (hi16 id); hi8 (lo16 id); lo8 (lo16 id)] in Hv.
      pose proof (v_cap _ _ _ Hv) as Hc. rewrite !length_app in Hc. cbn [length] in Hc.
      rewrite <- !app_assoc in Hv. do 7 vp_step Hv vp_side. rewrite be16_built, be32_built, Hwo, Hwm by done.
      apply wp_bind, vp_kind. do 2 vp_step Hv vp_side. apply wp_bind.
      eapply vp_advance; [exact Hv|done|intros Hv']. do 2 vp_step Hv vp_side.
      cbn [chain_kind chain_result] in HQ, HQL. destruct (kind_of off more) eqn:Ek.
      * rewrite bool_decide_false by done. apply IH; try done; lia.
      * rewrite bool_decide_false by done. apply IH; try done; lia.
      * rewrite bool_decide_true by done. do 2 vp_step Hv vp_side. rewrite wrap_small by done. by apply HQL.
Qed.
End Chain.

Lemma slice_app {A} (a b c : list A) i n :
  Z.to_nat i = length a -> Z.to_nat n = length b -> take (Z.to_nat n) (drop (Z.to_nat i) (a ++ b ++ c)) = b.
Proof. intros -> ->. by rewrite drop_app_length, take_app_length. Qed.

Section Ipv6.
Context (buf : bytes) (s : span) (pi : packet_info) (Q : decode_status -> dstate -> Prop).
Context (Hnone : pi_frag pi = FRAG_NONE).

Lemma l4_proto_facts k l : l4_valid k l -> is_byte (l4_proto l) /\ is_ipv6_ext (l4_proto l) = false.
Proof. destruct l as [| |[]|]; cbn; intros Hl; try (split; [split; lia|done]). by destruct Hl as (? & ? & _). Qed.

Lemma decode_ipv6_reads src dst es l trailer :
  let p := V6 src dst es l in
  view buf s (ip_bytes p ++ trailer) -> ip_valid p ->
  (forall s', (ip_kind p = FRAG_NONE -> l4_view buf s' (ip_body p)) -> Q DEC_OK (DState s' (ip_result p pi))) ->
  wp (decode_ipv6 buf) Q (DState s pi).
Proof.
  intros p Hv [Hl (Hs & Hsb & Hd & Hdb & Hes & Hn & Hlen)] HQ. subst p. cbn [ip_body ip_kind ip_bytes] in *.
  destruct (l4_proto_facts _ _ Hl) as [Hproto Hend].
  pose proof (chain_type_byte es (l4_proto l) Hes Hproto) as Hfirst.
  rewrite put_ipv6_bytes in Hv by done. set (n := length (chain_bytes _ _ ++ _)) in *.
  pose proof (v_cap _ _ _ Hv) as Hc. pose proof (v_wire _ _ _ Hv) as Hw. pose proof (view_max _ _ _ Hv) as Hmax.
  assert (Hsum : n = (length (chain_bytes es (l4_proto l)) + length (l4_bytes l))%nat) by apply length_app.
  rewrite !length_app, <- ?Hsum, Hs, Hd in Hc, Hw. cbn [length] in Hc, Hw.
  rewrite <- !(app_assoc _ _ trailer), <- !app_assoc in Hv. unfold decode_ipv6.
  do 8 vp_step Hv vp_side. rewrite be16_built by (unfold is_u; lia).
  rewrite size_sub_small by (consts; lia).
  do 6 vp_step Hv vp_side.
  eapply (vp_rdn _ _ _ Hv); [vp_side..|by apply slice_app|]. do 4 vp_step Hv vp_side.
  apply wp_bind. rewrite app_assoc in Hv.
  eapply (vp_rdn _ _ _ Hv); [vp_side..|apply slice_app; [by rewrite length_app, Hs|done]|].
  do 6 vp_step Hv vp_side. rewrite app_assoc in Hv. apply wp_bind.
  eapply vp_advance; [exact Hv|by rewrite !length_app, Hs, Hd|intros Hv1].
  rewrite app_assoc in Hv1. apply wp_bind.
  eapply vp_clip; [exact Hv1|done|intros Hv2]. apply wp_bind.
  set (pi1 := update pi_has_l3 _ _). assert (Hk : pi_frag pi1 = FRAG_NONE) by exact Hnone.
  apply chain_reads with (rest := l4_bytes l) (last := l4_proto l);
    rewrite ?Hk; try done; [unfold IPV6_MAX_EXT_HEADERS; lia|lia|..].
  - intros s' pi' Hnl Hv' Hr Hf. cbn beta iota. vp_step Hv vp_side. vp_step Hv vp_side. rewrite (wrap_small 8) by done.
    assert (Hpl : pi_frag (pi' <| pi_ip_proto := l4_proto l |>) = chain_kind es FRAG_NONE) by exact Hf.
    assert (Hlv : bool_decide (chain_kind es FRAG_NONE = FRAG_LATER) = false) by by apply bool_decide_false.
    apply decode_l4_reads with (l := l); [done|by rewrite Hpl|done|].
    intros s2 Hs2. rewrite Hpl in Hs2. specialize (HQ s2 Hs2). cbn [ip_result ip_kind] in HQ.
    unfold transport_result in HQ. rewrite Hlv in HQ. rewrite Hr. exact HQ.
  - intros s' Hkl. cbn beta iota. apply wp_ret. specialize (HQ s'). cbn [ip_result ip_kind] in HQ.
    unfold transport_result in HQ. rewrite bool_decide_true in HQ by done. apply HQ. by rewrite Hkl.
Qed.
End Ipv6.
