(* ===== verification/PacketTheorems.v ===== *)
(** GTP-U messages and whole frames: the decoder reads what the builder writes. *)
From S2P Require Export PacketProps.
#[global] Open Scope Z_scope.

(** ** Any IP packet *)
Definition decode_ip (buf : bytes) (p : ip) : D decode_status :=
  match p with V4 _ _ _ _ _ _ _ => decode_ipv4 buf | V6 _ _ _ _ => decode_ipv6 buf end.

Lemma decode_ip_reads buf s pi Q p trailer :
  pi_frag pi = FRAG_NONE -> view buf s (ip_bytes p ++ trailer) -> ip_valid p ->
  (forall s', (ip_kind p = FRAG_NONE -> l4_view buf s' (ip_body p)) -> Q DEC_OK (DState s' (ip_result p pi))) ->
  wp (decode_ip buf p) Q (DState s pi).
Proof.
  intros Hk Hv Hp HQ. destruct p; [by eapply (decode_ipv4_reads buf s pi Q Hk)|by eapply (decode_ipv6_reads buf s pi Q Hk)].
Qed.

(** What [ip_result] leaves in the fields the rest of the decoder looks at. *)
Lemma l4_result_fields l pi :
  pi_frag (l4_result l pi) = pi_frag pi /\ pi_has_l3 (l4_result l pi) = pi_has_l3 pi /\
  pi_ip_proto (l4_result l pi) = pi_ip_proto pi /\ pi_status (l4_result l pi) = pi_status pi.
Proof. by destruct l. Qed.

Lemma chain_result_fields es last pi :
  pi_frag pi <> FRAG_LATER ->
  pi_frag (chain_result es last pi) = chain_kind es (pi_frag pi) /\
  pi_has_l3 (chain_result es last pi) = pi_has_l3 pi /\ pi_status (chain_result es last pi) = pi_status pi /\
  (chain_kind es (pi_frag pi) = FRAG_NONE -> pi_ip_proto (chain_result es last pi) = last).
Proof.
  revert pi. induction es as [|[t b|r off f2 more id] es IH]; intros pi Hk; cbn [chain_result chain_kind]; [done|by apply IH|].
  destruct (kind_of off more); cbn [set_kind]; [| |done];
    match goal with |- context [chain_result es last ?x] => specialize (IH x) end; pi_simpl; by apply IH.
Qed.

Lemma ip_result_fields p pi : pi_frag pi = FRAG_NONE ->
  pi_frag (ip_result p pi) = ip_kind p /\ pi_has_l3 (ip_result p pi) = true /\
  pi_status (ip_result p pi) = pi_status pi /\
  (ip_kind p = FRAG_NONE -> pi_ip_proto (ip_result p pi) = l4_proto (ip_body p)).
Proof.
  intros Hk. destruct p as [src dst ow df more off l|src dst es l]; cbn [ip_result ip_kind ip_body]; unfold transport_result.
  - set (pi1 := update pi_has_l3 _ _). destruct (l4_result_fields l pi1) as (E1 & E2 & E3 & E4).
    assert (F : pi_frag pi1 = kind_of off more) by (by apply (set_kind_frag (kind_of off more))).
    assert (P : pi_ip_proto pi1 = l4_proto l) by exact (set_kind_proto (kind_of off more) _).
    assert (S : pi_status pi1 = pi_status pi) by (by unfold pi1; destruct (kind_of off more)).
    destruct (bool_decide _); [by rewrite F|]. rewrite E1, E2, E3, E4. by rewrite F.
  - set (pi0 := update pi_has_l3 _ _). assert (Hk0 : pi_frag pi0 = FRAG_NONE) by exact Hk.
    set (pi1 := chain_result es (l4_proto l) pi0).
    destruct (l4_result_fields l pi1) as (E1 & E2 & E3 & E4).
    destruct (chain_result_fields es (l4_proto l) pi0) as (C1 & C2 & C3 & C4); [by rewrite Hk0|].
    rewrite Hk0 in C1, C4. fold pi1 in C1, C2, C3, C4.
    destruct (bool_decide _); [done|]. by rewrite E1, E2, E3, E4.
Qed.

(** ** GTP-U *)
Lemma put_gtpu_bytes f t (n : nat) teid :
  is_byte f -> is_byte t -> Z.of_nat n <= 65535 ->
  put_gtpu [] f t n teid =
  [f; t; hi8 (Z.of_nat n); lo8 (Z.of_nat n); hi8 (hi16 teid); lo8 (hi16 teid); hi8 (lo16 teid); lo8 (lo16 teid)].
Proof.
  intros Hf Ht Hn.
  transitivity [u8 f; u8 t; hi8 (u32 (Z.of_nat n)); lo8 (u32 (Z.of_nat n));
    hi8 (hi16 teid); lo8 (hi16 teid); hi8 (lo16 teid); lo8 (lo16 teid)]; [reflexivity|].
  by rewrite !wrap_small by (done || unfold is_u; lia).
Qed.

Lemma put_gtpu_opt_bytes seq npdu next :
  is_byte npdu -> is_byte next -> put_gtpu_opt [] seq npdu next = [hi8 seq; lo8 seq; npdu; next].
Proof.
  intros Hn Hx. transitivity [hi8 seq; lo8 seq; u8 npdu; u8 next]; [reflexivity|]. by rewrite !wrap_small.
Qed.

Lemma put_gtpu_ext_bytes (units : nat) next :
  (1 <= units <= 255)%nat -> is_byte next ->
  put_gtpu_ext [] units next = (Z.of_nat units :: replicate (4 * units - 2) 0) ++ [next].
Proof.
  intros Hu Hn. transitivity ((u8 (Z.of_nat units) :: replicate (4 * units - 2) 0) ++ [u8 next]); [reflexivity|].
  by rewrite !wrap_small by (done || unfold is_u; lia).
Qed.

Lemma g_flags_facts g :
  is_byte (g_flags g) /\ Z.shiftr (g_flags g) 5 = 1 /\ (Z.land (g_flags g) GTPU_FLAG_PT =? 0) = false /\
  negb (Z.land (g_flags g) (Z.lor (Z.lor GTPU_FLAG_E GTPU_FLAG_S) GTPU_FLAG_PN) =? 0) = g_e g || g_s g || g_pn g /\
  negb (Z.land (g_flags g) GTPU_FLAG_S =? 0) = g_s g /\ negb (Z.land (g_flags g) GTPU_FLAG_E =? 0) = g_e g.
Proof. by destruct g as [[] [] [] [] ty teid seq npdu es inn rest]; vm_compute; intuition discriminate. Qed.

Lemma gext_type_byte es : Forall (fun e : Z * nat => 0 < e.1 < 256 /\ (1 <= e.2 <= 255)%nat) es -> is_byte (gext_type es).
Proof. intros [|[t u] es' [Ht _] _]; cbn in *; unfold is_u; lia. Qed.

Lemma gtpu_opt_reads buf s pi Q g rest :
  gtpu_valid g ->
  view buf s ((if g_e g || g_s g || g_pn g then put_gtpu_opt [] (g_seq g) (g_npdu g) (gext_type (g_exts g)) else []) ++ rest) ->
  (forall s', view buf s' rest ->
     Q (inr (gext_type (g_exts g))) (DState s' (if g_s g then pi <| pi_gtp_seq := g_seq g |> else pi))) ->
  wp (gtpu_opt buf (g_flags g)) Q (DState s pi).
Proof.
  intros (_ & _ & Hseq & Hnpdu & Hes & _ & He0 & _) Hv HQ.
  destruct (g_flags_facts g) as (_ & _ & _ & Hopt & Hs & He). pose proof (gext_type_byte _ Hes) as Hnext.
  unfold gtpu_opt. rewrite Hopt, Hs, He. destruct (g_e g || g_s g || g_pn g) eqn:Eo.
  - rewrite put_gtpu_opt_bytes in Hv by done.
    pose proof (v_cap _ _ _ Hv) as Hc. rewrite length_app in Hc. cbn [length] in Hc.
    do 2 vp_step Hv vp_side.
    assert (Hk : forall pi, Q (inr (gext_type (g_exts g))) (DState (advance s GTPU_OPT_LEN) pi) ->
      wp (next ← (if g_e g then rd buf 3 else mret 0); _ ← do_advance buf GTPU_OPT_LEN; mret (inr next)) Q (DState s pi)).
    { intros pi2 H2. destruct (g_e g).
      - do 2 vp_step Hv vp_side. apply wp_bind. eapply vp_advance; [exact Hv|done|intros _]. exact H2.
      - rewrite He0 in H2 by done. vp_step Hv vp_side. apply wp_ret. apply wp_bind.
        eapply vp_advance; [exact Hv|done|intros _]. exact H2. }
    assert (Hv' : view buf (advance s GTPU_OPT_LEN) rest) by exact (view_advance _ _ _ _ Hv).
    specialize (HQ _ Hv'). destruct (g_s g).
    + do 3 vp_step Hv vp_side. rewrite be16_built by done. by apply Hk.
    + apply wp_ret. by apply Hk.
  - apply orb_false_iff in Eo as [Eo _]. apply orb_false_iff in Eo as [Ee Es]. rewrite Es in HQ.
    rewrite He0 in HQ by done. apply wp_ret. by apply HQ.
Qed.

Lemma ext_last (u : nat) next (rest : bytes) :
  (1 <= u)%nat -> (((Z.of_nat u :: replicate (4 * u - 2) 0) ++ [next]) ++ rest) !! (4 * u - 1)%nat = Some next.
Proof.
  intros Hu. rewrite lookup_app_l by (rewrite length_app; cbn [length]; rewrite length_replicate; lia).
  rewrite lookup_app_r by (cbn [length]; rewrite length_replicate; lia).
  cbn [length]. rewrite length_replicate. by replace (4 * u - 1 - S (4 * u - 2))%nat with 0%nat by lia.
Qed.

Lemma gext_reads buf rest (Q : decode_status + unit -> dstate -> Prop) es fuel hops s pi :
  Forall (fun e : Z * nat => 0 < e.1 < 256 /\ (1 <= e.2 <= 255)%nat) es ->
  (length es < fuel)%nat -> 0 <= hops -> hops + Z.of_nat (length es) <= 16 ->
  view buf s (gext_bytes es ++ rest) ->
  (forall s', view buf s' rest ->
     Q (inr tt) (DState s' (if es is [] then pi else pi <| pi_gtp_ext_count := hops + Z.of_nat (length es) |>))) ->
  wp (gtpu_ext_loop buf fuel (gext_type es) hops) Q (DState s pi).
Proof.
  intros Hes. revert fuel hops s pi. induction Hes as [|[t u] es [Ht Hu] Hes IH]; intros fuel hops s pi Hf Hh Hle Hv HQ.
  - destruct fuel as [|fuel]; [cbn in Hf; lia|]. apply wp_ret. by apply HQ.
  - destruct fuel as [|fuel]; [cbn in Hf; lia|]. cbn [gtpu_ext_loop gext_type gext_bytes fst snd length] in *.
    rewrite put_gtpu_ext_bytes, <- app_assoc in Hv by (done || by apply gext_type_byte).
    pose proof (v_cap _ _ _ Hv) as Hc. rewrite !length_app in Hc. cbn [length] in Hc. rewrite length_replicate in Hc.
    do 2 vp_step Hv ltac:(unfold GTPU_MAX_EXT_HEADERS; vp_side).
    do 5 vp_step Hv vp_side. apply wp_bind.
    eapply (vp_rd _ _ _ Hv); [lia| |].
    { rewrite <- (ext_last u (gext_type es) (gext_bytes es ++ rest)) by lia. f_equal. lia. }
    apply wp_bind.
    eapply vp_advance; [exact Hv| |intros Hv'].
    { rewrite length_app. cbn [length]. rewrite length_replicate. lia. }
    do 2 vp_step Hv vp_side. rewrite (wrap_small 8) by (unfold is_u; lia).
    apply IH; [lia|lia|lia|done|]. intros s' Hs'. specialize (HQ s' Hs').
    replace (hops + Z.of_nat (S (length es))) with (hops + 1 + Z.of_nat (length es)) in HQ by lia.
    destruct es; [|exact HQ]. cbn [length] in HQ. by rewrite Z.add_0_r in HQ.
Qed.

(** The packet inside a tunnel. *)
Lemma ip_first p : ip_valid p -> exists b rest, ip_bytes p = b :: rest /\
  Z.shiftr b 4 = match p with V4 _ _ _ _ _ _ _ => 4 | V6 _ _ _ _ => 6 end.
Proof.
  destruct p as [src dst ow df more off l|src dst es l]; cbn [ip_bytes]; intros [Hl H]; eexists _, _; (split; [reflexivity|]).
  - destruct H as (_ & _ & _ & _ & How & _). do 11 (destruct ow as [|ow]; [reflexivity|]). lia.
  - reflexivity.
Qed.

Lemma vp_scratch (m : D decode_status) Q s pi :
  wp m (fun st d => Q (st, ds_pi d) (DState (ds_span d) pi)) (DState s packet_info_zero) ->
  wp (with_scratch m) Q (DState s pi).
Proof. unfold wp, with_scratch. cbn [ds_span]. destruct (m _) as [[st d]|]; done. Qed.

Lemma inner_reads buf s pi Q p rest :
  ip_valid p -> view buf s (ip_bytes p ++ rest) ->
  (forall s', Q DEC_OK (DState s' (inner_result p pi))) ->
  wp (decode_gtpu_inner buf) Q (DState s pi).
Proof.
  intros Hp Hv HQ. destruct (ip_first p Hp) as (b & r & Eb & Hver). unfold decode_gtpu_inner.
  pose proof Hv as Hv1. rewrite Eb in Hv1. pose proof (v_cap _ _ _ Hv1) as Hc. cbn [length app] in Hc.
  do 3 vp_step Hv1 vp_side. rewrite Hver.
  assert (Hcopy : forall s', wp (copy_inner DEC_OK (ip_result p packet_info_zero)) Q (DState s' pi)).
  { intros s'. destruct (ip_result_fields p packet_info_zero eq_refl) as (_ & H3 & _).
    specialize (HQ s'). unfold inner_result in HQ. unfold copy_inner. rewrite H3.
    set (inn := ip_result p packet_info_zero) in *. cbv zeta in HQ.
    destruct (pi_has_l4 inn); repeat vp_step Hv1 vp_side; exact HQ. }
  assert (Hrun : wp ('(st, inn) ← with_scratch (decode_ip buf p); copy_inner st inn) Q (DState s pi)).
  { apply wp_bind, vp_scratch. eapply decode_ip_reads; [done|exact Hv|done|]. intros s' _. apply Hcopy. }
  destruct p; exact Hrun.
Qed.

Lemma decode_gtpu_reads buf s pi Q g :
  gtpu_valid g -> Z.of_nat (length (gtpu_tail g)) <= 65535 -> view buf s (gtpu_bytes g) ->
  (forall s', Q DEC_OK (DState s' (gtpu_result g pi))) ->
  wp (decode_gtpu buf) Q (DState s pi).
Proof.
  intros Hg Hlen Hv HQ. pose proof Hg as (Hty & Hteid & _ & _ & Hes & Hn & _ & Hgpdu & Hinner & _).
  destruct (g_flags_facts g) as (Hfb & Hver & Hpt & _).
  unfold gtpu_bytes in Hv. rewrite put_gtpu_bytes in Hv by done.
  pose proof (v_cap _ _ _ Hv) as Hc. pose proof (v_wire _ _ _ Hv) as Hw. pose proof (view_max _ _ _ Hv) as Hmax.
  rewrite length_app in Hc, Hw. cbn [length] in Hc, Hw. unfold decode_gtpu.
  do 4 vp_step Hv ltac:(rewrite ?Hver, ?Hpt; vp_side).
  rewrite (wrap_small 8) by done. do 13 vp_step Hv vp_side.
  rewrite be16_built, be32_built by (done || unfold is_u; lia).
  do 3 vp_step Hv vp_side. rewrite size_sub_small by (consts; lia). do 2 vp_step Hv vp_side.
  eapply vp_advance; [exact Hv|done|intros Hv1]. apply wp_bind.
  eapply (vp_clip buf _ (gtpu_tail g) []); [by rewrite app_nil_r|done|intros Hv2].
  unfold gtpu_tail in Hv2 at 2. apply wp_bind. eapply gtpu_opt_reads; [exact Hg|exact Hv2|intros s1 Hv3].
  apply wp_bind. apply gext_reads with (rest := default [] (ip_bytes <$> g_inner g) ++ g_rest g);
    [done|unfold GTPU_MAX_EXT_HEADERS; lia|done|lia|done|intros s2 Hv4].
  do 4 vp_step Hv4 vp_side. rewrite Z.add_0_l.
  unfold gtpu_result in HQ. cbv zeta in HQ.
  match goal with |- wp _ _ (DState _ ?x) => set (pi1 := x) end.
  assert (Ht : pi_gtp_msg_type pi1 = g_type g) by (unfold pi1; by destruct (g_exts g), (g_s g)).
  rewrite Ht. destruct (g_inner g) as [p|] eqn:Ei.
  - rewrite (proj2 Hgpdu) by done. apply vp_if_false; [done|].
    eapply inner_reads; [by apply Hinner|exact Hv4|exact HQ].
  - apply vp_if_true; [|apply HQ]. apply negb_true_iff, Z.eqb_neq. intros E. by destruct (proj1 Hgpdu E).
Qed.

(** ** Frames *)
Lemma put_eth_bytes t :
  put_eth [] t = [2; 0; 0; 0; 0; 2; 2; 0; 0; 0; 0; 1; hi8 t; lo8 t].
Proof. reflexivity. Qed.
Lemma put_vlan_bytes vid t : is_u 12 vid -> put_vlan [] vid t = [hi8 vid; lo8 vid; hi8 t; lo8 t].
Proof.
  intros Hv. unfold put_vlan. change 0x0FFF with (Z.ones 12). rewrite Z.land_ones by done.
  by rewrite Z.mod_small.
Qed.

(** One VLAN tag. *)
Lemma vlan_step buf fuel s pi Q t vid next rest :
  view buf s (put_vlan [] vid next ++ rest) -> is_vlan_type t = true -> is_u 12 vid -> is_u 16 next ->
  0 <= pi_vlan_count pi < 2 -> length (pi_vlan_ids pi) = 2%nat ->
  (view buf (advance s 4) rest ->
   wp (vlan_loop buf fuel next) Q (DState (advance s 4)
     (pi <| pi_status := DEC_OK |> <| pi_vlan_ids := <[Z.to_nat (pi_vlan_count pi) := vid]> (pi_vlan_ids pi) |>
         <| pi_vlan_count := pi_vlan_count pi + 1 |>))) ->
  wp (vlan_loop buf (S fuel) t) Q (DState s pi).
Proof.
  intros Hv Ht Hvid Hnext Hn Hids HQ. rewrite put_vlan_bytes in Hv by done. cbn [vlan_loop]. rewrite Ht. cbn [negb].
  pose proof (v_cap _ _ _ Hv) as Hc. rewrite length_app in Hc. cbn [length] in Hc.
  do 2 vp_step Hv vp_side. apply vp_if_false; [unfold DECODE_MAX_VLANS; vp_side|].
  apply (wp_need_status inl); [done|done|intros _|consts; lia|consts; lia].
  do 2 vp_step Hv vp_side. rewrite be16_built by (unfold is_u in *; lia).
  change 0x0FFF with (Z.ones 12). rewrite Z.land_ones, Z.mod_small by done.
  apply wp_bind, wp_store_vlan; [cbn; lia|].
  do 4 vp_step Hv vp_side. rewrite be16_built by done. apply wp_bind.
  eapply vp_advance; [exact Hv|done|intros Hv']. rewrite (wrap_small 8) by (unfold is_u; lia). by apply HQ.
Qed.


(** The tags of a frame; [type] is the ethertype behind them. *)
Lemma vlan_reads buf s pi Q vs type rest :
  (length vs <= 2)%nat -> Forall (fun v : Z * Z => is_vlan_type v.1 = true /\ is_u 12 v.2) vs ->
  is_u 16 type -> is_vlan_type type = false ->
  pi = packet_info_zero ->
  view buf s (vlan_bytes vs type ++ rest) ->
  (forall s', view buf s' rest ->
     Q (inr type) (DState s' (packet_info_zero <| pi_vlan_count := Z.of_nat (length vs) |>
                                               <| pi_vlan_ids := overwrite [0; 0] (map snd vs) |>))) ->
  wp (vlan_loop buf (S (Z.to_nat DECODE_MAX_VLANS)) (tag_type vs type)) Q (DState s pi).
Proof.
  intros Hn Hvs Ht Hnot -> Hv HQ. change (S (Z.to_nat DECODE_MAX_VLANS)) with 3%nat.
  assert (Hend : forall s' fuel pi', Q (inr type) (DState s' pi') ->
            wp (vlan_loop buf (S fuel) type) Q (DState s' pi')).
  { intros s' fuel pi' H. cbn [vlan_loop]. by rewrite Hnot. }
  assert (Htype : forall v, is_vlan_type v = true -> is_u 16 v).
  { intros v. unfold is_vlan_type, ETHERTYPE_VLAN, ETHERTYPE_QINQ, ETHERTYPE_QINQ_LEGACY, is_u.
    rewrite !orb_true_iff, !Z.eqb_eq. lia. }
  destruct Hvs as [|[t1 v1] vs [Ht1 Hv1] Hvs]; [apply Hend, HQ, Hv|]. cbn [fst snd vlan_bytes tag_type] in *.
  rewrite <- app_assoc in Hv.
  destruct Hvs as [|[t2 v2] vs [Ht2 Hv2] Hvs]; cbn [fst snd vlan_bytes tag_type] in *.
  - eapply vlan_step; [exact Hv|done..|intros Hv']. apply Hend. by apply HQ.
  - destruct vs; [|cbn in Hn; lia]. rewrite <- app_assoc in Hv.
    eapply vlan_step; [exact Hv|by auto..|done|done|intros Hv'].
    eapply vlan_step; [exact Hv'|done..|intros Hv'']. apply Hend. by apply HQ.
Qed.

Lemma set_status pi : pi_status pi = DEC_OK -> pi <| pi_status := DEC_OK |> = pi.
Proof. destruct pi. cbn. by intros ->. Qed.

Lemma chain_result_has_l4 es last pi : pi_has_l4 (chain_result es last pi) = pi_has_l4 pi.
Proof.
  revert pi. induction es as [|[t b|r off f2 more id] es IH]; intros pi; cbn [chain_result]; [done|apply IH|].
  destruct (kind_of off more); cbn [set_kind]; [by rewrite IH..|done].
Qed.

Lemma ip_result_whole p pi : pi_frag pi = FRAG_NONE -> ip_kind p = FRAG_NONE ->
  exists pi', ip_result p pi = l4_result (ip_body p) pi' /\ pi_ip_proto pi' = l4_proto (ip_body p) /\
    pi_has_l4 pi' = pi_has_l4 pi.
Proof.
  intros Hk Hw. destruct p as [src dst ow df more off l|src dst es l]; cbn [ip_result ip_kind ip_body] in *; unfold transport_result.
  - rewrite Hw. eexists. split; [reflexivity|done].
  - rewrite Hw. eexists. split; [reflexivity|]. rewrite chain_result_has_l4. split; [|done].
    match goal with |- context [chain_result _ _ ?x] => set (pi0 := x) end.
    assert (Hk0 : pi_frag pi0 = FRAG_NONE) by exact Hk.
    destruct (chain_result_fields es (l4_proto l) pi0) as (_ & _ & _ & Hp); [by rewrite Hk0|].
    apply Hp. by rewrite Hk0.
Qed.

(** Whether the code looks for GTP-U in the packet. *)
Lemma gtpu_test p pi s buf :
  pi_frag pi = FRAG_NONE -> pi_has_l4 pi = false -> ip_valid p -> (ip_kind p = FRAG_NONE -> l4_view buf s (ip_body p)) ->
  bool_decide (pi_frag (ip_result p pi) = FRAG_NONE) && decode_is_gtpu_port (ip_result p pi) &&
    (sp_wire s >=? UDP_HDR_LEN + GTPU_HDR_LEN) = true <-> carries_gtpu p.
Proof.
  intros Hk Hl4 [Hl _] Hview. destruct (ip_result_fields p pi Hk) as (Hf & _).
  rewrite !andb_true_iff, bool_decide_eq_true, Hf. unfold carries_gtpu.
  destruct (decide (ip_kind p = FRAG_NONE)) as [E|E]; [|naive_solver].
  destruct (ip_result_whole p pi Hk E) as (pi' & -> & Hp & Hh). specialize (Hview E). rewrite E in Hl.
  unfold decode_is_gtpu_port, IPPROTO_NUM_UDP.
  destruct (ip_body p) as [sp dp f q|sp dp n q|v6 t c q|proto q]; cbn [l4_result l4_proto l4_view l4_valid] in *; pi_simpl.
  - rewrite Hp. naive_solver.
  - rewrite Hp. apply v_wire in Hview. destruct Hl as (_ & _ & _ & Hn & Hle).
    rewrite length_app, put_udp_bytes, length_take in Hview. cbn [length] in Hview.
    specialize (Hle eq_refl). rewrite Hview. unfold GTPU_PORT. consts.
    change (17 =? 17) with true. cbn [andb]. rewrite orb_true_iff, !Z.eqb_eq, Z.geb_le. intuition lia.
  - rewrite Hp. destruct v6; naive_solver.
  - rewrite Hh, Hl4. naive_solver.
Qed.

Lemma gtpu_result_status g pi : pi_status (gtpu_result g pi) = pi_status pi.
Proof.
  unfold gtpu_result, inner_result. destruct (g_inner g) as [p|]; [destruct (pi_has_l4 _)|];
    by destruct (g_s g), (g_exts g).
Qed.

Lemma net_type_range n : net_valid n -> is_u 16 (net_type n) /\ is_vlan_type (net_type n) = false.
Proof.
  destruct n as [[]|[]|t b]; cbn [net_valid net_type ip_ethertype]; try (intros _; split; [unfold is_u; lia|done]).
  by intros (? & ? & _).
Qed.

Lemma decode_network_reads buf s pi Q n trailer :
  pi_frag pi = FRAG_NONE -> pi_has_l4 pi = false -> pi_status pi = DEC_OK -> net_valid n ->
  view buf s (net_bytes n ++ trailer) ->
  (forall s', Q DEC_OK (DState s' (net_result n pi))) ->
  wp (decode_network buf (net_type n)) Q (DState s pi).
Proof.
  intros Hk Hl4 Hst Hn Hv HQ. unfold decode_network.
  set (k := fun st : decode_status => _) in |- *.
  assert (Hip : forall p, ip_valid p -> view buf s (ip_bytes p ++ trailer) -> ip_ethertype p = net_type n ->
    (forall s', (ip_kind p = FRAG_NONE -> l4_view buf s' (ip_body p)) -> wp (k DEC_OK) Q (DState s' (ip_result p pi))) ->
    wp (mbind k (if net_type n =? ETHERTYPE_IPV4 then decode_ipv4 buf
        else if net_type n =? ETHERTYPE_IPV6 then decode_ipv6 buf else mret DEC_OK)) Q (DState s pi)).
  { intros p Hp Hv' <- Hc. apply wp_bind.
    assert (H : wp (decode_ip buf p) (fun st => wp (k st) Q) (DState s pi)) by (by eapply decode_ip_reads).
    destruct p; exact H. }
  (* after the IP decoder, the status stored is already there *)
  assert (Hk2 : forall s' pi', pi_status pi' = DEC_OK ->
    wp (if bool_decide (pi_frag pi' = FRAG_NONE) && decode_is_gtpu_port pi' && (sp_wire s' >=? UDP_HDR_LEN + GTPU_HDR_LEN)
        then SET pi_is_gtpu := true;; _ ← do_advance buf UDP_HDR_LEN; gst ← decode_gtpu buf;
             SET pi_gtp_status := gst;; pi ← get_pi; mret (pi_status pi)
        else mret (pi_status pi')) Q (DState s' pi') -> wp (k DEC_OK) Q (DState s' pi')).
  { intros s' pi' E H. unfold k. apply wp_bind, wp_modify. rewrite set_status by done.
    do 4 vp_step Hv vp_side. assert (Hs : status_eqb (pi_status pi') DEC_OK = true) by (by rewrite E).
    rewrite Hs. exact H. }
  destruct n as [p|p g|t b]; cbn [net_valid net_bytes net_result] in *.
  - destruct Hn as [Hp Hno]. apply (Hip p); [done|done|done|]. intros s' Hs'.
    destruct (ip_result_fields p pi Hk) as (_ & _ & Hst' & _).
    apply Hk2; [by rewrite Hst'|]. apply vp_if_false.
    { apply not_true_is_false. intros H. by apply Hno, (gtpu_test p pi s' buf). }
    rewrite Hst', Hst. apply HQ.
  - destruct Hn as (Hp & Hc & Hg & Hpay). apply (Hip p); [done|done|done|]. intros s' Hs'.
    destruct (ip_result_fields p pi Hk) as (_ & _ & Hst' & _).
    apply Hk2; [by rewrite Hst'|]. apply vp_if_true; [by apply (gtpu_test p pi s' buf)|].
    pose proof Hp as [Hl _]. destruct Hc as [Hw Hc]. specialize (Hs' Hw).
    destruct (ip_body p) as [|sp dp m q| |]; try done. cbn [l4_view] in Hs'. rewrite Hpay in Hs'.
    do 3 vp_step Hv vp_side. eapply vp_advance; [exact Hs'|done|intros Hv']. apply wp_bind.
    eapply decode_gtpu_reads; [done| |exact Hv'|].
    { destruct Hl as (_ & _ & _ & Hm & _). apply (f_equal length) in Hpay.
      rewrite length_take in Hpay. unfold gtpu_bytes in Hpay. rewrite length_app in Hpay. lia. }
    intros s2. do 4 vp_step Hv vp_side. apply wp_ret.
    match goal with |- Q ?st _ => replace st with DEC_OK; [apply HQ|] end.
    pi_simpl. by rewrite gtpu_result_status, <- Hst, <- Hst'.
  - destruct Hn as (_ & _ & H4 & H6 & _). cbn [net_type]. unfold ETHERTYPE_IPV4, ETHERTYPE_IPV6.
    rewrite (proj2 (Z.eqb_neq t 0x0800)), (proj2 (Z.eqb_neq t 0x86DD)) by done.
    apply wp_bind, wp_ret, Hk2; [done|]. unfold decode_is_gtpu_port. rewrite Hl4, andb_false_r.
    apply wp_ret. rewrite Hst. apply HQ.
Qed.

Lemma decode_frame_body_reads buf s Q f :
  frame_valid f -> view buf s (frame_bytes f) ->
  (forall s', Q DEC_OK (DState s' (frame_result f))) ->
  wp (decode_frame_body buf) Q (DState s packet_info_zero).
Proof.
  intros (Hn & Hvs & Hnet & _ & _) Hv HQ. destruct (net_type_range _ Hnet) as [Ht Hnv].
  unfold frame_bytes in Hv. rewrite put_eth_bytes in Hv.
  pose proof (v_cap _ _ _ Hv) as Hc. rewrite !length_app in Hc. cbn [length] in Hc. unfold decode_frame_body.
  assert (Htag : is_u 16 (tag_type (fr_vlans f) (net_type (fr_net f)))).
  { destruct Hvs as [|[t v] vs [Hv1 _] _]; [done|]. cbn [tag_type fst] in *. revert Hv1.
    unfold is_vlan_type, ETHERTYPE_VLAN, ETHERTYPE_QINQ, ETHERTYPE_QINQ_LEGACY, is_u.
    rewrite !orb_true_iff, !Z.eqb_eq. lia. }
  apply (wp_need_status (fun st => st)); [done|done|intros _|consts; lia|consts; lia].
  do 2 vp_step Hv vp_side. rewrite be16_built by done. apply wp_bind.
  eapply vp_advance; [exact Hv|done|intros Hv1]. apply wp_bind.
  eapply vlan_reads; [done|done|done|done|reflexivity|exact Hv1|intros s' Hv2].
  do 4 vp_step Hv vp_side. rewrite (wrap_small 16) by done.
  eapply decode_network_reads; [done|done|done|done|exact Hv2|exact HQ].
Qed.

(** ** The bytes of a valid frame *)
Ltac built_bytes :=
  build_simpl; repeat (apply Forall_app; split);
  try (apply Forall_replicate); repeat apply Forall_cons; try apply Forall_nil;
  try (by auto with ints); try (unfold is_u; lia).

Lemma l4_bytes_bytes k l : l4_valid k l -> Forall is_byte (l4_bytes l).
Proof.
  destruct l as [s d f p|s d n p|v6 t c p|proto p]; cbn [l4_valid l4_bytes]; intros Hl.
  - apply Forall_app. split; [built_bytes|apply Hl].
  - apply Forall_app. split; [built_bytes|apply Hl].
  - apply Forall_app. split; [built_bytes|apply Hl].
  - apply Hl.
Qed.

Lemma ext_bytes_bytes e next : ext_valid e -> is_byte next -> Forall is_byte (ext_bytes e next).
Proof.
  intros He Hn. destruct e as [t body|r off f2 more id]; cbn [ext_valid ext_bytes] in *.
  - destruct He as (_ & Hb & Hm & Hl). apply Forall_app. split; [|done].
    repeat constructor; try apply Hn; Z.to_euclidean_division_equations; lia.
  - apply Forall_app. split; [by repeat constructor; apply Hn || apply He|]. built_bytes.
Qed.

Lemma chain_bytes_bytes es last : Forall ext_valid es -> is_byte last -> Forall is_byte (chain_bytes es last).
Proof.
  intros Hes Hl. induction Hes as [|e es He Hes IH]; cbn [chain_bytes]; [done|].
  apply Forall_app. split; [|done]. apply ext_bytes_bytes; [done|]. by apply chain_type_byte.
Qed.

Lemma ip_bytes_bytes p : ip_valid p -> Forall is_byte (ip_bytes p).
Proof.
  destruct p as [src dst ow df more off l|src dst es l]; intros [Hl H]; cbn [ip_body ip_bytes] in *;
    pose proof (l4_bytes_bytes _ _ Hl).
  - apply Forall_app. split; [|done]. built_bytes; apply H.
  - destruct H as (_ & Hs & _ & Hd & Hes & _). destruct (l4_proto_facts _ _ Hl).
    apply Forall_app. split; [built_bytes|]. apply Forall_app. split; [|done]. by apply chain_bytes_bytes.
Qed.

Lemma vlan_bytes_bytes vs last : Forall is_byte (vlan_bytes vs last).
Proof.
  induction vs as [|[t v] vs IH]; cbn [vlan_bytes]; [done|]. apply Forall_app. split; [built_bytes|done].
Qed.

Lemma frame_bytes_bytes f : frame_valid f -> Forall is_byte (frame_bytes f).
Proof.
  intros (_ & _ & Hn & Ht & _). unfold frame_bytes. apply Forall_app. split; [built_bytes|].
  apply Forall_app. split; [apply vlan_bytes_bytes|]. apply Forall_app. split; [|done].
  destruct (fr_net f) as [p|p g|t b]; cbn [net_valid net_bytes] in *;
    [apply ip_bytes_bytes, (proj1 Hn)..|by destruct Hn as (_ & _ & _ & _ & ?)].
Qed.

Lemma decode_built_frame_spec f :
  frame_valid f ->
  decode_frame (frame_bytes f) (Z.of_nat (length (frame_bytes f))) (Z.of_nat (length (frame_bytes f))) =
  Some (DEC_OK, frame_result f).
Proof.
  intros Hf. pose proof (frame_bytes_bytes f Hf) as Hb. pose proof Hf as (_ & _ & _ & _ & Hsz).
  unfold decode_frame. rewrite Z.gtb_ltb, Z.ltb_irrefl.
  assert (Hv : view (frame_bytes f) (Span 0 (Z.of_nat (length (frame_bytes f))) (Z.of_nat (length (frame_bytes f))))
                 (frame_bytes f)).
  { split; cbn [sp_p sp_cap sp_wire]; try done; try lia. by rewrite drop_0, take_ge. }
  pose proof (decode_frame_body_reads _ _ (fun st d => st = DEC_OK /\ ds_pi d = frame_result f) f Hf Hv) as H.
  unfold wp in H. destruct (decode_frame_body _ _) as [[st d]|]; [|by destruct H].
  destruct H as [-> ->]; [done|done].
Qed.

(** C2. The decoder inverts the builder: every well-formed frame of the grammar of
    [Packets] (any VLAN tags, IPv4 with options or IPv6 with any chain of extension
    headers, whole or fragmented, TCP, UDP, ICMP or another protocol, a GTP-U tunnel
    with optional fields, extension headers and a packet inside, and any padding)
    decodes to [DEC_OK] and to exactly the fields the grammar promises. *)
Theorem decode_built_frame f :
  frame_valid f ->
  decode_frame (frame_bytes f) (Z.of_nat (length (frame_bytes f))) (Z.of_nat (length (frame_bytes f))) =
  Some (DEC_OK, frame_result f).
Proof. exact (decode_built_frame_spec f). Qed.
