(* ===== verification/PcapProps.v ===== *)
(** Properties of the pcap reader: what it accepts, what it returns, how it
    fails, and that it reads back what the builder writes. *)
From S2P Require Export Builder ReaderStatus.

(** ** The writer against the format *)

Record packet_args := Packet_args { pa_sec : Z; pa_frac : Z; pa_data : bytes; pa_wirelen : Z }.

Definition packet_args_ok (p : packet_args) : Prop :=
  is_u 32 (pa_sec p) /\ is_u 32 (pa_frac p) /\ is_u 32 (pa_wirelen p) /\
  Forall is_byte (pa_data p) /\ Z.of_nat (length (pa_data p)) <= 262144.

(** What a reader returns for a record written from [p]. *)
Definition captured_of (nsec : bool) (p : packet_args) : captured :=
  Captured (pa_sec p * 10 ^ 9 + pa_frac p * (if nsec then 1 else 1000))
           (Z.max (Z.of_nat (length (pa_data p))) (pa_wirelen p)) (pa_data p).

Definition put_record (be : bool) (b : bytes) (p : packet_args) : bytes :=
  pcap_put_record b be (pa_sec p) (pa_frac p) (pa_data p) (pa_wirelen p).

(** A capture file written by the builder. *)
Definition pcap_file (be nsec : bool) (snaplen : Z) (ps : list packet_args) : bytes :=
  fold_left (put_record be) ps (pcap_put_global [] be nsec snaplen 1).

Definition u32_bytes (be : bool) (v : Z) : bytes := bb_u32 [] v be.

Lemma u32_bytes_eq be v :
  u32_bytes be v = if be then [hi8 (hi16 v); lo8 (hi16 v); hi8 (lo16 v); lo8 (lo16 v)]
                   else [lo8 (lo16 v); hi8 (lo16 v); lo8 (hi16 v); hi8 (hi16 v)].
Proof. unfold u32_bytes. by rewrite bb_u32_app. Qed.

Lemma length_u32_bytes be v : length (u32_bytes be v) = 4%nat.
Proof. rewrite u32_bytes_eq. by destruct be. Qed.

Lemma u32_bytes_is_byte be v : Forall is_byte (u32_bytes be v).
Proof. rewrite u32_bytes_eq. destruct be; repeat (apply Forall_cons; split); auto with ints. Qed.

Lemma field_u32 be pre v post off :
  length pre = off -> is_u 32 v -> field be (pre ++ u32_bytes be v ++ post) off 4 = v.
Proof.
  intros <- Hv. unfold field. rewrite drop_app_length.
  rewrite take_app_le by (rewrite length_u32_bytes; lia).
  rewrite take_ge by (rewrite length_u32_bytes; lia).
  rewrite u32_bytes_eq. unfold int_val. by destruct be; apply be32_built.
Qed.

Lemma put_record_eq be p :
  put_record be [] p = u32_bytes be (pa_sec p) ++ u32_bytes be (pa_frac p) ++
    u32_bytes be (Z.of_nat (length (pa_data p))) ++ u32_bytes be (pa_wirelen p) ++ pa_data p.
Proof.
  unfold put_record, u32_bytes. build_simpl. by destruct be.
Qed.

Lemma put_record_app be b p : put_record be b p = b ++ put_record be [] p.
Proof. apply pcap_put_record_app. Qed.

Lemma pcap_file_eq be nsec snaplen ps :
  pcap_file be nsec snaplen ps =
  pcap_put_global [] be nsec snaplen 1 ++ concat (map (put_record be []) ps).
Proof.
  unfold pcap_file. generalize (pcap_put_global [] be nsec snaplen 1) as b.
  induction ps as [|p ps IH]; intros b; cbn; [by rewrite app_nil_r|].
  rewrite IH, put_record_app. by rewrite app_assoc.
Qed.

Lemma put_record_bytes be p : packet_args_ok p -> Forall is_byte (put_record be [] p).
Proof.
  intros (_ & _ & _ & Hd & _). rewrite put_record_eq.
  repeat (apply Forall_app; split); auto using u32_bytes_is_byte.
Qed.

Lemma split_put_record info p rest :
  packet_args_ok p ->
  split_record info (put_record (fi_big_endian info) [] p ++ rest) =
  inr (captured_of (fi_nsec info) p, rest).
Proof.
  intros (Hs & Hf & Hw & Hd & Hlen). unfold split_record.
  set (be := fi_big_endian info). rewrite put_record_eq.
  set (s := u32_bytes be (pa_sec p)). set (f := u32_bytes be (pa_frac p)).
  set (c := u32_bytes be (Z.of_nat (length (pa_data p)))).
  set (w := u32_bytes be (pa_wirelen p)).
  assert (Es : length s = 4%nat) by apply length_u32_bytes.
  assert (Ef : length f = 4%nat) by apply length_u32_bytes.
  assert (Ec : length c = 4%nat) by apply length_u32_bytes.
  assert (Ew : length w = 4%nat) by apply length_u32_bytes.
  rewrite <- !app_assoc.
  set (data := s ++ f ++ c ++ w ++ pa_data p ++ rest).
  assert (F0 : field be data 0 4 = pa_sec p) by (by apply (field_u32 be [])).
  assert (F4 : field be data 4 4 = pa_frac p).
  { by apply (field_u32 be s). }
  assert (F8 : field be data 8 4 = Z.of_nat (length (pa_data p))).
  { unfold data. rewrite (app_assoc s f).
    apply field_u32; [rewrite length_app; lia|unfold is_u; lia]. }
  assert (F12 : field be data 12 4 = pa_wirelen p).
  { unfold data. rewrite (app_assoc f c), (app_assoc s).
    apply field_u32; [rewrite !length_app; lia|done]. }
  assert (D16 : drop 16 data = pa_data p ++ rest).
  { replace data with ((s ++ f ++ c ++ w) ++ (pa_data p ++ rest))
      by (unfold data; by rewrite <- !app_assoc).
    apply drop_app_length'. rewrite !length_app. lia. }
  assert (Hlen' : length data = (16 + length (pa_data p) + length rest)%nat).
  { unfold data. rewrite !length_app. lia. }
  rewrite F0, F4, F8, F12.
  repeat (case_decide; [lia|]). rewrite <- drop_drop, D16, Nat2Z.id.
  by rewrite take_app_length, drop_app_length.
Qed.

(** ** The writer's global header *)
Lemma global_header_valid be nsec snaplen rest :
  is_u 32 snaplen ->
  valid_header (pcap_put_global [] be nsec snaplen 1 ++ rest)
               (File_info be nsec 2 4 snaplen 1) /\
  drop 24 (pcap_put_global [] be nsec snaplen 1 ++ rest) = rest.
Proof.
  intros Hs. unfold pcap_put_global. cbv zeta. autorewrite with builder.
  rewrite <- !app_assoc. unfold valid_header.
  destruct be; cbn -[hi8 lo8 hi16 lo16]; (split; [|done]).
  all: split; [lia|]; split; [by destruct nsec|]; split; [done|]; split; [done|];
    split; [done|].
  all: f_equal; symmetry; by apply be32_built.
Qed.

(** ** Truncation *)

Lemma split_record_take info data k :
  (k <= length data)%nat ->
  (exists st, split_record info (take k data) = inl st /\ is_end st = true) \/
  (split_record info data = inl PCAP_ERR_BAD_CAPLEN /\
   split_record info (take k data) = inl PCAP_ERR_BAD_CAPLEN) \/
  (exists p n, split_record info data = inr (p, drop n data) /\ (16 <= n <= k)%nat /\
     split_record info (take k data) = inr (p, take (k - n) (drop n data))).
Proof.
  intros Hk. unfold split_record. rewrite length_take, Nat.min_l by done.
  destruct (decide (k = 0%nat)); [left; by eexists|].
  destruct (decide (k < 16)%nat); [left; by eexists|].
  rewrite !field_take by lia. set (caplen := field _ data 8 4).
  destruct (decide (length data = 0%nat)); [lia|].
  destruct (decide (length data < 16)%nat); [lia|].
  destruct (decide (caplen > 262144)); [by right; left|].
  destruct (decide (Z.of_nat k - 16 < caplen)); [left; by eexists|].
  destruct (decide (Z.of_nat (length data) - 16 < caplen)); [lia|].
  right; right. eexists _, (16 + Z.to_nat caplen)%nat. split; [done|]. split; [lia|].
  rewrite !skipn_firstn_comm, take_take. rewrite Nat.min_l by lia. done.
Qed.

(** The longest list of packets both captures start with is the shorter one. *)
Lemma capture_take fuel info data k :
  (k < fuel)%nat -> (k <= length data)%nat -> (length data < fuel)%nat ->
  (pcap_packets fuel info (take k data)).1 `prefix_of` (pcap_packets fuel info data).1 /\
  (is_end (pcap_packets fuel info (take k data)).2 = true \/
   pcap_packets fuel info (take k data) = pcap_packets fuel info data).
Proof.
  revert data k. induction fuel as [|fuel IH]; intros data k Hf Hk Hd; [lia|].
  cbn [pcap_packets].
  destruct (split_record_take info data k Hk)
    as [(st & -> & Hst)|[[-> ->]|(p & n & -> & Hn & ->)]].
  - split; [apply prefix_nil|by left].
  - auto.
  - destruct (IH (drop n data) (k - n)%nat) as [Hp Hs]; try (rewrite ?length_drop; lia).
    destruct (pcap_packets fuel info (take (k - n) (drop n data))) as [ps1 st1].
    destruct (pcap_packets fuel info (drop n data)) as [ps2 st2]. cbn [fst snd] in *.
    split; [by apply prefix_cons|]. destruct Hs as [Hs|[= -> ->]]; auto.
Qed.

(** The header fixes what the reader learns from it. *)
Lemma valid_header_unique data i1 i2 :
  Forall is_byte data -> valid_header data i1 -> valid_header data i2 -> i1 = i2.
Proof.
  intros Hb H1 H2.
  assert (Hobj : bytes_at data 0 (Z.of_nat (length data)) = Some data).
  { unfold bytes_at. rewrite decide_True by lia. change (Z.to_nat 0) with 0%nat.
    by rewrite Nat2Z.id, drop_0, firstn_all. }
  destruct (parse_global_header_ok data 0 data Hobj Hb) as (st & info & _ & _ & Hu).
  destruct (Hu i1 H1) as [_ <-]. by destruct (Hu i2 H2) as [_ <-].
Qed.

Lemma global_header_length be nsec snaplen : length (pcap_put_global [] be nsec snaplen 1) = 24%nat.
Proof. unfold pcap_put_global. cbv zeta. autorewrite with builder. by destruct be. Qed.

Lemma global_header_bytes be nsec snaplen :
  Forall is_byte (pcap_put_global [] be nsec snaplen 1).
Proof.
  unfold pcap_put_global. cbv zeta. autorewrite with builder.
  destruct be; repeat (apply Forall_app; split); repeat (apply Forall_cons; split);
    auto with ints.
Qed.

Lemma pcap_file_bytes be nsec snaplen ps :
  Forall packet_args_ok ps -> Forall is_byte (pcap_file be nsec snaplen ps).
Proof.
  intros Hps. rewrite pcap_file_eq. apply Forall_app. split; [apply global_header_bytes|].
  apply Forall_concat, Forall_map. eapply Forall_impl; [apply put_record_bytes|exact Hps].
Qed.

Lemma capture_of_records info ps :
  Forall packet_args_ok ps ->
  capture_of info (concat (map (put_record (fi_big_endian info) []) ps)) =
  (map (captured_of (fi_nsec info)) ps, PCAP_EOF).
Proof.
  intros Hps. unfold capture_of. induction Hps as [|p ps Hp Hps IH]; [done|].
  cbn [map concat]. set (rest := concat _) in *.
  cbn [pcap_packets]. rewrite split_put_record by done.
  pose proof (split_record_shorter _ _ _ _ (split_put_record info p rest Hp)).
  rewrite (pcap_packets_fuel _ (S (length rest))) by lia. by rewrite IH.
Qed.

(** The records of [sizes] bytes of data that lie whole in the first [k] bytes: their
    number, and what a reader makes of the rest. *)
Fixpoint cut (sizes : list nat) (k : nat) : nat * pcap_status :=
  match sizes with
  | [] => (0%nat, PCAP_EOF)
  | n :: sizes =>
    if decide (k = 0)%nat then (0%nat, PCAP_EOF)
    else if decide (k < 16)%nat then (0%nat, PCAP_ERR_TRUNC_RECORD_HDR)
    else if decide (k < 16 + n)%nat then (0%nat, PCAP_ERR_TRUNC_RECORD)
    else let '(whole, st) := cut sizes (k - (16 + n)) in (S whole, st)
  end.

Definition record_sizes (ps : list packet_args) : list nat := map (fun p => length (pa_data p)) ps.

Lemma put_record_length be p : length (put_record be [] p) = (16 + length (pa_data p))%nat.
Proof. rewrite put_record_eq, !length_app, !length_u32_bytes. lia. Qed.

(** A record cut inside its header or its data. *)
Lemma split_cut_record info p rest k :
  packet_args_ok p -> (0 < k < 16 + length (pa_data p))%nat ->
  split_record info (take k (put_record (fi_big_endian info) [] p ++ rest)) =
  inl (if decide (k < 16)%nat then PCAP_ERR_TRUNC_RECORD_HDR else PCAP_ERR_TRUNC_RECORD).
Proof.
  intros Hp Hk. pose proof (split_put_record info p rest Hp) as Hs.
  set (data := put_record (fi_big_endian info) [] p ++ rest) in *.
  assert (Hl : length data = (16 + length (pa_data p) + length rest)%nat)
    by (unfold data; rewrite length_app, put_record_length; lia).
  revert Hs. unfold split_record. rewrite length_take, Nat.min_l by lia.
  rewrite (decide_False (P := k = 0%nat)) by lia. destruct (decide (k < 16)%nat) as [|Hge]; [done|].
  rewrite !field_take by lia. set (caplen := field _ data 8 4).
  repeat (case_decide; [done|]). intros Hdata.
  apply (f_equal (fun r => match r with inl _ => 0%nat | inr (c, _) => length (cp_data c) end)) in Hdata.
  cbn [cp_data captured_of] in Hdata. rewrite length_take, length_drop in Hdata. lia.
Qed.

(** A capture cut at any byte of its records. *)
Lemma capture_of_cut info ps k :
  Forall packet_args_ok ps -> (k <= length (concat (map (put_record (fi_big_endian info) []) ps)))%nat ->
  capture_of info (take k (concat (map (put_record (fi_big_endian info) []) ps))) =
  (map (captured_of (fi_nsec info)) (take (cut (record_sizes ps) k).1 ps), (cut (record_sizes ps) k).2).
Proof.
  intros Hps. revert k. induction Hps as [|p ps Hp Hps IH]; intros k Hk; [by destruct k|].
  cbn [map concat record_sizes cut] in *. fold (record_sizes ps). set (rest := concat _) in *.
  rewrite length_app, put_record_length in Hk. unfold capture_of. cbn [pcap_packets].
  destruct (decide (k = 0)%nat) as [->|Hk0]; [done|].
  destruct (decide (k < 16 + length (pa_data p))%nat) as [Hlt|Hge].
  { rewrite split_cut_record by (done || lia). destruct (decide (k < 16)%nat); done. }
  rewrite (decide_False (P := (k < 16)%nat)) by lia.
  assert (E : take k (put_record (fi_big_endian info) [] p ++ rest) =
    put_record (fi_big_endian info) [] p ++ take (k - (16 + length (pa_data p))) rest)
    by (by rewrite take_app, put_record_length, (take_ge (put_record _ _ _)) by (rewrite put_record_length; lia)).
  rewrite E, split_put_record by done. specialize (IH (k - (16 + length (pa_data p)))%nat ltac:(lia)).
  unfold capture_of in IH. set (cutrest := take (k - (16 + length (pa_data p))) rest) in *.
  rewrite (pcap_packets_fuel _ (S (length cutrest))) by (rewrite ?length_app, ?put_record_length; lia).
  rewrite IH. by destruct (cut (record_sizes ps) _).
Qed.

(** ** Properties *)

Lemma open_file_spec (fopen_result : FILE + Z) alloc os :
  (forall fp, fopen_result = inl fp -> stream_ok fp) -> buffer_ok alloc ->
  exists st r os', pcap_open_file fopen_result alloc os = Some (st, r, os') /\
    (st = PCAP_OK <-> exists fp info, fopen_result = inl fp /\ is_Some alloc /\
                        valid_header (stream_rest fp) info) /\
    (st = PCAP_OK -> (exists fp, fopen_result = inl fp /\
                        opened (stream_rest fp) (f_errno fp) r) /\
                     pcap_close r os' = (reader_reset, os)) /\
    (st <> PCAP_OK -> failed_open st r /\ os' = os).
Proof.
  intros Hfp Halloc. unfold pcap_open_file. destruct fopen_result as [fp|err].
  - destruct (open_stream_spec fp alloc (Resources (os_files os + 1) (os_blocks os)))
      as (st & r & os' & E & Hiff & Hok & Hbad & _); [by apply Hfp|done|].
    assert (Eos : Resources (os_files os + 1 - 1) (os_blocks os) = os)
      by (destruct os; cbn; f_equal; lia).
    cbn [os_files os_blocks] in *. rewrite Eos in *.
    exists st, r, os'. split; [done|]. split; [|split; [|done]].
    + rewrite Hiff. split; [intros [? [info ?]]; eauto|].
      intros (fp' & info & [= <-] & ? & ?). eauto.
    + intros Hst. destruct (Hok Hst). eauto.
  - eexists PCAP_ERR_OPEN, _, os. split; [done|].
    split; [split; [done|by intros (? & ? & ? & _)]|]. by split.
Qed.

(** C35. Opening a capture file is total, accepts exactly a 24-byte header of the
    classic format (either byte order, microseconds or nanoseconds, version 2.4,
    Ethernet), and leaks nothing: after a failed open the reader owns no stream
    and no buffer and its error is sticky, and after a successful one
    [pcap_close] releases everything the open acquired. *)
Theorem pcap_open_file_ok (fopen_result : FILE + Z) alloc os :
  (forall fp, fopen_result = inl fp -> stream_ok fp) -> buffer_ok alloc ->
  exists st r os', pcap_open_file fopen_result alloc os = Some (st, r, os') /\
    (st = PCAP_OK <-> exists fp info, fopen_result = inl fp /\ is_Some alloc /\
                        valid_header (stream_rest fp) info) /\
    (st = PCAP_OK -> (exists fp, fopen_result = inl fp /\
                        opened (stream_rest fp) (f_errno fp) r) /\
                     pcap_close r os' = (reader_reset, os)) /\
    (st <> PCAP_OK -> failed_open st r /\ os' = os).
Proof. apply open_file_spec. Qed.

(** Opening a capture in memory accepts exactly the same headers, never reads
    outside the [len] bytes given, and names a foreign format in preference to
    "too short" when the input ends inside the header. *)
Lemma pcap_open_mem_ok data :
  Forall is_byte data -> Z.of_nat (length data) <= SIZE_MAX ->
  exists st r, pcap_open_mem data (Z.of_nat (length data)) = Some (st, r) /\
    (st = PCAP_OK <-> exists info, valid_header data info) /\
    (st = PCAP_OK -> opened data None r) /\
    (st <> PCAP_OK -> failed_open st r) /\
    ((length data < 24)%nat ->
       st = PCAP_ERR_SHORT_HEADER \/ st = PCAP_ERR_BAD_MAGIC \/ st = PCAP_ERR_PCAPNG).
Proof. apply open_mem_spec. Qed.

(** C15. [pcap_next] refines the record format: on a stream or in memory it never
    reads outside the input nor overruns the record buffer, and returns exactly
    the next record (bytes, exact timestamp, wire length raised to the captured
    length) with the rest of the input left, or the status that ends the
    capture. *)
Theorem pcap_next_refines r rec :
  reader_ok r -> r_error r = PCAP_OK -> Forall is_byte (remaining r) ->
  next_post r (split_record (r_info r) (remaining r)) (pcap_next r rec).
Proof. apply pcap_next_spec. Qed.

Lemma split_record_bounds info data p rest :
  Forall is_byte data -> split_record info data = inr (p, rest) ->
  Z.of_nat (length (cp_data p)) <= 262144 /\
  Z.of_nat (length (cp_data p)) <= cp_wirelen p /\ is_u 32 (cp_wirelen p) /\
  is_u 64 (cp_ts_ns p) /\ Forall is_byte (cp_data p).
Proof.
  intros Hd. unfold split_record. repeat case_decide; try done. intros [= <- <-].
  cbn [cp_data cp_wirelen cp_ts_ns].
  assert (Hf : forall o, (o + 4 <= length data)%nat ->
                         is_u 32 (field (fi_big_endian info) data o 4))
    by (intros o Ho; by apply load32_field).
  pose proof (Hf 0%nat ltac:(lia)) as F0. pose proof (Hf 4%nat ltac:(lia)) as F4.
  pose proof (Hf 8%nat ltac:(lia)) as F8. pose proof (Hf 12%nat ltac:(lia)) as F12.
  rewrite length_take, length_drop. unfold is_u in *.
  split; [lia|]. split; [lia|]. split; [lia|].
  split; [destruct (fi_nsec info); lia|]. by apply Forall_take, Forall_drop.
Qed.

(** What a record returned by [pcap_next] satisfies, whatever the file says:
    at most 262144 captured bytes, all of them readable at [data]; a wire length
    that is at least that and fits 32 bits; and a timestamp that fits 64 bits. *)
Lemma pcap_next_bounds r rec r' rec' :
  reader_ok r -> r_error r = PCAP_OK -> Forall is_byte (remaining r) ->
  pcap_next r rec = Some (PCAP_OK, r', rec') ->
  exists l, rec_bytes r' rec' = Some l /\ rec_caplen rec' = Z.of_nat (length l) /\
    Forall is_byte l /\ 0 <= rec_caplen rec' <= PCAP_MAX_CAPLEN /\
    rec_caplen rec' <= rec_wirelen rec' /\ is_u 32 (rec_wirelen rec') /\
    is_u 64 (rec_ts_ns rec') /\ reader_ok r' /\
    r_records r' = u64 (r_records r + 1).
Proof.
  intros Hok He Hb E. pose proof (pcap_next_spec r rec Hok He Hb) as Hn. rewrite E in Hn.
  destruct (split_record (r_info r) (remaining r)) as [st|[p rest]] eqn:Es; cbn [next_post] in Hn.
  - destruct Hn as (r2 & rec2 & [= Hst _ _] & _). symmetry in Hst.
    apply split_record_not_ok in Es. by destruct (end_status_not_ok st (input_errno r)).
  - destruct Hn as (r2 & rec2 & [= <- <-] & [N1 N2 N3 N4 N5 N6 N7 N8]).
    destruct (split_record_bounds _ _ _ _ Hb Es) as (B1 & B2 & B3 & B4 & B5).
    exists (cp_data p). rewrite N1, N2, N3. unfold PCAP_MAX_CAPLEN.
    by repeat (split; [done || lia|]).
Qed.

(** Errors are sticky: once a call has returned anything but a record, every
    later call returns that same status and changes nothing. *)
Lemma pcap_next_sticky r rec st r' rec' rec2 :
  pcap_next r rec = Some (st, r', rec') -> st <> PCAP_OK ->
  pcap_next r' rec2 = Some (st, r', rec2).
Proof.
  assert (Hs : forall s, r_error s = st -> st <> PCAP_OK ->
                         pcap_next s rec2 = Some (st, s, rec2)).
  { intros s Hs Hst. unfold pcap_next, pstatus_eqb. rewrite Hs.
    by rewrite bool_decide_false by done. }
  intros E Hst. apply Hs; [|done]. revert E. unfold pcap_next.
  destruct (negb (pstatus_eqb (r_error r) PCAP_OK)); [by intros [= <- <- _]|].
  destruct (take_input r _) as [[[p got] r1]|]; [|done]. cbn [mbind option_bind].
  destruct p as [p|].
  - destruct (deref r1 p) as [[obj off]|]; [|done]. cbn [mbind option_bind].
    destruct (pcap_parse_record_header _ _ _ _) as [[st1 rec1]|]; [|done].
    cbn [mbind option_bind].
    destruct (negb (pstatus_eqb st1 PCAP_OK)); [by intros [= <- <- _]|].
    destruct (take_input r1 _) as [[[p2 got2] r2]|]; [|done]. cbn [mbind option_bind].
    destruct p2; [by intros [= <- _ _]|].
    destruct (short_read_status r2 _). by intros [= <- <- _].
  - destruct (short_read_status r1 _). by intros [= <- <- _].
Qed.

(** C36. A capture reads the same from a stream that does not fail as from memory:
    the same status on opening and, when it is accepted, the same packets
    and the same final status. *)
Theorem pcap_file_memory data buf os :
  Forall is_byte data -> Z.of_nat (length data) <= SIZE_MAX ->
  Z.of_nat (length buf) = PCAP_MAX_CAPLEN ->
  exists st1 r1 os1 st2 r2,
    pcap_open_file (inl (File data 0 None false)) (Some buf) os = Some (st1, r1, os1) /\
    pcap_open_mem data (Z.of_nat (length data)) = Some (st2, r2) /\
    st1 = st2 /\
    (st1 = PCAP_OK -> forall fuel rec, (length data < fuel)%nat ->
       exists ps st r1' r2', read_all fuel r1 rec = Some (ps, st, r1') /\
                             read_all fuel r2 rec = Some (ps, st, r2')).
Proof.
  intros Hb Hsz Hbuf.
  assert (Hfp : stream_ok (File data 0 None false)) by (split; [done|]; cbn; split; [lia|done]).
  destruct (open_stream_spec (File data 0 None false) (Some buf) (Resources (os_files os + 1) (os_blocks os)))
    as (st1 & r1 & os1 & E1 & Hiff1 & Hok1 & _).
  { done. } { by intros b [= <-]. }
  destruct (open_mem_spec data Hb Hsz) as (st2 & r2 & E2 & Hiff2 & Hok2 & _).
  exists st1, r1, os1, st2, r2. split; [exact E1|]. split; [done|].
  change (stream_rest _) with data in *. cbn [f_errno] in *.
  assert (Hst : st1 = st2).
  { rewrite (open_mem_status data st2 r2 Hb Hsz E2).
    by apply (open_stream_status (File data 0 None false) buf _ st1 r1 os1 Hfp eq_refl Hbuf) in E1. }
  split; [done|]. intros H1 fuel rec Hfuel.
  destruct (Hok1 H1) as [[V1 R1 O1 E1' N1 I1] _].
  destruct (Hok2 (eq_trans (eq_sym Hst) H1)) as [V2 R2 O2 E2' N2 I2].
  assert (Hinfo : r_info r1 = r_info r2) by (by eapply valid_header_unique).
  assert (Hfuel' : (length (drop 24 data) < fuel)%nat) by (rewrite length_drop; lia).
  destruct (read_all_spec fuel r1 rec) as (r1' & A1 & _);
    [done|done|rewrite R1; by apply Forall_drop|by rewrite R1|].
  destruct (read_all_spec fuel r2 rec) as (r2' & A2 & _);
    [done|done|rewrite R2; by apply Forall_drop|by rewrite R2|].
  rewrite R1, I1, Hinfo in A1. rewrite R2, I2 in A2. eauto 10.
Qed.

(** What the builder writes is accepted, and a reader that accepted it returns it. *)
Lemma pcap_file_valid be nsec snaplen ps :
  is_u 32 snaplen ->
  valid_header (pcap_file be nsec snaplen ps) (File_info be nsec 2 4 snaplen 1) /\
  drop 24 (pcap_file be nsec snaplen ps) = concat (map (put_record be []) ps).
Proof. intros Hs. rewrite pcap_file_eq. by apply global_header_valid. Qed.

Lemma opened_roundtrip be nsec snaplen ps r rec :
  is_u 32 snaplen -> Forall packet_args_ok ps -> opened (pcap_file be nsec snaplen ps) None r ->
  exists r', read_all (S (length (pcap_file be nsec snaplen ps))) r rec =
             Some (map (captured_of nsec) ps, PCAP_EOF, r').
Proof.
  intros Hs Hps [V R O Er N I]. pose proof (pcap_file_bytes be nsec snaplen ps Hps) as Hb.
  destruct (pcap_file_valid be nsec snaplen ps Hs) as [Hv Hd].
  assert (Hi : r_info r = File_info be nsec 2 4 snaplen 1) by (by eapply valid_header_unique).
  destruct (read_all_spec (S (length (pcap_file be nsec snaplen ps))) r rec) as (r' & -> & _);
    [done|done|rewrite R; by apply Forall_drop|rewrite R, length_drop; lia|].
  exists r'. rewrite R, Hd, Hi, I.
  by rewrite (capture_of_records (File_info be nsec 2 4 snaplen 1)).
Qed.

(** C25. What the builder writes, the reader reads back: a capture of any number of
    packets, in either byte order and either timestamp unit, opens and yields
    exactly its packets and then a clean end of file. *)
Theorem pcap_roundtrip be nsec snaplen ps :
  is_u 32 snaplen -> Forall packet_args_ok ps ->
  let file := pcap_file be nsec snaplen ps in
  Z.of_nat (length file) <= SIZE_MAX ->
  exists r, pcap_open_mem file (Z.of_nat (length file)) = Some (PCAP_OK, r) /\
    forall rec, exists r', read_all (S (length file)) r rec =
                           Some (map (captured_of nsec) ps, PCAP_EOF, r').
Proof.
  intros Hs Hps file Hsz. pose proof (pcap_file_bytes be nsec snaplen ps Hps) as Hb.
  destruct (open_mem_spec file Hb Hsz) as (st & r & E & Hiff & Hok & _).
  assert (st = PCAP_OK) as -> by (apply Hiff; eexists; by apply pcap_file_valid).
  exists r. split; [done|]. intros rec. apply opened_roundtrip; auto.
Qed.

(** C34. A capture cut anywhere after its header loses packets only at its end: it
    still opens, the packets read are a prefix of those of the whole capture, and
    unless the reading is the same the file ends cleanly or is reported truncated,
    never as corrupt. *)
Theorem pcap_truncation data k :
  Forall is_byte data -> Z.of_nat (length data) <= SIZE_MAX -> (24 <= k <= length data)%nat ->
  (exists info, valid_header data info) ->
  exists r1 r2, pcap_open_mem (take k data) (Z.of_nat k) = Some (PCAP_OK, r1) /\
    pcap_open_mem data (Z.of_nat (length data)) = Some (PCAP_OK, r2) /\
    forall fuel rec, (length data < fuel)%nat ->
      exists ps1 st1 r1' ps2 st2 r2',
        read_all fuel r1 rec = Some (ps1, st1, r1') /\ read_all fuel r2 rec = Some (ps2, st2, r2') /\
        ps1 `prefix_of` ps2 /\ (is_end st1 = true \/ (ps1 = ps2 /\ st1 = st2)).
Proof.
  intros Hb Hsz Hk Hv. assert (Hbk : Forall is_byte (take k data)) by (by apply Forall_take).
  assert (Hlk : length (take k data) = k) by (rewrite length_take; lia).
  destruct (open_mem_spec (take k data)) as (st1 & r1 & E1 & Hiff1 & Hok1 & _); [done|lia|].
  destruct (open_mem_spec data) as (st2 & r2 & E2 & Hiff2 & Hok2 & _); [done|done|].
  rewrite Hlk in E1.
  assert (st2 = PCAP_OK) as -> by (by apply Hiff2).
  assert (st1 = PCAP_OK) as ->.
  { apply Hiff1. destruct Hv as [info Hv]. exists info.
    rewrite <- valid_header_take, take_take, Nat.min_l by lia. by rewrite valid_header_take. }
  exists r1, r2. split; [done|]. split; [done|]. intros fuel rec Hf.
  destruct (Hok1 eq_refl) as [V1 R1 O1 X1 N1 I1]. destruct (Hok2 eq_refl) as [V2 R2 O2 X2 N2 I2].
  assert (Hi : r_info r1 = r_info r2).
  { apply (valid_header_unique data); [done| |done].
    rewrite <- valid_header_take. rewrite <- valid_header_take, take_take, Nat.min_l in V1 by lia.
    done. }
  destruct (read_all_spec fuel r1 rec) as (r1' & A1 & _);
    [done|done|rewrite R1; by apply Forall_drop|rewrite R1, length_drop; lia|].
  destruct (read_all_spec fuel r2 rec) as (r2' & A2 & _);
    [done|done|rewrite R2; by apply Forall_drop|rewrite R2, length_drop; lia|].
  rewrite A1, A2. eexists _, _, _, _, _, _. split; [done|]. split; [done|].
  rewrite R1, R2, I1, I2, Hi.
  assert (Hes : forall st, end_status st None = st)
    by (intros st; unfold end_status; by destruct (is_end st)).
  rewrite !Hes. rewrite skipn_firstn_comm. unfold capture_of.
  rewrite (pcap_packets_fuel (S (length (take (k - 24) (drop 24 data)))) (S (length (drop 24 data))))
    by (rewrite ?length_take; lia).
  destruct (capture_take (S (length (drop 24 data))) (r_info r2) (drop 24 data) (k - 24))
    as [Hp Hs]; [rewrite length_drop; lia|rewrite length_drop; lia|lia|].
  split; [done|]. destruct Hs as [?|Hs]; [by left|right]. by rewrite Hs.
Qed.

(** A stream that fails is never mistaken for one that ends: reading it to the
    end returns every whole record delivered before the failure, and then
    [PCAP_ERR_IO] wherever a stream that merely ends would report end of file or
    a truncated record. *)
Lemma pcap_io_error r rec e fuel :
  reader_ok r -> r_error r = PCAP_OK -> Forall is_byte (remaining r) ->
  input_errno r = Some e -> (length (remaining r) < fuel)%nat ->
  exists st r', read_all fuel r rec =
      Some ((capture_of (r_info r) (remaining r)).1, st, r') /\
    (is_end (capture_of (r_info r) (remaining r)).2 = true -> st = PCAP_ERR_IO) /\
    is_end st = false /\ r_error r' = st.
Proof.
  intros Hok He Hb Herr Hfuel.
  destruct (read_all_spec fuel r rec Hok He Hb Hfuel) as (r' & -> & E2 & _).
  rewrite Herr in *. eexists _, r'. split; [done|]. unfold end_status in *.
  split; [by intros ->|]. split; [by destruct (is_end _) eqn:?|done].
Qed.
