(* ===== verification/Flow.v ===== *)
(** The flow table and its top-N selection (src/flow.h, src/flow.c).  Definitions
    only; [FlowProps] and [TopN] hold the theorems.

    A pointer to a flow is the index of its slot.  [None] is undefined behaviour
    (an access outside the slots) or a probe that does not end.  The outcome of
    an allocation is an argument of the operation that performs it. *)
From stdpp Require Export sorting.
From S2P Require Export Decode.

(** ** Data *)
Record flow_key := Flow_key {
  fk_teid : Z;
  fk_ip_version : Z;
  fk_proto : Z;
  fk_port_a : Z;
  fk_port_b : Z;
  fk_addr_a : bytes;
  fk_addr_b : bytes
}.

#[export] Instance flow_key_eq_dec : EqDecision flow_key.
Proof. solve_decision. Defined.

Record flow := Flow {
  fl_key : flow_key;
  fl_tcp_flags : Z;
  fl_first_from_b : bool;
  fl_in_use : bool;
  fl_hash : Z;
  fl_packets : Z;
  fl_bytes : Z;
  fl_first_ts_ns : Z;
  fl_last_ts_ns : Z
}.

(** [struct flow_table], and [ft_blocks], which the C structure does not have: how many
    blocks of slots were allocated for the table and not freed. *)
Record flow_table := Flow_table {
  ft_slots : list flow;
  ft_capacity : Z;
  ft_count : Z;
  ft_blocks : Z
}.

#[export] Instance flow_key_eta : Eta flow_key := fun k =>
  Flow_key (k.(fk_teid)) (k.(fk_ip_version)) (k.(fk_proto)) (k.(fk_port_a))
    (k.(fk_port_b)) (k.(fk_addr_a)) (k.(fk_addr_b)).
#[export] Instance set_fk_teid : Setter fk_teid. Proof. solve_setter. Defined.
#[export] Instance set_fk_ip_version : Setter fk_ip_version. Proof. solve_setter. Defined.
#[export] Instance set_fk_proto : Setter fk_proto. Proof. solve_setter. Defined.
#[export] Instance set_fk_port_a : Setter fk_port_a. Proof. solve_setter. Defined.
#[export] Instance set_fk_port_b : Setter fk_port_b. Proof. solve_setter. Defined.
#[export] Instance set_fk_addr_a : Setter fk_addr_a. Proof. solve_setter. Defined.
#[export] Instance set_fk_addr_b : Setter fk_addr_b. Proof. solve_setter. Defined.

#[export] Instance flow_eta : Eta flow := fun f =>
  Flow (f.(fl_key)) (f.(fl_tcp_flags)) (f.(fl_first_from_b)) (f.(fl_in_use)) (f.(fl_hash))
    (f.(fl_packets)) (f.(fl_bytes)) (f.(fl_first_ts_ns)) (f.(fl_last_ts_ns)).
#[export] Instance set_fl_key : Setter fl_key. Proof. solve_setter. Defined.
#[export] Instance set_fl_tcp_flags : Setter fl_tcp_flags. Proof. solve_setter. Defined.
#[export] Instance set_fl_first_from_b : Setter fl_first_from_b. Proof. solve_setter. Defined.
#[export] Instance set_fl_in_use : Setter fl_in_use. Proof. solve_setter. Defined.
#[export] Instance set_fl_hash : Setter fl_hash. Proof. solve_setter. Defined.
#[export] Instance set_fl_packets : Setter fl_packets. Proof. solve_setter. Defined.
#[export] Instance set_fl_bytes : Setter fl_bytes. Proof. solve_setter. Defined.
#[export] Instance set_fl_first_ts_ns : Setter fl_first_ts_ns. Proof. solve_setter. Defined.
#[export] Instance set_fl_last_ts_ns : Setter fl_last_ts_ns. Proof. solve_setter. Defined.

#[export] Instance flow_table_eta : Eta flow_table := fun t =>
  Flow_table (t.(ft_slots)) (t.(ft_capacity)) (t.(ft_count)) (t.(ft_blocks)).
#[export] Instance set_ft_slots : Setter ft_slots. Proof. solve_setter. Defined.
#[export] Instance set_ft_capacity : Setter ft_capacity. Proof. solve_setter. Defined.
#[export] Instance set_ft_count : Setter ft_count. Proof. solve_setter. Defined.
#[export] Instance set_ft_blocks : Setter ft_blocks. Proof. solve_setter. Defined.

(** [memset(key, 0, sizeof *key)] and a zeroed slot. *)
Definition flow_key_zero : flow_key :=
  Flow_key 0 0 0 0 0 (replicate 16 0) (replicate 16 0).
Definition flow_zero : flow := Flow flow_key_zero 0 false false 0 0 0 0 0.

(** ** Keys *)
Definition MIN_CAPACITY := 16.
Definition LOAD_NUM := 7.
Definition LOAD_DEN := 10.
(** [sizeof(struct flow)], documented in flow.h. *)
Definition SIZEOF_FLOW := 88.

Definition key_hash (k : flow_key) : Z :=
  let head :=
    [fk_ip_version k; fk_proto k;
     u8 (Z.shiftr (fk_port_a k) 8); u8 (fk_port_a k);
     u8 (Z.shiftr (fk_port_b k) 8); u8 (fk_port_b k);
     u8 (Z.shiftr (fk_teid k) 24); u8 (Z.shiftr (fk_teid k) 16);
     u8 (Z.shiftr (fk_teid k) 8); u8 (fk_teid k)] in
  let h := fnv1a FNV64_OFFSET head in
  let h := fnv1a h (fk_addr_a k) in
  fnv1a h (fk_addr_b k).

Definition key_equal (a b : flow_key) : bool :=
  (fk_teid a =? fk_teid b) &&
  (fk_ip_version a =? fk_ip_version b) && (fk_proto a =? fk_proto b) &&
  (fk_port_a a =? fk_port_a b) && (fk_port_b a =? fk_port_b b) &&
  (memcmp (fk_addr_a a) (fk_addr_a b) =? 0) &&
  (memcmp (fk_addr_b a) (fk_addr_b b) =? 0).

(** [x < y ? -1 : 1] *)
Definition below (x y : Z) : Z := if x <? y then -1 else 1.

Definition key_cmp (a b : flow_key) : Z :=
  if negb (fk_teid a =? fk_teid b) then below (fk_teid a) (fk_teid b)
  else if negb (fk_ip_version a =? fk_ip_version b)
  then below (fk_ip_version a) (fk_ip_version b)
  else if negb (fk_proto a =? fk_proto b) then below (fk_proto a) (fk_proto b)
  else let c := memcmp (fk_addr_a a) (fk_addr_a b) in
  if negb (c =? 0) then c
  else if negb (fk_port_a a =? fk_port_a b) then below (fk_port_a a) (fk_port_a b)
  else let c := memcmp (fk_addr_b a) (fk_addr_b b) in
  if negb (c =? 0) then c
  else if negb (fk_port_b a =? fk_port_b b) then below (fk_port_b a) (fk_port_b b)
  else 0.

(** The key and [*reversed], or [None] for a packet without an IP layer. *)
Definition flow_key_from_packet (pi : packet_info) : option (flow_key * bool) :=
  if negb (pi_has_l3 pi) then None else
  let key := flow_key_zero <| fk_ip_version := pi_ip_version pi |>
                           <| fk_proto := pi_ip_proto pi |> in
  let cmp := memcmp (pi_src_addr pi) (pi_dst_addr pi) in
  let cmp := if cmp =? 0
             then Z.b2z (pi_src_port pi >? pi_dst_port pi) -
                  Z.b2z (pi_src_port pi <? pi_dst_port pi)
             else cmp in
  let reversed := cmp >? 0 in
  let key :=
    if negb reversed then
      key <| fk_addr_a := overwrite (fk_addr_a key) (pi_src_addr pi) |>
          <| fk_addr_b := overwrite (fk_addr_b key) (pi_dst_addr pi) |>
          <| fk_port_a := pi_src_port pi |> <| fk_port_b := pi_dst_port pi |>
    else
      key <| fk_addr_a := overwrite (fk_addr_a key) (pi_dst_addr pi) |>
          <| fk_addr_b := overwrite (fk_addr_b key) (pi_src_addr pi) |>
          <| fk_port_a := pi_dst_port pi |> <| fk_port_b := pi_src_port pi |> in
  Some (key, reversed).

Definition tunnel_key_from_packet (pi : packet_info) : option flow_key :=
  if negb (pi_is_gtpu pi) || negb (pi_gtp_v1u pi) then None else
  let key := flow_key_zero <| fk_teid := pi_teid pi |>
                           <| fk_ip_version := pi_ip_version pi |>
                           <| fk_proto := pi_ip_proto pi |> in
  Some (key <| fk_addr_a := overwrite (fk_addr_a key) (pi_src_addr pi) |>
            <| fk_addr_b := overwrite (fk_addr_b key) (pi_dst_addr pi) |>).

(** ** The table *)

(** [calloc(cap, sizeof(struct flow))]: zeroed slots, or NULL. *)
Definition calloc_slots (cap : Z) (alloc : bool) : option (list flow) :=
  if alloc then Some (replicate (Z.to_nat cap) flow_zero) else None.

(** [while (cap < hint && cap <= SIZE_MAX / 2 / sizeof(struct flow)) cap *= 2;] *)
Fixpoint round_up (fuel : nat) (cap hint : Z) : option Z :=
  if (cap <? hint) && (cap <=? SIZE_MAX / 2 / SIZEOF_FLOW) then
    match fuel with O => None | S fuel => round_up fuel (size_wrap (cap * 2)) hint end
  else Some cap.

(** The returned code and the table. *)
Definition flow_table_init (capacity_hint : Z) (alloc : bool) : option (Z * flow_table) :=
  cap ← round_up 64 MIN_CAPACITY capacity_hint;
  match calloc_slots cap alloc with
  | None => Some (-1, Flow_table [] 0 0 0)
  | Some slots => Some (0, Flow_table slots cap 0 1)
  end.

(** [free(slots)], of NULL or of a block: the blocks left of [blocks]. *)
Definition free_slots (slots : list flow) (blocks : Z) : Z :=
  match slots with [] => blocks | _ => blocks - 1 end.

Definition flow_table_free (t : flow_table) : flow_table :=
  Flow_table [] 0 0 (free_slots (ft_slots t) (ft_blocks t)).

Definition slot_at (slots : list flow) (i : Z) : option flow :=
  if decide (0 <= i) then slots !! Z.to_nat i else None.

(** [for (; slots[i].in_use; i = (i + 1) & mask) if (stop(slots[i])) break;]
    The index it ends at, and whether it ended at a matching slot. *)
Fixpoint probe (fuel : nat) (slots : list flow) (mask : Z) (stop : flow -> bool) (i : Z)
  : option (Z * bool) :=
  match fuel with
  | O => None
  | S fuel =>
    f ← slot_at slots i;
    if negb (fl_in_use f) then Some (i, false)
    else if stop f then Some (i, true)
    else probe fuel slots mask stop (Z.land (size_wrap (i + 1)) mask)
  end.

Definition place (slots : list flow) (mask : Z) (f : flow) : option (list flow) :=
  '(i, _) ← probe (S (length slots)) slots mask (fun _ => false) (Z.land (fl_hash f) mask);
  Some (<[Z.to_nat i := f]> slots).

(** The loop of [grow] over the old slots. *)
Fixpoint place_all (old slots : list flow) (mask : Z) : option (list flow) :=
  match old with
  | [] => Some slots
  | f :: old =>
    slots ← (if fl_in_use f then place slots mask f else Some slots);
    place_all old slots mask
  end.

Definition grow (t : flow_table) (alloc : bool) : option (Z * flow_table) :=
  if ft_capacity t >? SIZE_MAX / 2 / SIZEOF_FLOW then Some (-1, t) else
  let new_cap := size_wrap (ft_capacity t * 2) in
  match calloc_slots new_cap alloc with
  | None => Some (-1, t)
  | Some bigger =>
    bigger ← place_all (ft_slots t) bigger (size_wrap (new_cap - 1));
    Some (0, t <| ft_blocks := free_slots (ft_slots t) (ft_blocks t + 1) |>
               <| ft_slots := bigger |> <| ft_capacity := new_cap |>)
  end.

(** The slot of [key], or [None] for NULL. *)
Definition flow_table_find (t : flow_table) (key : flow_key) : option (option Z) :=
  if ft_capacity t =? 0 then Some None else
  let mask := size_wrap (ft_capacity t - 1) in
  '(i, found) ← probe (S (length (ft_slots t))) (ft_slots t) mask
                  (fun f => key_equal (fl_key f) key) (Z.land (key_hash key) mask);
  Some (if (found : bool) then Some i else None).

(** The slot of [key] (or [None] for NULL), [*inserted], and the table. *)
Definition flow_table_find_or_insert (t : flow_table) (key : flow_key) (alloc : bool)
  : option (option Z * bool * flow_table) :=
  let h := key_hash key in
  if ft_capacity t =? 0 then Some (None, false, t) else
  '(rc, t) ← (if size_wrap (size_wrap (ft_count t + 1) * LOAD_DEN) >?
                 size_wrap (ft_capacity t * LOAD_NUM)
              then grow t alloc else Some (0, t));
  if negb (rc =? 0) then Some (None, false, t) else
  let mask := size_wrap (ft_capacity t - 1) in
  '(i, found) ← probe (S (length (ft_slots t))) (ft_slots t) mask
                  (fun f => (fl_hash f =? h) && key_equal (fl_key f) key) (Z.land h mask);
  if (found : bool) then Some (Some i, false, t) else
  let f := flow_zero <| fl_key := key |> <| fl_hash := h |> <| fl_in_use := true |> in
  Some (Some i, true,
        t <| ft_slots := <[Z.to_nat i := f]> (ft_slots t) |>
          <| ft_count := size_wrap (ft_count t + 1) |>).

(** What [account] does to the flow once it has its slot. *)
Definition account_flow (f : flow) (inserted reversed : bool) (tcp_flags wire_len ts_ns : Z) : flow :=
  let f := if inserted
           then f <| fl_first_ts_ns := ts_ns |> <| fl_last_ts_ns := ts_ns |>
                  <| fl_first_from_b := reversed |>
           else f in
  let f := if ts_ns <? fl_first_ts_ns f
           then f <| fl_first_ts_ns := ts_ns |> <| fl_first_from_b := reversed |> else f in
  let f := if ts_ns >? fl_last_ts_ns f then f <| fl_last_ts_ns := ts_ns |> else f in
  f <| fl_packets := u64 (fl_packets f + 1) |>
    <| fl_bytes := u64 (fl_bytes f + wire_len) |>
    <| fl_tcp_flags := u8 (Z.lor (fl_tcp_flags f) tcp_flags) |>.

Definition account (t : flow_table) (key : flow_key) (reversed : bool)
           (tcp_flags wire_len ts_ns : Z) (alloc : bool) : option (Z * flow_table) :=
  '(p, inserted, t) ← flow_table_find_or_insert t key alloc;
  match p with
  | None => Some (-1, t)
  | Some i =>
    f ← slot_at (ft_slots t) i;
    Some (0, t <| ft_slots := <[Z.to_nat i :=
      account_flow f inserted reversed tcp_flags wire_len ts_ns]> (ft_slots t) |>)
  end.

Definition flow_table_add_packet (t : flow_table) (pi : packet_info) (wire_len ts_ns : Z)
           (alloc : bool) : option (Z * flow_table) :=
  match flow_key_from_packet pi with
  | None => Some (0, t)
  | Some (key, reversed) =>
    let flags := if (pi_ip_proto pi =? IPPROTO_NUM_TCP) && pi_has_l4 pi
                 then pi_tcp_flags pi else 0 in
    account t key reversed flags wire_len ts_ns alloc
  end.

Definition flow_table_add_tunnel (t : flow_table) (pi : packet_info) (wire_len ts_ns : Z)
           (alloc : bool) : option (Z * flow_table) :=
  match tunnel_key_from_packet pi with
  | None => Some (0, t)
  | Some key => account t key false 0 wire_len ts_ns alloc
  end.

(** The next occupied slot at or after [*pos], and the new [*pos]. *)
Fixpoint next_from (fuel : nat) (t : flow_table) (pos : Z) : option (option flow * Z) :=
  if pos <? ft_capacity t then
    match fuel with
    | O => None
    | S fuel =>
      f ← slot_at (ft_slots t) pos;
      if fl_in_use f then Some (Some f, size_wrap (pos + 1))
      else next_from fuel t (size_wrap (pos + 1))
    end
  else Some (None, pos).

Definition flow_table_next (t : flow_table) (pos : Z) : option (option flow * Z) :=
  next_from (S (length (ft_slots t))) t pos.

(** [while ((f = flow_table_next(t, &pos)) != NULL)]: every flow it visits, in
    order.  The loops of [flow_table_distinct_teids] and [flow_table_top_n] fold
    over it. *)
Fixpoint iter_from (fuel : nat) (t : flow_table) (pos : Z) : option (list flow) :=
  match fuel with
  | O => None
  | S fuel =>
    '(f, pos) ← flow_table_next t pos;
    match f with
    | None => Some []
    | Some f => fs ← iter_from fuel t pos; Some (f :: fs)
    end
  end.

Definition flow_iter (t : flow_table) : option (list flow) :=
  iter_from (S (length (ft_slots t))) t 0.

(** ** [qsort]

    What the C standard promises of [qsort]: a permutation of the array, sorted
    when the comparison is consistent on its elements.  The order of elements
    that compare equal is unspecified. *)
Definition consistent {A} (cmp : A -> A -> Z) (l : list A) : Prop :=
  (forall x y, x ∈ l -> y ∈ l -> cmp x y <= 0 \/ cmp y x <= 0) /\
  (forall x y z, x ∈ l -> y ∈ l -> z ∈ l -> cmp x y <= 0 -> cmp y z <= 0 -> cmp x z <= 0).

Class QSort := {
  qsort : forall {A}, (A -> A -> Z) -> list A -> list A;
  qsort_perm : forall {A} (cmp : A -> A -> Z) (l : list A), qsort cmp l ≡ₚ l;
  qsort_sorted : forall {A} (cmp : A -> A -> Z) (l : list A),
    consistent cmp l -> StronglySorted (fun x y => cmp x y <= 0) (qsort cmp l)
}.

(** ** Distinct TEIDs *)
Definition teid_cmp (a b : Z) : Z := Z.b2z (a >? b) - Z.b2z (a <? b).

(** The counting loop over the sorted array: [prev] is [teids[i - 1]]. *)
Fixpoint count_runs (prev : option Z) (teids : list Z) : Z :=
  match teids with
  | [] => 0
  | x :: teids =>
    (if bool_decide (prev = Some x) then 0 else 1) + count_runs (Some x) teids
  end.

(** The returned code, [*count] and the resources. *)
Definition flow_table_distinct_teids `{QSort} (t : flow_table) (alloc : bool) (os : resources)
  : option (Z * Z * resources) :=
  if ft_count t =? 0 then Some (0, 0, os) else
  if negb alloc then Some (-1, 0, os) else
  let os := malloc os in
  fs ← flow_iter t;
  let teids := map (fun f => fk_teid (fl_key f)) fs in
  (** The array holds [t->count] elements. *)
  if Z.of_nat (length teids) >? ft_count t then None else
  let count := size_wrap (count_runs None (qsort teid_cmp teids)) in
  Some (0, count, free os).

(** ** Top N *)
Definition rank_cmp (a b : flow) : Z :=
  if negb (fl_bytes a =? fl_bytes b) then (if fl_bytes a >? fl_bytes b then -1 else 1)
  else if negb (fl_packets a =? fl_packets b)
  then (if fl_packets a >? fl_packets b then -1 else 1)
  else if negb (fl_first_ts_ns a =? fl_first_ts_ns b)
  then below (fl_first_ts_ns a) (fl_first_ts_ns b)
  else key_cmp (fl_key a) (fl_key b).

(** [tmp = heap[i]; heap[i] = heap[j]; heap[j] = tmp;] *)
Definition swap (heap : list flow) (i j : nat) : option (list flow) :=
  a ← heap !! i; b ← heap !! j; Some (<[j := a]> (<[i := b]> heap)).

(** [low] after the two comparisons of [sift_down]: the lowest ranked of [i] and
    its children [l] and [r]. *)
Definition lowest_at (heap : list flow) (i : nat) : option nat :=
  let n := length heap in
  let l := (2 * i + 1)%nat in
  let r := (l + 1)%nat in
  let low := i in
  low ← (if bool_decide (l < n)%nat then
           a ← heap !! l; b ← heap !! low; Some (if rank_cmp a b >? 0 then l else low)
         else Some low);
  if bool_decide (r < n)%nat then
    a ← heap !! r; b ← heap !! low; Some (if rank_cmp a b >? 0 then r else low)
  else Some low.

Fixpoint sift_down (fuel : nat) (heap : list flow) (i : nat) : option (list flow) :=
  match fuel with
  | O => None
  | S fuel =>
    low ← lowest_at heap i;
    if bool_decide (low = i) then Some heap else
    heap ← swap heap i low;
    sift_down fuel heap low
  end.

Fixpoint sift_up (fuel : nat) (heap : list flow) (i : nat) : option (list flow) :=
  if bool_decide (0 < i)%nat then
    match fuel with
    | O => None
    | S fuel =>
      let parent := ((i - 1) / 2)%nat in
      a ← heap !! i; b ← heap !! parent;
      if rank_cmp a b <=? 0 then Some heap else
      heap ← swap heap i parent;
      sift_up fuel heap parent
    end
  else Some heap.

(** The body of the loop of [flow_table_top_n]; [out] holds the [kept] flows. *)
Definition offer (n : nat) (out : list flow) (f : flow) : option (list flow) :=
  let kept := length out in
  if bool_decide (kept < n)%nat then sift_up kept (out ++ [f]) kept
  else
    root ← out !! 0%nat;
    if rank_cmp f root <? 0 then sift_down (S kept) (<[0%nat := f]> out) 0 else Some out.

Fixpoint offer_all (n : nat) (out fs : list flow) : option (list flow) :=
  match fs with
  | [] => Some out
  | f :: fs => out ← offer n out f; offer_all n out fs
  end.

(** The filled part of [out]; its length is the number returned. *)
Definition flow_table_top_n `{QSort} (t : flow_table) (n : nat) : option (list flow) :=
  if bool_decide (n = 0%nat) then Some [] else
  fs ← flow_iter t;
  out ← offer_all n [] fs;
  Some (qsort rank_cmp out).
