(* ===== verification/FlowProps.v ===== *)
(** The flow table refines a finite map: the probe-chain invariant, and what each
    operation does to the map from keys to flows. *)
From stdpp Require Export gmap.
From S2P Require Export Flow.
From stdpp Require Export list.
#[global] Open Scope Z_scope.

(** ** Keys *)
Definition key_wf (k : flow_key) : Prop :=
  length (fk_addr_a k) = 16%nat /\ length (fk_addr_b k) = 16%nat.

#[export] Instance flow_key_countable : Countable flow_key.
Proof.
  refine (inj_countable'
    (fun k => (fk_teid k, fk_ip_version k, fk_proto k, fk_port_a k, fk_port_b k,
               fk_addr_a k, fk_addr_b k))
    (fun '(a, b, c, d, e, f, g) => Flow_key a b c d e f g) _).
  by intros [].
Defined.

(** Field-by-field equality is equality: no byte of the key is left out. *)
Lemma key_equal_eq a b : key_wf a -> key_wf b -> key_equal a b = true <-> a = b.
Proof.
  intros [Ha1 Ha2] [Hb1 Hb2]. unfold key_equal.
  rewrite !andb_true_iff, !Z.eqb_eq, !memcmp_eq by congruence.
  destruct a, b. simpl. split; [by intros [[[[[[-> ->] ->] ->] ->] ->] ->]|].
  by intros [= -> -> -> -> -> -> ->].
Qed.

Lemma key_hash_is_u k : is_u 64 (key_hash k).
Proof. unfold key_hash. auto with ints. Qed.

(** ** Slots *)
Definition in_use (f : flow) : Prop := fl_in_use f = true.

(** The occupied slots, in table order. *)
Definition entries (slots : list flow) : list flow := filter in_use slots.

Definition pow2 (cap : Z) : Prop := exists k, 4 <= k <= 57 /\ cap = 2 ^ k.

Lemma pow2_bounds cap : pow2 cap -> 16 <= cap <= 2 ^ 57.
Proof.
  intros (k & Hk & ->). split.
  - change 16 with (2 ^ 4). apply Z.pow_le_mono_r; lia.
  - apply Z.pow_le_mono_r; lia.
Qed.

(** [x & (capacity - 1)] is [x % capacity]. *)
Lemma land_mask cap x : pow2 cap -> Z.land x (size_wrap (cap - 1)) = x mod cap.
Proof.
  intros Hcap. pose proof (pow2_bounds _ Hcap). rewrite wrap_small by (unfold is_u; lia).
  destruct Hcap as (k & Hk & ->).
  replace (2 ^ k - 1) with (Z.ones k) by (rewrite Z.ones_equiv; lia).
  apply Z.land_ones. lia.
Qed.

Lemma slot_at_lookup slots i f :
  slot_at slots i = Some f <-> 0 <= i /\ slots !! Z.to_nat i = Some f.
Proof. unfold slot_at. case_decide; naive_solver. Qed.

Lemma slot_at_Some slots i :
  0 <= i < Z.of_nat (length slots) -> exists f, slot_at slots i = Some f.
Proof.
  intros Hi. destruct (lookup_lt_is_Some_2 slots (Z.to_nat i)) as [f Hf]; [lia|].
  exists f. apply slot_at_lookup. split; [lia|done].
Qed.

Definition occupied (slots : list flow) (i : Z) : Prop :=
  exists f, slot_at slots i = Some f /\ in_use f.

(** ** Probing *)
Section Probe.
Context (slots : list flow) (cap : Z) (Hcap : pow2 cap).
Context (Hlen : Z.of_nat (length slots) = cap).

Lemma slot_mod i : exists f, slot_at slots (i mod cap) = Some f.
Proof.
  pose proof (pow2_bounds _ Hcap). apply slot_at_Some. rewrite Hlen.
  apply Z.mod_pos_bound. lia.
Qed.

(** Where a probe from [i] ends: after [d] occupied slots that do not match, at
    a slot that matches or is free. *)
Definition probe_end (stop : flow -> bool) (i j : Z) (found : bool) : Prop :=
  exists d f, 0 <= d < cap /\ j = (i + d) mod cap /\ slot_at slots j = Some f /\
    (forall e, 0 <= e < d -> exists g, slot_at slots ((i + e) mod cap) = Some g /\
                                   in_use g /\ stop g = false) /\
    (if found then in_use f /\ stop f = true else ~ in_use f).

Lemma probe_steps stop i (d : nat) fuel :
  Z.of_nat d < cap -> (d < fuel)%nat -> ~ occupied slots ((i + Z.of_nat d) mod cap) ->
  exists j found, probe fuel slots (size_wrap (cap - 1)) stop (i mod cap) = Some (j, found) /\
                  probe_end stop i j found.
Proof.
  pose proof (pow2_bounds _ Hcap) as Hb.
  revert i fuel. induction d as [|d IH]; intros i [|fuel] Hd Hf Hfree; try lia;
    cbn [probe]; destruct (slot_mod i) as [f Ef]; rewrite Ef; cbn [mbind option_bind].
  - destruct (fl_in_use f) eqn:Eu; cbn [negb].
    { exfalso. apply Hfree. exists f. by rewrite Z.add_0_r. }
    exists (i mod cap), false. split; [done|]. exists 0, f.
    rewrite Z.add_0_r. unfold in_use. rewrite Eu. repeat split; try done; lia.
  - destruct (fl_in_use f) eqn:Eu; cbn [negb].
    2: { exists (i mod cap), false. split; [done|]. exists 0, f.
         rewrite Z.add_0_r. unfold in_use. rewrite Eu. repeat split; try done; lia. }
    destruct (stop f) eqn:Es.
    { exists (i mod cap), true. split; [done|]. exists 0, f.
      rewrite Z.add_0_r. repeat split; try done; lia. }
    pose proof (Z.mod_pos_bound i cap ltac:(lia)) as Hi.
    rewrite land_mask by done. rewrite (wrap_small 64 (i mod cap + 1)) by (unfold is_u; lia).
    rewrite Zplus_mod_idemp_l.
    destruct (IH (i + 1) fuel) as (j & found & E & d' & g & Hd' & -> & Eg & Hpath & Hend);
      [lia|lia|by replace (i + 1 + Z.of_nat d) with (i + Z.of_nat (S d)) by lia|].
    exists ((i + 1 + d') mod cap), found. split; [done|].
    destruct (decide (d' + 1 < cap)) as [Hlt|Hge].
    + exists (d' + 1), g. split; [lia|]. split; [f_equal; lia|]. split; [done|].
      split; [|done]. intros e He. destruct (decide (e = 0)) as [->|].
      * exists f. by rewrite Z.add_0_r.
      * destruct (Hpath (e - 1)) as (g' & Eg' & ?); [lia|]. exists g'.
        by replace (i + 1 + (e - 1)) with (i + e) in Eg' by lia.
    + exfalso. apply Hfree. destruct (Hpath (Z.of_nat d)) as (g' & Eg' & ? & _); [lia|].
      exists g'. by replace (i + 1 + Z.of_nat d) with (i + Z.of_nat (S d)) in Eg' by lia.
Qed.

(** A table with a free slot has no endless probe. *)
Lemma probe_spec stop i :
  (exists j, 0 <= j < cap /\ ~ occupied slots j) ->
  exists j found,
    probe (S (length slots)) slots (size_wrap (cap - 1)) stop (i mod cap) = Some (j, found) /\
    probe_end stop i j found.
Proof.
  intros (j & Hj & Hfree). pose proof (pow2_bounds _ Hcap).
  pose proof (Z.mod_pos_bound (j - i) cap ltac:(lia)) as Hd.
  apply (probe_steps stop i (Z.to_nat ((j - i) mod cap))); [lia|lia|].
  rewrite Z2Nat.id, Zplus_mod_idemp_r by lia.
  replace (i + (j - i)) with j by lia. by rewrite Z.mod_small.
Qed.
End Probe.

(** ** The invariant of the slots *)

(** Every slot from the home of [f] up to slot [i] is occupied, so a probe for
    [f]'s key reaches it. *)
Definition reachable (slots : list flow) (cap : Z) (f : flow) (i : Z) : Prop :=
  exists d, 0 <= d < cap /\ i = (fl_hash f + d) mod cap /\
            forall e, 0 <= e < d -> occupied slots ((fl_hash f + e) mod cap).

Record slots_ok (cap : Z) (slots : list flow) : Prop := {
  so_cap : pow2 cap;
  so_len : Z.of_nat (length slots) = cap;
  so_flow : forall f, f ∈ slots -> in_use f ->
            key_wf (fl_key f) /\ fl_hash f = key_hash (fl_key f);
  so_chain : forall i f, slot_at slots i = Some f -> in_use f -> reachable slots cap f i;
  so_keys : NoDup (map fl_key (entries slots))
}.

Lemma entries_split slots n g :
  slots !! n = Some g ->
  entries slots = entries (take n slots) ++ (if decide (in_use g) then [g] else []) ++
                  entries (drop (S n) slots).
Proof.
  intros Hg. rewrite <- (take_drop_middle slots n g Hg) at 1.
  unfold entries. rewrite list.filter_app, list.filter_cons. by case_decide.
Qed.

Lemma entries_insert slots n g f :
  slots !! n = Some g ->
  entries (<[n := f]> slots) =
  entries (take n slots) ++ (if decide (in_use f) then [f] else []) ++ entries (drop (S n) slots).
Proof.
  intros Hg. apply lookup_lt_Some in Hg as Hl.
  rewrite (entries_split _ n f) by (by apply list_lookup_insert_eq).
  by rewrite take_insert_ge, drop_insert_lt by lia.
Qed.

Lemma entries_insert_free slots n g f :
  slots !! n = Some g -> ~ in_use g -> in_use f ->
  entries (<[n := f]> slots) ≡ₚ f :: entries slots.
Proof.
  intros Hg Hng Hf. rewrite (entries_insert _ _ g) by done. rewrite (entries_split slots n g) by done.
  rewrite decide_True, decide_False by done. simpl. by rewrite <- Permutation_middle.
Qed.

Lemma entries_insert_used slots n g f :
  slots !! n = Some g -> in_use g -> in_use f ->
  exists a b, entries slots = a ++ g :: b /\ entries (<[n := f]> slots) = a ++ f :: b.
Proof.
  intros Hg Hig Hf. exists (entries (take n slots)), (entries (drop (S n) slots)).
  rewrite (entries_insert _ _ g), (entries_split slots n g) by done.
  by rewrite !decide_True by done.
Qed.

Lemma entries_elem slots f : f ∈ entries slots <-> f ∈ slots /\ in_use f.
Proof. unfold entries. rewrite list_elem_of_filter. tauto. Qed.

Lemma slot_at_insert slots n f i :
  (n < length slots)%nat ->
  slot_at (<[n := f]> slots) i = if decide (i = Z.of_nat n) then Some f else slot_at slots i.
Proof.
  intros Hn. unfold slot_at. case_decide as Hi; case_decide as He; try done; try lia.
  - subst. by rewrite Nat2Z.id, list_lookup_insert_eq.
  - rewrite list_lookup_insert_ne by lia. done.
Qed.

Lemma occupied_insert slots n f i :
  (n < length slots)%nat -> in_use f -> occupied slots i -> occupied (<[n := f]> slots) i.
Proof.
  intros Hn Hf (g & Hg & Hu). unfold occupied. rewrite slot_at_insert by done.
  case_decide; eauto.
Qed.

Lemma reachable_insert slots cap n f g i :
  (n < length slots)%nat -> in_use f -> reachable slots cap g i ->
  reachable (<[n := f]> slots) cap g i.
Proof.
  intros Hn Hf (d & Hd & Hi & Hp). exists d. repeat split; try done; try lia.
  intros e He. apply occupied_insert; auto.
Qed.

(** Writing a flow into a slot where its key may go keeps the invariant. *)
Lemma slots_ok_insert cap slots n f :
  slots_ok cap slots -> (n < length slots)%nat -> in_use f -> key_wf (fl_key f) ->
  fl_hash f = key_hash (fl_key f) -> reachable slots cap f (Z.of_nat n) ->
  NoDup (map fl_key (entries (<[n := f]> slots))) -> slots_ok cap (<[n := f]> slots).
Proof.
  intros [Hcap Hlen Hfl Hch Hk] Hn Hf Hwf Hh Hr Hnd. split; try done.
  - by rewrite length_insert.
  - intros g Hg Hu. apply list_elem_of_lookup in Hg as [m Hm].
    destruct (decide (m = n)) as [->|Hne].
    + rewrite list_lookup_insert_eq in Hm by done. by injection Hm as <-.
    + rewrite list_lookup_insert_ne in Hm by done. apply Hfl; [|done].
      by eapply list_elem_of_lookup_2.
  - intros i g. rewrite slot_at_insert by done. case_decide as He.
    + intros [= <-] _. subst. by apply reachable_insert.
    + intros Hg Hu. by apply reachable_insert, Hch.
Qed.

(** A key that is in no visited slot is nowhere in the table. *)
Lemma probe_absent cap slots key stop j :
  slots_ok cap slots ->
  probe_end slots cap stop (key_hash key) j false ->
  (forall f, in_use f -> key_wf (fl_key f) -> fl_hash f = key_hash (fl_key f) ->
             fl_key f = key -> stop f = true) ->
  forall f, f ∈ entries slots -> fl_key f <> key.
Proof.
  intros Hok (d & g & Hd & -> & Eg & Hpath & Hng) Hstop f Hf Hkey. cbn [in_use] in Hng.
  apply entries_elem in Hf as [Hf Hu].
  destruct (so_flow _ _ Hok f Hf Hu) as [Hwf Hh].
  apply list_elem_of_lookup in Hf as [m Hm].
  assert (Hm' : slot_at slots (Z.of_nat m) = Some f).
  { apply slot_at_lookup. rewrite Nat2Z.id. split; [lia|done]. }
  destruct (so_chain _ _ Hok _ _ Hm' Hu) as (d' & Hd' & Hi & Hp).
  rewrite Hh, Hkey in Hi, Hp.
  destruct (Z.lt_trichotomy d' d) as [Hlt|[->|Hgt]].
  - destruct (Hpath d') as (g' & Eg' & Hu' & Hst); [lia|].
    rewrite <- Hi, Hm' in Eg'. injection Eg' as <-.
    rewrite (Hstop f) in Hst; done.
  - rewrite Hi in Hm'. rewrite Hm' in Eg. by injection Eg as <-.
  - destruct (Hp d) as (g' & Eg' & Hu'); [lia|]. rewrite Eg in Eg'. by injection Eg' as <-.
Qed.

(** ** A fresh table, and growing *)

Lemma entries_zero n : entries (replicate n flow_zero) = [].
Proof.
  induction n as [|n IH]; [done|]. cbn [replicate]. unfold entries.
  by rewrite list.filter_cons_False by (by unfold in_use).
Qed.

Lemma slots_ok_zero cap : pow2 cap -> slots_ok cap (replicate (Z.to_nat cap) flow_zero).
Proof.
  intros Hcap. pose proof (pow2_bounds _ Hcap).
  assert (Hz : forall f, f ∈ replicate (Z.to_nat cap) flow_zero -> ~ in_use f)
    by (intros f Hf; apply elem_of_replicate in Hf as [-> _]; by unfold in_use).
  split; try done.
  - rewrite length_replicate. lia.
  - intros f Hf Hu. by apply Hz in Hf.
  - intros i f Hf Hu. apply slot_at_lookup in Hf as [_ Hf].
    apply list_elem_of_lookup_2 in Hf. by apply Hz in Hf.
  - rewrite entries_zero. constructor.
Qed.

(** A table that is not full has a free slot. *)
Lemma free_slot cap slots :
  Z.of_nat (length slots) = cap -> Z.of_nat (length (entries slots)) < cap ->
  exists j, 0 <= j < cap /\ ~ occupied slots j.
Proof.
  intros Hlen Hlt.
  assert (exists n f, slots !! n = Some f /\ ~ in_use f) as (n & f & Hn & Hf).
  { subst cap. clear -Hlt. induction slots as [|f slots IH]; [simpl in Hlt; lia|].
    unfold entries in Hlt. rewrite list.filter_cons in Hlt. case_decide as Hf.
    - destruct IH as (n & g & ? & ?); [simpl in Hlt; unfold entries; lia|]. by exists (S n), g.
    - by exists 0%nat, f. }
  exists (Z.of_nat n). split; [apply lookup_lt_Some in Hn; lia|].
  intros (g & Hg & Hu). apply slot_at_lookup in Hg as [_ Hg]. rewrite Nat2Z.id in Hg. congruence.
Qed.

Lemma probe_end_reachable slots cap stop f i found :
  probe_end slots cap stop (fl_hash f) i found -> 0 < cap -> Z.of_nat (length slots) = cap ->
  reachable slots cap f i /\ (Z.to_nat i < length slots)%nat /\ 0 <= i.
Proof.
  intros (d & g & Hd & -> & Eg & Hp & _) Hc Hl.
  pose proof (Z.mod_pos_bound (fl_hash f + d) cap Hc). split; [|lia].
  exists d. split; [done|]. split; [done|]. intros e He.
  destruct (Hp e He) as (g' & ? & ? & _). by exists g'.
Qed.

Lemma place_spec cap slots f :
  slots_ok cap slots -> Z.of_nat (length (entries slots)) < cap ->
  in_use f -> key_wf (fl_key f) -> fl_hash f = key_hash (fl_key f) ->
  fl_key f ∉ map fl_key (entries slots) ->
  exists slots', place slots (size_wrap (cap - 1)) f = Some slots' /\ slots_ok cap slots' /\
                 entries slots' ≡ₚ f :: entries slots.
Proof.
  intros Hok Hroom Hf Hwf Hh Hnew. pose proof (pow2_bounds _ (so_cap _ _ Hok)) as Hb.
  pose proof (so_len _ _ Hok) as Hlen.
  destruct (probe_spec slots cap (so_cap _ _ Hok) Hlen (fun _ => false) (fl_hash f))
    as (j & found & E & Hend); [by apply free_slot|].
  unfold place. rewrite land_mask by apply Hok. rewrite E. cbn [mbind option_bind].
  destruct (probe_end_reachable _ _ _ _ _ _ Hend) as (Hr & Hj & Hj0); [lia|done|].
  destruct Hend as (d & g & _ & -> & Eg & _ & Hng). destruct found; [by destruct Hng|].
  apply slot_at_lookup in Eg as [_ Eg].
  assert (Hperm := entries_insert_free slots _ g f Eg Hng Hf).
  eexists. split; [done|]. split; [|done].
  apply slots_ok_insert; try done; [by rewrite Z2Nat.id|].
  rewrite Hperm. cbn. by apply NoDup_cons; split; [|apply Hok].
Qed.

Lemma place_all_spec cap old slots :
  slots_ok cap slots ->
  Z.of_nat (length (entries old) + length (entries slots)) < cap ->
  (forall f, f ∈ old -> in_use f -> key_wf (fl_key f) /\ fl_hash f = key_hash (fl_key f)) ->
  NoDup (map fl_key (entries old ++ entries slots)) ->
  exists slots', place_all old slots (size_wrap (cap - 1)) = Some slots' /\ slots_ok cap slots' /\
                 entries slots' ≡ₚ entries old ++ entries slots.
Proof.
  revert slots. induction old as [|f old IH]; intros slots Hok Hroom Hfl Hnd; cbn [place_all].
  { by exists slots. }
  assert (Hrest : forall g, g ∈ old -> in_use g ->
                  key_wf (fl_key g) /\ fl_hash g = key_hash (fl_key g))
    by (intros g Hg; apply Hfl; by right).
  unfold entries in Hroom, Hnd. rewrite list.filter_cons in Hroom, Hnd.
  unfold entries at 2. rewrite list.filter_cons.
  change (filter in_use old) with (entries old) in *.
  change (filter in_use slots) with (entries slots) in *.
  destruct (decide (in_use f)) as [Hf|Hf].
  - rewrite Hf. cbn in Hnd. apply NoDup_cons in Hnd as [Hnew Hnd].
    destruct (Hfl f) as [Hwf Hh]; [by left|done|].
    rewrite map_app in Hnew.
    destruct (place_spec cap slots f) as (slots1 & -> & Hok1 & Hp1); try done.
    { cbn in Hroom. lia. } { intros Hin. apply Hnew, elem_of_app. by right. }
    cbn [mbind option_bind].
    destruct (IH slots1) as (slots2 & -> & Hok2 & Hp2); try done.
    { rewrite Hp1. cbn in Hroom |- *. lia. }
    { rewrite Hp1, <- Permutation_middle. cbn. apply NoDup_cons. split; [by rewrite map_app|done]. }
    exists slots2. split; [done|]. split; [done|]. cbn. by rewrite Hp2, Hp1, Permutation_middle.
  - destruct (fl_in_use f) eqn:Eu; [done|]. cbn [mbind option_bind]. by apply IH.
Qed.

(** ** The table as a map *)
Record table_ok (t : flow_table) : Prop := {
  to_slots : slots_ok (ft_capacity t) (ft_slots t);
  to_count : ft_count t = Z.of_nat (length (entries (ft_slots t)));
  to_load : ft_count t * 10 <= ft_capacity t * 7;
  to_blocks : ft_blocks t = 1
}.

(** The abstraction: the map from keys to flows a table stands for. *)
Definition entry_list (slots : list flow) : list (flow_key * flow) :=
  map (fun f => (fl_key f, f)) (entries slots).
Definition slots_map (slots : list flow) : gmap flow_key flow := list_to_map (entry_list slots).
Definition tmap (t : flow_table) : gmap flow_key flow := slots_map (ft_slots t).

Lemma entry_list_keys slots : (entry_list slots).*1 = map fl_key (entries slots).
Proof. unfold entry_list. rewrite <- list_fmap_compose. done. Qed.

Lemma slots_map_perm s1 s2 :
  NoDup (map fl_key (entries s1)) -> entries s1 ≡ₚ entries s2 -> slots_map s1 = slots_map s2.
Proof.
  intros Hnd Hp. apply list_to_map_proper; [by rewrite entry_list_keys|].
  unfold entry_list. by rewrite Hp.
Qed.

Lemma slots_map_lookup slots k f :
  NoDup (map fl_key (entries slots)) ->
  slots_map slots !! k = Some f <-> f ∈ entries slots /\ fl_key f = k.
Proof.
  intros Hnd. unfold slots_map. rewrite <- elem_of_list_to_map by (by rewrite entry_list_keys).
  unfold entry_list. rewrite list_elem_of_fmap. naive_solver.
Qed.

Lemma slots_map_None slots k :
  slots_map slots !! k = None <-> forall f, f ∈ entries slots -> fl_key f <> k.
Proof.
  unfold slots_map. rewrite <- not_elem_of_list_to_map, entry_list_keys, list_elem_of_fmap.
  naive_solver.
Qed.

Lemma slots_map_insert_free slots n g f :
  slots !! n = Some g -> ~ in_use g -> in_use f ->
  NoDup (map fl_key (entries (<[n := f]> slots))) ->
  slots_map (<[n := f]> slots) = <[fl_key f := f]> (slots_map slots).
Proof.
  intros Hg Hng Hf Hnd. unfold slots_map, entry_list.
  rewrite <- list_to_map_cons. apply list_to_map_proper.
  - change (NoDup (entry_list (<[n := f]> slots)).*1). by rewrite entry_list_keys.
  - by rewrite (entries_insert_free slots n g f).
Qed.

Lemma slots_map_insert_used slots n g f :
  slots !! n = Some g -> in_use g -> in_use f -> fl_key f = fl_key g ->
  NoDup (map fl_key (entries slots)) ->
  NoDup (map fl_key (entries (<[n := f]> slots))) /\
  length (entries (<[n := f]> slots)) = length (entries slots) /\
  slots_map (<[n := f]> slots) = <[fl_key f := f]> (slots_map slots).
Proof.
  intros Hg Hig Hf Hkey Hnd.
  destruct (entries_insert_used slots n g f Hg Hig Hf) as (a & b & Ea & Eb).
  assert (Hk : map fl_key (entries (<[n := f]> slots)) = map fl_key (entries slots)).
  { rewrite Ea, Eb, !map_app. cbn. by rewrite Hkey. }
  split; [by rewrite Hk|]. split; [by rewrite Ea, Eb, !length_app|].
  assert (Hp : forall h, fl_key h = fl_key g ->
    list_to_map (map (fun f => (fl_key f, f)) (a ++ h :: b)) =
    <[fl_key h := h]> (list_to_map (map (fun f => (fl_key f, f)) (a ++ b)) : gmap flow_key flow)).
  { intros h Hh. rewrite <- list_to_map_cons. apply list_to_map_proper.
    - rewrite <- list_fmap_compose.
      change (NoDup (map fl_key (a ++ h :: b))). rewrite Ea in Hnd.
      rewrite map_app in *. cbn in *. by rewrite Hh.
    - by rewrite <- Permutation_middle. }
  unfold slots_map, entry_list. rewrite Ea, Eb, !Hp by done. rewrite Hkey. by rewrite insert_insert_eq.
Qed.

Lemma table_free t : table_ok t -> exists j, 0 <= j < ft_capacity t /\ ~ occupied (ft_slots t) j.
Proof.
  intros [Hs Hc Hl]. apply free_slot; [apply Hs|]. rewrite <- Hc.
  pose proof (pow2_bounds _ (so_cap _ _ Hs)). lia.
Qed.

(** ** Operations *)
Lemma round_up_spec fuel j hint :
  4 <= j <= 57 -> (Z.to_nat (57 - j) <= fuel)%nat ->
  exists cap, round_up fuel (2 ^ j) hint = Some cap /\ pow2 cap /\ 2 ^ j <= cap /\
              (hint <= cap \/ cap = 2 ^ 57) /\ (cap < 2 * hint \/ cap = 2 ^ j).
Proof.
  revert j. induction fuel as [|fuel IH]; intros j Hj Hf; cbn [round_up].
  - assert (j = 57) as -> by lia. rewrite andb_false_intro2 by done.
    exists (2 ^ 57). repeat split; try lia. by exists 57.
  - destruct (Z.ltb_spec (2 ^ j) hint) as [Hlt|Hge]; cbn [andb].
    2: { exists (2 ^ j). repeat split; try lia. by exists j. }
    destruct (Z.leb_spec (2 ^ j) (SIZE_MAX / 2 / SIZEOF_FLOW)) as [Hle|Hgt].
    + assert (j < 57).
      { destruct (decide (j = 57)) as [->|]; [|lia]. unfold SIZE_MAX, SIZEOF_FLOW in Hle. done. }
      replace (size_wrap (2 ^ j * 2)) with (2 ^ (j + 1)).
      2: { rewrite Z.pow_add_r by lia. symmetry. apply wrap_small. unfold is_u.
           assert (0 < 2 ^ j < 2 ^ 63)
             by (split; [apply Z.pow_pos_nonneg; lia|apply Z.pow_lt_mono_r; lia]). lia. }
      destruct (IH (j + 1)) as (cap & -> & Hp & Hle' & Hh & Hb); [lia|lia|].
      rewrite Z.pow_add_r in Hle', Hb by lia. exists cap. repeat split; try done; try lia.
    + exists (2 ^ j). repeat split; try lia; [by exists j|].
      right. f_equal. unfold SIZE_MAX, SIZEOF_FLOW in Hgt.
      destruct (decide (j <= 56)); [|lia].
      assert (2 ^ j <= 2 ^ 56) by (apply Z.pow_le_mono_r; lia). 
      change ((2 ^ 64 - 1) / 2 / 88) with 104811045873349725 in Hgt. lia.
Qed.

Lemma init_spec hint :
  exists t, flow_table_init hint true = Some (0, t) /\ table_ok t /\ tmap t = ∅ /\
    (hint <= ft_capacity t \/ ft_capacity t = 2 ^ 57) /\
    (ft_capacity t < 2 * hint \/ ft_capacity t = 16).
Proof.
  destruct (round_up_spec 64 4 hint) as (cap & E & Hp & Hle & Hh & Hb); [lia|lia|].
  unfold flow_table_init. change MIN_CAPACITY with (2 ^ 4). rewrite E. cbn [mbind option_bind].
  eexists. split; [done|]. pose proof (pow2_bounds _ Hp). split; [|split; [|done]].
  - split; cbn; [by apply slots_ok_zero|by rewrite entries_zero|lia|done].
  - unfold tmap, slots_map, entry_list. cbn. by rewrite entries_zero.
Qed.

(** The flow a new key starts with. *)
Definition fresh_flow (key : flow_key) : flow :=
  flow_zero <| fl_key := key |> <| fl_hash := key_hash key |> <| fl_in_use := true |>.

(** A probe of the table for [key]: the slot that holds it, or a free slot of its
    chain. *)
Lemma probe_key t key stop :
  table_ok t -> key_wf key ->
  (forall f, in_use f -> key_wf (fl_key f) -> fl_hash f = key_hash (fl_key f) ->
             stop f = true <-> fl_key f = key) ->
  exists i f, slot_at (ft_slots t) i = Some f /\
    ((probe (S (length (ft_slots t))) (ft_slots t) (size_wrap (ft_capacity t - 1)) stop
        (Z.land (key_hash key) (size_wrap (ft_capacity t - 1))) = Some (i, true) /\
      in_use f /\ tmap t !! key = Some f) \/
     (probe (S (length (ft_slots t))) (ft_slots t) (size_wrap (ft_capacity t - 1)) stop
        (Z.land (key_hash key) (size_wrap (ft_capacity t - 1))) = Some (i, false) /\
      ~ in_use f /\ tmap t !! key = None /\
      forall g, fl_hash g = key_hash key -> reachable (ft_slots t) (ft_capacity t) g i)).
Proof.
  intros Ht Hwf Hstop. pose proof Ht as [Hs Hc Hl].
  pose proof (pow2_bounds _ (so_cap _ _ Hs)). rewrite land_mask by apply Hs.
  destruct (probe_spec (ft_slots t) (ft_capacity t) (so_cap _ _ Hs) (so_len _ _ Hs) stop
              (key_hash key) (table_free t Ht)) as (i & found & E & Hend).
  pose proof Hend as (d & f & Hd & Hi & Ef & Hp & Hf).
  exists i, f. split; [done|]. rewrite E. destruct found; [left|right].
  - destruct Hf as [Hu Hst]. split; [done|]. split; [done|].
    apply slot_at_lookup in Ef as [_ Ef]. apply list_elem_of_lookup_2 in Ef as Hin.
    destruct (so_flow _ _ Hs f Hin Hu) as [Hkf Hh]. apply slots_map_lookup; [apply Hs|].
    split; [by apply entries_elem|]. by apply Hstop.
  - split; [done|]. split; [done|]. split.
    + apply slots_map_None. eapply probe_absent; [done|done|]. intros g. by apply Hstop.
    + intros g Hg. rewrite <- Hg in Hend. by eapply probe_end_reachable; [|lia|apply Hs].
Qed.

Lemma find_spec t key :
  table_ok t -> key_wf key ->
  exists r, flow_table_find t key = Some r /\
    match r with
    | Some i => exists f, slot_at (ft_slots t) i = Some f /\ tmap t !! key = Some f
    | None => tmap t !! key = None
    end.
Proof.
  intros Ht Hwf. pose proof (pow2_bounds _ (so_cap _ _ (to_slots _ Ht))).
  unfold flow_table_find. destruct (Z.eqb_spec (ft_capacity t) 0); [lia|].
  destruct (probe_key t key (fun f => key_equal (fl_key f) key)) as (i & f & Ef & [(E & _ & Hm)|(E & _ & Hm & _)]);
    [done|done|intros g _ Hg _; by apply key_equal_eq| |]; rewrite E; cbn [mbind option_bind].
  - exists (Some i). eauto.
  - by exists None.
Qed.

(** A key is in one slot. *)
Lemma slot_unique t i j f :
  table_ok t -> slot_at (ft_slots t) i = Some f -> slot_at (ft_slots t) j = Some f ->
  in_use f -> j = i.
Proof.
  intros Ht [Hi Ei]%slot_at_lookup [Hj Ej]%slot_at_lookup Hu.
  destruct (decide (j = i)) as [|Hne]; [done|exfalso].
  pose proof (so_keys _ _ (to_slots _ Ht)) as Hnd. revert Hnd.
  rewrite (entries_split _ _ _ Ei), decide_True by done. rewrite !map_app. cbn [map app].
  intros Hnd. apply NoDup_app in Hnd as (_ & Hd & [Hnin _]%NoDup_cons).
  destruct (decide (j < i)).
  - apply (Hd (fl_key f)); [|by left]. apply (list_elem_of_fmap_2 fl_key), entries_elem.
    split; [|done]. apply (list_elem_of_lookup_2 _ (Z.to_nat j)).
    rewrite lookup_take_lt by lia. done.
  - apply Hnin, (list_elem_of_fmap_2 fl_key), entries_elem.
    split; [|done]. apply (list_elem_of_lookup_2 _ (Z.to_nat j - S (Z.to_nat i))).
    rewrite lookup_drop. rewrite <- Ej. f_equal. lia.
Qed.

(** A table has slots to free. *)
Lemma slots_ok_held cap slots : slots_ok cap slots -> slots <> [].
Proof. intros Hs ->. pose proof (pow2_bounds _ (so_cap _ _ Hs)). pose proof (so_len _ _ Hs) as Hl. cbn in Hl. lia. Qed.

Lemma free_slots_one slots n : slots <> [] -> free_slots slots (n + 1) = n.
Proof. destruct slots; [done|]. intros _. cbn. lia. Qed.

(** Freeing a table leaves it empty, with no block of its own allocated. *)
Lemma table_freed t : table_ok t -> flow_table_free t = Flow_table [] 0 0 0.
Proof.
  intros [Hs _ _ Hb]. unfold flow_table_free. rewrite Hb.
  by rewrite (free_slots_one _ 0) by (by eapply slots_ok_held).
Qed.

(** [grow] keeps every flow, in twice the slots. *)
Lemma grow_spec t :
  table_ok t ->
  (ft_capacity t = 2 ^ 57 /\ forall alloc, grow t alloc = Some (-1, t)) \/
  (grow t false = Some (-1, t) /\
   exists t', grow t true = Some (0, t') /\ table_ok t' /\ tmap t' = tmap t /\
     ft_count t' = ft_count t /\ ft_capacity t' = 2 * ft_capacity t).
Proof.
  intros [Hs Hc Hl Hbl]. pose proof (pow2_bounds _ (so_cap _ _ Hs)) as Hb.
  destruct (so_cap _ _ Hs) as (k & Hk & Ek).
  unfold grow. rewrite Z.gtb_ltb. change (SIZE_MAX / 2 / SIZEOF_FLOW) with 104811045873349725.
  destruct (decide (k = 57)) as [->|Hne].
  { left. rewrite Ek. by split. }
  right. assert (2 ^ k <= 2 ^ 56) by (apply Z.pow_le_mono_r; lia).
  destruct (Z.ltb_spec 104811045873349725 (ft_capacity t)); [lia|]. split; [done|].
  assert (Ecap : size_wrap (ft_capacity t * 2) = 2 ^ (k + 1)).
  { rewrite Z.pow_add_r, <- Ek by lia. apply wrap_small. unfold is_u. lia. }
  rewrite Ecap. cbn [calloc_slots].
  assert (Hp2 : pow2 (2 ^ (k + 1))) by (exists (k + 1); split; [lia|done]).
  assert (E2 : 2 ^ (k + 1) = 2 * ft_capacity t) by (rewrite Z.pow_add_r, <- Ek by lia; lia).
  destruct (place_all_spec (2 ^ (k + 1)) (ft_slots t) (replicate (Z.to_nat (2 ^ (k + 1))) flow_zero))
    as (slots & E & Hok & Hp).
  { by apply slots_ok_zero. } { rewrite entries_zero. cbn. lia. }
  { apply Hs. } { rewrite entries_zero, app_nil_r. apply Hs. }
  rewrite E. cbn [mbind option_bind]. rewrite entries_zero, app_nil_r in Hp.
  eexists. split; [done|]. split; [split; cbn|split; [|split; [done|exact E2]]].
  - done.
  - by rewrite Hp.
  - lia.
  - rewrite Hbl. apply free_slots_one, (slots_ok_held _ _ Hs).
  - symmetry. apply slots_map_perm; [apply Hs|done].
Qed.

(** When [flow_table_find_or_insert] has to grow the table. *)
Definition must_grow (t : flow_table) : Prop := ft_capacity t * 7 < (ft_count t + 1) * 10.

Lemma load_test t :
  table_ok t ->
  (size_wrap (size_wrap (ft_count t + 1) * LOAD_DEN) >? size_wrap (ft_capacity t * LOAD_NUM)) =
  bool_decide (must_grow t).
Proof.
  intros [Hs Hc Hl Hbl]. pose proof (pow2_bounds _ (so_cap _ _ Hs)) as Hb.
  unfold LOAD_DEN, LOAD_NUM, must_grow.
  rewrite (wrap_small 64 (ft_count t + 1)) by (unfold is_u; lia).
  rewrite !wrap_small by (unfold is_u; lia). rewrite Z.gtb_ltb.
  destruct (Z.ltb_spec (ft_capacity t * 7) ((ft_count t + 1) * 10)).
  - by rewrite bool_decide_true.
  - rewrite bool_decide_false; [done|lia].
Qed.

(** Probing and inserting in a table with room for one more flow. *)
Lemma insert_spec t key :
  table_ok t -> key_wf key -> ~ must_grow t ->
  exists i inserted t' f,
    ('(i, found) ← probe (S (length (ft_slots t))) (ft_slots t) (size_wrap (ft_capacity t - 1))
        (fun f => (fl_hash f =? key_hash key) && key_equal (fl_key f) key)
        (Z.land (key_hash key) (size_wrap (ft_capacity t - 1)));
     if (found : bool) then Some (Some i, false, t) else
     Some (Some i, true, t <| ft_slots := <[Z.to_nat i := fresh_flow key]> (ft_slots t) |>
                           <| ft_count := size_wrap (ft_count t + 1) |>))
    = Some (Some i, inserted, t') /\
    table_ok t' /\ slot_at (ft_slots t') i = Some f /\ in_use f /\ fl_key f = key /\
    f = default (fresh_flow key) (tmap t !! key) /\
    inserted = bool_decide (tmap t !! key = None) /\ tmap t' = <[key := f]> (tmap t).
Proof.
  intros Ht Hwf Hroom. pose proof Ht as [Hs Hc Hl].
  pose proof (pow2_bounds _ (so_cap _ _ Hs)) as Hb. unfold must_grow in Hroom.
  destruct (probe_key t key (fun f => (fl_hash f =? key_hash key) && key_equal (fl_key f) key))
    as (i & f & Ef & [(E & Hu & Hm)|(E & Hng & Hm & Hr)]); [done|done| | |].
  { intros g _ Hg Hh. rewrite andb_true_iff, Z.eqb_eq, key_equal_eq by done.
    split; [by intros [_ ?]|intros Hk; by rewrite Hh, Hk]. }
  all: rewrite E; cbn [mbind option_bind].
  - exists i, false, t, f. rewrite Hm.
    split; [done|]. split; [done|]. split; [done|]. split; [done|]. split.
    { apply slots_map_lookup in Hm; [|apply Hs]. by destruct Hm. }
    split; [done|]. split; [done|]. by rewrite insert_id.
  - apply slot_at_lookup in Ef as [Hi Ef].
    set (nf := fresh_flow key). set (n := Z.to_nat i) in *.
    assert (Hperm := entries_insert_free (ft_slots t) n f nf Ef Hng eq_refl).
    assert (Hnd : NoDup (map fl_key (entries (<[n := nf]> (ft_slots t))))).
    { rewrite Hperm. cbn. apply NoDup_cons. split; [|apply Hs].
      intros Hin. apply list_elem_of_fmap in Hin as (g & Hk & Hg).
      by apply (proj1 (slots_map_None (ft_slots t) key) Hm g). }
    assert (Hok : slots_ok (ft_capacity t) (<[n := nf]> (ft_slots t))).
    { apply slots_ok_insert; try done; [by apply lookup_lt_Some in Ef|].
      unfold n. rewrite Z2Nat.id by done. by apply Hr. }
    eexists i, true, _, nf. split; [done|]. split; [|split; [|split; [done|split; [done|]]]].
    + split; cbn; [done| | |apply Ht]; rewrite wrap_small by (unfold is_u; lia); rewrite ?Hperm; cbn; lia.
    + cbn. apply slot_at_lookup. split; [done|]. apply list_lookup_insert_eq.
      by apply lookup_lt_Some in Ef.
    + rewrite Hm. split; [done|]. split; [done|].
      by apply (slots_map_insert_free (ft_slots t) n f nf).
Qed.

(** The whole of [flow_table_find_or_insert].  NULL means that the table had to
    grow and could not. *)
Lemma find_or_insert_spec t key alloc :
  table_ok t -> key_wf key ->
  exists p inserted t', flow_table_find_or_insert t key alloc = Some (p, inserted, t') /\
    table_ok t' /\
    match p with
    | None => t' = t /\ inserted = false /\ must_grow t /\
              (alloc = false \/ ft_capacity t = 2 ^ 57)
    | Some i => exists f, slot_at (ft_slots t') i = Some f /\ in_use f /\ fl_key f = key /\
        f = default (fresh_flow key) (tmap t !! key) /\
        inserted = bool_decide (tmap t !! key = None) /\ tmap t' = <[key := f]> (tmap t)
    end.
Proof.
  intros Ht Hwf. pose proof Ht as [Hs Hc Hl].
  pose proof (pow2_bounds _ (so_cap _ _ Hs)) as Hb.
  unfold flow_table_find_or_insert. destruct (Z.eqb_spec (ft_capacity t) 0); [lia|].
  rewrite load_test by done. destruct (decide (must_grow t)) as [Hg|Hg].
  - rewrite bool_decide_true by done.
    destruct (grow_spec t Ht) as [[Hmax E]|[E0 (t1 & E1 & Ht1 & Hm1 & Hc1 & Hcap1)]].
    + rewrite E. cbn. exists None, false, t. eauto 10.
    + destruct alloc; [|rewrite E0; cbn; exists None, false, t; eauto 10].
      rewrite E1. cbn [mbind option_bind].
      destruct (insert_spec t1 key Ht1 Hwf) as (i & ins & t' & f & E & Hok & Hrest).
      { unfold must_grow in *. rewrite Hc1, Hcap1. lia. }
      rewrite Hm1 in Hrest. exists (Some i), ins, t'. split; [exact E|]. eauto 10.
  - rewrite bool_decide_false by done. cbn [mbind option_bind].
    destruct (insert_spec t key Ht Hwf Hg) as (i & ins & t' & f & E & Hok & Hrest).
    exists (Some i), ins, t'. split; [exact E|]. eauto 10.
Qed.

(** ** Accounting *)

(** One call of [account]: the packet as the table sees it. *)
Record acct := Acct {
  ac_key : flow_key; ac_reversed : bool; ac_flags : Z; ac_len : Z; ac_ts : Z
}.

Definition account_one (t : flow_table) (a : acct) (alloc : bool) : option (Z * flow_table) :=
  account t (ac_key a) (ac_reversed a) (ac_flags a) (ac_len a) (ac_ts a) alloc.

(** The entry after accounting [a] to the entry [o] its key had. *)
Definition account_entry (o : option flow) (a : acct) : flow :=
  account_flow (default (fresh_flow (ac_key a)) o) (bool_decide (o = None))
               (ac_reversed a) (ac_flags a) (ac_len a) (ac_ts a).

Lemma account_flow_frame f ins rev flags len ts :
  let f' := account_flow f ins rev flags len ts in
  fl_key f' = fl_key f /\ fl_hash f' = fl_hash f /\ fl_in_use f' = fl_in_use f.
Proof. unfold account_flow. by repeat case_match. Qed.

Lemma account_spec t a alloc :
  table_ok t -> key_wf (ac_key a) ->
  exists rc t', account_one t a alloc = Some (rc, t') /\ table_ok t' /\
    ((rc = 0 /\ tmap t' = <[ac_key a := account_entry (tmap t !! ac_key a) a]> (tmap t)) \/
     (rc = -1 /\ t' = t /\ must_grow t /\ (alloc = false \/ ft_capacity t = 2 ^ 57))).
Proof.
  intros Ht Hwf. unfold account_one, account.
  destruct (find_or_insert_spec t (ac_key a) alloc Ht Hwf) as (p & ins & t1 & E & Ht1 & Hp).
  rewrite E. cbn [mbind option_bind]. destruct p as [i|].
  2: { destruct Hp as (-> & _ & Hg & Ha). exists (-1), t. eauto 10. }
  destruct Hp as (f & Ef & Hu & Hkey & Hf & Hins & Hm). rewrite Ef. cbn [mbind option_bind].
  remember (account_flow _ _ _ _ _ _) as f' eqn:Ef2.
  destruct (account_flow_frame f ins (ac_reversed a) (ac_flags a) (ac_len a) (ac_ts a))
    as (Hk' & Hh' & Hu'). rewrite <- Ef2 in Hk', Hh', Hu'.
  pose proof Ef as [Hi Ef']%slot_at_lookup.
  pose proof (list_elem_of_lookup_2 _ _ _ Ef') as Hin.
  destruct Ht1 as [Hs1 Hc1 Hl1].
  destruct (so_flow _ _ Hs1 f Hin Hu) as [Hwf1 Hh1].
  assert (Hu2 : in_use f') by (unfold in_use; by rewrite Hu').
  destruct (slots_map_insert_used (ft_slots t1) _ f f' Ef' Hu Hu2 Hk' (so_keys _ _ Hs1))
    as (Hnd & Hlen & Hmap).
  eexists 0, _. split; [done|]. split.
  - split; cbn [ft_slots ft_count ft_capacity ft_blocks update set_ft_slots]; [|by rewrite Hlen|done|done].
    apply slots_ok_insert; try done; [by apply lookup_lt_Some in Ef'|by rewrite Hk'|congruence|].
    rewrite Z2Nat.id by done. destruct (so_chain _ _ Hs1 i f Ef Hu) as (d & Hd & Hi' & Hp').
    exists d. by rewrite Hh'.
  - left. split; [done|]. unfold tmap at 1. cbn [ft_slots update set_ft_slots].
    rewrite Hmap. change (slots_map (ft_slots t1)) with (tmap t1). rewrite Hm.
    rewrite Hk', Hkey, insert_insert_eq. f_equal. rewrite Ef2. unfold account_entry. by rewrite Hf, Hins.
Qed.

(** What the entry of a key stands for: the packets accounted to it. *)
(** The latest timestamp of [l], and the earliest one with the direction of the
    first packet that has it. *)
Definition last_seen (l : list acct) (ts : Z) : Prop :=
  (exists a, a ∈ l /\ ac_ts a = ts) /\ forall a, a ∈ l -> ac_ts a <= ts.

Definition first_seen (l : list acct) (ts : Z) (from_b : bool) : Prop :=
  exists l1 a l2, l = l1 ++ a :: l2 /\ ac_ts a = ts /\ ac_reversed a = from_b /\
    (forall b, b ∈ l1 -> ac_ts a < ac_ts b) /\ (forall b, b ∈ l2 -> ac_ts a <= ac_ts b).

Record flow_of (key : flow_key) (l : list acct) (f : flow) : Prop := {
  fo_key : fl_key f = key;
  fo_packets : fl_packets f = u64 (Z.of_nat (length l));
  fo_bytes : fl_bytes f = u64 (fold_right (fun a n => ac_len a + n) 0 l);
  fo_last : last_seen l (fl_last_ts_ns f);
  fo_first : first_seen l (fl_first_ts_ns f) (fl_first_from_b f);
  fo_flags : forall n, 0 <= n < 8 ->
             Z.testbit (fl_tcp_flags f) n = existsb (fun a => Z.testbit (ac_flags a) n) l;
  fo_flags_byte : is_byte (fl_tcp_flags f)
}.

Lemma last_seen_snoc l ts a : last_seen l ts -> last_seen (l ++ [a]) (Z.max ts (ac_ts a)).
Proof.
  intros [(y & Hy & Hy') Hl]. split.
  - destruct (Z.max_spec ts (ac_ts a)) as [[_ ->]|[_ ->]]; [exists a|exists y]; rewrite elem_of_app;
      (split; [|done]); [right; by left|by left].
  - intros b [Hb|Hb]%elem_of_app; [specialize (Hl b Hb); lia|]. apply list_elem_of_singleton in Hb as ->. lia.
Qed.

Lemma first_seen_snoc l ts from_b a :
  first_seen l ts from_b ->
  first_seen (l ++ [a]) (if ac_ts a <? ts then ac_ts a else ts) (if ac_ts a <? ts then ac_reversed a else from_b).
Proof.
  intros (l1 & x & l2 & -> & <- & <- & H1 & H2). destruct (Z.ltb_spec (ac_ts a) (ac_ts x)) as [Hlt|Hge].
  - exists (l1 ++ x :: l2), a, []. repeat split; [|by intros b ?%elem_of_nil].
    intros b [Hb|[->|Hb]%elem_of_cons]%elem_of_app; [specialize (H1 b Hb)|done|specialize (H2 b Hb)]; lia.
  - exists l1, x, (l2 ++ [a]). rewrite <- app_assoc. repeat split; [done|].
    intros b [Hb|Hb]%elem_of_app; [by apply H2|]. by apply list_elem_of_singleton in Hb as ->.
Qed.

(** What [account_flow] does to each field of an entry that was there. *)
Lemma account_flow_fields f reversed flags len ts :
  let g := account_flow f false reversed flags len ts in
  fl_key g = fl_key f /\ fl_packets g = u64 (fl_packets f + 1) /\ fl_bytes g = u64 (fl_bytes f + len) /\
  fl_last_ts_ns g = Z.max (fl_last_ts_ns f) ts /\
  fl_first_ts_ns g = (if ts <? fl_first_ts_ns f then ts else fl_first_ts_ns f) /\
  fl_first_from_b g = (if ts <? fl_first_ts_ns f then reversed else fl_first_from_b f) /\
  fl_tcp_flags g = u8 (Z.lor (fl_tcp_flags f) flags).
Proof.
  unfold account_flow. cbv beta iota zeta. rewrite Z.gtb_ltb. destruct (ts <? fl_first_ts_ns f); cbn;
    destruct (Z.ltb_spec (fl_last_ts_ns f) ts); cbn; repeat split; lia.
Qed.

Lemma flags_step x y n l :
  0 <= n < 8 -> Z.testbit x n = existsb (fun a => Z.testbit (ac_flags a) n) l ->
  Z.testbit (u8 (Z.lor x y)) n = existsb (fun a => Z.testbit (ac_flags a) n) l || Z.testbit y n.
Proof.
  intros Hn Hx. unfold wrap. rewrite Z.mod_pow2_bits_low by lia. by rewrite Z.lor_spec, Hx.
Qed.

Lemma sum_snoc (l : list acct) a :
  fold_right (fun a n => ac_len a + n) 0 (l ++ [a]) =
  fold_right (fun a n => ac_len a + n) 0 l + ac_len a.
Proof. induction l as [|b l IH]; cbn; lia. Qed.

Lemma flow_of_first a : flow_of (ac_key a) [a] (account_entry None a).
Proof.
  unfold account_entry, account_flow. cbn [default bool_decide]. rewrite bool_decide_true by done.
  do 2 (cbn [update set_fl_first_ts_ns set_fl_last_ts_ns set_fl_first_from_b
             fl_first_ts_ns fl_last_ts_ns]; rewrite ?Z.gtb_ltb, ?Z.ltb_irrefl).
  split; cbn; try done.
  - by rewrite Z.add_0_r.
  - split; [exists a; by split; [left|]|]. intros b Hb. apply list_elem_of_singleton in Hb as ->. done.
  - exists [], a, []. repeat split; try done; intros b Hb; by apply elem_of_nil in Hb.
  - intros n Hn. rewrite (flags_step 0 (ac_flags a) n []) by (done || by rewrite Z.bits_0).
    cbn. by rewrite orb_false_r.
  - apply wrap_is_u. lia.
Qed.

Lemma flow_of_step key l f a :
  flow_of key l f -> flow_of key (l ++ [a]) (account_entry (Some f) a).
Proof.
  intros [Hk Hp Hb Hl He Hfl _]. unfold account_entry. change (default _ (Some f)) with f.
  rewrite bool_decide_false by done.
  destruct (account_flow_fields f (ac_reversed a) (ac_flags a) (ac_len a) (ac_ts a))
    as (E1 & E2 & E3 & E4 & E5 & E6 & E7).
  split; rewrite ?E1, ?E2, ?E3, ?E4, ?E5, ?E6, ?E7; try done.
  - rewrite Hp, wrap_add_l, length_app. f_equal. cbn. lia.
  - by rewrite Hb, wrap_add_l, sum_snoc.
  - by apply last_seen_snoc.
  - by apply first_seen_snoc.
  - intros n Hn. rewrite existsb_app, (flags_step _ _ n l) by (done || by apply Hfl). cbn. by rewrite orb_false_r.
  - apply wrap_is_u. lia.
Qed.

(** ** A sequence of packets *)

(** The table stands for the accounted packets [l]: one entry per key seen, each
    standing for the packets of its key. *)
Definition same_key (k : flow_key) (a : acct) : Prop := ac_key a = k.
#[export] Instance same_key_dec k a : Decision (same_key k a) := decide (ac_key a = k).

Definition represents (t : flow_table) (l : list acct) : Prop :=
  table_ok t /\
  forall k, match tmap t !! k with
            | None => filter (same_key k) l = []
            | Some f => filter (same_key k) l <> [] /\ flow_of k (filter (same_key k) l) f
            end.

Lemma filter_snoc k l a :
  filter (same_key k) (l ++ [a]) =
  filter (same_key k) l ++ (if decide (ac_key a = k) then [a] else []).
Proof. rewrite list.filter_app. by rewrite list.filter_singleton. Qed.

Lemma represents_account t l a t' :
  represents t l -> table_ok t' ->
  tmap t' = <[ac_key a := account_entry (tmap t !! ac_key a) a]> (tmap t) ->
  represents t' (l ++ [a]).
Proof.
  intros [Ht Hr] Ht' Hm. split; [done|]. intros k. rewrite Hm, filter_snoc.
  destruct (decide (ac_key a = k)) as [<-|Hne].
  - rewrite lookup_insert_eq. specialize (Hr (ac_key a)). split; [by destruct (filter _ l)|].
    destruct (tmap t !! ac_key a) as [f|] eqn:E.
    + destruct Hr as [_ Hr]. by apply flow_of_step.
    + rewrite Hr. apply flow_of_first.
  - rewrite lookup_insert_ne by done. rewrite app_nil_r. apply Hr.
Qed.

Lemma represents_empty t : table_ok t -> tmap t = ∅ -> represents t [].
Proof. intros Ht Hm. split; [done|]. intros k. by rewrite Hm, lookup_empty. Qed.

Lemma size_tmap t : table_ok t -> ft_count t = Z.of_nat (size (tmap t)).
Proof.
  intros [Hs Hc _]. rewrite Hc. f_equal. unfold tmap, slots_map.
  rewrite map_size_list_to_map by (rewrite entry_list_keys; apply Hs).
  unfold entry_list. by rewrite length_map.
Qed.

Lemma count_account t a t' e :
  table_ok t -> table_ok t' -> tmap t' = <[ac_key a := e]> (tmap t) ->
  ft_count t <= ft_count t' <= ft_count t + 1.
Proof.
  intros Ht Ht' Hm. rewrite !size_tmap, Hm by done.
  destruct (tmap t !! ac_key a) eqn:E.
  - rewrite map_size_insert_Some by (by eexists). lia.
  - rewrite map_size_insert_None by done. lia.
Qed.

(** One accounted packet, in terms of the packets a table stands for. *)
Lemma represents_step t l a alloc :
  represents t l -> key_wf (ac_key a) ->
  exists rc t', account_one t a alloc = Some (rc, t') /\
    ((rc = 0 /\ represents t' (l ++ [a]) /\ ft_count t' <= ft_count t + 1) \/
     (rc = -1 /\ t' = t /\ must_grow t /\ (alloc = false \/ ft_capacity t = 2 ^ 57))).
Proof.
  intros Hr Hwf. destruct (account_spec t a alloc) as (rc & t' & E & Ht' & Hcase);
    [apply Hr|done|].
  exists rc, t'. split; [done|]. destruct Hcase as [[-> Hm]|?]; [left|by right].
  split; [done|]. split; [by eapply represents_account|].
  pose proof (count_account t a t' _ (proj1 Hr) Ht' Hm). lia.
Qed.
