(* ===== verification/TopN.v ===== *)
(** Iterating over the flow table, the top-N selection and the count of distinct
    TEIDs, against sorting and counting all the flows. *)
From S2P Require Export FlowProps.
#[local] Set Warnings "-clear-no-such-hyp".

(** ** Iteration *)
Section Iterate.
Context (t : flow_table) (Ht : table_ok t).

Lemma slots_length : Z.of_nat (length (ft_slots t)) = ft_capacity t.
Proof. apply Ht. Qed.

Lemma next_from_spec fuel (pos : nat) :
  (length (ft_slots t) - pos < fuel)%nat -> (pos <= length (ft_slots t))%nat ->
  exists o pos', next_from fuel t (Z.of_nat pos) = Some (o, Z.of_nat pos') /\
    (pos' <= length (ft_slots t))%nat /\
    match o with
    | None => entries (drop pos (ft_slots t)) = []
    | Some f => entries (drop pos (ft_slots t)) = f :: entries (drop pos' (ft_slots t)) /\
                (pos < pos')%nat
    end.
Proof.
  pose proof slots_length as Hlen. pose proof (pow2_bounds _ (so_cap _ _ (to_slots _ Ht))) as Hb.
  revert pos. induction fuel as [|fuel IH]; intros pos Hf Hp; [lia|]. cbn [next_from].
  destruct (Z.ltb_spec (Z.of_nat pos) (ft_capacity t)) as [Hlt|Hge].
  2: { exists None, pos. split; [done|]. split; [done|]. by rewrite drop_ge by lia. }
  destruct (slot_at_Some (ft_slots t) (Z.of_nat pos)) as [f Ef]; [lia|].
  rewrite Ef. cbn [mbind option_bind].
  apply slot_at_lookup in Ef as [_ Ef]. rewrite Nat2Z.id in Ef.
  replace (size_wrap (Z.of_nat pos + 1)) with (Z.of_nat (S pos))
    by (rewrite wrap_small; unfold is_u; lia).
  rewrite (drop_S _ _ _ Ef). unfold entries at 1 3. rewrite list.filter_cons.
  destruct (decide (in_use f)) as [Hu|Hu].
  - rewrite (Hu : fl_in_use f = true).
    exists (Some f), (S pos). split; [done|]. split; [lia|]. split; [done|lia].
  - rewrite (not_true_is_false _ Hu).
    destruct (IH (S pos)) as (o & pos' & E & Hp' & Ho); [lia|lia|].
    exists o, pos'. split; [exact E|]. split; [done|]. destruct o; [|done].
    destruct Ho. split; [done|lia].
Qed.

Lemma iter_from_spec fuel (pos : nat) :
  (length (ft_slots t) - pos < fuel)%nat -> (pos <= length (ft_slots t))%nat ->
  iter_from fuel t (Z.of_nat pos) = Some (entries (drop pos (ft_slots t))).
Proof.
  revert pos. induction fuel as [|fuel IH]; intros pos Hf Hp; [lia|]. cbn [iter_from].
  destruct (next_from_spec (S (length (ft_slots t))) pos) as (o & pos' & E & Hp' & Ho); [lia|lia|].
  unfold flow_table_next. rewrite E. cbn [mbind option_bind]. destruct o as [f|]; [|by rewrite Ho].
  destruct Ho as [-> Hlt]. rewrite IH by lia. done.
Qed.

(** The iteration visits every flow, once, and ends. *)
Lemma flow_iter_entries : flow_iter t = Some (entries (ft_slots t)).
Proof. unfold flow_iter. apply (iter_from_spec _ 0); lia. Qed.
End Iterate.

(** ** A [qsort] *)
Section Insertion.
Context {A : Type} (cmp : A -> A -> Z).

Fixpoint sort_insert (x : A) (l : list A) : list A :=
  match l with
  | [] => [x]
  | y :: l => if cmp x y <=? 0 then x :: y :: l else y :: sort_insert x l
  end.

Definition insertion_sort (l : list A) : list A := fold_right sort_insert [] l.

Lemma sort_insert_perm x l : sort_insert x l ≡ₚ x :: l.
Proof.
  induction l as [|y l IH]; cbn; [done|]. destruct (cmp x y <=? 0); [done|].
  rewrite IH. apply Permutation_swap.
Qed.

Lemma insertion_sort_perm l : insertion_sort l ≡ₚ l.
Proof. induction l as [|x l IH]; cbn; [done|]. by rewrite sort_insert_perm, IH. Qed.

Lemma sort_insert_sorted x l :
  consistent cmp (x :: l) -> StronglySorted (fun x y => cmp x y <= 0) l ->
  StronglySorted (fun x y => cmp x y <= 0) (sort_insert x l).
Proof.
  intros [Htot Htr] Hs. induction Hs as [|y l Hs IH Hy]; cbn; [by repeat constructor|].
  destruct (Z.leb_spec (cmp x y) 0) as [Hle|Hgt].
  - constructor; [by constructor|]. constructor; [done|].
    apply Forall_forall. intros z Hz. rewrite Forall_forall in Hy.
    apply (Htr x y z); [set_solver..|done|by apply Hy].
  - constructor.
    + apply IH; intros; [apply Htot|eapply Htr; [..|done|done]]; set_solver.
    + rewrite sort_insert_perm. constructor; [|done].
      destruct (Htot x y); [set_solver..|lia|done].
Qed.

Lemma insertion_sort_sorted l :
  consistent cmp l -> StronglySorted (fun x y => cmp x y <= 0) (insertion_sort l).
Proof.
  induction l as [|x l IH]; intros Hc; cbn; [constructor|].
  assert (Hc' : consistent cmp (x :: insertion_sort l)).
  { destruct Hc as [H1 H2]. unfold consistent.
    split; intros; [apply H1|eapply H2; [..|done|done]];
      match goal with H : ?y ∈ x :: insertion_sort l |- ?y ∈ _ =>
        by rewrite insertion_sort_perm in H end. }
  apply sort_insert_sorted; [done|]. apply IH. destruct Hc as [H1 H2].
  split; intros; [apply H1|eapply H2; [..|done|done]]; by right.
Qed.
End Insertion.

#[export] Instance insertion_qsort : QSort := {
  qsort := @insertion_sort;
  qsort_perm := @insertion_sort_perm;
  qsort_sorted := @insertion_sort_sorted
}.

(** ** The ranking is a total order *)

(** A three-way comparison that is antisymmetric and transitive on [P]. *)
Record cmp_ok {A} (P : A -> Prop) (c : A -> A -> Z) : Prop := {
  cmp_sign : forall a b, P a -> P b -> c b a = - c a b;
  cmp_trans : forall a b d, P a -> P b -> P d -> c a b <= 0 -> c b d <= 0 -> c a d <= 0
}.

Definition lex {A} (c1 c2 : A -> A -> Z) (a b : A) : Z :=
  if c1 a b =? 0 then c2 a b else c1 a b.

Lemma lex_ok {A} (P : A -> Prop) c1 c2 : cmp_ok P c1 -> cmp_ok P c2 -> cmp_ok P (lex c1 c2).
Proof.
  intros [S1 T1] [S2 T2]. unfold lex. split.
  - intros a b Ha Hb. rewrite (S1 a b), (S2 a b) by done.
    destruct (Z.eqb_spec (- c1 a b) 0), (Z.eqb_spec (c1 a b) 0); lia.
  - intros a b d Ha Hb Hd H1 H2.
    assert (H1' : c1 a b <= 0) by (destruct (Z.eqb_spec (c1 a b) 0); lia).
    assert (H2' : c1 b d <= 0) by (destruct (Z.eqb_spec (c1 b d) 0); lia).
    pose proof (T1 a b d Ha Hb Hd H1' H2') as H3.
    destruct (Z.eqb_spec (c1 a d) 0) as [E|]; [|done].
    pose proof (S1 a d Ha Hd). pose proof (S1 a b Ha Hb). pose proof (S1 b d Hb Hd).
    pose proof (T1 d a b Hd Ha Hb ltac:(lia) H1').
    pose proof (T1 b d a Hb Hd Ha H2' ltac:(lia)).
    rewrite (proj2 (Z.eqb_eq _ _)) in H1 by lia. rewrite (proj2 (Z.eqb_eq _ _)) in H2 by lia.
    eauto.
Qed.

(** [a.f != b.f ? (a.f < b.f ? -1 : 1)], and the same for larger first. *)
Definition by_field {A} (f : A -> Z) (a b : A) : Z := if f a =? f b then 0 else below (f a) (f b).

Lemma by_field_ok {A} (P : A -> Prop) f : cmp_ok P (by_field f).
Proof.
  unfold by_field, below. split.
  - intros a b _ _. destruct (Z.eqb_spec (f a) (f b)), (Z.eqb_spec (f b) (f a)),
      (Z.ltb_spec (f a) (f b)), (Z.ltb_spec (f b) (f a)); lia.
  - intros a b d _ _ _. destruct (Z.eqb_spec (f a) (f b)), (Z.eqb_spec (f b) (f d)),
      (Z.eqb_spec (f a) (f d)), (Z.ltb_spec (f a) (f b)), (Z.ltb_spec (f b) (f d)),
      (Z.ltb_spec (f a) (f d)); lia.
Qed.

Definition by_addr {A} (f : A -> bytes) (a b : A) : Z := memcmp (f a) (f b).

Lemma by_addr_ok {A} (P : A -> Prop) (f : A -> bytes) n :
  (forall a, P a -> length (f a) = n) -> cmp_ok P (by_addr f).
Proof.
  intros Hlen. unfold by_addr. split.
  - intros a b Ha Hb. apply memcmp_sign. by rewrite !Hlen.
  - intros a b d Ha Hb Hd. apply memcmp_trans; by rewrite !Hlen.
Qed.

Definition flow_wf (f : flow) : Prop := key_wf (fl_key f).

Definition rank_order : flow -> flow -> Z :=
  lex (by_field (fun f => - fl_bytes f)) (
  lex (by_field (fun f => - fl_packets f)) (
  lex (by_field fl_first_ts_ns) (
  lex (by_field (fun f => fk_teid (fl_key f))) (
  lex (by_field (fun f => fk_ip_version (fl_key f))) (
  lex (by_field (fun f => fk_proto (fl_key f))) (
  lex (by_addr (fun f => fk_addr_a (fl_key f))) (
  lex (by_field (fun f => fk_port_a (fl_key f))) (
  lex (by_addr (fun f => fk_addr_b (fl_key f))) (
  by_field (fun f => fk_port_b (fl_key f))))))))))).

Lemma lex_field {A} (f : A -> Z) c a b :
  lex (by_field f) c a b = if negb (f a =? f b) then below (f a) (f b) else c a b.
Proof.
  unfold lex, by_field, below. destruct (f a =? f b); [done|]. by destruct (f a <? f b).
Qed.

Lemma rank_cmp_order a b : rank_cmp a b = rank_order a b.
Proof.
  unfold rank_cmp, key_cmp, rank_order. rewrite !lex_field. unfold below.
  replace (- fl_bytes a =? - fl_bytes b) with (fl_bytes a =? fl_bytes b)
    by (destruct (Z.eqb_spec (fl_bytes a) (fl_bytes b)), (Z.eqb_spec (- fl_bytes a) (- fl_bytes b)); lia).
  replace (- fl_packets a =? - fl_packets b) with (fl_packets a =? fl_packets b)
    by (destruct (Z.eqb_spec (fl_packets a) (fl_packets b)),
          (Z.eqb_spec (- fl_packets a) (- fl_packets b)); lia).
  replace (- fl_bytes a <? - fl_bytes b) with (fl_bytes a >? fl_bytes b)
    by (rewrite Z.gtb_ltb; destruct (Z.ltb_spec (fl_bytes b) (fl_bytes a)),
          (Z.ltb_spec (- fl_bytes a) (- fl_bytes b)); lia).
  replace (- fl_packets a <? - fl_packets b) with (fl_packets a >? fl_packets b)
    by (rewrite Z.gtb_ltb; destruct (Z.ltb_spec (fl_packets b) (fl_packets a)),
          (Z.ltb_spec (- fl_packets a) (- fl_packets b)); lia).
  do 6 (match goal with |- (if negb ?x then _ else _) = _ => destruct x; cbn [negb]; [|done] end).
  unfold lex, by_addr, by_field, below.
  destruct (Z.eqb_spec (memcmp (fk_addr_a (fl_key a)) (fk_addr_a (fl_key b))) 0); [|done].
  unfold negb. destruct (Z.eqb_spec (fk_port_a (fl_key a)) (fk_port_a (fl_key b))).
  - cbn [Z.eqb]. destruct (Z.eqb_spec (memcmp (fk_addr_b (fl_key a)) (fk_addr_b (fl_key b))) 0);
      [|done]. by destruct (_ =? _).
  - unfold below. by destruct (_ <? _).
Qed.

Lemma rank_cmp_ok : cmp_ok flow_wf rank_cmp.
Proof.
  assert (cmp_ok flow_wf rank_order) as [S T].
  { unfold rank_order.
    repeat first [apply lex_ok | apply by_field_ok | apply (by_addr_ok _ _ 16)]; apply by_addr_ok with 16%nat || idtac.
    all: intros a [? ?]; done. }
  split.
  - intros a b. rewrite !rank_cmp_order. apply S.
  - intros a b d. rewrite !rank_cmp_order. apply T.
Qed.

Lemma lex_zero {A} (c1 c2 : A -> A -> Z) a b : lex c1 c2 a b = 0 -> c1 a b = 0 /\ c2 a b = 0.
Proof. unfold lex. destruct (Z.eqb_spec (c1 a b) 0); [done|lia]. Qed.

Lemma by_field_zero {A} (f : A -> Z) a b : by_field f a b = 0 -> f a = f b.
Proof. unfold by_field, below. destruct (Z.eqb_spec (f a) (f b)); [done|]. by destruct (_ <? _). Qed.

(** Flows that rank the same have the same key. *)
Lemma rank_cmp_zero a b : flow_wf a -> flow_wf b -> rank_cmp a b = 0 -> fl_key a = fl_key b.
Proof.
  intros [Ha1 Ha2] [Hb1 Hb2]. rewrite rank_cmp_order. unfold rank_order.
  intros H.
  apply lex_zero in H as [_ H]; apply lex_zero in H as [_ H]; apply lex_zero in H as [_ H].
  apply lex_zero in H as [E1%by_field_zero H]; apply lex_zero in H as [E2%by_field_zero H];
    apply lex_zero in H as [E3%by_field_zero H]; apply lex_zero in H as [E4 H];
    apply lex_zero in H as [E5%by_field_zero H]; apply lex_zero in H as [E6 E7%by_field_zero].
  unfold by_addr in E4, E6. apply memcmp_eq in E4; [|congruence]. apply memcmp_eq in E6; [|congruence].
  destruct (fl_key a), (fl_key b). cbn in *. congruence.
Qed.

(** ** The heap *)

(** [above a b]: [a] is listed no later than [b]. *)
Definition above (a b : flow) : Prop := rank_cmp a b <= 0.

Section Heap.
Implicit Types (h : list flow) (i j : nat).

Lemma above_total a b : flow_wf a -> flow_wf b -> ~ above a b -> above b a.
Proof. intros Ha Hb. unfold above. rewrite (cmp_sign _ _ rank_cmp_ok a b) by done. lia. Qed.

Lemma above_refl a : flow_wf a -> above a a.
Proof. intros Ha. unfold above. pose proof (cmp_sign _ _ rank_cmp_ok a a Ha Ha). lia. Qed.

Lemma above_trans a b c :
  flow_wf a -> flow_wf b -> flow_wf c -> above a b -> above b c -> above a c.
Proof. unfold above. apply rank_cmp_ok. Qed.

Definition parent i : nat := ((i - 1) / 2)%nat.

Lemma parent_lt i : (0 < i)%nat -> (parent i < i)%nat.
Proof. intros Hi. unfold parent. apply Nat.Div0.div_lt_upper_bound. lia. Qed.

Lemma parent_child i j : (0 < j)%nat -> parent j = i <-> j = (2 * i + 1)%nat \/ j = (2 * i + 2)%nat.
Proof.
  intros Hj. unfold parent. pose proof (Nat.div_mod_eq (j - 1) 2) as E.
  pose proof (Nat.mod_upper_bound (j - 1) 2). lia.
Qed.

(** The edge from [j] to its parent is in heap order. *)
Definition edge h j : Prop :=
  forall a b, h !! j = Some a -> h !! parent j = Some b -> above a b.

Definition heap h : Prop := forall j, (0 < j)%nat -> edge h j.

(** The children of [i] are in order with the parent of [i]. *)
Definition skip_edge h i : Prop :=
  forall j a b, (0 < i)%nat -> (0 < j)%nat -> parent j = i -> h !! j = Some a ->
    h !! parent i = Some b -> above a b.

Lemma swap_spec h i j a b :
  h !! i = Some a -> h !! j = Some b ->
  exists h', swap h i j = Some h' /\ h' ≡ₚ h /\ length h' = length h /\
    forall k, h' !! k = if decide (k = j) then Some a else if decide (k = i) then Some b else h !! k.
Proof.
  intros Hi Hj. unfold swap. rewrite Hi, Hj. cbn [mbind option_bind].
  pose proof (lookup_lt_Some _ _ _ Hi). pose proof (lookup_lt_Some _ _ _ Hj).
  eexists. split; [done|]. split; [|split; [by rewrite !length_insert|]].
  - by apply Permutation_insert_swap.
  - intros k. case_decide as E; [subst; by rewrite list_lookup_insert_eq by (by rewrite length_insert)|].
    rewrite list_lookup_insert_ne by done. case_decide as E'.
    + subst. by rewrite list_lookup_insert_eq.
    + by rewrite list_lookup_insert_ne.
Qed.

(** Swapping an element with its parent [b], which it outranks, moves the only
    broken edge up. *)
Lemma swap_up h h1 i a b :
  (0 < i)%nat -> Forall flow_wf h -> h !! i = Some a -> h !! parent i = Some b -> above b a ->
  (forall k, h1 !! k = if decide (k = parent i) then Some a else if decide (k = i) then Some b else h !! k) ->
  (forall j, (0 < j)%nat -> j <> i -> edge h j) -> skip_edge h i ->
  (forall j, (0 < j)%nat -> j <> parent i -> edge h1 j) /\ skip_edge h1 (parent i).
Proof.
  intros H0 Hwf Ea Eb Hba Hlk Hedge Hskip. pose proof (parent_lt i H0) as Hlt.
  assert (Hwfl : forall k x, h !! k = Some x -> flow_wf x) by (intros; by eapply Forall_lookup_1).
  pose proof (Hwfl _ _ Ea) as Ha. pose proof (Hwfl _ _ Eb) as Hb. split.
  - intros j Hj Hne x y. rewrite !Hlk. rewrite (decide_False (P := j = parent i)) by done.
    destruct (decide (j = i)) as [->|Hji].
    { rewrite decide_True by done. by intros [= <-] [= <-]. }
    intros Hx. pose proof (Hwfl j x Hx) as Hwx.
    destruct (decide (parent j = parent i)) as [Ep|Hpp].
    { intros [= <-]. apply (above_trans x b a); try done. apply (Hedge j Hj Hji x b Hx). by rewrite Ep. }
    destruct (decide (parent j = i)) as [Ep|Hpi].
    + intros [= <-]. by apply (Hskip j x b).
    + by apply (Hedge j).
  - intros j x y Hpi Hj Hpj. pose proof (parent_lt (parent i) Hpi) as Hgp.
    rewrite !Hlk. rewrite (decide_False (P := j = parent i)) by (intros ->; lia).
    rewrite (decide_False (P := parent (parent i) = parent i)) by lia.
    rewrite (decide_False (P := parent (parent i) = i)) by lia.
    intros Hx Hy. pose proof (Hwfl _ _ Hy) as Hwy.
    assert (Hby : above b y) by (apply (Hedge (parent i)); [lia|lia|done|done]).
    destruct (decide (j = i)) as [->|Hji]; [by injection Hx as <-|].
    apply (above_trans x b y); try done; [by eapply Hwfl|].
    apply (Hedge j Hj Hji x b Hx). by rewrite Hpj.
Qed.

(** Moving the last element up restores the heap. *)
Lemma sift_up_spec fuel h i :
  (i <= fuel)%nat -> (i < length h)%nat -> Forall flow_wf h ->
  (forall j, (0 < j)%nat -> j <> i -> edge h j) -> skip_edge h i ->
  exists h', sift_up fuel h i = Some h' /\ h' ≡ₚ h /\ heap h'.
Proof.
  revert h i. induction fuel as [|fuel IH]; intros h i Hf Hi Hwf Hedge Hskip; cbn [sift_up];
    case_bool_decide as H0; try lia.
  1, 3: exists h; split; [done|]; split; [done|]; intros j Hj; apply Hedge; lia.
  fold (parent i). pose proof (parent_lt i H0) as Hlt.
  destruct (lookup_lt_is_Some_2 h i) as [a Ea]; [lia|].
  destruct (lookup_lt_is_Some_2 h (parent i)) as [b Eb]; [lia|].
  rewrite Ea, Eb. cbn [mbind option_bind].
  destruct (Z.leb_spec (rank_cmp a b) 0) as [Hle|Hgt].
  { exists h. split; [done|]. split; [done|]. intros j Hj. destruct (decide (j = i)) as [->|Hne].
    - intros a' b'. rewrite Ea, Eb. by intros [= <-] [= <-].
    - by apply Hedge. }
  assert (Hba : above b a) by (apply above_total; [by eapply Forall_lookup_1..|unfold above; lia]).
  destruct (swap_spec h i (parent i) a b Ea Eb) as (h1 & E1 & Hp1 & Hl1 & Hlk).
  destruct (swap_up h h1 i a b) as [Hedge1 Hskip1]; try done.
  rewrite E1. cbn [mbind option_bind].
  destruct (IH h1 (parent i)) as (h2 & -> & Hp2 & Hh2); [lia|lia|by rewrite Hp1|done|done|].
  exists h2. split; [done|]. split; [by rewrite Hp2, Hp1|done].
Qed.

(** One comparison of [sift_down]. *)
Lemma pick_spec h i low j a b :
  h !! j = Some a -> h !! low = Some b -> Forall flow_wf h ->
  let low' := if rank_cmp a b >? 0 then j else low in
  exists c, h !! low' = Some c /\ above a c /\ above b c /\ (low' = low \/ low' = j).
Proof.
  intros Ha Hb Hwf. assert (Hwa : flow_wf a) by (by eapply Forall_lookup_1).
  assert (Hwb : flow_wf b) by (by eapply Forall_lookup_1).
  cbv zeta. rewrite Z.gtb_ltb. destruct (Z.ltb_spec 0 (rank_cmp a b)).
  - exists a. repeat split; [done|by apply above_refl| |by right].
    apply above_total; try done. unfold above. lia.
  - exists b. repeat split; [done|done|by apply above_refl|by left].
Qed.

(** [lowest_at] finds an element that no child of [i] ranks below, nor [i]. *)
Lemma lowest_at_spec h i :
  (i < length h)%nat -> Forall flow_wf h ->
  exists low c, lowest_at h i = Some low /\ h !! low = Some c /\
    (low = i \/ (parent low = i /\ (i < low)%nat)) /\
    forall j a, j = i \/ ((0 < j)%nat /\ parent j = i) -> h !! j = Some a -> above a c.
Proof.
  intros Hi Hwf. assert (Hwfl : forall k x, h !! k = Some x -> flow_wf x)
    by (intros; by eapply Forall_lookup_1).
  destruct (lookup_lt_is_Some_2 h i) as [a Ea]; [lia|]. unfold lowest_at. cbv zeta.
  destruct (decide (2 * i + 1 < length h)%nat) as [Hl|Hl];
    [rewrite (bool_decide_true (2 * i + 1 < length h)%nat) by done|rewrite !bool_decide_false by lia].
  2: { cbn [mbind option_bind]. exists i, a. repeat split; [done|by left|].
       intros j x [->|[Hj Hp]] Hx; [rewrite Ea in Hx; injection Hx as <-; eauto using above_refl|].
       apply parent_child in Hp; [|done]. apply lookup_lt_Some in Hx. lia. }
  destruct (lookup_lt_is_Some_2 h (2 * i + 1)) as [b Eb]; [lia|].
  rewrite Eb, Ea. cbn [mbind option_bind].
  destruct (pick_spec h i i (2 * i + 1) b a Eb Ea Hwf) as (c & Ec & Hbc & Hac & Hlow).
  set (low := if rank_cmp b a >? 0 then _ else i) in *.
  assert (Hp1 : parent (2 * i + 1) = i) by (apply parent_child; lia).
  assert (Hlow1 : low = i \/ (parent low = i /\ (i < low)%nat))
    by (destruct Hlow as [->| ->]; [by left|right; split; [done|lia]]).
  case_bool_decide as Hr.
  2: { exists low, c. split; [done|]. split; [done|]. split; [done|].
       intros j x [->|[Hj Hp]] Hx; [congruence|].
       apply parent_child in Hp; [|done]. destruct Hp as [->| ->]; [congruence|].
       apply lookup_lt_Some in Hx. lia. }
  destruct (lookup_lt_is_Some_2 h (2 * i + 1 + 1)) as [d Ed]; [lia|].
  rewrite Ed, Ec. cbn [mbind option_bind].
  destruct (pick_spec h i low (2 * i + 1 + 1) d c Ed Ec Hwf) as (e & Ee & Hde & Hce & Hlow').
  set (low' := if rank_cmp d c >? 0 then _ else low) in *.
  exists low', e. split; [done|]. split; [done|]. split.
  { destruct Hlow' as [->| ->]; [done|]. right. split; [apply parent_child; lia|lia]. }
  intros j x [->|[Hj Hp]] Hx.
  - rewrite Ea in Hx. injection Hx as <-. by apply (above_trans a c e); eauto.
  - apply parent_child in Hp; [|done]. destruct Hp as [->| ->].
    + rewrite Eb in Hx. injection Hx as <-. by apply (above_trans b c e); eauto.
    + replace (2 * i + 2)%nat with (2 * i + 1 + 1)%nat in Hx by lia. congruence.
Qed.

(** Moving the element at [i] down restores the heap. *)
Lemma sift_down_spec fuel h i :
  (length h - i < fuel)%nat -> (i < length h)%nat -> Forall flow_wf h ->
  (forall j, (0 < j)%nat -> parent j <> i -> edge h j) -> skip_edge h i ->
  exists h', sift_down fuel h i = Some h' /\ h' ≡ₚ h /\ heap h'.
Proof.
  revert h i. induction fuel as [|fuel IH]; intros h i Hf Hi Hwf Hedge Hskip; [lia|].
  cbn [sift_down].
  assert (Hwfl : forall k x, h !! k = Some x -> flow_wf x)
    by (intros; by eapply Forall_lookup_1).
  destruct (lowest_at_spec h i Hi Hwf) as (low & c & -> & Ec & Hlow & Habove).
  cbn [mbind option_bind]. case_bool_decide as Heq.
  { exists h. split; [done|]. split; [done|]. subst low. intros j Hj.
    destruct (decide (parent j = i)) as [Hp|Hp]; [|by apply Hedge].
    intros x y Hx Hy. rewrite Hp, Ec in Hy. injection Hy as <-. apply (Habove j); auto. }
  destruct Hlow as [?|[Hpl Hlt]]; [done|].
  destruct (lookup_lt_is_Some_2 h i) as [a Ea]; [lia|].
  pose proof (lookup_lt_Some _ _ _ Ec) as Hlowlen.
  destruct (swap_spec h i low a c Ea Ec) as (h1 & -> & Hp1 & Hl1 & Hlk).
  cbn [mbind option_bind].
  assert (Hac : above a c) by (apply (Habove i); auto).
  destruct (IH h1 low) as (h2 & -> & Hp2 & Hh2); [lia|lia|by rewrite Hp1| | |].
  - intros j Hj Hne x y. rewrite !Hlk.
    destruct (decide (parent j = low)) as [?|_]; [done|].
    destruct (decide (j = low)) as [->|Hjl].
    { rewrite decide_True by done. by intros [= <-] [= <-]. }
    destruct (decide (j = i)) as [->|Hji].
    { rewrite decide_False by (pose proof (parent_lt i Hj); lia).
      intros [= <-] Hy. apply (Hskip low c y); done || lia. }
    destruct (decide (parent j = i)) as [Hp|Hp].
    + intros Hx [= <-]. apply (Habove j); auto.
    + by apply (Hedge j).
  - intros j x y _ Hj Hp. rewrite !Hlk.
    rewrite (decide_False (P := j = low)) by (intros ->; pose proof (parent_lt low Hj); lia).
    rewrite (decide_False (P := j = i)) by (intros ->; pose proof (parent_lt i Hj); lia).
    rewrite Hpl, (decide_False (P := i = low)) by lia. rewrite decide_True by done.
    intros Hx [= <-]. apply (Hedge j Hj); [lia|done|by rewrite Hp].
  - exists h2. split; [done|]. split; [by rewrite Hp2, Hp1|done].
Qed.

(** The root of a heap ranks lowest. *)
Lemma heap_root h root j x :
  heap h -> Forall flow_wf h -> h !! 0%nat = Some root -> h !! j = Some x -> above x root.
Proof.
  intros Hh Hwf Hr. revert x. induction (lt_wf j) as [j _ IH]. intros x Hx.
  assert (Hwfl : forall k x, h !! k = Some x -> flow_wf x)
    by (intros; by eapply Forall_lookup_1).
  destruct (decide (j = 0%nat)) as [->|Hj]; [rewrite Hr in Hx; injection Hx as <-; eauto using above_refl|].
  pose proof (parent_lt j ltac:(lia)) as Hlt.
  destruct (lookup_lt_is_Some_2 h (parent j)) as [y Hy]; [apply lookup_lt_Some in Hx; lia|].
  apply (above_trans x y root); eauto. by apply (Hh j ltac:(lia)).
Qed.
End Heap.

(** ** The selection *)

(** [out] holds the best of the flows seen, [dropped] the rest. *)
Record selection (n : nat) (seen out dropped : list flow) : Prop := {
  sel_heap : heap out;
  sel_perm : out ++ dropped ≡ₚ seen;
  sel_len : (length out <= n)%nat;
  sel_full : (length out < n)%nat -> dropped = [];
  sel_above : forall a b, a ∈ out -> b ∈ dropped -> above a b
}.

Lemma heap_snoc h f j :
  heap h -> (0 < j)%nat -> j <> length h -> edge (h ++ [f]) j.
Proof.
  intros Hh Hj Hne a b Ha Hb. pose proof (parent_lt j Hj).
  pose proof (lookup_lt_Some _ _ _ Ha) as Hl. rewrite length_app in Hl. cbn in Hl.
  rewrite lookup_app_l in Ha, Hb by lia. by apply (Hh j Hj).
Qed.

(** While there is room, the new flow is added to the heap. *)
Lemma offer_more n seen out f :
  selection n seen out [] -> (length out < n)%nat -> Forall flow_wf seen -> flow_wf f ->
  exists h, sift_up (length out) (out ++ [f]) (length out) = Some h /\ selection n (f :: seen) h [].
Proof.
  intros [Hh Hp _ _ _] Hk Hwf Hf. rewrite app_nil_r in Hp.
  destruct (sift_up_spec (length out) (out ++ [f]) (length out)) as (h & E & Hph & Hhh).
  - done.
  - rewrite length_app. cbn. lia.
  - apply Forall_app. split; [by rewrite Hp|by constructor].
  - intros j Hj Hne. by apply heap_snoc.
  - intros j a b _ Hj Hpj Ha _. apply parent_child in Hpj; [|done].
    apply lookup_lt_Some in Ha. rewrite length_app in Ha. cbn in Ha. lia.
  - exists h. split; [done|]. split; try done.
    + by rewrite app_nil_r, Hph, Hp, Permutation_app_comm.
    + rewrite Hph, length_app. cbn. lia.
    + intros a b _ Hb. by apply elem_of_nil in Hb.
Qed.

(** A full heap keeps the better of the new flow and its root, the lowest kept. *)
Lemma offer_replace n seen rest root dropped f :
  selection n seen (root :: rest) dropped -> Forall flow_wf seen -> flow_wf f -> above f root ->
  n = S (length rest) -> exists h, sift_down (S (S (length rest))) (f :: rest) 0 = Some h /\ selection n (f :: seen) h (root :: dropped).
Proof.
  intros [Hh Hp Hl _ Hab] Hwf Hf Hfr Hn.
  assert (Hwfa : Forall flow_wf ((root :: rest) ++ dropped)) by (by rewrite Hp).
  apply Forall_app in Hwfa as [Hwfo Hwfd]. pose proof (Forall_inv Hwfo) as Hwr. pose proof (Forall_inv_tail Hwfo) as Hwrest.
  destruct (sift_down_spec (S (S (length rest))) (f :: rest) 0) as (h & E & Hph & Hhh).
  - cbn. lia.
  - cbn. lia.
  - by constructor.
  - intros [|j] Hj Hpj a b; [lia|]. destruct (parent (S j)) as [|k] eqn:Ek; [done|]. cbn [lookup list_lookup].
    specialize (Hh (S j) Hj a b). by rewrite Ek in Hh.
  - intros j a b H0. lia.
  - exists h. split; [done|]. split; try done.
    + rewrite Hph, <- Hp. cbn. constructor. by rewrite <- Permutation_middle.
    + by rewrite Hph.
    + rewrite Hph. cbn. lia.
    + intros a b Ha Hb. rewrite Hph in Ha. rewrite !Forall_forall in *.
      assert (Har : above a root /\ flow_wf a).
      { apply elem_of_cons in Ha as [->|Ha]; [done|]. split; [|by auto].
        apply list_elem_of_lookup in Ha as [j Hj]. apply (heap_root (root :: rest) root (S j) a); try done.
        rewrite Forall_forall. done. }
      destruct Har as [Har Hwa]. apply elem_of_cons in Hb as [->|Hb]; [done|].
      apply (above_trans a root b); auto. apply Hab; [by left|done].
Qed.

Lemma offer_reject n seen rest root dropped f :
  selection n seen (root :: rest) dropped -> Forall flow_wf seen -> flow_wf f -> above root f ->
  n = S (length rest) -> selection n (f :: seen) (root :: rest) (f :: dropped).
Proof.
  intros [Hh Hp Hl Hfull Hab] Hwf Hf Hrf Hn.
  assert (Hwfa : Forall flow_wf ((root :: rest) ++ dropped)) by (by rewrite Hp).
  apply Forall_app in Hwfa as [Hwfo Hwfd].
  split; try done.
  - by rewrite <- Permutation_middle, Hp.
  - cbn. lia.
  - intros a b Ha Hb. apply elem_of_cons in Hb as [->|Hb]; [|by apply Hab].
    apply list_elem_of_lookup in Ha as [j Hj]. pose proof (Forall_lookup_1 _ _ _ _ Hwfo Hj) as Hwa.
    apply (above_trans a root f); try done; [by apply (Forall_inv Hwfo)|by apply (heap_root (root :: rest) root j a)].
Qed.

Lemma offer_spec n seen out dropped f :
  (0 < n)%nat -> selection n seen out dropped -> Forall flow_wf seen -> flow_wf f ->
  exists out' dropped', offer n out f = Some out' /\ selection n (f :: seen) out' dropped'.
Proof.
  intros Hn Hsel Hwf Hf. pose proof Hsel as [_ Hp Hl Hfull _]. unfold offer. cbv zeta. case_bool_decide as Hk.
  { specialize (Hfull Hk). subst dropped. destruct (offer_more n seen out f) as (h & E & Hs); try done. by exists h, []. }
  destruct out as [|root rest]; [cbn in Hk; lia|]. cbn [lookup list_lookup mbind option_bind].
  assert (Hwr : flow_wf root) by (rewrite Forall_forall in Hwf; apply Hwf; rewrite <- Hp; by left).
  destruct (Z.ltb_spec (rank_cmp f root) 0) as [Hlt|Hge].
  - destruct (offer_replace n seen rest root dropped f) as (h & E & Hs); try done;
      [unfold above; lia|cbn in *; lia|].
    by exists h, (root :: dropped).
  - exists (root :: rest), (f :: dropped). split; [done|]. apply offer_reject; try done; [|cbn in *; lia].
    unfold above. rewrite (cmp_sign _ _ rank_cmp_ok f root) by done. lia.
Qed.

Lemma offer_all_spec n fs seen out dropped :
  (0 < n)%nat -> selection n seen out dropped -> Forall flow_wf seen -> Forall flow_wf fs ->
  exists out' dropped' seen', offer_all n out fs = Some out' /\ seen' ≡ₚ fs ++ seen /\
    selection n seen' out' dropped'.
Proof.
  intros Hn. revert seen out dropped.
  induction fs as [|f fs IH]; intros seen out dropped Hsel Hwf Hfs; cbn [offer_all].
  { by exists out, dropped, seen. }
  apply Forall_cons in Hfs as [Hf Hfs].
  destruct (offer_spec n seen out dropped f Hn Hsel Hwf Hf) as (out1 & dr1 & -> & Hsel1).
  cbn [mbind option_bind].
  destruct (IH (f :: seen) out1 dr1) as (out2 & dr2 & seen2 & -> & Hp & Hsel2);
    [done|by constructor|done|].
  exists out2, dr2, seen2. split; [done|]. split; [|done]. rewrite Hp. cbn.
  by rewrite Permutation_middle.
Qed.

Lemma rank_consistent (fs : list flow) : Forall flow_wf fs -> consistent rank_cmp fs.
Proof.
  rewrite Forall_forall. intros Hwf. split.
  - intros x y Hx Hy. destruct (Z.leb_spec (rank_cmp x y) 0); [by left|right].
    apply above_total; auto. unfold above. lia.
  - intros x y z Hx Hy Hz. apply (above_trans x y z); auto.
Qed.

(** Flows with different keys are strictly ranked. *)
Lemma rank_antisym (fs : list flow) :
  Forall flow_wf fs -> NoDup (map fl_key fs) ->
  forall x y, x ∈ fs -> y ∈ fs -> above x y -> above y x -> x = y.
Proof.
  rewrite Forall_forall. intros Hwf Hnd x y Hx Hy Hxy Hyx. unfold above in *.
  rewrite (cmp_sign _ _ rank_cmp_ok x y) in Hyx by auto.
  assert (Hk : fl_key x = fl_key y) by (apply rank_cmp_zero; auto; lia).
  apply list_elem_of_lookup in Hx as [i Hi], Hy as [j Hj].
  assert (i = j) as ->; [|congruence].
  eapply (NoDup_lookup (map fl_key fs) i j (fl_key x)); [done| |]; rewrite list_lookup_fmap.
  - by rewrite Hi.
  - by rewrite Hj, Hk.
Qed.

Section Sorting.
Context `{QSort}.

(** Every [qsort] returns the same ranking of flows with different keys. *)
Lemma ranking_unique (fs l : list flow) :
  Forall flow_wf fs -> NoDup (map fl_key fs) -> l ≡ₚ fs -> StronglySorted above l ->
  l = qsort rank_cmp fs.
Proof.
  intros Hwf Hnd Hp Hs. apply (StronglySorted_unique_strong above); [|done| |].
  - intros x y Hx Hy. rewrite Hp in Hx. rewrite qsort_perm in Hy. by apply (rank_antisym fs).
  - apply (qsort_sorted rank_cmp), rank_consistent, Hwf.
  - by rewrite Hp, qsort_perm.
Qed.

(** The order of the ranking is strict. *)
Lemma strict_ranking (fs : list flow) :
  Forall flow_wf fs -> NoDup (map fl_key fs) ->
  StronglySorted (fun a b => rank_cmp a b < 0) (qsort rank_cmp fs).
Proof.
  intros Hwf Hnd. rewrite <- (qsort_perm rank_cmp fs) in Hwf, Hnd.
  assert (Hs : StronglySorted above (qsort rank_cmp fs))
    by (apply (qsort_sorted rank_cmp), rank_consistent; by rewrite <- (qsort_perm rank_cmp fs)).
  induction Hs as [|f l Hs IH Hf]; [constructor|].
  apply Forall_cons in Hwf as [Hwff Hwf]. apply NoDup_cons in Hnd as [Hnin Hnd].
  constructor; [by apply IH|]. rewrite Forall_forall in Hf, Hwf |- *. intros g Hg.
  specialize (Hf g Hg). unfold above in Hf.
  destruct (decide (rank_cmp f g = 0)) as [E|]; [|lia].
  apply rank_cmp_zero in E; [|done|by apply Hwf]. exfalso. apply Hnin. rewrite E.
  by apply (list_elem_of_fmap_2 fl_key).
Qed.

Lemma top_n_entries (fs : list flow) n :
  Forall flow_wf fs -> NoDup (map fl_key fs) -> (0 < n)%nat ->
  exists out, offer_all n [] fs = Some out /\
              qsort rank_cmp out = take n (qsort rank_cmp fs).
Proof.
  intros Hwf Hnd Hn.
  destruct (offer_all_spec n fs [] [] []) as (out & dr & seen & E & Hseen & [_ Hp Hl Hfull Hab]);
    [done| |done|done|].
  { split; [intros j Hj a b Ha; by rewrite lookup_nil in Ha|done|cbn; lia|done|].
    intros a b Ha. by apply elem_of_nil in Ha. }
  rewrite app_nil_r in Hseen. rewrite Hseen in Hp. exists out. split; [done|].
  assert (Hwf' : Forall flow_wf (out ++ dr)) by (by rewrite Hp).
  apply Forall_app in Hwf' as [Hwo Hwd].
  rewrite <- (ranking_unique fs (qsort rank_cmp out ++ qsort rank_cmp dr)); [|done|done| |].
  - destruct (decide (length out < n)%nat) as [Hlt|Hge].
    + rewrite (Hfull Hlt). rewrite take_ge; [|].
      * assert (E0 : qsort rank_cmp ([] : list flow) = [])
          by (apply Permutation_nil_r; by rewrite qsort_perm). by rewrite E0, app_nil_r.
      * rewrite length_app, !qsort_perm. cbn. lia.
    + rewrite take_app_le by (rewrite qsort_perm; lia). rewrite take_ge; [done|].
      rewrite qsort_perm. lia.
  - by rewrite !qsort_perm.
  - apply StronglySorted_app_2.
    + intros a b Ha Hb. rewrite qsort_perm in Ha, Hb. by apply Hab.
    + by apply (qsort_sorted rank_cmp), rank_consistent.
    + by apply (qsort_sorted rank_cmp), rank_consistent.
Qed.

(** ** Distinct TEIDs *)
Lemma teid_cmp_le x y : teid_cmp x y <= 0 <-> x <= y.
Proof.
  unfold teid_cmp. rewrite Z.gtb_ltb.
  destruct (Z.ltb_spec y x), (Z.ltb_spec x y); cbn; lia.
Qed.

Lemma teid_consistent (l : list Z) : consistent teid_cmp l.
Proof.
  split; [intros x y _ _|intros x y z _ _ _]; rewrite !teid_cmp_le; lia.
Qed.

Lemma size_union_singleton (x : Z) (s : gset Z) :
  size ({[ x ]} ∪ s) = S (size (s ∖ {[ x ]})).
Proof.
  replace ({[ x ]} ∪ s) with ({[ x ]} ∪ (s ∖ {[ x ]})).
  - rewrite size_union by set_solver. by rewrite size_singleton.
  - apply set_eq. intros y. destruct (decide (y = x)); set_solver.
Qed.

Lemma size_list_to_set_le (l : list Z) : (size (list_to_set l : gset Z) <= length l)%nat.
Proof.
  induction l as [|x l IH]; cbn [list_to_set length]; [by rewrite size_empty|].
  rewrite size_union_singleton. apply le_n_S. etrans; [|exact IH].
  apply subseteq_size. set_solver.
Qed.

(** In a sorted array the runs after [p] are the distinct values but [p]. *)
Lemma count_runs_after (l : list Z) p :
  StronglySorted Z.le (p :: l) ->
  count_runs (Some p) l = Z.of_nat (size (list_to_set l ∖ {[ p ]} : gset Z)).
Proof.
  revert p. induction l as [|x l IH]; intros p Hs; cbn [count_runs list_to_set].
  { replace (∅ ∖ {[ p ]} : gset Z) with (∅ : gset Z) by set_solver. by rewrite size_empty. }
  apply StronglySorted_cons in Hs as [Hp Hs]. rewrite (IH x) by done.
  apply Forall_cons in Hp as [Hpx Hp].
  destruct (decide (p = x)) as [->|Hne].
  - rewrite bool_decide_true by done. rewrite Z.add_0_l. do 2 f_equal. set_solver.
  - rewrite bool_decide_false by congruence.
    replace (({[ x ]} ∪ list_to_set l) ∖ {[ p ]} : gset Z) with ({[ x ]} ∪ list_to_set l : gset Z).
    + rewrite size_union_singleton. lia.
    + apply StronglySorted_cons in Hs as [Hx _]. rewrite Forall_forall in Hx.
      apply set_eq. intros y. rewrite elem_of_difference, elem_of_union, !elem_of_singleton,
        elem_of_list_to_set. split; [|tauto]. intros Hy. split; [done|]. intros ->.
      destruct Hy as [?|Hy]; [done|]. specialize (Hx _ Hy). lia.
Qed.

Lemma count_runs_sorted (l : list Z) :
  StronglySorted Z.le l -> count_runs None l = Z.of_nat (size (list_to_set l : gset Z)).
Proof.
  intros Hs. destruct l as [|x l]; [done|]. cbn [count_runs list_to_set].
  rewrite bool_decide_false by done. rewrite count_runs_after by done.
  rewrite size_union_singleton. lia.
Qed.

Lemma count_qsort (l : list Z) :
  count_runs None (qsort teid_cmp l) = Z.of_nat (size (list_to_set l : gset Z)).
Proof.
  pose proof (qsort_sorted teid_cmp l (teid_consistent l)) as Hs.
  rewrite count_runs_sorted.
  - f_equal. apply (f_equal size), set_eq. intros x. rewrite !elem_of_list_to_set.
    by rewrite qsort_perm.
  - apply (StronglySorted_fmap id (fun x y => teid_cmp x y <= 0) Z.le (qsort teid_cmp l))
      in Hs; [by rewrite list_fmap_id in Hs|]. intros x y. apply teid_cmp_le.
Qed.
End Sorting.
