(* ===== verification/FlowTheorems.v ===== *)
(** Properties of the flow table: canonical keys, accounting, lookup, growth,
    iteration, top-N and distinct TEIDs. *)
From S2P Require Export TopN.

(** ** Canonical keys *)

(** The order of two endpoints, by address and then port. *)
Definition endpoint_cmp (src dst : bytes) (sport dport : Z) : Z :=
  if memcmp src dst =? 0 then Z.b2z (sport >? dport) - Z.b2z (sport <? dport)
  else memcmp src dst.

Definition addrs_ok (pi : packet_info) : Prop :=
  length (pi_src_addr pi) = 16%nat /\ length (pi_dst_addr pi) = 16%nat.

Definition pi_reversed (pi : packet_info) : bool :=
  endpoint_cmp (pi_src_addr pi) (pi_dst_addr pi) (pi_src_port pi) (pi_dst_port pi) >? 0.

Definition pi_key (pi : packet_info) : flow_key :=
  if pi_reversed pi
  then Flow_key 0 (pi_ip_version pi) (pi_ip_proto pi) (pi_dst_port pi) (pi_src_port pi)
                (pi_dst_addr pi) (pi_src_addr pi)
  else Flow_key 0 (pi_ip_version pi) (pi_ip_proto pi) (pi_src_port pi) (pi_dst_port pi)
                (pi_src_addr pi) (pi_dst_addr pi).

Lemma flow_key_eq pi :
  addrs_ok pi ->
  flow_key_from_packet pi = if pi_has_l3 pi then Some (pi_key pi, pi_reversed pi) else None.
Proof.
  intros [Hs Hd]. unfold flow_key_from_packet, pi_key, pi_reversed, endpoint_cmp.
  destruct (pi_has_l3 pi); [|done]. cbn [negb].
  set (r := _ >? 0). destruct r; cbn -[replicate];
    by rewrite !overwrite_full by (rewrite length_replicate; congruence).
Qed.

Lemma pi_key_wf pi : addrs_ok pi -> key_wf (pi_key pi).
Proof. intros [? ?]. unfold pi_key. by destruct (pi_reversed pi). Qed.

(** The endpoints are the same pair, in the same order or swapped. *)
Definition same_ends (p q : packet_info) : Prop :=
  pi_src_addr p = pi_src_addr q /\ pi_src_port p = pi_src_port q /\
  pi_dst_addr p = pi_dst_addr q /\ pi_dst_port p = pi_dst_port q.
Definition swapped_ends (p q : packet_info) : Prop :=
  pi_src_addr p = pi_dst_addr q /\ pi_src_port p = pi_dst_port q /\
  pi_dst_addr p = pi_src_addr q /\ pi_dst_port p = pi_src_port q.

Lemma endpoint_cmp_swap src dst sp dp :
  length src = length dst -> endpoint_cmp dst src dp sp = - endpoint_cmp src dst sp dp.
Proof.
  intros Hl. unfold endpoint_cmp. rewrite (memcmp_sign src dst) by done. rewrite !Z.gtb_ltb.
  destruct (Z.eqb_spec (memcmp src dst) 0), (Z.eqb_spec (- memcmp src dst) 0); try lia.
Qed.

Lemma endpoint_cmp_zero src dst sp dp :
  length src = length dst -> endpoint_cmp src dst sp dp = 0 -> src = dst /\ sp = dp.
Proof.
  intros Hl. unfold endpoint_cmp. rewrite Z.gtb_ltb.
  destruct (Z.eqb_spec (memcmp src dst) 0) as [E|]; [|done].
  apply memcmp_eq in E; [|done].
  destruct (Z.ltb_spec dp sp), (Z.ltb_spec sp dp); cbn; intros; try lia. split; [done|lia].
Qed.

(** C37. A flow key identifies the conversation: two packets with a valid IP layer
    get the same key exactly when they agree on IP version and protocol and run
    between the same two endpoints, in the same or the opposite direction.  A
    packet without a valid IP layer gets none. *)
Theorem flow_key_canonical p q :
  addrs_ok p -> addrs_ok q ->
  (pi_has_l3 p = false <-> flow_key_from_packet p = None) /\
  (pi_has_l3 p = true -> pi_has_l3 q = true ->
   exists kp rp kq rq, flow_key_from_packet p = Some (kp, rp) /\
     flow_key_from_packet q = Some (kq, rq) /\
     (kp = kq <-> pi_ip_version p = pi_ip_version q /\ pi_ip_proto p = pi_ip_proto q /\
                  (same_ends p q \/ swapped_ends p q))).
Proof.
  intros Hp Hq. rewrite !flow_key_eq by done.
  split; [by destruct (pi_has_l3 p)|]. intros -> ->.
  eexists _, _, _, _. split; [done|]. split; [done|].
  destruct Hp as [Hp1 Hp2], Hq as [Hq1 Hq2].
  unfold pi_key, pi_reversed, same_ends, swapped_ends. rewrite !Z.gtb_ltb. split.
  - repeat case_match; intros [= ? ? ? ? ? ?]; auto 10.
  - intros (Ev & Epr & [(E1 & E2 & E3 & E4)|(E1 & E2 & E3 & E4)]);
      rewrite Ev, Epr, E1, E2, E3, E4; [done|].
    rewrite (endpoint_cmp_swap (pi_src_addr q)) by congruence.
    set (c := endpoint_cmp _ _ _ _).
    destruct (Z.ltb_spec 0 (- c)), (Z.ltb_spec 0 c); try done; [lia|].
    destruct (endpoint_cmp_zero (pi_src_addr q) (pi_dst_addr q) (pi_src_port q) (pi_dst_port q))
      as [-> ->]; [congruence|fold c; lia|done].
Qed.

(** The packet that travels the other way. *)
Definition reply (pi : packet_info) : packet_info :=
  pi <| pi_src_addr := pi_dst_addr pi |> <| pi_dst_addr := pi_src_addr pi |>
     <| pi_src_port := pi_dst_port pi |> <| pi_dst_port := pi_src_port pi |>.

(** A reply joins the flow of its request, from the other side: it gets the
    same key and the opposite direction, except when both ends are the same
    address and port, where the direction is "not reversed" for both. *)
Lemma flow_key_reply pi k rev :
  addrs_ok pi -> flow_key_from_packet pi = Some (k, rev) ->
  exists rev', flow_key_from_packet (reply pi) = Some (k, rev') /\
    (rev' = negb rev \/
     (rev = false /\ rev' = false /\ pi_src_addr pi = pi_dst_addr pi /\
      pi_src_port pi = pi_dst_port pi)).
Proof.
  intros Hok. pose proof Hok as [Hs Hd].
  rewrite (flow_key_eq pi Hok), (flow_key_eq (reply pi)) by (by split).
  change (pi_has_l3 (reply pi)) with (pi_has_l3 pi). destruct (pi_has_l3 pi); [|done].
  intros [= <- <-]. exists (pi_reversed (reply pi)).
  set (c := endpoint_cmp (pi_src_addr pi) (pi_dst_addr pi) (pi_src_port pi) (pi_dst_port pi)).
  assert (Er : pi_reversed pi = (0 <? c)) by (unfold pi_reversed; by rewrite Z.gtb_ltb).
  assert (Er' : pi_reversed (reply pi) = (0 <? - c)).
  { unfold pi_reversed. rewrite Z.gtb_ltb. f_equal.
    apply (endpoint_cmp_swap (pi_src_addr pi)). rewrite Hs. by symmetry. }
  unfold pi_key. rewrite Er', Er. cbn.
  destruct (Z.ltb_spec 0 (- c)), (Z.ltb_spec 0 c); try lia; try (split; [done|by left]).
  destruct (endpoint_cmp_zero (pi_src_addr pi) (pi_dst_addr pi) (pi_src_port pi) (pi_dst_port pi))
    as [Ea Ep]; [congruence|fold c; lia|]. rewrite Ea, Ep. auto 10.
Qed.

(** Tunnel keys are directional: only a GTPv1-U packet has one, and two such
    packets share it exactly when they agree on TEID, IP version, protocol,
    outer source and outer destination, in that order. *)
Lemma tunnel_key_directional p q :
  addrs_ok p -> addrs_ok q ->
  (tunnel_key_from_packet p = None <-> pi_is_gtpu p = false \/ pi_gtp_v1u p = false) /\
  (forall kp kq, tunnel_key_from_packet p = Some kp -> tunnel_key_from_packet q = Some kq ->
     (kp = kq <-> pi_teid p = pi_teid q /\ pi_ip_version p = pi_ip_version q /\
                  pi_ip_proto p = pi_ip_proto q /\ pi_src_addr p = pi_src_addr q /\
                  pi_dst_addr p = pi_dst_addr q)).
Proof.
  intros [Hp1 Hp2] [Hq1 Hq2]. unfold tunnel_key_from_packet. split.
  - destruct (pi_is_gtpu p), (pi_gtp_v1u p); cbn; split; auto; try done; intros [?|?]; done.
  - intros kp kq. destruct (_ || _); [done|]. destruct (_ || _); [done|]. cbn -[replicate].
    rewrite !overwrite_full by (rewrite length_replicate; congruence). intros [= <-] [= <-].
    split; [by intros [= -> -> -> -> ->]|by intros (-> & -> & -> & -> & ->)].
Qed.

(** ** Accounting *)

(** The calls the analyzer makes on its two tables. *)
Inductive add_call :=
| Add_packet (pi : packet_info) (wire_len ts_ns : Z)
| Add_tunnel (pi : packet_info) (wire_len ts_ns : Z).

Definition add_one (t : flow_table) (c : add_call) (alloc : bool) : option (Z * flow_table) :=
  match c with
  | Add_packet pi len ts => flow_table_add_packet t pi len ts alloc
  | Add_tunnel pi len ts => flow_table_add_tunnel t pi len ts alloc
  end.

Definition add_pi (c : add_call) : packet_info :=
  match c with Add_packet pi _ _ | Add_tunnel pi _ _ => pi end.

(** What a call accounts, when its packet has a key. *)
Definition add_acct (c : add_call) : option acct :=
  match c with
  | Add_packet pi len ts =>
    '(key, rev) ← flow_key_from_packet pi;
    let flags := if (pi_ip_proto pi =? IPPROTO_NUM_TCP) && pi_has_l4 pi
                 then pi_tcp_flags pi else 0 in
    Some (Acct key rev flags len ts)
  | Add_tunnel pi len ts => key ← tunnel_key_from_packet pi; Some (Acct key false 0 len ts)
  end.

Lemma add_one_acct t c alloc :
  add_one t c alloc =
  match add_acct c with None => Some (0, t) | Some a => account_one t a alloc end.
Proof.
  destruct c; cbn; unfold flow_table_add_packet, flow_table_add_tunnel;
    [destruct (flow_key_from_packet pi) as [[k r]|]|destruct (tunnel_key_from_packet pi)]; done.
Qed.

Lemma add_acct_wf c a : addrs_ok (add_pi c) -> add_acct c = Some a -> key_wf (ac_key a).
Proof.
  destruct c; cbn; intros Hok.
  - rewrite flow_key_eq by done. destruct (pi_has_l3 pi); [|done]. cbn. intros [= <-].
    by apply pi_key_wf.
  - destruct Hok as [Hs Hd]. unfold tunnel_key_from_packet. destruct (_ || _); [done|].
    cbn -[replicate]. intros [= <-].
    split; cbn -[replicate]; by rewrite overwrite_full by first [exact Hs | exact Hd].
Qed.

(** A sequence of calls, each with the outcome of the allocation it may need: the
    codes returned, and the table. *)
Fixpoint add_run (t : flow_table) (calls : list (add_call * bool)) : option (list Z * flow_table) :=
  match calls with
  | [] => Some ([], t)
  | (c, alloc) :: calls =>
    '(rc, t) ← add_one t c alloc;
    '(rcs, t) ← add_run t calls;
    Some (rc :: rcs, t)
  end.

(** The packets accounted by the calls that returned 0. *)
Fixpoint accounted (calls : list (add_call * bool)) (rcs : list Z) : list acct :=
  match calls, rcs with
  | (c, _) :: calls, rc :: rcs =>
    (if rc =? 0 then option_list (add_acct c) else []) ++ accounted calls rcs
  | _, _ => []
  end.

Lemma add_run_spec t l calls :
  represents t l -> (forall c, c ∈ calls -> addrs_ok (add_pi c.1)) ->
  exists rcs t', add_run t calls = Some (rcs, t') /\ length rcs = length calls /\
    represents t' (l ++ accounted calls rcs) /\
    Forall (fun rc => rc = 0 \/ rc = -1) rcs /\
    (Forall (fun c => c.2 = true) calls -> ft_count t + Z.of_nat (length calls) <= 2 ^ 56 ->
     Forall (fun rc => rc = 0) rcs).
Proof.
  revert t l. induction calls as [|[c alloc] calls IH]; intros t l Hr Hok; cbn [add_run].
  { exists [], t. cbn. rewrite app_nil_r. auto 10. }
  assert (Hok' : forall c, c ∈ calls -> addrs_ok (add_pi c.1)) by (intros; apply Hok; by right).
  assert (Hc : addrs_ok (add_pi c)) by (apply (Hok (c, alloc)); by left).
  assert (Hstep : exists rc t1, add_one t c alloc = Some (rc, t1) /\ (rc = 0 \/ rc = -1) /\
            represents t1 (l ++ if rc =? 0 then option_list (add_acct c) else []) /\
            ft_count t1 <= ft_count t + 1 /\
            (alloc = true -> ft_count t < 2 ^ 56 -> rc = 0)).
  { rewrite add_one_acct. destruct (add_acct c) as [a|] eqn:Ea.
    2: { exists 0, t. cbn. rewrite app_nil_r. split; [done|]. split; [by left|]. split; [done|].
         split; [lia|done]. }
    destruct (represents_step t l a alloc Hr (add_acct_wf c a Hc Ea))
      as (rc & t1 & E & [(-> & Hr1 & Hn)|(-> & -> & Hg & Ha)]); rewrite E.
    - exists 0, t1. cbn. auto 10.
    - exists (-1), t. cbn. rewrite app_nil_r. split; [done|]. split; [by right|].
      split; [done|]. split; [lia|]. intros -> Hn. destruct Ha as [?|Ha]; [done|].
      unfold must_grow in Hg. lia. }
  destruct Hstep as (rc & t1 & E & Hrc & Hr1 & Hn & H0). rewrite E. cbn [mbind option_bind].
  destruct (IH t1 _ Hr1 Hok') as (rcs & t2 & -> & Hlen & Hr2 & Hall & Hz).
  cbn [mbind option_bind]. exists (rc :: rcs), t2. split; [done|]. cbn [length accounted].
  split; [by rewrite Hlen|]. split; [by rewrite app_assoc|]. split; [by constructor|].
  intros Hal Hb. apply Forall_cons in Hal as [Ha Hal]. cbn in Ha. constructor; [apply H0; [done|lia]|].
  apply Hz; [done|lia].
Qed.

(** C7. Accounting.  Start from a fresh table and make any sequence of calls, with
    any allocations failing: every call returns 0 or -1; all return 0 while
    allocations succeed (up to 2^56 calls); and afterwards looking a key up finds
    nothing when no call that returned 0 had that key, and otherwise finds the
    one entry that adds those calls up - their number and bytes modulo 2^64, the
    earliest and the latest timestamp, the side of the first call with the
    earliest timestamp, and the union of the TCP flags. *)
Theorem flow_accounting hint calls :
  (forall c, c ∈ calls -> addrs_ok (add_pi c.1)) ->
  exists t0 rcs t, flow_table_init hint true = Some (0, t0) /\
    add_run t0 calls = Some (rcs, t) /\ length rcs = length calls /\
    Forall (fun rc => rc = 0 \/ rc = -1) rcs /\
    (Forall (fun c => c.2 = true) calls -> Z.of_nat (length calls) <= 2 ^ 56 ->
     Forall (fun rc => rc = 0) rcs) /\
    forall key, key_wf key ->
      match flow_table_find t key with
      | None => False
      | Some None => filter (same_key key) (accounted calls rcs) = []
      | Some (Some i) => exists f, slot_at (ft_slots t) i = Some f /\
          filter (same_key key) (accounted calls rcs) <> [] /\
          flow_of key (filter (same_key key) (accounted calls rcs)) f
      end.
Proof.
  intros Hok. destruct (init_spec hint) as (t0 & E0 & Ht0 & Hm0 & _).
  destruct (add_run_spec t0 [] calls (represents_empty t0 Ht0 Hm0) Hok)
    as (rcs & t & E & Hlen & [Ht Hr] & Hall & Hz).
  exists t0, rcs, t. split; [done|]. split; [done|]. split; [done|]. split; [done|]. split.
  { intros Hal Hb. apply Hz; [done|]. rewrite size_tmap, Hm0, map_size_empty by done. lia. }
  intros key Hwf. destruct (find_spec t key Ht Hwf) as (r & -> & Hf). specialize (Hr key).
  destruct r as [i|]; [destruct Hf as (f & Ef & Hf)|]; rewrite Hf in Hr; [by exists f|done].
Qed.

(** ** The table as a map *)

(** Initialisation: a failed allocation returns -1 and leaves an empty table
    without slots; otherwise the table is empty, its capacity is a power of two of
    at least 16 that holds the hint (or is the largest, 2^57) and is less than
    twice what was asked for. *)
Lemma flow_table_init_ok hint :
  flow_table_init hint false = Some (-1, Flow_table [] 0 0 0) /\
  exists t, flow_table_init hint true = Some (0, t) /\ table_ok t /\ tmap t = ∅ /\
    ft_count t = 0 /\ pow2 (ft_capacity t) /\
    (hint <= ft_capacity t \/ ft_capacity t = 2 ^ 57) /\
    (ft_capacity t < 2 * hint \/ ft_capacity t = 16).
Proof.
  destruct (init_spec hint) as (t & E & Ht & Hm & Hb). split.
  - unfold flow_table_init in *. by destruct (round_up 64 MIN_CAPACITY hint).
  - exists t. split; [done|]. split; [done|]. split; [done|].
    split; [rewrite size_tmap, Hm, map_size_empty by done; done|].
    split; [apply Ht|done].
Qed.

(** C29. [flow_table_find_or_insert] refines "look up or add" on the map: it returns
    a slot that holds the flow already there, or a new flow with zero counters,
    and says which; every other key keeps its flow, also when the table is rebuilt
    at twice the capacity.  It returns NULL, with the table unchanged, exactly
    when the table has to grow and cannot. *)
Theorem flow_table_find_or_insert_refines t key alloc :
  table_ok t -> key_wf key ->
  exists p inserted t', flow_table_find_or_insert t key alloc = Some (p, inserted, t') /\
    table_ok t' /\
    match p with
    | None => t' = t /\ inserted = false /\ must_grow t /\
              (alloc = false \/ ft_capacity t = 2 ^ 57)
    | Some i => exists f, slot_at (ft_slots t') i = Some f /\ fl_key f = key /\
        f = default (fresh_flow key) (tmap t !! key) /\
        inserted = bool_decide (tmap t !! key = None) /\ tmap t' = <[key := f]> (tmap t) /\
        flow_table_find t' key = Some (Some i)
    end.
Proof.
  intros Ht Hwf.
  destruct (find_or_insert_spec t key alloc Ht Hwf) as (p & ins & t' & E & Ht' & Hp).
  exists p, ins, t'. split; [done|]. split; [done|]. destruct p as [i|]; [|done].
  destruct Hp as (f & Ef & Hu & Hk & Hf & Hi & Hm). exists f.
  split; [done|]. split; [done|]. split; [done|]. split; [done|]. split; [done|].
  destruct (find_spec t' key Ht' Hwf) as (r & Er & Hr). rewrite Er. f_equal.
  assert (Hl : tmap t' !! key = Some f) by (by rewrite Hm, lookup_insert_eq).
  destruct r as [j|]; [|congruence]. destruct Hr as (g & Eg & Hg).
  assert (g = f) as -> by congruence. f_equal.
  by apply (slot_unique t' i j f Ht').
Qed.

(** C38. Iteration is complete: the loop over [flow_table_next] ends, and visits
    every flow of the table exactly once. *)
Theorem flow_table_iteration t :
  table_ok t ->
  exists fs, flow_iter t = Some fs /\ NoDup (map fl_key fs) /\
    Z.of_nat (length fs) = ft_count t /\
    forall k f, tmap t !! k = Some f <-> f ∈ fs /\ fl_key f = k.
Proof.
  intros Ht. exists (entries (ft_slots t)). split; [by apply flow_iter_entries|].
  split; [apply Ht|]. split; [by rewrite (to_count _ Ht)|].
  intros k f. apply slots_map_lookup, Ht.
Qed.

(** ** Rankings *)
Lemma entries_wf t : table_ok t -> Forall flow_wf (entries (ft_slots t)).
Proof.
  intros Ht. apply Forall_forall. intros f [Hin Hu]%entries_elem.
  by apply (so_flow _ _ (to_slots _ Ht)).
Qed.

Lemma top_n_spec `{QSort} t n :
  table_ok t ->
  exists top, flow_table_top_n t n = Some top /\
    length top = Nat.min n (Z.to_nat (ft_count t)) /\
    NoDup (map fl_key top) /\
    (forall f, f ∈ top -> tmap t !! fl_key f = Some f) /\
    StronglySorted (fun a b => rank_cmp a b < 0) top /\
    (forall k f, tmap t !! k = Some f -> f ∉ top -> forall g, g ∈ top -> rank_cmp g f < 0).
Proof.
  intros Ht. pose proof (entries_wf t Ht) as Hwf. pose proof (so_keys _ _ (to_slots _ Ht)) as Hnd.
  set (fs := entries (ft_slots t)) in *.
  exists (take n (qsort rank_cmp fs)).
  assert (Hkeys : NoDup (map fl_key (qsort rank_cmp fs))) by (by rewrite qsort_perm).
  assert (Hsorted := strict_ranking fs Hwf Hnd).
  rewrite <- (take_drop n (qsort rank_cmp fs)) in Hkeys, Hsorted.
  rewrite map_app in Hkeys. apply NoDup_app in Hkeys as (Hnt & _ & _).
  split; [|split; [|split; [done|split; [|split]]]].
  - unfold flow_table_top_n. case_bool_decide as Hn; [by subst n|].
    rewrite flow_iter_entries by done. fold fs. cbn [mbind option_bind].
    destruct (top_n_entries fs n Hwf Hnd) as (out & -> & Eo); [lia|]. cbn. by rewrite Eo.
  - rewrite length_take, qsort_perm, (to_count _ Ht), Nat2Z.id. done.
  - intros f Hf. apply slots_map_lookup; [apply Ht|]. split; [|done].
    fold fs. rewrite <- (qsort_perm rank_cmp fs). by apply elem_of_take in Hf as (i & Hf & _);
      apply list_elem_of_lookup_2 in Hf.
  - by eapply StronglySorted_app_1_l.
  - intros k f [Hf _]%slots_map_lookup Hnin g Hg; [|apply Ht]. fold fs in Hf.
    rewrite <- (qsort_perm rank_cmp fs), <- (take_drop n (qsort rank_cmp fs)) in Hf.
    apply elem_of_app in Hf as [?|Hf]; [done|].
    revert Hsorted Hg Hf. by apply (StronglySorted_app_1_elem_of (fun a b => rank_cmp a b < 0)).
Qed.

(** C18. [flow_table_top_n] is the specification "rank every flow and keep the
    first n", for every [qsort] the C standard allows: it returns min(n, count)
    flows of the table with different keys, in ranking order, and every flow left
    out ranks below every flow returned. *)
Theorem flow_table_top_n_ranks `{QSort} t n :
  table_ok t ->
  exists top, flow_table_top_n t n = Some top /\
    length top = Nat.min n (Z.to_nat (ft_count t)) /\
    NoDup (map fl_key top) /\
    (forall f, f ∈ top -> tmap t !! fl_key f = Some f) /\
    StronglySorted (fun a b => rank_cmp a b < 0) top /\
    (forall k f, tmap t !! k = Some f -> f ∉ top -> forall g, g ∈ top -> rank_cmp g f < 0).
Proof. apply top_n_spec. Qed.

Lemma distinct_teids_spec `{QSort} t alloc os :
  table_ok t ->
  exists rc count, flow_table_distinct_teids t alloc os = Some (rc, count, os) /\
    (rc = -1 <-> tmap t <> ∅ /\ alloc = false) /\
    (rc <> -1 -> rc = 0 /\
       exists ids : gset Z, count = Z.of_nat (size ids) /\
         forall x, x ∈ ids <-> exists k f, tmap t !! k = Some f /\ fk_teid k = x).
Proof.
  intros Ht. pose proof (size_tmap t Ht) as Hsz. pose proof (to_count _ Ht) as Hc.
  pose proof (pow2_bounds _ (so_cap _ _ (to_slots _ Ht))) as Hcap.
  pose proof (to_load _ Ht) as Hload.
  unfold flow_table_distinct_teids. destruct (Z.eqb_spec (ft_count t) 0) as [E0|E0].
  { exists 0, 0. split; [done|]. assert (Hm : tmap t = ∅) by (apply map_size_empty_iff; lia).
    rewrite Hm. split; [split; [done|by intros [? _]]|]. intros _. split; [done|].
    exists ∅. rewrite size_empty. split; [done|]. intros x. split; [set_solver|].
    intros (k & f & Hk & _). by rewrite lookup_empty in Hk. }
  assert (Hm : tmap t <> ∅) by (intros Hm; rewrite Hm, map_size_empty in Hsz; lia).
  destruct alloc; cbn [negb]; [|by exists (-1), 0].
  rewrite flow_iter_entries by done. cbn [mbind option_bind]. rewrite length_map.
  destruct (Z.gtb_spec (Z.of_nat (length (entries (ft_slots t)))) (ft_count t)); [lia|].
  rewrite count_qsort, free_malloc. eexists 0, _. split; [done|]. split; [split; [done|by intros [_ ?]]|].
  intros _. split; [done|]. eexists. split.
  - apply wrap_small. unfold is_u. split; [lia|].
    assert (Hle := size_list_to_set_le (map (fun f => fk_teid (fl_key f)) (entries (ft_slots t)))).
    rewrite length_map in Hle. lia.
  - intros x. rewrite elem_of_list_to_set. split.
    + intros (f & -> & Hf)%list_elem_of_fmap. exists (fl_key f), f. split; [|done].
      apply slots_map_lookup; [apply Ht|done].
    + intros (k & f & [Hf <-]%slots_map_lookup & <-); [|apply Ht].
      by apply (list_elem_of_fmap_2 (fun f => fk_teid (fl_key f))).
Qed.

(** ** The packets determine the table *)
Lemma last_seen_unique l t1 t2 : last_seen l t1 -> last_seen l t2 -> t1 = t2.
Proof.
  intros [(a & Ha & <-) H1] [(b & Hb & <-) H2]. specialize (H1 b Hb). specialize (H2 a Ha). lia.
Qed.

Lemma first_seen_unique l t1 b1 t2 b2 : first_seen l t1 b1 -> first_seen l t2 b2 -> t1 = t2 /\ b1 = b2.
Proof.
  intros (l1 & a & l2 & El & <- & <- & H1 & H2) (m1 & b & m2 & Em & <- & <- & G1 & G2).
  rewrite El in Em. clear El. revert m1 Em G1. induction l1 as [|x l1 IH]; intros [|y m1] Em G1; cbn in Em.
  - by injection Em as -> ->.
  - injection Em as <- ->. specialize (G1 a ltac:(by left)). specialize (H2 b). rewrite elem_of_app in H2.
    specialize (H2 ltac:(right; by left)). lia.
  - injection Em as -> <-. specialize (H1 b ltac:(by left)). specialize (G2 a). rewrite elem_of_app in G2.
    specialize (G2 ltac:(right; by left)). lia.
  - injection Em as -> Em. apply (IH (fun z Hz => H1 z (list_elem_of_further _ _ _ Hz)) m1 Em).
    intros z Hz. apply G1. by right.
Qed.

Lemma byte_ext x y : is_byte x -> is_byte y -> (forall n, 0 <= n < 8 -> Z.testbit x n = Z.testbit y n) -> x = y.
Proof.
  intros Hx Hy H. apply Z.bits_inj'. intros n Hn. destruct (Z.lt_ge_cases n 8); [by apply H|].
  rewrite <- (Z.mod_small x (2 ^ 8)), <- (Z.mod_small y (2 ^ 8)) by (unfold is_byte, is_u in *; lia).
  by rewrite !Z.mod_pow2_bits_high by lia.
Qed.

Lemma sum_perm : Proper ((≡ₚ) ==> (=)) (foldr (fun a n => ac_len a + n) 0).
Proof. apply (foldr_permutation_proper (=)); [intros ? ? ? ->; done|intros; lia]. Qed.

Lemma existsb_perm {A} (P : A -> bool) : Proper ((≡ₚ) ==> (=)) (existsb P).
Proof. induction 1; cbn; [done|congruence|by rewrite orb_assoc, (orb_comm (P y)), <- orb_assoc|congruence]. Qed.

Lemma last_seen_perm l l' t : l ≡ₚ l' -> last_seen l t -> last_seen l' t.
Proof.
  intros Hp [(a & Ha & <-) H]. split; [exists a; by rewrite <- Hp|]. intros b Hb. apply H. by rewrite Hp.
Qed.

(** The packets of a flow determine its entry, but for ties in the order of time. *)
Lemma flow_of_ext k l l' f g :
  flow_of k l f -> flow_of k l' g -> l ≡ₚ l' ->
  (forall t1 b1 t2 b2, first_seen l t1 b1 -> first_seen l' t2 b2 -> t1 = t2 /\ b1 = b2) ->
  fl_in_use f = fl_in_use g -> fl_hash f = fl_hash g -> f = g.
Proof.
  intros [F1 F2 F3 F4 F5 F6 F7] [G1 G2 G3 G4 G5 G6 G7] Hp Hfirst Hu Hh.
  pose proof (last_seen_unique _ _ _ (last_seen_perm _ _ _ Hp F4) G4). destruct (Hfirst _ _ _ _ F5 G5).
  assert (fl_tcp_flags f = fl_tcp_flags g).
  { apply byte_ext; [done..|]. intros n Hn. rewrite F6, G6 by done. by apply existsb_perm. }
  rewrite (sum_perm _ _ Hp) in F3. rewrite (Permutation_length Hp) in F2.
  destruct f, g. cbn in *. congruence.
Qed.

Lemma flow_of_unique k l f g :
  flow_of k l f -> flow_of k l g -> fl_in_use f = fl_in_use g -> fl_hash f = fl_hash g -> f = g.
Proof. intros Hf Hg. apply (flow_of_ext k l l); [done..|]. apply first_seen_unique. Qed.

Lemma table_entry t k f :
  table_ok t -> tmap t !! k = Some f -> fl_key f = k /\ fl_in_use f = true /\ fl_hash f = key_hash k.
Proof.
  intros Ht Hk. apply slots_map_lookup in Hk as [Hf <-]; [|apply Ht]. apply entries_elem in Hf as [Hf Hu].
  split; [done|]. split; [exact Hu|]. by apply (so_flow _ _ (to_slots _ Ht)).
Qed.

(** Packets that agree, flow by flow, on the direction of those with one timestamp. *)
Definition ties_agree (l : list acct) : Prop :=
  forall a b, a ∈ l -> b ∈ l -> ac_key a = ac_key b -> ac_ts a = ac_ts b -> ac_reversed a = ac_reversed b.

Lemma first_seen_perm k l l' t1 b1 t2 b2 :
  l ≡ₚ l' -> ties_agree l -> first_seen (filter (same_key k) l) t1 b1 -> first_seen (filter (same_key k) l') t2 b2 ->
  t1 = t2 /\ b1 = b2.
Proof.
  intros Hp Hties (l1 & a & l2 & El & <- & <- & H1 & H2) (m1 & b & m2 & Em & <- & <- & G1 & G2).
  assert (Hmin : forall u x (v : list acct), (forall y, y ∈ u -> ac_ts x < ac_ts y) -> (forall y, y ∈ v -> ac_ts x <= ac_ts y) ->
    forall y, y ∈ u ++ x :: v -> ac_ts x <= ac_ts y).
  { intros u x v Hu Hv y [Hy|[->|Hy]%elem_of_cons]%elem_of_app; [specialize (Hu y Hy); lia|lia|auto]. }
  assert (Ha : a ∈ filter (same_key k) l) by (rewrite El; apply elem_of_app; right; by left).
  assert (Hb : b ∈ filter (same_key k) l') by (rewrite Em; apply elem_of_app; right; by left).
  pose proof Ha as Ha'. pose proof Hb as Hb'. rewrite Hp, Em in Ha'. rewrite <- Hp, El in Hb'.
  pose proof (Hmin _ _ _ H1 H2 b Hb') as Hab. pose proof (Hmin _ _ _ G1 G2 a Ha') as Hba.
  rewrite <- Hp in Hb. apply list_elem_of_filter in Ha as [Ka Ha], Hb as [Kb Hb]. unfold same_key in *.
  split; [lia|]. apply Hties; [done|done|congruence|lia].
Qed.

(** Tables that stand for the same packets have the same entries, in whatever order
    the packets came when their ties agree. *)
Lemma represents_reordered t1 t2 l l' :
  represents t1 l -> represents t2 l' -> l ≡ₚ l' ->
  (forall k t1 b1 t2 b2, first_seen (filter (same_key k) l) t1 b1 -> first_seen (filter (same_key k) l') t2 b2 ->
     t1 = t2 /\ b1 = b2) ->
  tmap t1 = tmap t2.
Proof.
  intros [T1 R1] [T2 R2] Hp Hfirst. apply map_eq. intros k. specialize (R1 k). specialize (R2 k).
  assert (Hpk : filter (same_key k) l ≡ₚ filter (same_key k) l') by (by rewrite Hp).
  destruct (tmap t1 !! k) as [f|] eqn:E1, (tmap t2 !! k) as [g|] eqn:E2; try done.
  - destruct (table_entry _ _ _ T1 E1) as (_ & U1 & H1), (table_entry _ _ _ T2 E2) as (_ & U2 & H2).
    f_equal. eapply flow_of_ext; [apply R1|apply R2|done|apply Hfirst|congruence..].
  - destruct R1 as [Hne _]. rewrite R2 in Hpk. by apply Permutation_nil_r in Hpk.
  - destruct R2 as [Hne _]. rewrite R1 in Hpk. by apply Permutation_nil_l in Hpk.
Qed.

Lemma represents_unique t1 t2 l : represents t1 l -> represents t2 l -> tmap t1 = tmap t2.
Proof. intros H1 H2. apply (represents_reordered t1 t2 l l); [done..|]. intros k. apply first_seen_unique. Qed.

Lemma represents_perm t1 t2 l l' :
  represents t1 l -> represents t2 l' -> l ≡ₚ l' -> ties_agree l -> tmap t1 = tmap t2.
Proof.
  intros H1 H2 Hp Ht. apply (represents_reordered t1 t2 l l'); [done..|]. intros k ? ? ? ?. by apply first_seen_perm.
Qed.

(** C39. [flow_table_distinct_teids] counts the set of TEIDs of the table's flows,
    for every [qsort] the C standard allows; it returns -1 exactly when the table
    is not empty and the allocation fails; its array is freed on every path. *)
Theorem flow_table_distinct_teids_counts `{QSort} t alloc os :
  table_ok t ->
  exists rc count, flow_table_distinct_teids t alloc os = Some (rc, count, os) /\
    (rc = -1 <-> tmap t <> ∅ /\ alloc = false) /\
    (rc <> -1 -> rc = 0 /\
       exists ids : gset Z, count = Z.of_nat (size ids) /\
         forall x, x ∈ ids <-> exists k f, tmap t !! k = Some f /\ fk_teid k = x).
Proof. apply distinct_teids_spec. Qed.
