(* ===== verification/Frag.v ===== *)
(** The fragment cache (src/frag.h, src/frag.c): a direct-mapped array that gives
    the later fragments of a datagram the ports of its first one.

    [None] is undefined behaviour (an access outside the array).  The theorems
    relate the cache to the history of the packets it was fed. *)
From S2P Require Export Decode.
From stdpp Require Export list.
#[global] Open Scope Z_scope.

Definition FRAG_CACHE_SLOTS := 4096.

Record frag_entry := Frag_entry {
  fe_in_use : bool;
  fe_ip_version : Z;
  fe_proto : Z;
  fe_id : Z;
  fe_src : bytes;
  fe_dst : bytes;
  fe_src_port : Z;
  fe_dst_port : Z
}.

(** [struct frag_cache]; [None] is a NULL [slots] pointer.  [fc_blocks], which the C
    structure does not have, counts the blocks of slots allocated and not freed. *)
Record frag_cache := Frag_cache { fc_slots : option (list frag_entry); fc_blocks : Z }.

#[export] Instance frag_entry_eta : Eta frag_entry := fun e =>
  Frag_entry (e.(fe_in_use)) (e.(fe_ip_version)) (e.(fe_proto)) (e.(fe_id)) (e.(fe_src))
    (e.(fe_dst)) (e.(fe_src_port)) (e.(fe_dst_port)).
#[export] Instance set_fe_in_use : Setter fe_in_use. Proof. solve_setter. Defined.
#[export] Instance set_fe_ip_version : Setter fe_ip_version. Proof. solve_setter. Defined.
#[export] Instance set_fe_proto : Setter fe_proto. Proof. solve_setter. Defined.
#[export] Instance set_fe_id : Setter fe_id. Proof. solve_setter. Defined.
#[export] Instance set_fe_src : Setter fe_src. Proof. solve_setter. Defined.
#[export] Instance set_fe_dst : Setter fe_dst. Proof. solve_setter. Defined.
#[export] Instance set_fe_src_port : Setter fe_src_port. Proof. solve_setter. Defined.
#[export] Instance set_fe_dst_port : Setter fe_dst_port. Proof. solve_setter. Defined.

Definition frag_entry_zero : frag_entry :=
  Frag_entry false 0 0 0 (replicate 16 0) (replicate 16 0) 0 0.

(** [calloc(FRAG_CACHE_SLOTS, sizeof *c->slots)] succeeds when [alloc] holds. *)
Definition frag_cache_init (alloc : bool) : Z * frag_cache :=
  let c := if alloc
           then Frag_cache (Some (replicate (Z.to_nat FRAG_CACHE_SLOTS) frag_entry_zero)) 1
           else Frag_cache None 0 in
  (match fc_slots c with None => -1 | Some _ => 0 end, c).

(** [free] of NULL does nothing. *)
Definition frag_cache_free (c : frag_cache) : frag_cache :=
  Frag_cache None (match fc_slots c with None => fc_blocks c | Some _ => fc_blocks c - 1 end).

Definition slot_for (pi : packet_info) : Z :=
  let head :=
    [pi_ip_version pi; pi_ip_proto pi;
     u8 (Z.shiftr (pi_frag_id pi) 24); u8 (Z.shiftr (pi_frag_id pi) 16);
     u8 (Z.shiftr (pi_frag_id pi) 8); u8 (pi_frag_id pi)] in
  let h := fnv1a FNV64_OFFSET head in
  let h := fnv1a h (pi_src_addr pi) in
  let h := fnv1a h (pi_dst_addr pi) in
  Z.land h (FRAG_CACHE_SLOTS - 1).

Definition same_datagram (e : frag_entry) (pi : packet_info) : bool :=
  fe_in_use e && (fe_ip_version e =? pi_ip_version pi) &&
  (fe_proto e =? pi_ip_proto pi) && (fe_id e =? pi_frag_id pi) &&
  (memcmp (fe_src e) (pi_src_addr pi) =? 0) &&
  (memcmp (fe_dst e) (pi_dst_addr pi) =? 0).

(** The assignments to [*e] for a first fragment. *)
Definition record_first (e : frag_entry) (pi : packet_info) : frag_entry :=
  let e := e <| fe_in_use := true |> <| fe_ip_version := pi_ip_version pi |>
             <| fe_proto := pi_ip_proto pi |> <| fe_id := pi_frag_id pi |> in
  let e := e <| fe_src := overwrite (fe_src e) (pi_src_addr pi) |> in
  let e := e <| fe_dst := overwrite (fe_dst e) (pi_dst_addr pi) |> in
  e <| fe_src_port := pi_src_port pi |> <| fe_dst_port := pi_dst_port pi |>.

(** The value returned, the cache, and [*pi]. *)
Definition frag_cache_apply (c : frag_cache) (pi : packet_info)
  : option (bool * frag_cache * packet_info) :=
  match fc_slots c with
  | None => Some (false, c, pi)
  | Some slots =>
    if negb (status_eqb (pi_status pi) DEC_OK) || negb (pi_has_l3 pi)
    then Some (false, c, pi)
    else if bool_decide (pi_frag pi = FRAG_FIRST) && pi_has_l4 pi then
      let i := Z.to_nat (slot_for pi) in
      e ← slots !! i;
      Some (false, Frag_cache (Some (<[i := record_first e pi]> slots)) (fc_blocks c), pi)
    else if bool_decide (pi_frag pi = FRAG_LATER) then
      e ← slots !! Z.to_nat (slot_for pi);
      if negb (same_datagram e pi) then Some (false, c, pi) else
      let pi := pi <| pi_src_port := fe_src_port e |> <| pi_dst_port := fe_dst_port e |> in
      Some (true, c, pi)
    else Some (false, c, pi)
  end.

(** ** Specification *)

(** What identifies a datagram (RFC 791, RFC 8200). *)
Definition same_datagram_as (p q : packet_info) : Prop :=
  pi_ip_version p = pi_ip_version q /\ pi_ip_proto p = pi_ip_proto q /\
  pi_frag_id p = pi_frag_id q /\ pi_src_addr p = pi_src_addr q /\
  pi_dst_addr p = pi_dst_addr q.

#[export] Instance same_datagram_as_dec p q : Decision (same_datagram_as p q).
Proof. unfold same_datagram_as. apply _. Defined.

(** The packets whose ports the cache remembers, and those it may fill in. *)
Definition cacheable (p : packet_info) : bool :=
  status_eqb (pi_status p) DEC_OK && pi_has_l3 p &&
  bool_decide (pi_frag p = FRAG_FIRST) && pi_has_l4 p.
Definition port_less (p : packet_info) : bool :=
  status_eqb (pi_status p) DEC_OK && pi_has_l3 p && bool_decide (pi_frag p = FRAG_LATER).

(** The packet the slot of [p] remembers, of a history with the latest packet
    first: the last one recorded there. *)
Definition remembered (history : list packet_info) (p : packet_info) : option packet_info :=
  find (fun q => cacheable q && (slot_for q =? slot_for p)) history.

(** The verdict on [p]: the first fragment whose ports it gets. *)
Definition attribution (history : list packet_info) (p : packet_info) : option packet_info :=
  if port_less p then
    q ← remembered history p; if decide (same_datagram_as q p) then Some q else None
  else None.

Definition with_ports (p q : packet_info) : packet_info :=
  p <| pi_src_port := pi_src_port q |> <| pi_dst_port := pi_dst_port q |>.

(** Feed packets one after the other: what each call returned and left in [*pi]. *)
Fixpoint frag_run (c : frag_cache) (ps : list packet_info)
  : option (list (bool * packet_info) * frag_cache) :=
  match ps with
  | [] => Some ([], c)
  | p :: ps =>
    '(r, c, p) ← frag_cache_apply c p;
    '(out, c) ← frag_run c ps;
    Some ((r, p) :: out, c)
  end.

Definition verdict (history : list packet_info) (p : packet_info) : bool * packet_info :=
  match attribution history p with Some q => (true, with_ports p q) | None => (false, p) end.

(** The specification of [frag_run]. *)
Fixpoint frag_spec (history ps : list packet_info) : list (bool * packet_info) :=
  match ps with [] => [] | p :: ps => verdict history p :: frag_spec (p :: history) ps end.

(** ** Proofs *)
Definition frag_pi_ok (p : packet_info) : Prop :=
  length (pi_src_addr p) = 16%nat /\ length (pi_dst_addr p) = 16%nat.

Lemma slot_for_range p : 0 <= slot_for p < FRAG_CACHE_SLOTS.
Proof.
  unfold slot_for. change (FRAG_CACHE_SLOTS - 1) with (Z.ones 12).
  pose proof (land_ones_is_u 12 (fnv1a (fnv1a (fnv1a FNV64_OFFSET
    [pi_ip_version p; pi_ip_proto p; u8 (Z.shiftr (pi_frag_id p) 24);
     u8 (Z.shiftr (pi_frag_id p) 16); u8 (Z.shiftr (pi_frag_id p) 8); u8 (pi_frag_id p)])
    (pi_src_addr p)) (pi_dst_addr p))) as H.
  specialize (H ltac:(lia)). unfold is_u in H. exact H.
Qed.

(** The slot a recorded packet leaves behind. *)
Definition entry_of (p : packet_info) : frag_entry :=
  Frag_entry true (pi_ip_version p) (pi_ip_proto p) (pi_frag_id p) (pi_src_addr p)
    (pi_dst_addr p) (pi_src_port p) (pi_dst_port p).

Definition entry_wf (e : frag_entry) : Prop :=
  length (fe_src e) = 16%nat /\ length (fe_dst e) = 16%nat.

Lemma record_first_entry e p : entry_wf e -> frag_pi_ok p -> record_first e p = entry_of p.
Proof.
  intros [He1 He2] [Hp1 Hp2]. unfold record_first, entry_of. destruct e. cbn in *.
  by rewrite !overwrite_full by congruence.
Qed.

Lemma same_datagram_spec q p :
  frag_pi_ok q -> frag_pi_ok p ->
  same_datagram (entry_of q) p = bool_decide (same_datagram_as q p).
Proof.
  intros [Hq1 Hq2] [Hp1 Hp2]. apply eq_true_iff_eq.
  rewrite bool_decide_eq_true. unfold same_datagram, same_datagram_as. cbn.
  rewrite !andb_true_iff, !Z.eqb_eq, !memcmp_eq by congruence. tauto.
Qed.

(** The cache is what its history says. *)
Record cache_ok (history : list packet_info) (slots : list frag_entry) : Prop := {
  ca_len : Z.of_nat (length slots) = FRAG_CACHE_SLOTS;
  ca_hist : Forall frag_pi_ok history;
  ca_slot : forall p e, slots !! Z.to_nat (slot_for p) = Some e ->
            e = from_option entry_of frag_entry_zero (remembered history p)
}.

Lemma remembered_ok history p q :
  Forall frag_pi_ok history -> remembered history p = Some q -> frag_pi_ok q.
Proof.
  intros Hh Hq. apply find_some in Hq as [Hq _]. apply list_elem_of_In in Hq.
  rewrite Forall_forall in Hh. by apply Hh.
Qed.

Lemma cache_entry_wf history slots p e :
  cache_ok history slots -> slots !! Z.to_nat (slot_for p) = Some e -> entry_wf e.
Proof.
  intros [_ Hh Hs] He. rewrite (Hs p e He).
  destruct (remembered history p) eqn:Er; [|by split]. by apply remembered_ok in Er.
Qed.

Lemma cache_skip history slots p :
  cache_ok history slots -> frag_pi_ok p -> cacheable p = false -> cache_ok (p :: history) slots.
Proof.
  intros [Hl Hh Hs] Hp Hc. split; [done|by constructor|]. intros q e He.
  unfold remembered. cbn. rewrite Hc. by apply Hs.
Qed.

Lemma cache_record history slots p e :
  cache_ok history slots -> frag_pi_ok p -> cacheable p = true ->
  slots !! Z.to_nat (slot_for p) = Some e ->
  cache_ok (p :: history) (<[Z.to_nat (slot_for p) := record_first e p]> slots).
Proof.
  intros Hok Hp Hc He. pose proof (cache_entry_wf _ _ _ _ Hok He) as Hwf.
  destruct Hok as [Hl Hh Hs]. split; [by rewrite length_insert|by constructor|].
  intros q e' He'. unfold remembered. cbn. rewrite Hc. cbn [andb].
  pose proof (slot_for_range p). pose proof (slot_for_range q).
  destruct (Z.eqb_spec (slot_for p) (slot_for q)) as [E|E].
  - rewrite E, list_lookup_insert_eq in He'
      by (rewrite <- E; by apply lookup_lt_Some in He).
    injection He' as <-. by rewrite record_first_entry.
  - rewrite list_lookup_insert_ne in He' by lia. by apply Hs.
Qed.

Lemma apply_spec history slots n p :
  cache_ok history slots -> frag_pi_ok p ->
  exists slots', frag_cache_apply (Frag_cache (Some slots) n) p =
      Some ((verdict history p).1, Frag_cache (Some slots') n, (verdict history p).2) /\
    cache_ok (p :: history) slots'.
Proof.
  intros Hok Hp. unfold frag_cache_apply, verdict, attribution, port_less. cbn [fc_slots].
  assert (Hlk : exists e, slots !! Z.to_nat (slot_for p) = Some e).
  { apply lookup_lt_is_Some_2. pose proof (slot_for_range p). pose proof (ca_len _ _ Hok). lia. }
  destruct Hlk as [e He]. rewrite He.
  destruct (status_eqb (pi_status p) DEC_OK) eqn:Est, (pi_has_l3 p) eqn:El3; cbn [negb orb andb];
    try (exists slots; split; [done|];
         apply cache_skip; [done|done|unfold cacheable; by rewrite Est, El3]).
  destruct (pi_frag p) eqn:Efr; cbn [bool_decide decide_rel frag_kind_eq_dec].
  - rewrite !bool_decide_false by done. cbn [andb]. exists slots. split; [done|].
    apply cache_skip; [done|done|unfold cacheable; by rewrite Est, El3, Efr].
  - rewrite bool_decide_true, (bool_decide_false (FRAG_FIRST = FRAG_LATER)) by done. cbn [andb].
    assert (Hc : cacheable p = pi_has_l4 p)
      by (unfold cacheable; rewrite Est, El3, Efr; by rewrite bool_decide_true).
    destruct (pi_has_l4 p).
    + eexists. split; [done|]. by apply cache_record.
    + exists slots. split; [done|]. by apply cache_skip.
  - rewrite (bool_decide_true (FRAG_LATER = FRAG_LATER)), bool_decide_false by done. cbn [andb].
    assert (Hc : cacheable p = false) by (unfold cacheable; by rewrite Est, El3, Efr).
    exists slots. split; [|by apply cache_skip]. cbn [mbind option_bind].
    rewrite (ca_slot _ _ Hok p e He).
    destruct (remembered history p) as [q|] eqn:Eq; cbn [from_option option_map mbind option_bind]; [|done].
    rewrite same_datagram_spec; [|by eapply remembered_ok; [apply Hok|]|done].
    by destruct (decide (same_datagram_as q p)) as [Hs|Hs];
      [rewrite bool_decide_true|rewrite bool_decide_false].
Qed.

Lemma frag_run_spec history slots n ps :
  cache_ok history slots -> Forall frag_pi_ok ps ->
  exists c, frag_run (Frag_cache (Some slots) n) ps = Some (frag_spec history ps, c).
Proof.
  revert history slots. induction ps as [|p ps IH]; intros history slots Hok Hps; cbn [frag_run frag_spec].
  { by eexists. }
  apply Forall_cons in Hps as [Hp Hps].
  destruct (apply_spec history slots n p Hok Hp) as (slots' & -> & Hok'). cbn [mbind option_bind].
  destruct (IH _ _ Hok' Hps) as (c & ->). cbn [mbind option_bind].
  exists c. by destruct (verdict history p).
Qed.

Lemma cache_ok_init : cache_ok [] (replicate (Z.to_nat FRAG_CACHE_SLOTS) frag_entry_zero).
Proof.
  split; [by rewrite length_replicate|done|]. intros p e He.
  apply lookup_replicate_1 in He as [-> _]. done.
Qed.

(** The verdict on the last packet of a sequence. *)
Lemma frag_spec_snoc history ps p :
  frag_spec history (ps ++ [p]) = frag_spec history ps ++ [verdict (rev ps ++ history) p].
Proof.
  revert history. induction ps as [|q ps IH]; intros history; [done|].
  cbn. rewrite IH. by rewrite <- app_assoc.
Qed.

(** While the slot of [p] records only its datagram, [p] finds it there. *)
Lemma attribution_hit newer q older p :
  port_less p = true -> cacheable q = true -> same_datagram_as q p ->
  (forall r, r ∈ newer -> cacheable r = true -> slot_for r = slot_for p -> same_datagram_as r p) ->
  exists r, attribution (newer ++ q :: older) p = Some r /\ same_datagram_as r p /\
            (r = q \/ r ∈ newer).
Proof.
  intros Hp Hq Hqp Hnew.
  assert (Hslot : slot_for q = slot_for p).
  { destruct Hqp as (E1 & E2 & E3 & E4 & E5). unfold slot_for. by rewrite E1, E2, E3, E4, E5. }
  assert (Hr : exists r, remembered (newer ++ q :: older) p = Some r /\ same_datagram_as r p /\
                         (r = q \/ r ∈ newer)).
  { induction newer as [|n newer IH]; cbn.
    - unfold remembered. cbn. rewrite Hq, Hslot, Z.eqb_refl. eauto.
    - unfold remembered. cbn. destruct (cacheable n && (slot_for n =? slot_for p)) eqn:E.
      + apply andb_true_iff in E as [E1 E2%Z.eqb_eq]. exists n. split; [done|].
        split; [apply Hnew; [by left|done|done]|right; by left].
      + destruct IH as (r & Er & Hr & Hin); [intros r Hr; apply Hnew; by right|].
        exists r. split; [done|]. split; [done|]. destruct Hin as [?|?]; [by left|right; by right]. }
  destruct Hr as (r & Er & Hr & Hin). exists r. unfold attribution. rewrite Hp, Er.
  cbn [mbind option_bind]. by rewrite decide_True.
Qed.

(** ** Properties *)

(** C23. The fragment cache refines its specification: over any sequence of
    packets, each call returns 1 exactly for a cleanly decoded later fragment
    whose slot last recorded a first fragment with the same IP version, protocol,
    identification, source and destination; it then copies that fragment's two
    ports and changes nothing else.  Every other packet is left alone, and no
    access leaves the array. *)
Theorem frag_cache_attributes ps :
  Forall frag_pi_ok ps ->
  exists c0, frag_cache_init true = (0, c0) /\
  exists c, frag_run c0 ps = Some (frag_spec [] ps, c).
Proof.
  intros Hps. eexists. split; [done|]. by apply frag_run_spec; [apply cache_ok_init|].
Qed.


(** A later fragment joins its datagram unless a collision intervenes: after a
    first fragment [q] of the same datagram, as long as the first fragments
    recorded in the same slot since then belong to that datagram too, the call on
    [p] returns 1 and gives it the ports of one of them. *)
Lemma frag_cache_hit before q between p :
  Forall frag_pi_ok (before ++ q :: between ++ [p]) ->
  port_less p = true -> cacheable q = true -> same_datagram_as q p ->
  (forall r, r ∈ between -> cacheable r = true -> slot_for r = slot_for p ->
             same_datagram_as r p) ->
  exists c0 outs c r, frag_cache_init true = (0, c0) /\
    frag_run c0 (before ++ q :: between ++ [p]) = Some (outs ++ [(true, with_ports p r)], c) /\
    same_datagram_as r p /\ (r = q \/ r ∈ between).
Proof.
  intros Hok Hp Hq Hqp Hnew.
  destruct (frag_run_spec [] _ 1 _ cache_ok_init Hok) as (c & E).
  destruct (attribution_hit (rev between) q (rev before) p Hp Hq Hqp) as (r & Er & Hr & Hin).
  { intros r Hr. apply Hnew. by rewrite list_elem_of_In, in_rev, <- list_elem_of_In. }
  eexists _, _, c, r. split; [done|]. split; [|split; [done|]].
  - rewrite E. f_equal. f_equal.
    replace (before ++ q :: between ++ [p]) with ((before ++ q :: between) ++ [p])
      by (by rewrite <- app_assoc).
    rewrite frag_spec_snoc. f_equal. rewrite app_nil_r, rev_app_distr. cbn [rev].
    rewrite <- app_assoc. cbn [app]. unfold verdict. by rewrite Er.
  - destruct Hin as [?|Hin]; [by left|right]. by rewrite list_elem_of_In, in_rev, <- list_elem_of_In.
Qed.
