(* ===== verification/Stats.v ===== *)
(** The capture-wide counters (src/stats.h, src/stats.c).  Definitions only;
    [StatsProps] holds the theorems. *)
From S2P Require Export Decode.
From stdpp Require Export list.
#[global] Open Scope Z_scope.

Record gtpu_stats := Gtpu_stats {
  gs_packets : Z;
  gs_fragmented : Z;
  gs_not_v1u : Z;
  gs_gpdu : Z;
  gs_echo_request : Z;
  gs_echo_response : Z;
  gs_error_indication : Z;
  gs_end_marker : Z;
  gs_other_type : Z;
  gs_with_seq : Z;
  gs_with_ext : Z;
  gs_inner_ipv4 : Z;
  gs_inner_ipv6 : Z;
  gs_inner_tcp : Z;
  gs_inner_udp : Z;
  gs_inner_icmp : Z;
  gs_inner_icmpv6 : Z;
  gs_inner_other : Z;
  gs_nested : Z;
  gs_truncated : Z;
  gs_malformed : Z;
  gs_user_truncated : Z;
  gs_user_malformed : Z;
  gs_by_status : list Z
}.

Record stats := Stats {
  st_packets : Z;
  st_wire_bytes : Z;
  st_captured_bytes : Z;
  st_first_ts_ns : Z;
  st_last_ts_ns : Z;
  st_ipv4 : Z;
  st_ipv6 : Z;
  st_non_ip : Z;
  st_vlan_tagged : Z;
  st_tcp : Z;
  st_udp : Z;
  st_icmp : Z;
  st_icmpv6 : Z;
  st_other_l4 : Z;
  st_frag_first : Z;
  st_frag_later : Z;
  st_frag_matched : Z;
  st_truncated : Z;
  st_malformed : Z;
  st_by_status : list Z;
  st_gtpu : gtpu_stats
}.

#[export] Instance gtpu_stats_eta : Eta gtpu_stats := fun g =>
  Gtpu_stats (g.(gs_packets)) (g.(gs_fragmented)) (g.(gs_not_v1u)) (g.(gs_gpdu))
    (g.(gs_echo_request)) (g.(gs_echo_response)) (g.(gs_error_indication))
    (g.(gs_end_marker)) (g.(gs_other_type)) (g.(gs_with_seq)) (g.(gs_with_ext))
    (g.(gs_inner_ipv4)) (g.(gs_inner_ipv6)) (g.(gs_inner_tcp)) (g.(gs_inner_udp))
    (g.(gs_inner_icmp)) (g.(gs_inner_icmpv6)) (g.(gs_inner_other)) (g.(gs_nested))
    (g.(gs_truncated)) (g.(gs_malformed)) (g.(gs_user_truncated)) (g.(gs_user_malformed))
    (g.(gs_by_status)).
#[export] Instance set_gs_packets : Setter gs_packets. Proof. solve_setter. Defined.
#[export] Instance set_gs_fragmented : Setter gs_fragmented. Proof. solve_setter. Defined.
#[export] Instance set_gs_not_v1u : Setter gs_not_v1u. Proof. solve_setter. Defined.
#[export] Instance set_gs_gpdu : Setter gs_gpdu. Proof. solve_setter. Defined.
#[export] Instance set_gs_echo_request : Setter gs_echo_request. Proof. solve_setter. Defined.
#[export] Instance set_gs_echo_response : Setter gs_echo_response. Proof. solve_setter. Defined.
#[export] Instance set_gs_error_indication : Setter gs_error_indication. Proof. solve_setter. Defined.
#[export] Instance set_gs_end_marker : Setter gs_end_marker. Proof. solve_setter. Defined.
#[export] Instance set_gs_other_type : Setter gs_other_type. Proof. solve_setter. Defined.
#[export] Instance set_gs_with_seq : Setter gs_with_seq. Proof. solve_setter. Defined.
#[export] Instance set_gs_with_ext : Setter gs_with_ext. Proof. solve_setter. Defined.
#[export] Instance set_gs_inner_ipv4 : Setter gs_inner_ipv4. Proof. solve_setter. Defined.
#[export] Instance set_gs_inner_ipv6 : Setter gs_inner_ipv6. Proof. solve_setter. Defined.
#[export] Instance set_gs_inner_tcp : Setter gs_inner_tcp. Proof. solve_setter. Defined.
#[export] Instance set_gs_inner_udp : Setter gs_inner_udp. Proof. solve_setter. Defined.
#[export] Instance set_gs_inner_icmp : Setter gs_inner_icmp. Proof. solve_setter. Defined.
#[export] Instance set_gs_inner_icmpv6 : Setter gs_inner_icmpv6. Proof. solve_setter. Defined.
#[export] Instance set_gs_inner_other : Setter gs_inner_other. Proof. solve_setter. Defined.
#[export] Instance set_gs_nested : Setter gs_nested. Proof. solve_setter. Defined.
#[export] Instance set_gs_truncated : Setter gs_truncated. Proof. solve_setter. Defined.
#[export] Instance set_gs_malformed : Setter gs_malformed. Proof. solve_setter. Defined.
#[export] Instance set_gs_user_truncated : Setter gs_user_truncated. Proof. solve_setter. Defined.
#[export] Instance set_gs_user_malformed : Setter gs_user_malformed. Proof. solve_setter. Defined.
#[export] Instance set_gs_by_status : Setter gs_by_status. Proof. solve_setter. Defined.

#[export] Instance stats_eta : Eta stats := fun s =>
  Stats (s.(st_packets)) (s.(st_wire_bytes)) (s.(st_captured_bytes)) (s.(st_first_ts_ns))
    (s.(st_last_ts_ns)) (s.(st_ipv4)) (s.(st_ipv6)) (s.(st_non_ip))
    (s.(st_vlan_tagged)) (s.(st_tcp)) (s.(st_udp)) (s.(st_icmp)) (s.(st_icmpv6))
    (s.(st_other_l4)) (s.(st_frag_first)) (s.(st_frag_later)) (s.(st_frag_matched))
    (s.(st_truncated)) (s.(st_malformed)) (s.(st_by_status)) (s.(st_gtpu)).
#[export] Instance set_st_packets : Setter st_packets. Proof. solve_setter. Defined.
#[export] Instance set_st_wire_bytes : Setter st_wire_bytes. Proof. solve_setter. Defined.
#[export] Instance set_st_captured_bytes : Setter st_captured_bytes. Proof. solve_setter. Defined.
#[export] Instance set_st_first_ts_ns : Setter st_first_ts_ns. Proof. solve_setter. Defined.
#[export] Instance set_st_last_ts_ns : Setter st_last_ts_ns. Proof. solve_setter. Defined.
#[export] Instance set_st_ipv4 : Setter st_ipv4. Proof. solve_setter. Defined.
#[export] Instance set_st_ipv6 : Setter st_ipv6. Proof. solve_setter. Defined.
#[export] Instance set_st_non_ip : Setter st_non_ip. Proof. solve_setter. Defined.
#[export] Instance set_st_vlan_tagged : Setter st_vlan_tagged. Proof. solve_setter. Defined.
#[export] Instance set_st_tcp : Setter st_tcp. Proof. solve_setter. Defined.
#[export] Instance set_st_udp : Setter st_udp. Proof. solve_setter. Defined.
#[export] Instance set_st_icmp : Setter st_icmp. Proof. solve_setter. Defined.
#[export] Instance set_st_icmpv6 : Setter st_icmpv6. Proof. solve_setter. Defined.
#[export] Instance set_st_other_l4 : Setter st_other_l4. Proof. solve_setter. Defined.
#[export] Instance set_st_frag_first : Setter st_frag_first. Proof. solve_setter. Defined.
#[export] Instance set_st_frag_later : Setter st_frag_later. Proof. solve_setter. Defined.
#[export] Instance set_st_frag_matched : Setter st_frag_matched. Proof. solve_setter. Defined.
#[export] Instance set_st_truncated : Setter st_truncated. Proof. solve_setter. Defined.
#[export] Instance set_st_malformed : Setter st_malformed. Proof. solve_setter. Defined.
#[export] Instance set_st_by_status : Setter st_by_status. Proof. solve_setter. Defined.
#[export] Instance set_st_gtpu : Setter st_gtpu. Proof. solve_setter. Defined.

(** [memset(s, 0, sizeof *s)] *)
Definition by_status_zero : list Z := replicate (Z.to_nat (status_val DEC_STATUS_COUNT)) 0.
Definition gtpu_stats_zero : gtpu_stats :=
  Gtpu_stats 0 0 0 0 0 0 0 0 0 0 0 0 0 0 0 0 0 0 0 0 0 0 0 by_status_zero.
Definition stats_init : stats :=
  Stats 0 0 0 0 0 0 0 0 0 0 0 0 0 0 0 0 0 0 0 by_status_zero gtpu_stats_zero.

(** [x++] on a [uint64_t], as a statement and under a condition. *)
Definition inc (x : Z) : Z := u64 (x + 1).
Definition inc_if (b : bool) (x : Z) : Z := if b then inc x else x.

(** [if ((unsigned)status < DEC_STATUS_COUNT) by_status[status]++;] the array has
    [DEC_STATUS_COUNT] elements. *)
Definition bump_status (by_status : list Z) (st : decode_status) : list Z :=
  if status_val st <? status_val DEC_STATUS_COUNT
  then alter inc (Z.to_nat (status_val st)) by_status else by_status.

(** ** [add_gtpu] *)

(** The message's problem, lines "A problem found after the GTP-U headers...". *)
Definition gtpu_problem (pi : packet_info) (g : gtpu_stats) : gtpu_stats :=
  if negb (status_eqb (pi_gtp_status pi) DEC_OK) then
    if decode_status_is_truncation (pi_gtp_status pi) then
      let g := g <| gs_truncated ::= inc |> in
      if pi_gtp_msg_ok pi then g <| gs_user_truncated ::= inc |> else g
    else
      let g := g <| gs_malformed ::= inc |> in
      if pi_gtp_msg_ok pi then g <| gs_user_malformed ::= inc |> else g
  else g.

(** [switch (pi->gtp_msg_type)] *)
Definition gtpu_type (pi : packet_info) (g : gtpu_stats) : gtpu_stats :=
  let ty := pi_gtp_msg_type pi in
  if ty =? GTPU_MSG_GPDU then g <| gs_gpdu ::= inc |>
  else if ty =? GTPU_MSG_ECHO_REQUEST then g <| gs_echo_request ::= inc |>
  else if ty =? GTPU_MSG_ECHO_RESPONSE then g <| gs_echo_response ::= inc |>
  else if ty =? GTPU_MSG_ERROR_INDICATION then g <| gs_error_indication ::= inc |>
  else if ty =? GTPU_MSG_END_MARKER then g <| gs_end_marker ::= inc |>
  else g <| gs_other_type ::= inc |>.

(** [switch (pi->inner_proto)] *)
Definition gtpu_inner_proto (pi : packet_info) (g : gtpu_stats) : gtpu_stats :=
  let proto := pi_inner_proto pi in
  if proto =? IPPROTO_NUM_TCP then g <| gs_inner_tcp ::= inc |>
  else if proto =? IPPROTO_NUM_UDP then g <| gs_inner_udp ::= inc |>
  else if proto =? IPPROTO_NUM_ICMP then g <| gs_inner_icmp ::= inc |>
  else if proto =? IPPROTO_NUM_ICMPV6 then g <| gs_inner_icmpv6 ::= inc |>
  else g <| gs_inner_other ::= inc |>.

(** From [if (!pi->has_inner)] to the end of [add_gtpu]. *)
Definition gtpu_inner (pi : packet_info) (g : gtpu_stats) : gtpu_stats :=
  if negb (pi_has_inner pi) then g else
  let g := if pi_inner_version pi =? 4 then g <| gs_inner_ipv4 ::= inc |>
           else g <| gs_inner_ipv6 ::= inc |> in
  if status_eqb (pi_gtp_status pi) DEC_TRUNC_IPV6_EXT ||
     status_eqb (pi_gtp_status pi) DEC_BAD_IPV6_EXT then g else
  let g := gtpu_inner_proto pi g in
  if pi_gtp_nested pi then g <| gs_nested ::= inc |> else g.

Definition add_gtpu (pi : packet_info) (g : gtpu_stats) : gtpu_stats :=
  if bool_decide (pi_frag pi = FRAG_FIRST) && decode_is_gtpu_port pi
  then g <| gs_fragmented ::= inc |> else
  if negb (pi_is_gtpu pi) then g else
  let g := g <| gs_packets ::= inc |> in
  let g := g <| gs_by_status ::= fun b => bump_status b (pi_gtp_status pi) |> in
  let g := gtpu_problem pi g in
  if negb (pi_gtp_v1u pi) then
    if status_eqb (pi_gtp_status pi) DEC_OK then g <| gs_not_v1u ::= inc |> else g
  else
  let g := gtpu_type pi g in
  let g := if negb (Z.land (pi_gtp_flags pi) GTPU_FLAG_S =? 0)
           then g <| gs_with_seq ::= inc |> else g in
  let g := if pi_gtp_ext_count pi >? 0 then g <| gs_with_ext ::= inc |> else g in
  gtpu_inner pi g.

(** ** [stats_add] *)

(** The time range, the packet count and the byte counts. *)
Definition stats_totals (caplen wirelen ts_ns : Z) (s : stats) : stats :=
  let s := if (st_packets s =? 0) || (ts_ns <? st_first_ts_ns s)
           then s <| st_first_ts_ns := ts_ns |> else s in
  let s := if (st_packets s =? 0) || (ts_ns >? st_last_ts_ns s)
           then s <| st_last_ts_ns := ts_ns |> else s in
  let s := s <| st_packets ::= inc |> in
  let s := s <| st_wire_bytes ::= fun x => u64 (x + wirelen) |> in
  s <| st_captured_bytes ::= fun x => u64 (x + caplen) |>.

(** The decode status. *)
Definition stats_status (pi : packet_info) (s : stats) : stats :=
  let s := s <| st_by_status ::= fun b => bump_status b (pi_status pi) |> in
  if negb (status_eqb (pi_status pi) DEC_OK) then
    if decode_status_is_truncation (pi_status pi) then s <| st_truncated ::= inc |>
    else s <| st_malformed ::= inc |>
  else s.

(** [switch (pi->ip_proto)] *)
Definition stats_proto (pi : packet_info) (s : stats) : stats :=
  let proto := pi_ip_proto pi in
  if proto =? IPPROTO_NUM_TCP then s <| st_tcp ::= inc |>
  else if proto =? IPPROTO_NUM_UDP then s <| st_udp ::= inc |>
  else if proto =? IPPROTO_NUM_ICMP then s <| st_icmp ::= inc |>
  else if proto =? IPPROTO_NUM_ICMPV6 then s <| st_icmpv6 ::= inc |>
  else s <| st_other_l4 ::= inc |>.

(** From [if (!pi->has_l3)] to the end of [stats_add]. *)
Definition stats_l3 (pi : packet_info) (s : stats) : stats :=
  if negb (pi_has_l3 pi) then
    if pi_has_l2 pi && negb (pi_ethertype pi =? ETHERTYPE_IPV4) &&
       negb (pi_ethertype pi =? ETHERTYPE_IPV6)
    then s <| st_non_ip ::= inc |> else s
  else
  let s := if pi_ip_version pi =? 4 then s <| st_ipv4 ::= inc |> else s <| st_ipv6 ::= inc |> in
  let s := match pi_frag pi with
           | FRAG_FIRST => s <| st_frag_first ::= inc |>
           | FRAG_LATER => s <| st_frag_later ::= inc |>
           | FRAG_NONE => s
           end in
  if status_eqb (pi_status pi) DEC_TRUNC_IPV6_EXT || status_eqb (pi_status pi) DEC_BAD_IPV6_EXT
  then s else stats_proto pi s.

Definition stats_add (s : stats) (pi : packet_info) (caplen wirelen ts_ns : Z) : stats :=
  let s := stats_totals caplen wirelen ts_ns s in
  let s := stats_status pi s in
  let s := if pi_vlan_count pi >? 0 then s <| st_vlan_tagged ::= inc |> else s in
  let s := s <| st_gtpu ::= add_gtpu pi |> in
  stats_l3 pi s.
