(* ===== verification/StatsProps.v ===== *)
(** What the counters mean: after any sequence of packets every counter of [stats]
    is the number of packets with a property that is stated here on the packet
    alone, and the counters add up. *)
From S2P Require Export Stats DecodeProps.
From stdpp Require Export list.
#[global] Open Scope Z_scope.

(** ** Counting *)
Definition count {A} (P : A -> bool) (l : list A) : Z :=
  foldr (fun x n => Z.b2z (P x) + n) 0 l.

Lemma count_snoc {A} (P : A -> bool) l x : count P (l ++ [x]) = count P l + Z.b2z (P x).
Proof. unfold count. induction l as [|y l IH]; cbn; lia. Qed.

Lemma count_bound {A} (P : A -> bool) l : 0 <= count P l <= Z.of_nat (length l).
Proof. unfold count. induction l as [|y l IH]; cbn; [lia|]. destruct (P y); cbn; lia. Qed.

(** A counter after one more packet. *)
Lemma count_step {A} (P : A -> bool) l x :
  Z.of_nat (length l) + 1 < 2 ^ 64 -> inc_if (P x) (count P l) = count P (l ++ [x]).
Proof.
  intros Hl. rewrite count_snoc. pose proof (count_bound P l). unfold inc_if, inc.
  destruct (P x); cbn; [|lia]. apply wrap_small. unfold is_u. lia.
Qed.

(** Properties that add up on every packet add up on their counts. *)
Lemma count_sum {A} (l : list A) (P : A -> bool) (Qs : list (A -> bool)) :
  Forall (fun x => Z.b2z (P x) = foldr (fun Q n => Z.b2z (Q x) + n) 0 Qs) l ->
  count P l = foldr (fun Q n => count Q l + n) 0 Qs.
Proof.
  induction l as [|x l IH]; intros Hl; cbn.
  - induction Qs as [|Q Qs IHq]; cbn; [done|]. by rewrite <- IHq.
  - apply Forall_cons in Hl as [Hx Hl]. unfold count in *. rewrite Hx, IH by done. clear.
    induction Qs as [|Q Qs IHq]; cbn; [done|]. lia.
Qed.

Lemma count_le {A} (l : list A) (P Q : A -> bool) :
  Forall (fun x => P x = true -> Q x = true) l -> count P l <= count Q l.
Proof.
  induction 1 as [|x l Hx Hl IH]; cbn; [done|]. unfold count in *.
  destruct (P x); cbn; [rewrite Hx by done; cbn; lia|]. destruct (Q x); cbn; lia.
Qed.

(** ** What is counted *)
Definition is_first (p : packet_info) : bool := bool_decide (pi_frag p = FRAG_FIRST).
Definition chain_broken (st : decode_status) : bool :=
  status_eqb st DEC_TRUNC_IPV6_EXT || status_eqb st DEC_BAD_IPV6_EXT.
Definition problem (st : decode_status) : bool := negb (status_eqb st DEC_OK).
Definition malformation (st : decode_status) : bool :=
  problem st && negb (decode_status_is_truncation st).

(** GTP-U messages that were decoded, and datagrams on its port that were not. *)
Definition gtpu_fragment (p : packet_info) : bool := is_first p && decode_is_gtpu_port p.
Definition gtpu_message (p : packet_info) : bool := negb (gtpu_fragment p) && pi_is_gtpu p.
Definition gtpv1u (p : packet_info) : bool := gtpu_message p && pi_gtp_v1u p.
Definition gtpu_of_type (ty : Z) (p : packet_info) : bool := gtpv1u p && (pi_gtp_msg_type p =? ty).
Definition gtpu_types : list Z :=
  [GTPU_MSG_GPDU; GTPU_MSG_ECHO_REQUEST; GTPU_MSG_ECHO_RESPONSE; GTPU_MSG_ERROR_INDICATION;
   GTPU_MSG_END_MARKER].
Definition other_than (known : list Z) (x : Z) : bool := negb (existsb (Z.eqb x) known).
Definition user_packet (p : packet_info) : bool := gtpv1u p && pi_has_inner p.
Definition user_l4 (p : packet_info) : bool := user_packet p && negb (chain_broken (pi_gtp_status p)).
Definition user_proto (proto : Z) (p : packet_info) : bool := user_l4 p && (pi_inner_proto p =? proto).
Definition known_protos : list Z :=
  [IPPROTO_NUM_TCP; IPPROTO_NUM_UDP; IPPROTO_NUM_ICMP; IPPROTO_NUM_ICMPV6].

(** IP packets, and those whose transport protocol is known. *)
Definition ip_l4 (p : packet_info) : bool := pi_has_l3 p && negb (chain_broken (pi_status p)).
Definition ip_proto (proto : Z) (p : packet_info) : bool := ip_l4 p && (pi_ip_proto p =? proto).
Definition non_ip (p : packet_info) : bool :=
  negb (pi_has_l3 p) && (pi_has_l2 p && negb (pi_ethertype p =? ETHERTYPE_IPV4) &&
                         negb (pi_ethertype p =? ETHERTYPE_IPV6)).

(** The enumerators, in order. *)
Definition statuses : list decode_status :=
  [DEC_OK;
   DEC_TRUNC_ETHERNET; DEC_TRUNC_VLAN; DEC_TRUNC_IPV4; DEC_TRUNC_IPV6; DEC_TRUNC_IPV6_EXT;
   DEC_TRUNC_TCP; DEC_TRUNC_UDP; DEC_TRUNC_ICMP; DEC_TRUNC_GTPU; DEC_TRUNC_GTPU_EXT;
   DEC_TRUNC_GTPU_INNER;
   DEC_BAD_SHORT_FRAME; DEC_BAD_VLAN_DEPTH; DEC_BAD_IPV4_VERSION; DEC_BAD_IPV4_IHL;
   DEC_BAD_IPV4_TOTAL_LEN; DEC_BAD_IPV6_VERSION; DEC_BAD_IPV6_PAYLOAD_LEN; DEC_BAD_IPV6_EXT;
   DEC_BAD_L4_LEN; DEC_BAD_TCP_DOFF; DEC_BAD_UDP_LEN; DEC_BAD_GTPU_LEN; DEC_BAD_GTPU_EXT_LEN;
   DEC_BAD_GTPU_EXT; DEC_BAD_GTPU_INNER; DEC_BAD_GTPU_INNER_SHORT].

(** The GTP-U counters, given the number of packets with each property. *)
Definition gtpu_shape (n : (packet_info -> bool) -> Z) : gtpu_stats := {|
  gs_packets := n gtpu_message;
  gs_fragmented := n gtpu_fragment;
  gs_not_v1u := n (fun p => gtpu_message p && negb (pi_gtp_v1u p) && status_eqb (pi_gtp_status p) DEC_OK);
  gs_gpdu := n (gtpu_of_type GTPU_MSG_GPDU);
  gs_echo_request := n (gtpu_of_type GTPU_MSG_ECHO_REQUEST);
  gs_echo_response := n (gtpu_of_type GTPU_MSG_ECHO_RESPONSE);
  gs_error_indication := n (gtpu_of_type GTPU_MSG_ERROR_INDICATION);
  gs_end_marker := n (gtpu_of_type GTPU_MSG_END_MARKER);
  gs_other_type := n (fun p => gtpv1u p && other_than gtpu_types (pi_gtp_msg_type p));
  gs_with_seq := n (fun p => gtpv1u p && negb (Z.land (pi_gtp_flags p) GTPU_FLAG_S =? 0));
  gs_with_ext := n (fun p => gtpv1u p && (pi_gtp_ext_count p >? 0));
  gs_inner_ipv4 := n (fun p => user_packet p && (pi_inner_version p =? 4));
  gs_inner_ipv6 := n (fun p => user_packet p && negb (pi_inner_version p =? 4));
  gs_inner_tcp := n (user_proto IPPROTO_NUM_TCP);
  gs_inner_udp := n (user_proto IPPROTO_NUM_UDP);
  gs_inner_icmp := n (user_proto IPPROTO_NUM_ICMP);
  gs_inner_icmpv6 := n (user_proto IPPROTO_NUM_ICMPV6);
  gs_inner_other := n (fun p => user_l4 p && other_than known_protos (pi_inner_proto p));
  gs_nested := n (fun p => user_l4 p && pi_gtp_nested p);
  gs_truncated := n (fun p => gtpu_message p && decode_status_is_truncation (pi_gtp_status p));
  gs_malformed := n (fun p => gtpu_message p && malformation (pi_gtp_status p));
  gs_user_truncated := n (fun p => gtpu_message p && decode_status_is_truncation (pi_gtp_status p) &&
                                  pi_gtp_msg_ok p);
  gs_user_malformed := n (fun p => gtpu_message p && malformation (pi_gtp_status p) && pi_gtp_msg_ok p);
  gs_by_status := map (fun st => n (fun p => gtpu_message p && status_eqb (pi_gtp_status p) st)) statuses
|}.

(** One packet seen: its decoding, its lengths and its time. *)
Record sample := Sample {
  sa_pi : packet_info; sa_caplen : Z; sa_wirelen : Z; sa_ts : Z
}.

Definition add_sample (s : stats) (x : sample) : stats :=
  stats_add s (sa_pi x) (sa_caplen x) (sa_wirelen x) (sa_ts x).

Definition sum_of (f : sample -> Z) (l : list sample) : Z := foldr (fun x n => f x + n) 0 l.

(** The earliest and the latest time; 0 when nothing was seen. *)
Definition earliest (l : list sample) : Z :=
  match l with [] => 0 | x :: l => foldl (fun m y => Z.min m (sa_ts y)) (sa_ts x) l end.
Definition latest (l : list sample) : Z :=
  match l with [] => 0 | x :: l => foldl (fun m y => Z.max m (sa_ts y)) (sa_ts x) l end.

(** The counters a sequence of packets stands for.  [frag_matched] belongs to the
    analyzer and is given. *)
Definition stats_of (matched : Z) (l : list sample) : stats :=
  let n := fun P : packet_info -> bool => count (fun x => P (sa_pi x)) l in {|
  st_packets := Z.of_nat (length l);
  st_wire_bytes := u64 (sum_of sa_wirelen l);
  st_captured_bytes := u64 (sum_of sa_caplen l);
  st_first_ts_ns := earliest l;
  st_last_ts_ns := latest l;
  st_ipv4 := n (fun p => pi_has_l3 p && (pi_ip_version p =? 4));
  st_ipv6 := n (fun p => pi_has_l3 p && negb (pi_ip_version p =? 4));
  st_non_ip := n non_ip;
  st_vlan_tagged := n (fun p => pi_vlan_count p >? 0);
  st_tcp := n (ip_proto IPPROTO_NUM_TCP);
  st_udp := n (ip_proto IPPROTO_NUM_UDP);
  st_icmp := n (ip_proto IPPROTO_NUM_ICMP);
  st_icmpv6 := n (ip_proto IPPROTO_NUM_ICMPV6);
  st_other_l4 := n (fun p => ip_l4 p && other_than known_protos (pi_ip_proto p));
  st_frag_first := n (fun p => pi_has_l3 p && is_first p);
  st_frag_later := n (fun p => pi_has_l3 p && bool_decide (pi_frag p = FRAG_LATER));
  st_frag_matched := matched;
  st_truncated := n (fun p => decode_status_is_truncation (pi_status p));
  st_malformed := n (fun p => malformation (pi_status p));
  st_by_status := map (fun st => n (fun p => status_eqb (pi_status p) st)) statuses;
  st_gtpu := gtpu_shape n
|}.

(** ** The stages in closed form *)

(** The cases of a [switch] on [x], as independent conditions. *)
Ltac switch_cases x :=
  repeat match goal with
  | |- context [Z.eqb x ?k] => destruct (Z.eqb_spec x k) as [->|]; [reflexivity|]
  end; reflexivity.

Lemma gtpu_problem_nf p g :
  gtpu_problem p g =
  g <| gs_truncated ::= inc_if (decode_status_is_truncation (pi_gtp_status p)) |>
    <| gs_malformed ::= inc_if (malformation (pi_gtp_status p)) |>
    <| gs_user_truncated ::= inc_if (decode_status_is_truncation (pi_gtp_status p) && pi_gtp_msg_ok p) |>
    <| gs_user_malformed ::= inc_if (malformation (pi_gtp_status p) && pi_gtp_msg_ok p) |>.
Proof.
  unfold gtpu_problem, malformation, problem. destruct g, (pi_gtp_status p); cbn;
    by destruct (pi_gtp_msg_ok p).
Qed.

Lemma gtpu_type_nf p g :
  gtpu_type p g =
  g <| gs_gpdu ::= inc_if (pi_gtp_msg_type p =? GTPU_MSG_GPDU) |>
    <| gs_echo_request ::= inc_if (pi_gtp_msg_type p =? GTPU_MSG_ECHO_REQUEST) |>
    <| gs_echo_response ::= inc_if (pi_gtp_msg_type p =? GTPU_MSG_ECHO_RESPONSE) |>
    <| gs_error_indication ::= inc_if (pi_gtp_msg_type p =? GTPU_MSG_ERROR_INDICATION) |>
    <| gs_end_marker ::= inc_if (pi_gtp_msg_type p =? GTPU_MSG_END_MARKER) |>
    <| gs_other_type ::= inc_if (other_than gtpu_types (pi_gtp_msg_type p)) |>.
Proof.
  unfold gtpu_type, other_than, gtpu_types. cbn [existsb]. destruct g.
  generalize (pi_gtp_msg_type p). intros x. switch_cases x.
Qed.

Lemma gtpu_inner_proto_nf p g :
  gtpu_inner_proto p g =
  g <| gs_inner_tcp ::= inc_if (pi_inner_proto p =? IPPROTO_NUM_TCP) |>
    <| gs_inner_udp ::= inc_if (pi_inner_proto p =? IPPROTO_NUM_UDP) |>
    <| gs_inner_icmp ::= inc_if (pi_inner_proto p =? IPPROTO_NUM_ICMP) |>
    <| gs_inner_icmpv6 ::= inc_if (pi_inner_proto p =? IPPROTO_NUM_ICMPV6) |>
    <| gs_inner_other ::= inc_if (other_than known_protos (pi_inner_proto p)) |>.
Proof.
  unfold gtpu_inner_proto, other_than, known_protos. cbn [existsb]. destruct g.
  generalize (pi_inner_proto p). intros x. switch_cases x.
Qed.

Lemma stats_proto_nf p s :
  stats_proto p s =
  s <| st_tcp ::= inc_if (pi_ip_proto p =? IPPROTO_NUM_TCP) |>
    <| st_udp ::= inc_if (pi_ip_proto p =? IPPROTO_NUM_UDP) |>
    <| st_icmp ::= inc_if (pi_ip_proto p =? IPPROTO_NUM_ICMP) |>
    <| st_icmpv6 ::= inc_if (pi_ip_proto p =? IPPROTO_NUM_ICMPV6) |>
    <| st_other_l4 ::= inc_if (other_than known_protos (pi_ip_proto p)) |>.
Proof.
  unfold stats_proto, other_than, known_protos. cbn [existsb]. destruct s.
  generalize (pi_ip_proto p). intros x. switch_cases x.
Qed.

(** Conditions on top of conditions. *)
Lemma inc_if_true x : inc_if true x = inc x.
Proof. done. Qed.

Lemma inc_if_andb a b x : inc_if (a && b) x = if a then inc_if b x else x.
Proof. by destruct a. Qed.

(** The bucket of a status goes up by one, the others stay. *)
Lemma bump_counts {A} (f : A -> bool) (g : A -> decode_status) l x :
  Z.of_nat (length l) + 1 < 2 ^ 64 ->
  (if f x then bump_status (map (fun st => count (fun y => f y && status_eqb (g y) st) l) statuses) (g x)
   else map (fun st => count (fun y => f y && status_eqb (g y) st) l) statuses) =
  map (fun st => count (fun y => f y && status_eqb (g y) st) (l ++ [x])) statuses.
Proof.
  intros Hl. set (n := fun st => count (fun y => f y && status_eqb (g y) st) l).
  assert (E : map (fun st => count (fun y => f y && status_eqb (g y) st) (l ++ [x])) statuses =
              map (fun st => inc_if (f x && status_eqb (g x) st) (n st)) statuses).
  { apply map_ext. intros st. symmetry.
    by apply (count_step (fun y => f y && status_eqb (g y) st)). }
  rewrite E. clearbody n. clear E. destruct (f x); [|done]. by destruct (g x).
Qed.

(** [add_gtpu] in closed form: every counter goes up by one under its condition. *)
Lemma add_gtpu_nf p g :
  add_gtpu p g = {|
    gs_packets := inc_if (gtpu_message p) (gs_packets g);
    gs_fragmented := inc_if (gtpu_fragment p) (gs_fragmented g);
    gs_not_v1u := inc_if (gtpu_message p && negb (pi_gtp_v1u p) &&
                          status_eqb (pi_gtp_status p) DEC_OK) (gs_not_v1u g);
    gs_gpdu := inc_if (gtpu_of_type GTPU_MSG_GPDU p) (gs_gpdu g);
    gs_echo_request := inc_if (gtpu_of_type GTPU_MSG_ECHO_REQUEST p) (gs_echo_request g);
    gs_echo_response := inc_if (gtpu_of_type GTPU_MSG_ECHO_RESPONSE p) (gs_echo_response g);
    gs_error_indication := inc_if (gtpu_of_type GTPU_MSG_ERROR_INDICATION p) (gs_error_indication g);
    gs_end_marker := inc_if (gtpu_of_type GTPU_MSG_END_MARKER p) (gs_end_marker g);
    gs_other_type := inc_if (gtpv1u p && other_than gtpu_types (pi_gtp_msg_type p)) (gs_other_type g);
    gs_with_seq := inc_if (gtpv1u p && negb (Z.land (pi_gtp_flags p) GTPU_FLAG_S =? 0)) (gs_with_seq g);
    gs_with_ext := inc_if (gtpv1u p && (pi_gtp_ext_count p >? 0)) (gs_with_ext g);
    gs_inner_ipv4 := inc_if (user_packet p && (pi_inner_version p =? 4)) (gs_inner_ipv4 g);
    gs_inner_ipv6 := inc_if (user_packet p && negb (pi_inner_version p =? 4)) (gs_inner_ipv6 g);
    gs_inner_tcp := inc_if (user_proto IPPROTO_NUM_TCP p) (gs_inner_tcp g);
    gs_inner_udp := inc_if (user_proto IPPROTO_NUM_UDP p) (gs_inner_udp g);
    gs_inner_icmp := inc_if (user_proto IPPROTO_NUM_ICMP p) (gs_inner_icmp g);
    gs_inner_icmpv6 := inc_if (user_proto IPPROTO_NUM_ICMPV6 p) (gs_inner_icmpv6 g);
    gs_inner_other := inc_if (user_l4 p && other_than known_protos (pi_inner_proto p)) (gs_inner_other g);
    gs_nested := inc_if (user_l4 p && pi_gtp_nested p) (gs_nested g);
    gs_truncated := inc_if (gtpu_message p && decode_status_is_truncation (pi_gtp_status p))
                      (gs_truncated g);
    gs_malformed := inc_if (gtpu_message p && malformation (pi_gtp_status p)) (gs_malformed g);
    gs_user_truncated := inc_if (gtpu_message p && decode_status_is_truncation (pi_gtp_status p) &&
                                 pi_gtp_msg_ok p) (gs_user_truncated g);
    gs_user_malformed := inc_if (gtpu_message p && malformation (pi_gtp_status p) && pi_gtp_msg_ok p)
                           (gs_user_malformed g);
    gs_by_status := if gtpu_message p then bump_status (gs_by_status g) (pi_gtp_status p)
                    else gs_by_status g
  |}.
Proof.
  unfold add_gtpu, gtpu_inner. rewrite gtpu_problem_nf, gtpu_type_nf, gtpu_inner_proto_nf.
  unfold user_proto, user_l4, user_packet, gtpu_of_type, gtpv1u, gtpu_message, chain_broken.
  change (bool_decide (pi_frag p = FRAG_FIRST) && decode_is_gtpu_port p) with (gtpu_fragment p).
  destruct g, (gtpu_fragment p); [reflexivity|]. destruct (pi_is_gtpu p); [|reflexivity].
  destruct (pi_gtp_v1u p); cbn [negb andb].
  - destruct (Z.land _ _ =? 0), (pi_gtp_ext_count p >? 0); cbn [negb];
      (destruct (pi_has_inner p); [|reflexivity]);
      destruct (pi_inner_version p =? 4); cbn [negb andb];
      (destruct (_ || _); [reflexivity|]);
      by destruct (pi_gtp_nested p).
  - by destruct (status_eqb _ _).
Qed.

Lemma gtpu_step {A} (pi_of : A -> packet_info) l x :
  Z.of_nat (length l) + 1 < 2 ^ 64 ->
  add_gtpu (pi_of x) (gtpu_shape (fun P => count (fun y => P (pi_of y)) l)) =
  gtpu_shape (fun P => count (fun y => P (pi_of y)) (l ++ [x])).
Proof.
  intros Hl. set (g := gtpu_shape (fun P => count (fun y => P (pi_of y)) l)).
  rewrite add_gtpu_nf. unfold gtpu_shape.
  f_equal; try exact (count_step _ l x Hl).
  exact (bump_counts (fun y => gtpu_message (pi_of y)) (fun y => pi_gtp_status (pi_of y)) l x Hl).
Qed.

Lemma stats_status_nf p s :
  stats_status p s =
  s <| st_by_status ::= fun b => bump_status b (pi_status p) |>
    <| st_truncated ::= inc_if (decode_status_is_truncation (pi_status p)) |>
    <| st_malformed ::= inc_if (malformation (pi_status p)) |>.
Proof. unfold stats_status, malformation, problem. by destruct s, (pi_status p). Qed.

(** Reduce the projections and setters of the time range. *)
Local Ltac proj :=
  cbv beta iota zeta delta
    [update set_st_first_ts_ns set_st_last_ts_ns st_packets st_first_ts_ns st_last_ts_ns orb].

Lemma stats_totals_nf caplen wirelen ts s :
  stats_totals caplen wirelen ts s =
  s <| st_first_ts_ns ::= fun t => if (st_packets s =? 0) || (ts <? t) then ts else t |>
    <| st_last_ts_ns ::= fun t => if (st_packets s =? 0) || (ts >? t) then ts else t |>
    <| st_packets ::= inc |>
    <| st_wire_bytes ::= fun x => u64 (x + wirelen) |>
    <| st_captured_bytes ::= fun x => u64 (x + caplen) |>.
Proof.
  unfold stats_totals. destruct s as [n ? ? first last].
  proj. destruct (n =? 0) eqn:En; [proj; rewrite En; reflexivity|].
  destruct (ts <? first); proj; rewrite En; destruct (ts >? last); reflexivity.
Qed.

(** [stats_add] in closed form. *)
Lemma stats_add_nf s p caplen wirelen ts :
  stats_add s p caplen wirelen ts = {|
    st_packets := inc (st_packets s);
    st_wire_bytes := u64 (st_wire_bytes s + wirelen);
    st_captured_bytes := u64 (st_captured_bytes s + caplen);
    st_first_ts_ns := if (st_packets s =? 0) || (ts <? st_first_ts_ns s) then ts else st_first_ts_ns s;
    st_last_ts_ns := if (st_packets s =? 0) || (ts >? st_last_ts_ns s) then ts else st_last_ts_ns s;
    st_ipv4 := inc_if (pi_has_l3 p && (pi_ip_version p =? 4)) (st_ipv4 s);
    st_ipv6 := inc_if (pi_has_l3 p && negb (pi_ip_version p =? 4)) (st_ipv6 s);
    st_non_ip := inc_if (non_ip p) (st_non_ip s);
    st_vlan_tagged := inc_if (pi_vlan_count p >? 0) (st_vlan_tagged s);
    st_tcp := inc_if (ip_proto IPPROTO_NUM_TCP p) (st_tcp s);
    st_udp := inc_if (ip_proto IPPROTO_NUM_UDP p) (st_udp s);
    st_icmp := inc_if (ip_proto IPPROTO_NUM_ICMP p) (st_icmp s);
    st_icmpv6 := inc_if (ip_proto IPPROTO_NUM_ICMPV6 p) (st_icmpv6 s);
    st_other_l4 := inc_if (ip_l4 p && other_than known_protos (pi_ip_proto p)) (st_other_l4 s);
    st_frag_first := inc_if (pi_has_l3 p && is_first p) (st_frag_first s);
    st_frag_later := inc_if (pi_has_l3 p && bool_decide (pi_frag p = FRAG_LATER)) (st_frag_later s);
    st_frag_matched := st_frag_matched s;
    st_truncated := inc_if (decode_status_is_truncation (pi_status p)) (st_truncated s);
    st_malformed := inc_if (malformation (pi_status p)) (st_malformed s);
    st_by_status := bump_status (st_by_status s) (pi_status p);
    st_gtpu := add_gtpu p (st_gtpu s)
  |}.
Proof.
  unfold stats_add, stats_l3. rewrite stats_proto_nf, stats_status_nf, stats_totals_nf.
  unfold non_ip, ip_proto, ip_l4, chain_broken, is_first. destruct s.
  destruct (pi_vlan_count p >? 0), (pi_has_l3 p); cbn [negb andb].
  all: try by destruct (_ && _ && _).
  all: destruct (pi_ip_version p =? 4), (pi_frag p), (_ || _); reflexivity.
Qed.

(** ** Sequences of packets *)
Lemma sum_of_snoc f l x : sum_of f (l ++ [x]) = sum_of f l + f x.
Proof. unfold sum_of. induction l as [|y l IH]; cbn; lia. Qed.

Lemma earliest_snoc l x :
  earliest (l ++ [x]) =
  if (Z.of_nat (length l) =? 0) || (sa_ts x <? earliest l) then sa_ts x else earliest l.
Proof.
  destruct l as [|y l]; [done|]. cbn [earliest app length]. rewrite foldl_app. cbn [foldl].
  destruct (Z.eqb_spec (Z.of_nat (S (length l))) 0); [lia|]. cbn [orb].
  destruct (Z.ltb_spec (sa_ts x) (foldl (fun m y => Z.min m (sa_ts y)) (sa_ts y) l)); lia.
Qed.

Lemma latest_snoc l x :
  latest (l ++ [x]) =
  if (Z.of_nat (length l) =? 0) || (sa_ts x >? latest l) then sa_ts x else latest l.
Proof.
  destruct l as [|y l]; [done|]. cbn [latest app length]. rewrite foldl_app, Z.gtb_ltb. cbn [foldl].
  destruct (Z.eqb_spec (Z.of_nat (S (length l))) 0); [lia|]. cbn [orb].
  destruct (Z.ltb_spec (foldl (fun m y => Z.max m (sa_ts y)) (sa_ts y) l) (sa_ts x)); lia.
Qed.

Lemma stats_step m l x :
  Z.of_nat (length l) + 1 < 2 ^ 64 -> add_sample (stats_of m l) x = stats_of m (l ++ [x]).
Proof.
  intros Hl. unfold add_sample. set (s := stats_of m l). rewrite stats_add_nf. unfold stats_of.
  f_equal; try exact (count_step _ l x Hl); try reflexivity.
  - cbn. unfold inc. rewrite length_app. cbn. rewrite wrap_small by (unfold is_u; lia). lia.
  - cbn. by rewrite sum_of_snoc, wrap_add_l.
  - cbn. by rewrite sum_of_snoc, wrap_add_l.
  - symmetry. apply earliest_snoc.
  - symmetry. apply latest_snoc.
  - exact (bump_counts (fun _ => true) (fun y => pi_status (sa_pi y)) l x Hl).
  - exact (gtpu_step sa_pi l x Hl).
Qed.

Lemma stats_of_nil : stats_of 0 [] = stats_init.
Proof. reflexivity. Qed.

Lemma stats_run_spec l :
  Z.of_nat (length l) < 2 ^ 64 -> foldl add_sample stats_init l = stats_of 0 l.
Proof.
  induction l as [|x l IH] using rev_ind; intros Hl; [done|].
  rewrite length_app in Hl. cbn in Hl. rewrite foldl_app. cbn [foldl].
  rewrite IH by lia. apply stats_step. lia.
Qed.

(** ** Properties *)

(** C30. The counters count: after any sequence of up to 2^64 packets, every counter
    of [stats] and of its GTP-U part equals the number of packets with the property
    [stats_of] and [gtpu_shape] state for it - independently of the order of the
    tests and the early returns of [stats_add] -, the byte counts are the sums
    modulo 2^64, and the times are the earliest and the latest. *)
Theorem stats_add_counts l :
  Z.of_nat (length l) < 2 ^ 64 -> foldl add_sample stats_init l = stats_of 0 l.
Proof. exact (stats_run_spec l). Qed.

(** ** Conservation *)

(** The facts about a decoded packet that make the counters add up. *)
Record sane (p : packet_info) : Prop := {
  sn_status : pi_status p <> DEC_STATUS_COUNT;
  sn_gtp_status : pi_gtp_status p <> DEC_STATUS_COUNT;
  sn_l3 : pi_has_l3 p = true -> pi_has_l2 p = true;
  sn_chain : chain_broken (pi_status p) = true -> pi_has_l3 p = true;
  sn_l4 : pi_has_l4 p = true -> pi_has_l3 p = true /\ pi_status p = DEC_OK;
  sn_ok : pi_status p = DEC_OK -> pi_has_l2 p = true;
  sn_type : pi_has_l2 p = true -> pi_has_l3 p = false ->
            status_eqb (pi_status p) DEC_OK = negb (ip_type (pi_ethertype p));
  sn_gtpu : pi_is_gtpu p = true -> pi_frag p = FRAG_NONE /\ decode_is_gtpu_port p = true;
  sn_no_gtpu : pi_is_gtpu p = false -> pi_gtp_v1u p = false;
  sn_gtp_chain : chain_broken (pi_gtp_status p) = true ->
                 pi_has_inner p = true /\ gtpv1u p = true;
  sn_inner : pi_has_inner p = true -> pi_gtp_msg_type p = GTPU_MSG_GPDU;
  sn_header : gtpv1u p = true -> pi_gtp_msg_ok p = false -> pi_gtp_status p <> DEC_OK;
  sn_nested : pi_gtp_nested p = true -> pi_inner_proto p = IPPROTO_NUM_UDP
}.

Lemma chain_broken_status st : chain_broken st = is_chain_status st.
Proof. by destruct st. Qed.

Lemma packet_ok_sane buf full st p : packet_ok buf full st p -> sane p.
Proof.
  intros Hp. pose proof (gtp_facts_ok _ _ _ _ Hp) as Hg.
  assert (Hst : is_frame_status (pi_status p) = true) by (rewrite (po_ret _ _ _ _ Hp); apply Hp).
  assert (Hgt : pi_is_gtpu p = true -> pi_frag p = FRAG_NONE /\ decode_is_gtpu_port p = true)
    by (intros E; by destruct (po_gtpu _ _ _ _ Hp E) as (_ & Hf & Hport & _)).
  split; try apply Hg.
  - by intros E; rewrite E in Hst.
  - intros E. by apply (po_l3 _ _ _ _ Hp).
  - rewrite chain_broken_status, (po_ret _ _ _ _ Hp). apply Hp.
  - rewrite (po_ret _ _ _ _ Hp). intros E. by apply (po_l4 _ _ _ _ Hp) in E as (? & ? & _).
  - rewrite (po_ret _ _ _ _ Hp). apply (po_ok _ _ _ _ Hp).
  - rewrite (po_ret _ _ _ _ Hp). apply (po_type _ _ _ _ Hp).
  - done.
  - intros E. by destruct (po_no_gtpu _ _ _ _ Hp E) as (_ & _ & (? & _)).
  - rewrite chain_broken_status. intros E. destruct (gf_chain _ Hg E) as [Hi _].
    split; [done|]. destruct (gf_inner _ Hg Hi) as [Hm _].
    assert (Hv : pi_gtp_v1u p = true)
      by (destruct (pi_gtp_v1u p) eqn:Ev; [done|by rewrite (gf_other _ Hg Ev) in Hm]).
    destruct (pi_is_gtpu p) eqn:Ei.
    + unfold gtpv1u, gtpu_message, gtpu_fragment, is_first.
      by rewrite (proj1 (Hgt eq_refl)), Ei, Hv.
    + destruct (po_no_gtpu _ _ _ _ Hp Ei) as (_ & _ & (? & _)). congruence.
  - unfold gtpv1u. intros [_ Hv]%andb_true_iff Hm E. rewrite (gf_v1u _ Hg Hv), E in Hm. discriminate.
Qed.

(** A bucket of [by_status], and a total over a set of statuses. *)
Definition bucket (by_status : list Z) (st : decode_status) : Z :=
  default 0 (by_status !! Z.to_nat (status_val st)).
Definition total (by_status : list Z) (sts : list decode_status) : Z :=
  foldr (fun st n => bucket by_status st + n) 0 sts.
Definition truncations : list decode_status := filter decode_status_is_truncation statuses.
Definition malformations : list decode_status := filter malformation statuses.

Lemma total_map (f : decode_status -> Z) sts :
  Forall (fun st => st <> DEC_STATUS_COUNT) sts ->
  total (map f statuses) sts = foldr (fun st n => f st + n) 0 sts.
Proof.
  unfold total. induction 1 as [|st sts Hst _ IH]; cbn [foldr]; [done|]. rewrite IH. f_equal.
  by destruct st.
Qed.

Lemma bucket_map (f : decode_status -> Z) st :
  st <> DEC_STATUS_COUNT -> bucket (map f statuses) st = f st.
Proof. by destruct st. Qed.

(** Sums over the packets. *)
Definition tally {A} (f : A -> Z) (l : list A) : Z := foldr (fun x n => f x + n) 0 l.

Lemma count_tally {A} (P : A -> bool) l : count P l = tally (fun x => Z.b2z (P x)) l.
Proof. done. Qed.

Lemma tally_add {A} (f g : A -> Z) l : tally f l + tally g l = tally (fun x => f x + g x) l.
Proof. unfold tally. induction l as [|x l IH]; cbn; lia. Qed.

Lemma tally_le {A} (f g : A -> Z) l :
  Forall (fun x => f x <= g x) l -> tally f l <= tally g l.
Proof. unfold tally. induction 1; cbn; lia. Qed.

Lemma tally_eq {A} (f g : A -> Z) l :
  Forall (fun x => f x = g x) l -> tally f l = tally g l.
Proof. unfold tally. induction 1; cbn; lia. Qed.

Lemma total_tally {A} (f : A -> bool) (g : A -> decode_status) sts l :
  Forall (fun st => st <> DEC_STATUS_COUNT) sts ->
  total (map (fun st => count (fun y => f y && status_eqb (g y) st) l) statuses) sts =
  tally (fun x => foldr (fun st n => Z.b2z (f x && status_eqb (g x) st) + n) 0 sts) l.
Proof.
  intros Hsts. rewrite total_map by done. clear Hsts.
  induction sts as [|st sts IH]; cbn [foldr]; [by induction l|].
  rewrite IH. apply tally_add.
Qed.

Lemma length_tally {A} (l : list A) : Z.of_nat (length l) = tally (fun _ => 1) l.
Proof. unfold tally. induction l; cbn; lia. Qed.

(** ** One packet *)
Section One.
Context (p : packet_info) (Hp : sane p).
Abbreviation b := Z.b2z.

Lemma one_status :
  1 = foldr (fun st n => b (true && status_eqb (pi_status p) st) + n) 0 statuses.
Proof. pose proof (sn_status p Hp). by destruct (pi_status p). Qed.

Lemma one_truncation f (st : decode_status) :
  b (f && decode_status_is_truncation st) =
  foldr (fun st' n => b (f && status_eqb st st') + n) 0 truncations.
Proof. by destruct f, st. Qed.

Lemma one_malformation f (st : decode_status) :
  st <> DEC_STATUS_COUNT ->
  b (f && malformation st) = foldr (fun st' n => b (f && status_eqb st st') + n) 0 malformations.
Proof. by destruct f, st. Qed.

Lemma one_gtp_status :
  b (gtpu_message p) =
  foldr (fun st n => b (gtpu_message p && status_eqb (pi_gtp_status p) st) + n) 0 statuses.
Proof.
  pose proof (sn_gtp_status p Hp). by destruct (gtpu_message p), (pi_gtp_status p).
Qed.

(** One packet has one transport protocol. *)
Lemma one_proto f x :
  b (f && (x =? IPPROTO_NUM_TCP)) + b (f && (x =? IPPROTO_NUM_UDP)) +
  b (f && (x =? IPPROTO_NUM_ICMP)) + b (f && (x =? IPPROTO_NUM_ICMPV6)) +
  b (f && other_than known_protos x) = b f.
Proof.
  destruct f; [|reflexivity]. unfold other_than, known_protos. cbn [existsb andb]. switch_cases x.
Qed.

Lemma one_type f x :
  b (f && (x =? GTPU_MSG_GPDU)) + b (f && (x =? GTPU_MSG_ECHO_REQUEST)) +
  b (f && (x =? GTPU_MSG_ECHO_RESPONSE)) + b (f && (x =? GTPU_MSG_ERROR_INDICATION)) +
  b (f && (x =? GTPU_MSG_END_MARKER)) + b (f && other_than gtpu_types x) = b f.
Proof.
  destruct f; [|reflexivity]. unfold other_than, gtpu_types. cbn [existsb andb]. switch_cases x.
Qed.

Lemma one_side f g : b (f && g) + b (f && negb g) = b f.
Proof. by destruct f, g. Qed.

(** A status is one of the two broken chains, or none. *)
Lemma one_chain f st :
  b (f && negb (chain_broken st)) + b (f && status_eqb st DEC_TRUNC_IPV6_EXT) +
  b (f && status_eqb st DEC_BAD_IPV6_EXT) = b f.
Proof. by destruct f, st. Qed.

Lemma chain_l3 st :
  st = DEC_TRUNC_IPV6_EXT \/ st = DEC_BAD_IPV6_EXT ->
  b (pi_has_l3 p && status_eqb (pi_status p) st) = b (status_eqb (pi_status p) st).
Proof.
  intros Hst. pose proof (sn_chain p Hp) as Hc.
  unfold status_eqb. destruct (bool_decide_reflect (pi_status p = st)) as [E|];
    [|by rewrite andb_false_r].
  rewrite Hc; [done|]. rewrite E. by destruct Hst as [-> | ->].
Qed.

Lemma gtp_chain_user st :
  st = DEC_TRUNC_IPV6_EXT \/ st = DEC_BAD_IPV6_EXT ->
  b (user_packet p && status_eqb (pi_gtp_status p) st) =
  b (gtpu_message p && status_eqb (pi_gtp_status p) st).
Proof.
  intros Hst. pose proof (sn_gtp_chain p Hp) as Hc. unfold user_packet.
  unfold status_eqb. destruct (bool_decide_reflect (pi_gtp_status p = st)) as [E|];
    [|by rewrite !andb_false_r].
  destruct Hc as [Hi Hv]; [rewrite E; by destruct Hst as [-> | ->]|].
  rewrite Hi, Hv. unfold gtpv1u in Hv. by apply andb_true_iff in Hv as [-> _].
Qed.

Lemma one_ip_split :
  b (pi_has_l3 p && (pi_ip_version p =? 4)) + b (pi_has_l3 p && negb (pi_ip_version p =? 4)) =
  b (ip_proto IPPROTO_NUM_TCP p) + b (ip_proto IPPROTO_NUM_UDP p) +
  b (ip_proto IPPROTO_NUM_ICMP p) + b (ip_proto IPPROTO_NUM_ICMPV6 p) +
  b (ip_l4 p && other_than known_protos (pi_ip_proto p)) +
  b (status_eqb (pi_status p) DEC_TRUNC_IPV6_EXT) + b (status_eqb (pi_status p) DEC_BAD_IPV6_EXT).
Proof.
  unfold ip_proto. rewrite one_proto, one_side.
  rewrite <- !chain_l3 by auto. symmetry. apply one_chain.
Qed.

Lemma one_user_split :
  b (user_packet p && (pi_inner_version p =? 4)) +
  b (user_packet p && negb (pi_inner_version p =? 4)) =
  b (user_proto IPPROTO_NUM_TCP p) + b (user_proto IPPROTO_NUM_UDP p) +
  b (user_proto IPPROTO_NUM_ICMP p) + b (user_proto IPPROTO_NUM_ICMPV6 p) +
  b (user_l4 p && other_than known_protos (pi_inner_proto p)) +
  b (gtpu_message p && status_eqb (pi_gtp_status p) DEC_TRUNC_IPV6_EXT) +
  b (gtpu_message p && status_eqb (pi_gtp_status p) DEC_BAD_IPV6_EXT).
Proof.
  unfold user_proto. rewrite one_proto, one_side.
  rewrite <- !gtp_chain_user by auto. symmetry. apply one_chain.
Qed.

Lemma one_non_ip :
  b (pi_has_l3 p && (pi_ip_version p =? 4)) + b (pi_has_l3 p && negb (pi_ip_version p =? 4)) +
  b (non_ip p) <= 1.
Proof. rewrite one_side. unfold non_ip. destruct (pi_has_l3 p); [by cbn|].
  cbn [negb andb]. destruct (_ && _ && _); cbn; lia. Qed.

(** A cleanly decoded packet is IP or not, and only those can be non-IP. *)
Lemma one_clean :
  b (status_eqb (pi_status p) DEC_OK && pi_has_l3 p) + b (non_ip p) = b (status_eqb (pi_status p) DEC_OK).
Proof.
  unfold non_ip. destruct (pi_has_l3 p) eqn:E3; cbn [negb andb]; [by rewrite andb_true_r, Z.add_0_r|].
  rewrite andb_false_r, Z.add_0_l. destruct (pi_has_l2 p) eqn:E2; cbn [andb].
  - rewrite (sn_type p Hp E2 E3). unfold ip_type. by rewrite negb_orb.
  - unfold status_eqb. rewrite bool_decide_false; [done|]. intros E. by rewrite (sn_ok p Hp E) in E2.
Qed.

(** A G-PDU without a complete GTP-U header has a problem before its user packet. *)
Lemma one_header_problem :
  b (gtpu_of_type GTPU_MSG_GPDU p) +
  b (gtpu_message p && decode_status_is_truncation (pi_gtp_status p) && pi_gtp_msg_ok p) +
  b (gtpu_message p && malformation (pi_gtp_status p) && pi_gtp_msg_ok p) <=
  b (gtpu_of_type GTPU_MSG_GPDU p && pi_gtp_msg_ok p) +
  b (gtpu_message p && decode_status_is_truncation (pi_gtp_status p)) +
  b (gtpu_message p && malformation (pi_gtp_status p)).
Proof.
  destruct (pi_gtp_msg_ok p) eqn:Em; [rewrite !andb_true_r; lia|]. rewrite !andb_false_r.
  assert (Hb : forall c, 0 <= b c) by (by intros []).
  unfold gtpu_of_type. destruct (gtpv1u p) eqn:Eg; cbn [andb];
    [|change (b false) with 0; pose proof (Hb (gtpu_message p && decode_status_is_truncation (pi_gtp_status p)));
      pose proof (Hb (gtpu_message p && malformation (pi_gtp_status p))); lia].
  pose proof (sn_header p Hp Eg Em) as Hne. pose proof (sn_gtp_status p Hp) as Hc.
  unfold gtpv1u in Eg. apply andb_true_iff in Eg as [-> _].
  destruct (pi_gtp_status p), (pi_gtp_msg_type p =? GTPU_MSG_GPDU); try done; by vm_compute.
Qed.

Lemma one_fragment :
  b (pi_has_l3 p && is_first p) + b (pi_has_l3 p && bool_decide (pi_frag p = FRAG_LATER)) <=
  b (pi_has_l3 p && (pi_ip_version p =? 4)) + b (pi_has_l3 p && negb (pi_ip_version p =? 4)).
Proof. rewrite one_side. unfold is_first. destruct (pi_has_l3 p), (pi_frag p); by vm_compute. Qed.

Lemma one_gtpu_udp : b (gtpu_message p) + b (gtpu_fragment p) <= b (ip_proto IPPROTO_NUM_UDP p).
Proof.
  assert (Hport : decode_is_gtpu_port p = true -> ip_proto IPPROTO_NUM_UDP p = true).
  { intros E. unfold decode_is_gtpu_port in E. apply andb_true_iff in E as [E _].
    apply andb_true_iff in E as [E4 Eu]. destruct (sn_l4 p Hp E4) as [E3 Es].
    unfold ip_proto, ip_l4. by rewrite E3, Es, Eu. }
  unfold gtpu_message, gtpu_fragment.
  destruct (is_first p) eqn:Ef, (decode_is_gtpu_port p) eqn:Ed, (pi_is_gtpu p) eqn:Eg; cbn;
    try (rewrite Hport by done; cbn; lia); try (destruct (ip_proto _ p); cbn; lia).
  all: destruct (sn_gtpu p Hp Eg) as [En Ep]; unfold is_first in Ef; rewrite En in Ef; congruence.
Qed.

Lemma one_gtpu_type :
  b (gtpu_message p && negb (pi_gtp_v1u p) && status_eqb (pi_gtp_status p) DEC_OK) +
  b (gtpu_of_type GTPU_MSG_GPDU p) + b (gtpu_of_type GTPU_MSG_ECHO_REQUEST p) +
  b (gtpu_of_type GTPU_MSG_ECHO_RESPONSE p) + b (gtpu_of_type GTPU_MSG_ERROR_INDICATION p) +
  b (gtpu_of_type GTPU_MSG_END_MARKER p) +
  b (gtpv1u p && other_than gtpu_types (pi_gtp_msg_type p)) <= b (gtpu_message p).
Proof.
  pose proof (one_type (gtpv1u p) (pi_gtp_msg_type p)) as H. unfold gtpu_of_type.
  assert (b (gtpu_message p && negb (pi_gtp_v1u p) && status_eqb (pi_gtp_status p) DEC_OK) +
          b (gtpv1u p) <= b (gtpu_message p)); [|lia].
  unfold gtpv1u. destruct (gtpu_message p), (pi_gtp_v1u p), (status_eqb _ _); cbn; lia.
Qed.

Lemma one_user_gpdu :
  b (user_packet p && (pi_inner_version p =? 4)) +
  b (user_packet p && negb (pi_inner_version p =? 4)) <= b (gtpu_of_type GTPU_MSG_GPDU p).
Proof.
  rewrite one_side. unfold user_packet, gtpu_of_type. destruct (pi_has_inner p) eqn:Ei.
  - rewrite (sn_inner p Hp Ei). destruct (gtpv1u p); cbn; lia.
  - rewrite andb_false_r. destruct (_ && _); cbn; lia.
Qed.

Lemma one_nested : b (user_l4 p && pi_gtp_nested p) <= b (user_proto IPPROTO_NUM_UDP p).
Proof.
  unfold user_proto. destruct (pi_gtp_nested p) eqn:En.
  - rewrite (sn_nested p Hp En), andb_true_r. destruct (user_l4 p); cbn; lia.
  - rewrite andb_false_r. destruct (_ && _); cbn; lia.
Qed.
End One.

Lemma one_and f g : Z.b2z (f && g) <= Z.b2z f.
Proof. destruct f, g; cbn; lia. Qed.

(** The counters add up. *)
Definition conserved (s : stats) : Prop :=
  let g := st_gtpu s in
  (st_packets s = total (st_by_status s) statuses /\
   st_truncated s = total (st_by_status s) truncations /\
   st_malformed s = total (st_by_status s) malformations) /\
  (st_ipv4 s + st_ipv6 s =
   st_tcp s + st_udp s + st_icmp s + st_icmpv6 s + st_other_l4 s +
   bucket (st_by_status s) DEC_TRUNC_IPV6_EXT + bucket (st_by_status s) DEC_BAD_IPV6_EXT) /\
  st_ipv4 s + st_ipv6 s + st_non_ip s <= st_packets s /\
  st_frag_first s + st_frag_later s <= st_ipv4 s + st_ipv6 s /\
  gs_packets g + gs_fragmented g <= st_udp s /\
  (gs_packets g = total (gs_by_status g) statuses /\
   gs_truncated g = total (gs_by_status g) truncations /\
   gs_malformed g = total (gs_by_status g) malformations) /\
  gs_not_v1u g + gs_gpdu g + gs_echo_request g + gs_echo_response g +
    gs_error_indication g + gs_end_marker g + gs_other_type g <= gs_packets g /\
  (gs_inner_ipv4 g + gs_inner_ipv6 g =
   gs_inner_tcp g + gs_inner_udp g + gs_inner_icmp g + gs_inner_icmpv6 g + gs_inner_other g +
   bucket (gs_by_status g) DEC_TRUNC_IPV6_EXT + bucket (gs_by_status g) DEC_BAD_IPV6_EXT) /\
  gs_inner_ipv4 g + gs_inner_ipv6 g <= gs_gpdu g /\
  gs_nested g <= gs_inner_udp g /\
  gs_user_truncated g <= gs_truncated g /\ gs_user_malformed g <= gs_malformed g.

Lemma stats_of_conserved m l :
  Forall (fun x => sane (sa_pi x)) l -> conserved (stats_of m l).
Proof.
  intros Hsane. unfold conserved.
  assert (Hv : forall sts, sts = statuses \/ sts = truncations \/ sts = malformations ->
                           Forall (fun st => st <> DEC_STATUS_COUNT) sts)
    by (intros sts [-> | [-> | ->]]; repeat constructor; done).
  set (s := stats_of m l).
  change (st_by_status s) with
    (map (fun st => count (fun x => true && status_eqb (pi_status (sa_pi x)) st) l) statuses).
  change (gs_by_status (st_gtpu s)) with
    (map (fun st => count (fun x => gtpu_message (sa_pi x) && status_eqb (pi_gtp_status (sa_pi x)) st) l)
         statuses).
  rewrite !(total_tally (fun _ => true)), !(total_tally (fun x => gtpu_message (sa_pi x))) by auto.
  rewrite !bucket_map by done. cbn [s stats_of gtpu_shape st_packets st_truncated st_malformed
    st_ipv4 st_ipv6 st_tcp st_udp st_icmp
    st_icmpv6 st_other_l4 st_non_ip st_frag_first st_frag_later st_gtpu gs_packets gs_fragmented
    gs_truncated gs_malformed gs_not_v1u gs_gpdu gs_echo_request gs_echo_response
    gs_error_indication gs_end_marker gs_other_type gs_inner_ipv4 gs_inner_ipv6 gs_inner_tcp
    gs_inner_udp gs_inner_icmp gs_inner_icmpv6 gs_inner_other gs_nested gs_user_truncated
    gs_user_malformed].
  rewrite length_tally, !count_tally, !tally_add. clear s Hv.
  repeat apply conj; first [apply tally_eq | apply tally_le];
    (apply (Forall_impl _ _ _ Hsane)); intros x Hx; cbv beta.
  - by apply one_status.
  - exact (one_truncation true _).
  - exact (one_malformation true _ (sn_status _ Hx)).
  - by apply one_ip_split.
  - by apply one_non_ip.
  - by apply one_fragment.
  - by apply one_gtpu_udp.
  - by apply one_gtp_status.
  - apply one_truncation.
  - apply one_malformation, (sn_gtp_status _ Hx).
  - by apply one_gtpu_type.
  - by apply one_user_split.
  - by apply one_user_gpdu.
  - by apply one_nested.
  - apply one_and.
  - apply one_and.
Qed.

(** A sample that [decode_frame] produced. *)
Definition decoded (x : sample) : Prop :=
  exists frame wirelen st, frame_ok frame wirelen /\
    decode_frame frame (caplen_of frame) wirelen = Some (st, sa_pi x).

Lemma decoded_sane x : decoded x -> sane (sa_pi x).
Proof.
  intros (frame & wirelen & st & Hf & E).
  destruct (decode_frame_packet_ok frame wirelen Hf) as (st' & pi' & E' & Hp).
  rewrite E in E'. injection E' as <- <-. by eapply packet_ok_sane.
Qed.

(** C17. Conservation: over any frames and whatever [decode_frame] makes of them, the
    counters add up.  Every packet is in one status bucket, and the truncated and
    malformed totals are the sums of theirs; the IP packets split by transport
    protocol and broken extension chains; no packet is both IP and non-IP; GTP-U
    messages and unreassembled GTP-U datagrams are UDP packets; the GTP-U buckets,
    message types and user packets split the same way; fragments are IP packets. *)
Theorem stats_conservation l :
  Z.of_nat (length l) < 2 ^ 64 -> Forall decoded l ->
  conserved (foldl add_sample stats_init l).
Proof.
  intros Hlen Hl. rewrite stats_run_spec by done. apply stats_of_conserved.
  eapply (Forall_impl _ _ _ Hl). intros x. apply decoded_sane.
Qed.
