(* ===== verification/Text.v ===== *)
(** Text output of C: strings as byte lists, the conversions [%u], [%x] and their
    widths, and [snprintf] into a checked buffer. *)
From Stdlib Require Import String Ascii.
From S2P Require Export Prelude.
From stdpp Require Export list.
#[global] Open Scope Z_scope.

(** ** Strings *)

(** The bytes of a literal, without its terminator. *)
Fixpoint str (s : string) : bytes :=
  match s with
  | EmptyString => []
  | String c s => Z.of_N (N_of_ascii c) :: str s
  end.
Arguments str _%_string_scope.

(** The C string at the start of a buffer: its bytes up to the terminator; [None]
    when there is none inside. *)
Fixpoint c_str (buf : bytes) : option bytes :=
  match buf with
  | [] => None
  | c :: buf => if c =? 0 then Some [] else s ← c_str buf; Some (c :: s)
  end.

(** ** Numbers *)
Definition digit (d : Z) : Z := if d <? 10 then 48 + d else 87 + d.

Fixpoint digits (fuel : nat) (base n : Z) (acc : bytes) : bytes :=
  match fuel with
  | O => acc
  | S fuel =>
    let acc := digit (n mod base) :: acc in
    if n / base =? 0 then acc else digits fuel base (n / base) acc
  end.

(** [%u] and [PRIu64]: at most 20 digits; [%x]: at most 16. *)
Definition dec (n : Z) : bytes := digits 20 10 n [].
Definition hex (n : Z) : bytes := digits 16 16 n [].

(** [%0<w>u], [%<w>s] and [%-<w>s]. *)
Definition pad (w : nat) (c : Z) (s : bytes) : bytes := replicate (w - length s) c.
Definition zero_pad (w : nat) (s : bytes) : bytes := pad w 48 s ++ s.
Definition right_align (w : nat) (s : bytes) : bytes := pad w 32 s ++ s.
Definition left_align (w : nat) (s : bytes) : bytes := s ++ pad w 32 s.

(** ** [snprintf] *)
Definition write_at (buf : bytes) (off : nat) (l : bytes) : option bytes :=
  if decide (off + length l <= length buf)%nat
  then Some (take off buf ++ l ++ drop (off + length l) buf) else None.

(** [snprintf(buf + off, avail, ...)] of [text]: the value returned and the buffer.
    [None] is a write past the end of the buffer. *)
Definition snprintf (buf : bytes) (off avail : Z) (text : bytes) : option (Z * bytes) :=
  if avail =? 0 then Some (Z.of_nat (length text), buf) else
  buf ← write_at buf (Z.to_nat off) (take (Z.to_nat (avail - 1)) text ++ [0]);
  Some (Z.of_nat (length text), buf).

(** ** Lemmas *)
Create HintDb text discriminated.

(** The value of a digit string, most significant digit first. *)
Definition undigit (c : Z) : Z := if c <? 58 then c - 48 else c - 87.
Definition value (base : Z) (l : bytes) : Z := foldl (fun a c => a * base + undigit c) 0 l.

Lemma undigit_digit d : 0 <= d < 16 -> undigit (digit d) = d.
Proof. intros Hd. unfold undigit, digit. destruct (Z.ltb_spec d 10);
  match goal with |- context [?x <? 58] => destruct (Z.ltb_spec x 58) end; lia. Qed.

Lemma digits_acc fuel base n acc : digits fuel base n acc = digits fuel base n [] ++ acc.
Proof.
  revert n acc. induction fuel as [|fuel IH]; intros n acc; cbn; [done|].
  destruct (_ =? 0); [done|]. rewrite IH, (IH _ [_]). by rewrite <- app_assoc.
Qed.

Lemma digits_S fuel base n :
  digits (S fuel) base n [] =
  if n / base =? 0 then [digit (n mod base)] else digits fuel base (n / base) [] ++ [digit (n mod base)].
Proof. cbn. destruct (_ =? 0); [done|]. apply digits_acc. Qed.

Lemma value_snoc base l c : value base (l ++ [c]) = value base l * base + undigit c.
Proof. unfold value. by rewrite foldl_app. Qed.

Lemma digits_value fuel base n :
  2 <= base <= 16 -> 0 <= n < base ^ Z.of_nat fuel -> value base (digits fuel base n []) = n.
Proof.
  intros Hb. revert n. induction fuel as [|fuel IH]; intros n Hn; [cbn in *; lia|].
  rewrite digits_S. rewrite Nat2Z.inj_succ, Z.pow_succ_r in Hn by lia.
  pose proof (Z.mod_pos_bound n base ltac:(lia)). pose proof (Z.div_mod n base ltac:(lia)).
  destruct (Z.eqb_spec (n / base) 0) as [E|E].
  - unfold value. cbn. rewrite undigit_digit by lia. rewrite E in *. lia.
  - rewrite value_snoc, undigit_digit, IH by
      (first [lia | split; [apply Z.div_pos; lia|apply Z.div_lt_upper_bound; lia]]). lia.
Qed.

Lemma digits_length fuel base n k :
  2 <= base -> (1 <= k <= fuel)%nat -> 0 <= n < base ^ Z.of_nat k ->
  (1 <= length (digits fuel base n []) <= k)%nat.
Proof.
  intros Hb. revert n k. induction fuel as [|fuel IH]; intros n k Hk Hn; [lia|].
  rewrite digits_S. destruct (Z.eqb_spec (n / base) 0) as [E|E]; [cbn; lia|].
  rewrite length_app. cbn [length].
  destruct (decide (k = 1%nat)) as [->|].
  - exfalso. apply E. apply Z.div_small. change (Z.of_nat 1) with 1 in Hn. lia.
  - destruct (IH (n / base) (k - 1)%nat); [lia| |lia].
    split; [apply Z.div_pos; lia|]. apply Z.div_lt_upper_bound; [lia|].
    rewrite <- Z.pow_succ_r by lia. replace (Z.succ (Z.of_nat (k - 1))) with (Z.of_nat k); lia.
Qed.

(** Every character of a number is a digit or a lower-case letter. *)
Definition is_digit (c : Z) : Prop := 48 <= c <= 57 \/ 97 <= c <= 102.

Lemma digits_chars fuel base n : 2 <= base <= 16 -> Forall is_digit (digits fuel base n []).
Proof.
  intros Hb. revert n. induction fuel as [|fuel IH]; intros n; [constructor|]. rewrite digits_S.
  assert (Hd : is_digit (digit (n mod base))).
  { pose proof (Z.mod_pos_bound n base ltac:(lia)). unfold is_digit, digit.
    destruct (Z.ltb_spec (n mod base) 10); lia. }
  rewrite <- (Forall_singleton is_digit) in Hd.
  destruct (_ =? 0); [done|]. apply Forall_app. split; [apply IH|done].
Qed.

Lemma dec_value n : is_u 64 n -> value 10 (dec n) = n.
Proof. intros Hn. apply digits_value; [lia|]. unfold is_u in Hn. cbn. lia. Qed.
Lemma hex_value n : is_u 64 n -> value 16 (hex n) = n.
Proof. intros Hn. apply digits_value; [lia|]. unfold is_u in Hn. cbn. lia. Qed.

(** A byte prints as one to three decimal digits, 16 bits as one to four hexadecimal ones. *)
Lemma dec_byte_length n : is_byte n -> (1 <= length (dec n) <= 3)%nat.
Proof. intros Hn. apply digits_length; [lia|lia|]. unfold is_u in Hn. cbn. lia. Qed.
Lemma dec_u16_length n : is_u 16 n -> (1 <= length (dec n) <= 5)%nat.
Proof. intros Hn. apply digits_length; [lia|lia|]. unfold is_u in Hn. cbn. lia. Qed.
Lemma dec_u64_length n : is_u 64 n -> (1 <= length (dec n) <= 20)%nat.
Proof. intros Hn. apply digits_length; [lia|lia|]. unfold is_u in Hn. cbn. lia. Qed.
Lemma hex_u16_length n : is_u 16 n -> (1 <= length (hex n) <= 4)%nat.
Proof. intros Hn. apply digits_length; [lia|lia|]. unfold is_u in Hn. cbn. lia. Qed.

(** A buffer that starts with a string. *)
Definition no_nul (s : bytes) : Prop := Forall (fun c => c <> 0) s.

Lemma c_str_app s rest : no_nul s -> c_str (s ++ 0 :: rest) = Some s.
Proof.
  induction 1 as [|c s Hc Hs IH]; cbn; [done|]. destruct (Z.eqb_spec c 0); [done|]. by rewrite IH.
Qed.

Lemma digits_no_nul l : Forall is_digit l -> no_nul l.
Proof. intros H. eapply Forall_impl; [exact H|]. unfold is_digit. cbn. lia. Qed.

(** [snprintf] with room for the whole text. *)
Lemma snprintf_fits buf (pos : nat) avail text :
  Z.of_nat (length text) < avail -> (pos + length text < length buf)%nat ->
  snprintf buf (Z.of_nat pos) avail text =
  Some (Z.of_nat (length text), take pos buf ++ text ++ 0 :: drop (pos + length text + 1) buf).
Proof.
  intros Ha Hb. unfold snprintf. destruct (Z.eqb_spec avail 0); [lia|].
  rewrite take_ge by lia. unfold write_at. rewrite decide_True by (rewrite length_app; cbn; lia).
  cbn [mbind option_bind]. rewrite length_app, Nat2Z.id. cbn [length]. rewrite <- app_assoc. cbn [app].
  by rewrite Nat.add_assoc.
Qed.

(** [snprintf] to the start of a buffer that holds the [avail] bytes it may write:
    the text, cut to fit, and its terminator. *)
Definition printed (buf : bytes) (avail : Z) (text : bytes) : bytes :=
  overwrite buf (take (Z.to_nat (avail - 1)) text ++ [0]).

Lemma snprintf_start buf avail text :
  0 < avail <= Z.of_nat (length buf) ->
  snprintf buf 0 avail text = Some (Z.of_nat (length text), printed buf avail text).
Proof.
  intros Ha. unfold snprintf. destruct (Z.eqb_spec avail 0); [lia|]. unfold write_at.
  rewrite decide_True by (rewrite length_app, length_take; cbn; lia).
  cbn [mbind option_bind]. unfold printed, overwrite. change (Z.to_nat 0) with 0%nat.
  by rewrite take_0.
Qed.

Lemma length_printed buf avail text :
  0 < avail <= Z.of_nat (length buf) -> length (printed buf avail text) = length buf.
Proof. intros Ha. apply length_overwrite. rewrite length_app, length_take. cbn. lia. Qed.

Lemma c_str_printed buf avail text :
  no_nul text -> c_str (printed buf avail text) = Some (take (Z.to_nat (avail - 1)) text).
Proof.
  intros Ht. unfold printed, overwrite. rewrite <- app_assoc. cbn [app].
  apply c_str_app. by apply Forall_take.
Qed.

(** ** Separated fields *)

(** ** Scanning *)
Fixpoint take_while {A} (p : A -> bool) (l : list A) : list A :=
  match l with [] => [] | x :: l => if p x then x :: take_while p l else [] end.
Fixpoint drop_while {A} (p : A -> bool) (l : list A) : list A :=
  match l with [] => [] | x :: l' => if p x then drop_while p l' else l end.

Lemma take_while_app {A} (p : A -> bool) xs ys :
  Forall (fun x => p x = true) xs -> take_while p (xs ++ ys) = xs ++ take_while p ys.
Proof. induction 1 as [|x xs Hx _ IH]; cbn; [done|]. by rewrite Hx, IH. Qed.
Lemma drop_while_app {A} (p : A -> bool) xs ys :
  Forall (fun x => p x = true) xs -> drop_while p (xs ++ ys) = drop_while p ys.
Proof. induction 1 as [|x xs Hx _ IH]; cbn; [done|]. by rewrite Hx, IH. Qed.

Definition decimal (c : Z) : Prop := 48 <= c <= 57.

Lemma value_nonneg text : Forall decimal text -> 0 <= value 10 text.
Proof.
  intros Ht. unfold value. assert (H : forall a, 0 <= a -> 0 <= foldl (fun a c => a * 10 + undigit c) a text).
  { induction Ht as [|c text Hc _ IH]; intros a Ha; cbn; [done|]. apply IH. unfold undigit, decimal in *.
    destruct (Z.ltb_spec c 58); lia. }
  by apply H.
Qed.

Lemma take_while_Forall {A} (p : A -> bool) (P : A -> Prop) l :
  (forall x, p x = true -> P x) -> Forall P (take_while p l).
Proof. intros H. induction l as [|x l IH]; cbn; [constructor|]. destruct (p x) eqn:E; [constructor; auto|constructor]. Qed.

(** [strtoull(text, NULL, 10)]: white space, a sign, digits; [ULLONG_MAX] when they
    do not fit, 0 when there are none, and a negated value wraps around. *)
Definition is_space (c : Z) : bool := (c =? 32) || ((9 <=? c) && (c <=? 13)).
Definition strtoull (text : bytes) : Z :=
  let text := drop_while is_space text in
  let '(negative, text) := match text with
    | c :: rest => if c =? 45 then (true, rest) else if c =? 43 then (false, rest) else (false, text)
    | [] => (false, [])
    end in
  let v := value 10 (take_while (fun c => (48 <=? c) && (c <=? 57)) text) in
  if v >? 2 ^ 64 - 1 then 2 ^ 64 - 1 else if (negative : bool) then u64 (- v) else v.

Lemma strtoull_u64 text : is_u 64 (strtoull text).
Proof.
  unfold strtoull. destruct (match drop_while is_space text with [] => _ | c :: rest => _ end) as [negative rest].
  assert (Hv : 0 <= value 10 (take_while (fun c => (48 <=? c) && (c <=? 57)) rest)).
  { apply value_nonneg, take_while_Forall. intros c. unfold decimal. rewrite andb_true_iff, !Z.leb_le. lia. }
  rewrite Z.gtb_ltb. destruct (Z.ltb_spec (2 ^ 64 - 1) (value 10 (take_while (fun c => (48 <=? c) && (c <=? 57)) rest))); [done|].
  destruct negative; [apply wrap_is_u; lia|unfold is_u; lia].
Qed.

(** The fields of a text, and the text of fields. *)
Fixpoint split_on (c : Z) (s : bytes) : list bytes :=
  match s with
  | [] => [[]]
  | x :: s =>
    if x =? c then [] :: split_on c s
    else match split_on c s with [] => [[x]] | f :: fs => (x :: f) :: fs end
  end.
Definition join_on (c : Z) (parts : list bytes) : bytes :=
  match parts with [] => [] | p :: ps => p ++ concat (map (cons c) ps) end.

Lemma split_on_end c p : c ∉ p -> split_on c p = [p].
Proof.
  induction p as [|x p IH]; cbn; [done|]. intros [Hx Hp]%not_elem_of_cons.
  destruct (Z.eqb_spec x c); [congruence|]. by rewrite IH.
Qed.

Lemma split_on_app c p s : c ∉ p -> split_on c (p ++ c :: s) = p :: split_on c s.
Proof.
  induction p as [|x p IH]; cbn; [by rewrite Z.eqb_refl|]. intros [Hx Hp]%not_elem_of_cons.
  destruct (Z.eqb_spec x c); [congruence|]. by rewrite IH.
Qed.

Lemma join_on_cons c p q ps : join_on c (p :: q :: ps) = p ++ c :: join_on c (q :: ps).
Proof. done. Qed.

Lemma split_join c parts :
  parts <> [] -> Forall (fun p => c ∉ p) parts -> split_on c (join_on c parts) = parts.
Proof.
  destruct parts as [|p ps]; [done|]. intros _ H. revert p H.
  induction ps as [|q ps IH]; intros p H; apply Forall_cons in H as [Hp H].
  - cbn. rewrite app_nil_r. by apply split_on_end.
  - rewrite join_on_cons, split_on_app by done. by rewrite IH.
Qed.

(** A character that is not a digit is not in a number. *)
Lemma digits_not_elem c l : Forall is_digit l -> ~ is_digit c -> c ∉ l.
Proof. intros H Hc Hin. rewrite Forall_forall in H. by apply Hc, H. Qed.

Lemma dec_chars n : Forall is_digit (dec n).
Proof. apply digits_chars. lia. Qed.
Lemma hex_chars n : Forall is_digit (hex n).
Proof. apply digits_chars. lia. Qed.

Lemma zero_pad_chars w s : Forall is_digit s -> Forall is_digit (zero_pad w s).
Proof.
  intros H. unfold zero_pad, pad. apply Forall_app. split; [|done].
  apply Forall_replicate. unfold is_digit. lia.
Qed.

(** Padding with zeros keeps the value. *)
Lemma value_zero_pad base w s : value base (zero_pad w s) = value base s.
Proof.
  unfold zero_pad, pad, value. rewrite foldl_app. f_equal.
  generalize (w - length s)%nat. intros n. induction n as [|n IH]; cbn; [done|].
  change (undigit 48) with 0. by rewrite Z.add_0_r.
Qed.

Lemma no_nul_app s t : no_nul s -> no_nul t -> no_nul (s ++ t).
Proof. intros. by apply Forall_app. Qed.
Lemma no_nul_dec n : no_nul (dec n).
Proof. apply digits_no_nul, dec_chars. Qed.
Lemma no_nul_hex n : no_nul (hex n).
Proof. apply digits_no_nul, hex_chars. Qed.
Lemma no_nul_zero_pad w s : no_nul s -> no_nul (zero_pad w s).
Proof. intros. apply no_nul_app; [|done]. apply Forall_replicate. lia. Qed.
Lemma no_nul_pad w s : no_nul s -> no_nul (pad w 32 s).
Proof. intros. apply Forall_replicate. lia. Qed.
#[export] Hint Resolve no_nul_app no_nul_dec no_nul_hex no_nul_zero_pad : text.
