(* ===== verification/Stdio.v ===== *)
(** What the output code uses of the C library besides [snprintf]: an output
    stream, conversions of [double], and the calendar of [gmtime].

    A stream is buffered: characters wait in [o_buf] until [fflush] or [fclose], or an
    output call that finds the buffer full, writes them to the device, where they
    are [o_data].  The device is an argument: [d_faults] says, for each output call in
    turn, whether a write to the device fails during it and how many characters still
    get through (calls past the end of the list succeed); [d_flush] says the same of
    the final [fflush] or [fclose].  A failed write loses the rest of its characters. *)
From Stdlib Require Import String SpecFloat.
From S2P Require Export Text.
From stdpp Require Export list.
#[global] Open Scope Z_scope.

(** ** Output streams *)
Record device := Device { d_faults : list (option nat); d_flush : option nat }.

(** A device that takes everything. *)
Definition sound : device := Device [] None.

Record ostream := Ostream {
  o_data : bytes;
  o_buf : bytes;
  o_error : bool;
  o_faults : list (option nat);
  o_flush : option nat
}.

Definition ostream_new (d : device) : ostream := Ostream [] [] false (d_faults d) (d_flush d).

(** What was printed and is not lost, on the device or on its way. *)
Definition o_text (out : ostream) : bytes := o_data out ++ o_buf out.

(** [fprintf(out, ...)] of the formatted [text]. *)
Definition fprintf (out : ostream) (text : bytes) : ostream :=
  match o_faults out with
  | Some k :: fs => Ostream (o_data out ++ take k (o_buf out ++ text)) [] true fs (o_flush out)
  | None :: fs => Ostream (o_data out) (o_buf out ++ text) (o_error out) fs (o_flush out)
  | [] => Ostream (o_data out) (o_buf out ++ text) (o_error out) [] (o_flush out)
  end.

(** [fwrite(text, 1, len, f)]: the number of characters taken, and the stream. *)
Definition fwrite (f : ostream) (text : bytes) : Z * ostream :=
  (match o_faults f with
   | Some k :: _ => Z.min (Z.of_nat (k - length (o_buf f))) (Z.of_nat (length text))
   | _ => Z.of_nat (length text)
   end, fprintf f text).

(** [ferror(out)], and [fflush] or [fclose]: nonzero when the write fails. *)
Definition ferror (out : ostream) : bool := o_error out.
Definition fflush (out : ostream) : Z * ostream :=
  match o_flush out with
  | Some k => (-1, Ostream (o_data out ++ take k (o_buf out)) [] true (o_faults out) (o_flush out))
  | None => (0, Ostream (o_text out) [] (o_error out) (o_faults out) None)
  end.

(** No output call fails before the final flush. *)
Definition takes_all (out : ostream) : Prop := Forall (fun fault => fault = None) (o_faults out).

(** [wrote out text out']: between [out] and [out'] the program printed [text]. *)
Record wrote (out : ostream) (text : bytes) (out' : ostream) : Prop := {
  wr_ok : o_error out' = false -> o_error out = false /\ o_text out' = o_text out ++ text;
  wr_all : takes_all out -> takes_all out' /\ o_error out' = o_error out /\ o_text out' = o_text out ++ text;
  wr_prefix : o_data out `prefix_of` o_data out';
  wr_flush : o_flush out' = o_flush out
}.

Lemma wrote_nil out : wrote out [] out.
Proof. split; [|intros H|done|done]; [intros H|]; by rewrite app_nil_r. Qed.

Lemma wrote_fprintf out text : wrote out text (fprintf out text).
Proof.
  destruct out as [d b e [|[k|] fs] fl]; split; unfold takes_all, o_text; cbn; try done.
  - intros ->. by rewrite app_assoc.
  - intros _. split; [done|]. by rewrite app_assoc.
  - by intros [? _]%Forall_cons.
  - by apply prefix_app_r.
  - intros ->. by rewrite app_assoc.
  - intros [_ H]%Forall_cons. split; [done|]. by rewrite app_assoc.
Qed.

Lemma wrote_app out text out1 text2 out2 :
  wrote out text out1 -> wrote out1 text2 out2 -> wrote out (text ++ text2) out2.
Proof.
  intros [H1 H2 H3 H4] [H5 H6 H7 H8]. split.
  - intros H. destruct (H5 H) as [Ha Hb]. destruct (H1 Ha) as [Hc Hd]. split; [done|].
    by rewrite Hb, Hd, app_assoc.
  - intros H. destruct (H2 H) as (Ha & Hb & Hc). destruct (H6 Ha) as (Hd & He & Hf).
    split; [done|]. split; [congruence|]. by rewrite Hf, Hc, app_assoc.
  - by etransitivity.
  - congruence.
Qed.

(** An error indicator stays set. *)
Lemma wrote_sticky out text out' : wrote out text out' -> o_error out = true -> o_error out' = true.
Proof. intros H He. destruct (o_error out') eqn:E; [done|]. destruct (wr_ok _ _ _ H E). congruence. Qed.

(** A stream without faults stays so. *)
Lemma takes_all_new d : d_faults d = [] -> takes_all (ostream_new d).
Proof. unfold takes_all. cbn. intros ->. constructor. Qed.

(** [delivered out text out']: [text] was printed and the stream flushed without an
    error.  All of it is on the device unless a write before that failed, which the
    error indicator tells. *)
Record delivered (out : ostream) (text : bytes) (out' : ostream) : Prop := {
  dl_flush : o_flush out = None;
  dl_buf : o_buf out' = [];
  dl_ok : o_error out' = false -> o_data out' = o_text out ++ text;
  dl_all : takes_all out -> o_error out' = o_error out /\ o_data out' = o_text out ++ text
}.

Lemma wrote_delivered out text out1 out' :
  wrote out text out1 -> fflush out1 = (0, out') -> delivered out text out'.
Proof.
  intros [H1 H2 _ H4] E. unfold fflush in E. destruct (o_flush out1) eqn:Ef; [done|]. injection E as <-.
  split; cbn; [congruence|done| |].
  - intros He. by apply H1.
  - intros Ha. by apply H2.
Qed.

Lemma fflush_sound out : o_flush out = None -> (fflush out).1 = 0.
Proof. unfold fflush. by intros ->. Qed.

Create HintDb stdio discriminated.
#[export] Hint Resolve wrote_nil wrote_fprintf : stdio.

(** ** [double]

    IEEE binary64 with round to nearest, ties to even. *)
Definition double_of (n : Z) : spec_float := binary_normalize 53 1024 n 0 false.
Definition double_mul : spec_float -> spec_float -> spec_float := SFmul 53 1024.
Definition double_div : spec_float -> spec_float -> spec_float := SFdiv 53 1024.

(** [a / b] rounded to the nearest integer, ties to even, for [0 <= a], [0 < b]. *)
Definition div_nearest (a b : Z) : Z :=
  let q := a / b in
  match Z.compare (2 * (a mod b)) b with
  | Lt => q
  | Gt => q + 1
  | Eq => if Z.even q then q else q + 1
  end.

(** [m * 2^e * 10^p] rounded to an integer. *)
Definition scaled (p : Z) (m : positive) (e : Z) : Z :=
  if 0 <=? e then Z.pos m * 2 ^ e * 10 ^ p else div_nearest (Z.pos m * 10 ^ p) (2 ^ (- e)).

(** [%.<p>f]: the exact value rounded to [p] decimals. *)
Definition fixed (p : nat) (x : spec_float) : bytes :=
  let print s n := (if s : bool then str "-" else []) ++
    digits 400 10 (n / 10 ^ Z.of_nat p) [] ++ str "." ++
    zero_pad p (digits 400 10 (n mod 10 ^ Z.of_nat p) []) in
  match x with
  | S754_zero s => print s 0
  | S754_finite s m e => print s (scaled (Z.of_nat p) m e)
  | S754_infinity s => (if s : bool then str "-" else []) ++ str "inf"
  | S754_nan => str "nan"
  end.

(** ** The calendar *)
Record tm := Tm { tm_year : Z; tm_mon : Z; tm_mday : Z; tm_hour : Z; tm_min : Z; tm_sec : Z }.

(** The Gregorian calendar. *)
Definition leap (y : Z) : bool := (y mod 4 =? 0) && (negb (y mod 100 =? 0) || (y mod 400 =? 0)).
Definition year_days (y : Z) : Z := if leap y then 366 else 365.
Definition month_days (y m : Z) : Z :=
  if m =? 2 then (if leap y then 29 else 28)
  else if (m =? 4) || (m =? 6) || (m =? 9) || (m =? 11) then 30 else 31.

(** The year and the day in it (from 0) that is [days] after the start of year [y],
    and the same for the month of a year. *)
Fixpoint find_year (fuel : nat) (y days : Z) : option (Z * Z) :=
  match fuel with
  | O => None
  | S fuel => if days <? year_days y then Some (y, days) else find_year fuel (y + 1) (days - year_days y)
  end.
Fixpoint find_month (fuel : nat) (y m days : Z) : option (Z * Z) :=
  match fuel with
  | O => None
  | S fuel =>
    if days <? month_days y m then Some (m, days) else find_month fuel y (m + 1) (days - month_days y m)
  end.

(** [gmtime] of the times a 64-bit count of nanoseconds since 1970 reaches (600
    years): UTC, without leap seconds, as POSIX has it.  NULL is [None]. *)
Definition gmtime (sec : Z) : option tm :=
  '(y, yday) ← find_year 600 1970 (sec / 86400);
  '(m, mday) ← find_month 12 y 1 yday;
  let s := sec mod 86400 in
  Some (Tm (y - 1900) (m - 1) (mday + 1) (s / 3600) (s / 60 mod 60) (s mod 60)).

(** [strftime(buf, len, "%Y-%m-%d %H:%M:%S", tm)]: the characters written, 0 when
    they do not fit, and the buffer. *)
Definition date_text (t : tm) : bytes :=
  dec (tm_year t + 1900) ++ str "-" ++ zero_pad 2 (dec (tm_mon t + 1)) ++ str "-" ++
  zero_pad 2 (dec (tm_mday t)) ++ str " " ++ zero_pad 2 (dec (tm_hour t)) ++ str ":" ++
  zero_pad 2 (dec (tm_min t)) ++ str ":" ++ zero_pad 2 (dec (tm_sec t)).
Definition strftime (buf : bytes) (len : Z) (t : tm) : option (Z * bytes) :=
  if Z.of_nat (length (date_text t)) <? len
  then buf ← write_at buf 0 (date_text t ++ [0]); Some (Z.of_nat (length (date_text t)), buf)
  else Some (0, buf).

(** Days from 1970-01-01 to a date. *)
Fixpoint days_before_year (n : nat) : Z :=
  match n with O => 0 | S n => days_before_year n + year_days (1970 + Z.of_nat n) end.
Fixpoint days_before_month (y : Z) (n : nat) : Z :=
  match n with O => 0 | S n => days_before_month y n + month_days y (1 + Z.of_nat n) end.
Definition valid_date (y m d : Z) : Prop := 1970 <= y /\ 1 <= m <= 12 /\ 1 <= d <= month_days y m.
Definition day_number (y m d : Z) : Z :=
  days_before_year (Z.to_nat (y - 1970)) + days_before_month y (Z.to_nat (m - 1)) + (d - 1).

Lemma year_days_bounds y : 365 <= year_days y <= 366.
Proof. unfold year_days. destruct (leap y); lia. Qed.

Lemma find_year_ok fuel (n : nat) days :
  0 <= days < 365 * Z.of_nat fuel ->
  exists y yday, find_year fuel (1970 + Z.of_nat n) days = Some (y, yday) /\
    1970 <= y < 1970 + Z.of_nat (n + fuel) /\ 0 <= yday < year_days y /\
    days_before_year (Z.to_nat (y - 1970)) + yday = days_before_year n + days.
Proof.
  revert n days. induction fuel as [|fuel IH]; intros n days Hd; [lia|]. cbn [find_year].
  pose proof (year_days_bounds (1970 + Z.of_nat n)).
  destruct (Z.ltb_spec days (year_days (1970 + Z.of_nat n))).
  - exists (1970 + Z.of_nat n), days. split; [done|]. split; [lia|]. split; [lia|].
    by replace (Z.to_nat (1970 + Z.of_nat n - 1970)) with n by lia.
  - destruct (IH (S n) (days - year_days (1970 + Z.of_nat n))) as (y & yday & E & Hy & Hyd & Hs); [lia|].
    exists y, yday. replace (1970 + Z.of_nat n + 1) with (1970 + Z.of_nat (S n)) by lia.
    split; [done|]. split; [lia|]. split; [done|]. cbn [days_before_year] in Hs. lia.
Qed.

Lemma find_month_ok fuel y (n : nat) days :
  0 <= days -> days_before_month y n + days < days_before_month y (n + fuel) ->
  exists m mday, find_month fuel y (1 + Z.of_nat n) days = Some (m, mday) /\
    1 <= m <= Z.of_nat (n + fuel) /\ 0 <= mday < month_days y m /\
    days_before_month y (Z.to_nat (m - 1)) + mday = days_before_month y n + days.
Proof.
  revert n days. induction fuel as [|fuel IH]; intros n days H0 Hd; [rewrite Nat.add_0_r in Hd; lia|].
  cbn [find_month]. destruct (Z.ltb_spec days (month_days y (1 + Z.of_nat n))).
  - exists (1 + Z.of_nat n), days. split; [done|]. split; [lia|]. split; [lia|].
    by replace (Z.to_nat (1 + Z.of_nat n - 1)) with n by lia.
  - destruct (IH (S n) (days - month_days y (1 + Z.of_nat n))) as (m & mday & E & Hm & Hmd & Hs);
      [lia|cbn [days_before_month]; rewrite Nat.add_succ_comm; lia|].
    exists m, mday. replace (1 + Z.of_nat n + 1) with (1 + Z.of_nat (S n)) by lia.
    split; [done|]. split; [lia|]. split; [done|]. cbn [days_before_month] in Hs. lia.
Qed.

Lemma year_months y : days_before_month y 12 = year_days y.
Proof.
  unfold year_days. cbn [days_before_month]. unfold month_days.
  repeat (match goal with |- context [?a =? ?b] => let v := eval vm_compute in (a =? b) in change (a =? b) with v end; cbn [orb]).
  destruct (leap y); lia.
Qed.

(** The broken-down time is a valid date and time, the one [sec] seconds after the epoch. *)
Lemma gmtime_ok sec :
  0 <= sec < 365 * 600 * 86400 ->
  exists t, gmtime sec = Some t /\
    1970 <= tm_year t + 1900 < 2570 /\
    valid_date (tm_year t + 1900) (tm_mon t + 1) (tm_mday t) /\
    0 <= tm_hour t < 24 /\ 0 <= tm_min t < 60 /\ 0 <= tm_sec t < 60 /\
    day_number (tm_year t + 1900) (tm_mon t + 1) (tm_mday t) * 86400 +
      tm_hour t * 3600 + tm_min t * 60 + tm_sec t = sec.
Proof.
  intros Hs. unfold gmtime.
  destruct (find_year_ok 600 0 (sec / 86400)) as (y & yday & Ey & Hy & Hyd & Hys).
  { split; [apply Z.div_pos; lia|]. apply Z.div_lt_upper_bound; lia. }
  change (1970 + Z.of_nat 0) with 1970 in Ey. rewrite Ey. cbn [mbind option_bind].
  destruct (find_month_ok 12 y 0 yday) as (m & mday & Em & Hm & Hmd & Hms).
  { lia. } { rewrite year_months. cbn. lia. }
  change (1 + Z.of_nat 0) with 1 in Em. rewrite Em. cbn [mbind option_bind].
  eexists. split; [done|]. cbn [tm_year tm_mon tm_mday tm_hour tm_min tm_sec].
  replace (y - 1900 + 1900) with y by lia. replace (m - 1 + 1) with m by lia.
  unfold valid_date, day_number. replace (mday + 1 - 1) with mday by lia.
  cbn [days_before_year days_before_month] in Hys, Hms.
  replace (days_before_year (Z.to_nat (y - 1970)) + days_before_month y (Z.to_nat (m - 1)) + mday)
    with (sec / 86400) by lia.
  split; [lia|]. split; [lia|]. clear -Hs. Z.to_euclidean_division_equations. lia.
Qed.

Lemma dec_short_length n (k : nat) : (1 <= k <= 20)%nat -> 0 <= n < 10 ^ Z.of_nat k -> (1 <= length (dec n) <= k)%nat.
Proof. intros Hk Hn. apply digits_length; [lia|lia|done]. Qed.

Lemma zero_pad_length (w : nat) s : (length s <= w)%nat -> length (zero_pad w s) = w.
Proof. intros Hs. unfold zero_pad, pad. rewrite length_app, length_replicate. lia. Qed.
