(* ===== verification/Bytebuf.v ===== *)
(** The builder on its real memory (src/tests/builder.c): the growable [struct
    bytebuf] with its spare capacity, allocations that may fail, and the file
    writer.

    [Builder] takes a buffer for the list of its bytes.  Here the same functions
    run on the [struct] as the C code does, and every one is proved to append
    exactly the bytes [Builder] says, or to abort because memory ran out. *)
From Stdlib Require Import String.
From S2P Require Export Builder Stdio.
#[global] Open Scope Z_scope.

(** ** The buffer and its world

    A block is a list of cells, [None] while a cell is uninitialised; [bb_data] is
    [None] for NULL. *)
Record bytebuf := Bytebuf {
  bb_data : option (list (option Z));
  bb_len : Z;
  bb_cap : Z
}.

(** [bs_grants] answers the calls of [realloc] in turn ([true]: memory is granted;
    calls past the end are granted), [bs_blocks] counts the blocks allocated. *)
Record bstate := Bstate {
  bs_buf : bytebuf;
  bs_grants : list bool;
  bs_blocks : Z
}.

#[export] Instance bytebuf_eta : Eta bytebuf := fun b => Bytebuf (b.(bb_data)) (b.(bb_len)) (b.(bb_cap)).
#[export] Instance set_bb_data : Setter bb_data. Proof. solve_setter. Defined.
#[export] Instance set_bb_len : Setter bb_len. Proof. solve_setter. Defined.
#[export] Instance set_bb_cap : Setter bb_cap. Proof. solve_setter. Defined.
#[export] Instance bstate_eta : Eta bstate := fun s => Bstate (s.(bs_buf)) (s.(bs_grants)) (s.(bs_blocks)).
#[export] Instance set_bs_buf : Setter bs_buf. Proof. solve_setter. Defined.
#[export] Instance set_bs_grants : Setter bs_grants. Proof. solve_setter. Defined.
#[export] Instance set_bs_blocks : Setter bs_blocks. Proof. solve_setter. Defined.

(** How a call ends when it does not return: [abort()] after what it printed on
    the standard error, undefined behaviour, or a loop without an end. *)
Inductive halt := Aborted (stderr : bytes) | Undefined | Hangs.

(** The functions of the builder, all [void]. *)
Definition cmd : Type := bstate -> halt + bstate.
Definition skip : cmd := inr.
Definition bb_seq (m n : cmd) : cmd := fun s => match m s with inl h => inl h | inr s => n s end.

Declare Scope builder_scope.
Delimit Scope builder_scope with builder.
Notation "m ;; n" := (bb_seq m n) (at level 100, right associativity) : builder_scope.
Open Scope builder_scope.

(** ** Memory *)
Definition bb_init : cmd := fun s => inr (s <| bs_buf := Bytebuf None 0 0 |>).

(** [free(b->data); bb_init(b);] *)
Definition bb_free : cmd := fun s =>
  bb_init (s <| bs_blocks ::= fun n => if bb_data (bs_buf s) is Some _ then n - 1 else n |>).

(** [while (cap < want) cap *= 2;] on [size_t]; [None] when the fuel runs out. *)
Fixpoint double_until (fuel : nat) (cap want : Z) : option Z :=
  match fuel with
  | O => None
  | S fuel => if cap <? want then double_until fuel (size_wrap (cap * 2)) want else Some cap
  end.

(** 64 doublings take any capacity out of 64 bits. *)
Definition growth_fuel : nat := 65.

(** [b->data = realloc(b->data, n)]: the contents up to the smaller size, the rest
    uninitialised, or NULL. *)
Definition realloc_data (n : Z) (s : bstate) : bstate :=
  let old := bb_data (bs_buf s) in
  match bs_grants s with
  | false :: gs => s <| bs_grants := gs |> <| bs_buf ::= fun b => b <| bb_data := None |> |>
  | gs =>
    s <| bs_grants := tail gs |>
      <| bs_blocks ::= fun k => if old is Some _ then k else k + 1 |>
      <| bs_buf ::= fun b => b <| bb_data := Some (resize (Z.to_nat n) None (default [] old)) |> |>
  end.

Definition out_of_memory : bytes := str "builder: out of memory" ++ [10].
Arguments out_of_memory : simpl never.

Definition reserve (extra : Z) : cmd := fun s =>
  let b := bs_buf s in
  if extra >? size_wrap (SIZE_MAX - bb_len b) then inl (Aborted []) else
  let want := size_wrap (bb_len b + extra) in
  if want <=? bb_cap b then inr s else
  let cap := if bb_cap b =? 0 then 64 else bb_cap b in
  match double_until growth_fuel cap want with
  | None => inl Hangs
  | Some cap =>
    let s := realloc_data cap (s <| bs_buf ::= fun b => b <| bb_cap := cap |> |>) in
    match bb_data (bs_buf s) with
    | None => inl (Aborted out_of_memory)
    | Some _ => inr s
    end
  end.

(** The cells of [block] from [i] on become [vs]. *)
Definition store_at (block : list (option Z)) (i : nat) (vs : bytes) : list (option Z) :=
  take i block ++ (Some <$> vs) ++ drop (i + length vs) block.

(** A store of [vs] at [b->data + b->len], then [b->len += n]. *)
Definition store (vs : bytes) : cmd := fun s =>
  let b := bs_buf s in
  match bb_data b with
  | Some block =>
    if bb_len b + Z.of_nat (length vs) <=? Z.of_nat (length block)
    then inr (s <| bs_buf ::= fun b => b
                <| bb_data := Some (store_at block (Z.to_nat (bb_len b)) vs) |>
                <| bb_len ::= fun n => size_wrap (n + Z.of_nat (length vs)) |> |>)
    else inl Undefined
  | None => inl Undefined
  end.

(** ** Bytes and integers *)
Definition bb_u8 (v : Z) : cmd := reserve 1;; store [u8 v].

Definition bb_be16 (v : Z) : cmd :=
  bb_u8 (Z.land (Z.shiftr v 8) 0xFF);;
  bb_u8 (Z.land v 0xFF).

Definition bb_be32 (v : Z) : cmd :=
  bb_be16 (Z.shiftr v 16);;
  bb_be16 (Z.land v 0xFFFF).

Definition bb_u16 (v : Z) (big_endian : bool) : cmd :=
  if big_endian then bb_be16 v
  else (bb_u8 (Z.land v 0xFF);; bb_u8 (Z.land (Z.shiftr v 8) 0xFF)).

Definition bb_u32 (v : Z) (big_endian : bool) : cmd :=
  if big_endian then bb_be32 v
  else (bb_u16 (Z.land v 0xFFFF) false;; bb_u16 (Z.shiftr v 16) false).

(** [p] is the object the pointer argument points to. *)
Definition bb_bytes (p : bytes) (n : Z) : cmd :=
  if n =? 0 then skip else
  reserve n;;
  (fun s => match bytes_at p 0 n with Some vs => store vs s | None => inl Undefined end).

Definition bb_fill (v n : Z) : cmd :=
  if n =? 0 then skip else
  reserve n;; store (replicate (Z.to_nat n) (u8 (Z.land v 0xFF))).

(** ** Protocol headers *)
Definition put_eth (ethertype : Z) : cmd :=
  let dst := [0x02; 0x00; 0x00; 0x00; 0x00; 0x02] in
  let src := [0x02; 0x00; 0x00; 0x00; 0x00; 0x01] in
  bb_bytes dst 6;;
  bb_bytes src 6;;
  bb_be16 ethertype.

Definition put_vlan (vid next_ethertype : Z) : cmd :=
  bb_be16 (Z.land vid 0x0FFF);;
  bb_be16 next_ethertype.

Definition put_ipv4 (proto : Z) (src dst : bytes) (payload_len opt_words frag : Z) : cmd :=
  let hlen := size_wrap (20 + size_wrap (4 * opt_words)) in
  bb_u8 (Z.lor 0x40 (Z.land (u32 (5 + opt_words)) 0x0F));;
  bb_u8 0;;
  bb_be16 (u32 (size_wrap (hlen + payload_len)));;
  bb_be16 0x1234;;
  bb_be16 frag;;
  bb_u8 64;;
  bb_u8 proto;;
  bb_be16 0;;
  bb_bytes src 4;;
  bb_bytes dst 4;;
  bb_fill 0x01 (size_wrap (4 * opt_words)).

Definition put_ipv6 (next : Z) (src dst : bytes) (payload_len : Z) : cmd :=
  bb_be32 0x60000000;;
  bb_be16 (u32 payload_len);;
  bb_u8 next;;
  bb_u8 64;;
  bb_bytes src 16;;
  bb_bytes dst 16.

Definition put_tcp (sport dport flags : Z) : cmd :=
  bb_be16 sport;;
  bb_be16 dport;;
  bb_be32 1000;;
  bb_be32 2000;;
  bb_u8 (Z.shiftl 5 4);;
  bb_u8 flags;;
  bb_be16 65535;;
  bb_be16 0;;
  bb_be16 0.

Definition put_udp (sport dport payload_len : Z) : cmd :=
  bb_be16 sport;;
  bb_be16 dport;;
  bb_be16 (u32 (size_wrap (8 + payload_len)));;
  bb_be16 0.

Definition put_icmp (type code : Z) : cmd :=
  bb_u8 type;;
  bb_u8 code;;
  bb_be16 0;;
  bb_be16 0x0042;;
  bb_be16 1.

Definition put_gtpu (flags type length teid : Z) : cmd :=
  bb_u8 flags;;
  bb_u8 type;;
  bb_be16 (u32 length);;
  bb_be32 teid.

Definition put_gtpu_opt (seq npdu next_type : Z) : cmd :=
  bb_be16 seq;;
  bb_u8 npdu;;
  bb_u8 next_type.

Definition put_gtpu_ext (units next_type : Z) : cmd :=
  bb_u8 units;;
  bb_fill 0 (size_wrap (size_wrap (4 * units) - 2));;
  bb_u8 next_type.

(** ** Whole frames *)
Definition frame_v4_tcp (src dst : bytes) (sport dport flags payload : Z) : cmd :=
  put_eth 0x0800;;
  put_ipv4 6 src dst (size_wrap (20 + payload)) 0 0x4000;;
  put_tcp sport dport flags;;
  bb_fill 0xAB payload.

Definition frame_v4_udp (src dst : bytes) (sport dport payload : Z) : cmd :=
  put_eth 0x0800;;
  put_ipv4 17 src dst (size_wrap (8 + payload)) 0 0;;
  put_udp sport dport payload;;
  bb_fill 0xCD payload.

Definition frame_v6_tcp (src dst : bytes) (sport dport flags payload : Z) : cmd :=
  put_eth 0x86DD;;
  put_ipv6 6 src dst (size_wrap (20 + payload));;
  put_tcp sport dport flags;;
  bb_fill 0xEF payload.

(** ** pcap files *)
Definition pcap_put_global (big_endian nsec : bool) (snaplen linktype : Z) : cmd :=
  bb_u32 (if nsec then 0xA1B23C4D else 0xA1B2C3D4) big_endian;;
  bb_u16 2 big_endian;;
  bb_u16 4 big_endian;;
  bb_u32 0 big_endian;;
  bb_u32 0 big_endian;;
  bb_u32 snaplen big_endian;;
  bb_u32 linktype big_endian.

Definition pcap_put_record (big_endian : bool) (sec frac : Z) (data : bytes) (caplen wirelen : Z) : cmd :=
  bb_u32 sec big_endian;;
  bb_u32 frac big_endian;;
  bb_u32 caplen big_endian;;
  bb_u32 wirelen big_endian;;
  bb_bytes data caplen.

(** The first [n] cells of a block, all of them initialised. *)
Definition cells (block : option (list (option Z))) (n : Z) : option bytes :=
  d ← block;
  if n <=? Z.of_nat (length d) then mapM id (take (Z.to_nat n) d) else None.

(** The result and the file as it was closed; [fopen] gives the device
    or fails. *)
Definition bb_write_file (b : bytebuf) (fopen_result : device + Z) : option (Z * option ostream) :=
  match fopen_result with
  | inr _ => Some (-1, None)
  | inl dev =>
    let f := ostream_new dev in
    '(rc, f) ←
      (if bb_len b >? 0 then
         text ← cells (bb_data b) (bb_len b);
         let '(n, f) := fwrite f text in
         Some (if negb (n =? bb_len b) then -1 else 0, f)
       else Some (0, f));
    let '(closed, f) := fflush f in
    let rc := if negb (closed =? 0) then -1 else rc in
    Some (rc, Some f)
  end.
