(* ===== verification/BytebufProps.v ===== *)
(** The builder on real memory appends what [Builder] says (src/tests/builder.c).

    [holds b s]: the buffer of [s] contains the bytes [b].  [Writes m w] is the
    interface between the functions: a call of [m] appends [w] or aborts out of
    memory.  It composes along [;;], so every function follows from the ones it
    calls. *)
From S2P Require Export PcapProps Bytebuf.
#[global] Open Scope Z_scope.
Open Scope builder_scope.

(** ** The buffer's invariant *)

(** The buffer holds [b] in a block of a power of two of cells with room for [n]
    more; the block is less than twice what is asked of it. *)
Record room (b : bytes) (n : Z) (s : bstate) : Prop := {
  rm_len : bb_len (bs_buf s) = Z.of_nat (length b);
  rm_block : exists k block, 6 <= k <= 63 /\ bb_cap (bs_buf s) = 2 ^ k /\
    bb_data (bs_buf s) = Some block /\ Z.of_nat (length block) = 2 ^ k /\
    take (length b) block = Some <$> b;
  rm_fits : Z.of_nat (length b) + n <= bb_cap (bs_buf s);
  rm_linear : bb_cap (bs_buf s) <= 64 \/ bb_cap (bs_buf s) < 2 * (Z.of_nat (length b) + n)
}.

Definition holds (b : bytes) (s : bstate) : Prop :=
  (b = [] /\ bs_buf s = Bytebuf None 0 0) \/ room b 0 s.

(** The blocks that are not the buffer's. *)
Definition others (s : bstate) : Z :=
  bs_blocks s - if bb_data (bs_buf s) is Some _ then 1 else 0.

(** A call from [s] ends in a state with [P], no block lost, or aborts because an
    allocation failed. *)
Definition ends (s : bstate) (P : bstate -> Prop) (r : halt + bstate) : Prop :=
  match r with
  | inr s' => P s' /\ bs_grants s' `suffix_of` bs_grants s /\ others s' = others s
  | inl (Aborted stderr) => stderr = out_of_memory /\ In false (bs_grants s)
  | inl _ => False
  end.

Lemma suffix_In {A} (x : A) l l' : l `suffix_of` l' -> In x l -> In x l'.
Proof. intros [k ->] Hx. apply in_or_app. by right. Qed.

Lemma ends_weaken s (P Q : bstate -> Prop) r : (forall s', P s' -> Q s') -> ends s P r -> ends s Q r.
Proof. intros HPQ. destruct r as [[]|]; cbn; naive_solver. Qed.

Lemma ends_skip s (P : bstate -> Prop) : P s -> ends s P (inr s).
Proof. intros HP. by split. Qed.

Lemma ends_seq s (P Q : bstate -> Prop) m n :
  ends s P (m s) -> (forall s', P s' -> ends s' Q (n s')) -> ends s Q ((m;; n) s).
Proof.
  unfold bb_seq. destruct (m s) as [|s1]; cbn; [by intros H _|]. intros (HP & Hg & Ho) Hn.
  specialize (Hn s1 HP). destruct (n s1) as [[]|s2]; cbn in *; try done.
  - split; [apply Hn|]. eapply suffix_In; [done|]. apply Hn.
  - destruct Hn as (HQ & Hg2 & Ho2). split; [done|]. split; [by etransitivity|congruence].
Qed.

(** ** Growth *)
Lemma size_wrap_double k : 0 <= k < 63 -> size_wrap (2 ^ k * 2) = 2 ^ (k + 1).
Proof.
  intros Hk. rewrite Z.pow_add_r, Z.pow_1_r by lia. apply wrap_small. split; [lia|].
  assert (2 ^ k <= 2 ^ 62) by (apply Z.pow_le_mono_r; lia). lia.
Qed.

Lemma double_until_ok fuel k want :
  0 <= k <= 63 -> want <= 2 ^ 63 -> 63 - k < Z.of_nat fuel ->
  exists k', k <= k' <= 63 /\ double_until fuel (2 ^ k) want = Some (2 ^ k') /\
    want <= 2 ^ k' /\ (k' = k \/ 2 ^ k' < 2 * want).
Proof.
  revert k. induction fuel as [|fuel IH]; intros k Hk Hw Hf; [lia|]. cbn [double_until].
  destruct (Z.ltb_spec (2 ^ k) want) as [Hlt|]; [|exists k; repeat split; auto with lia].
  assert (Hk63 : k < 63).
  { destruct (decide (k = 63)) as [->|]; [lia|lia]. }
  rewrite size_wrap_double by lia.
  destruct (IH (k + 1)) as (k' & Hk' & E & Hle & Hb); [lia|done|lia|].
  exists k'. split; [lia|]. split; [done|]. split; [done|]. right.
  destruct Hb as [->|]; [|done]. rewrite Z.pow_add_r by lia. lia.
Qed.

(** Beyond 2^63 bytes the doubling wraps around to zero and never ends. *)
Lemma double_until_hangs fuel want :
  2 ^ 63 < want ->
  double_until fuel 0 want = None /\ forall k, 0 <= k <= 63 -> double_until fuel (2 ^ k) want = None.
Proof.
  intros Hw. induction fuel as [|fuel [IH0 IHk]]; [done|]. cbn [double_until]. split.
  - destruct (Z.ltb_spec 0 want); [done|lia].
  - intros k Hk. assert (2 ^ k <= 2 ^ 63) by (apply Z.pow_le_mono_r; lia).
    destruct (Z.ltb_spec (2 ^ k) want); [|lia].
    destruct (decide (k = 63)) as [->|]; [done|]. rewrite size_wrap_double by lia. apply IHk. lia.
Qed.

(** What the C code finds in the block: what was there, with room after it. *)
Lemma realloc_holds b n k s :
  holds b s -> 6 <= k <= 63 -> 0 <= n -> Z.of_nat (length b) + n <= 2 ^ k ->
  2 ^ k <= 64 \/ 2 ^ k < 2 * (Z.of_nat (length b) + n) ->
  let s' := realloc_data (2 ^ k) (s <| bs_buf ::= fun c => c <| bb_cap := 2 ^ k |> |>) in
  match bb_data (bs_buf s') with
  | Some _ => ends s (room b n) (inr s')
  | None => In false (bs_grants s)
  end.
Proof.
  intros Hb Hk Hn Hfit Hlin. destruct s as [[d l c] gs bl]. cbn.
  assert (Hl : l = Z.of_nat (length b) /\ take (length b) (default [] d) = Some <$> b).
  { destruct Hb as [[-> [= -> -> ->]]|[Hl (k0 & blk & _ & _ & [= ->] & _ & Ht) _ _]]; by split. }
  destruct Hl as [-> Hold].
  assert (Hlen : (length b <= length (default [] d))%nat).
  { apply (f_equal length) in Hold. rewrite length_take, length_fmap in Hold. lia. }
  assert (Hp : (length b <= Z.to_nat (2 ^ k))%nat) by lia.
  assert (Hroom : forall gs' bl', room b n (Bstate (Bytebuf
            (Some (resize (Z.to_nat (2 ^ k)) None (default [] d))) (Z.of_nat (length b)) (2 ^ k)) gs' bl')).
  { intros gs' bl'. split; cbn; [done| |done|done]. exists k. eexists. split; [lia|]. split; [done|].
    split; [done|]. split; [rewrite length_resize; lia|].
    rewrite take_resize_le by done. rewrite resize_le by done. done. }
  destruct gs as [|[|] gs]; cbn; [| |by left].
  - split; [apply Hroom|]. split; [done|]. unfold others. cbn. destruct d; cbn; lia.
  - split; [apply Hroom|]. split; [by exists [true]|]. unfold others. cbn. destruct d; cbn; lia.
Qed.

(** [reserve] makes room, or aborts without memory. *)
Lemma reserve_spec b n s :
  holds b s -> 0 < n -> Z.of_nat (length b) + n <= 2 ^ 63 -> ends s (room b n) (reserve n s).
Proof.
  intros Hb Hn Hmax. unfold reserve.
  assert (Hlen : bb_len (bs_buf s) = Z.of_nat (length b)).
  { destruct Hb as [[-> ->]|[Hl _ _ _]]; done. }
  rewrite Hlen, (wrap_small 64 (SIZE_MAX - _)) by (unfold is_u, SIZE_MAX; lia).
  destruct (n >? SIZE_MAX - Z.of_nat (length b)) eqn:E; [unfold SIZE_MAX in E; lia|]. clear E.
  rewrite wrap_small by (unfold is_u; lia).
  destruct (Z.leb_spec (Z.of_nat (length b) + n) (bb_cap (bs_buf s))) as [Hle|Hgt].
  - apply ends_skip. destruct Hb as [[-> Eb]|[Hl Hblk Hf Hlin]]; [rewrite Eb in Hle; cbn in Hle; lia|].
    split; [done|done|lia|lia].
  - assert (Hk : exists k, 6 <= k <= 63 /\
              (if bb_cap (bs_buf s) =? 0 then 64 else bb_cap (bs_buf s)) = 2 ^ k /\
              (k = 6 \/ 2 ^ k < 2 * (Z.of_nat (length b) + n))).
    { destruct Hb as [[-> ->]|[Hl (k & blk & Hk & Hc & _) Hf Hlin]]; [exists 6; cbn; lia|].
      exists k. split; [done|]. rewrite Hc in *.
      rewrite (proj2 (Z.eqb_neq _ _)) by (pose proof (Z.pow_pos_nonneg 2 k); lia).
      split; [done|]. destruct Hlin as [Hlin|]; [left|right; lia].
      destruct (decide (k = 6)); [done|]. assert (2 ^ 7 <= 2 ^ k) by (apply Z.pow_le_mono_r; lia). lia. }
    destruct Hk as (k & Hk & -> & Hlin).
    destruct (double_until_ok growth_fuel k (Z.of_nat (length b) + n)) as (k' & Hk' & -> & Hfit & Hlin');
      [lia|lia|unfold growth_fuel; lia|].
    pose proof (realloc_holds b n k' s Hb) as Hr. cbv zeta in Hr.
    assert (2 ^ k' <= 64 \/ 2 ^ k' < 2 * (Z.of_nat (length b) + n)).
    { destruct Hlin' as [->|]; [destruct Hlin as [->|]; [by left|by right]|by right]. }
    specialize (Hr ltac:(lia) ltac:(lia) ltac:(lia) ltac:(done)).
    cbv zeta. destruct (bb_data _) as [blk|]; [exact Hr|by split].
Qed.

(** Storing into the room made. *)
Lemma store_spec b vs s :
  room b (Z.of_nat (length vs)) s -> Z.of_nat (length b + length vs) <= 2 ^ 63 ->
  ends s (room (b ++ vs) 0) (store vs s).
Proof.
  intros [Hl (k & blk & Hk & Hc & Hd & Hlb & Ht) Hf Hlin] Hmax.
  unfold store. rewrite Hl, Hd.
  destruct (Z.leb_spec (Z.of_nat (length b) + Z.of_nat (length vs)) (Z.of_nat (length blk))); [|lia].
  destruct s as [[d l c] gs bl]. cbn in Hl, Hc, Hd, Hf, Hlin. subst l d c.
  assert (Hlt : length (take (length b) blk) = length b) by (rewrite length_take; lia).
  split; [|by split]. split; cbn -[wrap Z.of_nat]; rewrite ?length_app.
  - rewrite wrap_small by (unfold is_u; lia). lia.
  - rewrite Nat2Z.id. exists k. eexists. split; [lia|]. split; [done|]. split; [done|]. unfold store_at. split.
    + rewrite !length_app, length_fmap, Hlt, length_drop. lia.
    + rewrite app_assoc, take_app_length' by (rewrite length_app, Hlt, length_fmap; done).
      by rewrite Ht, fmap_app.
  - lia.
  - lia.
Qed.

(** ** The interface *)
Class Writes (m : cmd) (w : bytes) : Prop :=
  writes b s : holds b s -> Z.of_nat (length b + length w) <= 2 ^ 63 -> ends s (holds (b ++ w)) (m s).

Lemma writes_skip : Writes skip [].
Proof. intros b s Hb _. rewrite app_nil_r. by apply ends_skip. Qed.

Lemma writes_seq m1 w1 m2 w2 : Writes m1 w1 -> Writes m2 w2 -> Writes (m1;; m2) (w1 ++ w2).
Proof.
  intros H1 H2 b s Hb Hmax. rewrite length_app in Hmax. eapply ends_seq; [apply H1; [done|lia]|].
  intros s' Hs'. rewrite app_assoc. apply H2; [done|]. rewrite length_app. lia.
Qed.

(** Where the code has decided what to store once there is room. *)
Lemma writes_store n vs (m : cmd) :
  0 < n -> n = Z.of_nat (length vs) -> (forall s, m s = store vs s) -> Writes (reserve n;; m) vs.
Proof.
  intros Hn -> Hm b s Hb Hmax. eapply ends_seq.
  - apply reserve_spec; [done|done|lia].
  - intros s' Hs'. rewrite Hm. eapply ends_weaken; [|apply store_spec; [done|lia]].
    intros s2 ?. by right.
Qed.

Lemma writes_eq m w w' : Writes m w -> w = w' -> Writes m w'.
Proof. by intros ? <-. Qed.

(** A sequence of calls writes what each of them writes; the bytes are compared
    after [build_simpl]. *)
Create HintDb writes discriminated.
#[export] Hint Constants Opaque : writes.
#[export] Hint Resolve writes_skip : writes.
#[export] Hint Extern 1 (is_u _ _) => unfold is_u in *; lia : writes.
#[export] Hint Extern 1 (_ = _) => first [reflexivity | lia] : writes.
#[export] Hint Extern 1 (_ <= _) => unfold is_u in *; lia : writes.
Ltac writes_all :=
  lazymatch goal with
  | |- Writes (bb_seq _ _) _ => eapply writes_seq; [writes_all|writes_all]
  | |- _ => solve [eauto 3 with writes nocore]
  end.
Ltac build_writes := cbv zeta; eapply writes_eq; [writes_all|build_simpl; rewrite ?Nat2Z.id; try reflexivity].

(** ** Bytes and integers *)
Lemma bb_u8_writes v : Writes (bb_u8 v) (Builder.bb_u8 [] v).
Proof. by apply writes_store. Qed.
#[export] Hint Resolve bb_u8_writes : writes.

Lemma bb_be16_writes v : Writes (bb_be16 v) (Builder.bb_be16 [] v).
Proof. unfold bb_be16. by build_writes. Qed.
#[export] Hint Resolve bb_be16_writes : writes.

Lemma bb_be32_writes v : Writes (bb_be32 v) (Builder.bb_be32 [] v).
Proof. unfold bb_be32. by build_writes. Qed.
#[export] Hint Resolve bb_be32_writes : writes.

Lemma bb_u16_writes v be : Writes (bb_u16 v be) (Builder.bb_u16 [] v be).
Proof. unfold bb_u16. destruct be; [by build_writes|]. by build_writes. Qed.
#[export] Hint Resolve bb_u16_writes : writes.

Lemma bb_u32_writes v be : Writes (bb_u32 v be) (Builder.bb_u32 [] v be).
Proof. unfold bb_u32. destruct be; [by build_writes|]. by build_writes. Qed.
#[export] Hint Resolve bb_u32_writes : writes.

Lemma bb_bytes_writes p n : n = Z.of_nat (length p) -> Writes (bb_bytes p n) (Builder.bb_bytes [] p).
Proof.
  intros ->. unfold bb_bytes, Builder.bb_bytes. destruct (Z.eqb_spec (Z.of_nat (length p)) 0).
  - destruct p; [apply writes_skip|done].
  - apply writes_store; [lia|done|]. intros s. unfold bytes_at. rewrite decide_True by lia.
    by rewrite Nat2Z.id, drop_0, take_ge by done.
Qed.

Lemma bb_fill_writes v n : 0 <= n -> Writes (bb_fill v n) (Builder.bb_fill [] v (Z.to_nat n)).
Proof.
  intros Hn. unfold bb_fill, Builder.bb_fill. cbn [app].
  destruct (Z.eqb_spec n 0) as [->|]; [apply writes_skip|].
  apply writes_store; [lia|rewrite length_replicate; lia|done].
Qed.
#[export] Hint Resolve bb_bytes_writes bb_fill_writes : writes.

(** ** Headers, frames and files

    The list model counts in [nat], the code in [size_t] and [unsigned]. *)
Lemma wrap_wrap_le w w' x : 0 <= w <= w' -> wrap w (wrap w' x) = wrap w x.
Proof.
  intros Hw. unfold wrap. apply Z.mod_mod_divide. exists (2 ^ (w' - w)).
  rewrite <- Z.pow_add_r by lia. f_equal. lia.
Qed.

Lemma land_F_u32 x : Z.land (u32 x) 0x0F = Z.land x 0x0F.
Proof. change 0x0F with (Z.ones 4). rewrite !Z.land_ones by done. by apply wrap_wrap_le. Qed.

Lemma put_eth_writes t : Writes (put_eth t) (Builder.put_eth [] t).
Proof. unfold put_eth. by build_writes. Qed.

Lemma put_vlan_writes vid t : Writes (put_vlan vid t) (Builder.put_vlan [] vid t).
Proof. unfold put_vlan. by build_writes. Qed.

Lemma put_ipv4_writes proto src dst len opts frag :
  length src = 4%nat -> length dst = 4%nat -> is_u 64 len -> is_u 32 opts ->
  Writes (put_ipv4 proto src dst len opts frag)
         (Builder.put_ipv4 [] proto src dst (Z.to_nat len) (Z.to_nat opts) frag).
Proof.
  intros Hs Hd Hl Ho. unfold put_ipv4. cbv zeta. rewrite land_F_u32, (wrap_wrap_le 32 64) by lia.
  rewrite !(wrap_small 64 (4 * opts)), (wrap_small 64) by (unfold is_u in *; lia). build_writes.
  replace (Z.to_nat (4 * opts)) with (4 * Z.to_nat opts)%nat by lia.
  by rewrite !Z2Nat.id by (unfold is_u in *; lia).
Qed.

Lemma put_ipv6_writes next src dst len :
  length src = 16%nat -> length dst = 16%nat -> is_u 64 len ->
  Writes (put_ipv6 next src dst len) (Builder.put_ipv6 [] next src dst (Z.to_nat len)).
Proof.
  intros Hs Hd Hl. unfold put_ipv6. build_writes. by rewrite !Z2Nat.id by (unfold is_u in *; lia).
Qed.

Lemma put_tcp_writes sport dport flags : Writes (put_tcp sport dport flags) (Builder.put_tcp [] sport dport flags).
Proof. unfold put_tcp. by build_writes. Qed.

Lemma put_udp_writes sport dport len :
  is_u 64 len -> Writes (put_udp sport dport len) (Builder.put_udp [] sport dport (Z.to_nat len)).
Proof.
  intros Hl. unfold put_udp. rewrite wrap_wrap_le by lia. build_writes.
  by rewrite !Z2Nat.id by (unfold is_u in *; lia).
Qed.

Lemma put_icmp_writes type code : Writes (put_icmp type code) (Builder.put_icmp [] type code).
Proof. unfold put_icmp. by build_writes. Qed.

Lemma put_gtpu_writes flags type len teid :
  is_u 64 len -> Writes (put_gtpu flags type len teid) (Builder.put_gtpu [] flags type (Z.to_nat len) teid).
Proof.
  intros Hl. unfold put_gtpu. build_writes. by rewrite !Z2Nat.id by (unfold is_u in *; lia).
Qed.

Lemma put_gtpu_opt_writes seq npdu next :
  Writes (put_gtpu_opt seq npdu next) (Builder.put_gtpu_opt [] seq npdu next).
Proof. unfold put_gtpu_opt. by build_writes. Qed.

Lemma put_gtpu_ext_writes units next :
  1 <= units -> is_u 32 units ->
  Writes (put_gtpu_ext units next) (Builder.put_gtpu_ext [] (Z.to_nat units) next).
Proof.
  intros Hu Hr. unfold put_gtpu_ext.
  rewrite !(wrap_small 64 (4 * units)), wrap_small by (unfold is_u in *; lia). build_writes.
  replace (Z.to_nat (4 * units - 2)) with (4 * Z.to_nat units - 2)%nat by lia.
  by rewrite !Z2Nat.id by lia.
Qed.
#[export] Hint Resolve put_eth_writes put_vlan_writes put_ipv4_writes put_ipv6_writes put_tcp_writes
  put_udp_writes put_icmp_writes put_gtpu_writes put_gtpu_opt_writes put_gtpu_ext_writes : writes.

(** A frame: the headers stay folded. *)
Ltac build_frame :=
  eapply writes_eq; [writes_all|]; unfold Builder.bb_fill;
  repeat match goal with
  | |- context [Builder.put_tcp ?b _ _ _] =>
    lazymatch b with [] => fail | _ => rewrite (put_tcp_app b) end
  | |- context [Builder.put_udp ?b _ _ _] =>
    lazymatch b with [] => fail | _ => rewrite (put_udp_app b) end
  | |- context [Builder.put_ipv4 ?b _ _ _ _ _ _] =>
    lazymatch b with [] => fail | _ => rewrite (put_ipv4_app b) end
  | |- context [Builder.put_ipv6 ?b _ _ _ _] =>
    lazymatch b with [] => fail | _ => rewrite (put_ipv6_app b) end
  end;
  by rewrite <- !app_assoc.

Lemma frame_v4_tcp_writes src dst sport dport flags payload :
  length src = 4%nat -> length dst = 4%nat -> is_u 63 payload ->
  Writes (frame_v4_tcp src dst sport dport flags payload)
         (Builder.frame_v4_tcp [] src dst sport dport flags (Z.to_nat payload)).
Proof.
  intros Hs Hd Hp. unfold frame_v4_tcp, Builder.frame_v4_tcp.
  rewrite wrap_small by (unfold is_u in *; lia).
  replace (20 + Z.to_nat payload)%nat with (Z.to_nat (20 + payload)) by (unfold is_u in *; lia).
  build_frame.
Qed.

Lemma frame_v4_udp_writes src dst sport dport payload :
  length src = 4%nat -> length dst = 4%nat -> is_u 63 payload ->
  Writes (frame_v4_udp src dst sport dport payload)
         (Builder.frame_v4_udp [] src dst sport dport (Z.to_nat payload)).
Proof.
  intros Hs Hd Hp. unfold frame_v4_udp, Builder.frame_v4_udp.
  rewrite wrap_small by (unfold is_u in *; lia).
  replace (8 + Z.to_nat payload)%nat with (Z.to_nat (8 + payload)) by (unfold is_u in *; lia).
  build_frame.
Qed.

Lemma frame_v6_tcp_writes src dst sport dport flags payload :
  length src = 16%nat -> length dst = 16%nat -> is_u 63 payload ->
  Writes (frame_v6_tcp src dst sport dport flags payload)
         (Builder.frame_v6_tcp [] src dst sport dport flags (Z.to_nat payload)).
Proof.
  intros Hs Hd Hp. unfold frame_v6_tcp, Builder.frame_v6_tcp.
  rewrite wrap_small by (unfold is_u in *; lia).
  replace (20 + Z.to_nat payload)%nat with (Z.to_nat (20 + payload)) by (unfold is_u in *; lia).
  build_frame.
Qed.

Lemma pcap_put_global_writes be nsec snaplen linktype :
  Writes (pcap_put_global be nsec snaplen linktype) (Builder.pcap_put_global [] be nsec snaplen linktype).
Proof. unfold pcap_put_global. by build_writes. Qed.

Lemma pcap_put_record_writes be sec frac data caplen wirelen :
  caplen = Z.of_nat (length data) ->
  Writes (pcap_put_record be sec frac data caplen wirelen)
         (Builder.pcap_put_record [] be sec frac data wirelen).
Proof. intros ->. unfold pcap_put_record. by build_writes. Qed.
#[export] Hint Resolve frame_v4_tcp_writes frame_v4_udp_writes frame_v6_tcp_writes
  pcap_put_global_writes pcap_put_record_writes : writes.

(** ** Contents, release and the file *)

(** The bytes of a buffer. *)
Definition contents (b : bytebuf) : option bytes :=
  if bb_len b =? 0 then Some [] else cells (bb_data b) (bb_len b).

Lemma mapM_id_Some {A} (l : list A) : mapM id (Some <$> l) = Some l.
Proof. by apply mapM_fmap_Some. Qed.

Lemma holds_len b s : holds b s -> bb_len (bs_buf s) = Z.of_nat (length b).
Proof. intros [[-> ->]|[Hl _ _ _]]; done. Qed.

Lemma holds_cells b s : holds b s -> b <> [] -> cells (bb_data (bs_buf s)) (bb_len (bs_buf s)) = Some b.
Proof.
  intros [[-> _]|[Hl (k & blk & Hk & Hc & Hd & Hlb & Ht) Hf _]]; [done|]. intros _.
  unfold cells. rewrite Hl, Hd. cbn [mbind option_bind].
  destruct (Z.leb_spec (Z.of_nat (length b)) (Z.of_nat (length blk))); [|lia].
  rewrite Nat2Z.id, Ht. apply mapM_id_Some.
Qed.

Lemma holds_contents b s : holds b s -> contents (bs_buf s) = Some b.
Proof.
  intros Hb. unfold contents. destruct (Z.eqb_spec (bb_len (bs_buf s)) 0) as [E|E].
  - rewrite (holds_len _ _ Hb) in E. by destruct b.
  - apply holds_cells; [done|]. intros ->. by rewrite (holds_len _ _ Hb) in E.
Qed.

Lemma bb_init_holds s : exists s', bb_init s = inr s' /\ holds [] s' /\
  others s' = bs_blocks s /\ bs_grants s' = bs_grants s.
Proof. eexists. split; [done|]. split; [by left|]. unfold others. cbn. split; [lia|done]. Qed.

Lemma bb_free_spec s : exists s', bb_free s = inr s' /\ holds [] s' /\ bs_blocks s' = others s.
Proof.
  eexists. split; [done|]. split; [by left|]. unfold others. cbn. destruct (bb_data _); cbn; lia.
Qed.

(** A count of [n] from [fwrite] means everything got through. *)
Lemma fwrite_spec d text :
  exists n f, fwrite (ostream_new d) text = (n, f) /\ o_flush f = d_flush d /\
    (n = Z.of_nat (length text) -> o_text f = text) /\ (d = sound -> n = Z.of_nat (length text)).
Proof.
  unfold fwrite, fprintf, o_text. destruct d as [[|[k|] fs] fl]; cbn; eexists _, _; (do 2 (split; [done|])).
  - done.
  - rewrite Nat.sub_0_r, app_nil_r. split; [|done]. intros ?. by rewrite take_ge by lia.
  - done.
Qed.

(** A flush that returns 0 leaves the whole text on the device. *)
Lemma fflush_spec f :
  exists rc f', fflush f = (rc, f') /\ (rc = 0 -> o_data f' = o_text f) /\ (o_flush f = None -> rc = 0).
Proof. unfold fflush. destruct (o_flush f); eexists _, _; (split; [done|]); by split. Qed.

(** [bb_write_file]: 0 only for a file with exactly the buffer's bytes. *)
Lemma bb_write_file_spec b s fopen_result :
  holds b s ->
  exists rc f, bb_write_file (bs_buf s) fopen_result = Some (rc, f) /\ (rc = 0 \/ rc = -1) /\
    (rc = 0 -> exists out, f = Some out /\ o_data out = b) /\
    (fopen_result = inl sound -> rc = 0).
Proof.
  intros Hb. unfold bb_write_file.
  destruct fopen_result as [d|e]; [|eexists _, _; naive_solver].
  assert (Hstep : exists w f, (if bb_len (bs_buf s) >? 0 then
      text ← cells (bb_data (bs_buf s)) (bb_len (bs_buf s));
      let '(n, f) := fwrite (ostream_new d) text in
      Some (if negb (n =? bb_len (bs_buf s)) then -1 else 0, f)
    else Some (0, ostream_new d)) = Some (w, f) /\ o_flush f = d_flush d /\
      (w = 0 \/ w = -1) /\ (w = 0 -> o_text f = b) /\ (d = sound -> w = 0)).
  { rewrite (holds_len _ _ Hb). destruct b as [|c b']; [by eexists _, _; naive_solver|].
    pose proof (holds_cells _ _ Hb ltac:(done)) as Hc. rewrite (holds_len _ _ Hb) in Hc. rewrite Hc.
    destruct (fwrite_spec d (c :: b')) as (n & f & E & Hfl & Hn & Hok).
    rewrite (proj2 (Z.gtb_lt _ _)) by (cbn [length]; lia). cbn [mbind option_bind]. rewrite E.
    eexists _, f. split; [done|]. split; [done|].
    destruct (Z.eqb_spec n (Z.of_nat (length (c :: b')))); cbn [negb]; naive_solver. }
  destruct Hstep as (w & f & -> & Hfl & Hw & Ht & Hok). cbn [mbind option_bind].
  destruct (fflush_spec f) as (rc & f' & -> & Hd & H0). eexists _, _. split; [done|].
  destruct (Z.eqb_spec rc 0) as [->|Hne]; cbn [negb].
  - split; [done|]. split; [|by intros [= ->]; apply Hok]. intros ->. exists f'. split; [done|]. rewrite Hd by done. by apply Ht.
  - split; [by right|]. split; [done|]. intros [= ->]. by destruct Hne; apply H0.
Qed.

(** ** Programs of builder calls *)
Inductive call :=
  | C_u8 (v : Z) | C_be16 (v : Z) | C_be32 (v : Z) | C_u16 (v : Z) (be : bool) | C_u32 (v : Z) (be : bool)
  | C_bytes (p : bytes) | C_fill (v n : Z)
  | C_eth (ethertype : Z) | C_vlan (vid next : Z)
  | C_ipv4 (proto : Z) (src dst : bytes) (payload_len opt_words frag : Z)
  | C_ipv6 (next : Z) (src dst : bytes) (payload_len : Z)
  | C_tcp (sport dport flags : Z) | C_udp (sport dport payload_len : Z) | C_icmp (type code : Z)
  | C_gtpu (flags type length teid : Z) | C_gtpu_opt (seq npdu next : Z) | C_gtpu_ext (units next : Z)
  | C_v4_tcp (src dst : bytes) (sport dport flags payload : Z)
  | C_v4_udp (src dst : bytes) (sport dport payload : Z)
  | C_v6_tcp (src dst : bytes) (sport dport flags payload : Z)
  | C_global (be nsec : bool) (snaplen linktype : Z)
  | C_record (be : bool) (sec frac : Z) (data : bytes) (wirelen : Z).

Definition perform (c : call) : cmd :=
  match c with
  | C_u8 v => bb_u8 v | C_be16 v => bb_be16 v | C_be32 v => bb_be32 v
  | C_u16 v be => bb_u16 v be | C_u32 v be => bb_u32 v be
  | C_bytes p => bb_bytes p (Z.of_nat (length p)) | C_fill v n => bb_fill v n
  | C_eth t => put_eth t | C_vlan vid t => put_vlan vid t
  | C_ipv4 p s d n o f => put_ipv4 p s d n o f | C_ipv6 x s d n => put_ipv6 x s d n
  | C_tcp s d f => put_tcp s d f | C_udp s d n => put_udp s d n | C_icmp t c => put_icmp t c
  | C_gtpu f t n x => put_gtpu f t n x | C_gtpu_opt s n x => put_gtpu_opt s n x
  | C_gtpu_ext u x => put_gtpu_ext u x
  | C_v4_tcp s d sp dp f n => frame_v4_tcp s d sp dp f n
  | C_v4_udp s d sp dp n => frame_v4_udp s d sp dp n
  | C_v6_tcp s d sp dp f n => frame_v6_tcp s d sp dp f n
  | C_global be ns sl lt => pcap_put_global be ns sl lt
  | C_record be s f d w => pcap_put_record be s f d (Z.of_nat (length d)) w
  end.

(** What a call appends, by the list model. *)
Definition call_bytes (c : call) : bytes :=
  match c with
  | C_u8 v => Builder.bb_u8 [] v | C_be16 v => Builder.bb_be16 [] v | C_be32 v => Builder.bb_be32 [] v
  | C_u16 v be => Builder.bb_u16 [] v be | C_u32 v be => Builder.bb_u32 [] v be
  | C_bytes p => p | C_fill v n => Builder.bb_fill [] v (Z.to_nat n)
  | C_eth t => Builder.put_eth [] t | C_vlan vid t => Builder.put_vlan [] vid t
  | C_ipv4 p s d n o f => Builder.put_ipv4 [] p s d (Z.to_nat n) (Z.to_nat o) f
  | C_ipv6 x s d n => Builder.put_ipv6 [] x s d (Z.to_nat n)
  | C_tcp s d f => Builder.put_tcp [] s d f | C_udp s d n => Builder.put_udp [] s d (Z.to_nat n)
  | C_icmp t c => Builder.put_icmp [] t c | C_gtpu f t n x => Builder.put_gtpu [] f t (Z.to_nat n) x
  | C_gtpu_opt s n x => Builder.put_gtpu_opt [] s n x
  | C_gtpu_ext u x => Builder.put_gtpu_ext [] (Z.to_nat u) x
  | C_v4_tcp s d sp dp f n => Builder.frame_v4_tcp [] s d sp dp f (Z.to_nat n)
  | C_v4_udp s d sp dp n => Builder.frame_v4_udp [] s d sp dp (Z.to_nat n)
  | C_v6_tcp s d sp dp f n => Builder.frame_v6_tcp [] s d sp dp f (Z.to_nat n)
  | C_global be ns sl lt => Builder.pcap_put_global [] be ns sl lt
  | C_record be s f d w => Builder.pcap_put_record [] be s f d w
  end.

(** The types of the arguments that count, and the documented preconditions. *)
Definition call_ok (c : call) : Prop :=
  match c with
  | C_fill _ n => is_u 64 n
  | C_ipv4 _ s d n o _ => length s = 4%nat /\ length d = 4%nat /\ is_u 64 n /\ is_u 32 o
  | C_ipv6 _ s d n => length s = 16%nat /\ length d = 16%nat /\ is_u 64 n
  | C_udp _ _ n => is_u 64 n
  | C_gtpu _ _ n _ => is_u 64 n
  | C_gtpu_ext u _ => 1 <= u /\ is_u 32 u
  | C_v4_tcp s d _ _ _ n => length s = 4%nat /\ length d = 4%nat /\ is_u 63 n
  | C_v4_udp s d _ _ n => length s = 4%nat /\ length d = 4%nat /\ is_u 63 n
  | C_v6_tcp s d _ _ _ n => length s = 16%nat /\ length d = 16%nat /\ is_u 63 n
  | _ => True
  end.

Fixpoint perform_all (cs : list call) : cmd :=
  match cs with [] => skip | c :: cs => perform c;; perform_all cs end.

Lemma perform_writes c : call_ok c -> Writes (perform c) (call_bytes c).
Proof.
  destruct c; cbn [call_ok perform call_bytes]; intros Hc;
    repeat match goal with H : _ /\ _ |- _ => destruct H end; eauto 3 with writes nocore.
  by apply bb_bytes_writes.
Qed.

Lemma perform_all_writes cs :
  Forall call_ok cs -> Writes (perform_all cs) (concat (map call_bytes cs)).
Proof.
  induction 1 as [|c cs Hc _ IH]; cbn [perform_all map concat]; [apply writes_skip|].
  apply writes_seq; [by apply perform_writes|done].
Qed.

(** From a fresh buffer. *)
Lemma perform_fresh cs s :
  Forall call_ok cs -> Z.of_nat (length (concat (map call_bytes cs))) <= 2 ^ 63 ->
  match (bb_init;; perform_all cs) s with
  | inr s' => holds (concat (map call_bytes cs)) s' /\ others s' = bs_blocks s
  | inl (Aborted stderr) => stderr = out_of_memory /\ In false (bs_grants s)
  | inl _ => False
  end.
Proof.
  intros Hc Hmax. destruct (bb_init_holds s) as (s0 & E & H0 & Ho & Hg). unfold bb_seq. rewrite E.
  pose proof (perform_all_writes cs Hc [] s0 H0) as Hw. specialize (Hw ltac:(cbn [length]; lia)).
  destruct (perform_all cs s0) as [[e| |]|s']; cbn [ends] in Hw; [by rewrite <- Hg|done|done|].
  destruct Hw as (Hh & _ & Ho'). split; [done|congruence].
Qed.

(** C26. Any sequence of builder calls, from [bb_init], leaves in the growing buffer
    exactly the bytes of the list model, in a block whose capacity is at most 64 or
    less than twice the contents; it never stores outside its block, and stops only
    by aborting when [realloc] fails.  [bb_free] then gives the block back. *)
Theorem builder_appends cs s :
  Forall call_ok cs -> Z.of_nat (length (concat (map call_bytes cs))) <= 2 ^ 63 ->
  match (bb_init;; perform_all cs) s with
  | inr s' =>
    contents (bs_buf s') = Some (concat (map call_bytes cs)) /\
    (bb_cap (bs_buf s') <= 64 \/ bb_cap (bs_buf s') < 2 * bb_len (bs_buf s')) /\
    exists s'', bb_free s' = inr s'' /\ contents (bs_buf s'') = Some [] /\ bs_blocks s'' = bs_blocks s
  | inl (Aborted stderr) => stderr = out_of_memory /\ In false (bs_grants s)
  | inl _ => False
  end.
Proof.
  intros Hc Hmax. pose proof (perform_fresh cs s Hc Hmax) as Hp.
  destruct ((bb_init;; perform_all cs) s) as [|s']; [done|]. destruct Hp as [Hh Ho].
  split; [by apply holds_contents|]. split.
  - destruct Hh as [[_ ->]|[Hl _ _ Hlin]]; [by left|]. rewrite Hl. lia.
  - destruct (bb_free_spec s') as (s'' & E & Hn & Hb). exists s''. split; [done|].
    split; [by apply holds_contents|congruence].
Qed.

(** ** Captures on disk *)

(** A whole capture file: the header and one call per packet. *)
Definition capture_calls (be nsec : bool) (snaplen : Z) (ps : list packet_args) : list call :=
  C_global be nsec snaplen 1 ::
  map (fun p => C_record be (pa_sec p) (pa_frac p) (pa_data p) (pa_wirelen p)) ps.

Lemma capture_calls_ok be nsec snaplen ps : Forall call_ok (capture_calls be nsec snaplen ps).
Proof. constructor; [done|]. apply Forall_forall. intros c. rewrite list_elem_of_In, in_map_iff. by intros (p & <- & _). Qed.

Lemma capture_calls_bytes be nsec snaplen ps :
  concat (map call_bytes (capture_calls be nsec snaplen ps)) = pcap_file be nsec snaplen ps.
Proof. rewrite pcap_file_eq. cbn. by rewrite map_map. Qed.

(** C27. A capture built in memory with the builder, written to disk with
    [bb_write_file] and opened from there is read back packet for packet, in
    either byte order and time unit, whenever [bb_write_file] returns 0; and it
    returns 0 when the stream accepts every byte. *)
Theorem capture_file_roundtrip be nsec snaplen ps s buf os :
  is_u 32 snaplen -> Forall packet_args_ok ps ->
  Z.of_nat (length (pcap_file be nsec snaplen ps)) <= 2 ^ 63 ->
  Z.of_nat (length buf) = PCAP_MAX_CAPLEN ->
  match (bb_init;; perform_all (capture_calls be nsec snaplen ps)) s with
  | inr s' => forall fopen_result, exists rc f,
      bb_write_file (bs_buf s') fopen_result = Some (rc, f) /\
      (fopen_result = inl sound -> rc = 0) /\
      (rc = 0 -> exists out, f = Some out /\
         exists r os', pcap_open_file (inl (File (o_data out) 0 None false)) (Some buf) os = Some (PCAP_OK, r, os') /\
         forall rec, exists r', read_all (S (length (o_data out))) r rec =
                                Some (map (captured_of nsec) ps, PCAP_EOF, r'))
  | inl (Aborted _) => In false (bs_grants s)
  | inl _ => False
  end.
Proof.
  intros Hs Hps Hmax Hbuf.
  pose proof (perform_fresh (capture_calls be nsec snaplen ps) s (capture_calls_ok _ _ _ _)) as Hp.
  rewrite capture_calls_bytes in Hp. specialize (Hp Hmax).
  destruct ((bb_init;; _) s) as [[]|s']; [apply Hp|done|done|]. destruct Hp as [Hh _].
  intros fopen_result. destruct (bb_write_file_spec _ _ fopen_result Hh) as (rc & f & E & _ & Hrc & Hno).
  exists rc, f. split; [done|]. split; [done|]. intros H0. destruct (Hrc H0) as (out & -> & Hout).
  exists out. split; [done|]. rewrite Hout. clear dependent out s s'.
  assert (Hfp : stream_ok (File (pcap_file be nsec snaplen ps) 0 None false)).
  { split; [by apply pcap_file_bytes|]. cbn. lia. }
  destruct (open_stream_spec _ (Some buf) (Resources (os_files os + 1) (os_blocks os)) Hfp)
    as (st & r & os' & E & Hiff & Hok & _); [by intros b [= <-]|].
  assert (st = PCAP_OK) as ->.
  { apply Hiff. split; [done|]. eexists. by apply pcap_file_valid. }
  exists r, os'. split; [exact E|]. intros rec. apply opened_roundtrip; [done|done|]. by apply Hok.
Qed.

(** ** Beyond 2^63 bytes

    [reserve] checks that [len + extra] fits a [size_t], but the doubling of [cap]
    has no such check: asked for more than 2^63 bytes it wraps to 0 and loops for
    ever, however many steps it is given. *)
Lemma reserve_hangs b extra s :
  holds b s -> is_u 64 extra -> 2 ^ 63 < Z.of_nat (length b) + extra <= SIZE_MAX ->
  reserve extra s = inl Hangs /\
  forall fuel, double_until fuel (if bb_cap (bs_buf s) =? 0 then 64 else bb_cap (bs_buf s))
                            (Z.of_nat (length b) + extra) = None.
Proof.
  intros Hb He [Hbig Hmax]. pose proof (holds_len _ _ Hb) as Hl. unfold SIZE_MAX in Hmax.
  assert (Hcap : exists k, 0 <= k <= 63 /\
            (if bb_cap (bs_buf s) =? 0 then 64 else bb_cap (bs_buf s)) = 2 ^ k).
  { destruct Hb as [[_ ->]|[_ (k & blk & Hk & -> & _) _ _]]; [by exists 6|].
    exists k. split; [lia|]. by rewrite (proj2 (Z.eqb_neq _ _)) by (pose proof (Z.pow_pos_nonneg 2 k); lia). }
  assert (Hsmall : bb_cap (bs_buf s) <= 2 ^ 63).
  { destruct Hb as [[_ ->]|[_ (k & blk & Hk & -> & _) _ _]]; [done|]. apply Z.pow_le_mono_r; lia. }
  destruct Hcap as (k & Hk & Ek). rewrite Ek.
  assert (Hall : forall fuel, double_until fuel (2 ^ k) (Z.of_nat (length b) + extra) = None)
    by (intros fuel; by apply double_until_hangs).
  split; [|done]. unfold reserve. rewrite Hl. unfold is_u in He.
  rewrite (wrap_small 64 (SIZE_MAX - _)) by (unfold is_u, SIZE_MAX; lia).
  destruct (extra >? SIZE_MAX - Z.of_nat (length b)) eqn:E; [unfold SIZE_MAX in E; lia|].
  rewrite wrap_small by (unfold is_u; lia).
  destruct (Z.leb_spec (Z.of_nat (length b) + extra) (bb_cap (bs_buf s))); [lia|].
  cbv zeta. by rewrite Ek, Hall.
Qed.
