(* ===== verification/Addr.v ===== *)
(** Address formatting (src/addr.h, src/addr.c): IPv4 dotted quads and RFC 5952
    IPv6 text, and the theorems about them.

    [None] is undefined behaviour: a load outside the address, a write outside
    [buf] or [tmp], or a conversion of an unterminated string. *)
From Stdlib Require Import String.
From S2P Require Export Text Bytes.
From stdpp Require Export list.
#[global] Open Scope Z_scope.

Definition ADDR_STR_LEN := 46.

(** [for (i = 0; i < 10; i++) if (a[i] != 0) return 0;] *)
Fixpoint all_zero (a : bytes) (i : Z) (n : nat) : option bool :=
  match n with
  | O => Some true
  | S n => b ← byte_at a i; if negb (b =? 0) then Some false else all_zero a (i + 1) n
  end.

Definition is_v4_mapped (a : bytes) : option bool :=
  z ← all_zero a 0 10;
  if negb z then Some false else
  b10 ← byte_at a 10;
  if negb (b10 =? 0xff) then Some false else
  b11 ← byte_at a 11; Some (b11 =? 0xff).

Definition colon : bytes := str ":".
Definition quad (b0 b1 b2 b3 : Z) : bytes :=
  dec b0 ++ str "." ++ dec b1 ++ str "." ++ dec b2 ++ str "." ++ dec b3.

(** [for (i = 0; i < 8; i++) groups[i] = load_be16(a + 2 * i);] *)
Fixpoint load_groups (a : bytes) (i : Z) (n : nat) : option (list Z) :=
  match n with
  | O => Some []
  | S n => g ← load_be16 a (2 * i); gs ← load_groups a (i + 1) n; Some (g :: gs)
  end.

(** [while (j < 8 && groups[j] == 0) j++;] *)
Fixpoint zero_end (fuel : nat) (groups : list Z) (j : Z) : option Z :=
  if j <? 8 then
    g ← groups !! Z.to_nat j;
    if g =? 0 then match fuel with O => None | S fuel => zero_end fuel groups (j + 1) end
    else Some j
  else Some j.

(** The loop that finds the longest run of zero groups. *)
Fixpoint find_run (fuel : nat) (groups : list Z) (i best_start best_len : Z) : option (Z * Z) :=
  if i <? 8 then
    match fuel with
    | O => None
    | S fuel =>
      g ← groups !! Z.to_nat i;
      if negb (g =? 0) then find_run fuel groups (i + 1) best_start best_len else
      j ← zero_end 8 groups i;
      if j - i >? best_len then find_run fuel groups j i (j - i)
      else find_run fuel groups j best_start best_len
    end
  else Some (best_start, best_len).

(** [pos += (size_t)snprintf(tmp + pos, sizeof tmp - pos, ...);] *)
Definition put (tmp : bytes) (pos : Z) (text : bytes) : option (bytes * Z) :=
  '(n, tmp) ← snprintf tmp pos (size_wrap (ADDR_STR_LEN - pos)) text;
  Some (tmp, size_wrap (pos + n)).

(** The printing loop. *)
Fixpoint print_groups (fuel : nat) (groups : list Z) (best_start best_len i : Z) (tmp : bytes)
         (pos : Z) : option (bytes * Z) :=
  if i <? 8 then
    match fuel with
    | O => None
    | S fuel =>
      if i =? best_start then
        '(tmp, pos) ← put tmp pos (str "::");
        print_groups fuel groups best_start best_len (i + (best_len - 1) + 1) tmp pos
      else
        '(tmp, pos) ← (if (i >? 0) && negb ((best_start >=? 0) && (i =? best_start + best_len))
                       then put tmp pos colon else Some (tmp, pos));
        g ← groups !! Z.to_nat i;
        '(tmp, pos) ← put tmp pos (hex g);
        print_groups fuel groups best_start best_len (i + 1) tmp pos
    end
  else Some (tmp, pos).

(** [tmp0] is the indeterminate contents of [char tmp[ADDR_STR_LEN]]. *)
Definition format_ipv6 (a buf : bytes) (len : Z) (tmp0 : bytes) : option bytes :=
  mapped ← is_v4_mapped a;
  if (mapped : bool) then
    b12 ← byte_at a 12; b13 ← byte_at a 13; b14 ← byte_at a 14; b15 ← byte_at a 15;
    '(_, buf) ← snprintf buf 0 len (str "::ffff:" ++ quad b12 b13 b14 b15); Some buf
  else
    groups ← load_groups a 0 8;
    '(best_start, best_len) ← find_run 8 groups 0 (-1) 0;
    let best_start := if best_len <? 2 then -1 else best_start in
    '(tmp, pos) ← print_groups 8 groups best_start best_len 0 tmp0 0;
    tmp ← write_at tmp (Z.to_nat pos) [0];
    s ← c_str tmp;
    '(_, buf) ← snprintf buf 0 len s; Some buf.

(** [addr_format]: the buffer after the call. *)
Definition addr_format (ip_version : Z) (addr buf : bytes) (len : Z) (tmp0 : bytes) : option bytes :=
  if len =? 0 then Some buf
  else if ip_version =? 4 then
    b0 ← byte_at addr 0; b1 ← byte_at addr 1; b2 ← byte_at addr 2; b3 ← byte_at addr 3;
    '(_, buf) ← snprintf buf 0 len (quad b0 b1 b2 b3); Some buf
  else if ip_version =? 6 then format_ipv6 addr buf len tmp0
  else '(_, buf) ← snprintf buf 0 len (str "?"); Some buf.

(** ** Specification (RFC 5952) *)
Definition join_groups : list bytes -> bytes := join_on 58.

(** [zs] has a run of [l] zero groups at [s]. *)
Definition zero_run (zs : list bool) (s l : nat) : bool :=
  (s + l <=? length zs)%nat && forallb id (take l (drop s zs)).

(** The run to shorten: the longest of at least two groups, the first on a tie. *)
Definition is_shortened (zs : list bool) (s l : nat) : bool :=
  zero_run zs s l && (2 <=? l)%nat &&
  forallb (fun s' => forallb (fun l' =>
    implb (zero_run zs s' l') ((l' <? l)%nat || ((l' =? l)%nat && (s <=? s')%nat)))
    (seq 0 9)) (seq 0 9).
Definition none_shortened (zs : list bool) : bool :=
  forallb (fun s => negb (zero_run zs s 2)) (seq 0 9).

Definition mapped_prefix : bytes := replicate 10 0 ++ [255; 255].

(** The eight groups of an address. *)
Fixpoint groups_of (a : bytes) : list Z :=
  match a with b0 :: b1 :: a => be16 b0 b1 :: groups_of a | _ => [] end.

(** The text of an IPv6 address. *)
Inductive ipv6_text (a : bytes) : bytes -> Prop :=
| text_mapped b12 b13 b14 b15 :
    a = mapped_prefix ++ [b12; b13; b14; b15] ->
    ipv6_text a (str "::ffff:" ++ quad b12 b13 b14 b15)
| text_full :
    take 12 a <> mapped_prefix ->
    none_shortened (map (Z.eqb 0) (groups_of a)) = true ->
    ipv6_text a (join_groups (map hex (groups_of a)))
| text_short s l :
    take 12 a <> mapped_prefix ->
    is_shortened (map (Z.eqb 0) (groups_of a)) s l = true ->
    ipv6_text a (join_groups (map hex (take s (groups_of a))) ++ str "::" ++
                 join_groups (map hex (drop (s + l) (groups_of a)))).

(** ** The longest run *)

(** The result of [find_run] and the test after it depend on which groups are zero
    only, so they are checked on the 256 patterns. *)
Definition shape (groups : list Z) : list Z := map (fun g => if g =? 0 then 0 else 1) groups.

Lemma lookup_shape groups i :
  shape groups !! i = (fun g => if g =? 0 then 0 else 1) <$> groups !! i.
Proof. apply list_lookup_fmap. Qed.

Lemma zero_end_shape fuel groups j : zero_end fuel (shape groups) j = zero_end fuel groups j.
Proof.
  revert j. induction fuel as [|fuel IH]; intros j; cbn; (destruct (j <? 8); [|done]);
    rewrite lookup_shape; destruct (groups !! Z.to_nat j) as [g|]; cbn; try done;
    destruct (Z.eqb_spec g 0); cbn; auto.
Qed.

Lemma find_run_shape fuel groups i bs bl :
  find_run fuel (shape groups) i bs bl = find_run fuel groups i bs bl.
Proof.
  revert i bs bl. induction fuel as [|fuel IH]; intros i bs bl; cbn [find_run]; (destruct (i <? 8); [|done]);
    [done|]. rewrite lookup_shape. destruct (groups !! Z.to_nat i) as [g|]; cbn [fmap option_fmap option_map mbind option_bind]; [|done].
  destruct (Z.eqb_spec g 0); cbn [negb Z.eqb]; [|apply IH].
  rewrite zero_end_shape. destruct (zero_end 8 groups i) as [j|]; cbn [mbind option_bind]; [|done].
  by destruct (_ >? _).
Qed.

Fixpoint patterns (n : nat) : list (list Z) :=
  match n with O => [[]] | S n => flat_map (fun p => [0 :: p; 1 :: p]) (patterns n) end.

Lemma shape_pattern groups : In (shape groups) (patterns (length groups)).
Proof.
  induction groups as [|g groups IH]; cbn; [by left|]. apply in_flat_map. exists (shape groups).
  split; [done|]. destruct (g =? 0); cbn; auto.
Qed.

(** The run a pattern leads to is the one to shorten. *)
Definition run_ok (p : list Z) : bool :=
  match find_run 8 p 0 (-1) 0 with
  | None => false
  | Some (s, l) =>
    if l <? 2 then none_shortened (map (Z.eqb 0) p)
    else (0 <=? s) && is_shortened (map (Z.eqb 0) p) (Z.to_nat s) (Z.to_nat l)
  end.

Lemma patterns_ok : forallb run_ok (patterns 8) = true.
Proof. vm_compute. reflexivity. Qed.

Lemma shape_zeros groups : map (Z.eqb 0) (shape groups) = map (Z.eqb 0) groups.
Proof.
  unfold shape. rewrite map_map. apply map_ext. intros g. destruct (Z.eqb_spec g 0) as [->|]; [done|].
  destruct (Z.eqb_spec 0 g); [lia|done].
Qed.

Lemma find_run_ok groups :
  length groups = 8%nat ->
  exists s l, find_run 8 groups 0 (-1) 0 = Some (s, l) /\
    if l <? 2 then none_shortened (map (Z.eqb 0) groups) = true
    else 0 <= s /\ is_shortened (map (Z.eqb 0) groups) (Z.to_nat s) (Z.to_nat l) = true.
Proof.
  intros Hl. pose proof (shape_pattern groups) as Hin. rewrite Hl in Hin.
  pose proof patterns_ok as Hok. rewrite forallb_forall in Hok. specialize (Hok _ Hin).
  unfold run_ok in Hok. rewrite find_run_shape, shape_zeros in Hok.
  destruct (find_run 8 groups 0 (-1) 0) as [[s l]|]; [|done]. exists s, l. split; [done|].
  destruct (l <? 2); [done|]. apply andb_true_iff in Hok as [Hs Hok]. split; [by apply Z.leb_le|done].
Qed.

(** ** The printing loop *)

(** The text the loop prints from group [i] on. *)
Fixpoint group_text (fuel : nat) (groups : list Z) (bs bl i : Z) : bytes :=
  match fuel with
  | O => []
  | S fuel =>
    if i <? 8 then
      if i =? bs then str "::" ++ group_text fuel groups bs bl (i + bl)
      else (if (i >? 0) && negb ((bs >=? 0) && (i =? bs + bl)) then colon else []) ++
           hex (default 0 (groups !! Z.to_nat i)) ++ group_text fuel groups bs bl (i + 1)
    else []
  end.

Lemma put_ok tmp (pos : nat) text :
  length tmp = 46%nat -> (pos + length text <= 45)%nat ->
  exists tmp', put tmp (Z.of_nat pos) text = Some (tmp', Z.of_nat (pos + length text)) /\
    length tmp' = 46%nat /\ take (pos + length text) tmp' = take pos tmp ++ text.
Proof.
  intros Hl Hp. unfold put, ADDR_STR_LEN. rewrite size_sub_small by (unfold SIZE_MAX; lia).
  rewrite snprintf_fits by lia. cbn [mbind option_bind].
  eexists. split; [|split].
  - rewrite wrap_small by (unfold is_u; lia). by rewrite Nat2Z.inj_add.
  - rewrite !length_app, length_take. cbn [length]. rewrite length_drop. lia.
  - rewrite app_assoc, take_app_le by (rewrite length_app, length_take; lia).
    apply take_ge. rewrite length_app, length_take. lia.
Qed.

Section Printing.
Context (groups : list Z) (bs bl : Z).
Context (Hlen : length groups = 8%nat) (Hg : Forall (is_u 16) groups).
Context (Hrun : 0 <= bs -> 2 <= bl /\ bs + bl <= 8).

Lemma group_ok i :
  0 <= i < 8 -> exists g, groups !! Z.to_nat i = Some g /\ (1 <= length (hex g) <= 4)%nat.
Proof.
  intros Hi. destruct (lookup_lt_is_Some_2 groups (Z.to_nat i)) as [g E]; [lia|].
  exists g. split; [done|]. apply hex_u16_length. by eapply Forall_lookup_1.
Qed.

(** Five characters a group after the first, which has no colon before it. *)
Lemma group_text_length fuel i :
  0 <= i -> Z.of_nat (length (group_text fuel groups bs bl i)) <= Z.max 0 (5 * (8 - i) - (if i =? 0 then 1 else 0)).
Proof.
  revert i. induction fuel as [|fuel IH]; intros i Hi; cbn [group_text]; [cbn; lia|].
  destruct (Z.ltb_spec i 8); [|cbn; lia]. destruct (Z.eqb_spec i bs) as [E|E].
  - destruct Hrun; [lia|]. rewrite length_app. specialize (IH (i + bl) ltac:(lia)).
    destruct (Z.eqb_spec (i + bl) 0); [lia|]. change (length (str "::")) with 2%nat.
    destruct (i =? 0); lia.
  - destruct (group_ok i) as (g & Eg & Hlg); [lia|]. rewrite Eg. unfold default, from_option, id.
    specialize (IH (i + 1) ltac:(lia)). destruct (Z.eqb_spec (i + 1) 0); [lia|].
    rewrite !length_app. destruct (Z.eqb_spec i 0) as [->|]; [change ((0 >? 0) && _) with false; cbn [length]; lia|].
    destruct (_ && _); change (length colon) with 1%nat; cbn [length]; lia.
Qed.

Lemma print_groups_ok fuel i tmp (pos : nat) :
  0 <= i -> 8 - i <= Z.of_nat fuel -> length tmp = 46%nat ->
  (pos + length (group_text fuel groups bs bl i) <= 45)%nat ->
  exists tmp', print_groups fuel groups bs bl i tmp (Z.of_nat pos) =
      Some (tmp', Z.of_nat (pos + length (group_text fuel groups bs bl i))) /\
    length tmp' = 46%nat /\
    take (pos + length (group_text fuel groups bs bl i)) tmp' =
    take pos tmp ++ group_text fuel groups bs bl i.
Proof.
  revert i tmp pos. induction fuel as [|fuel IH]; intros i tmp pos Hi Hf Ht Hp.
  { cbn [print_groups group_text length] in *. destruct (Z.ltb_spec i 8); [lia|].
    exists tmp. rewrite Nat.add_0_r, app_nil_r. done. }
  cbn [print_groups group_text] in *. destruct (Z.ltb_spec i 8).
  2:{ exists tmp. cbn [length]. rewrite Nat.add_0_r, app_nil_r. done. }
  destruct (Z.eqb_spec i bs) as [E|E].
  - destruct Hrun; [lia|]. rewrite length_app in Hp.
    destruct (put_ok tmp pos (str "::")) as (t1 & -> & Ht1 & Hk1); [done|lia|].
    cbn [mbind option_bind]. replace (i + (bl - 1) + 1) with (i + bl) by lia.
    destruct (IH (i + bl) t1 (pos + length (str "::"))%nat) as (t2 & -> & Ht2 & Hk2); [lia|lia|done|lia|].
    exists t2. rewrite length_app, Nat.add_assoc. split; [done|]. split; [done|].
    by rewrite Hk2, Hk1, app_assoc.
  - destruct (group_ok i) as (g & Eg & Hlg); [lia|]. rewrite Eg in Hp |- *. unfold default, from_option, id in *.
    set (sep := if _ : bool then colon else []) in *.
    rewrite !length_app in Hp.
    assert (Hsep : exists t1, (if (i >? 0) && negb ((bs >=? 0) && (i =? bs + bl))
        then put tmp (Z.of_nat pos) colon else Some (tmp, Z.of_nat pos)) =
        Some (t1, Z.of_nat (pos + length sep)) /\ length t1 = 46%nat /\
        take (pos + length sep) t1 = take pos tmp ++ sep).
    { subst sep. destruct (_ && _).
      - apply put_ok; [done|lia].
      - exists tmp. cbn [length]. rewrite Nat.add_0_r, app_nil_r. done. }
    destruct Hsep as (t1 & -> & Ht1 & Hk1). cbn [mbind option_bind].
    destruct (put_ok t1 (pos + length sep) (hex g)) as (t2 & -> & Ht2 & Hk2); [done|lia|].
    cbn [mbind option_bind].
    destruct (IH (i + 1) t2 (pos + length sep + length (hex g))%nat) as (t3 & -> & Ht3 & Hk3);
      [lia|lia|done|lia|].
    exists t3. rewrite !length_app, !Nat.add_assoc. split; [done|]. split; [done|].
    by rewrite Hk3, Hk2, Hk1, <- !app_assoc.
Qed.
End Printing.

Lemma group_text_full groups bl :
  length groups = 8%nat -> group_text 8 groups (-1) bl 0 = join_groups (map hex groups).
Proof.
  intros Hl. do 8 (destruct groups as [|? groups]; [discriminate|]). destruct groups; [|discriminate].
  cbn -[hex]. by rewrite ?app_nil_r.
Qed.

Lemma group_text_short groups (s l : nat) :
  length groups = 8%nat -> (2 <= l)%nat -> (s + l <= 8)%nat ->
  group_text 8 groups (Z.of_nat s) (Z.of_nat l) 0 =
  join_groups (map hex (take s groups)) ++ str "::" ++ join_groups (map hex (drop (s + l) groups)).
Proof.
  intros Hl H2 H8. do 8 (destruct groups as [|? groups]; [discriminate|]). destruct groups; [|discriminate].
  do 7 (destruct s as [|s]; [do 9 (destruct l as [|l];
    [first [exfalso; lia | cbv -[hex app]; rewrite <- ?app_assoc; cbn [app]; by rewrite ?app_nil_r]|]); exfalso; lia|]).
  exfalso; lia.
Qed.

(** ** The address *)
Lemma length_groups_of a n : length a = (2 * n)%nat -> length (groups_of a) = n.
Proof.
  revert a. induction n as [|n IH]; intros a Ha.
  - by destruct a.
  - destruct a as [|? [|? a]]; cbn in *; try lia. rewrite IH; lia.
Qed.

Lemma groups_of_u16 a n : length a = (2 * n)%nat -> Forall is_byte a -> Forall (is_u 16) (groups_of a).
Proof.
  revert a. induction n as [|n IH]; intros a Ha Hb.
  - destruct a; [constructor|discriminate].
  - destruct a as [|? [|? a]]; cbn in *; try lia. inversion_clear Hb as [|?? H0 Hb']. inversion_clear Hb' as [|?? H1 Hb].
    constructor; [by apply be16_is_u|]. apply IH; [lia|done].
Qed.

Lemma load_groups_of a :
  length a = 16%nat -> Forall is_byte a -> load_groups a 0 8 = Some (groups_of a).
Proof.
  intros Ha Hb. do 16 (destruct a as [|? a]; [discriminate|]). destruct a; [|discriminate].
  repeat match goal with H : Forall _ (_ :: _) |- _ => inversion_clear H end.
  cbn [load_groups].
  repeat (erewrite load_be16_bytes; [|reflexivity|reflexivity|done|done]; cbn [mbind option_bind]).
  done.
Qed.

Lemma is_v4_mapped_ok a :
  length a = 16%nat ->
  is_v4_mapped a = Some (bool_decide (take 12 a = mapped_prefix)).
Proof.
  intros Ha. do 16 (destruct a as [|? a]; [discriminate|]). destruct a; [|discriminate].
  unfold mapped_prefix. cbn [take app replicate]. match goal with |- _ = ?r => set (R := r) end.
  cbv -[Z.eqb negb R]. subst R.
  repeat (match goal with |- context [?z =? ?k] => destruct (Z.eqb_spec z k) as [->|] end; cbn [negb];
    [|rewrite bool_decide_false; [done|congruence]]).
  by rewrite bool_decide_true.
Qed.

Lemma mapped_split a :
  length a = 16%nat -> take 12 a = mapped_prefix ->
  exists b12 b13 b14 b15, a = mapped_prefix ++ [b12; b13; b14; b15] /\
    byte_at a 12 = Some b12 /\ byte_at a 13 = Some b13 /\ byte_at a 14 = Some b14 /\ byte_at a 15 = Some b15.
Proof.
  intros Ha Hm. rewrite <- (take_drop 12 a), Hm. pose proof (length_drop a 12) as Hd. rewrite Ha in Hd.
  destruct (drop 12 a) as [|b12 [|b13 [|b14 [|b15 [|]]]]]; try discriminate Hd.
  exists b12, b13, b14, b15. done.
Qed.

(** ** Characters *)
Lemma no_nul_quad b0 b1 b2 b3 : no_nul (quad b0 b1 b2 b3).
Proof. unfold quad. repeat first [apply no_nul_app | apply no_nul_dec | by repeat constructor]. Qed.

Lemma no_nul_group_text fuel groups bs bl i : no_nul (group_text fuel groups bs bl i).
Proof.
  revert i. induction fuel as [|fuel IH]; intros i; cbn [group_text]; [constructor|].
  destruct (_ <? _); [|constructor]. destruct (_ =? _).
  - apply no_nul_app; [by repeat constructor|apply IH].
  - apply no_nul_app; [by destruct (_ && _); repeat constructor|]. apply no_nul_app; [apply no_nul_hex|apply IH].
Qed.

Lemma length_quad b0 b1 b2 b3 :
  is_byte b0 -> is_byte b1 -> is_byte b2 -> is_byte b3 -> (7 <= length (quad b0 b1 b2 b3) <= 15)%nat.
Proof.
  intros H0 H1 H2 H3. unfold quad. rewrite !length_app. change (length (str ".")) with 1%nat.
  pose proof (dec_byte_length b0 H0). pose proof (dec_byte_length b1 H1).
  pose proof (dec_byte_length b2 H2). pose proof (dec_byte_length b3 H3). lia.
Qed.

(** ** [format_ipv6] *)
Lemma short_run_end zs s l : length zs = 8%nat -> is_shortened zs s l = true -> (2 <= l)%nat /\ (s + l <= 8)%nat.
Proof.
  intros Hz. unfold is_shortened, zero_run. rewrite Hz, !andb_true_iff, !Nat.leb_le. lia.
Qed.

(** The text of an address, as a function. *)
Definition octet (a : bytes) (i : nat) : Z := default 0 (a !! i).
Definition ipv6_str (a : bytes) : bytes :=
  if bool_decide (take 12 a = mapped_prefix)
  then str "::ffff:" ++ quad (octet a 12) (octet a 13) (octet a 14) (octet a 15)
  else match find_run 8 (groups_of a) 0 (-1) 0 with
       | Some (s, l) => group_text 8 (groups_of a) (if l <? 2 then -1 else s) l 0
       | None => []
       end.
Definition addr_str (ip_version : Z) (a : bytes) : bytes :=
  if ip_version =? 4 then quad (octet a 0) (octet a 1) (octet a 2) (octet a 3)
  else if ip_version =? 6 then ipv6_str a else str "?".

Section Format.
Context (a : bytes) (Ha : length a = 16%nat) (Hb : Forall is_byte a).

Lemma octet_byte i : (i < 16)%nat -> byte_at a (Z.of_nat i) = Some (octet a i) /\ is_byte (octet a i).
Proof.
  intros Hi. destruct (byte_at_Some a (Z.of_nat i)) as (b & E & H); [lia|done|].
  rewrite E. unfold byte_at in E. rewrite decide_True, Nat2Z.id in E by lia. unfold octet. by rewrite E.
Qed.

Lemma byte_at_octet z i : (i < 16)%nat -> z = Z.of_nat i -> byte_at a z = Some (octet a i).
Proof. intros Hi ->. by apply octet_byte. Qed.

Lemma octet_is_byte i : is_byte (octet a i).
Proof.
  unfold octet. destruct (a !! i) eqn:E; [by eapply Forall_lookup_1|]. cbn. unfold is_u. lia.
Qed.

Lemma octets_length i j k l :
  (length (quad (octet a i) (octet a j) (octet a k) (octet a l)) <= 15)%nat.
Proof. apply length_quad; apply octet_is_byte. Qed.

(** The run found, and what the loop prints with it. *)
Lemma best_run :
  exists s l, find_run 8 (groups_of a) 0 (-1) 0 = Some (s, l) /\
    let bs := if l <? 2 then -1 else s in
    (0 <= bs -> 2 <= l /\ bs + l <= 8) /\
    (take 12 a <> mapped_prefix -> ipv6_text a (group_text 8 (groups_of a) bs l 0)).
Proof.
  pose proof (length_groups_of a 8 Ha) as Hg. destruct (find_run_ok (groups_of a) Hg) as (s & l & E & Hrun).
  exists s, l. split; [done|]. cbv zeta. destruct (Z.ltb_spec l 2).
  - split; [lia|]. intros Hm. rewrite group_text_full by done. by constructor.
  - destruct Hrun as [Hs Hrun]. pose proof Hrun as Hr. apply short_run_end in Hr; [|by rewrite length_map].
    split; [lia|]. intros Hm.
    destruct (Z_of_nat_complete s) as [s' ->]; [lia|]. destruct (Z_of_nat_complete l) as [l' ->]; [lia|].
    rewrite !Nat2Z.id in *. rewrite group_text_short by lia. by apply text_short.
Qed.

Lemma ipv6_str_ok : ipv6_text a (ipv6_str a) /\ no_nul (ipv6_str a) /\ (length (ipv6_str a) <= 39)%nat.
Proof.
  unfold ipv6_str. destruct (bool_decide_reflect (take 12 a = mapped_prefix)) as [Hm|Hm].
  - destruct (mapped_split a Ha Hm) as (b12 & b13 & b14 & b15 & Ea & _).
    split; [rewrite Ea; by constructor|].
    split; [apply no_nul_app; [by repeat constructor|apply no_nul_quad]|].
    rewrite length_app. change (length (str "::ffff:")) with 7%nat.
    pose proof (octets_length 12 13 14 15). lia.
  - destruct best_run as (s & l & -> & Hbs & Ht). split; [by apply Ht|]. split; [apply no_nul_group_text|].
    pose proof (group_text_length (groups_of a) _ l (length_groups_of a 8 Ha) (groups_of_u16 a 8 Ha Hb)
      Hbs 8 0 ltac:(lia)) as Hlen.
    cbn [Z.eqb] in Hlen. lia.
Qed.

Lemma format_ipv6_ok buf len tmp0 :
  length tmp0 = 46%nat -> 0 < len <= Z.of_nat (length buf) ->
  format_ipv6 a buf len tmp0 = Some (printed buf len (ipv6_str a)).
Proof.
  intros Ht Hl. unfold format_ipv6, ipv6_str. rewrite is_v4_mapped_ok by done. cbn [mbind option_bind].
  destruct (bool_decide_reflect (take 12 a = mapped_prefix)) as [Hm|Hm].
  - rewrite (byte_at_octet 12 12), (byte_at_octet 13 13), (byte_at_octet 14 14), (byte_at_octet 15 15) by lia.
    cbn [mbind option_bind]. by rewrite snprintf_start.
  - rewrite load_groups_of by done. cbn [mbind option_bind].
    pose proof (length_groups_of a 8 Ha) as Hg. pose proof (groups_of_u16 a 8 Ha Hb) as Hu.
    destruct best_run as (s & l & -> & Hbs & _). cbn [mbind option_bind].
    set (bs := if l <? 2 then -1 else s) in *.
    pose proof (group_text_length (groups_of a) bs l Hg Hu Hbs 8 0 ltac:(lia)) as Hlen. cbn [Z.eqb] in Hlen.
    destruct (print_groups_ok (groups_of a) bs l Hg Hu Hbs 8 0 tmp0 0) as (t1 & Ep & Ht1 & Hk);
      [lia|lia|done|lia|]. change (Z.of_nat 0) with 0 in Ep. rewrite Ep. cbn [mbind option_bind].
    rewrite Nat2Z.id. unfold write_at. rewrite decide_True by (cbn [length]; lia).
    cbn [mbind option_bind app]. rewrite Nat.add_0_l in *. rewrite take_0 in Hk. rewrite Hk. cbn [app].
    rewrite c_str_app by apply no_nul_group_text. cbn [mbind option_bind]. by rewrite snprintf_start.
Qed.

Lemma addr_format_ok ip_version buf len tmp0 :
  length tmp0 = 46%nat -> 0 <= len <= Z.of_nat (length buf) ->
  addr_format ip_version a buf len tmp0 =
  Some (if len =? 0 then buf else printed buf len (addr_str ip_version a)).
Proof.
  intros Ht Hl. unfold addr_format, addr_str. destruct (Z.eqb_spec len 0); [done|].
  destruct (ip_version =? 4); [|destruct (ip_version =? 6)].
  - rewrite (byte_at_octet 0 0), (byte_at_octet 1 1), (byte_at_octet 2 2), (byte_at_octet 3 3) by lia.
    cbn [mbind option_bind]. by rewrite snprintf_start by lia.
  - apply format_ipv6_ok; [done|lia].
  - by rewrite snprintf_start by lia.
Qed.

Lemma addr_str_no_nul ip_version : no_nul (addr_str ip_version a).
Proof.
  unfold addr_str. destruct (_ =? _); [apply no_nul_quad|].
  destruct (_ =? _); [apply ipv6_str_ok|by repeat constructor].
Qed.

Lemma addr_str_length ip_version : (length (addr_str ip_version a) <= 39)%nat.
Proof.
  unfold addr_str. destruct (_ =? _).
  - pose proof (octets_length 0 1 2 3). lia.
  - destruct (_ =? _); [apply ipv6_str_ok|cbn; lia].
Qed.
End Format.

(** ** [addr_format] *)

(** The text of an address: a dotted quad, RFC 5952 text, or ["?"]. *)
Inductive addr_text (ip_version : Z) (addr : bytes) : bytes -> Prop :=
| text_v4 b0 b1 b2 b3 rest :
    ip_version = 4 -> addr = b0 :: b1 :: b2 :: b3 :: rest -> addr_text ip_version addr (quad b0 b1 b2 b3)
| text_v6 text : ip_version = 6 -> ipv6_text addr text -> addr_text ip_version addr text
| text_other : ip_version <> 4 -> ip_version <> 6 -> addr_text ip_version addr (str "?").

(** C19. [addr_format] writes the text of the address - the dotted quad of an IPv4
    address, the RFC 5952 text of an IPv6 address (the longest run of two or more
    zero groups, the first on a tie, becomes ["::"]; an IPv4-mapped address shows
    its quad), ["?"] for any other version; at most 39 characters, so that a buffer
    of [ADDR_STR_LEN] takes it whole - cut to [len - 1] characters and terminated,
    whatever [tmp] held before; with [len = 0] it writes nothing. No access leaves
    the address, [tmp] or [buf]. *)
Theorem addr_format_text ip_version addr buf len tmp0 :
  length addr = 16%nat -> Forall is_byte addr -> length tmp0 = 46%nat ->
  0 <= len <= Z.of_nat (length buf) ->
  exists text, addr_text ip_version addr text /\ no_nul text /\ (length text <= 39)%nat /\
    addr_format ip_version addr buf len tmp0 =
    Some (if len =? 0 then buf else printed buf len text).
Proof.
  intros Ha Hb Ht Hl. exists (addr_str ip_version addr).
  split; [|split; [by apply addr_str_no_nul|split; [by apply addr_str_length|by apply addr_format_ok]]].
  unfold addr_str. destruct (Z.eqb_spec ip_version 4); [|destruct (Z.eqb_spec ip_version 6)].
  - do 4 (destruct addr as [|? addr]; [discriminate|]). by eapply text_v4.
  - apply text_v6; [done|]. by apply ipv6_str_ok.
  - by apply text_other.
Qed.
