(* ===== verification/AddrText.v ===== *)
(** Reading an address back from its text: the text of [addr_format] determines
    the address. *)
From Stdlib Require Import String.
From S2P Require Export Addr.
From stdpp Require Export list sets.
#[global] Open Scope Z_scope.

(** ** The reader *)
Definition nonempty (f : bytes) : bool := negb (bool_decide (f = [])).

Definition bytes_of (groups : list Z) : bytes := flat_map (fun g => [g / 256; g mod 256]) groups.

(** The fields between colons; empty ones stand for the groups left out. *)
Definition read_groups (fields : list bytes) : list Z :=
  let pre := take_while nonempty fields in
  let post := drop_while (fun f => negb (nonempty f)) (drop_while nonempty fields) in
  map (value 16) pre ++ replicate (8 - length pre - length post) 0 ++ map (value 16) post.

Definition read_ipv6 (text : bytes) : bytes :=
  let fields := split_on 58 text in
  if bool_decide (46 ∈ text)
  then mapped_prefix ++ map (value 10) (split_on 46 (default [] (last fields)))
  else bytes_of (read_groups fields).

Definition read_ipv4 (text : bytes) : bytes := map (value 10) (split_on 46 text).

(** ** Lemmas *)
Lemma bytes_of_groups a n : length a = (2 * n)%nat -> Forall is_byte a -> bytes_of (groups_of a) = a.
Proof.
  revert a. induction n as [|n IH]; intros a Ha Hb; [by destruct a|].
  destruct a as [|b0 [|b1 a]]; cbn in Ha; try lia. apply Forall_cons in Hb as [H0 Hb].
  apply Forall_cons in Hb as [H1 Hb]. cbn. fold (bytes_of (groups_of a)). rewrite IH by (done || lia).
  unfold be16, is_u in *. f_equal; [|f_equal]; Z.to_euclidean_division_equations; lia.
Qed.

Lemma hex_nonempty groups : Forall (is_u 16) groups -> Forall (fun f => nonempty f = true) (map hex groups).
Proof.
  intros H. apply Forall_map. eapply Forall_impl; [exact H|]. intros g Hg.
  pose proof (hex_u16_length g Hg). unfold nonempty. destruct (hex g); [cbn in *; lia|done].
Qed.

Lemma hex_values groups : Forall (is_u 16) groups -> map (value 16) (map hex groups) = groups.
Proof.
  intros H. induction H as [|g groups Hg _ IH]; [done|]. cbn [map].
  rewrite IH, hex_value; [done|]. by apply (is_u_weaken 16).
Qed.

(** The fields of the text that leaves the groups [s] to [s + l - 1] out. *)
Definition short_fields (groups : list Z) (s l : nat) : list bytes :=
  map hex (take s groups) ++
  replicate (1 + (if bool_decide (s = 0)%nat then 1 else 0) +
                 (if bool_decide (s + l = 8)%nat then 1 else 0)) [] ++
  map hex (drop (s + l) groups).

Lemma short_text_fields groups s l :
  length groups = 8%nat -> (2 <= l)%nat -> (s + l <= 8)%nat ->
  join_groups (map hex (take s groups)) ++ str "::" ++ join_groups (map hex (drop (s + l) groups)) =
  join_on 58 (short_fields groups s l).
Proof.
  intros Hl H2 H8. do 8 (destruct groups as [|? groups]; [discriminate|]). destruct groups; [|discriminate].
  do 7 (destruct s as [|s]; [do 9 (destruct l as [|l];
    [first [exfalso; lia | cbv -[hex app]; rewrite <- ?app_assoc; cbn [app]; by rewrite ?app_nil_r]|]); exfalso; lia|]).
  exfalso; lia.
Qed.

Lemma not_digit_colon : ~ is_digit 58. Proof. unfold is_digit. lia. Qed.
Lemma not_digit_dot : ~ is_digit 46. Proof. unfold is_digit. lia. Qed.

Lemma hex_no_colon groups : Forall (fun p => 58 ∉ p) (map hex groups).
Proof.
  apply Forall_map, Forall_forall. intros g _. apply digits_not_elem; [apply hex_chars|apply not_digit_colon].
Qed.

Lemma split_short groups s l : split_on 58 (join_on 58 (short_fields groups s l)) = short_fields groups s l.
Proof.
  apply split_join.
  - unfold short_fields. destruct (map hex (take s groups)); cbn; discriminate.
  - unfold short_fields. apply Forall_app. split; [apply hex_no_colon|]. apply Forall_app.
    split; [|apply hex_no_colon]. apply Forall_replicate. apply not_elem_of_nil.
Qed.

Lemma read_short groups s l :
  length groups = 8%nat -> Forall (is_u 16) groups -> (s + l <= 8)%nat ->
  read_groups (short_fields groups s l) = take s groups ++ replicate l 0 ++ drop (s + l) groups.
Proof.
  intros Hl Hu H8. unfold read_groups, short_fields.
  pose proof (hex_nonempty _ (Forall_take _ s _ Hu)) as Ht.
  pose proof (hex_nonempty _ (Forall_drop _ (s + l) _ Hu)) as Hd.
  rewrite take_while_app, drop_while_app by done.
  match goal with |- context [replicate (1 + ?a + ?b) _] => change (1 + a + b)%nat with (S (a + b)) end.
  cbn [replicate app take_while drop_while nonempty negb bool_decide].
  do 2 (change (nonempty []) with false; cbn [take_while drop_while negb]). rewrite app_nil_r.
  rewrite drop_while_app by (by apply Forall_replicate).
  assert (E : drop_while (fun f => negb (nonempty f)) (map hex (drop (s + l) groups)) = map hex (drop (s + l) groups)).
  { destruct Hd as [|f fs Hf _]; [done|]. cbn. by rewrite Hf. }
  rewrite E, !hex_values by (by apply Forall_take || by apply Forall_drop).
  rewrite !length_map, length_take, length_drop. do 3 f_equal. lia.
Qed.

Lemma run_zeros groups s l :
  zero_run (map (Z.eqb 0) groups) s l = true ->
  groups = take s groups ++ replicate l 0 ++ drop (s + l) groups.
Proof.
  unfold zero_run. rewrite andb_true_iff, Nat.leb_le, length_map. intros [Hl Hz].
  rewrite <- (take_drop s groups) at 1. f_equal.
  rewrite <- (take_drop l (drop s groups)) at 1. rewrite drop_drop. f_equal.
  rewrite skipn_map, firstn_map in Hz.
  assert (Hlen : length (take l (drop s groups)) = l) by (rewrite length_take, length_drop; lia).
  revert Hz Hlen. generalize (take l (drop s groups)). intros gs. revert l Hl.
  induction gs as [|g gs IH]; intros l Hl Hz Hlen; cbn in *; subst l; [done|].
  apply andb_true_iff in Hz as [Hg Hz]. destruct g; try discriminate Hg. cbn. f_equal. apply IH; [lia|done|done].
Qed.

(** ** Text without dots, and with *)
Lemma join_no_dot groups : 46 ∉ join_groups (map hex groups).
Proof.
  assert (Hh : forall g, 46 ∉ hex g) by (intros g; apply digits_not_elem; [apply hex_chars|apply not_digit_dot]).
  unfold join_groups. destruct groups as [|g groups]; cbn; [apply not_elem_of_nil|]. rewrite elem_of_app.
  intros [H|H]; [by apply (Hh g)|]. revert H. induction groups as [|g' groups IH]; cbn; [apply not_elem_of_nil|].
  rewrite elem_of_cons, elem_of_app. intros [H|[H|H]]; [done|by apply (Hh g')|done].
Qed.

Lemma split_quad b0 b1 b2 b3 : split_on 46 (quad b0 b1 b2 b3) = [dec b0; dec b1; dec b2; dec b3].
Proof.
  change (quad b0 b1 b2 b3) with (dec b0 ++ 46 :: dec b1 ++ 46 :: dec b2 ++ 46 :: dec b3).
  rewrite !split_on_app, split_on_end; [done|..]; apply digits_not_elem; first [apply dec_chars|apply not_digit_dot].
Qed.

Lemma quad_values b0 b1 b2 b3 :
  is_byte b0 -> is_byte b1 -> is_byte b2 -> is_byte b3 -> read_ipv4 (quad b0 b1 b2 b3) = [b0; b1; b2; b3].
Proof.
  intros. unfold read_ipv4. rewrite split_quad. cbn [map].
  rewrite !dec_value by (by apply (is_u_weaken 8)). done.
Qed.

Lemma quad_no_colon b0 b1 b2 b3 : 58 ∉ quad b0 b1 b2 b3.
Proof.
  unfold quad. rewrite !elem_of_app. change (str ".") with [46]. rewrite list_elem_of_singleton.
  assert (H : forall b, 58 ∉ dec b) by (intros b; apply digits_not_elem; [apply dec_chars|apply not_digit_colon]).
  naive_solver.
Qed.

(** ** The round trip *)
Lemma read_ipv6_mapped b12 b13 b14 b15 :
  is_byte b12 -> is_byte b13 -> is_byte b14 -> is_byte b15 ->
  read_ipv6 (str "::ffff:" ++ quad b12 b13 b14 b15) = mapped_prefix ++ [b12; b13; b14; b15].
Proof.
  intros H0 H1 H2 H3. unfold read_ipv6. rewrite bool_decide_true.
  2:{ apply elem_of_app. right. unfold quad. rewrite !elem_of_app. change (str ".") with [46].
      rewrite list_elem_of_singleton. auto. }
  change (str "::ffff:" ++ quad b12 b13 b14 b15) with
    ([] ++ 58 :: [] ++ 58 :: str "ffff" ++ 58 :: quad b12 b13 b14 b15).
  rewrite !split_on_app by (rewrite ?elem_of_cons; set_solver).
  rewrite (split_on_end 58) by apply quad_no_colon. cbn [last default].
  f_equal. by apply quad_values.
Qed.

Lemma read_ipv6_groups a groups s l :
  length a = 16%nat -> Forall is_byte a -> groups = groups_of a ->
  (2 <= l)%nat -> (s + l <= 8)%nat -> zero_run (map (Z.eqb 0) groups) s l = true ->
  read_ipv6 (join_groups (map hex (take s groups)) ++ str "::" ++
             join_groups (map hex (drop (s + l) groups))) = a.
Proof.
  intros Ha Hb -> H2 H8 Hz. unfold read_ipv6. rewrite bool_decide_false.
  2:{ rewrite !elem_of_app. change (str "::") with [58; 58].
      intros [H|[H|H]]; [by apply join_no_dot in H|set_solver|by apply join_no_dot in H]. }
  rewrite short_text_fields by (by try apply length_groups_of). rewrite split_short, read_short by
    (first [done | by apply length_groups_of | by apply (groups_of_u16 a 8)]).
  rewrite <- run_zeros by done. by apply (bytes_of_groups a 8).
Qed.

Lemma read_ipv6_full a :
  length a = 16%nat -> Forall is_byte a -> read_ipv6 (join_groups (map hex (groups_of a))) = a.
Proof.
  intros Ha Hb. unfold read_ipv6. rewrite bool_decide_false by apply join_no_dot.
  pose proof (length_groups_of a 8 Ha) as Hl. pose proof (groups_of_u16 a 8 Ha Hb) as Hu.
  unfold join_groups. rewrite split_join.
  2:{ by destruct (groups_of a). } 2: apply hex_no_colon.
  unfold read_groups. pose proof (hex_nonempty _ Hu) as Hn.
  rewrite <- (app_nil_r (map hex (groups_of a))), take_while_app, drop_while_app by done.
  cbn [take_while drop_while]. rewrite app_nil_r, hex_values, length_map, Hl by done.
  cbn. rewrite app_nil_r. by apply (bytes_of_groups a 8).
Qed.

Lemma read_ipv6_str a : length a = 16%nat -> Forall is_byte a -> read_ipv6 (ipv6_str a) = a.
Proof.
  intros Ha Hb. destruct (ipv6_str_ok a Ha Hb) as [H _]. destruct H as [b12 b13 b14 b15 Ea|Hm Hz|s l Hm Hz].
  - rewrite Ea. rewrite Ea in Hb. apply Forall_app in Hb as [_ Hb].
    repeat match goal with H : Forall _ (_ :: _) |- _ => inversion_clear H end. by apply read_ipv6_mapped.
  - by apply read_ipv6_full.
  - pose proof Hz as Hr. apply short_run_end in Hr as [H2 H8]; [|by rewrite length_map; apply length_groups_of].
    apply read_ipv6_groups; try done. unfold is_shortened in Hz. by rewrite !andb_true_iff in Hz; destruct Hz as [[? _] _].
Qed.

(** ** One text per address *)
Lemma zero_run_shorter zs s l l' : (l' <= l)%nat -> zero_run zs s l = true -> zero_run zs s l' = true.
Proof.
  unfold zero_run. rewrite !andb_true_iff, !Nat.leb_le. intros Hl [H1 H2]. split; [lia|].
  rewrite !forallb_forall in *. intros x Hx. apply H2. apply list_elem_of_In in Hx. apply list_elem_of_In.
  replace (take l' (drop s zs)) with (take l' (take l (drop s zs))) in Hx by (rewrite take_take; f_equal; lia).
  by eapply subseteq_take.
Qed.

Lemma shortened_unique zs s l s' l' :
  length zs = 8%nat -> is_shortened zs s l = true -> is_shortened zs s' l' = true -> s = s' /\ l = l'.
Proof.
  intros Hz H H'. destruct (short_run_end _ _ _ Hz H), (short_run_end _ _ _ Hz H').
  unfold is_shortened in H, H'. rewrite !andb_true_iff, !forallb_forall in H, H'.
  destruct H as [[R _] M], H' as [[R' _] M'].
  assert (Hin : forall n, (n <= 8)%nat -> In n (seq 0 9)) by (intros n Hn; apply in_seq; lia).
  pose proof (M s' (Hin s' ltac:(lia))) as N. rewrite forallb_forall in N. specialize (N l' (Hin l' ltac:(lia))).
  pose proof (M' s (Hin s ltac:(lia))) as N'. rewrite forallb_forall in N'. specialize (N' l (Hin l ltac:(lia))).
  rewrite R' in N. rewrite R in N'. cbn [implb] in N, N'.
  rewrite orb_true_iff, andb_true_iff, Nat.ltb_lt, Nat.eqb_eq, Nat.leb_le in N, N'. lia.
Qed.

Lemma none_or_shortened zs s l : length zs = 8%nat -> none_shortened zs = true -> is_shortened zs s l = true -> False.
Proof.
  intros Hz Hn H. destruct (short_run_end _ _ _ Hz H). unfold is_shortened in H. rewrite !andb_true_iff in H.
  destruct H as [[R _] _]. unfold none_shortened in Hn. rewrite forallb_forall in Hn.
  specialize (Hn s ltac:(apply in_seq; lia)). by rewrite (zero_run_shorter zs s l 2) in Hn.
Qed.

Lemma ipv6_text_unique a t1 t2 :
  length a = 16%nat -> ipv6_text a t1 -> ipv6_text a t2 -> t1 = t2.
Proof.
  intros Ha H1 H2.
  assert (Hz : length (map (Z.eqb 0) (groups_of a)) = 8%nat) by (rewrite length_map; by apply length_groups_of).
  assert (Hm : forall b12 b13 b14 b15, a = mapped_prefix ++ [b12; b13; b14; b15] -> take 12 a = mapped_prefix)
    by (by intros ? ? ? ? ->).
  destruct H1 as [b12 b13 b14 b15 E1|N1 Z1|s1 l1 N1 Z1], H2 as [c12 c13 c14 c15 E2|N2 Z2|s2 l2 N2 Z2]; try done.
  - rewrite E1 in E2. apply app_inv_head in E2. by injection E2 as <- <- <- <-.
  - by destruct N2; eapply Hm.
  - by destruct N2; eapply Hm.
  - by destruct N1; eapply Hm.
  - by destruct (none_or_shortened _ _ _ Hz Z1 Z2).
  - by destruct N1; eapply Hm.
  - by destruct (none_or_shortened _ _ _ Hz Z2 Z1).
  - by destruct (shortened_unique _ _ _ _ _ Hz Z1 Z2) as [-> ->].
Qed.

(** C20. The text of an address determines it: the quad of an IPv4 address reads
    back to its four bytes, and the RFC 5952 text of an IPv6 address to its
    sixteen, wherever the zero groups were left out. *)
Theorem addr_text_roundtrip addr buf tmp0 :
  length addr = 16%nat -> Forall is_byte addr -> length tmp0 = 46%nat ->
  length buf = Z.to_nat ADDR_STR_LEN ->
  (exists buf4 text4, addr_format 4 addr buf ADDR_STR_LEN tmp0 = Some buf4 /\
     c_str buf4 = Some text4 /\ read_ipv4 text4 = take 4 addr) /\
  (exists buf6 text6, addr_format 6 addr buf ADDR_STR_LEN tmp0 = Some buf6 /\
     c_str buf6 = Some text6 /\ read_ipv6 text6 = addr).
Proof.
  intros Ha Hb Ht Hbuf.
  assert (Hf : forall v, addr_format v addr buf ADDR_STR_LEN tmp0 =
    Some (printed buf ADDR_STR_LEN (addr_str v addr))).
  { intros v. rewrite addr_format_ok; [done|done|done|done|]. rewrite Hbuf. done. }
  assert (Hc : forall v, c_str (printed buf ADDR_STR_LEN (addr_str v addr)) = Some (addr_str v addr)).
  { intros v. rewrite c_str_printed by (by apply addr_str_no_nul).
    f_equal. apply take_ge. pose proof (addr_str_length addr Ha Hb v). unfold ADDR_STR_LEN. lia. }
  split; (eexists _, _; split; [apply Hf|]; split; [apply Hc|]).
  - change (addr_str 4 addr) with (quad (octet addr 0) (octet addr 1) (octet addr 2) (octet addr 3)).
    rewrite quad_values by (by apply octet_is_byte).
    by do 4 (destruct addr as [|? addr]; [discriminate|]).
  - change (addr_str 6 addr) with (ipv6_str addr). by apply read_ipv6_str.
Qed.
