(* ===== verification/Report.v ===== *)
(** The summary, the top-N tables and the CSV export (src/report.h,
    src/report.c).  Definitions only; [ReportProps] holds the theorems.

    [None] is undefined behaviour: an access outside an array, or a conversion of
    an unterminated string.  [junk n] is the indeterminate contents of an
    uninitialised array of [n] characters. *)
From Stdlib Require Import String SpecFloat.
From S2P Require Export Stdio Addr Flow Stats Reader.
From stdpp Require Export list.
#[global] Open Scope Z_scope.

Definition NS_PER_SEC := 1000000000.
Definition ENDPOINT_STR_LEN := ADDR_STR_LEN + 8.

(** [proto_name]: the string it returns, a literal or the one it formats in [buf]. *)
Definition proto_name (proto : Z) (buf : bytes) (len : Z) : option bytes :=
  if proto =? IPPROTO_NUM_TCP then Some (str "TCP")
  else if proto =? IPPROTO_NUM_UDP then Some (str "UDP")
  else if proto =? IPPROTO_NUM_ICMP then Some (str "ICMP")
  else if proto =? IPPROTO_NUM_ICMPV6 then Some (str "ICMPv6")
  else '(_, buf) ← snprintf buf 0 len (dec proto); c_str buf.

Definition letters : bytes := str "FSRPAUEC".

(** The loop over the bits of [flags]: [out] and [n] after it. *)
Fixpoint flag_letters (k : nat) (bit flags : Z) (out : bytes) (n : nat) : option (bytes * nat) :=
  match k with
  | O => Some (out, n)
  | S k =>
    if negb (Z.land flags (u32 (Z.shiftl 1 bit)) =? 0) then
      l ← letters !! Z.to_nat bit;
      out ← write_at out n [l];
      flag_letters k (bit + 1) flags out (S n)
    else flag_letters k (bit + 1) flags out n
  end.

Definition format_tcp_flags (flags : Z) (out : bytes) : option bytes :=
  '(out, n) ← flag_letters 8 0 flags out 0;
  write_at out n [0].

Definition has_ports (proto : Z) : bool := (proto =? IPPROTO_NUM_TCP) || (proto =? IPPROTO_NUM_UDP).

Definition pct (part whole : Z) : spec_float :=
  if negb (whole =? 0) then double_div (double_mul (double_of 100) (double_of part)) (double_of whole)
  else S754_zero false.

(** [%u.%09u s], [%u.%06u] and [%u.%03u] of a time or a duration in nanoseconds. *)
Definition ns_text (t : Z) : bytes := dec (t / NS_PER_SEC) ++ str "." ++ zero_pad 9 (dec (u32 (t mod NS_PER_SEC))).
Definition us_text (t : Z) : bytes :=
  dec (t / NS_PER_SEC) ++ str "." ++ zero_pad 6 (dec (u32 (t mod NS_PER_SEC / 1000))).
Definition ms_text (t : Z) : bytes :=
  dec (t / NS_PER_SEC) ++ str "." ++ zero_pad 3 (dec (u32 (t mod NS_PER_SEC / 1000000))) ++ str " s".

Definition newline : bytes := [10].
Definition space : bytes := str " ".
Definition comma : bytes := str ",".

Section Report.
Context (junk : Z -> bytes).

Definition format_endpoint (k : flow_key) (addr : bytes) (port : Z) (buf : bytes) (len : Z)
  : option bytes :=
  a ← addr_format (fk_ip_version k) addr (junk ADDR_STR_LEN) ADDR_STR_LEN (junk ADDR_STR_LEN);
  a ← c_str a;
  '(_, buf) ← (if negb (has_ports (fk_proto k)) then snprintf buf 0 len a
               else if fk_ip_version k =? 6
               then snprintf buf 0 len (str "[" ++ a ++ str "]:" ++ dec port)
               else snprintf buf 0 len (a ++ str ":" ++ dec port));
  Some buf.

(** [src] and [dst] after the call. *)
Definition flow_endpoints (f : flow) (src dst : bytes) (len : Z) : option (bytes * bytes) :=
  let k := fl_key f in
  if negb (fl_first_from_b f) then
    src ← format_endpoint k (fk_addr_a k) (fk_port_a k) src len;
    dst ← format_endpoint k (fk_addr_b k) (fk_port_b k) dst len;
    Some (src, dst)
  else
    src ← format_endpoint k (fk_addr_b k) (fk_port_b k) src len;
    dst ← format_endpoint k (fk_addr_a k) (fk_port_a k) dst len;
    Some (src, dst).

Definition print_utc (out : ostream) (ts_ns : Z) : option ostream :=
  let sec := ts_ns / NS_PER_SEC in
  let usec := u32 (ts_ns mod NS_PER_SEC / 1000) in
  match gmtime sec with
  | Some t =>
    '(n, date) ← strftime (junk 32) 32 t;
    if n >? 0 then
      date ← c_str date;
      Some (fprintf out (date ++ str "." ++ zero_pad 6 (dec usec) ++ str " UTC"))
    else Some (fprintf out (us_text ts_ns))
  | None => Some (fprintf out (us_text ts_ns))
  end.

(** The loops over [by_status], from [DEC_OK + 1]. *)
Definition problem_statuses : list decode_status :=
  [DEC_TRUNC_ETHERNET; DEC_TRUNC_VLAN; DEC_TRUNC_IPV4; DEC_TRUNC_IPV6;
   DEC_TRUNC_IPV6_EXT; DEC_TRUNC_TCP; DEC_TRUNC_UDP; DEC_TRUNC_ICMP; DEC_TRUNC_GTPU;
   DEC_TRUNC_GTPU_EXT; DEC_TRUNC_GTPU_INNER; DEC_BAD_SHORT_FRAME; DEC_BAD_VLAN_DEPTH;
   DEC_BAD_IPV4_VERSION; DEC_BAD_IPV4_IHL; DEC_BAD_IPV4_TOTAL_LEN; DEC_BAD_IPV6_VERSION;
   DEC_BAD_IPV6_PAYLOAD_LEN; DEC_BAD_IPV6_EXT; DEC_BAD_L4_LEN; DEC_BAD_TCP_DOFF; DEC_BAD_UDP_LEN;
   DEC_BAD_GTPU_LEN; DEC_BAD_GTPU_EXT_LEN; DEC_BAD_GTPU_EXT; DEC_BAD_GTPU_INNER;
   DEC_BAD_GTPU_INNER_SHORT].

Fixpoint print_problems (out : ostream) (indent : bytes) (width : nat) (by_status : list Z)
         (sts : list decode_status) : option ostream :=
  match sts with
  | [] => Some out
  | st :: sts =>
    n ← by_status !! Z.to_nat (status_val st);
    let out := if n >? 0
      then fprintf out (indent ++ left_align width (str (decode_status_str st)) ++ space ++ dec n ++ newline)
      else out in
    print_problems out indent width by_status sts
  end.

(** The first four lines. *)
Definition summary_head (out : ostream) (path : bytes) (info : pcap_file_info) (s : stats) : ostream :=
  let out := fprintf out (str "File:        " ++ path ++ newline) in
  let out := fprintf out (str "Format:      pcap " ++ dec (fi_version_major info) ++ str "." ++
    dec (fi_version_minor info) ++ str ", " ++
    (if fi_big_endian info then str "big" else str "little") ++ str "-endian, " ++
    (if fi_nsec info then str "nanosecond" else str "microsecond") ++ str " timestamps, snaplen " ++
    dec (fi_snaplen info) ++ str ", Ethernet" ++ newline) in
  let out := fprintf out (str "Packets:     " ++ dec (st_packets s) ++ newline) in
  let out := fprintf out (str "Bytes:       " ++ dec (st_wire_bytes s) ++ str " on the wire, " ++
    dec (st_captured_bytes s) ++ str " captured" ++ newline) in
  out.

(** [if (secs > 0)]: the rates after the duration. *)
Definition summary_rates (out : ostream) (s : stats) (secs : spec_float) : ostream :=
  if SFltb (S754_zero false) secs then
    fprintf out (str " (" ++ fixed 1 (double_div (double_of (st_packets s)) secs) ++
      str " packets/s, " ++
      fixed 3 (double_div (double_div (double_mul (double_of (st_wire_bytes s)) (double_of 8)) secs)
                (double_of 1000000)) ++ str " Mbit/s)")
  else out.

(** The block under [if (s->packets > 0)]. *)
Definition summary_times (out : ostream) (s : stats) (span_ns : Z) : option ostream :=
  let secs := double_div (double_of span_ns) (double_of 1000000000) in
  let out := fprintf out (str "First:       ") in
  out ← print_utc out (st_first_ts_ns s);
  let out := fprintf out (newline ++ str "Last:        ") in
  out ← print_utc out (st_last_ts_ns s);
  let out := fprintf out (newline ++ str "Duration:    " ++ us_text span_ns ++ str " s") in
  Some (fprintf (summary_rates out s secs) newline).

(** The lines from [Network] to [Problems]. *)
Definition summary_counts (out : ostream) (s : stats) (flow_count : Z) : ostream :=
  let out := fprintf out (newline ++ str "Network:     IPv4 " ++ dec (st_ipv4 s) ++ str " (" ++
    fixed 1 (pct (st_ipv4 s) (st_packets s)) ++ str "%), IPv6 " ++ dec (st_ipv6 s) ++ str " (" ++
    fixed 1 (pct (st_ipv6 s) (st_packets s)) ++ str "%), non-IP " ++ dec (st_non_ip s) ++ str " (" ++
    fixed 1 (pct (st_non_ip s) (st_packets s)) ++ str "%)" ++ newline) in
  let out := fprintf out (str "Transport:   TCP " ++ dec (st_tcp s) ++ str ", UDP " ++ dec (st_udp s) ++
    str ", ICMP " ++ dec (st_icmp s) ++ str ", ICMPv6 " ++ dec (st_icmpv6 s) ++ str ", other " ++
    dec (st_other_l4 s) ++ newline) in
  let out := fprintf out (str "VLAN:        " ++ dec (st_vlan_tagged s) ++ str " tagged frames" ++ newline) in
  let out := fprintf out (str "Fragments:   " ++ dec (st_frag_first s) ++ str " first, " ++
    dec (st_frag_later s) ++ str " non-first (" ++ dec (st_frag_matched s) ++
    str " matched to their first fragment's ports)" ++ newline) in
  let out := fprintf out (str "Flows:       " ++ dec flow_count ++ newline) in
  let out := fprintf out (str "Problems:    " ++ dec (st_truncated s) ++ str " truncated, " ++
    dec (st_malformed s) ++ str " malformed (excluded from flows)" ++ newline) in
  out.

Definition report_summary (out : ostream) (path : bytes) (info : pcap_file_info) (s : stats)
           (flow_count : Z) : option ostream :=
  let span_ns := if negb (st_packets s =? 0) then u64 (st_last_ts_ns s - st_first_ts_ns s) else 0 in
  let out := summary_head out path info s in
  out ← (if st_packets s >? 0 then summary_times out s span_ns else Some out);
  print_problems (summary_counts out s flow_count) (str "  ") 40 (st_by_status s) problem_statuses.

(** ** The top-N tables *)

(** [strlen] of a buffer as an [int], and the maximum of a column so far. *)
Definition strlen (buf : bytes) : option Z := s ← c_str buf; Some (Z.of_nat (length s)).
Definition widen (w : Z) (l : Z) : Z := if l >? w then l else w.

Section Table.
Context (endpoints : flow -> bytes -> bytes -> option (bytes * bytes)).

(** The loop that sizes the endpoint columns: [src], [dst], [src_w], [dst_w]. *)
Fixpoint column_widths (top : list flow) (src dst : bytes) (src_w dst_w : Z)
  : option (bytes * bytes * Z * Z) :=
  match top with
  | [] => Some (src, dst, src_w, dst_w)
  | f :: top =>
    '(src, dst) ← endpoints f src dst;
    ls ← strlen src; ld ← strlen dst;
    column_widths top src dst (widen src_w ls) (widen dst_w ld)
  end.

(** The loop that prints the rows; [row] is the rest of its body. *)
Fixpoint print_rows (row : Z -> flow -> bytes -> bytes -> option bytes) (i : Z) (top : list flow)
         (src dst : bytes) (out : ostream) : option ostream :=
  match top with
  | [] => Some out
  | f :: top =>
    '(src, dst) ← endpoints f src dst;
    s ← c_str src; d ← c_str dst;
    text ← row i f s d;
    print_rows row (i + 1) top src dst (fprintf out text)
  end.
End Table.

Definition flow_row_flags (f : flow) : option bytes :=
  buf ← (if fk_proto (fl_key f) =? IPPROTO_NUM_TCP then format_tcp_flags (fl_tcp_flags f) (junk 9)
         else '(_, buf) ← snprintf (junk 9) 0 9 (str "-"); Some buf);
  c_str buf.

Definition duration (f : flow) : Z := u64 (fl_last_ts_ns f - fl_first_ts_ns f).

Definition flow_row (src_w dst_w i : Z) (f : flow) (src dst : bytes) : option bytes :=
  flags ← flow_row_flags f;
  '(_, dur) ← snprintf (junk 32) 0 32 (ms_text (duration f));
  dur ← c_str dur;
  proto ← proto_name (fk_proto (fl_key f)) (junk 8) 8;
  Some (right_align 3 (dec (i + 1)) ++ str "  " ++ left_align 6 proto ++ str "  " ++
        left_align (Z.to_nat src_w) src ++ str "  " ++ left_align (Z.to_nat dst_w) dst ++ str "  " ++
        right_align 8 (dec (fl_packets f)) ++ str "  " ++ right_align 10 (dec (fl_bytes f)) ++ str "  " ++
        right_align 12 dur ++ str "  " ++ flags ++ newline).

Definition report_top_flows (out : ostream) (top : list flow) (flow_count : Z) : option ostream :=
  if bool_decide (top = []) then Some out else
  let endpoints f src dst := flow_endpoints f src dst ENDPOINT_STR_LEN in
  '(src, dst, src_w, dst_w) ← column_widths endpoints top (junk ENDPOINT_STR_LEN) (junk ENDPOINT_STR_LEN) 3 3;
  let out := fprintf out (newline ++ str "Top " ++ dec (Z.of_nat (length top)) ++ str " of " ++ dec flow_count ++
    str " flows by bytes (src = sender of the first packet seen):" ++ newline) in
  let out := fprintf out (right_align 3 (str "#") ++ str "  " ++ left_align 6 (str "proto") ++ str "  " ++
    left_align (Z.to_nat src_w) (str "src") ++ str "  " ++ left_align (Z.to_nat dst_w) (str "dst") ++ str "  " ++
    right_align 8 (str "packets") ++ str "  " ++ right_align 10 (str "bytes") ++ str "  " ++
    right_align 12 (str "duration") ++ str "  " ++ str "tcp flags" ++ newline) in
  print_rows endpoints (flow_row src_w dst_w) 0 top src dst out.

Definition tunnel_endpoints (f : flow) (src dst : bytes) (len : Z) : option (bytes * bytes) :=
  let k := fl_key f in
  src ← addr_format (fk_ip_version k) (fk_addr_a k) src len (junk ADDR_STR_LEN);
  dst ← addr_format (fk_ip_version k) (fk_addr_b k) dst len (junk ADDR_STR_LEN);
  Some (src, dst).

Definition tunnel_row (src_w dst_w i : Z) (f : flow) (src dst : bytes) : option bytes :=
  '(_, dur) ← snprintf (junk 32) 0 32 (ms_text (duration f));
  dur ← c_str dur;
  Some (right_align 3 (dec (i + 1)) ++ str "  0x" ++ zero_pad 8 (hex (fk_teid (fl_key f))) ++ str "  " ++
        left_align (Z.to_nat src_w) src ++ str "  " ++ left_align (Z.to_nat dst_w) dst ++ str "  " ++
        right_align 8 (dec (fl_packets f)) ++ str "  " ++ right_align 10 (dec (fl_bytes f)) ++ str "  " ++
        right_align 12 dur ++ newline).

Definition report_top_tunnels (out : ostream) (top : list flow) (tunnel_count : Z) : option ostream :=
  if bool_decide (top = []) then Some out else
  let endpoints f src dst := tunnel_endpoints f src dst ADDR_STR_LEN in
  '(src, dst, src_w, dst_w) ← column_widths endpoints top (junk ADDR_STR_LEN) (junk ADDR_STR_LEN) 3 3;
  let out := fprintf out (newline ++ str "Top " ++ dec (Z.of_nat (length top)) ++ str " of " ++ dec tunnel_count ++
    str " GTP-U tunnels by bytes (one direction each; the receiver chose the TEID):" ++ newline) in
  let out := fprintf out (right_align 3 (str "#") ++ str "  " ++ left_align 10 (str "teid") ++ str "  " ++
    left_align (Z.to_nat src_w) (str "src") ++ str "  " ++ left_align (Z.to_nat dst_w) (str "dst") ++ str "  " ++
    right_align 8 (str "packets") ++ str "  " ++ right_align 10 (str "bytes") ++ str "  " ++
    right_align 12 (str "duration") ++ newline) in
  print_rows endpoints (tunnel_row src_w dst_w) 0 top src dst out.

(** ** CSV *)

(** [addr] and [*port] after the call. *)
Definition csv_endpoint (f : flow) (want_src : bool) (addr : bytes) (len : Z) : option (bytes * Z) :=
  let k := fl_key f in
  let use_a := if want_src then negb (fl_first_from_b f) else fl_first_from_b f in
  addr ← addr_format (fk_ip_version k) (if use_a then fk_addr_a k else fk_addr_b k) addr len
           (junk ADDR_STR_LEN);
  Some (addr, if use_a then fk_port_a k else fk_port_b k).

Definition csv_row (f : flow) : option bytes :=
  '(src, sport) ← csv_endpoint f true (junk ADDR_STR_LEN) ADDR_STR_LEN;
  '(dst, dport) ← csv_endpoint f false (junk ADDR_STR_LEN) ADDR_STR_LEN;
  flags ← (if fk_proto (fl_key f) =? IPPROTO_NUM_TCP then format_tcp_flags (fl_tcp_flags f) (junk 9)
           else write_at (junk 9) 0 [0]);
  src ← c_str src; dst ← c_str dst; flags ← c_str flags;
  proto ← proto_name (fk_proto (fl_key f)) (junk 8) 8;
  Some (src ++ comma ++ dec sport ++ comma ++ dst ++ comma ++ dec dport ++ comma ++ proto ++ comma ++
        dec (fk_ip_version (fl_key f)) ++ comma ++ dec (fl_packets f) ++ comma ++ dec (fl_bytes f) ++ comma ++
        ns_text (fl_first_ts_ns f) ++ comma ++ ns_text (fl_last_ts_ns f) ++ comma ++
        ns_text (duration f) ++ comma ++ flags ++ newline).

Definition tunnel_csv_row (f : flow) : option bytes :=
  '(src, dst) ← tunnel_endpoints f (junk ADDR_STR_LEN) (junk ADDR_STR_LEN) ADDR_STR_LEN;
  src ← c_str src; dst ← c_str dst;
  Some (str "0x" ++ zero_pad 8 (hex (fk_teid (fl_key f))) ++ comma ++ src ++ comma ++ dst ++ comma ++
        dec (fk_ip_version (fl_key f)) ++ comma ++ dec (fl_packets f) ++ comma ++ dec (fl_bytes f) ++ comma ++
        ns_text (fl_first_ts_ns f) ++ comma ++ ns_text (fl_last_ts_ns f) ++ comma ++
        ns_text (duration f) ++ newline).

Fixpoint csv_rows (row : flow -> option bytes) (fs : list flow) (out : ostream) : option ostream :=
  match fs with
  | [] => Some out
  | f :: fs => text ← row f; csv_rows row fs (fprintf out text)
  end.

Definition csv_header : bytes :=
  str "src_addr,src_port,dst_addr,dst_port,protocol,ip_version,packets,bytes,first_ts,last_ts,duration_s,tcp_flags" ++ newline.
Definition tunnel_csv_header : bytes :=
  str "teid,src_addr,dst_addr,ip_version,packets,bytes,first_ts,last_ts,duration_s" ++ newline.

(** The common shape of [report_csv] and [report_tunnels_csv]: the returned code,
    the stream and the resources.  [alloc] is the outcome of the [malloc] of the array. *)
Definition write_rows `{QSort} (header : bytes) (row : flow -> option bytes) (out : ostream)
           (t : flow_table) (alloc : bool) (os : resources) : option (Z * ostream * resources) :=
  if (ft_count t >? 0) && negb alloc then Some (-1, out, os) else
  let os := if ft_count t >? 0 then malloc os else os in
  all ← (if ft_count t >? 0 then flow_table_top_n t (Z.to_nat (ft_count t)) else Some []);
  out ← csv_rows row all (fprintf out header);
  let os := if ft_count t >? 0 then free os else os in (* [free(NULL)] does nothing *)
  Some (if ferror out then -1 else 0, out, os).

Definition report_csv `{QSort} := write_rows csv_header csv_row.
Definition report_tunnels_csv `{QSort} := write_rows tunnel_csv_header tunnel_csv_row.
End Report.

(** ** The GTP-U section *)
(** The lines from [GTP-U] to [Problems]. *)
Definition gtpu_counts (out : ostream) (g : gtpu_stats) (tunnel_count teids : Z) : ostream :=
  let out := fprintf out (newline ++ str "GTP-U:       " ++ dec (gs_packets g) ++ str " packets on UDP port " ++
    dec GTPU_PORT ++ newline) in
  let out := fprintf out (str "  Messages:  G-PDU " ++ dec (gs_gpdu g) ++ str ", echo request " ++
    dec (gs_echo_request g) ++ str ", echo response " ++ dec (gs_echo_response g) ++
    str ", error indication " ++ dec (gs_error_indication g) ++ str ", end marker " ++
    dec (gs_end_marker g) ++ str ", other " ++ dec (gs_other_type g) ++ newline) in
  let out := fprintf out (str "  Options:   sequence number in " ++ dec (gs_with_seq g) ++
    str ", extension headers in " ++ dec (gs_with_ext g) ++ newline) in
  let out := fprintf out (str "  Inner IP:  IPv4 " ++ dec (gs_inner_ipv4 g) ++ str ", IPv6 " ++
    dec (gs_inner_ipv6 g) ++ str "; TCP " ++ dec (gs_inner_tcp g) ++ str ", UDP " ++
    dec (gs_inner_udp g) ++ str ", ICMP " ++ dec (gs_inner_icmp g) ++ str ", ICMPv6 " ++
    dec (gs_inner_icmpv6 g) ++ str ", other " ++ dec (gs_inner_other g) ++ newline) in
  let out := fprintf out (str "  Tunnels:   " ++ dec (tunnel_count) ++ str " (" ++ dec teids ++
    str " distinct TEIDs)" ++ newline) in
  let out := fprintf out (str "  Skipped:   " ++ dec (gs_not_v1u g) ++ str " GTP' or other version, " ++
    dec (gs_nested g) ++ str " GTP-U in GTP-U, " ++ dec (gs_fragmented g) ++
    str " fragmented datagrams on port " ++ dec GTPU_PORT ++ newline) in
  let out := fprintf out (str "  Problems:  " ++ dec (u64 (gs_truncated g - gs_user_truncated g)) ++
    str " truncated, " ++ dec (u64 (gs_malformed g - gs_user_malformed g)) ++
    str " malformed in GTP-U headers (not added to tunnels)" ++ newline) in
  let out := fprintf out (str "             " ++ dec (gs_user_truncated g) ++ str " truncated, " ++
    dec (gs_user_malformed g) ++ str " malformed in user packets (still added to tunnels)" ++ newline) in
  out.

Definition report_gtpu `{QSort} (out : ostream) (s : stats) (tunnels : flow_table) (alloc : bool)
           (os : resources) : option (Z * ostream * resources) :=
  let g := st_gtpu s in
  if (gs_packets g =? 0) && (gs_fragmented g =? 0) then Some (0, out, os) else
  '(rc, teids, os) ← flow_table_distinct_teids tunnels alloc os;
  if negb (rc =? 0) then Some (-1, out, os) else
  out ← print_problems (gtpu_counts out g (ft_count tunnels) teids) (str "    ") 38 (gs_by_status g) problem_statuses;
  Some (0, out, os).
