(* ===== verification/ReportProps.v ===== *)
(** What the reports print: the text of every field, and that no field is cut, no
    buffer overrun and no string unterminated.  [junk] is any contents of the
    uninitialised arrays. *)
From Stdlib Require Import String.
From S2P Require Export Report AddrText TopN.
From stdpp Require Export list sets.
#[global] Open Scope Z_scope.

(** The fields of a flow fit their C types. *)
Record flow_fits (f : flow) : Prop := {
  ff_teid : is_u 32 (fk_teid (fl_key f));
  ff_version : fk_ip_version (fl_key f) = 4 \/ fk_ip_version (fl_key f) = 6;
  ff_proto : is_u 8 (fk_proto (fl_key f));
  ff_port_a : is_u 16 (fk_port_a (fl_key f));
  ff_port_b : is_u 16 (fk_port_b (fl_key f));
  ff_addr_a : length (fk_addr_a (fl_key f)) = 16%nat /\ Forall is_byte (fk_addr_a (fl_key f));
  ff_addr_b : length (fk_addr_b (fl_key f)) = 16%nat /\ Forall is_byte (fk_addr_b (fl_key f));
  ff_flags : is_u 8 (fl_tcp_flags f);
  ff_packets : is_u 64 (fl_packets f);
  ff_bytes : is_u 64 (fl_bytes f);
  ff_first : is_u 64 (fl_first_ts_ns f);
  ff_last : is_u 64 (fl_last_ts_ns f)
}.

(** ** The texts *)
Definition proto_str (proto : Z) : bytes :=
  if proto =? 6 then str "TCP" else if proto =? 17 then str "UDP"
  else if proto =? 1 then str "ICMP" else if proto =? 58 then str "ICMPv6" else dec proto.

Fixpoint letters_of (k : nat) (bit flags : Z) : bytes :=
  match k with
  | O => []
  | S k => (if Z.testbit flags bit then [default 0 (letters !! Z.to_nat bit)] else []) ++
           letters_of k (bit + 1) flags
  end.
(** The letters of the bits set, from FIN to CWR. *)
Definition flags_str (flags : Z) : bytes := letters_of 8 0 flags.

Definition endpoint_str (k : flow_key) (addr : bytes) (port : Z) : bytes :=
  let a := addr_str (fk_ip_version k) addr in
  if negb (has_ports (fk_proto k)) then a
  else if fk_ip_version k =? 6 then str "[" ++ a ++ str "]:" ++ dec port
  else a ++ str ":" ++ dec port.

(** The sender of the flow's first packet, and its receiver. *)
Definition sender (f : flow) : bytes * Z :=
  if fl_first_from_b f then (fk_addr_b (fl_key f), fk_port_b (fl_key f))
  else (fk_addr_a (fl_key f), fk_port_a (fl_key f)).
Definition receiver (f : flow) : bytes * Z :=
  if fl_first_from_b f then (fk_addr_a (fl_key f), fk_port_a (fl_key f))
  else (fk_addr_b (fl_key f), fk_port_b (fl_key f)).

(** ** Buffers *)

(** A buffer that holds the whole text. *)
Lemma fits_buffer buf len text :
  0 <= len <= Z.of_nat (length buf) -> Z.of_nat (length text) < len -> no_nul text ->
  snprintf buf 0 len text = Some (Z.of_nat (length text), printed buf len text) /\
  c_str (printed buf len text) = Some text /\ length (printed buf len text) = length buf.
Proof.
  intros Hl Ht Hn. split; [apply snprintf_start; lia|]. split; [|apply length_printed; lia].
  rewrite c_str_printed by done. f_equal. apply take_ge. lia.
Qed.

Section Texts.
Context (junk : Z -> bytes) (Hjunk : forall n, 0 <= n -> length (junk n) = Z.to_nat n).

Lemma junk_len n : 0 <= n -> 0 <= n <= Z.of_nat (length (junk n)).
Proof. intros Hn. rewrite Hjunk by done. lia. Qed.

Lemma proto_name_ok proto : is_u 8 proto -> proto_name proto (junk 8) 8 = Some (proto_str proto).
Proof.
  intros Hp. unfold proto_name, proto_str.
  change IPPROTO_NUM_TCP with 6. change IPPROTO_NUM_UDP with 17. change IPPROTO_NUM_ICMP with 1.
  change IPPROTO_NUM_ICMPV6 with 58. repeat (destruct (_ =? _); [done|]).
  pose proof (dec_byte_length proto Hp).
  destruct (fits_buffer (junk 8) 8 (dec proto)) as (-> & E & _); [by apply junk_len|lia|apply no_nul_dec|].
  exact E.
Qed.

(** ** TCP flags *)
Lemma write_at_snoc out n l :
  (n < length out)%nat ->
  exists out', write_at out n [l] = Some out' /\ length out' = length out /\
    take (S n) out' = take n out ++ [l] /\ (forall i, (S n <= i)%nat -> out' !! i = out !! i).
Proof.
  intros Hn. unfold write_at. rewrite decide_True by (cbn; lia). eexists. split; [done|].
  assert (Hlt : length (take n out ++ [l]) = S n) by (rewrite length_app, length_take; cbn; lia).
  split; [|split].
  - rewrite !length_app, length_take, length_drop. cbn. lia.
  - rewrite app_assoc, take_app_le by lia. by rewrite take_ge by lia.
  - intros i Hi. rewrite app_assoc, lookup_app_r, Hlt, lookup_drop by lia. cbn. f_equal. lia.
Qed.

Lemma flag_bit flags bit :
  0 <= bit < 32 -> negb (Z.land flags (u32 (Z.shiftl 1 bit)) =? 0) = Z.testbit flags bit.
Proof.
  intros Hb. rewrite Z.shiftl_1_l. rewrite wrap_small.
  2:{ unfold is_u. split; [apply Z.pow_nonneg; lia|]. apply Z.pow_lt_mono_r; lia. }
  destruct (Z.testbit flags bit) eqn:E.
  - destruct (Z.eqb_spec (Z.land flags (2 ^ bit)) 0) as [H|]; [|done].
    assert (Hz : Z.testbit (Z.land flags (2 ^ bit)) bit = false) by (rewrite H; apply Z.bits_0).
    by rewrite Z.land_spec, E, Z.pow2_bits_true in Hz by lia.
  - assert (Z.land flags (2 ^ bit) = 0) as ->; [|done]. apply Z.bits_inj'. intros i Hi.
    rewrite Z.land_spec, Z.bits_0. destruct (Z.eq_dec i bit) as [->|]; [by rewrite E|].
    by rewrite Z.pow2_bits_false, andb_false_r by lia.
Qed.

Lemma letters_of_length k bit flags : (length (letters_of k bit flags) <= k)%nat.
Proof.
  revert bit. induction k as [|k IH]; intros bit; cbn; [lia|]. rewrite length_app.
  specialize (IH (bit + 1)). destruct (Z.testbit _ _); cbn; lia.
Qed.

Lemma flag_letters_ok k bit flags out n :
  0 <= bit -> bit + Z.of_nat k = 8 -> (n + k < length out)%nat ->
  exists out' n', flag_letters k bit flags out n = Some (out', n') /\ length out' = length out /\
    n' = (n + length (letters_of k bit flags))%nat /\
    take n' out' = take n out ++ letters_of k bit flags.
Proof.
  revert bit out n. induction k as [|k IH]; intros bit out n Hb Hk Hl; cbn [flag_letters letters_of].
  { exists out, n. rewrite Nat.add_0_r, app_nil_r. done. }
  rewrite flag_bit by lia. destruct (Z.testbit flags bit).
  - destruct (lookup_lt_is_Some_2 letters (Z.to_nat bit)) as [l El]; [cbn; lia|]. rewrite El.
    cbn [mbind option_bind default from_option id].
    destruct (write_at_snoc out n l) as (out1 & -> & Hl1 & Ht1 & _); [lia|]. cbn [mbind option_bind].
    destruct (IH (bit + 1) out1 (S n)) as (out' & n' & -> & Hl' & Hn' & Ht'); [lia|lia|lia|].
    exists out', n'. split; [done|]. split; [lia|]. rewrite length_app. cbn [length]. split; [lia|].
    by rewrite Ht', Ht1, <- app_assoc.
  - destruct (IH (bit + 1) out n) as (out' & n' & -> & Hl' & Hn' & Ht'); [lia|lia|lia|].
    exists out', n'. done.
Qed.

Lemma letters_no_nul k bit flags : 0 <= bit -> bit + Z.of_nat k <= 8 -> no_nul (letters_of k bit flags).
Proof.
  revert bit. induction k as [|k IH]; intros bit Hb Hk; cbn [letters_of]; [constructor|].
  apply no_nul_app; [|apply IH; lia]. destruct (Z.testbit _ _); [|constructor].
  assert (Hn : no_nul letters) by (by repeat constructor).
  destruct (lookup_lt_is_Some_2 letters (Z.to_nat bit)) as [l El]; [cbn; lia|]. rewrite El. cbn.
  constructor; [|constructor]. by apply (Forall_lookup_1 _ _ _ _ Hn El).
Qed.

Lemma format_tcp_flags_str flags out :
  (9 <= length out)%nat ->
  exists out', format_tcp_flags flags out = Some out' /\ c_str out' = Some (flags_str flags) /\
    length out' = length out.
Proof.
  intros Hl. unfold format_tcp_flags.
  destruct (flag_letters_ok 8 0 flags out 0) as (o1 & n1 & -> & Hl1 & Hn1 & Ht1); [lia|lia|lia|].
  cbn [mbind option_bind]. fold (flags_str flags) in *. rewrite take_0 in Ht1. cbn [app] in Ht1.
  pose proof (letters_of_length 8 0 flags) as Hk. fold (flags_str flags) in Hk.
  unfold write_at. rewrite decide_True by (cbn; lia). eexists. split; [done|].
  rewrite Ht1. split; [apply c_str_app, letters_no_nul; lia|].
  rewrite !length_app, length_drop. cbn [length]. lia.
Qed.

(** ** Endpoints *)
Lemma c_addr k addr :
  length addr = 16%nat -> Forall is_byte addr ->
  forall buf, Z.of_nat (length buf) = ADDR_STR_LEN ->
  exists buf', addr_format k addr buf ADDR_STR_LEN (junk ADDR_STR_LEN) = Some buf' /\
    c_str buf' = Some (addr_str k addr) /\ length buf' = length buf.
Proof.
  intros Ha Hb buf Hl. rewrite addr_format_ok by (done || by rewrite Hjunk || lia).
  eexists. split; [done|]. pose proof (addr_str_length addr Ha Hb k).
  destruct (fits_buffer buf ADDR_STR_LEN (addr_str k addr)) as (_ & E & Hlen);
    [by rewrite Hl|unfold ADDR_STR_LEN; lia|by apply addr_str_no_nul|done].
Qed.

Lemma endpoint_str_ok k addr port :
  length addr = 16%nat -> Forall is_byte addr -> is_u 16 port ->
  no_nul (endpoint_str k addr port) /\ (length (endpoint_str k addr port) <= 47)%nat.
Proof.
  intros Ha Hb Hp. pose proof (addr_str_length addr Ha Hb (fk_ip_version k)) as Hl.
  pose proof (addr_str_no_nul addr Ha Hb (fk_ip_version k)) as Hn.
  pose proof (dec_u16_length port Hp) as Hd. unfold endpoint_str.
  destruct (negb _); [split; [done|lia]|].
  destruct (_ =? 6); rewrite !length_app; cbn [str length];
    (split; [repeat first [apply no_nul_app | done | apply no_nul_dec | by repeat constructor]|lia]).
Qed.

Lemma format_endpoint_ok k addr port buf :
  length addr = 16%nat -> Forall is_byte addr -> is_u 16 port ->
  Z.of_nat (length buf) = ENDPOINT_STR_LEN ->
  exists buf', format_endpoint junk k addr port buf ENDPOINT_STR_LEN = Some buf' /\
    c_str buf' = Some (endpoint_str k addr port) /\ length buf' = length buf.
Proof.
  intros Ha Hb Hp Hl. unfold format_endpoint.
  destruct (c_addr (fk_ip_version k) addr Ha Hb (junk ADDR_STR_LEN)) as (a & -> & Ea & _);
    [by rewrite Hjunk|]. cbn [mbind option_bind]. rewrite Ea. cbn [mbind option_bind].
  destruct (endpoint_str_ok k addr port Ha Hb Hp) as [Hn Ht].
  destruct (fits_buffer buf ENDPOINT_STR_LEN (endpoint_str k addr port)) as (E & Ec & Hlen);
    [by rewrite Hl|unfold ENDPOINT_STR_LEN, ADDR_STR_LEN; lia|done|].
  exists (printed buf ENDPOINT_STR_LEN (endpoint_str k addr port)). split; [|done].
  unfold endpoint_str in E |- *. destruct (negb _); [by rewrite E|]. by destruct (_ =? 6); rewrite E.
Qed.

Lemma endpoint_addrs f :
  flow_fits f ->
  (length (sender f).1 = 16%nat /\ Forall is_byte (sender f).1 /\ is_u 16 (sender f).2) /\
  (length (receiver f).1 = 16%nat /\ Forall is_byte (receiver f).1 /\ is_u 16 (receiver f).2).
Proof. intros [_ _ _ Ha Hb [? ?] [? ?]]. unfold sender, receiver. by destruct (fl_first_from_b f). Qed.

Lemma flow_endpoints_ok f src dst :
  flow_fits f -> Z.of_nat (length src) = ENDPOINT_STR_LEN -> Z.of_nat (length dst) = ENDPOINT_STR_LEN ->
  exists src' dst', flow_endpoints junk f src dst ENDPOINT_STR_LEN = Some (src', dst') /\
    c_str src' = Some (endpoint_str (fl_key f) (sender f).1 (sender f).2) /\
    c_str dst' = Some (endpoint_str (fl_key f) (receiver f).1 (receiver f).2) /\
    length src' = length src /\ length dst' = length dst.
Proof.
  intros Hf Hs Hd. destruct (endpoint_addrs f Hf) as [(S1 & S2 & S3) (R1 & R2 & R3)].
  destruct (format_endpoint_ok (fl_key f) _ _ src S1 S2 S3 Hs) as (s' & Es & Ecs & Hls).
  destruct (format_endpoint_ok (fl_key f) _ _ dst R1 R2 R3 Hd) as (d' & Ed & Ecd & Hld).
  exists s', d'. split; [|exact (conj Ecs (conj Ecd (conj Hls Hld)))]. clear Ecs Ecd.
  unfold flow_endpoints, sender, receiver in *.
  destruct (fl_first_from_b f); cbn [negb fst snd] in *; by rewrite Es; cbn [mbind option_bind]; rewrite Ed.
Qed.
End Texts.
