(* ===== verification/Csv.v ===== *)
(** The CSV files: what [report_csv] and [report_tunnels_csv] write reads back to
    the flows of the table. *)
From Stdlib Require Import String.
From S2P Require Export ReportProps FlowTheorems.
From stdpp Require Export list sets.
#[global] Open Scope Z_scope.

(** ** The fields of a row *)
Definition csv_fields (f : flow) : list bytes :=
  let v := fk_ip_version (fl_key f) in
  [addr_str v (sender f).1; dec (sender f).2; addr_str v (receiver f).1; dec (receiver f).2;
   proto_str (fk_proto (fl_key f)); dec v; dec (fl_packets f); dec (fl_bytes f);
   ns_text (fl_first_ts_ns f); ns_text (fl_last_ts_ns f); ns_text (duration f);
   if fk_proto (fl_key f) =? 6 then flags_str (fl_tcp_flags f) else []].

Definition tunnel_csv_fields (f : flow) : list bytes :=
  let k := fl_key f in
  [str "0x" ++ zero_pad 8 (hex (fk_teid k)); addr_str (fk_ip_version k) (fk_addr_a k);
   addr_str (fk_ip_version k) (fk_addr_b k); dec (fk_ip_version k);
   dec (fl_packets f); dec (fl_bytes f);
   ns_text (fl_first_ts_ns f); ns_text (fl_last_ts_ns f); ns_text (duration f)].

Definition csv_line (fields : list bytes) : bytes := join_on 44 fields ++ newline.

(** A character that needs no quoting in a CSV field: no comma, quote or newline. *)
Definition plain (c : Z) : Prop := c <> 44 /\ c <> 34 /\ c <> 10 /\ c <> 13.
Create HintDb csv discriminated.

Lemma plain_digits l : Forall is_digit l -> Forall plain l.
Proof. intros H. apply (Forall_impl _ _ _ H). unfold is_digit, plain. lia. Qed.
Lemma plain_dec n : Forall plain (dec n).
Proof. apply plain_digits, dec_chars. Qed.
Lemma plain_hex n : Forall plain (hex n).
Proof. apply plain_digits, hex_chars. Qed.
Lemma plain_app s t : Forall plain s -> Forall plain t -> Forall plain (s ++ t).
Proof. intros. by apply Forall_app. Qed.
Ltac plain_lit := repeat (constructor; [by unfold plain|]); constructor.
Lemma plain_ns t : Forall plain (ns_text t).
Proof.
  unfold ns_text. apply plain_app; [apply plain_dec|]. apply plain_app; [plain_lit|].
  apply plain_digits, zero_pad_chars, dec_chars.
Qed.
Lemma plain_quad a b c d : Forall plain (quad a b c d).
Proof. unfold quad. repeat first [apply plain_app | apply plain_dec | plain_lit]. Qed.
Lemma plain_group_text fuel gs bs bl i : Forall plain (group_text fuel gs bs bl i).
Proof.
  revert i. induction fuel as [|fuel IH]; intros i; cbn [group_text]; [constructor|].
  destruct (_ <? _); [|constructor]. destruct (_ =? _); [apply plain_app; [plain_lit|apply IH]|].
  apply plain_app; [destruct (_ && _); plain_lit|]. apply plain_app; [apply plain_hex|apply IH].
Qed.
Lemma plain_addr v a : Forall plain (addr_str v a).
Proof.
  unfold addr_str. destruct (_ =? _); [apply plain_quad|]. destruct (_ =? _); [|plain_lit].
  unfold ipv6_str. destruct (bool_decide _); [apply plain_app; [plain_lit|apply plain_quad]|].
  destruct (find_run _ _ _ _ _) as [[s l]|]; [apply plain_group_text|constructor].
Qed.
Lemma plain_proto p : Forall plain (proto_str p).
Proof. unfold proto_str. repeat (destruct (_ =? _); [plain_lit|]). apply plain_dec. Qed.
Lemma plain_flags k bit flags : 0 <= bit -> bit + Z.of_nat k <= 8 -> Forall plain (letters_of k bit flags).
Proof.
  revert bit. induction k as [|k IH]; intros bit Hb Hk; cbn [letters_of]; [constructor|].
  apply plain_app; [|apply IH; lia]. destruct (Z.testbit _ _); [|constructor].
  assert (Hn : Forall plain letters) by plain_lit.
  destruct (lookup_lt_is_Some_2 letters (Z.to_nat bit)) as [l El]; [cbn; lia|]. rewrite El. cbn.
  constructor; [|constructor]. by apply (Forall_lookup_1 _ _ _ _ Hn El).
Qed.

Lemma csv_fields_plain f : Forall (Forall plain) (csv_fields f).
Proof.
  unfold csv_fields.
  repeat (constructor; [first [apply plain_addr | apply plain_proto | apply plain_dec | apply plain_ns | idtac]|]);
    [destruct (_ =? _); [apply plain_flags; lia|constructor]|constructor].
Qed.

Lemma tunnel_csv_fields_plain f : Forall (Forall plain) (tunnel_csv_fields f).
Proof.
  unfold tunnel_csv_fields.
  constructor; [apply plain_app; [plain_lit|apply plain_digits, zero_pad_chars, hex_chars]|].
  repeat (constructor; [first [apply plain_addr | apply plain_dec | apply plain_ns]|]). constructor.
Qed.

(** ** Lines *)
Lemma plain_not_in c l : Forall plain l -> ~ plain c -> c ∉ l.
Proof. intros H Hc Hin. rewrite Forall_forall in H. by apply Hc, H. Qed.

Lemma plain_join fields : Forall (Forall plain) fields -> 10 ∉ join_on 44 fields.
Proof.
  intros H. destruct H as [|p ps Hp Hps]; cbn; [apply not_elem_of_nil|]. rewrite elem_of_app.
  assert (Hnot : forall q, Forall plain q -> 10 ∉ q).
  { intros q Hq. apply plain_not_in; [done|]. unfold plain. lia. }
  intros [Hin|Hin]; [by apply (Hnot p)|]. induction Hps as [|q qs Hq Hqs IH]; cbn in Hin.
  - by apply not_elem_of_nil in Hin.
  - rewrite elem_of_cons, elem_of_app in Hin. destruct Hin as [?|[?|?]]; [done|by apply (Hnot q)|by apply IH].
Qed.

(** The rows of a CSV text: its lines, each split at the commas. *)
Definition csv_rows_of (text : bytes) : list (list bytes) := map (split_on 44) (split_on 10 text).

Lemma csv_rows_of_lines rows :
  Forall (fun fields => fields <> [] /\ Forall (Forall plain) fields) rows ->
  csv_rows_of (concat (map csv_line rows)) = rows ++ [[[]]].
Proof.
  unfold csv_rows_of. induction 1 as [|fields rows [Hne Hp] _ IH]; cbn; [done|].
  unfold csv_line at 1. change newline with [10]. rewrite <- app_assoc. cbn [app].
  rewrite split_on_app by (by apply plain_join). cbn [map]. rewrite IH. f_equal.
  apply split_join; [done|]. apply (Forall_impl _ _ _ Hp). intros q Hq.
  apply plain_not_in; [done|]. unfold plain. lia.
Qed.

(** ** The rows the code formats *)
Section Rows.
Context (junk : Z -> bytes) (Hjunk : forall n, 0 <= n -> length (junk n) = Z.to_nat n).

Lemma csv_row_ok f : flow_fits f -> csv_row junk f = Some (csv_line (csv_fields f)).
Proof.
  intros Hf. destruct (endpoint_addrs f Hf) as [(S1 & S2 & _) (R1 & R2 & _)].
  assert (Hj : Z.of_nat (length (junk ADDR_STR_LEN)) = ADDR_STR_LEN) by (by rewrite Hjunk).
  destruct (c_addr junk Hjunk (fk_ip_version (fl_key f)) _ S1 S2 _ Hj) as (s' & Es & Ecs & _).
  destruct (c_addr junk Hjunk (fk_ip_version (fl_key f)) _ R1 R2 _ Hj) as (d' & Ed & Ecd & _).
  assert (Hs : csv_endpoint junk f true (junk ADDR_STR_LEN) ADDR_STR_LEN = Some (s', (sender f).2)).
  { unfold csv_endpoint. unfold sender in *. destruct (fl_first_from_b f); cbn [negb fst snd] in *; by rewrite Es. }
  assert (Hd : csv_endpoint junk f false (junk ADDR_STR_LEN) ADDR_STR_LEN = Some (d', (receiver f).2)).
  { unfold csv_endpoint. unfold receiver in *. destruct (fl_first_from_b f); cbn [negb fst snd] in *; by rewrite Ed. }
  unfold csv_row. rewrite Hs, Hd. cbn [mbind option_bind].
  assert (Hflags : exists b, (if fk_proto (fl_key f) =? IPPROTO_NUM_TCP
      then format_tcp_flags (fl_tcp_flags f) (junk 9) else write_at (junk 9) 0 [0]) = Some b /\
      c_str b = Some (if fk_proto (fl_key f) =? 6 then flags_str (fl_tcp_flags f) else [])).
  { change IPPROTO_NUM_TCP with 6. destruct (_ =? 6).
    - destruct (format_tcp_flags_str (fl_tcp_flags f) (junk 9)) as (b & Eb & Ecb & _);
        [by rewrite Hjunk|]. exists b. split; [exact Eb|exact Ecb].
    - unfold write_at. rewrite decide_True by (rewrite Hjunk by done; cbn; lia). eexists. split; reflexivity. }
  destruct Hflags as (b & -> & Eb). cbn [mbind option_bind]. rewrite Ecs. cbn [mbind option_bind].
  rewrite Ecd. cbn [mbind option_bind]. rewrite Eb. cbn [mbind option_bind].
  rewrite (proto_name_ok junk Hjunk _ (ff_proto f Hf)). cbn [mbind option_bind]. f_equal.
  unfold csv_line, csv_fields, join_on. cbn [map concat].
  change comma with [44]. rewrite <- !app_assoc. cbn [app]. by rewrite <- ?app_assoc.
Qed.

Lemma tunnel_endpoints_ok f src dst :
  flow_fits f -> Z.of_nat (length src) = ADDR_STR_LEN -> Z.of_nat (length dst) = ADDR_STR_LEN ->
  exists src' dst', tunnel_endpoints junk f src dst ADDR_STR_LEN = Some (src', dst') /\
    c_str src' = Some (addr_str (fk_ip_version (fl_key f)) (fk_addr_a (fl_key f))) /\
    c_str dst' = Some (addr_str (fk_ip_version (fl_key f)) (fk_addr_b (fl_key f))) /\
    length src' = length src /\ length dst' = length dst.
Proof.
  intros Hf Hs Hd. destruct (ff_addr_a f Hf) as [A1 A2]. destruct (ff_addr_b f Hf) as [B1 B2].
  destruct (c_addr junk Hjunk (fk_ip_version (fl_key f)) _ A1 A2 _ Hs) as (s' & Es & Ecs & Hls).
  destruct (c_addr junk Hjunk (fk_ip_version (fl_key f)) _ B1 B2 _ Hd) as (d' & Ed & Ecd & Hld).
  exists s', d'. split; [|exact (conj Ecs (conj Ecd (conj Hls Hld)))].
  unfold tunnel_endpoints. rewrite Es. cbn [mbind option_bind]. by rewrite Ed.
Qed.

Lemma tunnel_csv_row_ok f : flow_fits f -> tunnel_csv_row junk f = Some (csv_line (tunnel_csv_fields f)).
Proof.
  intros Hf. assert (Hj : Z.of_nat (length (junk ADDR_STR_LEN)) = ADDR_STR_LEN) by (by rewrite Hjunk).
  destruct (tunnel_endpoints_ok f _ _ Hf Hj Hj) as (s' & d' & E & Ecs & Ecd & _).
  unfold tunnel_csv_row. rewrite E. cbn [mbind option_bind]. rewrite Ecs. cbn [mbind option_bind].
  rewrite Ecd. cbn [mbind option_bind]. f_equal.
  unfold csv_line, tunnel_csv_fields, join_on. cbn [map concat].
  change comma with [44]. rewrite <- !app_assoc. cbn [app]. by rewrite <- ?app_assoc.
Qed.
End Rows.

Lemma csv_rows_ok row (fields : flow -> list bytes) fs out :
  (forall f, f ∈ fs -> row f = Some (csv_line (fields f))) ->
  exists out', csv_rows row fs out = Some out' /\ wrote out (concat (map csv_line (map fields fs))) out'.
Proof.
  revert out. induction fs as [|f fs IH]; intros out Hr; cbn [csv_rows].
  { exists out. split; [done|apply wrote_nil]. }
  rewrite Hr by (by left). cbn [mbind option_bind].
  destruct (IH (fprintf out (csv_line (fields f)))) as (out' & -> & Hw); [intros; apply Hr; by right|].
  exists out'. split; [done|]. eapply wrote_app; [apply wrote_fprintf|done].
Qed.

(** ** Both reports *)

(** The flows of a table in ranking order. *)
Definition ranked (t : flow_table) (fs : list flow) : Prop :=
  StronglySorted (fun a b => rank_cmp a b < 0) fs /\ NoDup (map fl_key fs) /\
  forall k f, tmap t !! k = Some f <-> f ∈ fs /\ fl_key f = k.

Definition table_fits (t : flow_table) : Prop := forall k f, tmap t !! k = Some f -> flow_fits f.

Lemma ranked_perm t fs gs : ranked t fs -> ranked t gs -> fs ≡ₚ gs.
Proof.
  intros (_ & N1 & M1) (_ & N2 & M2). apply NoDup_Permutation; [by eapply NoDup_fmap_1..|].
  intros f. split; intros Hf; [by apply (M2 (fl_key f)), M1|by apply (M1 (fl_key f)), M2].
Qed.

(** There is one ranking of a table. *)
Lemma ranked_unique t fs gs : table_ok t -> ranked t fs -> ranked t gs -> fs = gs.
Proof.
  intros Ht Hf Hg. pose proof (ranked_perm _ _ _ Hf Hg) as Hp.
  apply (StronglySorted_unique_strong (fun a b => rank_cmp a b < 0)); [|apply Hf|apply Hg|done].
  intros x y Hx Hy Hxy Hyx. destruct Hf as (_ & _ & M1), Hg as (_ & _ & M2).
  assert (Hwf : Forall flow_wf (entries (ft_slots t))) by (by apply entries_wf).
  assert (Hin : forall z, z ∈ fs -> z ∈ entries (ft_slots t)).
  { intros z Hz. apply (slots_map_lookup (ft_slots t) (fl_key z)); [apply Ht|]. by apply M1. }
  rewrite <- Hp in Hy. apply (rank_antisym (entries (ft_slots t))); [done|apply Ht|by apply Hin|by apply Hin|unfold above; lia..].
Qed.

Lemma ranked_qsort `{QSort} t : table_ok t -> ranked t (qsort rank_cmp (entries (ft_slots t))).
Proof.
  intros Ht. pose proof (entries_wf t Ht) as Hwf. pose proof (so_keys _ _ (to_slots _ Ht)) as Hnd.
  split; [by apply strict_ranking|]. split; [by rewrite qsort_perm|]. intros k f. rewrite qsort_perm.
  apply slots_map_lookup, Ht.
Qed.

(** Selecting the [n] largest flows gives the start of the ranking. *)
Lemma top_of_ranking `{QSort} t fs n :
  table_ok t -> ranked t fs -> flow_table_top_n t n = Some (take n fs).
Proof.
  intros Ht Hr. pose proof (entries_wf t Ht) as Hwf. pose proof (so_keys _ _ (to_slots _ Ht)) as Hnd.
  rewrite (ranked_unique t fs (qsort rank_cmp (entries (ft_slots t)))) by auto using ranked_qsort.
  unfold flow_table_top_n. case_bool_decide as Hn; [by rewrite Hn|].
  rewrite flow_iter_entries by done. cbn [mbind option_bind].
  destruct (top_n_entries (entries (ft_slots t)) n Hwf Hnd) as (out & -> & Eo); [lia|]. cbn. by rewrite Eo.
Qed.

Lemma ranked_count t fs : table_ok t -> ranked t fs -> Z.of_nat (length fs) = ft_count t.
Proof.
  intros Ht (_ & N & M). rewrite (to_count _ Ht). f_equal. apply Permutation_length, NoDup_Permutation.
  - by eapply NoDup_fmap_1.
  - eapply NoDup_fmap_1. apply (so_keys _ _ (to_slots _ Ht)).
  - intros f. split; intros Hf.
    + apply (slots_map_lookup (ft_slots t) (fl_key f)); [apply Ht|]. by apply M.
    + apply (M (fl_key f)). apply (slots_map_lookup (ft_slots t) (fl_key f)); [apply Ht|done].
Qed.

Section Write.
Context `{QSort}.

Lemma rank_all t :
  table_ok t ->
  exists fs, (if ft_count t >? 0 then flow_table_top_n t (Z.to_nat (ft_count t)) else Some []) = Some fs /\
    ranked t fs /\ Z.of_nat (length fs) = ft_count t.
Proof.
  intros Ht. pose proof (ranked_qsort t Ht) as Hr. set (fs := qsort rank_cmp (entries (ft_slots t))) in *.
  pose proof (ranked_count t fs Ht Hr) as Hc. exists fs. split; [|done].
  destruct (Z.gtb_spec (ft_count t) 0).
  - rewrite (top_of_ranking t fs) by done. f_equal. apply take_ge. lia.
  - by destruct fs; [|cbn in Hc; lia].
Qed.

Lemma write_rows_ok header row (fields : flow -> list bytes) out t alloc os :
  table_ok t -> table_fits t -> (forall f, flow_fits f -> row f = Some (csv_line (fields f))) ->
  exists rc out' fs, write_rows header row out t alloc os = Some (rc, out', os) /\ ranked t fs /\
    ((ft_count t > 0 /\ alloc = false /\ rc = -1 /\ out' = out) \/
     (~ (ft_count t > 0 /\ alloc = false) /\ rc = (if o_error out' then -1 else 0) /\
      wrote out (header ++ concat (map csv_line (map fields fs))) out')).
Proof.
  intros Ht Hfit Hrow. destruct (rank_all t Ht) as (fs & E & Hr & Hlen).
  destruct (csv_rows_ok row fields fs (fprintf out header)) as (o2 & E2 & Hw).
  { intros f Hf. apply Hrow, (Hfit (fl_key f)). by apply Hr. }
  unfold write_rows. destruct (Z.gtb_spec (ft_count t) 0) as [Hpos|Hz]; cbn [andb];
    [destruct alloc; cbn [negb]|].
  2:{ exists (-1), out, fs. split; [done|]. split; [done|]. left. split; [lia|done]. }
  all: cbv zeta; rewrite E; cbn [mbind option_bind]; rewrite E2; cbn [mbind option_bind]; unfold ferror; rewrite ?free_malloc;
    eexists _, _, fs; split; [done|]; split; [done|]; right; split; [by intros [? ?]|split; [done|]];
    eapply wrote_app; [apply wrote_fprintf|done].
Qed.
End Write.

(** ** Reading a CSV file *)
Definition ip_bytes (v : Z) (addr : bytes) : bytes := if v =? 4 then take 4 addr else addr.
Definition read_ip (v : Z) (text : bytes) : bytes := if v =? 4 then read_ipv4 text else read_ipv6 text.
Definition read_proto (text : bytes) : Z :=
  if bool_decide (text = str "TCP") then 6 else if bool_decide (text = str "UDP") then 17
  else if bool_decide (text = str "ICMP") then 1 else if bool_decide (text = str "ICMPv6") then 58
  else value 10 text.
Definition read_flags (text : bytes) : Z :=
  foldr (fun bit n => (if bool_decide (default 0 (letters !! bit) ∈ text) then 2 ^ Z.of_nat bit else 0) + n)
        0 (seq 0 8).
Definition read_ns (text : bytes) : Z :=
  match split_on 46 text with [s; ns] => value 10 s * NS_PER_SEC + value 10 ns | _ => 0 end.

(** What a row of the flow CSV says. *)
Record flow_view := Flow_view {
  fv_src : bytes; fv_src_port : Z; fv_dst : bytes; fv_dst_port : Z; fv_proto : Z; fv_version : Z;
  fv_packets : Z; fv_bytes : Z; fv_first : Z; fv_last : Z; fv_duration : Z; fv_flags : Z
}.
Definition view_of (f : flow) : flow_view :=
  let v := fk_ip_version (fl_key f) in
  Flow_view (ip_bytes v (sender f).1) (sender f).2 (ip_bytes v (receiver f).1) (receiver f).2
    (fk_proto (fl_key f)) v (fl_packets f) (fl_bytes f) (fl_first_ts_ns f) (fl_last_ts_ns f) (duration f)
    (if fk_proto (fl_key f) =? 6 then fl_tcp_flags f else 0).
Definition read_row (row : list bytes) : option flow_view :=
  match row with
  | [src; sport; dst; dport; proto; v; packets; len; first; last; dur; flags] =>
    let v := value 10 v in
    Some (Flow_view (read_ip v src) (value 10 sport) (read_ip v dst) (value 10 dport) (read_proto proto) v
            (value 10 packets) (value 10 len) (read_ns first) (read_ns last) (read_ns dur) (read_flags flags))
  | _ => None
  end.

(** What a row of the tunnel CSV says. *)
Record tunnel_view := Tunnel_view {
  tv_teid : Z; tv_src : bytes; tv_dst : bytes; tv_version : Z;
  tv_packets : Z; tv_bytes : Z; tv_first : Z; tv_last : Z; tv_duration : Z
}.
Definition tunnel_view_of (f : flow) : tunnel_view :=
  let v := fk_ip_version (fl_key f) in
  Tunnel_view (fk_teid (fl_key f)) (ip_bytes v (fk_addr_a (fl_key f))) (ip_bytes v (fk_addr_b (fl_key f))) v
    (fl_packets f) (fl_bytes f) (fl_first_ts_ns f) (fl_last_ts_ns f) (duration f).
Definition read_tunnel_row (row : list bytes) : option tunnel_view :=
  match row with
  | [teid; src; dst; v; packets; len; first; last; dur] =>
    let v := value 10 v in
    Some (Tunnel_view (value 16 (drop 2 teid)) (read_ip v src) (read_ip v dst) v
            (value 10 packets) (value 10 len) (read_ns first) (read_ns last) (read_ns dur))
  | _ => None
  end.

(** A whole file: the header line, then one row per line. *)
Definition read_csv {A} (header : bytes) (read : list bytes -> option A) (text : bytes) : option (list A) :=
  match csv_rows_of text with
  | h :: rows => if bool_decide (csv_rows_of header = [h; [[]]]) then mapM read (removelast rows) else None
  | [] => None
  end.

Definition flags_ok (n : nat) : bool := read_flags (flags_str (Z.of_nat n)) =? Z.of_nat n.
Definition proto_ok (n : nat) : bool := read_proto (proto_str (Z.of_nat n)) =? Z.of_nat n.

Lemma all_flags_ok : forallb flags_ok (seq 0 256) = true.
Proof. vm_compute. reflexivity. Qed.
Lemma all_protos_ok : forallb proto_ok (seq 0 256) = true.
Proof. vm_compute. reflexivity. Qed.

(** A check of the 256 values of a byte. *)
Lemma byte_check (p : nat -> bool) n : forallb p (seq 0 256) = true -> is_byte n -> p (Z.to_nat n) = true.
Proof.
  intros H Hn. rewrite forallb_forall in H. apply H, in_seq. unfold is_u in Hn. lia.
Qed.

Lemma read_flags_str flags : is_byte flags -> read_flags (flags_str flags) = flags.
Proof.
  intros Hf. pose proof (byte_check _ _ all_flags_ok Hf) as E. unfold flags_ok in E.
  rewrite Z2Nat.id in E by apply Hf. by apply Z.eqb_eq.
Qed.
Lemma read_proto_str p : is_byte p -> read_proto (proto_str p) = p.
Proof.
  intros Hf. pose proof (byte_check _ _ all_protos_ok Hf) as E. unfold proto_ok in E.
  rewrite Z2Nat.id in E by apply Hf. by apply Z.eqb_eq.
Qed.

Lemma ns_parts t : is_u 64 t -> is_u 64 (t / NS_PER_SEC) /\ is_u 32 (t mod NS_PER_SEC) /\ t mod NS_PER_SEC < 10 ^ 9.
Proof. unfold is_u, NS_PER_SEC. intros Ht. Z.to_euclidean_division_equations. lia. Qed.

Lemma read_ns_text t : is_u 64 t -> read_ns (ns_text t) = t.
Proof.
  intros Ht. destruct (ns_parts t Ht) as (Hs & Hn & _). unfold read_ns, ns_text. change (str ".") with [46].
  cbn [app]. rewrite split_on_app by (apply digits_not_elem; [apply dec_chars|apply not_digit_dot]).
  rewrite split_on_end by (apply digits_not_elem; [apply zero_pad_chars, dec_chars|apply not_digit_dot]).
  rewrite value_zero_pad, wrap_small, !dec_value by (done || by apply u32_u64).
  unfold NS_PER_SEC. rewrite Z.mul_comm. symmetry. by apply Z.div_mod.
Qed.

Lemma read_ip_str v a :
  v = 4 \/ v = 6 -> length a = 16%nat -> Forall is_byte a -> read_ip v (addr_str v a) = ip_bytes v a.
Proof.
  intros [-> | ->] Ha Hb.
  - change (read_ipv4 (quad (octet a 0) (octet a 1) (octet a 2) (octet a 3)) = take 4 a).
    rewrite quad_values by (by apply octet_is_byte).
    by do 4 (destruct a as [|? a]; [discriminate|]).
  - by apply read_ipv6_str.
Qed.

Lemma duration_u64 f : is_u 64 (duration f).
Proof. apply wrap_is_u. lia. Qed.
Lemma version_value v : v = 4 \/ v = 6 -> value 10 (dec v) = v.
Proof. by intros [-> | ->]. Qed.

Lemma read_row_ok f : flow_fits f -> read_row (csv_fields f) = Some (view_of f).
Proof.
  intros Hf. destruct (endpoint_addrs f Hf) as [(S1 & S2 & S3) (R1 & R2 & R3)]. destruct Hf.
  unfold read_row, csv_fields, view_of. rewrite version_value, !read_ip_str by done.
  rewrite read_proto_str, !read_ns_text, !dec_value by first [done | apply duration_u64 | by apply u32_u64, u16_u32].
  f_equal. f_equal. destruct (_ =? 6); [by apply read_flags_str|done].
Qed.

Lemma read_tunnel_row_ok f : flow_fits f -> read_tunnel_row (tunnel_csv_fields f) = Some (tunnel_view_of f).
Proof.
  intros Hf. destruct Hf as [Ht Hv _ _ _ [A1 A2] [B1 B2] _ Hp Hb H1 H2].
  unfold read_tunnel_row, tunnel_csv_fields, tunnel_view_of. rewrite version_value, !read_ip_str by done.
  rewrite !read_ns_text, !dec_value by first [done | apply duration_u64].
  match goal with |- context [drop 2 (str "0x" ++ ?z)] => change (drop 2 (str "0x" ++ z)) with z end.
  by rewrite value_zero_pad, hex_value by (by apply u32_u64).
Qed.

Lemma read_csv_lines {A} header (cols : list bytes) (read : list bytes -> option A) (fields : flow -> list bytes) view fs :
  header = csv_line cols -> cols <> [] -> Forall (Forall plain) cols ->
  (forall f, f ∈ fs -> read (fields f) = Some (view f)) ->
  (forall f, fields f <> [] /\ Forall (Forall plain) (fields f)) ->
  read_csv header read (header ++ concat (map csv_line (map fields fs))) = Some (map view fs).
Proof.
  intros -> Hc Hp Hr Hf. unfold read_csv.
  change (csv_line cols ++ concat (map csv_line (map fields fs))) with
    (concat (map csv_line (cols :: map fields fs))).
  rewrite csv_rows_of_lines.
  2:{ constructor; [done|]. apply Forall_map, Forall_forall. intros f _. apply Hf. }
  cbn [app]. rewrite <- (app_nil_r (csv_line cols)).
  change (csv_line cols ++ []) with (concat (map csv_line [cols])).
  rewrite csv_rows_of_lines by (by repeat constructor). rewrite bool_decide_true by done.
  rewrite removelast_last. induction fs as [|f fs IH]; [done|]. cbn [map mapM].
  rewrite Hr by (by left). cbn [mbind option_bind]. rewrite IH by (intros; apply Hr; by right). done.
Qed.

(** ** Properties *)
Definition csv_cols : list bytes :=
  map str ["src_addr"; "src_port"; "dst_addr"; "dst_port"; "protocol"; "ip_version"; "packets"; "bytes";
           "first_ts"; "last_ts"; "duration_s"; "tcp_flags"]%string.
Definition tunnel_csv_cols : list bytes :=
  map str ["teid"; "src_addr"; "dst_addr"; "ip_version"; "packets"; "bytes"; "first_ts"; "last_ts";
           "duration_s"]%string.

(** The text of a CSV: a line of column names and a line for each flow. *)
Definition csv_text (cols : list bytes) (fields : flow -> list bytes) (fs : list flow) : bytes :=
  concat (map csv_line (cols :: map fields fs)).

(** What a CSV report does, for any kind of row. *)
Definition report_reads_back {A} (cols : list bytes) (fields : flow -> list bytes) (read : list bytes -> option A)
    (view : flow -> A) (out : ostream) (t : flow_table) (alloc : bool) (rc : Z) (out' : ostream)
    (fs : list flow) : Prop :=
  ranked t fs /\ (rc = 0 \/ rc = -1) /\
  (rc = -1 <-> (ft_count t > 0 /\ alloc = false) \/ o_error out' = true) /\
  (ft_count t > 0 -> alloc = false -> out' = out) /\
  o_flush out' = o_flush out /\
  (o_error out = false -> takes_all out -> alloc = true -> rc = 0) /\
  (rc = 0 -> let text := csv_text cols fields fs in
     o_text out' = o_text out ++ text /\
     csv_rows_of text = cols :: map fields fs ++ [[[]]] /\
     read_csv (csv_line cols) read text = Some (map view fs)).

Lemma write_rows_reads_back `{QSort} {A} cols (row : flow -> option bytes) fields (read : list bytes -> option A)
    view out t alloc os :
  table_ok t -> table_fits t -> cols <> [] -> Forall (Forall plain) cols ->
  (forall f, flow_fits f -> row f = Some (csv_line (fields f))) ->
  (forall f, flow_fits f -> read (fields f) = Some (view f)) ->
  (forall f, fields f <> [] /\ Forall (Forall plain) (fields f)) ->
  exists rc out' fs, write_rows (csv_line cols) row out t alloc os = Some (rc, out', os) /\
    report_reads_back cols fields read view out t alloc rc out' fs.
Proof.
  intros Ht Hfit Hne Hp Hrow Hread Hf.
  destruct (write_rows_ok (csv_line cols) row fields out t alloc os Ht Hfit Hrow)
    as (rc & out' & fs & E & Hr & Hcase).
  exists rc, out', fs. split; [done|]. split; [done|].
  destruct Hcase as [(Hc & Ha & -> & ->)|(Hc & -> & Hw)].
  { split; [by right|]. split; [split; [by left|done]|]. split; [done|]. split; [done|]. split; [congruence|done]. }
  split; [destruct (o_error out'); auto|]. split.
  { destruct (o_error out'); split; try done; [by right|]. intros [?|?]; done. }
  split; [intros H1 H2; by destruct Hc|]. split; [apply Hw|]. split.
  { intros He Hnf _. destruct (wr_all _ _ _ Hw Hnf) as (_ & -> & _). by rewrite He. }
  destruct (o_error out') eqn:Eo; [done|]. intros _. destruct (wr_ok _ _ _ Hw Eo) as [_ Hd].
  split; [exact Hd|]. split.
  - apply csv_rows_of_lines. constructor; [done|]. apply Forall_map, Forall_forall. intros f _. apply Hf.
  - eapply read_csv_lines; try done. intros f Hin. apply Hread, (Hfit (fl_key f)). by apply Hr.
Qed.

Lemma report_csv_spec `{QSort} junk out t alloc os :
  (forall n, 0 <= n -> length (junk n) = Z.to_nat n) -> table_ok t -> table_fits t ->
  exists rc out' fs, report_csv junk out t alloc os = Some (rc, out', os) /\
    report_reads_back csv_cols csv_fields read_row view_of out t alloc rc out' fs.
Proof.
  intros Hj Ht Hf. unfold report_csv. change csv_header with (csv_line csv_cols).
  apply write_rows_reads_back; try done.
  - repeat (constructor; [plain_lit|]). constructor.
  - intros f. by apply csv_row_ok.
  - apply read_row_ok.
  - intros f. split; [done|apply csv_fields_plain].
Qed.

(** C13. The flow CSV reads back to the flow table. [report_csv] fails (-1) exactly
    when its array cannot be allocated, and then writes nothing, or when the
    stream has an error; when it succeeds, what it appended to the stream is a
    CSV text whose header names the columns and whose rows, read field by field,
    are the flows of the table, each exactly once and in ranking order: the
    sender and receiver of the first packet with their ports, the protocol, the
    counters, the timestamps to the nanosecond and the TCP flags.  Its array is freed
    on every path. *)
Theorem report_csv_reads_back `{QSort} junk out t alloc os :
  (forall n, 0 <= n -> length (junk n) = Z.to_nat n) -> table_ok t -> table_fits t ->
  exists rc out' fs, report_csv junk out t alloc os = Some (rc, out', os) /\
    report_reads_back csv_cols csv_fields read_row view_of out t alloc rc out' fs.
Proof. apply report_csv_spec. Qed.

Lemma report_tunnels_csv_spec `{QSort} junk out t alloc os :
  (forall n, 0 <= n -> length (junk n) = Z.to_nat n) -> table_ok t -> table_fits t ->
  exists rc out' fs, report_tunnels_csv junk out t alloc os = Some (rc, out', os) /\
    report_reads_back tunnel_csv_cols tunnel_csv_fields read_tunnel_row tunnel_view_of out t alloc rc out' fs.
Proof.
  intros Hj Ht Hf. unfold report_tunnels_csv. change tunnel_csv_header with (csv_line tunnel_csv_cols).
  apply write_rows_reads_back; try done.
  - repeat (constructor; [plain_lit|]). constructor.
  - intros f. by apply tunnel_csv_row_ok.
  - apply read_tunnel_row_ok.
  - intros f. split; [done|apply tunnel_csv_fields_plain].
Qed.

(** C28. The tunnel CSV reads back to the tunnel table, in the same sense: TEID,
    outer source and destination, counters and timestamps of every tunnel. *)
Theorem report_tunnels_csv_reads_back `{QSort} junk out t alloc os :
  (forall n, 0 <= n -> length (junk n) = Z.to_nat n) -> table_ok t -> table_fits t ->
  exists rc out' fs, report_tunnels_csv junk out t alloc os = Some (rc, out', os) /\
    report_reads_back tunnel_csv_cols tunnel_csv_fields read_tunnel_row tunnel_view_of out t alloc rc out' fs.
Proof. apply report_tunnels_csv_spec. Qed.
