(* ===== verification/Tables.v ===== *)
(** The top-N tables, the summary and the GTP-U section: what they print, and that
    printing them has no undefined behaviour. *)
From Stdlib Require Import String SpecFloat.
From S2P Require Export Csv StatsProps.
From stdpp Require Export list sets.
#[global] Open Scope Z_scope.

(** ** Tables *)

(** A column as wide as its widest entry. *)
Definition width_of (w0 : Z) (texts : list bytes) : Z :=
  foldl (fun w s => Z.max w (Z.of_nat (length s))) w0 texts.

Lemma width_of_ge w0 texts : w0 <= width_of w0 texts /\ Forall (fun s => Z.of_nat (length s) <= width_of w0 texts) texts.
Proof.
  unfold width_of. revert w0. induction texts as [|s texts IH]; intros w0; cbn; [split; [lia|constructor]|].
  destruct (IH (Z.max w0 (Z.of_nat (length s)))) as [H1 H2]. split; [lia|]. constructor; [lia|done].
Qed.

Section Table.
Context (endpoints : flow -> bytes -> bytes -> option (bytes * bytes)) (size : Z).
Context (src_text dst_text : flow -> bytes) (top : list flow).
Context (Hend : forall f src dst, f ∈ top -> Z.of_nat (length src) = size -> Z.of_nat (length dst) = size ->
  exists src' dst', endpoints f src dst = Some (src', dst') /\
    c_str src' = Some (src_text f) /\ c_str dst' = Some (dst_text f) /\
    length src' = length src /\ length dst' = length dst).

Lemma widen_max w l : widen w l = Z.max w l.
Proof. unfold widen. destruct (Z.gtb_spec l w); lia. Qed.

Lemma column_widths_ok fs src dst sw dw :
  fs ⊆ top -> Z.of_nat (length src) = size -> Z.of_nat (length dst) = size ->
  exists src' dst', column_widths endpoints fs src dst sw dw =
      Some (src', dst', width_of sw (map src_text fs), width_of dw (map dst_text fs)) /\
    Z.of_nat (length src') = size /\ Z.of_nat (length dst') = size.
Proof.
  revert src dst sw dw. induction fs as [|f fs IH]; intros src dst sw dw Hsub Hs Hd; cbn [column_widths].
  { exists src, dst. done. }
  destruct (Hend f src dst) as (s' & d' & -> & Es & Ed & Hls & Hld); [set_solver|done|done|].
  cbn [mbind option_bind]. unfold strlen. rewrite Es. cbn [mbind option_bind]. rewrite Ed.
  cbn [mbind option_bind map width_of foldl]. rewrite !widen_max.
  destruct (IH s' d' (Z.max sw (Z.of_nat (length (src_text f)))) (Z.max dw (Z.of_nat (length (dst_text f)))))
    as (s2 & d2 & E & Hs2 & Hd2); [set_solver|congruence|congruence|].
  exists s2, d2. split; [exact E|done].
Qed.

Lemma print_rows_ok row (text : Z -> flow -> bytes) fs i src dst out :
  fs ⊆ top -> (forall i f, f ∈ top -> row i f (src_text f) (dst_text f) = Some (text i f)) ->
  Z.of_nat (length src) = size -> Z.of_nat (length dst) = size ->
  exists out', print_rows endpoints row i fs src dst out = Some out' /\
    wrote out (concat (imap (fun n f => text (i + Z.of_nat n) f) fs)) out'.
Proof.
  intros Hsub Hrow. revert i src dst out Hsub. induction fs as [|f fs IH]; intros i src dst out Hsub Hs Hd;
    cbn [print_rows]; [exists out; split; [done|apply wrote_nil]|].
  destruct (Hend f src dst) as (s' & d' & -> & Es & Ed & Hls & Hld); [set_solver|done|done|].
  cbn [mbind option_bind]. rewrite Es. cbn [mbind option_bind]. rewrite Ed. cbn [mbind option_bind].
  rewrite Hrow by set_solver. cbn [mbind option_bind].
  destruct (IH (i + 1) s' d' (fprintf out (text i f))) as (out' & -> & Hw); [set_solver|congruence|congruence|].
  exists out'. split; [done|]. cbn. rewrite Z.add_0_r. eapply wrote_app; [apply wrote_fprintf|].
  replace (imap ((fun n g => text (i + Z.of_nat n) g) ∘ S) fs) with (imap (fun n g => text (i + 1 + Z.of_nat n) g) fs); [done|].
  apply imap_ext. intros n g _. cbn. f_equal. lia.
Qed.
End Table.

(** ** Rows *)
Definition flow_row_text (src_w dst_w i : Z) (f : flow) : bytes :=
  right_align 3 (dec (i + 1)) ++ str "  " ++ left_align 6 (proto_str (fk_proto (fl_key f))) ++ str "  " ++
  left_align (Z.to_nat src_w) (endpoint_str (fl_key f) (sender f).1 (sender f).2) ++ str "  " ++
  left_align (Z.to_nat dst_w) (endpoint_str (fl_key f) (receiver f).1 (receiver f).2) ++ str "  " ++
  right_align 8 (dec (fl_packets f)) ++ str "  " ++ right_align 10 (dec (fl_bytes f)) ++ str "  " ++
  right_align 12 (ms_text (duration f)) ++ str "  " ++
  (if fk_proto (fl_key f) =? 6 then flags_str (fl_tcp_flags f) else str "-") ++ newline.

Definition tunnel_row_text (src_w dst_w i : Z) (f : flow) : bytes :=
  right_align 3 (dec (i + 1)) ++ str "  0x" ++ zero_pad 8 (hex (fk_teid (fl_key f))) ++ str "  " ++
  left_align (Z.to_nat src_w) (addr_str (fk_ip_version (fl_key f)) (fk_addr_a (fl_key f))) ++ str "  " ++
  left_align (Z.to_nat dst_w) (addr_str (fk_ip_version (fl_key f)) (fk_addr_b (fl_key f))) ++ str "  " ++
  right_align 8 (dec (fl_packets f)) ++ str "  " ++ right_align 10 (dec (fl_bytes f)) ++ str "  " ++
  right_align 12 (ms_text (duration f)) ++ newline.

Lemma ms_text_ok t : is_u 64 t -> no_nul (ms_text t) /\ (length (ms_text t) <= 30)%nat.
Proof.
  intros Ht. destruct (ns_parts t Ht) as (Hs & _ & _). unfold ms_text.
  pose proof (dec_u64_length _ Hs) as H1.
  assert (Hm : 0 <= t mod NS_PER_SEC / 1000000 < 10 ^ Z.of_nat 3).
  { unfold NS_PER_SEC. change (10 ^ Z.of_nat 3) with 1000. Z.to_euclidean_division_equations. lia. }
  rewrite wrap_small by (unfold is_u; lia). pose proof (dec_short_length _ 3 ltac:(lia) Hm) as H2.
  split; [repeat first [apply no_nul_zero_pad | apply no_nul_app | apply no_nul_dec | by repeat constructor]|].
  rewrite !length_app, zero_pad_length by lia. cbn [str length]. lia.
Qed.

Section Rows.
Context (junk : Z -> bytes) (Hjunk : forall n, 0 <= n -> length (junk n) = Z.to_nat n).

Lemma duration_string f :
  exists n dur, snprintf (junk 32) 0 32 (ms_text (duration f)) = Some (n, dur) /\ c_str dur = Some (ms_text (duration f)).
Proof.
  destruct (ms_text_ok _ (duration_u64 f)) as [Hn Hl].
  destruct (fits_buffer (junk 32) 32 (ms_text (duration f))) as (E & Ec & _); [by apply junk_len|lia|done|].
  eexists _, _. split; [exact E|exact Ec].
Qed.

Lemma flow_row_ok sw dw i f :
  flow_fits f ->
  flow_row junk sw dw i f (endpoint_str (fl_key f) (sender f).1 (sender f).2)
    (endpoint_str (fl_key f) (receiver f).1 (receiver f).2) = Some (flow_row_text sw dw i f).
Proof.
  intros Hf. destruct (duration_string f) as (n & dur & E & Ed). unfold flow_row, flow_row_flags.
  change IPPROTO_NUM_TCP with 6.
  assert (Hflags : exists b, (if fk_proto (fl_key f) =? 6
      then format_tcp_flags (fl_tcp_flags f) (junk 9)
      else '(_, buf) ← snprintf (junk 9) 0 9 (str "-"); Some buf) = Some b /\
      c_str b = Some (if fk_proto (fl_key f) =? 6 then flags_str (fl_tcp_flags f) else str "-")).
  { destruct (_ =? 6).
    - destruct (format_tcp_flags_str (fl_tcp_flags f) (junk 9)) as (b & Eb & Ecb & _);
        [by rewrite Hjunk|]. exists b. split; [exact Eb|exact Ecb].
    - destruct (fits_buffer (junk 9) 9 (str "-")) as (Eb & Ec & _);
        [by apply junk_len|cbn; lia|by repeat constructor|].
      rewrite Eb. eexists. split; [reflexivity|exact Ec]. }
  destruct Hflags as (b & -> & Eb). cbn [mbind option_bind]. rewrite Eb. cbn [mbind option_bind].
  rewrite E. cbn [mbind option_bind]. rewrite Ed. cbn [mbind option_bind].
  by rewrite (proto_name_ok junk Hjunk _ (ff_proto f Hf)).
Qed.

Lemma tunnel_row_ok sw dw i f :
  tunnel_row junk sw dw i f (addr_str (fk_ip_version (fl_key f)) (fk_addr_a (fl_key f)))
    (addr_str (fk_ip_version (fl_key f)) (fk_addr_b (fl_key f))) = Some (tunnel_row_text sw dw i f).
Proof.
  destruct (duration_string f) as (n & dur & E & Ed). unfold tunnel_row.
  rewrite E. cbn [mbind option_bind]. by rewrite Ed.
Qed.
End Rows.

(** ** Both tables *)
Definition flow_src (f : flow) : bytes := endpoint_str (fl_key f) (sender f).1 (sender f).2.
Definition flow_dst (f : flow) : bytes := endpoint_str (fl_key f) (receiver f).1 (receiver f).2.
Definition tunnel_src (f : flow) : bytes := addr_str (fk_ip_version (fl_key f)) (fk_addr_a (fl_key f)).
Definition tunnel_dst (f : flow) : bytes := addr_str (fk_ip_version (fl_key f)) (fk_addr_b (fl_key f)).

(** The lines of a table: nothing for no flows; otherwise a title, the column
    names and one row per flow, the endpoint columns as wide as their widest
    entry. *)
Definition flows_table (top : list flow) (flow_count : Z) : bytes :=
  let sw := width_of 3 (map flow_src top) in
  let dw := width_of 3 (map flow_dst top) in
  if bool_decide (top = []) then [] else
  (newline ++ str "Top " ++ dec (Z.of_nat (length top)) ++ str " of " ++ dec flow_count ++
   str " flows by bytes (src = sender of the first packet seen):" ++ newline) ++
  (right_align 3 (str "#") ++ str "  " ++ left_align 6 (str "proto") ++ str "  " ++
   left_align (Z.to_nat sw) (str "src") ++ str "  " ++ left_align (Z.to_nat dw) (str "dst") ++ str "  " ++
   right_align 8 (str "packets") ++ str "  " ++ right_align 10 (str "bytes") ++ str "  " ++
   right_align 12 (str "duration") ++ str "  " ++ str "tcp flags" ++ newline) ++
  concat (imap (fun n f => flow_row_text sw dw (0 + Z.of_nat n) f) top).

Definition tunnels_table (top : list flow) (tunnel_count : Z) : bytes :=
  let sw := width_of 3 (map tunnel_src top) in
  let dw := width_of 3 (map tunnel_dst top) in
  if bool_decide (top = []) then [] else
  (newline ++ str "Top " ++ dec (Z.of_nat (length top)) ++ str " of " ++ dec tunnel_count ++
   str " GTP-U tunnels by bytes (one direction each; the receiver chose the TEID):" ++ newline) ++
  (right_align 3 (str "#") ++ str "  " ++ left_align 10 (str "teid") ++ str "  " ++
   left_align (Z.to_nat sw) (str "src") ++ str "  " ++ left_align (Z.to_nat dw) (str "dst") ++ str "  " ++
   right_align 8 (str "packets") ++ str "  " ++ right_align 10 (str "bytes") ++ str "  " ++
   right_align 12 (str "duration") ++ newline) ++
  concat (imap (fun n f => tunnel_row_text sw dw (0 + Z.of_nat n) f) top).

Section Tables.
Context (junk : Z -> bytes) (Hjunk : forall n, 0 <= n -> length (junk n) = Z.to_nat n).

Lemma report_top_flows_ok out top flow_count :
  Forall flow_fits top ->
  exists out', report_top_flows junk out top flow_count = Some out' /\
    wrote out (flows_table top flow_count) out'.
Proof.
  intros Hf. rewrite Forall_forall in Hf. unfold report_top_flows, flows_table.
  destruct (bool_decide_reflect (top = [])); [exists out; split; [done|apply wrote_nil]|].
  assert (Hend := fun f src dst (Hin : f ∈ top) => flow_endpoints_ok junk Hjunk f src dst (Hf f Hin)).
  assert (Hj : Z.of_nat (length (junk ENDPOINT_STR_LEN)) = ENDPOINT_STR_LEN) by (by rewrite Hjunk).
  destruct (column_widths_ok (fun f s d => flow_endpoints junk f s d ENDPOINT_STR_LEN) ENDPOINT_STR_LEN
    flow_src flow_dst top Hend top _ _ 3 3 (reflexivity _) Hj Hj) as (s & d & E & Hs & Hd).
  rewrite E. cbn [mbind option_bind].
  set (sw := width_of 3 (map flow_src top)) in *. set (dw := width_of 3 (map flow_dst top)) in *.
  match goal with |- context [fprintf (fprintf out ?a) ?b] => set (t1 := a); set (t2 := b) end.
  destruct (print_rows_ok (fun f s d => flow_endpoints junk f s d ENDPOINT_STR_LEN) ENDPOINT_STR_LEN
    flow_src flow_dst top Hend (flow_row junk sw dw) (flow_row_text sw dw) top 0 s d
    (fprintf (fprintf out t1) t2) (reflexivity _)) as (out' & E2 & Hw); [|done|done|].
  { intros i f Hin. by apply flow_row_ok, Hf. }
  exists out'. split; [exact E2|].
  apply (wrote_app out t1 (fprintf out t1)); [apply wrote_fprintf|].
  by eapply wrote_app; [apply wrote_fprintf|].
Qed.

Lemma report_top_tunnels_ok out top tunnel_count :
  Forall flow_fits top ->
  exists out', report_top_tunnels junk out top tunnel_count = Some out' /\
    wrote out (tunnels_table top tunnel_count) out'.
Proof.
  intros Hf. rewrite Forall_forall in Hf. unfold report_top_tunnels, tunnels_table.
  destruct (bool_decide_reflect (top = [])); [exists out; split; [done|apply wrote_nil]|].
  assert (Hend := fun f src dst (Hin : f ∈ top) => tunnel_endpoints_ok junk Hjunk f src dst (Hf f Hin)).
  assert (Hj : Z.of_nat (length (junk ADDR_STR_LEN)) = ADDR_STR_LEN) by (by rewrite Hjunk).
  destruct (column_widths_ok (fun f s d => tunnel_endpoints junk f s d ADDR_STR_LEN) ADDR_STR_LEN
    tunnel_src tunnel_dst top Hend top _ _ 3 3 (reflexivity _) Hj Hj) as (s & d & E & Hs & Hd).
  rewrite E. cbn [mbind option_bind].
  set (sw := width_of 3 (map tunnel_src top)) in *. set (dw := width_of 3 (map tunnel_dst top)) in *.
  match goal with |- context [fprintf (fprintf out ?a) ?b] => set (t1 := a); set (t2 := b) end.
  destruct (print_rows_ok (fun f s d => tunnel_endpoints junk f s d ADDR_STR_LEN) ADDR_STR_LEN
    tunnel_src tunnel_dst top Hend (tunnel_row junk sw dw) (tunnel_row_text sw dw) top 0 s d
    (fprintf (fprintf out t1) t2) (reflexivity _)) as (out' & E2 & Hw); [|done|done|].
  { intros i f Hin. by apply tunnel_row_ok. }
  exists out'. split; [exact E2|].
  apply (wrote_app out t1 (fprintf out t1)); [apply wrote_fprintf|].
  by eapply wrote_app; [apply wrote_fprintf|].
Qed.

(** ** Timestamps *)
Definition utc_text (t : tm) (ts_ns : Z) : bytes :=
  date_text t ++ str "." ++ zero_pad 6 (dec (ts_ns mod NS_PER_SEC / 1000)) ++ str " UTC".

Lemma no_nul_date t : no_nul (date_text t).
Proof.
  unfold date_text. repeat first [apply no_nul_zero_pad | apply no_nul_app | apply no_nul_dec | by repeat constructor].
Qed.

(** The date and time printed are those of the timestamp. *)
Lemma print_utc_exact out ts_ns :
  is_u 64 ts_ns ->
  exists t, gmtime (ts_ns / NS_PER_SEC) = Some t /\
    print_utc junk out ts_ns = Some (fprintf out (utc_text t ts_ns)).
Proof.
  intros Ht. destruct (gmtime_ok (ts_ns / NS_PER_SEC)) as (t & E & Hy & (_ & Hm & Hd) & Hh & Hmi & Hse & _).
  { unfold is_u, NS_PER_SEC in *. Z.to_euclidean_division_equations. lia. }
  exists t. split; [done|]. unfold print_utc. rewrite E.
  assert (Hmd : month_days (tm_year t + 1900) (tm_mon t + 1) <= 31).
  { unfold month_days. repeat case_match; lia. }
  assert (Hl : (0 < length (date_text t) <= 19)%nat).
  { unfold date_text. rewrite !length_app. pose proof (dec_short_length (tm_year t + 1900) 4) as H4.
    change (10 ^ Z.of_nat 4) with 10000 in H4.
    rewrite !zero_pad_length; [cbn [str length]; lia|..];
      (apply dec_short_length; [lia|change (10 ^ Z.of_nat 2) with 100; lia]). }
  unfold strftime. destruct (Z.ltb_spec (Z.of_nat (length (date_text t))) 32); [|lia].
  unfold write_at. rewrite decide_True by (rewrite length_app, (Hjunk 32) by lia; cbn [length]; lia). cbn [mbind option_bind].
  destruct (Z.gtb_spec (Z.of_nat (length (date_text t))) 0); [|lia].
  rewrite take_0, <- (app_assoc (date_text t)). cbn [app]. rewrite c_str_app by apply no_nul_date.
  cbn [mbind option_bind]. rewrite wrap_small; [done|].
  unfold is_u, NS_PER_SEC in *. Z.to_euclidean_division_equations. lia.
Qed.

Lemma print_utc_ok out ts_ns :
  is_u 64 ts_ns ->
  exists t out', gmtime (ts_ns / NS_PER_SEC) = Some t /\ print_utc junk out ts_ns = Some out' /\
    wrote out (utc_text t ts_ns) out'.
Proof.
  intros Ht. destruct (print_utc_exact out ts_ns Ht) as (t & E & ->).
  eexists t, _. split; [done|]. split; [done|]. apply wrote_fprintf.
Qed.
End Tables.

(** ** Problems *)

(** One line for each status that occurred. *)
Definition problems_text (indent : bytes) (width : nat) (by_status : list Z) : bytes :=
  concat (map (fun st =>
    let n := bucket by_status st in
    if n >? 0 then indent ++ left_align width (str (decode_status_str st)) ++ space ++ dec n ++ newline else [])
    problem_statuses).

Lemma print_problems_ok out indent width by_status :
  length by_status = 28%nat ->
  exists out', print_problems out indent width by_status problem_statuses = Some out' /\
    wrote out (problems_text indent width by_status) out'.
Proof.
  intros Hl. unfold problems_text.
  assert (Hs : Forall (fun st => (Z.to_nat (status_val st) < 28)%nat) problem_statuses)
    by (unfold problem_statuses; repeat (constructor; [cbn; lia|]); constructor).
  revert out. induction Hs as [|st sts Hst _ IH]; intros out; cbn [print_problems map concat].
  { exists out. split; [done|apply wrote_nil]. }
  destruct (lookup_lt_is_Some_2 by_status (Z.to_nat (status_val st))) as [n E]; [lia|].
  assert (Hb : bucket by_status st = n) by (unfold bucket; by rewrite E).
  rewrite E. cbn [mbind option_bind]. rewrite Hb. cbv zeta.
  set (o1 := if n >? 0 then _ else out).
  assert (Hw : wrote out (if n >? 0 then indent ++ left_align width (str (decode_status_str st)) ++ space ++ dec n ++ newline else []) o1).
  { subst o1. destruct (n >? 0); [apply wrote_fprintf|apply wrote_nil]. }
  destruct (IH o1) as (out' & -> & Hw'). exists out'. split; [done|]. eapply wrote_app; [exact Hw|exact Hw'].
Qed.

(** ** The summary and the GTP-U section *)

(** Follow a sequence of [fprintf]s. *)
Ltac wrote_step :=
  lazymatch goal with
  | |- wrote ?out _ (fprintf ?out _) => apply wrote_fprintf
  | |- wrote ?out _ (fprintf ?o2 _) => eapply (wrote_app _ _ o2); [wrote_step|apply wrote_fprintf]
  | |- wrote ?out _ ?out => apply wrote_nil
  | H : wrote ?o1 _ ?o2 |- wrote ?out _ ?o2 => eapply (wrote_app _ _ o1); [wrote_step|exact H]
  end.

(** The lines on the file, its format and its size. *)
Definition head_text (path : bytes) (info : pcap_file_info) (s : stats) : bytes :=
  str "File:        " ++ path ++ newline ++
  str "Format:      pcap " ++ dec (fi_version_major info) ++ str "." ++ dec (fi_version_minor info) ++
  str ", " ++ str (if fi_big_endian info then "big" else "little") ++ str "-endian, " ++
  str (if fi_nsec info then "nanosecond" else "microsecond") ++ str " timestamps, snaplen " ++
  dec (fi_snaplen info) ++ str ", Ethernet" ++ newline ++
  str "Packets:     " ++ dec (st_packets s) ++ newline ++
  str "Bytes:       " ++ dec (st_wire_bytes s) ++ str " on the wire, " ++ dec (st_captured_bytes s) ++
  str " captured" ++ newline.

(** Packets and megabits per second over a span of time that is not 0. *)
Definition rates_text (s : stats) (span_ns : Z) : bytes :=
  let secs := double_div (double_of span_ns) (double_of 1000000000) in
  if SFltb (S754_zero false) secs then
    str " (" ++ fixed 1 (double_div (double_of (st_packets s)) secs) ++ str " packets/s, " ++
    fixed 3 (double_div (double_div (double_mul (double_of (st_wire_bytes s)) (double_of 8)) secs) (double_of 1000000)) ++
    str " Mbit/s)"
  else [].

(** A timestamp in UTC. *)
Definition utc (ts_ns : Z) : bytes :=
  match gmtime (ts_ns / NS_PER_SEC) with Some t => utc_text t ts_ns | None => us_text ts_ns end.

(** The lines on the times, printed when there are packets. *)
Definition times_text (s : stats) : bytes :=
  let span_ns := u64 (st_last_ts_ns s - st_first_ts_ns s) in
  str "First:       " ++ utc (st_first_ts_ns s) ++ newline ++
  str "Last:        " ++ utc (st_last_ts_ns s) ++ newline ++
  str "Duration:    " ++ us_text span_ns ++ str " s" ++ rates_text s span_ns ++ newline.

(** A counter and its share of all packets. *)
Definition share_text (part whole : Z) : bytes := dec part ++ str " (" ++ fixed 1 (pct part whole) ++ str "%)".

Definition counts_text (s : stats) (flow_count : Z) : bytes :=
  newline ++
  str "Network:     IPv4 " ++ share_text (st_ipv4 s) (st_packets s) ++
  str ", IPv6 " ++ share_text (st_ipv6 s) (st_packets s) ++
  str ", non-IP " ++ share_text (st_non_ip s) (st_packets s) ++ newline ++
  str "Transport:   TCP " ++ dec (st_tcp s) ++ str ", UDP " ++ dec (st_udp s) ++ str ", ICMP " ++ dec (st_icmp s) ++
  str ", ICMPv6 " ++ dec (st_icmpv6 s) ++ str ", other " ++ dec (st_other_l4 s) ++ newline ++
  str "VLAN:        " ++ dec (st_vlan_tagged s) ++ str " tagged frames" ++ newline ++
  str "Fragments:   " ++ dec (st_frag_first s) ++ str " first, " ++ dec (st_frag_later s) ++ str " non-first (" ++
  dec (st_frag_matched s) ++ str " matched to their first fragment's ports)" ++ newline ++
  str "Flows:       " ++ dec flow_count ++ newline ++
  str "Problems:    " ++ dec (st_truncated s) ++ str " truncated, " ++ dec (st_malformed s) ++
  str " malformed (excluded from flows)" ++ newline.

(** The summary: the times only when there are packets, one line for each problem
    that occurred. *)
Definition summary_text (path : bytes) (info : pcap_file_info) (s : stats) (flow_count : Z) : bytes :=
  head_text path info s ++ (if st_packets s >? 0 then times_text s else []) ++
  counts_text s flow_count ++ problems_text (str "  ") 40 (st_by_status s).

(** The GTP-U section: nothing for a capture without GTP-U. *)
Definition gtpu_text (g : gtpu_stats) (tunnel_count teids : Z) : bytes :=
  if (gs_packets g =? 0) && (gs_fragmented g =? 0) then [] else
  newline ++
  str "GTP-U:       " ++ dec (gs_packets g) ++ str " packets on UDP port 2152" ++ newline ++
  str "  Messages:  G-PDU " ++ dec (gs_gpdu g) ++ str ", echo request " ++ dec (gs_echo_request g) ++
  str ", echo response " ++ dec (gs_echo_response g) ++ str ", error indication " ++ dec (gs_error_indication g) ++
  str ", end marker " ++ dec (gs_end_marker g) ++ str ", other " ++ dec (gs_other_type g) ++ newline ++
  str "  Options:   sequence number in " ++ dec (gs_with_seq g) ++ str ", extension headers in " ++
  dec (gs_with_ext g) ++ newline ++
  str "  Inner IP:  IPv4 " ++ dec (gs_inner_ipv4 g) ++ str ", IPv6 " ++ dec (gs_inner_ipv6 g) ++
  str "; TCP " ++ dec (gs_inner_tcp g) ++ str ", UDP " ++ dec (gs_inner_udp g) ++ str ", ICMP " ++
  dec (gs_inner_icmp g) ++ str ", ICMPv6 " ++ dec (gs_inner_icmpv6 g) ++ str ", other " ++
  dec (gs_inner_other g) ++ newline ++
  str "  Tunnels:   " ++ dec tunnel_count ++ str " (" ++ dec teids ++ str " distinct TEIDs)" ++ newline ++
  str "  Skipped:   " ++ dec (gs_not_v1u g) ++ str " GTP' or other version, " ++ dec (gs_nested g) ++
  str " GTP-U in GTP-U, " ++ dec (gs_fragmented g) ++ str " fragmented datagrams on port 2152" ++ newline ++
  str "  Problems:  " ++ dec (u64 (gs_truncated g - gs_user_truncated g)) ++ str " truncated, " ++
  dec (u64 (gs_malformed g - gs_user_malformed g)) ++
  str " malformed in GTP-U headers (not added to tunnels)" ++ newline ++
  str "             " ++ dec (gs_user_truncated g) ++ str " truncated, " ++ dec (gs_user_malformed g) ++
  str " malformed in user packets (still added to tunnels)" ++ newline ++
  problems_text (str "    ") 38 (gs_by_status g).

(** The texts may be cut into calls of [fprintf] in any way. *)
Lemma wrote_eq out text text' out' : wrote out text' out' -> text = text' -> wrote out text out'.
Proof. by intros H ->. Qed.
Ltac same_text := repeat rewrite <- app_assoc; reflexivity.

Lemma summary_head_wrote out path info s : wrote out (head_text path info s) (summary_head out path info s).
Proof.
  unfold summary_head, head_text. eapply wrote_eq; [wrote_step|].
  destruct (fi_big_endian info), (fi_nsec info); same_text.
Qed.
Lemma summary_counts_wrote out s n : wrote out (counts_text s n) (summary_counts out s n).
Proof. unfold summary_counts, counts_text, share_text. eapply wrote_eq; [wrote_step|same_text]. Qed.
Lemma gtpu_counts_wrote out g n teids :
  (gs_packets g =? 0) && (gs_fragmented g =? 0) = false ->
  exists text, wrote out text (gtpu_counts out g n teids) /\
    gtpu_text g n teids = text ++ problems_text (str "    ") 38 (gs_by_status g).
Proof.
  intros Hg. unfold gtpu_counts, gtpu_text. rewrite Hg. eexists. split; [wrote_step|].
  change (dec GTPU_PORT) with (str "2152"). same_text.
Qed.

Lemma summary_rates_wrote out s span_ns :
  wrote out (rates_text s span_ns)
    (summary_rates out s (double_div (double_of span_ns) (double_of 1000000000))).
Proof. unfold summary_rates, rates_text. cbv zeta. destruct (SFltb _ _); [apply wrote_fprintf|apply wrote_nil]. Qed.

Lemma bind_some {A B} (m : option A) (f : A -> option B) a : m = Some a -> mbind f m = f a.
Proof. by intros ->. Qed.

Section Summary.
Context (junk : Z -> bytes) (Hjunk : forall n, 0 <= n -> length (junk n) = Z.to_nat n).

Lemma print_utc_wrote out ts_ns :
  is_u 64 ts_ns -> exists out', print_utc junk out ts_ns = Some out' /\ wrote out (utc ts_ns) out'.
Proof.
  intros Ht. destruct (print_utc_ok junk Hjunk out ts_ns Ht) as (t & out' & Et & E & W).
  exists out'. split; [exact E|]. unfold utc. by rewrite Et.
Qed.

Lemma summary_times_ok out s :
  is_u 64 (st_first_ts_ns s) -> is_u 64 (st_last_ts_ns s) ->
  exists out', summary_times junk out s (u64 (st_last_ts_ns s - st_first_ts_ns s)) = Some out' /\
    wrote out (times_text s) out'.
Proof.
  intros Hf Hl. unfold summary_times.
  destruct (print_utc_wrote (fprintf out (str "First:       ")) _ Hf) as (o2 & E2 & H2).
  rewrite (bind_some _ _ _ E2). clear E2.
  destruct (print_utc_wrote (fprintf o2 (newline ++ str "Last:        ")) _ Hl) as (o3 & E3 & H3).
  rewrite (bind_some _ _ _ E3). clear E3. cbv zeta.
  match goal with |- context [summary_rates ?o _ _] =>
    pose proof (summary_rates_wrote o s (u64 (st_last_ts_ns s - st_first_ts_ns s))) as H4 end.
  eexists. split; [reflexivity|]. eapply wrote_eq; [wrote_step|]. unfold times_text. same_text.
Qed.

Lemma report_summary_ok out path info s flow_count :
  length (st_by_status s) = 28%nat -> is_u 64 (st_first_ts_ns s) -> is_u 64 (st_last_ts_ns s) ->
  exists out', report_summary junk out path info s flow_count = Some out' /\
    wrote out (summary_text path info s flow_count) out'.
Proof.
  intros Hl Hf Hla. unfold report_summary, summary_text. pose proof (summary_head_wrote out path info s) as H1.
  set (o1 := summary_head out path info s) in *. clearbody o1.
  assert (H2 : exists o2, (if st_packets s >? 0 then summary_times junk o1 s
      (if negb (st_packets s =? 0) then u64 (st_last_ts_ns s - st_first_ts_ns s) else 0) else Some o1) = Some o2 /\
    wrote o1 (if st_packets s >? 0 then times_text s else []) o2).
  { destruct (Z.gtb_spec (st_packets s) 0).
    - destruct (Z.eqb_spec (st_packets s) 0); [lia|]. by apply summary_times_ok.
    - exists o1. split; [done|apply wrote_nil]. }
  destruct H2 as (o2 & -> & H2). cbn [mbind option_bind].
  pose proof (summary_counts_wrote o2 s flow_count) as H3.
  destruct (print_problems_ok (summary_counts o2 s flow_count) (str "  ") 40 _ Hl) as (out' & -> & H4).
  exists out'. split; [done|]. eapply wrote_eq; [wrote_step|]. same_text.
Qed.
End Summary.

(** The distinct TEIDs of a table, as a set. *)
Definition teids_of (t : flow_table) : gset Z := list_to_set (map (fun kf => fk_teid kf.1) (map_to_list (tmap t))).

Lemma report_gtpu_ok `{QSort} out s tunnels alloc os :
  table_ok tunnels -> length (gs_by_status (st_gtpu s)) = 28%nat ->
  exists rc out', report_gtpu out s tunnels alloc os = Some (rc, out', os) /\
    ((rc = -1 /\ out' = out /\ alloc = false) \/
     (rc = 0 /\ wrote out (gtpu_text (st_gtpu s) (ft_count tunnels) (Z.of_nat (size (teids_of tunnels)))) out')).
Proof.
  intros Ht Hl. unfold report_gtpu.
  destruct (_ && _) eqn:Eg.
  { exists 0, out. split; [done|]. right. split; [done|]. unfold gtpu_text. rewrite Eg. apply wrote_nil. }
  destruct (distinct_teids_spec tunnels alloc os Ht) as (rc & n & E & H1 & H2). rewrite E. cbn [mbind option_bind].
  destruct (Z.eqb_spec rc 0) as [Er|Er]; cbn [negb].
  2:{ exists (-1), out. split; [done|]. left. split; [done|]. split; [done|]. apply H1.
      destruct (Z.eq_dec rc (-1)) as [|Hne]; [done|]. by destruct (H2 Hne). }
  destruct (H2 ltac:(lia)) as (_ & ids & -> & Hids).
  assert (ids = teids_of tunnels) as ->.
  { apply set_eq. intros x. rewrite Hids. unfold teids_of. rewrite elem_of_list_to_set, list_elem_of_fmap. split.
    - intros (k & f & Hk & <-). exists (k, f). split; [done|]. by apply elem_of_map_to_list.
    - intros ([k f] & -> & Hk). exists k, f. split; [|done]. by apply elem_of_map_to_list. }
  destruct (gtpu_counts_wrote out (st_gtpu s) (ft_count tunnels) (Z.of_nat (size (teids_of tunnels))) Eg)
    as (t3 & H3 & ->).
  destruct (print_problems_ok (gtpu_counts out (st_gtpu s) (ft_count tunnels) (Z.of_nat (size (teids_of tunnels)))) (str "    ") 38 _ Hl)
    as (out' & -> & H4).
  exists 0, out'. split; [done|]. right. split; [done|]. exact (wrote_app _ _ _ _ _ H3 H4).
Qed.
