(* ===== verification/ReportAlike.v ===== *)
(** The reports (src/src/report.c) do not depend on what the arrays they format into
    held before: with two different contents they make the same calls of [fprintf],
    so they leave the same stream, whatever its device does. *)
From Stdlib Require Import String.
From S2P Require Export Tables.
From stdpp Require Export list.
#[global] Open Scope Z_scope.

Section Rows.
Context (end1 end2 : flow -> bytes -> bytes -> option (bytes * bytes)) (size : Z).
Context (src_text dst_text : flow -> bytes) (top : list flow).

(** Endpoints formatted into arrays of [size] bytes. *)
Definition formats (endpoints : flow -> bytes -> bytes -> option (bytes * bytes)) : Prop :=
  forall f src dst, f ∈ top -> Z.of_nat (length src) = size -> Z.of_nat (length dst) = size ->
  exists src' dst', endpoints f src dst = Some (src', dst') /\
    c_str src' = Some (src_text f) /\ c_str dst' = Some (dst_text f) /\
    length src' = length src /\ length dst' = length dst.
Context (H1 : formats end1) (H2 : formats end2).

Lemma print_rows_alike row1 row2 (text : Z -> flow -> bytes) fs i src1 dst1 src2 dst2 out :
  fs ⊆ top ->
  (forall i f, f ∈ top -> row1 i f (src_text f) (dst_text f) = Some (text i f)) ->
  (forall i f, f ∈ top -> row2 i f (src_text f) (dst_text f) = Some (text i f)) ->
  Z.of_nat (length src1) = size -> Z.of_nat (length dst1) = size ->
  Z.of_nat (length src2) = size -> Z.of_nat (length dst2) = size ->
  print_rows end1 row1 i fs src1 dst1 out = print_rows end2 row2 i fs src2 dst2 out.
Proof.
  intros Hsub R1 R2. revert i src1 dst1 src2 dst2 out Hsub.
  induction fs as [|f fs IH]; intros i src1 dst1 src2 dst2 out Hsub S1 D1 S2 D2; cbn [print_rows]; [done|].
  destruct (H1 f src1 dst1) as (s1 & d1 & -> & Es1 & Ed1 & Ls1 & Ld1); [set_solver|done|done|].
  destruct (H2 f src2 dst2) as (s2 & d2 & -> & Es2 & Ed2 & Ls2 & Ld2); [set_solver|done|done|].
  cbn [mbind option_bind]. rewrite Es1, Es2. cbn [mbind option_bind]. rewrite Ed1, Ed2. cbn [mbind option_bind].
  rewrite R1, R2 by set_solver. cbn [mbind option_bind]. apply IH; [set_solver|congruence..].
Qed.
End Rows.

Lemma csv_rows_alike row1 row2 fs out :
  (forall f, f ∈ fs -> row1 f = row2 f) -> csv_rows row1 fs out = csv_rows row2 fs out.
Proof.
  revert out. induction fs as [|f fs IH]; intros out Hr; cbn [csv_rows]; [done|].
  rewrite (Hr f) by (by left). destruct (row2 f); [|done]. cbn [mbind option_bind]. apply IH. intros g Hg. apply Hr. by right.
Qed.

Lemma bind_alike {A B} (m1 m2 : option A) (f1 f2 : A -> option B) :
  m1 = m2 -> (forall a, f1 a = f2 a) -> mbind f1 m1 = mbind f2 m2.
Proof. intros -> Hf. destruct m2; [apply Hf|done]. Qed.

Section Alike.
Context (junk1 junk2 : Z -> bytes).
Context (J1 : forall n, 0 <= n -> length (junk1 n) = Z.to_nat n) (J2 : forall n, 0 <= n -> length (junk2 n) = Z.to_nat n).

Lemma report_top_flows_alike out top n :
  Forall flow_fits top -> report_top_flows junk1 out top n = report_top_flows junk2 out top n.
Proof.
  intros Hf. rewrite Forall_forall in Hf. unfold report_top_flows. destruct (bool_decide (top = [])); [done|].
  assert (E1 := fun f src dst (Hin : f ∈ top) => flow_endpoints_ok junk1 J1 f src dst (Hf f Hin)).
  assert (E2 := fun f src dst (Hin : f ∈ top) => flow_endpoints_ok junk2 J2 f src dst (Hf f Hin)).
  assert (L1 : Z.of_nat (length (junk1 ENDPOINT_STR_LEN)) = ENDPOINT_STR_LEN) by (by rewrite J1).
  assert (L2 : Z.of_nat (length (junk2 ENDPOINT_STR_LEN)) = ENDPOINT_STR_LEN) by (by rewrite J2).
  destruct (column_widths_ok (fun f s d => flow_endpoints junk1 f s d ENDPOINT_STR_LEN) ENDPOINT_STR_LEN
    flow_src flow_dst top E1 top _ _ 3 3 (reflexivity _) L1 L1) as (s1 & d1 & W1 & Hs1 & Hd1).
  destruct (column_widths_ok (fun f s d => flow_endpoints junk2 f s d ENDPOINT_STR_LEN) ENDPOINT_STR_LEN
    flow_src flow_dst top E2 top _ _ 3 3 (reflexivity _) L2 L2) as (s2 & d2 & W2 & Hs2 & Hd2).
  cbv zeta. rewrite W1, W2. cbn [mbind option_bind].
  eapply (print_rows_alike _ _ ENDPOINT_STR_LEN flow_src flow_dst top E1 E2); [done|..|done|done|done|done];
    intros i f Hin; by apply flow_row_ok, Hf.
Qed.

Lemma report_top_tunnels_alike out top n :
  Forall flow_fits top -> report_top_tunnels junk1 out top n = report_top_tunnels junk2 out top n.
Proof.
  intros Hf. rewrite Forall_forall in Hf. unfold report_top_tunnels. destruct (bool_decide (top = [])); [done|].
  assert (E1 := fun f src dst (Hin : f ∈ top) => tunnel_endpoints_ok junk1 J1 f src dst (Hf f Hin)).
  assert (E2 := fun f src dst (Hin : f ∈ top) => tunnel_endpoints_ok junk2 J2 f src dst (Hf f Hin)).
  assert (L1 : Z.of_nat (length (junk1 ADDR_STR_LEN)) = ADDR_STR_LEN) by (by rewrite J1).
  assert (L2 : Z.of_nat (length (junk2 ADDR_STR_LEN)) = ADDR_STR_LEN) by (by rewrite J2).
  destruct (column_widths_ok (fun f s d => tunnel_endpoints junk1 f s d ADDR_STR_LEN) ADDR_STR_LEN
    tunnel_src tunnel_dst top E1 top _ _ 3 3 (reflexivity _) L1 L1) as (s1 & d1 & W1 & Hs1 & Hd1).
  destruct (column_widths_ok (fun f s d => tunnel_endpoints junk2 f s d ADDR_STR_LEN) ADDR_STR_LEN
    tunnel_src tunnel_dst top E2 top _ _ 3 3 (reflexivity _) L2 L2) as (s2 & d2 & W2 & Hs2 & Hd2).
  cbv zeta. rewrite W1, W2. cbn [mbind option_bind].
  eapply (print_rows_alike _ _ ADDR_STR_LEN tunnel_src tunnel_dst top E1 E2); [done|..|done|done|done|done];
    intros i f Hin; by apply tunnel_row_ok.
Qed.

Lemma print_utc_alike out ts_ns : is_u 64 ts_ns -> print_utc junk1 out ts_ns = print_utc junk2 out ts_ns.
Proof.
  intros Ht. destruct (print_utc_exact junk1 J1 out ts_ns Ht) as (t1 & E1 & ->).
  destruct (print_utc_exact junk2 J2 out ts_ns Ht) as (t2 & E2 & ->). congruence.
Qed.

Lemma summary_times_alike out s span_ns :
  is_u 64 (st_first_ts_ns s) -> is_u 64 (st_last_ts_ns s) ->
  summary_times junk1 out s span_ns = summary_times junk2 out s span_ns.
Proof.
  intros Hf Hl. unfold summary_times. generalize (double_div (double_of span_ns) (double_of 1000000000)). intros secs.
  cbv zeta. apply bind_alike; [by apply print_utc_alike|]. intros o2.
  apply bind_alike; [by apply print_utc_alike|]. by intros o3.
Qed.

Lemma report_summary_alike out path info s n :
  is_u 64 (st_first_ts_ns s) -> is_u 64 (st_last_ts_ns s) ->
  report_summary junk1 out path info s n = report_summary junk2 out path info s n.
Proof.
  intros Hf Hl. unfold report_summary. by rewrite summary_times_alike.
Qed.

Lemma write_rows_alike `{QSort} header row1 row2 out t alloc os :
  table_ok t -> table_fits t -> (forall f, flow_fits f -> row1 f = row2 f) ->
  write_rows header row1 out t alloc os = write_rows header row2 out t alloc os.
Proof.
  intros Ht Hfit Hrow. destruct (rank_all t Ht) as (fs & E & Hr & _). unfold write_rows. cbv zeta. rewrite E.
  destruct (_ && _); [done|]. cbn [mbind option_bind]. f_equal. apply csv_rows_alike.
  intros f Hf. apply Hrow, (Hfit (fl_key f)). by apply Hr.
Qed.

Lemma report_csv_alike `{QSort} out t alloc os :
  table_ok t -> table_fits t -> report_csv junk1 out t alloc os = report_csv junk2 out t alloc os.
Proof. intros Ht Hf. apply write_rows_alike; [done..|]. intros f Hff. by rewrite !csv_row_ok. Qed.

Lemma report_tunnels_csv_alike `{QSort} out t alloc os :
  table_ok t -> table_fits t -> report_tunnels_csv junk1 out t alloc os = report_tunnels_csv junk2 out t alloc os.
Proof. intros Ht Hf. apply write_rows_alike; [done..|]. intros f Hff. by rewrite !tunnel_csv_row_ok. Qed.
End Alike.
