(* ===== verification/Analyze.v ===== *)
(** The read, decode and count pipeline (src/analyze.h, src/analyze.c).
    Definitions only; [AnalyzeProps] holds the theorems.

    The outcome of each allocation is an argument; [None] is undefined behaviour
    or a loop that ran out of fuel. *)
From S2P Require Export FlowTheorems Frag StatsProps PcapProps.
From stdpp Require Export list.
#[global] Open Scope Z_scope.

Definition INITIAL_FLOW_SLOTS := 1024.
Definition INITIAL_TUNNEL_SLOTS := 64.

Record analysis := Analysis {
  an_stats : stats;
  an_flows : flow_table;
  an_tunnels : flow_table;
  an_frags : frag_cache
}.

#[export] Instance analysis_eta : Eta analysis := fun a =>
  Analysis (a.(an_stats)) (a.(an_flows)) (a.(an_tunnels)) (a.(an_frags)).
#[export] Instance set_an_stats : Setter an_stats. Proof. solve_setter. Defined.
#[export] Instance set_an_flows : Setter an_flows. Proof. solve_setter. Defined.
#[export] Instance set_an_tunnels : Setter an_tunnels. Proof. solve_setter. Defined.
#[export] Instance set_an_frags : Setter an_frags. Proof. solve_setter. Defined.

(** The three allocations of [analysis_init], in order. *)
Record init_allocs := Init_allocs { al_flows : bool; al_tunnels : bool; al_frags : bool }.

Definition analysis_init (a : analysis) (al : init_allocs) : option (Z * analysis) :=
  let a := a <| an_stats := stats_init |> in
  '(rc, t) ← flow_table_init INITIAL_FLOW_SLOTS (al_flows al);
  let a := a <| an_flows := t |> in
  if negb (rc =? 0) then Some (-1, a) else
  '(rc, t) ← flow_table_init INITIAL_TUNNEL_SLOTS (al_tunnels al);
  let a := a <| an_tunnels := t |> in
  if negb (rc =? 0) then Some (-1, a <| an_flows ::= flow_table_free |>) else
  let '(rc, c) := frag_cache_init (al_frags al) in
  let a := a <| an_frags := c |> in
  if negb (rc =? 0)
  then Some (-1, a <| an_tunnels ::= flow_table_free |> <| an_flows ::= flow_table_free |>)
  else Some (0, a).

(** The returned code, [*a] and [*pi].  [al_flow] and [al_tunnel] are the outcomes
    of the allocation each table may need. *)
Definition analysis_account (a : analysis) (pi : packet_info) (caplen wirelen ts_ns : Z)
           (al_flow al_tunnel : bool) : option (Z * analysis * packet_info) :=
  '(matched, c, pi) ← frag_cache_apply (an_frags a) pi;
  let a := a <| an_frags := c |> in
  let a := if (matched : bool) then a <| an_stats ::= update st_frag_matched inc |> else a in
  let a := a <| an_stats ::= fun s => stats_add s pi caplen wirelen ts_ns |> in
  if negb (status_eqb (pi_status pi) DEC_OK) then Some (0, a, pi) else
  '(rc, t) ← flow_table_add_packet (an_flows a) pi wirelen ts_ns al_flow;
  let a := a <| an_flows := t |> in
  if negb (rc =? 0) then Some (-1, a, pi) else
  if pi_is_gtpu pi && pi_gtp_v1u pi && pi_gtp_msg_ok pi &&
     (pi_gtp_msg_type pi =? GTPU_MSG_GPDU) then
    '(rc, t) ← flow_table_add_tunnel (an_tunnels a) pi wirelen ts_ns al_tunnel;
    let a := a <| an_tunnels := t |> in
    if negb (rc =? 0) then Some (-1, a, pi) else Some (0, a, pi)
  else Some (0, a, pi).

(** [analysis_run]; [als] gives the outcomes of the allocations of each record,
    which succeed once it runs out. *)
Fixpoint analysis_run (fuel : nat) (a : analysis) (r : pcap_reader) (rec : pcap_record)
         (als : list (bool * bool)) : option (pcap_status * analysis * pcap_reader) :=
  match fuel with
  | O => None
  | S fuel =>
    '(st, r, rec) ← pcap_next r rec;
    if negb (pstatus_eqb st PCAP_OK) then Some (st, a, r) else
    data ← rec_bytes r rec;
    '(_, pi) ← decode_frame data (rec_caplen rec) (rec_wirelen rec);
    let '(al_flow, al_tunnel) := default (true, true) (head als) in
    '(rc, a, _) ← analysis_account a pi (rec_caplen rec) (rec_wirelen rec) (rec_ts_ns rec)
                    al_flow al_tunnel;
    if negb (rc =? 0) then Some (PCAP_ERR_NOMEM, a, r) else
    analysis_run fuel a r rec (tail als)
  end.

Definition analysis_free (a : analysis) : analysis :=
  a <| an_flows ::= flow_table_free |> <| an_tunnels ::= flow_table_free |>
    <| an_frags ::= frag_cache_free |>.
