(* ===== verification/AnalyzeProps.v ===== *)
(** The pipeline refines its specification: what the analyzer reports is a
    function of the packets of the capture. *)
From S2P Require Export Analyze.
From stdpp Require Export list.
#[global] Open Scope Z_scope.

(** ** Specification *)

(** The decoding of a captured packet. *)
Definition decode_of (p : captured) : packet_info :=
  match decode_frame (cp_data p) (caplen_of (cp_data p)) (cp_wirelen p) with
  | Some (_, pi) => pi
  | None => packet_info_zero
  end.

(** The packets after fragment attribution, each with whether it got ports. *)
Definition attributed (ps : list captured) : list (bool * packet_info) :=
  frag_spec [] (map decode_of ps).

Definition sample_of (p : captured) (v : bool * packet_info) : sample :=
  Sample v.2 (caplen_of (cp_data p)) (cp_wirelen p) (cp_ts_ns p).

Definition samples (ps : list captured) : list sample := zip_with sample_of ps (attributed ps).

(** The counters, and what joins the two tables. *)
Definition expected_stats (ps : list captured) : stats :=
  stats_of (count fst (attributed ps)) (samples ps).

Definition joins_flow (x : sample) : option acct :=
  if status_eqb (pi_status (sa_pi x)) DEC_OK
  then add_acct (Add_packet (sa_pi x) (sa_wirelen x) (sa_ts x)) else None.

Definition carries_user_data (pi : packet_info) : bool :=
  status_eqb (pi_status pi) DEC_OK && (pi_is_gtpu pi && pi_gtp_v1u pi && pi_gtp_msg_ok pi &&
                                       (pi_gtp_msg_type pi =? GTPU_MSG_GPDU)).

Definition joins_tunnel (x : sample) : option acct :=
  if carries_user_data (sa_pi x)
  then add_acct (Add_tunnel (sa_pi x) (sa_wirelen x) (sa_ts x)) else None.

Definition flow_accts (ps : list captured) : list acct := omap joins_flow (samples ps).
Definition tunnel_accts (ps : list captured) : list acct := omap joins_tunnel (samples ps).

(** An analysis that has accounted exactly [ps]. *)
Record accounts_for (ps : list captured) (a : analysis) : Prop := {
  af_stats : an_stats a = expected_stats ps;
  af_flows : represents (an_flows a) (flow_accts ps);
  af_tunnels : represents (an_tunnels a) (tunnel_accts ps);
  af_frags : exists slots, an_frags a = Frag_cache (Some slots) 1 /\
               cache_ok (rev (map decode_of ps)) slots
}.

(** An analysis stopped at [p] because a table could not grow. *)
Record stopped_at (ps : list captured) (p : captured) (a : analysis) : Prop := {
  sp_stats : an_stats a = expected_stats (ps ++ [p]);
  sp_flows : represents (an_flows a) (flow_accts ps) \/
             represents (an_flows a) (flow_accts (ps ++ [p]));
  sp_tunnels : represents (an_tunnels a) (tunnel_accts ps);
  sp_frags : exists slots, an_frags a = Frag_cache (Some slots) 1
}.

(** ** Lemmas *)
Definition cap_ok (p : captured) : Prop := frame_ok (cp_data p) (cp_wirelen p).

Lemma decode_of_spec p :
  cap_ok p ->
  exists st, decode_frame (cp_data p) (caplen_of (cp_data p)) (cp_wirelen p) = Some (st, decode_of p) /\
    packet_ok (cp_data p) (captured_in_full (cp_data p) (cp_wirelen p)) st (decode_of p).
Proof.
  intros Hp. unfold decode_of.
  destruct (decode_frame_packet_ok _ _ Hp) as (st & pi & -> & Hok). by exists st.
Qed.

Lemma decode_of_addrs p : cap_ok p -> addrs_ok (decode_of p).
Proof.
  intros Hp. destruct (decode_of_spec p Hp) as (st & _ & Hok).
  by destruct (po_ip _ _ _ _ Hok) as (_ & _ & _ & [? _] & [? _]).
Qed.

Lemma length_frag_spec h ps : length (frag_spec h ps) = length ps.
Proof. revert h. induction ps as [|p ps IH]; intros h; cbn; [done|]. by rewrite IH. Qed.

Lemma length_attributed ps : length (attributed ps) = length ps.
Proof. unfold attributed. by rewrite length_frag_spec, length_map. Qed.

Lemma attributed_snoc ps p :
  attributed (ps ++ [p]) = attributed ps ++ [verdict (rev (map decode_of ps)) (decode_of p)].
Proof. unfold attributed. rewrite map_app. cbn. by rewrite frag_spec_snoc, app_nil_r. Qed.

Lemma samples_snoc ps p :
  samples (ps ++ [p]) =
  samples ps ++ [sample_of p (verdict (rev (map decode_of ps)) (decode_of p))].
Proof.
  unfold samples. rewrite attributed_snoc.
  by rewrite zip_with_app by (by rewrite length_attributed).
Qed.

Lemma length_samples ps : length (samples ps) = length ps.
Proof. unfold samples. rewrite length_zip_with, length_attributed. lia. Qed.

Lemma omap_snoc {A B} (f : A -> option B) l x : omap f (l ++ [x]) = omap f l ++ option_list (f x).
Proof. rewrite omap_app. cbn. by destruct (f x). Qed.

(** Attribution changes ports only. *)
Lemma verdict_addrs h p : addrs_ok p -> addrs_ok (verdict h p).2.
Proof. unfold verdict. by destruct (attribution h p). Qed.

Lemma expected_stats_snoc ps p :
  Z.of_nat (length ps) + 1 < 2 ^ 64 ->
  let v := verdict (rev (map decode_of ps)) (decode_of p) in
  add_sample ((expected_stats ps) <| st_frag_matched ::= inc_if v.1 |>) (sample_of p v) =
  expected_stats (ps ++ [p]).
Proof.
  intros Hl v. unfold expected_stats.
  rewrite attributed_snoc, samples_snoc. fold v.
  rewrite <- (count_step fst) by (by rewrite length_attributed).
  rewrite <- stats_step by (by rewrite length_samples). reflexivity.
Qed.

(** One call on a table of the analyzer, made or not. *)
Lemma table_step t l c alloc :
  represents t l -> addrs_ok (add_pi c) ->
  exists rc t', add_one t c alloc = Some (rc, t') /\
    ((rc = 0 /\ represents t' (l ++ option_list (add_acct c)) /\ ft_count t' <= ft_count t + 1) \/
     (rc = -1 /\ t' = t /\ (alloc = false \/ 2 ^ 56 <= ft_count t))).
Proof.
  intros Hr Hok. rewrite add_one_acct. destruct (add_acct c) as [a|] eqn:Ea.
  - destruct (represents_step t l a alloc Hr (add_acct_wf c a Hok Ea))
      as (rc & t' & E & [?|(? & ? & Hg & Ha)]); exists rc, t'; split; try done; [by left|right].
    split; [done|]. split; [done|]. destruct Ha as [?|Ha]; [by left|right].
    unfold must_grow in Hg. lia.
  - exists 0, t. split; [done|]. left. cbn. rewrite app_nil_r. split; [done|]. split; [done|lia].
Qed.

(** ** One packet *)
Lemma matched_inc b s :
  s <| st_frag_matched ::= inc_if b |> = if b then s <| st_frag_matched ::= inc |> else s.
Proof. by destruct b, s. Qed.

Lemma account_step ps a p al1 al2 :
  accounts_for ps a -> cap_ok p -> Z.of_nat (length ps) + 1 < 2 ^ 64 ->
  exists rc a' pi, analysis_account a (decode_of p) (caplen_of (cp_data p)) (cp_wirelen p)
                     (cp_ts_ns p) al1 al2 = Some (rc, a', pi) /\
    ((rc = 0 /\ accounts_for (ps ++ [p]) a' /\
      ft_count (an_flows a') <= ft_count (an_flows a) + 1 /\
      ft_count (an_tunnels a') <= ft_count (an_tunnels a) + 1) \/
     (rc = -1 /\ stopped_at ps p a' /\
      (al1 = false \/ al2 = false \/ 2 ^ 56 <= ft_count (an_flows a) \/
       2 ^ 56 <= ft_count (an_tunnels a)))).
Proof.
  intros [Hst Hfl Htu (slots & Hfr & Hc)] Hp Hlen. unfold analysis_account. rewrite Hfr.
  destruct (apply_spec _ _ 1 _ Hc (decode_of_addrs p Hp)) as (slots' & -> & Hc').
  set (v := verdict (rev (map decode_of ps)) (decode_of p)) in *. cbn [mbind option_bind].
  set (a1 := if v.1 then _ else _).
  set (a2 := a1 <| an_stats ::= _ |>).
  pose proof (expected_stats_snoc ps p Hlen) as Hs. cbv zeta in Hs. fold v in Hs.
  assert (E2 : a2 = Analysis (expected_stats (ps ++ [p])) (an_flows a) (an_tunnels a)
                      (Frag_cache (Some slots') 1)).
  { rewrite <- Hs, <- Hst, matched_inc. unfold a2, a1, add_sample. clear. by destruct v.1. }
  rewrite E2. clear E2 Hs a1 a2. cbn [an_flows an_tunnels].
  assert (Hva : addrs_ok v.2) by (by apply verdict_addrs, decode_of_addrs).
  assert (Hfc : exists sl, Frag_cache (Some slots') 1 = Frag_cache (Some sl) 1 /\
                           cache_ok (rev (map decode_of (ps ++ [p]))) sl).
  { exists slots'. split; [done|]. by rewrite map_app, rev_app_distr. }
  set (x := sample_of p v).
  assert (Hfa : flow_accts (ps ++ [p]) = flow_accts ps ++ option_list (joins_flow x))
    by (unfold flow_accts; by rewrite samples_snoc, omap_snoc).
  assert (Hta : tunnel_accts (ps ++ [p]) = tunnel_accts ps ++ option_list (joins_tunnel x))
    by (unfold tunnel_accts; by rewrite samples_snoc, omap_snoc).
  unfold joins_flow in Hfa. unfold joins_tunnel, carries_user_data in Hta. change (sa_pi x) with v.2 in *.
  destruct (status_eqb (pi_status v.2) DEC_OK); cbn [negb andb] in *.
  2: { cbn in Hfa, Hta. rewrite app_nil_r in Hfa, Hta. eexists 0, _, _. split; [done|]. left.
       split; [done|]. split; [|cbn [an_flows an_tunnels]; lia].
       constructor; [reflexivity|rewrite Hfa; exact Hfl|rewrite Hta; exact Htu|exact Hfc]. }
  destruct (table_step _ _ (Add_packet v.2 (cp_wirelen p) (cp_ts_ns p)) al1 Hfl Hva)
    as (rc & t & E & [(-> & Hr & Hn)|(-> & -> & Ha)]); cbn [add_one] in E; rewrite E;
    cbn [mbind option_bind Z.eqb negb].
  2: { eexists (-1), _, _. split; [done|]. right. split; [done|].
       split; [constructor; [reflexivity|left; exact Hfl|exact Htu|by eexists]|]. destruct Ha; auto. }
  change (add_acct (Add_packet v.2 (cp_wirelen p) (cp_ts_ns p))) with
    (add_acct (Add_packet v.2 (sa_wirelen x) (sa_ts x))) in Hr. rewrite <- Hfa in Hr.
  destruct (_ && _ && _ && _); cbn [update set_an_flows an_tunnels].
  2: { cbn in Hta. rewrite app_nil_r in Hta. eexists 0, _, _. split; [done|]. left.
       split; [done|]. split; [|cbn [an_flows an_tunnels update set_an_flows]; lia].
       constructor; [reflexivity|exact Hr|rewrite Hta; exact Htu|exact Hfc]. }
  destruct (table_step _ _ (Add_tunnel v.2 (cp_wirelen p) (cp_ts_ns p)) al2 Htu Hva)
    as (rc & t2 & E2 & [(-> & Hr2 & Hn2)|(-> & -> & Ha)]); cbn [add_one] in E2; rewrite E2;
    cbn [mbind option_bind Z.eqb negb].
  - change (add_acct (Add_tunnel v.2 (cp_wirelen p) (cp_ts_ns p))) with
      (add_acct (Add_tunnel v.2 (sa_wirelen x) (sa_ts x))) in Hr2. rewrite <- Hta in Hr2.
    eexists 0, _, _. split; [done|]. left. split; [done|].
    split; [|cbn [an_flows an_tunnels update set_an_flows set_an_tunnels]; lia].
    constructor; [reflexivity|exact Hr|exact Hr2|exact Hfc].
  - eexists (-1), _, _. split; [done|]. right. split; [done|].
    split; [constructor; [reflexivity|right; exact Hr|exact Htu|by eexists]|]. destruct Ha; auto.
Qed.

(** ** The whole capture *)
Lemma init_accounts a :
  exists a', analysis_init a (Init_allocs true true true) = Some (0, a') /\ accounts_for [] a' /\
             ft_count (an_flows a') = 0 /\ ft_count (an_tunnels a') = 0.
Proof.
  destruct (init_spec INITIAL_FLOW_SLOTS) as (t1 & E1 & Ht1 & Hm1 & _).
  destruct (init_spec INITIAL_TUNNEL_SLOTS) as (t2 & E2 & Ht2 & Hm2 & _).
  unfold analysis_init. cbn [al_flows al_tunnels al_frags]. rewrite E1. cbn [mbind option_bind].
  change (negb (0 =? 0)) with false. cbv iota zeta. rewrite E2. cbn [mbind option_bind].
  change (negb (0 =? 0)) with false. cbv iota zeta. unfold frag_cache_init. cbv beta iota zeta.
  cbn [fc_slots]. change (negb (0 =? 0)) with false. cbv iota.
  eexists. split; [reflexivity|]. cbn [an_flows an_tunnels update set_an_flows set_an_tunnels
    set_an_frags set_an_stats]. split; [|by rewrite !size_tmap, Hm1, Hm2, map_size_empty by done].
  constructor.
  - cbn [an_stats update set_an_flows set_an_tunnels set_an_frags set_an_stats].
    symmetry. apply stats_of_nil.
  - by apply represents_empty.
  - by apply represents_empty.
  - eexists. split; [reflexivity|]. apply cache_ok_init.
Qed.

Lemma capture_ok info data :
  Forall is_byte data -> Forall cap_ok (capture_of info data).1.
Proof.
  unfold capture_of. generalize (S (length data)). intros fuel. revert data.
  induction fuel as [|fuel IH]; intros data Hd; cbn [pcap_packets]; [constructor|].
  destruct (split_record info data) as [st|[p rest]] eqn:E; [constructor|].
  destruct (split_record_bounds _ _ _ _ Hd E) as (B1 & B2 & B3 & B4 & B5).
  destruct (split_record_rest _ _ _ _ E) as [k ->].
  specialize (IH (drop k data) ltac:(by apply Forall_drop)).
  destruct (pcap_packets fuel info (drop k data)) as [ps st]. cbn [fst] in *.
  constructor; [|done]. unfold is_u in B3. split; [done|]. unfold SIZE_MAX. lia.
Qed.

(** What [analysis_run] leaves, when the input still held [rest] and ended with
    [st]. *)
Definition run_post (done rest : list captured) (st : pcap_status) (failing : Prop)
           (res : pcap_status * analysis) : Prop :=
  (res.1 = st /\ accounts_for (done ++ rest) res.2) \/
  (res.1 = PCAP_ERR_NOMEM /\ failing /\
   exists ps p, (ps ++ [p]) `prefix_of` (done ++ rest) /\ stopped_at ps p res.2).

Lemma run_spec fuel a r rec als done :
  reader_ok r -> r_error r = PCAP_OK -> Forall is_byte (remaining r) ->
  (length (remaining r) < fuel)%nat ->
  let rest := (capture_of (r_info r) (remaining r)).1 in
  let st := end_status (capture_of (r_info r) (remaining r)).2 (input_errno r) in
  accounts_for done a -> Z.of_nat (length done + length rest) < 2 ^ 64 ->
  exists st' a' r', analysis_run fuel a r rec als = Some (st', a', r') /\
    run_post done rest st
      (~ (Forall (fun al => al = (true, true)) als /\
          ft_count (an_flows a) + Z.of_nat (length rest) <= 2 ^ 56 /\
          ft_count (an_tunnels a) + Z.of_nat (length rest) <= 2 ^ 56)) (st', a') /\
    (st' <> PCAP_ERR_NOMEM -> 0 <= r_records r -> r_records r + Z.of_nat (length rest) < 2 ^ 64 ->
     r_records r' = r_records r + Z.of_nat (length rest)).
Proof.
  unfold capture_of. revert a r rec als done.
  induction fuel as [|fuel IH]; intros a r rec als done Hok He Hb Hf Ha Hlen; [lia|].
  cbn [analysis_run]. pose proof (pcap_next_spec r rec Hok He Hb) as Hn.
  cbn [pcap_packets] in Hlen |- *.
  destruct (split_record (r_info r) (remaining r)) as [st|[p rest]] eqn:E; cbn [next_post] in Hn.
  { destruct Hn as (r' & rec' & -> & Hend). cbn [mbind option_bind]. unfold pstatus_eqb.
    apply split_record_not_ok in E. rewrite bool_decide_false by (by apply end_status_not_ok).
    eexists _, a, r'. split; [done|]. split; [left; cbn; split; [done|]; by rewrite app_nil_r|].
    intros _ _ _. cbn. rewrite (eo_records _ _ _ Hend). lia. }
  destruct Hn as (r' & rec' & -> & [N1 N2 N3 N4 N5 N6 N7 N8]). cbn [mbind option_bind].
  unfold pstatus_eqb. rewrite bool_decide_true by done. cbn [negb]. rewrite N4. cbn [mbind option_bind].
  pose proof (split_record_shorter _ _ _ _ E) as Hsh.
  destruct (split_record_rest _ _ _ _ E) as [k Hk].
  destruct (split_record_bounds _ _ _ _ Hb E) as (B1 & B2 & B3 & B4 & B5).
  assert (Hp : cap_ok p) by (unfold is_u in B3; split; [done|]; unfold SIZE_MAX; lia).
  pose proof (sr_info _ _ N7 : r_info r' = r_info r) as Ei.
  pose proof (sr_input _ _ N7 : input_errno r' = input_errno r) as Ein.
  pose proof (sr_error _ _ N7 : r_error r' = r_error r) as Ee.
  rewrite N1, N2, N3. destruct (decode_of_spec p Hp) as (dst & -> & _). cbn [mbind option_bind].
  specialize (IH).
  rewrite (pcap_packets_fuel (length (remaining r)) (S (length rest))) in Hlen |- * by lia.
  destruct (pcap_packets (S (length rest)) (r_info r) rest) as [ps st] eqn:Eps. cbn [fst snd] in *.
  destruct (default (true, true) (head als)) as [al1 al2] eqn:Eal. cbn [length] in Hlen.
  destruct (account_step done a p al1 al2 Ha Hp) as (rc & a' & pi & -> & Hcase); [lia|].
  cbn [mbind option_bind]. destruct Hcase as [(-> & Ha' & Hn1 & Hn2)|(-> & Hstop & Hfail)]; cbn [Z.eqb negb].
  - destruct (IH a' r' rec' (tail als) (done ++ [p])) as (st' & a2 & r2 & -> & Hpost & Hrec);
      [done|congruence|rewrite N5, Hk; by apply Forall_drop|rewrite N5; lia|done| |].
    { rewrite N5, Ei, Eps. cbn. rewrite length_app. cbn. lia. }
    rewrite N5, Ei, Eps in Hrec. cbn [fst] in Hrec.
    rewrite N5, Ei, Ein, Eps in Hpost. cbn [fst snd] in Hpost.
    eexists _, _, _. split; [done|]. split.
    2:{ intros Hm H0 Hle. cbn [length] in *. rewrite N8, wrap_small in Hrec by (unfold is_u; lia).
        rewrite Hrec; [lia|done|lia|lia]. }
    unfold run_post in Hpost |- *.
    rewrite <- app_assoc in Hpost. cbn [app] in Hpost.
    destruct Hpost as [?|(E1 & Hfail & Hrest)]; [by left|right]. split; [done|]. split; [|done].
    intros (Hal & Hc1 & Hc2). apply Hfail. cbn [length] in *.
    split; [by destruct als; [|apply Forall_cons in Hal as [_ ?]]|]. lia.
  - eexists _, _, _. split; [done|]. split; [|done]. right. split; [done|]. split.
    + intros (Hal & Hc1 & Hc2). cbn [length] in *.
      assert (al1 = true /\ al2 = true) as [-> ->].
      { destruct als as [|al als]; [by injection Eal|]. apply Forall_cons in Hal as [-> _].
        by injection Eal. }
      destruct Hfail as [?|[?|[?|?]]]; try done; lia.
    + exists done, p. split; [|done]. exists ps. by rewrite <- app_assoc.
Qed.

(** ** Totals of a table *)
Lemma filter_partition (l : list acct) (ks : list flow_key) :
  NoDup ks -> (forall a, a ∈ l -> ac_key a ∈ ks) ->
  foldr (fun k n => Z.of_nat (length (filter (same_key k) l)) + n) 0 ks = Z.of_nat (length l).
Proof.
  intros Hnd. induction l as [|a l IH]; intros Hin.
  { clear. induction ks as [|k ks IH]; cbn; [done|]. exact IH. }
  cbn [length]. rewrite Nat2Z.inj_succ, <- IH by (intros; apply Hin; by right). clear IH.
  assert (Ha : ac_key a ∈ ks) by (apply Hin; by left). clear Hin.
  assert (Hno : forall ks, ac_key a ∉ ks ->
    foldr (fun k n => Z.of_nat (length (filter (same_key k) (a :: l))) + n) 0 ks =
    foldr (fun k n => Z.of_nat (length (filter (same_key k) l)) + n) 0 ks).
  { intros ks' Hn. induction ks' as [|k ks' IH]; cbn [foldr]; [done|].
    apply not_elem_of_cons in Hn as [Hne Hn]. rewrite IH by done.
    by rewrite list.filter_cons, decide_False by (intros Hk; by apply Hne). }
  induction Hnd as [|k ks Hk Hnd IH]; [by apply elem_of_nil in Ha|]. cbn [foldr].
  rewrite list.filter_cons. destruct (decide (ac_key a = k)) as [E|E].
  - rewrite decide_True by done. rewrite Hno by (by rewrite E). cbn [length]. lia.
  - rewrite decide_False by done. apply elem_of_cons in Ha as [?|Ha]; [done|]. rewrite IH by done. lia.
Qed.

(** The packets of all flows together are the packets accounted. *)
Lemma represents_total t l :
  represents t l -> Z.of_nat (length l) < 2 ^ 64 ->
  exists fs, flow_iter t = Some fs /\
    foldr (fun f n => fl_packets f + n) 0 fs = Z.of_nat (length l).
Proof.
  intros [Ht Hr] Hlen. exists (entries (ft_slots t)). split; [by apply flow_iter_entries|].
  rewrite <- (filter_partition l (map fl_key (entries (ft_slots t)))); [|apply Ht|].
  - assert (Hf : forall f, f ∈ entries (ft_slots t) ->
      fl_packets f = Z.of_nat (length (filter (same_key (fl_key f)) l))).
    { intros f Hin. specialize (Hr (fl_key f)).
      assert (Hm : tmap t !! fl_key f = Some f) by (apply slots_map_lookup; [apply Ht|done]).
      rewrite Hm in Hr. destruct Hr as [_ Hf]. rewrite (fo_packets _ _ _ Hf).
      apply wrap_small. unfold is_u. pose proof (length_filter (same_key (fl_key f)) l). lia. }
    revert Hf. generalize (entries (ft_slots t)). intros fs. induction fs as [|f fs IH]; intros Hf; [done|].
    cbn [map foldr]. rewrite IH by (intros; apply Hf; by right). rewrite (Hf f) by (by left). done.
  - intros a Ha. specialize (Hr (ac_key a)). destruct (tmap t !! ac_key a) as [f|] eqn:Hm.
    + apply slots_map_lookup in Hm as [Hf <-]; [|apply Ht]. by apply (list_elem_of_fmap_2 fl_key).
    + assert (Hin : a ∈ filter (same_key (ac_key a)) l) by (by apply list_elem_of_filter).
      rewrite Hr in Hin. by apply elem_of_nil in Hin.
Qed.

(** ** What the counters say of the tables *)
Lemma with_ports_sane p q : sane p -> pi_frag p = FRAG_LATER -> sane (with_ports p q).
Proof.
  intros [S1 S2 S3 S4 S5 Sok Sty S6 S7 S8 S9 Sh S10] Hl. split; cbn; try done.
  - intros H. destruct (S6 H). congruence.
  - intros H. destruct (S8 H) as [? Hg]. split; [done|]. revert Hg.
    unfold gtpv1u, gtpu_message, gtpu_fragment, is_first. cbn. by rewrite Hl.
  - unfold gtpv1u, gtpu_message. cbn. intros [[_ Hg]%andb_true_iff _]%andb_true_iff _.
    destruct (S6 Hg). congruence.
Qed.

Lemma verdict_sane h p : sane p -> sane (verdict h p).2.
Proof.
  intros Hp. unfold verdict, attribution, port_less.
  destruct (status_eqb (pi_status p) DEC_OK && pi_has_l3 p); cbn [andb]; [|done].
  destruct (bool_decide_reflect (pi_frag p = FRAG_LATER)); [|done].
  destruct (q ← remembered h p; _) as [q|]; [|done]. by apply with_ports_sane.
Qed.

Lemma frag_spec_forall (P : bool * packet_info -> Prop) h ps :
  (forall h p, p ∈ ps -> P (verdict h p)) -> Forall P (frag_spec h ps).
Proof.
  revert h. induction ps as [|p ps IH]; intros h Hp; cbn; [constructor|].
  constructor; [apply Hp; by left|]. apply IH. intros h' q Hq. apply Hp. by right.
Qed.

Lemma attributed_forall (P : bool * packet_info -> Prop) ps :
  Forall cap_ok ps -> (forall h p, sane p -> addrs_ok p -> P (verdict h p)) -> Forall P (attributed ps).
Proof.
  intros Hps HP. apply frag_spec_forall. intros h q (p & -> & Hin)%list_elem_of_fmap.
  rewrite Forall_forall in Hps. specialize (Hps p Hin).
  apply HP; [|by apply decode_of_addrs].
  destruct (decode_of_spec p Hps) as (st & _ & Hok). by eapply packet_ok_sane.
Qed.

Lemma samples_forall (P : packet_info -> Prop) ps :
  Forall (fun v => P v.2) (attributed ps) -> Forall (fun x => P (sa_pi x)) (samples ps).
Proof.
  unfold samples. generalize (attributed ps). induction ps as [|p ps IH]; intros [|v vs] H;
    cbn; try constructor.
  - by apply Forall_cons in H as [? _].
  - apply Forall_cons in H as [_ H]. by apply IH.
Qed.

Lemma samples_sane ps : Forall cap_ok ps -> Forall (fun x => sane (sa_pi x)) (samples ps).
Proof.
  intros Hps. apply samples_forall, attributed_forall; [done|]. intros h p Hp _.
  by apply verdict_sane.
Qed.

(** Later fragments given ports are later fragments. *)
Lemma matched_later ps :
  count fst (attributed ps) <=
  count (fun x => pi_has_l3 (sa_pi x) && bool_decide (pi_frag (sa_pi x) = FRAG_LATER)) (samples ps).
Proof.
  assert (H : Forall (fun v : bool * packet_info => v.1 = true ->
                pi_has_l3 v.2 && bool_decide (pi_frag v.2 = FRAG_LATER) = true) (attributed ps)).
  { apply frag_spec_forall. intros h p _. unfold verdict, attribution, port_less.
    destruct (_ && _ && _) eqn:E; [|done].
    destruct (q ← remembered h p; _); [|done]. intros _. cbn.
    by destruct (status_eqb _ _), (pi_has_l3 p). }
  revert H. unfold samples. pose proof (length_attributed ps) as Hl. revert Hl.
  generalize (attributed ps). induction ps as [|p ps IH]; intros [|v vs] Hl H; try done.
  apply Forall_cons in H as [Hv H]. injection Hl as Hl. cbn. specialize (IH vs Hl H).
  unfold count in IH. destruct v as [[] pi]; cbn in *; [rewrite Hv by done; cbn; lia|].
  destruct (_ && _); cbn; lia.
Qed.

Lemma omap_count {A B} (f : A -> option B) (P : A -> bool) l :
  Forall (fun x => is_Some (f x) <-> P x = true) l -> Z.of_nat (length (omap f l)) = count P l.
Proof.
  induction 1 as [|x l Hx Hl IH]; cbn; [done|]. fold (omap f l). unfold count in IH.
  destruct (f x), (P x); cbn; try lia.
  - destruct Hx as [Hx _]. by specialize (Hx ltac:(by eexists)).
  - destruct Hx as [_ Hx]. by destruct (Hx eq_refl).
Qed.

(** The packets that join a flow, and those that join a tunnel. *)
Lemma flow_accts_count ps :
  Z.of_nat (length (flow_accts ps)) =
  count (fun x => status_eqb (pi_status (sa_pi x)) DEC_OK && pi_has_l3 (sa_pi x)) (samples ps).
Proof.
  apply omap_count, Forall_forall. intros x _. unfold joins_flow, add_acct, flow_key_from_packet.
  destruct (status_eqb _ _), (pi_has_l3 (sa_pi x)); cbn; split; try done; by intros [].
Qed.

Lemma tunnel_accts_count ps :
  Z.of_nat (length (tunnel_accts ps)) = count (fun x => carries_user_data (sa_pi x)) (samples ps).
Proof.
  apply omap_count, Forall_forall. intros x _.
  unfold joins_tunnel, add_acct, tunnel_key_from_packet, carries_user_data.
  destruct (status_eqb _ _), (pi_is_gtpu (sa_pi x)), (pi_gtp_v1u (sa_pi x)); cbn;
    try (split; [by intros []|done]).
  destruct (_ && _); split; try done; by intros [].
Qed.

Lemma count_samples_le (P Q : packet_info -> bool) ps :
  Forall cap_ok ps -> (forall p, sane p -> P p = true -> Q p = true) ->
  count (fun x => P (sa_pi x)) (samples ps) <= count (fun x => Q (sa_pi x)) (samples ps).
Proof.
  intros Hps HPQ. apply count_le. apply (Forall_impl _ _ _ (samples_sane ps Hps)).
  intros x. apply HPQ.
Qed.

(** The G-PDUs whose GTP-U headers were decoded in full, which the fuzzer's [account]
    expects in the tunnel table. *)
Definition tunnelled (p : captured) : bool :=
  let pi := decode_of p in pi_is_gtpu pi && pi_gtp_msg_ok pi && (pi_gtp_msg_type pi =? GTPU_MSG_GPDU).

Lemma carried_tunnelled h p : cap_ok p -> carries_user_data (verdict h (decode_of p)).2 = tunnelled p.
Proof.
  intros Hp. destruct (decode_of_spec p Hp) as (st & _ & Hok).
  pose proof (gtp_facts_ok _ _ _ _ Hok) as Hg. pose proof (packet_ok_sane _ _ _ _ Hok) as Hs.
  assert (E : carries_user_data (verdict h (decode_of p)).2 = carries_user_data (decode_of p)).
  { unfold verdict. by destruct (attribution h (decode_of p)). }
  rewrite E. unfold carries_user_data, tunnelled.
  destruct (pi_is_gtpu (decode_of p)) eqn:Eg; cbn [andb]; [|apply andb_false_r].
  destruct (sn_gtpu _ Hs Eg) as [_ Hport]. unfold decode_is_gtpu_port in Hport.
  apply andb_true_iff in Hport as [Hport _]. apply andb_true_iff in Hport as [Hl4 _].
  destruct (sn_l4 _ Hs Hl4) as [_ ->]. unfold status_eqb. rewrite bool_decide_true by done. cbn [andb].
  destruct (pi_gtp_v1u (decode_of p)) eqn:Ev; [done|]. by rewrite (gf_other _ Hg Ev).
Qed.

Lemma tunnel_accts_tunnelled ps :
  Forall cap_ok ps -> Z.of_nat (length (tunnel_accts ps)) = count tunnelled ps.
Proof.
  intros Hps. rewrite tunnel_accts_count. induction ps as [|p ps IH] using rev_ind; [done|].
  apply Forall_app in Hps as [Hps Hp]. apply Forall_cons in Hp as [Hp _].
  rewrite samples_snoc, !count_snoc, (IH Hps). do 2 f_equal. by apply carried_tunnelled.
Qed.

(** The packets that join a tunnel are those G-PDUs. *)
Lemma carries_gpdu p :
  sane p -> carries_user_data p = gtpu_of_type GTPU_MSG_GPDU p && pi_gtp_msg_ok p.
Proof.
  intros Hp. unfold carries_user_data, gtpu_of_type, gtpv1u, gtpu_message, gtpu_fragment, is_first.
  destruct (pi_is_gtpu p) eqn:Eg; cbn [andb]; [|by rewrite !andb_false_r].
  destruct (sn_gtpu p Hp Eg) as [-> Hport]. rewrite Hport. cbn.
  unfold decode_is_gtpu_port in Hport. apply andb_true_iff in Hport as [Hport _].
  apply andb_true_iff in Hport as [Hl4 _]. destruct (sn_l4 p Hp Hl4) as [_ ->].
  cbn. destruct (pi_gtp_v1u p), (pi_gtp_msg_ok p), (_ =? _); done.
Qed.

(** A table's packets, summed over its flows. *)
Definition packets_in (t : flow_table) : option Z :=
  fs ← flow_iter t; Some (foldr (fun f n => fl_packets f + n) 0 fs).

Lemma packets_in_represents t l :
  represents t l -> Z.of_nat (length l) < 2 ^ 64 -> packets_in t = Some (Z.of_nat (length l)).
Proof.
  intros Hr Hl. destruct (represents_total t l Hr Hl) as (fs & E & Et).
  unfold packets_in. rewrite E. cbn [mbind option_bind]. by rewrite Et.
Qed.

(** What the counters and the tables of a finished analysis say of each other. *)
Lemma accounts_totals ps a :
  accounts_for ps a -> Forall cap_ok ps -> Z.of_nat (length ps) < 2 ^ 64 ->
  conserved (an_stats a) /\ st_packets (an_stats a) = Z.of_nat (length ps) /\
  st_frag_matched (an_stats a) <= st_frag_later (an_stats a) /\
  exists in_flows in_tunnels, packets_in (an_flows a) = Some in_flows /\
    packets_in (an_tunnels a) = Some in_tunnels /\
    in_flows + st_non_ip (an_stats a) = bucket (st_by_status (an_stats a)) DEC_OK /\
    in_flows <= st_ipv4 (an_stats a) + st_ipv6 (an_stats a) /\
    in_tunnels = count tunnelled ps /\ in_tunnels <= in_flows /\
    let g := st_gtpu (an_stats a) in
    in_tunnels <= gs_gpdu g /\
    gs_gpdu g + gs_user_truncated g + gs_user_malformed g <= in_tunnels + gs_truncated g + gs_malformed g.
Proof.
  intros [Hst Hfl Htu _] Hps Hlen. rewrite Hst.
  split; [by apply stats_of_conserved, samples_sane|].
  split; [cbn; by rewrite length_samples|].
  split; [exact (matched_later ps)|].
  pose proof (flow_accts_count ps) as Hf. pose proof (tunnel_accts_count ps) as Ht.
  pose proof (count_bound (fun x => status_eqb (pi_status (sa_pi x)) DEC_OK && pi_has_l3 (sa_pi x))
                (samples ps)) as Hb1.
  pose proof (count_bound (fun x => carries_user_data (sa_pi x)) (samples ps)) as Hb2.
  rewrite length_samples in Hb1, Hb2.
  exists (Z.of_nat (length (flow_accts ps))), (Z.of_nat (length (tunnel_accts ps))).
  split; [apply packets_in_represents; [done|lia]|].
  split; [apply packets_in_represents; [done|lia]|].
  rewrite Hf, Ht. unfold expected_stats.
  cbn zeta. cbn [stats_of st_by_status st_ipv4 st_ipv6 st_non_ip st_gtpu gtpu_shape gs_gpdu gs_user_truncated
    gs_user_malformed gs_truncated gs_malformed].
  rewrite bucket_map by done. split; [|split; [|split; [|split; [|split]]]].
  - rewrite !count_tally, tally_add. apply tally_eq. apply (Forall_impl _ _ _ (samples_sane ps Hps)).
    intros x Hx. cbv beta. by apply one_clean.
  - rewrite !count_tally, tally_add. apply tally_le, Forall_forall. intros x _. cbv beta.
    rewrite one_side. by destruct (status_eqb _ _), (pi_has_l3 (sa_pi x)).
  - rewrite <- Ht. by apply tunnel_accts_tunnelled.
  - apply (count_samples_le carries_user_data
             (fun p => status_eqb (pi_status p) DEC_OK && pi_has_l3 p)); [done|].
    unfold carries_user_data. intros p Hp [-> H]%andb_true_iff.
    repeat (apply andb_true_iff in H as [H _]). destruct (sn_gtpu p Hp H) as [_ Hport].
    unfold decode_is_gtpu_port in Hport. apply andb_true_iff in Hport as [Hport _].
    apply andb_true_iff in Hport as [Hl4 _]. by destruct (sn_l4 p Hp Hl4) as [-> _].
  - apply (count_samples_le carries_user_data (gtpu_of_type GTPU_MSG_GPDU)); [done|].
    unfold carries_user_data, gtpu_of_type, gtpv1u, gtpu_message, gtpu_fragment, is_first.
    intros p Hp. rewrite !andb_true_iff. intros (_ & ((Hg & Hv) & _) & Hty).
    destruct (sn_gtpu p Hp Hg) as [-> _]. by rewrite Hg, Hv, Hty.
  - rewrite !count_tally, !tally_add. apply tally_le. apply (Forall_impl _ _ _ (samples_sane ps Hps)).
    intros x Hx. cbv beta. rewrite carries_gpdu by done. by apply one_header_problem.
Qed.

(** ** Properties *)

(** The tables and the cache hold no memory. *)
Definition released (a : analysis) (al : init_allocs) (a0 : analysis) : Prop :=
  an_flows a = Flow_table [] 0 0 0 /\
  (an_tunnels a = Flow_table [] 0 0 0 \/ an_tunnels a = an_tunnels a0 /\ al_flows al = false) /\
  (an_frags a = Frag_cache None 0 \/ an_frags a = an_frags a0 /\ al_flows al && al_tunnels al = false).

(** [analysis_init] succeeds exactly when its three allocations do, and then
    accounts for no packet; otherwise it returns -1 and has released whatever it
    had allocated. *)
Lemma analysis_init_spec a0 al :
  exists rc a, analysis_init a0 al = Some (rc, a) /\
    (rc = 0 <-> al = Init_allocs true true true) /\
    (rc = 0 -> accounts_for [] a) /\
    (rc <> 0 -> rc = -1 /\ released a al a0).
Proof.
  destruct (init_accounts a0) as (a & E & Ha & _).
  destruct (init_spec INITIAL_FLOW_SLOTS) as (t1 & E1 & Ht1 & _).
  destruct (init_spec INITIAL_TUNNEL_SLOTS) as (t2 & E2 & Ht2 & _).
  assert (Hno : forall hint, hint = INITIAL_FLOW_SLOTS \/ hint = INITIAL_TUNNEL_SLOTS ->
    flow_table_init hint false = Some (-1, Flow_table [] 0 0 0)) by (intros hint [-> | ->]; reflexivity).
  destruct al as [[] [] []].
  1: { exists 0, a. split; [exact E|]. split; [split; reflexivity|].
       split; [intros _; exact Ha|intros Hne; by destruct Hne]. }
  all: unfold analysis_init; cbn [al_flows al_tunnels al_frags];
    rewrite ?Hno, ?E1 by auto; cbn [mbind option_bind Z.eqb negb];
    rewrite ?Hno, ?E2 by auto; cbn [mbind option_bind Z.eqb negb].
  all: eexists (-1), _; split; [reflexivity|]; split; [split; [done|discriminate]|];
    split; [done|]; intros _; split; [done|]; unfold released;
    cbn [an_flows an_tunnels an_frags update set_an_flows set_an_tunnels set_an_frags set_an_stats
         al_flows al_tunnels andb]; rewrite ?(table_freed _ Ht1), ?(table_freed _ Ht2).
  all: repeat split; auto.
Qed.

(** C6. The pipeline refines its specification: from a fresh analysis and a reader
    at the start of its records, [analysis_run] ends and either returns the status
    that ends the capture, with counters, flows and tunnels that account for
    exactly the packets of the capture, in order; or returns [PCAP_ERR_NOMEM] with
    counters that account for the records read so far - which happens only if an
    allocation failed or more than 2^56 records were read. *)
Theorem analysis_run_refines a0 a r rec als fuel :
  analysis_init a0 (Init_allocs true true true) = Some (0, a) ->
  reader_ok r -> r_error r = PCAP_OK -> Forall is_byte (remaining r) ->
  (length (remaining r) < fuel)%nat ->
  let ps := (capture_of (r_info r) (remaining r)).1 in
  Z.of_nat (length ps) < 2 ^ 64 ->
  exists st a' r', analysis_run fuel a r rec als = Some (st, a', r') /\
    ((st = end_status (capture_of (r_info r) (remaining r)).2 (input_errno r) /\
      accounts_for ps a') \/
     (st = PCAP_ERR_NOMEM /\
      ~ (Forall (fun al => al = (true, true)) als /\ Z.of_nat (length ps) <= 2 ^ 56) /\
      exists done p, (done ++ [p]) `prefix_of` ps /\ stopped_at done p a')).
Proof.
  intros Hi Hok He Hb Hf ps Hlen.
  destruct (init_accounts a0) as (a1 & E1 & Ha & N1 & N2). rewrite E1 in Hi. injection Hi as <-.
  destruct (run_spec fuel a1 r rec als [] Hok He Hb Hf Ha Hlen) as (st & a' & r' & E & Hpost & _).
  exists st, a', r'. split; [done|]. destruct Hpost as [?|(? & Hfail & Hrest)]; [by left|right].
  split; [done|]. split; [|done]. intros [Hal Hb2]. apply Hfail. rewrite N1, N2. auto.
Qed.

(** C24. Nothing is lost between the counters and the tables: when a capture has
    been read to its end, the counters are conserved; the packets of all flows
    together and the non-IP packets are exactly the packets decoded without a
    problem; the packets of all tunnels together are exactly the G-PDUs whose GTP-U
    headers were decoded in full, and the G-PDUs that are not in a tunnel are among
    those counted as problems in GTP-U headers; only later fragments were matched. *)
Theorem analysis_run_totals a0 a r rec als fuel st a' r' :
  analysis_init a0 (Init_allocs true true true) = Some (0, a) ->
  reader_ok r -> r_error r = PCAP_OK -> Forall is_byte (remaining r) ->
  (length (remaining r) < fuel)%nat ->
  let ps := (capture_of (r_info r) (remaining r)).1 in
  Z.of_nat (length ps) < 2 ^ 64 ->
  analysis_run fuel a r rec als = Some (st, a', r') -> st <> PCAP_ERR_NOMEM ->
  conserved (an_stats a') /\ st_packets (an_stats a') = Z.of_nat (length ps) /\
  st_frag_matched (an_stats a') <= st_frag_later (an_stats a') /\
  exists in_flows in_tunnels, packets_in (an_flows a') = Some in_flows /\
    packets_in (an_tunnels a') = Some in_tunnels /\
    in_flows + st_non_ip (an_stats a') = bucket (st_by_status (an_stats a')) DEC_OK /\
    in_flows <= st_ipv4 (an_stats a') + st_ipv6 (an_stats a') /\
    in_tunnels = count tunnelled ps /\ in_tunnels <= in_flows /\
    let g := st_gtpu (an_stats a') in
    in_tunnels <= gs_gpdu g /\
    gs_gpdu g + gs_user_truncated g + gs_user_malformed g <= in_tunnels + gs_truncated g + gs_malformed g.
Proof.
  intros Hi Hok He Hb Hf ps Hlen E Hst.
  destruct (init_accounts a0) as (a1 & E1 & Ha & N1 & N2). rewrite E1 in Hi. injection Hi as <-.
  destruct (run_spec fuel a1 r rec als [] Hok He Hb Hf Ha Hlen) as (st2 & a2 & r2 & E2 & Hpost & _).
  rewrite E in E2. injection E2 as <- <- <-. destruct Hpost as [[_ Hacc]|(? & _)]; [|done].
  apply (accounts_totals ps); [exact Hacc|by apply capture_ok|done].
Qed.
