(* ===== verification/AnalysisFits.v ===== *)
(** What an analysis hands to the reports fits: every field of every flow and
    tunnel has its C type's range, and every counter array its size. *)
From S2P Require Export AnalyzeProps Tables.
From stdpp Require Export list sets.
#[global] Open Scope Z_scope.

(** ** Packets *)

(** What the tables take from a packet. *)
Record pi_fits (pi : packet_info) : Prop := {
  pf_version : pi_has_l3 pi = true \/ pi_is_gtpu pi = true -> pi_ip_version pi = 4 \/ pi_ip_version pi = 6;
  pf_proto : is_u 8 (pi_ip_proto pi);
  pf_src : addr_wf (pi_src_addr pi);
  pf_dst : addr_wf (pi_dst_addr pi);
  pf_sport : is_u 16 (pi_src_port pi);
  pf_dport : is_u 16 (pi_dst_port pi);
  pf_flags : is_u 8 (pi_tcp_flags pi);
  pf_teid : is_u 32 (pi_teid pi)
}.

(** A captured packet as the reader delivers it. *)
Definition cap_fits (p : captured) : Prop := cap_ok p /\ is_u 64 (cp_ts_ns p).

Lemma capture_fits info data : Forall is_byte data -> Forall cap_fits (capture_of info data).1.
Proof.
  unfold capture_of. generalize (S (length data)). intros fuel. revert data.
  induction fuel as [|fuel IH]; intros data Hd; cbn [pcap_packets]; [constructor|].
  destruct (split_record info data) as [st|[p rest]] eqn:E; [constructor|].
  destruct (split_record_bounds _ _ _ _ Hd E) as (B1 & B2 & B3 & B4 & B5).
  destruct (split_record_rest _ _ _ _ E) as [k ->].
  specialize (IH (drop k data) ltac:(by apply Forall_drop)).
  destruct (pcap_packets fuel info (drop k data)) as [ps st]. cbn [fst] in *.
  constructor; [|done]. split; [|done]. unfold is_u in B3. split; [done|]. unfold SIZE_MAX. lia.
Qed.

Lemma decode_of_fits p : cap_ok p -> pi_fits (decode_of p).
Proof.
  intros Hp. destruct (decode_of_spec p Hp) as (st & _ & Hok).
  destruct (po_ip _ _ _ _ Hok) as ((Hs & Hd & Hf & _) & Hpr & _ & Ha & Hb).
  destruct (gf_fields _ (gtp_facts_ok _ _ _ _ Hok)) as (_ & _ & _ & _ & Ht).
  split; try done. intros [H3|Hg]; [by apply (po_l3 _ _ _ _ Hok)|].
  destruct (po_gtpu _ _ _ _ Hok Hg) as (_ & _ & Hport & _).
  apply (po_l3 _ _ _ _ Hok). unfold decode_is_gtpu_port in Hport.
  rewrite !andb_true_iff in Hport. destruct Hport as [[H4 _] _]. by apply (po_l4 _ _ _ _ Hok).
Qed.

Lemma verdict_fits h p : Forall pi_fits h -> pi_fits p -> pi_fits (verdict h p).2.
Proof.
  intros Hh Hp. unfold verdict, attribution. destruct (port_less p); [|done].
  destruct (remembered h p) as [q|] eqn:E; cbn [mbind option_bind]; [|done].
  destruct (decide _); [|done]. cbn [snd]. unfold remembered in E.
  apply find_some in E as [Hq _]. rewrite Forall_forall in Hh. destruct (Hh q) as []; [by apply list_elem_of_In|].
  destruct Hp. by split.
Qed.

Lemma attributed_fits ps : Forall cap_fits ps -> Forall (fun v => pi_fits v.2) (attributed ps).
Proof.
  intros Hps. unfold attributed.
  assert (Hm : Forall pi_fits (map decode_of ps)).
  { apply Forall_map. apply (Forall_impl _ _ _ Hps). intros p [Hp _]. by apply decode_of_fits. }
  revert Hm. generalize (map decode_of ps). intros qs Hq.
  assert (Hh : Forall pi_fits []) by constructor. revert Hh. generalize (@nil packet_info).
  induction Hq as [|q qs Hq _ IH]; intros h Hh; cbn; [constructor|].
  constructor; [by apply verdict_fits|]. apply IH. by constructor.
Qed.

(** ** Accounted packets *)
Record acct_fits (a : acct) : Prop := {
  af_teid : is_u 32 (fk_teid (ac_key a));
  af_version : fk_ip_version (ac_key a) = 4 \/ fk_ip_version (ac_key a) = 6;
  af_proto : is_u 8 (fk_proto (ac_key a));
  af_port_a : is_u 16 (fk_port_a (ac_key a));
  af_port_b : is_u 16 (fk_port_b (ac_key a));
  af_addr_a : addr_wf (fk_addr_a (ac_key a));
  af_addr_b : addr_wf (fk_addr_b (ac_key a));
  af_ts : is_u 64 (ac_ts a)
}.

Lemma add_acct_fits c a ts :
  pi_fits (add_pi c) -> is_u 64 ts -> (forall pi len t, c = Add_packet pi len t \/ c = Add_tunnel pi len t -> t = ts) ->
  add_acct c = Some a -> acct_fits a.
Proof.
  intros [H1 H2 [H3 H3'] [H4 H4'] H5 H6 H7 H8] Hts Hc.
  assert (Ha : addrs_ok (add_pi c)) by done.
  destruct c as [pi len t|pi len t]; cbn [add_pi add_acct] in *; rewrite <- (Hc pi len t) in Hts by auto.
  - rewrite flow_key_eq by done. destruct (pi_has_l3 pi); [|done]. cbn [mbind option_bind]. intros [= <-].
    split; cbn [ac_key ac_ts]; unfold pi_key; try destruct (pi_reversed pi);
      cbn [fk_teid fk_ip_version fk_proto fk_port_a fk_port_b fk_addr_a fk_addr_b]; try done; try (by apply H1; left).
    all: split; done.
  - unfold tunnel_key_from_packet. destruct (pi_is_gtpu pi); [|done]. destruct (negb true || _); [done|].
    cbn -[replicate overwrite]. intros [= <-]. rewrite !overwrite_full by first [exact H3 | exact H4].
    split; cbn [ac_key ac_ts fk_teid fk_ip_version fk_proto fk_port_a fk_port_b fk_addr_a fk_addr_b]; try done.
    + apply H1. by right.
Qed.

Lemma samples_acct_fits ps : Forall cap_fits ps -> Forall acct_fits (flow_accts ps) /\ Forall acct_fits (tunnel_accts ps).
Proof.
  intros Hps. pose proof (attributed_fits ps Hps) as Ha.
  assert (Hs : Forall (fun x => pi_fits (sa_pi x) /\ is_u 64 (sa_ts x)) (samples ps)).
  { unfold samples. revert Ha. generalize (attributed ps). induction Hps as [|p ps [_ Hp] _ IH];
      intros [|v vs] Ha; cbn; try constructor; apply Forall_cons in Ha as [Hv Ha]; [by split|by apply IH]. }
  split; unfold flow_accts, tunnel_accts; apply Forall_forall; intros a (x & Hin & Hx)%list_elem_of_omap;
    rewrite Forall_forall in Hs; destruct (Hs x) as [Hpi Hts]; try done.
  - unfold joins_flow in Hx. destruct (status_eqb (pi_status (sa_pi x)) DEC_OK); [|done].
    apply (add_acct_fits (Add_packet (sa_pi x) (sa_wirelen x) (sa_ts x)) a (sa_ts x)); try done.
    intros ??? [[= _ _ <-]|[=]]. done.
  - unfold joins_tunnel in Hx. destruct (carries_user_data _); [|done].
    apply (add_acct_fits (Add_tunnel (sa_pi x) (sa_wirelen x) (sa_ts x)) a (sa_ts x)); try done.
    intros ??? [[=]|[= _ _ <-]]. done.
Qed.

(** ** Tables *)
Lemma represents_fits t l : represents t l -> Forall acct_fits l -> table_fits t.
Proof.
  intros [_ Hr] Hl k f Hk. specialize (Hr k). rewrite Hk in Hr.
  destruct Hr as [Hne [Ekey Hp Hb [(a & Ha & Ea) _] (l1 & b & l2 & El & Eb & _) _ Hfl]].
  assert (Hin : forall x, x ∈ filter (same_key k) l -> ac_key x = k /\ acct_fits x).
  { intros x [Hx Hxl]%list_elem_of_filter. split; [done|]. rewrite Forall_forall in Hl. by apply Hl. }
  destruct (Hin a Ha) as [Hka []]. rewrite Hka in *. subst k.
  assert (Hb' : b ∈ filter (same_key (fl_key f)) l) by (rewrite El; apply elem_of_app; right; by left).
  destruct (Hin b Hb') as [_ Hbf]. split; try done.
  - rewrite Hp. apply wrap_is_u. lia.
  - rewrite Hb. apply wrap_is_u. lia.
  - rewrite <- Eb. by apply Hbf.
  - by rewrite <- Ea.
Qed.

(** ** The analysis *)
Record reportable (a : analysis) : Prop := {
  rp_flows : table_ok (an_flows a);
  rp_tunnels : table_ok (an_tunnels a);
  rp_frags : exists slots, an_frags a = Frag_cache (Some slots) 1;
  rp_flows_fit : table_fits (an_flows a);
  rp_tunnels_fit : table_fits (an_tunnels a);
  rp_by_status : length (st_by_status (an_stats a)) = 28%nat;
  rp_gtpu_by_status : length (gs_by_status (st_gtpu (an_stats a))) = 28%nat;
  rp_first : is_u 64 (st_first_ts_ns (an_stats a));
  rp_last : is_u 64 (st_last_ts_ns (an_stats a))
}.

Lemma extremes_u64 l :
  Forall (fun x => is_u 64 (sa_ts x)) l -> is_u 64 (earliest l) /\ is_u 64 (latest l).
Proof.
  intros H. destruct H as [|x l Hx Hl]; [done|]. cbn [earliest latest].
  assert (Hgen : forall m n, is_u 64 m -> is_u 64 n ->
    is_u 64 (foldl (fun m y => Z.min m (sa_ts y)) m l) /\ is_u 64 (foldl (fun m y => Z.max m (sa_ts y)) n l)).
  { induction Hl as [|y l Hy _ IH]; intros m n Hm Hn; cbn; [done|]. apply IH; unfold is_u in *; lia. }
  by apply Hgen.
Qed.

Lemma samples_ts ps : Forall cap_fits ps -> Forall (fun x => is_u 64 (sa_ts x)) (samples ps).
Proof.
  intros Hps. unfold samples. generalize (attributed ps).
  induction Hps as [|p ps [_ Hp] _ IH]; intros [|v vs]; cbn; constructor; [done|apply IH].
Qed.

Lemma expected_stats_fit ps :
  Forall cap_fits ps ->
  length (st_by_status (expected_stats ps)) = 28%nat /\
  length (gs_by_status (st_gtpu (expected_stats ps))) = 28%nat /\
  is_u 64 (st_first_ts_ns (expected_stats ps)) /\ is_u 64 (st_last_ts_ns (expected_stats ps)).
Proof.
  intros Hps. pose proof (extremes_u64 _ (samples_ts ps Hps)). unfold expected_stats, stats_of.
  cbn [st_by_status st_gtpu gtpu_shape gs_by_status st_first_ts_ns st_last_ts_ns]. rewrite !length_map. done.
Qed.

Lemma accounts_reportable ps a : Forall cap_fits ps -> accounts_for ps a -> reportable a.
Proof.
  intros Hps [Hst Hfl Htu (slots & Hfr & _)]. destruct (samples_acct_fits ps Hps) as [Hf Ht].
  destruct (expected_stats_fit ps Hps) as (H1 & H2 & H3 & H4). rewrite <- Hst in *.
  split; try done; [apply Hfl|apply Htu|by eexists| |]; by eapply represents_fits.
Qed.

Lemma stopped_reportable ps p a : Forall cap_fits (ps ++ [p]) -> stopped_at ps p a -> reportable a.
Proof.
  intros Hps [Hst Hfl Htu Hfr]. pose proof Hps as Hps'. apply Forall_app in Hps' as [Hps1 _].
  destruct (samples_acct_fits _ Hps) as [Hf _]. destruct (samples_acct_fits _ Hps1) as [Hf1 Ht1].
  destruct (expected_stats_fit _ Hps) as (H1 & H2 & H3 & H4). rewrite <- Hst in *.
  split; try done; [by destruct Hfl as [[? _]|[? _]]|apply Htu| |by eapply represents_fits].
  destruct Hfl; by eapply represents_fits.
Qed.

(** [analysis_free] frees every block of the tables and of the fragment cache. *)
Lemma analysis_freed a :
  reportable a ->
  an_flows (analysis_free a) = Flow_table [] 0 0 0 /\ an_tunnels (analysis_free a) = Flow_table [] 0 0 0 /\
  an_frags (analysis_free a) = Frag_cache None 0.
Proof.
  intros [Hf Ht [slots Hc] _ _ _ _ _ _]. destruct a as [st f t c]. cbn in *. subst c.
  split; [by apply table_freed|]. split; [by apply table_freed|done].
Qed.

(** ** Sizes *)
Lemma capture_short info data : (length (capture_of info data).1 <= length data)%nat.
Proof.
  unfold capture_of. generalize (S (length data)). intros fuel. revert data.
  induction fuel as [|fuel IH]; intros data; cbn [pcap_packets]; [cbn; lia|].
  destruct (split_record info data) as [st|[p rest]] eqn:E; [cbn; lia|].
  pose proof (split_record_shorter _ _ _ _ E). specialize (IH rest).
  destruct (pcap_packets fuel info rest) as [ps st]. cbn in *. lia.
Qed.

Lemma represents_count_nil t : represents t [] -> ft_count t = 0.
Proof.
  intros [Ht Hr]. rewrite size_tmap by done.
  rewrite (proj2 (map_size_empty_iff (tmap t))); [done|]. apply map_empty. intros k.
  specialize (Hr k). destruct (tmap t !! k); [by destruct Hr as [[] _]|done].
Qed.
