(* ===== verification/Main.v ===== *)
(** The command line (src/main.c).  Definitions only; [MainProps] holds the
    theorems.

    Everything the program gets from outside is an argument: the files it can
    open, the outcome of each allocation, and the faults of the streams it writes
    to.  [None] is undefined behaviour or a loop that ran out of fuel. *)
From Stdlib Require Import String.
From S2P Require Export AnalysisFits.
From stdpp Require Export list.
#[global] Open Scope Z_scope.

Definition EXIT_OK := 0.
Definition EXIT_USAGE := 1.
Definition EXIT_INPUT := 2.
Definition DEFAULT_TOP_N := 10.
Definition MAX_TOP_N := 1000000.

(** ** The environment and the world *)
Record env := Env {
  e_open : bytes -> FILE + Z;              (* [fopen(path, "rb")], or its errno *)
  e_create : bytes -> device + Z;          (* [fopen(path, "w")], or its errno *)
  e_buffer : option bytes;                 (* the record buffer *)
  e_init : init_allocs;                    (* the allocations of [analysis_init] *)
  e_grow : list (bool * bool);             (* those of each record *)
  e_top_flows : bool;                      (* the arrays of [print_top] *)
  e_teids : bool;                          (* the array of [report_gtpu] *)
  e_top_tunnels : bool;
  e_csv : bool;                            (* the arrays of the CSV reports *)
  e_tunnels_csv : bool;
  e_strerror : Z -> bytes;
  e_junk : Z -> bytes                      (* uninitialised arrays *)
}.

(** [w_files] holds the files written and closed, in order; [w_an] is the
    [struct analysis] of [main]. *)
Record world := World {
  w_out : ostream;
  w_err : ostream;
  w_os : resources;
  w_files : list (bytes * ostream);
  w_an : analysis
}.

#[export] Instance world_eta : Eta world := fun w =>
  World (w.(w_out)) (w.(w_err)) (w.(w_os)) (w.(w_files)) (w.(w_an)).
#[export] Instance set_w_out : Setter w_out. Proof. solve_setter. Defined.
#[export] Instance set_w_err : Setter w_err. Proof. solve_setter. Defined.
#[export] Instance set_w_os : Setter w_os. Proof. solve_setter. Defined.
#[export] Instance set_w_files : Setter w_files. Proof. solve_setter. Defined.
#[export] Instance set_w_an : Setter w_an. Proof. solve_setter. Defined.

Definition warn (w : world) (text : bytes) : world := w <| w_err ::= fun o => fprintf o text |>.

(** ** Helpers *)
Definition usage (out : ostream) : ostream :=
  fprintf out
    (str "usage: pcapstat [-n N] [--csv FILE] [--tunnels-csv FILE] FILE.pcap" ++ newline ++
     newline ++
     str "Summarise a classic libpcap capture (Ethernet link type):" ++ newline ++
     str "packet counts per protocol, decode problems, the largest" ++ newline ++
     str "bidirectional flows and, for GTP-U traffic, the largest tunnels." ++ newline ++
     newline ++
     str "  -n N                show the top N flows and tunnels by bytes" ++ newline ++
     str "                      (default " ++ dec DEFAULT_TOP_N ++ str ", 0 hides the tables)" ++ newline ++
     str "  --csv FILE          also write every flow to FILE as CSV" ++ newline ++
     str "  --tunnels-csv FILE  also write every GTP-U tunnel to FILE as CSV" ++ newline ++
     str "  -h, --help          show this help" ++ newline ++
     newline ++
     str "exit status: 0 ok, 1 usage error, 2 input error" ++ newline).

(** [for (p = text; *p; p++) if ( *p < '0' || *p > '9') return 0;] *)
Fixpoint all_digits (text : bytes) : bool :=
  match text with
  | [] => true
  | c :: text => if (c <? 48) || (c >? 57) then false else all_digits text
  end.

(** [strtoul(text, NULL, 10)] of a string of digits: its value, or [ULONG_MAX] and
    [ERANGE]. *)
Definition strtoul (text : bytes) : Z * bool :=
  let v := value 10 text in if v <? 2 ^ 64 then (v, false) else (2 ^ 64 - 1, true).

(** [parse_count(text, &out)]: the count, or [None] when it returns 0. *)
Definition parse_count (text : bytes) : option Z :=
  match text with
  | [] => None
  | _ =>
    if negb (all_digits text) then None else
    let '(v, erange) := strtoul text in
    if erange || (v >? MAX_TOP_N) then None else Some v
  end.

(** [strcmp(a, b) == 0] *)
Definition same_string (a b : bytes) : bool := bool_decide (a = b).

(** ** Arguments *)
Record options := Options {
  op_top_n : Z;
  op_csv : option bytes;
  op_tunnels : option bytes;
  op_pcap : option bytes
}.

(** [arg[0] == '-' && arg[1] != '\0'] *)
Definition is_option (arg : bytes) : bool := match arg with c :: _ :: _ => c =? 45 | _ => false end.

(** The loop over [argv]: the options, or the exit status and the world. *)
Fixpoint parse_args (args : list bytes) (o : options) (w : world) : (Z * world) + options :=
  match args with
  | [] => inr o
  | arg :: args =>
    if same_string arg (str "-h") || same_string arg (str "--help") then
      inl (EXIT_OK, w <| w_out ::= usage |>)
    else if same_string arg (str "-n") then
      let bad := inl (EXIT_USAGE, warn w (str "pcapstat: -n needs a number from 0 to " ++ dec MAX_TOP_N ++ newline)) in
      match args with
      | [] => bad
      | v :: args =>
        match parse_count v with
        | None => bad
        | Some n => parse_args args (Options n (op_csv o) (op_tunnels o) (op_pcap o)) w
        end
      end
    else if same_string arg (str "--csv") || same_string arg (str "--tunnels-csv") then
      match args with
      | [] => inl (EXIT_USAGE, warn w (str "pcapstat: " ++ arg ++ str " needs a file name" ++ newline))
      | v :: args =>
        if same_string arg (str "--csv")
        then parse_args args (Options (op_top_n o) (Some v) (op_tunnels o) (op_pcap o)) w
        else parse_args args (Options (op_top_n o) (op_csv o) (Some v) (op_pcap o)) w
      end
    else if is_option arg then
      let w := warn w (str "pcapstat: unknown option '" ++ arg ++ str "'" ++ newline) in
      inl (EXIT_USAGE, w <| w_err ::= usage |>)
    else match op_pcap o with
    | Some _ => inl (EXIT_USAGE, warn w (str "pcapstat: only one input file is supported" ++ newline))
    | None => parse_args args (Options (op_top_n o) (op_csv o) (op_tunnels o) (Some arg)) w
    end
  end.

Definition is_path (o : option bytes) (path : bytes) : bool :=
  match o with Some p => same_string p path | None => false end.

(** The checks after the loop: the options and the capture's path. *)
Definition check_args (o : options) (w : world) : (Z * world) + (options * bytes) :=
  match op_pcap o with
  | None => inl (EXIT_USAGE, w <| w_err ::= usage |>)
  | Some pcap =>
    if is_path (op_csv o) pcap || is_path (op_tunnels o) pcap then
      inl (EXIT_USAGE, warn w (str "pcapstat: a CSV file must not be the input file" ++ newline))
    else if match op_csv o, op_tunnels o with Some c, Some t => same_string c t | _, _ => false end then
      inl (EXIT_USAGE, warn w (str "pcapstat: --csv and --tunnels-csv need different files" ++ newline))
    else inr (o, pcap)
  end.

Section Run.
Context `{QSort} (e : env).

(** [writer] is [report_csv] or [report_tunnels_csv], with its allocation. *)
Definition write_csv (w : world) (path : bytes) (t : flow_table)
           (writer : ostream -> flow_table -> resources -> option (Z * ostream * resources)) : option (Z * world) :=
  match e_create e path with
  | inr err => Some (-1, warn w (str "pcapstat: " ++ path ++ str ": " ++ e_strerror e err ++ newline))
  | inl dev =>
    let w := w <| w_os ::= fun os => Resources (os_files os + 1) (os_blocks os) |> in
    '(rc, f, os) ← writer (ostream_new dev) t (w_os w);
    let '(closed, f) := fflush f in
    let w := w <| w_os := Resources (os_files os - 1) (os_blocks os) |>
               <| w_files ::= fun fs => fs ++ [(path, f)] |> in
    let rc := if negb (closed =? 0) then -1 else rc in
    let w := if negb (rc =? 0)
             then warn w (str "pcapstat: " ++ path ++ str ": failed to write CSV" ++ newline) else w in
    Some (rc, w)
  end.

Definition print_top (w : world) (t : flow_table) (top_n : Z) (tunnels alloc : bool) : option (Z * world) :=
  let n := if top_n <? ft_count t then top_n else ft_count t in
  if n =? 0 then Some (0, w) else
  if negb alloc then Some (-1, warn w (str "pcapstat: out of memory" ++ newline)) else
  let w := w <| w_os ::= malloc |> in
  top ← flow_table_top_n t (Z.to_nat n);
  out ← (if tunnels then report_top_tunnels (e_junk e) (w_out w) top (ft_count t)
         else report_top_flows (e_junk e) (w_out w) top (ft_count t));
  Some (0, w <| w_out := out |> <| w_os ::= free |>).

(** [if (print_top(...) != 0) status = EXIT_INPUT;] and the like. *)
Definition worsen (status rc : Z) : Z := if negb (rc =? 0) then EXIT_INPUT else status.

(** The reports on the standard output, from [report_summary] on. *)
Definition print_all (w : world) (o : options) (pcap : bytes) (info : pcap_file_info) (an : analysis)
           (status : Z) : option (Z * world) :=
  out ← report_summary (e_junk e) (w_out w) pcap info (an_stats an) (ft_count (an_flows an));
  let w := w <| w_out := out |> in
  '(rc, w) ← print_top w (an_flows an) (op_top_n o) false (e_top_flows e);
  let status := worsen status rc in
  '(rc, out, os) ← report_gtpu (w_out w) (an_stats an) (an_tunnels an) (e_teids e) (w_os w);
  let w := w <| w_out := out |> <| w_os := os |> in
  let w := if negb (rc =? 0) then warn w (str "pcapstat: out of memory" ++ newline) else w in
  let status := worsen status rc in
  '(rc, w) ← print_top w (an_tunnels an) (op_top_n o) true (e_top_tunnels e);
  Some (worsen status rc, w).

(** From [report_summary] to [fflush]. *)
Definition report_all (w : world) (o : options) (pcap : bytes) (info : pcap_file_info) (an : analysis)
           (status : Z) : option (Z * world) :=
  '(status, w) ← print_all w o pcap info an status;
  '(rc, w) ← match op_csv o with
    | Some path => write_csv w path (an_flows an) (fun out t os => report_csv (e_junk e) out t (e_csv e) os)
    | None => Some (0, w) end;
  let status := worsen status rc in
  '(rc, w) ← match op_tunnels o with
    | Some path => write_csv w path (an_tunnels an) (fun out t os => report_tunnels_csv (e_junk e) out t (e_tunnels_csv e) os)
    | None => Some (0, w) end;
  let status := worsen status rc in
  let '(rc, out) := fflush (w_out w) in
  Some (worsen status rc, w <| w_out := out |>).

(** From [pcap_open_file] on. *)
Definition run_capture (fuel : nat) (w : world) (o : options) (pcap : bytes) : option (Z * world) :=
  '(st, reader, os) ← pcap_open_file (e_open e pcap) (e_buffer e) (w_os w);
  let w := w <| w_os := os |> in
  if negb (pstatus_eqb st PCAP_OK) then
    let why := if pstatus_eqb st PCAP_ERR_OPEN || pstatus_eqb st PCAP_ERR_IO
               then str ": " ++ e_strerror e (r_sys_errno reader) else [] in
    Some (EXIT_INPUT, warn w (str "pcapstat: " ++ pcap ++ str ": " ++ str (pcap_status_str st) ++ why ++ newline))
  else
  '(rc, an) ← analysis_init (w_an w) (e_init e);
  let w := w <| w_an := an |> in
  if negb (rc =? 0) then
    let w := warn w (str "pcapstat: out of memory" ++ newline) in
    let '(_, os) := pcap_close reader (w_os w) in
    Some (EXIT_INPUT, w <| w_os := os |>)
  else
  '(st, an, reader) ← analysis_run fuel an reader (Pcap_record 0 0 0 None) (e_grow e);
  let ended := pstatus_eqb st PCAP_EOF in
  let w := if negb ended then
    warn w (str "pcapstat: " ++ pcap ++ str ": " ++ str (pcap_status_str st) ++ str " after " ++
            dec (r_records reader) ++ str " records; statistics below cover those records only" ++ newline)
    else w in
  let status := if negb ended then EXIT_INPUT else EXIT_OK in
  '(status, w) ← report_all w o pcap (r_info reader) an status;
  let w := w <| w_an := analysis_free an |> in
  let '(_, os) := pcap_close reader (w_os w) in
  Some (status, w <| w_os := os |>).

(** The exit status and the world; [argv] includes the program's name. *)
Definition main (fuel : nat) (argv : list bytes) (w : world) : option (Z * world) :=
  match parse_args (drop 1 argv) (Options DEFAULT_TOP_N None None None) w with
  | inl r => Some r
  | inr o =>
    match check_args o w with
    | inl r => Some r
    | inr (o, pcap) => run_capture fuel w o pcap
    end
  end.
End Run.
