(* ===== verification/MainReports.v ===== *)
(** The reports of the program: the text on the standard output as a function of
    the analysis, the CSV files, and the exit status they lead to. *)
From Stdlib Require Import String.
From S2P Require Export Main.
From stdpp Require Export list sets gmap.
#[global] Open Scope Z_scope.

Lemma ranked_teids t fs :
  ranked t fs -> teids_of t = list_to_set (map (fun f => fk_teid (fl_key f)) fs).
Proof.
  intros (_ & _ & M). apply set_eq. intros x. unfold teids_of.
  rewrite !elem_of_list_to_set, !list_elem_of_fmap. split.
  - intros ([k f] & -> & Hk%elem_of_map_to_list). exists f. by apply M in Hk as [? ->].
  - intros (f & -> & Hf). exists (fl_key f, f). split; [done|]. by apply elem_of_map_to_list, M.
Qed.

(** ** The standard output *)

(** What the program prints about an analysis with the counters [s], the flows
    [fs] and the tunnels [ts], each from the largest down: the summary, the first
    flows, the GTP-U section and the first tunnels. *)
Definition report_text (o : options) (pcap : bytes) (info : pcap_file_info) (s : stats) (fs ts : list flow) : bytes :=
  let shown l := take (Z.to_nat (op_top_n o)) l in
  let count l := Z.of_nat (length l) in
  let teids : gset Z := list_to_set (map (fun f => fk_teid (fl_key f)) ts) in
  summary_text pcap info s (count fs) ++ flows_table (shown fs) (count fs) ++
  gtpu_text (st_gtpu s) (count ts) (Z.of_nat (size teids)) ++ tunnels_table (shown ts) (count ts).

(** Between [out] and [out'] the program printed the report on [an], and the stream
    was flushed without an error. *)
Definition report_printed (o : options) (pcap : bytes) (info : pcap_file_info) (an : analysis) (out out' : ostream) : Prop :=
  exists fs ts, ranked (an_flows an) fs /\ ranked (an_tunnels an) ts /\
    delivered out (report_text o pcap info (an_stats an) fs ts) out'.

Definition top_text (tunnels : bool) (top : list flow) (count : Z) : bytes :=
  if tunnels then tunnels_table top count else flows_table top count.

Lemma top_text_nil tunnels count : top_text tunnels [] count = [].
Proof. by destruct tunnels. Qed.

(** Nothing but messages: no file, no resource. *)
Record untouched (w w' : world) : Prop := {
  un_os : w_os w' = w_os w;
  un_files : w_files w' = w_files w;
  un_an : w_an w' = w_an w
}.

Lemma untouched_trans w1 w2 w3 : untouched w1 w2 -> untouched w2 w3 -> untouched w1 w3.
Proof. intros [] []. split; congruence. Qed.

(** ** The reports *)
Section Reports.
Context `{QSort} (e : env).
Context (Hjunk : forall n, 0 <= n -> length (e_junk e n) = Z.to_nat n).

(** A step of the reports: it prints [text] and returns 0, or returns -1 because
    its allocation failed. *)
Definition print_step (w : world) (alloc : bool) (text : bytes) (rc : Z) (w' : world) : Prop :=
  untouched w w' /\
  ((rc = 0 /\ wrote (w_out w) text (w_out w') /\ w_err w' = w_err w) \/
   (rc = -1 /\ alloc = false /\ w_out w' = w_out w)).

Lemma print_step_some w alloc text rc w' : print_step w alloc text rc w' -> exists text', wrote (w_out w) text' (w_out w').
Proof. intros [_ [(_ & ? & _)|(_ & _ & ->)]]; [by eexists|exists []; apply wrote_nil]. Qed.

Lemma print_top_ok w t fs top_n tunnels alloc :
  table_ok t -> table_fits t -> ranked t fs ->
  exists rc w', print_top e w t top_n tunnels alloc = Some (rc, w') /\
    print_step w alloc (top_text tunnels (take (Z.to_nat top_n) fs) (ft_count t)) rc w'.
Proof.
  intros Ht Hf Hr. unfold print_top. set (n := if top_n <? ft_count t then top_n else ft_count t).
  pose proof (ranked_count t fs Ht Hr) as Hc.
  assert (Etop : take (Z.to_nat n) fs = take (Z.to_nat top_n) fs).
  { subst n. destruct (Z.ltb_spec top_n (ft_count t)); [done|]. rewrite !take_ge by lia. done. }
  destruct (Z.eqb_spec n 0) as [E0|_].
  { exists 0, w. split; [done|]. split; [done|]. left. split; [done|]. split; [|done].
    rewrite <- Etop, E0. cbn. rewrite top_text_nil. apply wrote_nil. }
  destruct alloc; cbn [negb].
  2:{ eexists (-1), _. split; [done|]. split; [by destruct w|]. right. split; [done|]. split; [done|by destruct w]. }
  cbv zeta. rewrite (top_of_ranking t fs) by done. cbn [mbind option_bind]. rewrite Etop.
  assert (Hfit : Forall flow_fits (take (Z.to_nat top_n) fs)).
  { apply Forall_take, Forall_forall. intros f Hin. apply (Hf (fl_key f)), Hr. by split. }
  assert (Ew : w_out (w <| w_os ::= malloc |>) = w_out w) by (by destruct w). rewrite Ew.
  assert (Hprint : exists out, (if tunnels then report_top_tunnels (e_junk e) (w_out w) (take (Z.to_nat top_n) fs) (ft_count t)
      else report_top_flows (e_junk e) (w_out w) (take (Z.to_nat top_n) fs) (ft_count t)) = Some out /\
      wrote (w_out w) (top_text tunnels (take (Z.to_nat top_n) fs) (ft_count t)) out).
  { destruct tunnels; [by apply report_top_tunnels_ok|by apply report_top_flows_ok]. }
  destruct Hprint as (out & -> & Hw). cbn [mbind option_bind]. eexists 0, _.
  split; [done|]. split; [split; destruct w; cbn; [apply free_malloc|done..]|]. left. split; [done|]. by destruct w.
Qed.

(** A file that holds the CSV of a table, which reads back as its flows. *)
Definition csv_file {A} (cols : list bytes) (fields : flow -> list bytes) (read : list bytes -> option A)
    (view : flow -> A) (t : flow_table) (f : ostream) : Prop :=
  exists fs, ranked t fs /\ o_data f = csv_text cols fields fs /\
    read_csv (csv_line cols) read (o_data f) = Some (map view fs).

Lemma write_csv_ok {A} cols fields (read : list bytes -> option A) view writer w path t alloc :
  (forall out os, exists rc out' fs, writer out t os = Some (rc, out', os) /\
     report_reads_back cols fields read view out t alloc rc out' fs) ->
  exists rc w', write_csv e w path t writer = Some (rc, w') /\
    w_os w' = w_os w /\ w_out w' = w_out w /\ w_an w' = w_an w /\
    (rc = 0 \/ rc = -1) /\
    (w_files w' = w_files w \/ exists f, w_files w' = w_files w ++ [(path, f)]) /\
    (rc = 0 -> exists f, w_files w' = w_files w ++ [(path, f)] /\ csv_file cols fields read view t f) /\
    (e_create e path = inl sound -> alloc = true -> rc = 0) /\
    (rc = 0 -> w_err w' = w_err w).
Proof.
  intros Hwr. unfold write_csv. destruct (e_create e path) as [dev|err].
  2:{ eexists (-1), _. split; [done|]. destruct w. split; [done|]. split; [done|]. split; [done|].
      split; [by right|]. split; [by left|]. done. }
  cbv zeta. match goal with |- context [writer _ _ ?os] => destruct (Hwr (ostream_new dev) os) as (rc & f & fs & -> & Hr & Hrc & _ & _ & Hfl & Hgood & Hread) end.
  cbn [mbind option_bind]. destruct (fflush f) as [closed f'] eqn:Ef.
  assert (Hd : closed = 0 -> o_data f' = o_text f).
  { unfold fflush in Ef. destruct (o_flush f); by injection Ef as <- <-. }
  set (w1 := _ <| w_files ::= _ |>).
  set (rc' := if negb (closed =? 0) then -1 else rc).
  assert (Hw1 : w_os w1 = w_os w /\ w_out w1 = w_out w /\ w_an w1 = w_an w /\
    w_files w1 = w_files w ++ [(path, f')] /\ w_err w1 = w_err w).
  { subst w1. destruct w as [? ? [? ?] ? ?]. cbn. split; [f_equal; lia|done]. }
  destruct Hw1 as (H1 & H2 & H3 & H4 & H5). clearbody w1.
  eexists rc', _. split; [reflexivity|].
  set (w2 := if negb (rc' =? 0) then _ else w1).
  assert (Hw2 : w_os w2 = w_os w /\ w_out w2 = w_out w /\ w_an w2 = w_an w /\
    w_files w2 = w_files w ++ [(path, f')] /\ (rc' = 0 -> w_err w2 = w_err w))
    by (subst w2; destruct (Z.eqb_spec rc' 0); cbn [negb]; destruct w1; done).
  destruct Hw2 as (H1' & H2' & H3' & H4' & H5'). clearbody w2. split; [done|]. split; [done|]. split; [done|].
  split; [subst rc'; destruct (negb _); auto|]. split; [by right; exists f'|].
  split; [|split; [|exact H5']].
  - intros Hz. exists f'. split; [done|]. subst rc'. destruct (Z.eqb_spec closed 0) as [Hc|]; [|done]. cbn [negb] in Hz.
    destruct (Hread Hz) as (Et & _ & Hcsv). exists fs. split; [done|]. rewrite Hd, Et by done. by split.
  - intros [= ->] Ha. subst rc'. assert (rc = 0) as -> by (apply Hgood; [done|by apply takes_all_new|done]).
    unfold fflush in Ef. rewrite Hfl in Ef. by injection Ef as <- <-.
Qed.

(** A requested CSV file, written or not. *)
Definition maybe_csv {A} (cols : list bytes) (fields : flow -> list bytes) (read : list bytes -> option A) (view : flow -> A) (t : flow_table)
    (alloc : bool) (requested : option bytes) (w : world) (rc : Z) (w' : world) : Prop :=
  w_os w' = w_os w /\ w_out w' = w_out w /\ w_an w' = w_an w /\ (rc = 0 \/ rc = -1) /\
  (exists fs, w_files w' = w_files w ++ fs /\ forall p f, (p, f) ∈ fs -> requested = Some p) /\
  (rc = 0 -> forall path, requested = Some path ->
     exists f, (path, f) ∈ w_files w' /\ csv_file cols fields read view t f) /\
  ((forall path, requested = Some path -> e_create e path = inl sound) -> alloc = true -> rc = 0) /\
  (rc = 0 -> w_err w' = w_err w).

Lemma maybe_csv_ok {A} cols fields (read : list bytes -> option A) view writer w t alloc requested :
  (forall out os, exists rc out' fs, writer out t os = Some (rc, out', os) /\
     report_reads_back cols fields read view out t alloc rc out' fs) ->
  exists rc w', match requested with Some path => write_csv e w path t writer | None => Some (0, w) end =
      Some (rc, w') /\ maybe_csv cols fields read view t alloc requested w rc w'.
Proof.
  intros Hw. destruct requested as [path|].
  - destruct (write_csv_ok cols fields read view writer w path t alloc Hw)
      as (rc & w' & E & H1 & H2 & H3 & H4 & H5 & H6 & H7 & H8).
    exists rc, w'. split; [done|]. do 4 (split; [done|]). split; [|split; [|split; [|done]]].
    + destruct H5 as [H5|[f H5]]; [exists []; split; [by rewrite app_nil_r|by intros ?? ?%elem_of_nil]|].
      exists [(path, f)]. split; [done|]. by intros p g [= -> ->]%list_elem_of_singleton.
    + intros Hz p [= <-]. destruct (H6 Hz) as (f & Ef & Hf). exists f. split; [|done].
      rewrite Ef. apply elem_of_app. right. by left.
    + intros Hc. apply H7, Hc. done.
  - exists 0, w. split; [done|]. do 3 (split; [done|]). split; [by left|]. split; [|by split].
    exists []. split; [by rewrite app_nil_r|by intros ?? ?%elem_of_nil].
Qed.

(** Both requested CSV files hold the tables. *)
Definition csv_files (o : options) (an : analysis) (w : world) : Prop :=
  (forall path, op_csv o = Some path ->
     exists f, (path, f) ∈ w_files w /\ csv_file csv_cols csv_fields read_row view_of (an_flows an) f) /\
  (forall path, op_tunnels o = Some path ->
     exists f, (path, f) ∈ w_files w /\ csv_file tunnel_csv_cols tunnel_csv_fields read_tunnel_row tunnel_view_of (an_tunnels an) f).

(** Nothing goes wrong outside the program while it reports. *)
Record reports_succeed (o : options) (w : world) : Prop := {
  rs_out : takes_all (w_out w);
  rs_flush : o_flush (w_out w) = None;
  rs_csv : forall path, op_csv o = Some path -> e_create e path = inl sound;
  rs_tunnels : forall path, op_tunnels o = Some path -> e_create e path = inl sound;
  rs_allocs : e_top_flows e = true /\ e_teids e = true /\ e_top_tunnels e = true /\
              e_csv e = true /\ e_tunnels_csv e = true
}.

Lemma worsen_status status rc : status = EXIT_OK \/ status = EXIT_INPUT -> worsen status rc = EXIT_OK \/ worsen status rc = EXIT_INPUT.
Proof. unfold worsen. destruct (negb _); auto. Qed.
Lemma worsen_ok status rc : worsen status rc = EXIT_OK <-> status = EXIT_OK /\ rc = 0.
Proof. unfold worsen, EXIT_OK, EXIT_INPUT. destruct (Z.eqb_spec rc 0); cbn; split; (lia || intuition lia). Qed.

(** What the reports leave when all of them were made. *)
Record fully_reported (o : options) (pcap : bytes) (info : pcap_file_info) (an : analysis) (w w' : world) : Prop := {
  cm_printed : report_printed o pcap info an (w_out w) (w_out w');
  cm_csv : csv_files o an w';
  cm_quiet : w_err w' = w_err w
}.

Lemma print_summary_ok w pcap info an fs :
  reportable an -> ranked (an_flows an) fs ->
  exists out, report_summary (e_junk e) (w_out w) pcap info (an_stats an) (ft_count (an_flows an)) = Some out /\
    wrote (w_out w) (summary_text pcap info (an_stats an) (Z.of_nat (length fs))) out.
Proof.
  intros [Hf _ _ _ _ Hb _ H1 H2] Hr. rewrite (ranked_count _ _ Hf Hr). by apply report_summary_ok.
Qed.

(** The report is on the stream, not yet flushed. *)
Definition report_written (o : options) (pcap : bytes) (info : pcap_file_info) (an : analysis) (out out' : ostream) : Prop :=
  exists fs ts, ranked (an_flows an) fs /\ ranked (an_tunnels an) ts /\
    wrote out (report_text o pcap info (an_stats an) fs ts) out'.

Lemma print_all_ok w o pcap info an status :
  reportable an -> status = EXIT_OK \/ status = EXIT_INPUT ->
  exists st' w', print_all e w o pcap info an status = Some (st', w') /\ untouched w w' /\
    (st' = EXIT_OK \/ st' = EXIT_INPUT) /\ (st' = EXIT_OK -> status = EXIT_OK) /\
    (exists text, wrote (w_out w) text (w_out w')) /\
    (st' = EXIT_OK \/ (e_top_flows e = true /\ e_teids e = true /\ e_top_tunnels e = true) ->
     st' = status /\ report_written o pcap info an (w_out w) (w_out w') /\ w_err w' = w_err w).
Proof.
  intros Hrep Hst. pose proof Hrep as [Hf Ht _ Hff Htf Hb Hgb _ _]. unfold print_all.
  destruct (rank_all _ Hf) as (fs & _ & Hfs & Ef). destruct (rank_all _ Ht) as (ts & _ & Hts & Et).
  destruct (print_summary_ok w pcap info an fs Hrep Hfs) as (out1 & -> & W1). cbn [mbind option_bind].
  set (w1 := w <| w_out := out1 |>).
  assert (U1 : untouched w w1 /\ w_out w1 = out1 /\ w_err w1 = w_err w) by (by destruct w).
  clearbody w1. destruct U1 as (U1 & O1 & X1).
  destruct (print_top_ok w1 (an_flows an) fs (op_top_n o) false (e_top_flows e) Hf Hff Hfs) as (rc2 & w2 & -> & U2 & C2).
  cbn [mbind option_bind].
  destruct (report_gtpu_ok (w_out w2) (an_stats an) (an_tunnels an) (e_teids e) (w_os w2) Ht Hgb) as (rc3 & out3 & E3 & C3).
  rewrite E3. cbn [mbind option_bind]. clear E3.
  set (w3 := if negb (rc3 =? 0) then _ else _).
  assert (U3 : untouched w2 w3 /\ w_out w3 = out3 /\ (rc3 = 0 -> w_err w3 = w_err w2)).
  { subst w3. destruct (Z.eqb_spec rc3 0); cbn [negb]; destruct w2; by split. }
  clearbody w3. destruct U3 as (U3 & O3 & X3).
  destruct (print_top_ok w3 (an_tunnels an) ts (op_top_n o) true (e_top_tunnels e) Ht Htf Hts) as (rc4 & w4 & -> & U4 & C4).
  cbn [mbind option_bind]. eexists _, w4. split; [done|].
  split; [by do 3 (eapply untouched_trans; [eassumption|])|].
  split; [by repeat apply worsen_status|]. rewrite !worsen_ok. split; [by intros [[[? _] _] _]|]. split.
  { assert (Hs2 : exists text, wrote (w_out w1) text (w_out w2)) by (eapply print_step_some; by split).
    assert (Hs3 : exists text, wrote (w_out w2) text out3).
    { destruct C3 as [(_ & -> & _)|(_ & ?)]; [exists []; apply wrote_nil|by eexists]. }
    assert (Hs4 : exists text, wrote (w_out w3) text (w_out w4)) by (eapply print_step_some; by split).
    destruct Hs2 as [? W2], Hs3 as [? W3], Hs4 as [? W4]. rewrite O1 in W2. rewrite O3 in W4.
    eexists. wrote_step. }
  intros Hgood.
  assert (rc2 = 0 /\ rc3 = 0 /\ rc4 = 0) as (-> & -> & ->).
  { destruct Hgood as [[[[_ ?] ?] ?]|(L1 & L2 & L3)]; [done|].
    destruct C2 as [[? _]|(_ & ? & _)], C3 as [(_ & _ & ?)|[? _]], C4 as [[? _]|(_ & ? & _)]; try congruence. done. }
  destruct C2 as [(_ & W2 & X2)|[? _]], C3 as [[? _]|[_ W3]], C4 as [(_ & W4 & X4)|[? _]]; try done.
  split; [done|]. split; [|by rewrite X4, X3, X2, X1]. exists fs, ts. split; [done|]. split; [done|].
  rewrite O1 in W2. rewrite O3 in W4. unfold report_text.
  rewrite <- Ef in W2. rewrite (ranked_teids _ _ Hts), <- Et in W3. rewrite <- Et in W4.
  eapply wrote_eq; [wrote_step|]. cbn [top_text]. same_text.
Qed.

Lemma report_all_ok w o pcap info an status :
  reportable an -> status = EXIT_OK \/ status = EXIT_INPUT ->
  exists st' w', report_all e w o pcap info an status = Some (st', w') /\
    w_os w' = w_os w /\ w_an w' = w_an w /\ (st' = EXIT_OK \/ st' = EXIT_INPUT) /\
    (exists fs, w_files w' = w_files w ++ fs /\
       forall p f, (p, f) ∈ fs -> op_csv o = Some p \/ op_tunnels o = Some p) /\
    (st' = EXIT_OK -> status = EXIT_OK /\ fully_reported o pcap info an w w') /\
    (reports_succeed o w -> st' = status /\ fully_reported o pcap info an w w').
Proof.
  intros Hrep Hst. unfold report_all.
  destruct (print_all_ok w o pcap info an status Hrep Hst)
    as (st1 & w1 & -> & [P1 P2 P3] & P4 & P5 & [text W1] & P6). cbn [mbind option_bind].
  destruct Hrep as [Hf Ht _ Hff Htf _ _ _ _].
  destruct (maybe_csv_ok csv_cols csv_fields read_row view_of
    (fun out t os => report_csv (e_junk e) out t (e_csv e) os) w1 (an_flows an) (e_csv e) (op_csv o))
    as (rc5 & w5 & -> & A1 & A2 & A3 & A4 & (fs5 & A5 & A5') & A6 & A7 & A8).
  { intros out os. by apply report_csv_spec. }
  cbn [mbind option_bind].
  destruct (maybe_csv_ok tunnel_csv_cols tunnel_csv_fields read_tunnel_row tunnel_view_of
    (fun out t os => report_tunnels_csv (e_junk e) out t (e_tunnels_csv e) os) w5 (an_tunnels an) (e_tunnels_csv e) (op_tunnels o))
    as (rc6 & w6 & -> & B1 & B2 & B3 & B4 & (fs6 & B5 & B5') & B6 & B7 & B8).
  { intros out os. by apply report_tunnels_csv_spec. }
  cbn [mbind option_bind]. destruct (fflush (w_out w6)) as [rc7 out7] eqn:E7.
  eexists _, (w6 <| w_out := out7 |>). split; [done|].
  assert (Ew : w_os (w6 <| w_out := out7 |>) = w_os w6 /\ w_an (w6 <| w_out := out7 |>) = w_an w6 /\
    w_files (w6 <| w_out := out7 |>) = w_files w6 /\ w_out (w6 <| w_out := out7 |>) = out7 /\
    w_err (w6 <| w_out := out7 |>) = w_err w6) by (by destruct w6). destruct Ew as (-> & -> & Efiles & Eout & Eerr).
  assert (Hcomplete : rc5 = 0 -> rc6 = 0 -> rc7 = 0 -> report_written o pcap info an (w_out w) (w_out w1) -> w_err w1 = w_err w ->
    fully_reported o pcap info an w (w6 <| w_out := out7 |>)).
  { intros Z5 Z6 -> (fs & ts & F1 & F2 & Wr) X. split.
    - exists fs, ts. split; [done|]. split; [done|]. rewrite Eout. rewrite B2, A2 in E7.
      by eapply wrote_delivered.
    - split; intros path Hp; rewrite Efiles; [|by apply B6].
      destruct (A6 Z5 path Hp) as (f & Hin & Hcsv). exists f. split; [|done].
      rewrite B5. apply elem_of_app. by left.
    - rewrite Eerr, B8, A8 by done. done. }
  rewrite Efiles. split; [congruence|]. split; [congruence|].
  split; [by repeat apply worsen_status|]. split; [|split].
  - exists (fs5 ++ fs6). split; [rewrite B5, A5, app_assoc; congruence|].
    intros p f [Hin|Hin]%elem_of_app; [left; by eapply A5'|right; by eapply B5'].
  - rewrite !worsen_ok. intros [[[Hz Z5] Z6] Z7]. split; [auto|]. destruct (P6 (or_introl Hz)) as (_ & ? & ?). auto.
  - intros [Hout Hfl Hcsv Htun (L1 & L2 & L3 & L4 & L5)].
    destruct (P6 (or_intror (conj L1 (conj L2 L3)))) as (-> & ? & ?).
    assert (rc5 = 0) as -> by auto. assert (rc6 = 0) as -> by auto.
    assert (rc7 = 0) as ->.
    { change rc7 with (rc7, out7).1. rewrite <- E7. apply fflush_sound. by rewrite B2, A2, (wr_flush _ _ _ W1). }
    by auto.
Qed.
End Reports.
