(* ===== verification/MainProps.v ===== *)
(** The program as a whole: its command line, its exit status and what it leaves
    behind. *)
From Stdlib Require Import String.
From S2P Require Export MainReports.
From stdpp Require Export list sets.
#[global] Open Scope Z_scope.

(** ** [parse_count] *)
Lemma all_digits_ok text : all_digits text = true <-> Forall decimal text.
Proof.
  induction text as [|c text IH]; cbn; [split; [constructor|done]|]. rewrite Forall_cons, <- IH.
  unfold decimal. destruct (Z.ltb_spec c 48), (Z.gtb_spec c 57); cbn; intuition (lia || done).
Qed.

(** C22. [parse_count] accepts exactly the non-empty strings of decimal digits whose
    value is at most 1000000, and returns that value: no sign, no space, no
    trailing text, no wrap-around however many digits there are. *)
Theorem parse_count_ok text n :
  parse_count text = Some n <->
  text <> [] /\ Forall decimal text /\ value 10 text = n /\ n <= 1000000.
Proof.
  unfold parse_count. destruct text as [|c text]; [split; [done|by intros [? _]]|].
  set (s := c :: text). destruct (all_digits s) eqn:E; cbn [negb].
  - apply all_digits_ok in E. pose proof (value_nonneg s E) as Hn. unfold strtoul, MAX_TOP_N.
    destruct (Z.ltb_spec (value 10 s) (2 ^ 64)); cbn [orb].
    + destruct (Z.gtb_spec (value 10 s) 1000000).
      * split; [done|]. intros (_ & _ & H1 & H2). lia.
      * split; [intros [= <-]; repeat split; done || lia|by intros (_ & _ & -> & _)].
    + split; [done|]. intros (_ & _ & H1 & H2). lia.
  - split; [done|]. intros (_ & Hd & _). apply all_digits_ok in Hd. congruence.
Qed.

(** ** Arguments *)

(** An operand: not an option, though a single dash is one. *)
Definition operand (arg : bytes) : Prop := is_option arg = false.

(** A well-formed argument list, and the options it sets: later ones override
    earlier ones, and there is at most one operand. *)
Inductive option_args : list bytes -> options -> options -> Prop :=
| oa_nil o : option_args [] o o
| oa_count v n args o o' :
    parse_count v = Some n ->
    option_args args (Options n (op_csv o) (op_tunnels o) (op_pcap o)) o' ->
    option_args (str "-n" :: v :: args) o o'
| oa_csv v args o o' :
    option_args args (Options (op_top_n o) (Some v) (op_tunnels o) (op_pcap o)) o' ->
    option_args (str "--csv" :: v :: args) o o'
| oa_tunnels v args o o' :
    option_args args (Options (op_top_n o) (op_csv o) (Some v) (op_pcap o)) o' ->
    option_args (str "--tunnels-csv" :: v :: args) o o'
| oa_operand arg args o o' :
    operand arg -> op_pcap o = None ->
    option_args args (Options (op_top_n o) (op_csv o) (op_tunnels o) (Some arg)) o' ->
    option_args (arg :: args) o o'.

Lemma same_string_spec a b : reflect (a = b) (same_string a b).
Proof. apply bool_decide_reflect. Qed.

Lemma parse_args_sound args o w o' : parse_args args o w = inr o' -> option_args args o o'.
Proof.
  revert o. induction args as [args IH] using (well_founded_induction (well_founded_ltof _ (@length bytes))).
  unfold ltof in IH. intros o. destruct args as [|arg args]; cbn [parse_args]; [intros [= ->]; constructor|].
  destruct (same_string_spec arg (str "-h")), (same_string_spec arg (str "--help")); cbn [orb]; try done.
  destruct (same_string_spec arg (str "-n")) as [->|].
  { destruct args as [|v args]; [done|]. destruct (parse_count v) eqn:E; [|done]. intros H.
    apply (oa_count v z); [done|]. apply IH; [cbn; lia|done]. }
  destruct (same_string_spec arg (str "--csv")) as [->|]; cbn [orb].
  { destruct args as [|v args]; [done|]. intros H. apply oa_csv. apply IH; [cbn; lia|done]. }
  destruct (same_string_spec arg (str "--tunnels-csv")) as [->|].
  { destruct args as [|v args]; [done|]. intros H. apply oa_tunnels. apply IH; [cbn; lia|done]. }
  destruct (is_option arg) eqn:Hop; [done|].
  destruct (op_pcap o) eqn:Ep; [done|]. intros H. apply oa_operand; [done|done|].
  apply IH; [cbn; lia|done].
Qed.

Lemma operand_not_option arg c s : operand arg -> same_string arg (45 :: c :: s) = false.
Proof. intros H. by destruct (same_string_spec arg (45 :: c :: s)) as [->|]. Qed.

Lemma parse_args_complete args o w o' : option_args args o o' -> parse_args args o w = inr o'.
Proof.
  induction 1 as [o|v n args o o' Hv _ IH|v args o o' _ IH|v args o o' _ IH|arg args o o' Hop Hp _ IH];
    [done|cbn; by rewrite Hv|exact IH|exact IH|].
  cbn [parse_args]. change (str "-h") with (45 :: 104 :: []).
  change (str "--help") with (45 :: 45 :: str "help"). change (str "-n") with (45 :: 110 :: []).
  change (str "--csv") with (45 :: 45 :: str "csv"). change (str "--tunnels-csv") with (45 :: 45 :: str "tunnels-csv").
  rewrite !operand_not_option by done. cbn [orb]. rewrite Hop, Hp. exact IH.
Qed.

Lemma parse_args_iff args o w o' : parse_args args o w = inr o' <-> option_args args o o'.
Proof. split; [apply parse_args_sound|apply parse_args_complete]. Qed.

(** A command line that ends the program: the help, on request, or a message about
    the usage error. *)
Definition stops (args : list bytes) (w : world) (st : Z) (w' : world) : Prop :=
  untouched w w' /\
  ((st = EXIT_OK /\ w' = w <| w_out ::= usage |> /\ (str "-h" ∈ args \/ str "--help" ∈ args)) \/
   (st = EXIT_USAGE /\ w_out w' = w_out w /\ exists text, text <> [] /\ wrote (w_err w) text (w_err w'))).

Lemma warn_stops args w text : text <> [] -> stops args w EXIT_USAGE (warn w text).
Proof.
  intros Ht. split; [by destruct w|]. right. split; [done|]. split; [by destruct w|].
  exists text. split; [done|]. destruct w. apply wrote_fprintf.
Qed.

Lemma usage_stops args w w0 :
  untouched w w0 -> w_out w0 = w_out w -> (exists text, wrote (w_err w) text (w_err w0)) ->
  stops args w EXIT_USAGE (w0 <| w_err ::= usage |>).
Proof.
  intros [H1 H2 H3] Ho [text He]. split; [by destruct w, w0|]. right. split; [done|].
  split; [by destruct w0|]. eexists (text ++ _). split.
  2:{ destruct w0. eapply wrote_app; [exact He|apply wrote_fprintf]. }
  destruct text; cbn; discriminate.
Qed.

Lemma stops_more args arg w st w' : stops args w st w' -> stops (arg :: args) w st w'.
Proof.
  intros [Hu [(H1 & H2 & H3)|H]]; (split; [done|]); [left|by right].
  split; [done|]. split; [done|]. destruct H3; [left|right]; by apply elem_of_cons; right.
Qed.

Lemma not_nil_app (s t : bytes) : s <> [] -> s ++ t <> [].
Proof. by destruct s. Qed.

Lemma parse_args_stops args o w st w' : parse_args args o w = inl (st, w') -> stops args w st w'.
Proof.
  revert o. induction args as [args IH] using (well_founded_induction (well_founded_ltof _ (@length bytes))).
  unfold ltof in IH. intros o. destruct args as [|arg args]; cbn [parse_args]; [done|].
  assert (Hbad : forall text rest, text <> [] -> inl (B := options) (EXIT_USAGE, warn w (text ++ rest)) = inl (st, w') ->
    stops (arg :: args) w st w').
  { intros text rest Ht [= <- <-]. by apply warn_stops, not_nil_app. }
  destruct (same_string_spec arg (str "-h")) as [->|]; cbn [orb];
    [|destruct (same_string_spec arg (str "--help")) as [->|]].
  1, 2: intros [= <- <-]; split; [by destruct w|]; left; split; [done|]; split; [done|];
    first [left; by apply elem_of_cons; left | right; by apply elem_of_cons; left].
  destruct (same_string_spec arg (str "-n")) as [->|].
  { destruct args as [|v args]; [by apply Hbad|]. destruct (parse_count v) eqn:E; [|by apply Hbad].
    intros H. do 2 apply stops_more. eapply IH; [cbn; lia|exact H]. }
  destruct (same_string_spec arg (str "--csv")) as [->|]; cbn [orb].
  { destruct args as [|v args]; [by apply Hbad|].
    intros H. do 2 apply stops_more. eapply IH; [cbn; lia|exact H]. }
  destruct (same_string_spec arg (str "--tunnels-csv")) as [->|].
  { destruct args as [|v args]; [by apply Hbad|].
    intros H. do 2 apply stops_more. eapply IH; [cbn; lia|exact H]. }
  assert (Hun : inl (B := options) (EXIT_USAGE, (warn w (str "pcapstat: unknown option '" ++ arg ++ str "'" ++ newline)) <| w_err ::= usage |>)
      = inl (st, w') -> stops (arg :: args) w st w').
  { intros [= <- <-]. apply usage_stops; [by destruct w|by destruct w|].
    eexists. destruct w. apply wrote_fprintf. }
  assert (Hrec : parse_args args (Options (op_top_n o) (op_csv o) (op_tunnels o) (Some arg)) w = inl (st, w') ->
    stops (arg :: args) w st w') by (intros H; apply stops_more; eapply IH; [cbn; lia|exact H]).
  destruct (is_option arg); [exact Hun|]. destruct (op_pcap o); [by apply Hbad|exact Hrec].
Qed.

Lemma check_args_stops args o w r :
  check_args o w = inl r -> stops args w r.1 r.2.
Proof.
  unfold check_args. destruct (op_pcap o) as [pcap|].
  2:{ intros [= <-]. apply usage_stops; [done|done|]. exists []. apply wrote_nil. }
  destruct (_ || _); [intros [= <-]; by apply warn_stops|].
  destruct (op_csv o), (op_tunnels o); try done. destruct (same_string _ _); [|done].
  intros [= <-]. by apply warn_stops.
Qed.

(** The files named are different from one another. *)
Definition distinct_files (o : options) (pcap : bytes) : Prop :=
  op_pcap o = Some pcap /\ op_csv o <> Some pcap /\ op_tunnels o <> Some pcap /\
  (op_csv o = op_tunnels o -> op_csv o = None).

Lemma check_args_iff o w r : check_args o w = inr r <-> r.1 = o /\ distinct_files o r.2.
Proof.
  destruct r as [o' pcap']. cbn. unfold check_args, distinct_files. destruct (op_pcap o) as [pcap|].
  2:{ split; [done|by intros (_ & ? & _)]. }
  unfold is_path. destruct (op_csv o) as [c|], (op_tunnels o) as [t|];
    try (destruct (same_string_spec c pcap)); try (destruct (same_string_spec t pcap)); cbn [orb];
    try (destruct (same_string_spec c t)); split; try done;
    try (intros [= <- <-]; repeat split; congruence);
    intros (<- & [= <-] & H1 & H2 & H3); try congruence.
  subst. by specialize (H3 eq_refl).
Qed.

(** ** What a run leaves of the reader *)
Lemma analysis_run_settled fuel a r rec als st a' r' :
  analysis_run fuel a r rec als = Some (st, a', r') -> settled r' = settled r.
Proof.
  revert a r rec als. induction fuel as [|fuel IH]; intros a r rec als; cbn [analysis_run]; [done|].
  destruct (pcap_next r rec) as [[[s r1] rec1]|] eqn:E; cbn [mbind option_bind]; [|done].
  apply pcap_next_settled in E. destruct (negb _); [by intros [= <- <- <-]|].
  destruct (rec_bytes r1 rec1); cbn [mbind option_bind]; [|done].
  destruct (decode_frame _ _ _) as [[? pi]|]; cbn [mbind option_bind]; [|done].
  destruct (default _ _) as [al1 al2].
  destruct (analysis_account _ _ _ _ _ _ _) as [[[rc a1] ?]|]; cbn [mbind option_bind]; [|done].
  destruct (negb _); [by intros [= <- <- <-]|]. intros H. apply IH in H. congruence.
Qed.

(** ** The whole run *)
(** What the program relies on outside: streams deliver bytes from their start, the
    record buffer has its size, and [fuel] exceeds the capture's length. *)
Record env_ok (e : env) (fuel : nat) : Prop := {
  eo_junk : forall n, 0 <= n -> length (e_junk e n) = Z.to_nat n;
  eo_stream : forall path fp, e_open e path = inl fp ->
              stream_ok fp /\ (length (f_data fp) < fuel)%nat /\ Z.of_nat (length (f_data fp)) < 2 ^ 64;
  eo_buffer : buffer_ok (e_buffer e)
}.

(** The memory of the analysis has been released, or was never acquired. *)
Definition freed (a0 a : analysis) : Prop :=
  (an_flows a = Flow_table [] 0 0 0 \/ an_flows a = an_flows a0) /\
  (an_tunnels a = Flow_table [] 0 0 0 \/ an_tunnels a = an_tunnels a0) /\
  (an_frags a = Frag_cache None 0 \/ an_frags a = an_frags a0).

(** How the capture at [path] reads: the header [info], the packets [ps] and the
    status [ended] that ends them. *)
Definition reads (e : env) (path : bytes) (info : pcap_file_info) (ps : list captured) (ended : pcap_status) : Prop :=
  exists fp st, e_open e path = inl fp /\ valid_header (stream_rest fp) info /\
    capture_of info (drop 24 (stream_rest fp)) = (ps, st) /\ ended = end_status st (f_errno fp).

(** The exit status, and the message on the standard error when the capture does
    not end at a record boundary. *)
Definition exit_status (ended : pcap_status) : Z := if pstatus_eqb ended PCAP_EOF then EXIT_OK else EXIT_INPUT.

Definition told (w : world) (pcap : bytes) (ended : pcap_status) (records : nat) : world :=
  if pstatus_eqb ended PCAP_EOF then w else
  warn w (str "pcapstat: " ++ pcap ++ str ": " ++ str (pcap_status_str ended) ++ str " after " ++
          dec (Z.of_nat records) ++ str " records; statistics below cover those records only" ++ newline).

(** Every allocation succeeds while the capture is read. *)
Definition memory_suffices (e : env) : Prop :=
  is_Some (e_buffer e) /\ e_init e = Init_allocs true true true /\
  Forall (fun al => al = (true, true)) (e_grow e).

Section Whole.
Context `{QSort} (e : env) (fuel : nat) (He : env_ok e fuel).

(** What running on a capture leaves behind: nothing held, no file but those asked
    for; when the status is 0, the reports on a whole capture; and when nothing goes
    wrong around the program, the reports on the packets before the end or the
    damage, which is told apart by the status and by a message. *)
Record run_result (o : options) (pcap : bytes) (w : world) (st : Z) (w' : world) : Prop := {
  rr_os : w_os w' = w_os w;
  rr_freed : freed (w_an w) (w_an w');
  rr_status : st = EXIT_OK \/ st = EXIT_INPUT;
  rr_files : exists fs, w_files w' = w_files w ++ fs /\
    forall p f, (p, f) ∈ fs -> op_csv o = Some p \/ op_tunnels o = Some p;
  rr_success : st = EXIT_OK -> exists ps info an, reads e pcap info ps PCAP_EOF /\ accounts_for ps an /\
    fully_reported o pcap info an w w';
  rr_reports : forall info ps ended, reads e pcap info ps ended -> Z.of_nat (length ps) <= 2 ^ 56 ->
    memory_suffices e -> reports_succeed e o w ->
    st = exit_status ended /\
    exists an, accounts_for ps an /\ fully_reported o pcap info an (told w pcap ended (length ps)) w'
}.

Lemma not_read_result o pcap w w' :
  w_os w' = w_os w -> freed (w_an w) (w_an w') -> w_files w' = w_files w ->
  (forall info ps ended, reads e pcap info ps ended -> ~ memory_suffices e) ->
  run_result o pcap w EXIT_INPUT w'.
Proof.
  intros H1 H2 H3 H4. split; [done|done|by right| |done|].
  - exists []. rewrite H3, app_nil_r. split; [done|]. by intros ?? ?%elem_of_nil.
  - intros info ps ended Hr _ Hm. by destruct (H4 _ _ _ Hr).
Qed.

Lemma freed_refl a : freed a a.
Proof. split; [by right|]. split; by right. Qed.
Lemma released_freed a al a0 : released a al a0 -> freed a0 a.
Proof.
  intros (F1 & F2 & F3). split; [by left|].
  split; [destruct F2 as [?|[? _]]; auto|destruct F3 as [?|[? _]]; auto].
Qed.

(** A capture is read in one way. *)
Lemma reads_unique pcap info ps ended info' ps' ended' :
  reads e pcap info ps ended -> reads e pcap info' ps' ended' -> info' = info /\ ps' = ps /\ ended' = ended.
Proof.
  intros (fp & st & F & V & C & ->) (fp' & st' & F' & V' & C' & ->). rewrite F in F'. injection F' as <-.
  destruct (eo_stream e fuel He pcap fp F) as (Hs & _).
  assert (info' = info) as -> by (eapply valid_header_unique; [|done..]; apply Forall_drop, Hs).
  rewrite C in C'. by injection C' as -> ->.
Qed.

(** A capture is read in full, or breaks off; memory is not its affair. *)
Lemma capture_not_nomem info data err : end_status (capture_of info data).2 err <> PCAP_ERR_NOMEM.
Proof.
  unfold capture_of. generalize (S (length data)). intros k. revert data.
  induction k as [|k IH]; intros data; cbn [pcap_packets]; [by destruct err|].
  destruct (split_record info data) as [st|[p rest]] eqn:E.
  - unfold split_record in E. repeat case_decide; try done; injection E as <-; by destruct err.
  - specialize (IH rest). by destruct (pcap_packets k info rest).
Qed.

(** The reports are on the streams and in the files: the rest of the world is not
    in their way. *)
Lemma fully_reported_worlds o pcap info an w1 w1' w w' :
  fully_reported o pcap info an w1 w1' -> w_out w1 = w_out w -> w_err w1 = w_err w ->
  w_out w' = w_out w1' -> w_err w' = w_err w1' -> w_files w' = w_files w1' -> fully_reported o pcap info an w w'.
Proof.
  intros [P [C1 C2] Q] O E O' E' F'. split; [by rewrite O', <- O| |congruence].
  split; intros path Hp; rewrite F'; auto.
Qed.

(** What [analysis_run] makes of an opened capture. *)
Lemma run_opened pcap fp r an :
  e_open e pcap = inl fp -> opened (stream_rest fp) (f_errno fp) r -> accounts_for [] an ->
  exists st an' r', analysis_run fuel an r (Pcap_record 0 0 0 None) (e_grow e) = Some (st, an', r') /\
    settled r' = settled r /\ reportable an' /\
    exists ps ended, reads e pcap (r_info r) ps ended /\
      ((st = ended /\ accounts_for ps an' /\ r_records r' = Z.of_nat (length ps)) \/
       (st = PCAP_ERR_NOMEM /\
        ~ (Z.of_nat (length ps) <= 2 ^ 56 /\ Forall (fun al => al = (true, true)) (e_grow e)))).
Proof.
  intros Efp [V R O Er Hz I] Hacc. destruct (eo_stream e fuel He pcap fp Efp) as (Hs & Hlen & Hlen2).
  assert (Hbytes : Forall is_byte (stream_rest fp)) by (apply Forall_drop, Hs).
  assert (Hrest : (length (stream_rest fp) <= length (f_data fp))%nat)
    by (unfold stream_rest; rewrite length_drop; lia).
  pose proof (capture_short (r_info r) (remaining r)) as Hcs. rewrite R, length_drop in Hcs.
  destruct (run_spec fuel an r (Pcap_record 0 0 0 None) (e_grow e) [] O Er)
    as (st & an' & r' & E & Hpost & Hrec); rewrite ?R, ?length_drop; [by apply Forall_drop|lia|exact Hacc|cbn [length]; lia|].
  exists st, an', r'. split; [done|]. split; [by eapply analysis_run_settled|]. clear E.
  rewrite R, I in Hpost. rewrite R, Hz in Hrec. cbn [app length] in Hpost.
  destruct (capture_of (r_info r) (drop 24 (stream_rest fp))) as [ps st0] eqn:Ecap. cbn [fst snd] in Hpost, Hrec, Hcs.
  assert (Hfits : Forall cap_fits ps).
  { change ps with (ps, st0).1. rewrite <- Ecap. apply capture_fits. by apply Forall_drop. }
  split.
  - destruct Hpost as [[_ Ha]|(_ & _ & qs & q & Hpre & Hstop)]; [by eapply accounts_reportable|].
    eapply stopped_reportable; [|exact Hstop]. cbn [app] in Hpre. destruct Hpre as [k ->].
    by apply Forall_app in Hfits as [? _].
  - exists ps, (end_status st0 (f_errno fp)). split; [by exists fp, st0|].
    destruct Hpost as [[E Ha]|(E & Hno & _)]; cbn in E; [left|right; split; [done|]].
    + split; [done|]. split; [done|]. apply Hrec; [|lia|lia]. rewrite E. change st0 with (ps, st0).2.
      rewrite <- Ecap. apply capture_not_nomem.
    + intros [Hps Hgrow]. destruct Hno. split; [done|]. pose proof Hacc as [_ Hf0 Ht0 _].
      rewrite (represents_count_nil _ Hf0), (represents_count_nil _ Ht0). lia.
Qed.

(** The end of a run: the reports, the release of the analysis and of the reader.
    [st] is the status of the analysis, [r2] the reader it left. *)
Lemma end_run_ok w w1 o pcap r r2 an st ps ended :
  reportable an -> w_out w1 = w_out w -> w_err w1 = w_err w -> w_files w1 = w_files w ->
  settled r2 = settled r -> (pcap_close r (w_os w1)).2 = w_os w ->
  reads e pcap (r_info r) ps ended ->
  (st = ended /\ accounts_for ps an /\ r_records r2 = Z.of_nat (length ps) \/
   st = PCAP_ERR_NOMEM /\ ~ (Z.of_nat (length ps) <= 2 ^ 56 /\ memory_suffices e)) ->
  exists st' w',
    (let ended := pstatus_eqb st PCAP_EOF in
     let w := if negb ended then
       warn w1 (str "pcapstat: " ++ pcap ++ str ": " ++ str (pcap_status_str st) ++ str " after " ++
               dec (r_records r2) ++ str " records; statistics below cover those records only" ++ newline)
       else w1 in
     let status := if negb ended then EXIT_INPUT else EXIT_OK in
     '(status, w) ← report_all e w o pcap (r_info r2) an status;
     let w := w <| w_an := analysis_free an |> in
     let '(_, os) := pcap_close r2 (w_os w) in Some (status, w <| w_os := os |>)) = Some (st', w') /\
    run_result o pcap w st' w'.
Proof.
  intros Hrep O1 X1 F1 Hset Hclose Hreads Hcase. cbv zeta.
  set (w2 := if negb (pstatus_eqb st PCAP_EOF) then _ else w1). set (status := if negb _ then EXIT_INPUT else _).
  assert (E2 : w_out w2 = w_out w /\ w_files w2 = w_files w /\ w_os w2 = w_os w1) by (subst w2; destruct (negb _), w1; done).
  destruct (report_all_ok e (eo_junk e fuel He) w2 o pcap (r_info r2) an status Hrep)
    as (st3 & w3 & -> & V1 & V2 & V3 & V4 & V5 & V6); [subst status; destruct (negb _); auto|].
  cbn [mbind option_bind]. destruct (pcap_close r2 _) as [r3 os3] eqn:Ec.
  assert (Eos : os3 = w_os w).
  { change os3 with (r3, os3).2. rewrite <- Ec, (close_same_owner r2 r), <- Hclose by exact (f_equal fst Hset).
    do 2 f_equal. transitivity (w_os w3); [by destruct w3|]. rewrite V1. apply E2. }
  subst os3. clear Ec. eexists _, _. split; [done|].
  set (w4 := _ <| w_os := _ |>).
  assert (W4 : w_os w4 = w_os w /\ w_an w4 = analysis_free an /\ w_files w4 = w_files w3 /\ w_out w4 = w_out w3 /\
    w_err w4 = w_err w3) by (by destruct w3).
  clearbody w4. destruct W4 as (W1 & W2 & W3 & W4 & W5). destruct E2 as (E1 & E2 & _).
  assert (Hinfo : r_info r2 = r_info r) by exact (f_equal snd Hset). rewrite Hinfo in *.
  split; [done| |done| |..].
  - rewrite W2. destruct (analysis_freed an Hrep) as (Z1 & Z2 & Z3). split; [by left|]. split; by left.
  - rewrite W3. destruct V4 as (fs & -> & Hfs). exists fs. by rewrite E2.
  - intros ->. destruct (V5 eq_refl) as [Hst Hc]. subst status w2. unfold pstatus_eqb in *.
    destruct (bool_decide_reflect (st = PCAP_EOF)) as [->|]; [|done]. cbn [negb] in *.
    destruct Hcase as [(<- & Ha & _)|[? _]]; [|done]. exists ps, (r_info r), an. split; [done|]. split; [done|].
    by eapply fully_reported_worlds.
  - intros info ps' ended' Hr Hlen Hm Hsucc. destruct (reads_unique _ _ _ _ _ _ _ Hreads Hr) as (-> & -> & ->).
    destruct Hcase as [(<- & Ha & Hrec)|(_ & Hno)]; [|by destruct Hno].
    destruct V6 as [-> Hc]; [by destruct Hsucc; split; rewrite ?E1|].
    subst status. unfold exit_status. split; [by destruct (pstatus_eqb _ _)|]. exists an. split; [done|].
    eapply fully_reported_worlds; [exact Hc|..]; try done; unfold told; subst w2; rewrite Hrec.
    + destruct (pstatus_eqb _ _); cbn [negb]; [done|]. by destruct w, w1.
    + destruct (pstatus_eqb _ _); cbn [negb]; [done|]. destruct w, w1. cbn in *. by rewrite X1.
Qed.

Lemma run_capture_ok w o pcap :
  exists st w', run_capture e fuel w o pcap = Some (st, w') /\ run_result o pcap w st w'.
Proof.
  unfold run_capture.
  destruct (open_file_spec (e_open e pcap) (e_buffer e) (w_os w)) as (st & r & os' & E & Hiff & Hok & Hbad);
    [intros fp Hfp; by apply (eo_stream e fuel He pcap fp)|apply He|].
  rewrite E. cbn [mbind option_bind]. clear E.
  destruct (decide (st = PCAP_OK)) as [->|Hne]; unfold pstatus_eqb at 1.
  2:{ rewrite bool_decide_false by done. cbn [negb]. destruct (Hbad Hne) as [_ ->]. eexists _, _. split; [done|].
      apply not_read_result; [by destruct w|destruct w; apply freed_refl|by destruct w|].
      intros info ps ended (fp & st0 & Efp & Hv & _) [Hbuf _]. apply Hne, Hiff. eauto. }
  rewrite bool_decide_true by done. cbn [negb].
  destruct (Hok eq_refl) as [(fp & Efp & Hopened) Hclose].
  destruct (analysis_init_spec (w_an w) (e_init e)) as (rc & an & Ei & Hrc & Hacc & Hrel).
  assert (Ew : w_an (w <| w_os := os' |>) = w_an w) by (by destruct w).
  rewrite Ew, Ei. cbn [mbind option_bind]. clear Ei Ew.
  destruct (Z.eqb_spec rc 0) as [->|Hrc0]; cbn [negb].
  2:{ set (w1 := warn _ _).
      assert (Ew : w_os w1 = os' /\ w_an w1 = an /\ w_files w1 = w_files w) by (by destruct w).
      clearbody w1. destruct Ew as (Eo & Ea & Ef).
      destruct (pcap_close r (w_os w1)) as [r2 os2] eqn:Ec. eexists _, _. split; [done|].
      rewrite Eo, Hclose in Ec. injection Ec as _ <-. apply not_read_result; [by destruct w1| |by destruct w1|].
      - destruct (Hrel Hrc0) as [_ Hr]. apply released_freed in Hr. rewrite <- Ea in Hr. by destruct w1.
      - intros ? ? ? _ (_ & Hin & _). by apply Hrc0, Hrc. }
  destruct (run_opened pcap fp r an Efp Hopened (Hacc eq_refl))
    as (st2 & an2 & r2 & E2 & Hset & Hrep & ps & ended & Hreads & Hcase).
  rewrite E2. cbn [mbind option_bind]. clear E2.
  eapply (end_run_ok w _ o pcap r r2 an2 st2 ps ended); try done; try (by destruct w).
  - transitivity (pcap_close r os').2; [by destruct w|by rewrite Hclose].
  - destruct Hcase as [?|[E Hno]]; [by left|right]. split; [done|]. intros [Hl (_ & _ & Hg)]. by apply Hno.
Qed.
End Whole.

(** ** [main] *)

(** A well-formed command line, the options it sets and the capture it names. *)
Definition command (argv : list bytes) (o : options) (pcap : bytes) : Prop :=
  option_args (drop 1 argv) (Options DEFAULT_TOP_N None None None) o /\ distinct_files o pcap.

Lemma main_cases `{QSort} e fuel argv w :
  (exists st w', main e fuel argv w = Some (st, w') /\ stops (drop 1 argv) w st w' /\
     forall o pcap, ~ command argv o pcap) \/
  (exists o pcap, command argv o pcap /\ main e fuel argv w = run_capture e fuel w o pcap).
Proof.
  unfold main, command. destruct (parse_args _ _ w) as [[st w']|o] eqn:E.
  { left. exists st, w'. split; [done|]. split; [by eapply parse_args_stops|].
    intros o pcap [Ho _]. apply (parse_args_complete _ _ w) in Ho. congruence. }
  pose proof (parse_args_sound _ _ _ _ E) as Ho.
  destruct (check_args o w) as [r|[o' pcap]] eqn:Ec.
  - left. exists r.1, r.2. split; [by destruct r|]. split; [by eapply check_args_stops|].
    intros o2 pcap [Ho2 Hd]. apply (parse_args_complete _ _ w) in Ho2. rewrite E in Ho2. injection Ho2 as <-.
    assert (Hr : check_args o w = inr (o, pcap)) by (by apply check_args_iff). congruence.
  - right. destruct (proj1 (check_args_iff _ _ _) Ec) as [Eo Hd]. cbn in Eo, Hd. subst o'. exists o, pcap. auto.
Qed.

Lemma command_unique argv o o' pcap pcap' :
  command argv o pcap -> command argv o' pcap' -> o' = o /\ pcap' = pcap.
Proof.
  intros [H1 (D1 & _)] [H2 (D2 & _)].
  set (w := World (ostream_new sound) (ostream_new sound) (Resources 0 0) []
    (Analysis stats_init (Flow_table [] 0 0 0) (Flow_table [] 0 0 0) (Frag_cache None 0))).
  apply (parse_args_complete _ _ w) in H1, H2. rewrite H1 in H2. injection H2 as <-.
  rewrite D1 in D2. by injection D2 as <-.
Qed.

Section Main.
Context `{QSort} (e : env) (fuel : nat) (argv : list bytes) (w : world).

(** C5. The program always ends, with one of its three exit statuses, whatever the
    command line, the capture's bytes and the failures around it: it never leaves
    its buffers, every file it opened is closed and every block it allocated freed (in
    [w_os] the record buffer and the arrays of the reports, in [freed] the slots of
    both tables, those left behind by growth included, and of the fragment cache),
    it writes no file but those named by a well-formed command line, and a usage
    error is reported only for a command line that is not well-formed. *)
Theorem main_total :
  env_ok e fuel ->
  exists st w', main e fuel argv w = Some (st, w') /\
    (st = EXIT_OK \/ st = EXIT_USAGE \/ st = EXIT_INPUT) /\
    w_os w' = w_os w /\ freed (w_an w) (w_an w') /\
    (exists fs, w_files w' = w_files w ++ fs /\
       forall p f, (p, f) ∈ fs -> exists o pcap, command argv o pcap /\
         (op_csv o = Some p \/ op_tunnels o = Some p) /\ p <> pcap) /\
    (st = EXIT_USAGE -> forall o pcap, ~ command argv o pcap).
Proof.
  intros He. destruct (main_cases e fuel argv w) as [(st & w' & -> & [[U1 U2 U3] Hst] & Hno)|(o & pcap & Hc & ->)].
  - exists st, w'. split; [done|]. split; [destruct Hst as [[-> _]|[-> _]]; auto|].
    split; [done|]. split; [rewrite U3; apply freed_refl|]. split; [|done].
    exists []. split; [by rewrite app_nil_r|]. by intros ?? ?%elem_of_nil.
  - destruct (run_capture_ok e fuel He w o pcap) as (st & w' & -> & [H1 H2 H3 (fs & Ef & Hfs) _ _]).
    exists st, w'. split; [done|]. split; [tauto|]. split; [done|]. split; [done|]. split.
    + exists fs. split; [done|]. intros p f Hin. exists o, pcap. split; [done|].
      destruct Hc as [_ (_ & D1 & D2 & _)]. destruct (Hfs p f Hin) as [E|E]; split; auto; intros ->; congruence.
    + intros ->. by destruct H3.
Qed.

(** C4. What an exit status of 0 says: unless the help was asked for, the capture
    named on the command line was read to its end without an error, the analysis
    stands for exactly its packets, and nothing was written to the standard error.
    The report was printed and the final flush of the standard output succeeded:
    the device has exactly the text of the report, unless a write failed before that
    flush, which sets the stream's error indicator but not the exit status (see
    [Findings.lost_output_exit_0]).  Each CSV file asked for was closed without an
    error and reads back as the table of flows, or tunnels, largest first. *)
Theorem main_success w' :
  env_ok e fuel ->
  main e fuel argv w = Some (EXIT_OK, w') ->
  (w' = w <| w_out ::= usage |> /\ (str "-h" ∈ argv \/ str "--help" ∈ argv)) \/
  (exists o pcap info ps an, command argv o pcap /\ reads e pcap info ps PCAP_EOF /\
     accounts_for ps an /\ fully_reported o pcap info an w w').
Proof.
  intros He Hm. destruct (main_cases e fuel argv w) as [(st & w2 & E & [_ Hst] & _)|(o & pcap & Hc & E)];
    rewrite Hm in E.
  - injection E as <- <-. left. destruct Hst as [(_ & -> & Hin)|[? _]]; [|done]. split; [done|].
    assert (Hd : forall x, x ∈ drop 1 argv -> x ∈ argv).
    { intros x Hx. rewrite <- (take_drop 1 argv). apply elem_of_app. by right. }
    destruct Hin as [Hin|Hin]; auto.
  - right. destruct (run_capture_ok e fuel He w o pcap) as (st & w2 & E2 & [_ _ _ _ H5 _]).
    rewrite <- E in E2. injection E2 as <- <-. destruct (H5 eq_refl) as (ps & info & an & Hpost).
    by exists o, pcap, info, ps, an.
Qed.

Lemma main_reports_spec o pcap info ps ended :
  env_ok e fuel -> command argv o pcap ->
  reads e pcap info ps ended -> Z.of_nat (length ps) <= 2 ^ 56 ->
  memory_suffices e -> reports_succeed e o w ->
  exists w' an, main e fuel argv w = Some (exit_status ended, w') /\ accounts_for ps an /\
    fully_reported o pcap info an (told w pcap ended (length ps)) w'.
Proof.
  intros He Hc Hr Hlen Hmem Hrep.
  destruct (main_cases e fuel argv w) as [(st & w2 & E & _ & Hno)|(o' & pcap' & Hc' & E)]; [by destruct (Hno o pcap)|].
  destruct (command_unique _ _ _ _ _ Hc Hc') as [-> ->].
  destruct (run_capture_ok e fuel He w o pcap) as (st & w2 & E2 & [_ _ _ _ _ H6]).
  destruct (H6 info ps ended Hr Hlen Hmem Hrep) as (-> & an & Ha & Hcm).
  rewrite E, E2. exists w2, an. done.
Qed.

(** C9. The program reports on every capture whose header is valid, damaged or not:
    with a well-formed command line, memory enough and files that can be written,
    it accounts for exactly the packets before the end or the first damage, prints
    the report on them and leaves the CSV files asked for.  The exit status is 0
    when the capture ends at a record boundary without a read error; otherwise it
    is 2, and the standard error names the damage and the number of records read. *)
Theorem main_reports o pcap info ps ended :
  env_ok e fuel -> command argv o pcap ->
  reads e pcap info ps ended -> Z.of_nat (length ps) <= 2 ^ 56 ->
  memory_suffices e -> reports_succeed e o w ->
  exists w' an, main e fuel argv w = Some (exit_status ended, w') /\ accounts_for ps an /\
    fully_reported o pcap info an (told w pcap ended (length ps)) w'.
Proof. exact (main_reports_spec o pcap info ps ended). Qed.

(** C21. A command line that is not well-formed ends the program before it touches
    anything: either the help was asked for, and is written to the standard output
    with exit status 0, or the status is 1 and the reason is on the standard error,
    with nothing on the standard output. *)
Theorem main_usage :
  (forall o pcap, ~ command argv o pcap) ->
  exists st w', main e fuel argv w = Some (st, w') /\ stops (drop 1 argv) w st w'.
Proof.
  intros Hno. destruct (main_cases e fuel argv w) as [(st & w2 & E & Hs & _)|(o' & pcap' & Hc' & E)]; [by eauto|].
  by destruct (Hno o' pcap').
Qed.
End Main.
