(* ===== verification/Determinism.v ===== *)
(** The output of the program depends on the command line and the bytes of the
    capture only: not on what uninitialised memory holds, on how the library's
    [qsort] sorts, or on the tables' layout. *)
From S2P Require Export MainProps.
From stdpp Require Export list gmap.
#[global] Open Scope Z_scope.

(** ** The packets determine the reports *)
Lemma ranked_same_entries t1 t2 fs : tmap t1 = tmap t2 -> ranked t1 fs -> ranked t2 fs.
Proof. intros E (S1 & N1 & M1). split; [done|]. split; [done|]. intros k f. by rewrite <- E. Qed.

(** Two analyses that say the same: equal counters and tables with equal entries. *)
Record same_analysis (an1 an2 : analysis) : Prop := {
  sm_stats : an_stats an1 = an_stats an2;
  sm_flows : tmap (an_flows an1) = tmap (an_flows an2);
  sm_tunnels : tmap (an_tunnels an1) = tmap (an_tunnels an2);
  sm_flows_ok : table_ok (an_flows an2);
  sm_tunnels_ok : table_ok (an_tunnels an2)
}.

Lemma accounts_same ps an1 an2 : accounts_for ps an1 -> accounts_for ps an2 -> same_analysis an1 an2.
Proof.
  intros [S1 F1 T1 _] [S2 F2 T2 _]. split; [congruence| | |apply F2|apply T2];
    [exact (represents_unique _ _ _ F1 F2)|exact (represents_unique _ _ _ T1 T2)].
Qed.

Lemma ranked_same t1 t2 fs gs : tmap t1 = tmap t2 -> table_ok t2 -> ranked t1 fs -> ranked t2 gs -> fs = gs.
Proof. intros E Ht Hf Hg. apply (ranked_unique t2); [done| |done]. by apply (ranked_same_entries t1). Qed.

Lemma csv_file_same {A} cols fields (read : list bytes -> option A) view t1 t2 f1 f2 :
  tmap t1 = tmap t2 -> table_ok t2 ->
  csv_file cols fields read view t1 f1 -> csv_file cols fields read view t2 f2 -> o_data f1 = o_data f2.
Proof.
  intros E Ht (fs & R1 & -> & _) (gs & R2 & -> & _). f_equal. exact (ranked_same _ _ _ _ E Ht R1 R2).
Qed.

(** The same text on the devices of two standard outputs, after what was there or
    on its way. *)
Definition same_output (out1 out1' out2 out2' : ostream) : Prop :=
  exists text, o_data out1' = o_text out1 ++ text /\ o_data out2' = o_text out2 ++ text.

(** The same messages on two standard errors, which are not flushed. *)
Definition same_messages (err1 err1' err2 err2' : ostream) : Prop :=
  exists text, o_text err1' = o_text err1 ++ text /\ o_text err2' = o_text err2 ++ text.

(** Two files with the same contents at [path]. *)
Definition same_file (path : bytes) (w1 w2 : world) : Prop :=
  exists f1 f2, (path, f1) ∈ w_files w1 /\ (path, f2) ∈ w_files w2 /\ o_data f1 = o_data f2.

Lemma fully_reported_same o pcap info an1 an2 w1 w1' w2 w2' :
  same_analysis an1 an2 -> takes_all (w_out w1) -> takes_all (w_out w2) ->
  fully_reported o pcap info an1 w1 w1' -> fully_reported o pcap info an2 w2 w2' ->
  same_output (w_out w1) (w_out w1') (w_out w2) (w_out w2') /\
  forall path, op_csv o = Some path \/ op_tunnels o = Some path -> same_file path w1' w2'.
Proof.
  intros [S F T Ff Tt] N1 N2 [(fs1 & ts1 & Rf1 & Rt1 & P1) [C1 D1] _] [(fs2 & ts2 & Rf2 & Rt2 & P2) [C2 D2] _].
  split.
  - exists (report_text o pcap info (an_stats an1) fs1 ts1).
    rewrite (proj2 (dl_all _ _ _ P1 N1)), (proj2 (dl_all _ _ _ P2 N2)). split; [done|].
    by rewrite S, (ranked_same _ _ _ _ F Ff Rf1 Rf2), (ranked_same _ _ _ _ T Tt Rt1 Rt2).
  - intros path [Hp|Hp].
    + destruct (C1 _ Hp) as (f1 & I1 & E1), (C2 _ Hp) as (f2 & I2 & E2). exists f1, f2.
      split; [done|]. split; [done|]. exact (csv_file_same _ _ _ _ _ _ _ _ F Ff E1 E2).
    + destruct (D1 _ Hp) as (f1 & I1 & E1), (D2 _ Hp) as (f2 & I2 & E2). exists f1, f2.
      split; [done|]. split; [done|]. exact (csv_file_same _ _ _ _ _ _ _ _ T Tt E1 E2).
Qed.

Lemma told_out w pcap ended n : w_out (told w pcap ended n) = w_out w.
Proof. unfold told. destruct (pstatus_eqb _ _); by destruct w. Qed.

Lemma told_err w1 w2 pcap ended n :
  takes_all (w_err w1) -> takes_all (w_err w2) ->
  same_messages (w_err w1) (w_err (told w1 pcap ended n)) (w_err w2) (w_err (told w2 pcap ended n)).
Proof.
  intros H1 H2. unfold told, warn. destruct (pstatus_eqb _ _); [exists []; by rewrite !app_nil_r|].
  destruct w1 as [? err1 ? ? ?], w2 as [? err2 ? ? ?]. cbn in *. eexists.
  split; [apply (wr_all _ _ _ (wrote_fprintf err1 _) H1)|apply (wr_all _ _ _ (wrote_fprintf err2 _) H2)].
Qed.

(** Two runs whose captures lead to the same analysis have the same output. *)
Lemma runs_alike (Q1 Q2 : QSort) e1 e2 fuel1 fuel2 argv w1 w2 o pcap info ps qs ended :
  env_ok e1 fuel1 -> env_ok e2 fuel2 -> command argv o pcap ->
  reads e1 pcap info ps ended -> reads e2 pcap info qs ended ->
  Z.of_nat (length ps) <= 2 ^ 56 -> length qs = length ps ->
  memory_suffices e1 -> memory_suffices e2 -> reports_succeed e1 o w1 -> reports_succeed e2 o w2 ->
  takes_all (w_err w1) -> takes_all (w_err w2) ->
  (forall an1 an2, accounts_for ps an1 -> accounts_for qs an2 -> same_analysis an1 an2) ->
  exists st w1' w2',
    @main Q1 e1 fuel1 argv w1 = Some (st, w1') /\ @main Q2 e2 fuel2 argv w2 = Some (st, w2') /\
    same_output (w_out w1) (w_out w1') (w_out w2) (w_out w2') /\
    same_messages (w_err w1) (w_err w1') (w_err w2) (w_err w2') /\
    forall path, op_csv o = Some path \/ op_tunnels o = Some path -> same_file path w1' w2'.
Proof.
  intros E1 E2 Hc R1 R2 Hlen Hl M1 M2 S1 S2 X1 X2 Hsame.
  destruct (@main_reports_spec Q1 e1 fuel1 argv w1 o pcap info ps ended) as (w1' & an1 & -> & A1 & C1); try done.
  destruct (@main_reports_spec Q2 e2 fuel2 argv w2 o pcap info qs ended) as (w2' & an2 & -> & A2 & C2); [done..|by rewrite Hl|done|done|].
  rewrite Hl in C2. exists (exit_status ended), w1', w2'. split; [done|]. split; [done|].
  assert (N1 : takes_all (w_out (told w1 pcap ended (length ps)))) by (rewrite told_out; apply S1).
  assert (N2 : takes_all (w_out (told w2 pcap ended (length ps)))) by (rewrite told_out; apply S2).
  destruct (fully_reported_same _ _ _ _ _ _ _ _ _ (Hsame _ _ A1 A2) N1 N2 C1 C2) as [Hout Hcsv]. rewrite !told_out in Hout.
  split; [exact Hout|]. split; [|exact Hcsv].
  rewrite (cm_quiet _ _ _ _ _ _ C1), (cm_quiet _ _ _ _ _ _ C2). by apply told_err.
Qed.

(** C11. Two runs of the program with the same command line, on captures that read
    the same, end with the same exit status, print byte for byte the same report
    and the same messages and write the same CSV files, when nothing goes wrong
    around them: whatever their uninitialised memory and their buffers hold,
    however their [qsort] sorts, and whatever their structures held before. *)
Theorem main_deterministic (Q1 Q2 : QSort) e1 e2 fuel1 fuel2 argv w1 w2 o pcap info ps ended :
  env_ok e1 fuel1 -> env_ok e2 fuel2 -> command argv o pcap ->
  reads e1 pcap info ps ended -> reads e2 pcap info ps ended -> Z.of_nat (length ps) <= 2 ^ 56 ->
  memory_suffices e1 -> memory_suffices e2 -> reports_succeed e1 o w1 -> reports_succeed e2 o w2 ->
  takes_all (w_err w1) -> takes_all (w_err w2) ->
  exists st w1' w2',
    @main Q1 e1 fuel1 argv w1 = Some (st, w1') /\ @main Q2 e2 fuel2 argv w2 = Some (st, w2') /\
    same_output (w_out w1) (w_out w1') (w_out w2) (w_out w2') /\
    same_messages (w_err w1) (w_err w1') (w_err w2) (w_err w2') /\
    forall path, op_csv o = Some path \/ op_tunnels o = Some path -> same_file path w1' w2'.
Proof. intros. eapply runs_alike; try done. intros ? ?. by apply accounts_same. Qed.
