(* ===== verification/Reorder.v ===== *)
(** The order of the packets: captures that hold the same packets in different orders
    are reported alike, since counters, sums, extremes and unions do not depend on it.
    Two things do, and are excluded: later IP fragments, which get their ports from
    fragments seen before, and packets of one flow with the same timestamp and
    opposite directions, the first of which gives the flow its direction. *)
From S2P Require Export Determinism.
From stdpp Require Export list gmap.
#[global] Open Scope Z_scope.

(** ** Counters *)
#[export] Instance count_perm {A} (P : A -> bool) : Proper ((≡ₚ) ==> (=)) (count P).
Proof. apply (foldr_permutation_proper (=)); [intros ? ? ? ->; done|intros; lia]. Qed.

#[export] Instance sum_of_perm f : Proper ((≡ₚ) ==> (=)) (sum_of f).
Proof. apply (foldr_permutation_proper (=)); [intros ? ? ? ->; done|intros; lia]. Qed.

Lemma earliest_cons x l : earliest (x :: l) = match l with [] => sa_ts x | _ => Z.min (sa_ts x) (earliest l) end.
Proof.
  destruct l as [|y l]; [done|]. cbn [earliest foldl]. generalize (sa_ts y).
  induction l as [|z l IH]; intros m; cbn [foldl]; [done|]. by rewrite <- Z.min_assoc, IH.
Qed.
Lemma latest_cons x l : latest (x :: l) = match l with [] => sa_ts x | _ => Z.max (sa_ts x) (latest l) end.
Proof.
  destruct l as [|y l]; [done|]. cbn [latest foldl]. generalize (sa_ts y).
  induction l as [|z l IH]; intros m; cbn [foldl]; [done|]. by rewrite <- Z.max_assoc, IH.
Qed.

#[export] Instance earliest_perm : Proper ((≡ₚ) ==> (=)) earliest.
Proof.
  induction 1 as [|x l l' Hp IH|x y l|l1 l2 l3 _ IH1 _ IH2]; [done| | |congruence].
  - rewrite !earliest_cons, IH. destruct l, l'; [done| | |done]; by apply Permutation_length in Hp.
  - rewrite !earliest_cons. destruct l; lia.
Qed.
#[export] Instance latest_perm : Proper ((≡ₚ) ==> (=)) latest.
Proof.
  induction 1 as [|x l l' Hp IH|x y l|l1 l2 l3 _ IH1 _ IH2]; [done| | |congruence].
  - rewrite !latest_cons, IH. destruct l, l'; [done| | |done]; by apply Permutation_length in Hp.
  - rewrite !latest_cons. destruct l; lia.
Qed.

Lemma gtpu_shape_ext n1 n2 : (forall P, n1 P = n2 P) -> gtpu_shape n1 = gtpu_shape n2.
Proof.
  intros H. unfold gtpu_shape. rewrite !H. f_equal. apply map_ext. intros st. apply H.
Qed.

Lemma stats_of_perm matched l l' : l ≡ₚ l' -> stats_of matched l = stats_of matched l'.
Proof.
  intros Hp. assert (Hn : forall P : packet_info -> bool, count (fun x => P (sa_pi x)) l = count (fun x => P (sa_pi x)) l')
    by (intros P; by rewrite Hp).
  unfold stats_of. rewrite !Hn, Hp. f_equal; [|by apply gtpu_shape_ext].
  apply map_ext. intros st. apply (Hn (fun p => status_eqb (pi_status p) st)).
Qed.

(** ** Packets without fragments *)

(** No later fragment of a datagram among the packets. *)
Definition no_later_fragments (ps : list captured) : Prop := Forall (fun p => port_less (decode_of p) = false) ps.

Lemma attributed_whole ps : no_later_fragments ps -> attributed ps = map (fun p => (false, decode_of p)) ps.
Proof.
  intros H. unfold attributed. generalize (@nil packet_info).
  induction H as [|p ps Hp _ IH]; intros h; [done|]. cbn [map frag_spec]. rewrite IH.
  unfold verdict, attribution. by rewrite Hp.
Qed.

Lemma samples_whole ps : no_later_fragments ps -> samples ps = map (fun p => sample_of p (false, decode_of p)) ps.
Proof.
  intros H. unfold samples. rewrite attributed_whole by done. clear H.
  induction ps as [|p ps IH]; [done|]. cbn. by rewrite IH.
Qed.

Lemma no_matches ps : no_later_fragments ps -> count fst (attributed ps) = 0.
Proof. intros H. rewrite attributed_whole by done. clear H. induction ps as [|p ps IH]; [done|]. exact IH. Qed.

Lemma tunnel_ties ps : ties_agree (tunnel_accts ps).
Proof.
  assert (Hrev : forall a, a ∈ tunnel_accts ps -> ac_reversed a = false).
  { intros a Ha. apply list_elem_of_omap in Ha as (x & _ & E). unfold joins_tunnel, add_acct in E.
    destruct (carries_user_data _); [|done]. destruct (tunnel_key_from_packet _); [|done]. by injection E as <-. }
  intros a b Ha Hb _ _. by rewrite (Hrev a), (Hrev b).
Qed.

(** Distinct timestamps leave no ties. *)
Lemma distinct_ties l : NoDup (map ac_ts l) -> ties_agree l.
Proof.
  intros Hnd a b [i Hi]%list_elem_of_lookup [j Hj]%list_elem_of_lookup _ Ht.
  assert (i = j) as ->; [|congruence].
  eapply (NoDup_lookup (map ac_ts l) i j (ac_ts a)); [done| |]; rewrite list_lookup_fmap; [by rewrite Hi|].
  by rewrite Hj, Ht.
Qed.

(** The same packets in another order lead to the same analysis. *)
Lemma reordered_same ps qs an1 an2 :
  ps ≡ₚ qs -> no_later_fragments ps -> ties_agree (flow_accts ps) ->
  accounts_for ps an1 -> accounts_for qs an2 -> same_analysis an1 an2.
Proof.
  intros Hp Hps Hties [S1 F1 T1 _] [S2 F2 T2 _].
  assert (Hqs : no_later_fragments qs) by (unfold no_later_fragments; by rewrite <- Hp).
  assert (Hs : samples ps ≡ₚ samples qs) by (rewrite !samples_whole by done; by apply fmap_Permutation).
  split; [|eapply represents_perm; [exact F1|exact F2| |exact Hties]
          |eapply represents_perm; [exact T1|exact T2| |exact (tunnel_ties ps)]|apply F2|apply T2].
  - rewrite S1, S2. unfold expected_stats. rewrite !no_matches by done. by apply stats_of_perm.
  - unfold flow_accts. by rewrite Hs.
  - unfold tunnel_accts. by rewrite Hs.
Qed.

(** C12. The order of the packets in a capture does not matter: two captures with the
    same header that hold the same packets, each with its own timestamp, in different
    orders are reported with the same exit status, byte for byte the same text and
    the same CSV files, when there are no later IP fragments among them and packets
    of one flow with the same timestamp go in the same direction. *)
Theorem reordered_capture (Q1 Q2 : QSort) e1 e2 fuel1 fuel2 argv w1 w2 o pcap info ps qs ended :
  env_ok e1 fuel1 -> env_ok e2 fuel2 -> command argv o pcap ->
  reads e1 pcap info ps ended -> reads e2 pcap info qs ended -> Z.of_nat (length ps) <= 2 ^ 56 ->
  ps ≡ₚ qs -> no_later_fragments ps -> ties_agree (flow_accts ps) ->
  memory_suffices e1 -> memory_suffices e2 -> reports_succeed e1 o w1 -> reports_succeed e2 o w2 ->
  takes_all (w_err w1) -> takes_all (w_err w2) ->
  exists st w1' w2',
    @main Q1 e1 fuel1 argv w1 = Some (st, w1') /\ @main Q2 e2 fuel2 argv w2 = Some (st, w2') /\
    same_output (w_out w1) (w_out w1') (w_out w2) (w_out w2') /\
    same_messages (w_err w1) (w_err w1') (w_err w2) (w_err w2') /\
    forall path, op_csv o = Some path \/ op_tunnels o = Some path -> same_file path w1' w2'.
Proof.
  intros. eapply runs_alike; try done; [by symmetry; apply Permutation_length|].
  intros ? ?. by apply reordered_same.
Qed.
