(* ===== verification/EndToEnd.v ===== *)
(** The program from end to end: a capture file built packet by packet, read,
    decoded, accounted and reported.  The theorems of the builder, the reader, the
    decoder and the program as a whole compose to a statement about frames only. *)
From S2P Require Export PacketTheorems PcapProps MainProps.
#[global] Open Scope Z_scope.

(** ** Traffic *)

(** A frame and the timestamp of its record. *)
Record event := Event { ev_sec : Z; ev_frac : Z; ev_frame : frame }.

Definition ev_length (ev : event) : Z := Z.of_nat (length (frame_bytes (ev_frame ev))).

Definition event_valid (ev : event) : Prop :=
  is_u 32 (ev_sec ev) /\ is_u 32 (ev_frac ev) /\ frame_valid (ev_frame ev) /\ ev_length ev <= PCAP_MAX_CAPLEN.

(** The arguments of [pcap_put_record] for an event captured in full. *)
Definition event_args (ev : event) : packet_args :=
  Packet_args (ev_sec ev) (ev_frac ev) (frame_bytes (ev_frame ev)) (ev_length ev).

Definition traffic_file (be nsec : bool) (snaplen : Z) (evs : list event) : bytes :=
  pcap_file be nsec snaplen (map event_args evs).

(** ** What the analysis is to make of it: no bytes, no file, no decoder *)
Definition ev_time (nsec : bool) (ev : event) : Z :=
  ev_sec ev * 10 ^ 9 + ev_frac ev * (if nsec then 1 else 1000).

Definition traffic_attributed (evs : list event) : list (bool * packet_info) :=
  frag_spec [] (map (fun ev => frame_result (ev_frame ev)) evs).

Definition traffic_samples (nsec : bool) (evs : list event) : list sample :=
  zip_with (fun ev v => Sample v.2 (ev_length ev) (ev_length ev) (ev_time nsec ev)) evs (traffic_attributed evs).

Record reported (nsec : bool) (evs : list event) (a : analysis) : Prop := {
  rp_stats : an_stats a = stats_of (count fst (traffic_attributed evs)) (traffic_samples nsec evs);
  rp_flows : represents (an_flows a) (omap joins_flow (traffic_samples nsec evs));
  rp_tunnels : represents (an_tunnels a) (omap joins_tunnel (traffic_samples nsec evs))
}.

(** ** Composition *)
Lemma event_args_ok ev : event_valid ev -> packet_args_ok (event_args ev).
Proof.
  intros (Hs & Hf & Hv & Hl). assert (H0 : 0 <= ev_length ev) by apply Nat2Z.is_nonneg.
  split; [done|]. split; [done|]. split; [|split; [by apply frame_bytes_bytes|exact Hl]].
  unfold is_u, PCAP_MAX_CAPLEN in *. cbn. lia.
Qed.

Section Traffic.
Context (be nsec : bool) (snaplen : Z) (evs : list event).
Hypothesis evs_valid : Forall event_valid evs.

Let packet ev := captured_of nsec (event_args ev).

Lemma args_valid : Forall packet_args_ok (map event_args evs).
Proof. apply Forall_map. eapply Forall_impl; [exact evs_valid|exact event_args_ok]. Qed.

Lemma packet_sizes ev :
  event_valid ev -> caplen_of (cp_data (packet ev)) = ev_length ev /\ cp_wirelen (packet ev) = ev_length ev.
Proof.
  intros (_ & _ & _ & Hl). split; [done|]. apply Z.max_id.
Qed.

Lemma decode_of_packet ev : event_valid ev -> decode_of (packet ev) = frame_result (ev_frame ev).
Proof.
  intros Hev. destruct (packet_sizes ev Hev) as [Hc Hw]. unfold decode_of. rewrite Hc, Hw.
  change (cp_data (packet ev)) with (frame_bytes (ev_frame ev)). unfold ev_length.
  by rewrite decode_built_frame_spec by apply Hev.
Qed.

Lemma decode_of_packets : map decode_of (map packet evs) = map (fun ev => frame_result (ev_frame ev)) evs.
Proof.
  rewrite map_map. apply map_ext_Forall. eapply Forall_impl; [exact evs_valid|exact decode_of_packet].
Qed.

Lemma samples_of_packets : samples (map packet evs) = traffic_samples nsec evs.
Proof.
  unfold samples, traffic_samples, traffic_attributed, attributed. rewrite decode_of_packets.
  generalize (frag_spec [] (map (fun ev => frame_result (ev_frame ev)) evs)).
  induction evs_valid as [|ev l Hev Hl IH]; intros [|v vs]; [done..|]. cbn [map zip_with].
  rewrite IH by exact Hl. f_equal. destruct (packet_sizes ev Hev) as [Hc Hw]. unfold sample_of. by rewrite Hc, Hw.
Qed.

Lemma accounts_reported a : accounts_for (map packet evs) a -> reported nsec evs a.
Proof.
  intros [H1 H2 H3 _].
  unfold expected_stats, flow_accts, tunnel_accts, attributed in *. rewrite samples_of_packets in *.
  rewrite decode_of_packets in H1. by split.
Qed.

End Traffic.

(** What the header of the capture says. *)
Definition traffic_info (be nsec : bool) (snaplen : Z) : pcap_file_info := File_info be nsec 2 4 snaplen 1.

(** The frames whole in the first [k] bytes of the capture, and what follows them. *)
Definition traffic_cut (evs : list event) (k : nat) : nat * pcap_status :=
  cut (map (fun ev => length (frame_bytes (ev_frame ev))) evs) (k - 24).

Lemma take_header_valid data info k : (24 <= k)%nat -> valid_header data info -> valid_header (take k data) info.
Proof. intros Hk Hv. rewrite <- valid_header_take, take_take, Nat.min_l by lia. by rewrite valid_header_take. Qed.

Lemma cut_traffic_reads e pcap be nsec snaplen evs k err :
  is_u 32 snaplen -> Forall event_valid evs -> (24 <= k <= length (traffic_file be nsec snaplen evs))%nat ->
  e_open e pcap = inl (File (take k (traffic_file be nsec snaplen evs)) 0 err false) ->
  reads e pcap (traffic_info be nsec snaplen)
    (map (fun ev => captured_of nsec (event_args ev)) (take (traffic_cut evs k).1 evs))
    (end_status (traffic_cut evs k).2 err).
Proof.
  intros Hs Hv Hk Ho. destruct (pcap_file_valid be nsec snaplen (map event_args evs) Hs) as [Hh Hd].
  eexists _, (traffic_cut evs k).2. split; [exact Ho|].
  change (stream_rest _) with (take k (traffic_file be nsec snaplen evs)). cbn [f_errno].
  split; [apply take_header_valid; [lia|exact Hh]|]. split; [|done].
  replace k with (24 + (k - 24))%nat at 1 by lia. rewrite skipn_firstn_comm, Nat.add_comm, Nat.add_sub.
  pose proof (capture_of_cut (traffic_info be nsec snaplen) (map event_args evs) (k - 24) (args_valid evs Hv)) as C.
  change (fi_big_endian (traffic_info be nsec snaplen)) with be in C. rewrite <- Hd, length_drop in C.
  fold (traffic_file be nsec snaplen evs) in C. rewrite C by lia. unfold record_sizes, traffic_cut.
  rewrite map_map. f_equal. by rewrite firstn_map, map_map.
Qed.

Lemma cut_at_most sizes k : ((cut sizes k).1 <= length sizes)%nat.
Proof.
  revert k. induction sizes as [|n sizes IH]; intros k; cbn [cut length]; [done|].
  repeat (case_decide; [cbn; lia|]). specialize (IH (k - (16 + n))%nat). destruct (cut sizes _). cbn in *. lia.
Qed.

(** The records of a whole capture are all whole. *)
Lemma cut_whole sizes k : (sum_list_with (fun n => 16 + n) sizes <= k)%nat -> cut sizes k = (length sizes, PCAP_EOF).
Proof.
  revert k. induction sizes as [|n sizes IH]; intros k Hk; cbn [cut length]; [done|]. cbn [sum_list_with] in Hk.
  repeat (rewrite decide_False by lia). by rewrite IH by lia.
Qed.

Lemma traffic_length be nsec snaplen evs :
  length (traffic_file be nsec snaplen evs) =
  (24 + sum_list_with (fun n => 16 + n) (map (fun ev => length (frame_bytes (ev_frame ev))) evs))%nat.
Proof.
  unfold traffic_file. rewrite pcap_file_eq, length_app. f_equal.
  - apply global_header_length.
  - induction evs as [|ev evs IH]; [done|]. cbn [map concat sum_list_with].
    rewrite length_app, put_record_length, IH. done.
Qed.

Lemma whole_traffic_cut be nsec snaplen evs :
  traffic_cut evs (length (traffic_file be nsec snaplen evs)) = (length evs, PCAP_EOF).
Proof.
  pose proof (traffic_length be nsec snaplen evs). unfold traffic_cut. rewrite cut_whole by lia. by rewrite length_map.
Qed.

Lemma whole_traffic_reads e pcap be nsec snaplen evs :
  is_u 32 snaplen -> Forall event_valid evs ->
  e_open e pcap = inl (File (traffic_file be nsec snaplen evs) 0 None false) ->
  reads e pcap (traffic_info be nsec snaplen) (map (fun ev => captured_of nsec (event_args ev)) evs) PCAP_EOF.
Proof.
  intros Hs Hv Ho. pose proof (traffic_length be nsec snaplen evs) as El.
  pose proof (cut_traffic_reads e pcap be nsec snaplen evs (length (traffic_file be nsec snaplen evs)) None Hs Hv) as H.
  rewrite whole_traffic_cut, !take_ge in H by (cbn [fst]; lia). apply H; [lia|exact Ho].
Qed.

Lemma traffic_spec `{QSort} e fuel argv w o pcap be nsec snaplen evs k err :
  env_ok e fuel -> command argv o pcap -> memory_suffices e -> reports_succeed e o w ->
  is_u 32 snaplen -> Forall event_valid evs -> Z.of_nat (length evs) <= 2 ^ 56 ->
  (24 <= k <= length (traffic_file be nsec snaplen evs))%nat ->
  e_open e pcap = inl (File (take k (traffic_file be nsec snaplen evs)) 0 err false) ->
  let '(n, st) := traffic_cut evs k in
  let ended := end_status st err in
  exists w' an, main e fuel argv w = Some (exit_status ended, w') /\ reported nsec (take n evs) an /\
    fully_reported o pcap (traffic_info be nsec snaplen) an (told w pcap ended n) w'.
Proof.
  intros He Hc Hm Hr Hs Hv Hlen Hk Ho.
  pose proof (cut_traffic_reads e pcap be nsec snaplen evs k err Hs Hv Hk Ho) as Hreads.
  pose proof (cut_at_most (map (fun ev => length (frame_bytes (ev_frame ev))) evs) (k - 24)) as Hn.
  fold (traffic_cut evs k) in Hn. rewrite length_map in Hn.
  destruct (traffic_cut evs k) as [n st]. cbn [fst snd] in *.
  destruct (main_reports_spec e fuel argv w o pcap _ _ _ He Hc Hreads) as (w' & an & E & Ha & Hcm);
    [rewrite length_map, length_take; lia|done|done|].
  exists w', an. split; [exact E|]. split; [by apply accounts_reported; [apply Forall_take|]|].
  by rewrite length_map, length_take, Nat.min_l in Hcm by lia.
Qed.

(** C3. End to end: whatever well-formed frames are put into a capture with the
    builder, in either byte order and time unit, the program run on that capture
    exits with status 0, and its statistics, its flow table, its tunnel table and
    so the report it prints and the CSV files asked for are those of the frames'
    own fields, with the ports of later fragments taken from the first. *)
Theorem traffic_is_reported `{QSort} e fuel argv w o pcap be nsec snaplen evs :
  env_ok e fuel -> command argv o pcap -> memory_suffices e -> reports_succeed e o w ->
  is_u 32 snaplen -> Forall event_valid evs -> Z.of_nat (length evs) <= 2 ^ 56 ->
  e_open e pcap = inl (File (traffic_file be nsec snaplen evs) 0 None false) ->
  exists w' an, main e fuel argv w = Some (EXIT_OK, w') /\ reported nsec evs an /\
    fully_reported o pcap (traffic_info be nsec snaplen) an w w'.
Proof.
  intros He Hc Hm Hr Hs Hv Hlen Ho. pose proof (traffic_length be nsec snaplen evs) as El.
  pose proof (traffic_spec e fuel argv w o pcap be nsec snaplen evs (length (traffic_file be nsec snaplen evs)) None
    He Hc Hm Hr Hs Hv Hlen) as H0.
  rewrite whole_traffic_cut, take_ge, (take_ge evs) in H0 by lia. apply H0; [lia|exact Ho].
Qed.

(** C10. A capture that was cut short, at any byte after its header, and whether the
    file ends there or cannot be read further, loses only the frames that are not
    whole: the program still reports exactly on the frames before the cut, prints
    the report and writes the CSV files, and exits with status 0 when the cut falls
    between two records of a readable file and with status 2 and the reason, with
    the number of frames read, on the standard error otherwise. *)
Theorem cut_traffic_is_reported `{QSort} e fuel argv w o pcap be nsec snaplen evs k err :
  env_ok e fuel -> command argv o pcap -> memory_suffices e -> reports_succeed e o w ->
  is_u 32 snaplen -> Forall event_valid evs -> Z.of_nat (length evs) <= 2 ^ 56 ->
  (24 <= k <= length (traffic_file be nsec snaplen evs))%nat ->
  e_open e pcap = inl (File (take k (traffic_file be nsec snaplen evs)) 0 err false) ->
  let '(n, st) := traffic_cut evs k in
  let ended := end_status st err in
  exists w' an, main e fuel argv w = Some (exit_status ended, w') /\ reported nsec (take n evs) an /\
    fully_reported o pcap (traffic_info be nsec snaplen) an (told w pcap ended n) w'.
Proof. apply traffic_spec. Qed.
