(* ===== verification/Mutate.v ===== *)
(** The mutation engine of the fuzzer (src/fuzz/fuzz_decode.c, first half): its
    random numbers and the changes it makes to a frame.  Definitions only;
    [MutateProps] holds the theorems.

    The fuzzer is a program that may stop: [fail] and a few other places call
    [exit(1)].  Its state is the random number generator, the analysis, the
    counters, the resources it holds and its standard output; what it gets from
    outside, the outcome of every [malloc], [tmpfile] and [fwrite], is a list that
    stands for success once it runs out. *)
From Stdlib Require Import String.
From S2P Require Export Analyze Report Builder.
From stdpp Require Export list.
#[global] Open Scope Z_scope.

Definition MAX_FRAME := 2048.
Definition MAX_SEEDS := 20.
Definition MAX_RECORDS := 4.
Definition PAST_CAP_BYTES := 64.

(** ** The state *)
Record totals := Totals {
  tt_frames : Z;
  tt_by_status : list Z;
  tt_gtpu_frames : Z;
  tt_gtpu_inner : Z;
  tt_gtpu_by_status : list Z;
  tt_tunnel_gpdus : Z;
  tt_files : Z;
  tt_file_records : Z;
  tt_file_outcome : list Z;
  tt_stream_files : Z;
  tt_addrs : Z
}.

#[export] Instance totals_eta : Eta totals := fun t =>
  Totals (t.(tt_frames)) (t.(tt_by_status)) (t.(tt_gtpu_frames)) (t.(tt_gtpu_inner))
    (t.(tt_gtpu_by_status)) (t.(tt_tunnel_gpdus)) (t.(tt_files)) (t.(tt_file_records))
    (t.(tt_file_outcome)) (t.(tt_stream_files)) (t.(tt_addrs)).
#[export] Instance set_tt_frames : Setter tt_frames. Proof. solve_setter. Defined.
#[export] Instance set_tt_by_status : Setter tt_by_status. Proof. solve_setter. Defined.
#[export] Instance set_tt_gtpu_frames : Setter tt_gtpu_frames. Proof. solve_setter. Defined.
#[export] Instance set_tt_gtpu_inner : Setter tt_gtpu_inner. Proof. solve_setter. Defined.
#[export] Instance set_tt_gtpu_by_status : Setter tt_gtpu_by_status. Proof. solve_setter. Defined.
#[export] Instance set_tt_tunnel_gpdus : Setter tt_tunnel_gpdus. Proof. solve_setter. Defined.
#[export] Instance set_tt_files : Setter tt_files. Proof. solve_setter. Defined.
#[export] Instance set_tt_file_records : Setter tt_file_records. Proof. solve_setter. Defined.
#[export] Instance set_tt_file_outcome : Setter tt_file_outcome. Proof. solve_setter. Defined.
#[export] Instance set_tt_stream_files : Setter tt_stream_files. Proof. solve_setter. Defined.
#[export] Instance set_tt_addrs : Setter tt_addrs. Proof. solve_setter. Defined.

(** [fz_attempts] and [fz_devices] come from outside: the outcomes of the calls
    that may fail, and the devices of the temporary files. *)
Record fuzz := Fuzz {
  fz_rng : Z;
  fz_an : analysis;
  fz_tot : totals;
  fz_os : resources;
  fz_out : ostream;
  fz_attempts : list bool;
  fz_devices : list device
}.

#[export] Instance fuzz_eta : Eta fuzz := fun s =>
  Fuzz (s.(fz_rng)) (s.(fz_an)) (s.(fz_tot)) (s.(fz_os)) (s.(fz_out)) (s.(fz_attempts)) (s.(fz_devices)).
#[export] Instance set_fz_rng : Setter fz_rng. Proof. solve_setter. Defined.
#[export] Instance set_fz_an : Setter fz_an. Proof. solve_setter. Defined.
#[export] Instance set_fz_tot : Setter fz_tot. Proof. solve_setter. Defined.
#[export] Instance set_fz_os : Setter fz_os. Proof. solve_setter. Defined.
#[export] Instance set_fz_out : Setter fz_out. Proof. solve_setter. Defined.
#[export] Instance set_fz_attempts : Setter fz_attempts. Proof. solve_setter. Defined.
#[export] Instance set_fz_devices : Setter fz_devices. Proof. solve_setter. Defined.

(** How the fuzzer stops early: a call of [fail], another [exit(1)], or a call of
    [fail] in [fuzz_addr], for the address that it compared.  The messages on the
    standard error are not modelled. *)
Inductive stop := Failed | Exit_1 | Unlike (a : bytes).

(** [None] is undefined behaviour, or a loop that ran out of fuel. *)
Definition F (A : Type) : Type := fuzz -> option (stop + A * fuzz).

#[export] Instance F_ret : MRet F := fun A a s => Some (inr (a, s)).
#[export] Instance F_bind : MBind F := fun A B k m s =>
  match m s with
  | None => None
  | Some (inl e) => Some (inl e)
  | Some (inr (a, s')) => k a s'
  end.

Definition the {A} (o : option A) : F A :=
  fun s => match o with Some a => Some (inr (a, s)) | None => None end.
Definition get {A} (p : fuzz -> A) : F A := fun s => Some (inr (p s, s)).
Definition modify (f : fuzz -> fuzz) : F unit := fun s => Some (inr (tt, f s)).
Definition fail {A} : F A := fun s => Some (inl Failed).
Definition exit_1 {A} : F A := fun s => Some (inl Exit_1).
Definition fail_addr {A} (a : bytes) : F A := fun s => Some (inl (Unlike a)).

(** The outcome of the next call that may fail. *)
Definition attempt : F bool := fun s =>
  Some (inr (default true (head (fz_attempts s)), s <| fz_attempts ::= tail |>)).

(** [if (p == NULL) exit(1);] *)
Definition attempt_or_exit : F unit := ok ← attempt; if (ok : bool) then mret tt else exit_1.

(** ** Random numbers *)
Definition xorshift (x : Z) : Z :=
  let x := Z.lxor x (u64 (Z.shiftl x 13)) in
  let x := Z.lxor x (Z.shiftr x 7) in
  Z.lxor x (u64 (Z.shiftl x 17)).

Definition rng : F Z :=
  x ← get fz_rng;
  let x := xorshift x in
  _ ← modify (fun s => s <| fz_rng := x |>);
  mret x.

Definition rng_below (n : Z) : F Z :=
  if negb (n =? 0) then x ← rng; mret (x mod n) else mret 0.

Definition interesting16 : list Z :=
  [0x0000; 0x0001; 0x0004; 0x0005; 0x0008; 0x000F; 0x0014; 0x0028;
   0x003C; 0x0040; 0x007F; 0x0080; 0x00FF; 0x0100; 0x05DC; 0x7FFF;
   0x8000; 0xFFFE; 0xFFFF;
   0x0800; 0x86DD; 0x8100; 0x88A8; 0x9100].

Definition interesting32 : list Z :=
  [0; 1; 13; 14; 15; 16; 54; 60; 1514; 65535; 65536;
   PCAP_MAX_CAPLEN - 1; PCAP_MAX_CAPLEN; PCAP_MAX_CAPLEN + 1;
   0x7FFFFFFF; 0x80000000; 0xFFFFFFF0; 0xFFFFFFFF].

(** [a[rng_below(COUNT_OF(a))]] *)
Definition pick (a : list Z) : F Z := i ← rng_below (Z.of_nat (length a)); the (a !! Z.to_nat i).

(** ** Mutations *)

(** [buf[at] = v] *)
Definition poke (buf : bytes) (at_ v : Z) : F bytes :=
  the (if (0 <=? at_) && (at_ <? Z.of_nat (length buf)) then Some (<[Z.to_nat at_ := v]> buf) else None).

(** [buf[at] ^= 1u << bit], [bit] random *)
Definition flip_bit_at (buf : bytes) (at_ : Z) : F bytes :=
  bit ← rng_below 8;
  b ← the (byte_at buf at_);
  poke buf at_ (Z.lxor b (u8 (Z.shiftl 1 bit))).

Definition flip_random_bit (buf : bytes) (len : Z) : F bytes :=
  if len =? 0 then mret buf else
  at_ ← rng_below len;
  flip_bit_at buf at_.

(** [buf[off] = (uint8_t)(v >> 8); buf[off + 1] = (uint8_t)v;] *)
Definition poke16 (buf : bytes) (off v : Z) : F bytes :=
  buf ← poke buf off (u8 (Z.shiftr v 8));
  poke buf (off + 1) (u8 v).

(** [n] random bytes from [buf[at]] on. *)
Fixpoint fill_random (n : nat) (buf : bytes) (at_ : Z) : F bytes :=
  match n with
  | O => mret buf
  | S n =>
    x ← rng;
    buf ← poke buf at_ (u8 x);
    fill_random n buf (at_ + 1)
  end.

(** One round of [mutate]: the [switch]. *)
Definition mutate_round (buf : bytes) (len max : Z) : F (bytes * Z) :=
  c ← rng_below 6;
  if c =? 0 then
    buf ← flip_random_bit buf len; mret (buf, len)
  else if c =? 1 then
    if len >? 0 then
      at_ ← rng_below len;
      x ← rng;
      buf ← poke buf at_ (u8 x); mret (buf, len)
    else mret (buf, len)
  else if c =? 2 then
    if len >=? 2 then
      off ← rng_below ((if len <? 96 then len else 96) - 1);
      v ← pick interesting16;
      buf ← poke16 buf off v; mret (buf, len)
    else mret (buf, len)
  else if c =? 3 then
    if len >? 0 then
      off ← rng_below (if len <? 96 then len else 96);
      nib ← rng_below 16;
      r ← rng;
      b ← the (byte_at buf off);
      buf ← poke buf off
        (if negb (Z.land r 1 =? 0) then u8 (Z.lor (Z.land b 0x0F) (Z.shiftl nib 4))
         else u8 (Z.lor (Z.land b 0xF0) nib));
      mret (buf, len)
    else mret (buf, len)
  else if c =? 4 then
    len ← rng_below (len + 1); mret (buf, len)
  else
    add ← rng_below 64;
    let left := size_wrap (max - len) in
    let add := if add >? left then left else add in
    buf ← fill_random (Z.to_nat add) buf len;
    mret (buf, len + add).

Fixpoint mutate_rounds (rounds : nat) (buf : bytes) (len max : Z) : F (bytes * Z) :=
  match rounds with
  | O => mret (buf, len)
  | S rounds =>
    '(buf, len) ← mutate_round buf len max;
    mutate_rounds rounds buf len max
  end.

(** The buffer and [*len]. *)
Definition mutate (buf : bytes) (len max : Z) : F (bytes * Z) :=
  rounds ← rng_below 4;
  mutate_rounds (Z.to_nat (1 + rounds)) buf len max.

Definition ext_len : list Z := [0; 1; 2; 3; 0xFF].

Definition mutate_gtpu (buf : bytes) (len at_ : Z) : F bytes :=
  c ← rng_below 5;
  if c =? 0 then
    if at_ <? len then flip_bit_at buf at_ else mret buf
  else if c =? 1 then
    if at_ + 4 <=? len then
      v ← pick interesting16;
      poke16 buf (at_ + 2) v
    else mret buf
  else if c =? 2 then
    if at_ + 4 <=? len then
      b2 ← the (byte_at buf (at_ + 2));
      b3 ← the (byte_at buf (at_ + 3));
      let old := Z.lor (Z.shiftl b2 8) b3 in
      delta ← rng_below 9;
      poke16 buf (at_ + 2) (u16 (old + delta - 4))
    else mret buf
  else if c =? 3 then
    if at_ + 12 <=? len then
      r ← rng;
      x ← (if negb (Z.land r 1 =? 0) then mret 0x85 else x ← rng; mret (u8 x));
      poke buf (at_ + 11) x
    else mret buf
  else
    if at_ + 13 <=? len then
      v ← pick ext_len;
      poke buf (at_ + 12) v
    else mret buf.
