(* ===== verification/MutateProps.v ===== *)
(** The mutation engine of the fuzzer stays inside its buffers, whatever it draws.

    [runs] is the program logic of the fuzzer's monad: no undefined behaviour, and
    no early stop unless the environment failed. *)
From S2P Require Export Mutate.
From stdpp Require Export list.
#[global] Open Scope Z_scope.

(** ** The program logic *)

(** Every call that may fail succeeds, and the temporary files take every write. *)
Definition lucky (s : fuzz) : Prop :=
  Forall (fun b => b = true) (fz_attempts s) /\ Forall (fun d => d = sound) (fz_devices s).

(** A step that leaves the environment alone. *)
Definition inside (f : fuzz -> fuzz) : Prop :=
  forall s, fz_attempts (f s) = fz_attempts s /\ fz_devices (f s) = fz_devices s.

(** An assumption about the environment. *)
Record weather := Weather {
  holds :> fuzz -> Prop;
  stable : forall f s, inside f -> holds s -> holds (f s)
}.

Program Definition good_weather : weather := Weather lucky _.
Next Obligation.
  intros f s Hf [H1 H2]. destruct (Hf s) as [E1 E2]. unfold lucky. by rewrite E1, E2.
Qed.
Program Definition any_weather : weather := Weather (fun _ => True) _.
Next Obligation. done. Qed.

(** What a run may count on: whether the environment is as the weather says, and the
    early stops that are excused all the same. *)
Record luck := Luck {
  granted :> Prop;
  excuse : stop -> Prop
}.

Definition calm : luck := Luck True (fun _ => False).

Section Logic.
Context (W : weather) (L : luck).

(** From a state where the environment is as [W] says, if [L], [m] has no undefined
    behaviour, stops early only if [L] is false or with an excuse, and otherwise ends
    in [Q]. *)
Definition runs {A} (m : F A) (s : fuzz) (Q : A -> fuzz -> Prop) : Prop :=
  (L -> W s) ->
  match m s with
  | None => False
  | Some (inl e) => ~ L \/ excuse L e
  | Some (inr (a, s')) => (L -> W s') /\ Q a s'
  end.

Lemma runs_ret {A} (a : A) s (Q : A -> fuzz -> Prop) : Q a s -> runs (mret a) s Q.
Proof. intros H HL. by split. Qed.

Lemma runs_bind {A B} (m : F A) (k : A -> F B) s Q :
  runs m s (fun a s' => runs (k a) s' Q) -> runs (m ≫= k) s Q.
Proof.
  unfold runs, mbind, F_bind. intros H HL. specialize (H HL).
  destruct (m s) as [[e|[a s']]|]; [done| |done]. destruct H as [HL' H]. by apply H.
Qed.

Lemma runs_mono {A} (m : F A) s (Q Q' : A -> fuzz -> Prop) :
  runs m s Q -> (forall a s', Q a s' -> Q' a s') -> runs m s Q'.
Proof.
  unfold runs. intros H HQ HL. specialize (H HL).
  destruct (m s) as [[e|[a s']]|]; [done| |done]. destruct H. split; auto.
Qed.

Lemma runs_bind_pre {A B} (m : F A) (k : A -> F B) s (R : A -> fuzz -> Prop) Q :
  runs m s R -> (forall a s', R a s' -> runs (k a) s' Q) -> runs (m ≫= k) s Q.
Proof. intros H Hk. apply runs_bind. eapply runs_mono; eauto. Qed.

Lemma runs_the {A} (o : option A) a s Q : o = Some a -> Q a s -> runs (the o) s Q.
Proof. intros -> H HL. by split. Qed.

Lemma runs_get {A} (p : fuzz -> A) s Q : Q (p s) s -> runs (get p) s Q.
Proof. intros H HL. by split. Qed.

Lemma runs_modify f s Q : inside f -> Q tt (f s) -> runs (modify f) s Q.
Proof.
  intros Hf H HL. split; [|done]. intros Hl. apply (stable W f s Hf), HL, Hl.
Qed.

Lemma runs_exit {A} s (Q : A -> fuzz -> Prop) : ~ L -> runs exit_1 s Q.
Proof. intros H HL. by left. Qed.
Lemma runs_fail {A} s (Q : A -> fuzz -> Prop) : ~ L -> runs fail s Q.
Proof. intros H HL. by left. Qed.
Lemma runs_fail_addr {A} a s (Q : A -> fuzz -> Prop) : excuse L (Unlike a) -> runs (fail_addr a) s Q.
Proof. intros H HL. by right. Qed.

Lemma runs_if {A} (b : bool) (m1 m2 : F A) s Q :
  (b = true -> runs m1 s Q) -> (b = false -> runs m2 s Q) -> runs (if b then m1 else m2) s Q.
Proof. destruct b; auto. Qed.
End Logic.

Lemma runs_attempt (L : luck) s (Q : bool -> fuzz -> Prop) :
  (forall b, (b = false -> ~ L) -> Q b (s <| fz_attempts ::= tail |>)) -> runs good_weather L attempt s Q.
Proof.
  intros H HL. unfold attempt. split.
  - intros Hl. specialize (HL Hl). destruct HL as [Ha Hf]. destruct s as [? ? ? ? ? [|b l] ?]; [by split|].
    apply Forall_cons in Ha as [_ Ha]. by split.
  - apply H. intros Hb Hl. specialize (HL Hl). destruct HL as [Ha _].
    destruct (fz_attempts s) as [|b l]; [done|]. apply Forall_cons in Ha as [-> _]. done.
Qed.

Lemma runs_attempt_or_exit (L : luck) s (Q : unit -> fuzz -> Prop) : Q tt (s <| fz_attempts ::= tail |>) -> runs good_weather L attempt_or_exit s Q.
Proof.
  intros H. apply runs_bind, runs_attempt. intros b Hb. destruct b; [by apply runs_ret|].
  by apply runs_exit, Hb.
Qed.

(** ** Random numbers *)
Definition rng_state (x : Z) : Prop := is_u 64 x /\ x <> 0.

Lemma lxor_u64 x y : is_u 64 x -> is_u 64 y -> is_u 64 (Z.lxor x y).
Proof.
  unfold is_u. intros Hx Hy. split; [apply Z.lxor_nonneg; lia|].
  destruct (Z.eq_dec (Z.lxor x y) 0) as [->|Hne]; [done|].
  assert (Hpos : 0 < Z.lxor x y) by (pose proof (proj2 (Z.lxor_nonneg x y)); lia).
  apply Z.log2_lt_pow2; [done|].
  pose proof (Z.log2_lxor x y ltac:(lia) ltac:(lia)) as Hl.
  assert (Hb : forall z, 0 <= z < 2 ^ 64 -> Z.log2 z < 64).
  { intros z Hz. destruct (Z.eq_dec z 0) as [->|]; [done|]. apply Z.log2_lt_pow2; lia. }
  pose proof (Hb x Hx). pose proof (Hb y Hy). lia.
Qed.

(** A left shift that drops the high bits fixes 0 only. *)
Lemma shl_fixes_zero x k : is_u 64 x -> 13 <= k -> x = u64 (Z.shiftl x k) -> x = 0.
Proof.
  intros Hx Hk E.
  assert (Hb : forall n, Z.testbit x (Z.of_nat n) = false).
  { intros n. induction n as [n IH] using lt_wf_ind.
    destruct (Z.lt_ge_cases (Z.of_nat n) 64) as [Hn|Hn].
    - rewrite E. unfold wrap. rewrite Z.mod_pow2_bits_low by lia.
      rewrite Z.shiftl_spec by lia. destruct (Z.lt_ge_cases (Z.of_nat n) k) as [Hnk|Hnk].
      + apply Z.testbit_neg_r. lia.
      + replace (Z.of_nat n - k) with (Z.of_nat (n - Z.to_nat k)) by lia. apply IH. lia.
    - unfold is_u in Hx. apply Z.testbit_false; [lia|]. rewrite Z.div_small; [done|].
      split; [lia|]. apply Z.lt_le_trans with (2 ^ 64); [lia|]. apply Z.pow_le_mono_r; lia. }
  apply Z.bits_inj'. intros n Hn. rewrite Z.bits_0. rewrite <- (Z2Nat.id n) by done. apply Hb.
Qed.

Lemma shr_fixes_zero x : is_u 64 x -> x = Z.shiftr x 7 -> x = 0.
Proof.
  unfold is_u. intros Hx E. rewrite Z.shiftr_div_pow2 in E by done. change (2 ^ 7) with 128 in E.
  pose proof (Z.div_mod x 128 ltac:(done)) as Hd. pose proof (Z.mod_pos_bound x 128 ltac:(done)). lia.
Qed.

Lemma xor_step x y : rng_state x -> is_u 64 y -> (x = y -> x = 0) -> rng_state (Z.lxor x y).
Proof.
  intros [Hx Hne] Hy Hfix. split; [by apply lxor_u64|]. intros E. apply Z.lxor_eq in E. auto.
Qed.

Lemma xorshift_ok x : rng_state x -> rng_state (xorshift x).
Proof.
  intros Hx. unfold xorshift.
  assert (H1 : rng_state (Z.lxor x (u64 (Z.shiftl x 13)))).
  { apply xor_step; [done|apply wrap_is_u; lia|]. apply shl_fixes_zero; [apply Hx|lia]. }
  revert H1. generalize (Z.lxor x (u64 (Z.shiftl x 13))). intros y Hy.
  assert (H2 : rng_state (Z.lxor y (Z.shiftr y 7))).
  { apply xor_step; [done| |apply shr_fixes_zero, Hy]. destruct Hy as [[Hy0 Hy1] _].
    rewrite Z.shiftr_div_pow2 by done. split; [by apply Z.div_pos|].
    apply Z.le_lt_trans with y; [|done]. apply Z.div_le_upper_bound; [done|]. change (2 ^ 7) with 128. lia. }
  revert H2. generalize (Z.lxor y (Z.shiftr y 7)). intros z Hz.
  apply xor_step; [done|apply wrap_is_u; lia|]. apply shl_fixes_zero; [apply Hz|lia].
Qed.

(** Nothing but random numbers was drawn. *)
Definition drawn (s s' : fuzz) : Prop := exists x, rng_state x /\ s' = s <| fz_rng := x |>.

Lemma drawn_refl s : rng_state (fz_rng s) -> drawn s s.
Proof. intros H. exists (fz_rng s). split; [done|by destruct s]. Qed.
Lemma drawn_trans s1 s2 s3 : drawn s1 s2 -> drawn s2 s3 -> drawn s1 s3.
Proof. intros (x & Hx & ->) (y & Hy & ->). exists y. split; [done|by destruct s1]. Qed.
Lemma drawn_rng s s' : drawn s s' -> rng_state (fz_rng s').
Proof. intros (x & Hx & ->). by destruct s. Qed.

Section Draw.
Context (W : weather) (L : luck).

Lemma runs_rng s (Q : Z -> fuzz -> Prop) :
  rng_state (fz_rng s) ->
  (forall x s', drawn s s' -> is_u 64 x -> Q x s') -> runs W L rng s Q.
Proof.
  intros Hs H. apply xorshift_ok in Hs. unfold rng.
  apply runs_bind, runs_get, runs_bind. apply runs_modify; [by intros []|]. apply runs_ret, H; [|apply Hs].
  by exists (xorshift (fz_rng s)).
Qed.

Lemma runs_below n s (Q : Z -> fuzz -> Prop) :
  rng_state (fz_rng s) -> 0 <= n ->
  (forall x s', drawn s s' -> 0 <= x -> (x < n \/ n = 0 /\ x = 0) -> Q x s') -> runs W L (rng_below n) s Q.
Proof.
  intros Hs Hn H. unfold rng_below. destruct (Z.eqb_spec n 0) as [->|Hne]; cbn [negb].
  - apply runs_ret, H; [by apply drawn_refl|done|by right].
  - apply runs_bind, runs_rng; [done|]. intros x s' Hd _. apply runs_ret, H; [done| |left];
      apply Z.mod_pos_bound; lia.
Qed.

Lemma runs_pick (P : Z -> Prop) a s (Q : Z -> fuzz -> Prop) :
  rng_state (fz_rng s) -> a <> [] -> Forall P a ->
  (forall x s', drawn s s' -> P x -> Q x s') -> runs W L (pick a) s Q.
Proof.
  intros Hs Hne Ha H. unfold pick. apply runs_bind, runs_below; [done|lia|]. intros i s' Hd H0 Hi.
  assert (Hl : (0 < length a)%nat) by (destruct a; cbn; [done|lia]).
  destruct (lookup_lt_is_Some_2 a (Z.to_nat i)) as [x Hx]; [lia|].
  eapply runs_the; [exact Hx|]. apply H; [done|]. by eapply Forall_lookup_1.
Qed.
End Draw.

(** Extend a [drawn] chain: every goal of this shape is closed by composing the
    draws in the context. *)
Ltac draws :=
  repeat match goal with
  | H1 : drawn ?a ?b, H2 : drawn ?b ?c |- drawn ?a ?c => exact (drawn_trans a b c H1 H2)
  | H : drawn ?a ?b |- rng_state (fz_rng ?b) => exact (drawn_rng a b H)
  | |- drawn ?a ?a => apply drawn_refl
  | H1 : drawn ?a ?b |- drawn ?a ?c => apply (drawn_trans a b c H1)
  | |- _ => assumption
  end.

(** ** Buffers *)
Definition buffer_of (size : Z) (buf : bytes) : Prop := Z.of_nat (length buf) = size /\ Forall is_byte buf.

Section Mutations.
Context (W : weather) (L : luck).

Lemma runs_poke size buf i v s (Q : bytes -> fuzz -> Prop) :
  buffer_of size buf -> 0 <= i < size -> is_byte v ->
  (forall buf', buffer_of size buf' -> take (Z.to_nat i) buf' = take (Z.to_nat i) buf ->
     buf' = <[Z.to_nat i := v]> buf -> Q buf' s) ->
  runs W L (poke buf i v) s Q.
Proof.
  intros [Hl Hb] Hi Hv H. unfold poke.
  destruct (Z.leb_spec 0 i); [|lia]. destruct (Z.ltb_spec i (Z.of_nat (length buf))); [|lia]. cbn [andb].
  eapply runs_the; [done|]. apply H; [|by rewrite take_insert_ge|done].
  split; [by rewrite length_insert|]. by apply Forall_insert.
Qed.

Lemma runs_byte size buf i s (Q : Z -> fuzz -> Prop) :
  buffer_of size buf -> 0 <= i < size -> (forall b, is_byte b -> Q b s) -> runs W L (the (byte_at buf i)) s Q.
Proof.
  intros [Hl Hb] Hi H. destruct (byte_at_Some buf i) as (b & E & Hbb); [lia|done|].
  eapply runs_the; [exact E|]. by apply H.
Qed.

Lemma byte_lor x y : is_byte x -> is_byte y -> is_byte (u8 (Z.lor x y)).
Proof. intros _ _. apply wrap_is_u. lia. Qed.
Lemma byte_lxor x y : is_byte x -> is_byte (u8 y) -> is_byte (Z.lxor x (u8 y)).
Proof.
  intros Hx Hy. unfold is_u in *. split; [apply Z.lxor_nonneg; lia|].
  destruct (Z.eq_dec (Z.lxor x (u8 y)) 0) as [->|Hne]; [done|].
  apply Z.log2_lt_pow2; [pose proof (proj2 (Z.lxor_nonneg x (u8 y))); lia|].
  pose proof (Z.log2_lxor x (u8 y) ltac:(lia) ltac:(lia)) as Hl.
  assert (Hb : forall z, 0 <= z < 2 ^ 8 -> Z.log2 z < 8).
  { intros z Hz. destruct (Z.eq_dec z 0) as [->|]; [done|]. apply Z.log2_lt_pow2; lia. }
  pose proof (Hb x Hx). pose proof (Hb (u8 y) Hy). lia.
Qed.

(** A buffer of the same size, and nothing but random numbers drawn. *)
Definition mutated (size : Z) (s : fuzz) (buf : bytes) (s' : fuzz) : Prop :=
  buffer_of size buf /\ drawn s s'.

Lemma flip_bit_ok size buf i s :
  buffer_of size buf -> 0 <= i < size -> rng_state (fz_rng s) ->
  runs W L (flip_bit_at buf i) s (mutated size s).
Proof.
  intros Hb Hi Hs. unfold flip_bit_at. apply runs_bind, runs_below; [done|lia|]. intros bit s1 D1 _ _.
  apply runs_bind. apply (runs_byte size); [done..|]. intros b Hbb.
  apply (runs_poke size); [done|done| |].
  - apply byte_lxor; [done|apply wrap_is_u; lia].
  - intros buf' Hb' _ _. by split.
Qed.

Lemma flip_random_bit_ok size buf len s :
  buffer_of size buf -> 0 <= len <= size -> rng_state (fz_rng s) ->
  runs W L (flip_random_bit buf len) s (mutated size s).
Proof.
  intros Hb Hl Hs. unfold flip_random_bit. destruct (Z.eqb_spec len 0).
  { apply runs_ret. split; [done|by apply drawn_refl]. }
  apply runs_bind, runs_below; [done|lia|]. intros i s1 D1 H0 Hi.
  eapply runs_mono; [apply (flip_bit_ok size); [done|lia|by eapply drawn_rng]|].
  intros buf' s2 [Hb' D2]. split; [done|draws].
Qed.

Lemma poke16_ok size buf off v s :
  buffer_of size buf -> 0 <= off -> off + 1 < size ->
  runs W L (poke16 buf off v) s (fun buf' s' => buffer_of size buf' /\ s' = s).
Proof.
  intros Hb H0 H1. unfold poke16. apply runs_bind. apply (runs_poke size); [done|lia|apply wrap_is_u; lia|].
  intros buf1 Hb1 _ _. apply (runs_poke size); [done|lia|apply wrap_is_u; lia|]. by intros.
Qed.

Lemma fill_random_ok size n buf i s :
  buffer_of size buf -> 0 <= i -> i + Z.of_nat n <= size -> rng_state (fz_rng s) ->
  runs W L (fill_random n buf i) s
    (fun buf' s' => mutated size s buf' s' /\ take (Z.to_nat i) buf' = take (Z.to_nat i) buf).
Proof.
  revert buf i s. induction n as [|n IH]; intros buf i s Hb H0 Hn Hs; cbn [fill_random].
  { apply runs_ret. split; [|done]. split; [done|by apply drawn_refl]. }
  apply runs_bind, runs_rng; [done|]. intros x s1 D1 _.
  apply runs_bind. apply (runs_poke size); [done|lia|apply wrap_is_u; lia|]. intros buf1 Hb1 Ht _.
  eapply runs_mono; [apply IH; [done|lia|lia|by eapply drawn_rng]|].
  intros buf2 s2 [[Hb2 D2] Ht2]. split; [split; [done|draws]|].
  apply (f_equal (take (Z.to_nat i))) in Ht2. rewrite !take_take in Ht2.
  replace (Z.to_nat i `min` Z.to_nat (i + 1))%nat with (Z.to_nat i) in Ht2 by lia. congruence.
Qed.

(** What a round of [mutate] leaves: the length stays within the buffer. *)
Definition mutated_len (size : Z) (s : fuzz) (r : bytes * Z) (s' : fuzz) : Prop :=
  mutated size s r.1 s' /\ 0 <= r.2 <= size.

Lemma byte_any v : is_byte (u8 v).
Proof. apply wrap_is_u. lia. Qed.
Hint Resolve byte_any : core.

Lemma keep_len size s buf len s' :
  buffer_of size buf -> 0 <= len <= size -> drawn s s' -> mutated_len size s (buf, len) s'.
Proof. intros Hb Hl Hd. split; [by split|done]. Qed.

Lemma mutate_round_ok size buf len s :
  buffer_of size buf -> 0 <= len <= size -> size <= SIZE_MAX -> rng_state (fz_rng s) ->
  runs W L (mutate_round buf len size) s (mutated_len size s).
Proof.
  intros Hb Hl Hsz Hs. unfold mutate_round. apply runs_bind, runs_below; [done|lia|]. intros c s1 D1 _ _.
  assert (H1 : rng_state (fz_rng s1)) by draws.
  repeat (apply runs_if; intros ?).
  - eapply runs_bind_pre; [by apply (flip_random_bit_ok size)|]. intros buf' s2 [Hb' D2].
    apply runs_ret, keep_len; [done|done|draws].
  - apply runs_bind, runs_below; [done|lia|]. intros i s2 D2 Hi0 Hi.
    apply runs_bind, runs_rng; [draws|]. intros x s3 D3 _.
    apply runs_bind. apply (runs_poke size); [done|lia|done|]. intros buf' Hb' _ _.
    apply runs_ret, keep_len; [done|done|draws].
  - apply runs_ret, keep_len; done.
  - set (m := if len <? 96 then len else 96).
    assert (Hm : m <= len /\ 2 <= m) by (subst m; destruct (Z.ltb_spec len 96); lia).
    apply runs_bind, runs_below; [done|lia|]. intros off s2 D2 Hp Hoff.
    apply runs_bind. apply (runs_pick W L (fun _ => True)); [draws|done|by apply Forall_true|]. intros v s3 D3 _.
    eapply runs_bind_pre; [apply (poke16_ok size); [done|lia|lia]|]. intros buf' s4 [Hb' ->].
    apply runs_ret, keep_len; [done|done|draws].
  - apply runs_ret, keep_len; done.
  - set (m := if len <? 96 then len else 96).
    assert (Hm : m <= len /\ 1 <= m) by (subst m; destruct (Z.ltb_spec len 96); lia).
    apply runs_bind, runs_below; [done|lia|]. intros off s2 D2 Hp Hoff.
    apply runs_bind, runs_below; [draws|lia|]. intros nib s3 D3 _ _.
    apply runs_bind, runs_rng; [draws|]. intros r s4 D4 _.
    apply runs_bind. apply (runs_byte size); [done|lia|]. intros b Hbb.
    apply runs_bind. apply (runs_poke size); [done|lia|by destruct (negb _)|]. intros buf' Hb' _ _.
    apply runs_ret, keep_len; [done|done|draws].
  - apply runs_ret, keep_len; done.
  - apply runs_bind, runs_below; [done|lia|]. intros n s2 D2 Hp Hn.
    apply runs_ret, keep_len; [done|lia|draws].
  - apply runs_bind, runs_below; [done|lia|]. intros add s2 D2 Hp Hadd. rewrite size_sub_small by lia.
    set (n := if add >? size - len then size - len else add).
    assert (Hnn : 0 <= n /\ len + n <= size) by (subst n; rewrite Z.gtb_ltb; destruct (Z.ltb_spec (size - len) add); lia).
    eapply runs_bind_pre; [apply (fill_random_ok size); [done|lia|lia|draws]|].
    intros buf' s3 [[Hb' D3] _]. apply runs_ret, keep_len; [done|lia|draws].
Qed.

Lemma mutate_rounds_ok size n buf len s :
  buffer_of size buf -> 0 <= len <= size -> size <= SIZE_MAX -> rng_state (fz_rng s) ->
  runs W L (mutate_rounds n buf len size) s (mutated_len size s).
Proof.
  revert buf len s. induction n as [|n IH]; intros buf len s Hb Hl Hsz Hs; cbn [mutate_rounds].
  { apply runs_ret, keep_len; [done|done|by apply drawn_refl]. }
  eapply runs_bind_pre; [by apply mutate_round_ok|]. intros [buf1 len1] s1 [[Hb1 D1] Hl1].
  eapply runs_mono; [apply IH; [done|done|done|draws]|].
  intros r s2 [[Hb2 D2] Hl2]. split; [split; [done|draws]|done].
Qed.

Lemma mutate_ok size buf len s :
  buffer_of size buf -> 0 <= len <= size -> size <= SIZE_MAX -> rng_state (fz_rng s) ->
  runs W L (mutate buf len size) s (mutated_len size s).
Proof.
  intros Hb Hl Hsz Hs. unfold mutate. apply runs_bind, runs_below; [done|lia|]. intros n s1 D1 _ _.
  eapply runs_mono; [apply mutate_rounds_ok; [done|done|done|draws]|].
  intros r s2 [[Hb2 D2] Hl2]. split; [split; [done|draws]|done].
Qed.

Lemma mutate_gtpu_ok size buf len at_ s :
  buffer_of size buf -> 0 <= len <= size -> 0 <= at_ -> rng_state (fz_rng s) ->
  runs W L (mutate_gtpu buf len at_) s (mutated size s).
Proof.
  intros Hb Hl Hat Hs. unfold mutate_gtpu. apply runs_bind, runs_below; [done|lia|]. intros c s1 D1 _ _.
  assert (H1 : rng_state (fz_rng s1)) by draws.
  assert (Hkeep : runs W L (mret buf) s1 (mutated size s)) by (by apply runs_ret).
  repeat (apply runs_if; intros ?); try exact Hkeep.
  - eapply runs_mono; [apply (flip_bit_ok size); [done|lia|done]|]. intros buf' s2 [Hb' D2]. split; [done|draws].
  - apply runs_bind. apply (runs_pick W L (fun _ => True)); [draws|done|by apply Forall_true|]. intros v s2 D2 _.
    eapply runs_mono; [apply (poke16_ok size); [done|lia|lia]|]. intros buf' s3 [Hb' ->]. split; [done|draws].
  - apply runs_bind. apply (runs_byte size); [done|lia|]. intros b2 _.
    apply runs_bind. apply (runs_byte size); [done|lia|]. intros b3 _.
    apply runs_bind, runs_below; [done|lia|]. intros delta s2 D2 _ _.
    eapply runs_mono; [apply (poke16_ok size); [done|lia|lia]|]. intros buf' s3 [Hb' ->]. split; [done|draws].
  - apply runs_bind, runs_rng; [done|]. intros r s2 D2 _.
    eapply runs_bind_pre with (R := fun x s' => is_byte x /\ drawn s2 s').
    { apply runs_if; intros _; [apply runs_ret; split; [done|draws]|].
      apply runs_bind, runs_rng; [draws|]. intros x s3 D3 _. apply runs_ret. by split. }
    intros x s3 [Hx D3]. apply (runs_poke size); [done|lia|done|]. intros buf' Hb' _ _. split; [done|draws].
  - apply runs_bind. apply (runs_pick W L is_byte); [draws|done|by repeat constructor|]. intros v s2 D2 Hv.
    apply (runs_poke size); [done|lia|done|]. intros buf' Hb' _ _. split; [done|draws].
Qed.
End Mutations.

(** ** Properties *)

(** The generator never gets stuck: from a non-zero 64-bit state [rng] returns
    a 64-bit number and leaves a non-zero 64-bit state, and nothing else changes;
    [rng_below n] returns a number below [n]. *)
Lemma rng_never_stuck s n :
  rng_state (fz_rng s) -> 0 < n ->
  (exists x s', rng s = Some (inr (x, s')) /\ is_u 64 x /\ drawn s s') /\
  (exists x s', rng_below n s = Some (inr (x, s')) /\ 0 <= x < n /\ drawn s s').
Proof.
  intros Hs Hn. pose proof (xorshift_ok _ Hs) as Hx.
  assert (D : drawn s (s <| fz_rng := xorshift (fz_rng s) |>)) by (by exists (xorshift (fz_rng s))).
  split; [by exists (xorshift (fz_rng s)), (s <| fz_rng := xorshift (fz_rng s) |>); split; [|split; [apply Hx|]]|].
  exists (xorshift (fz_rng s) mod n), (s <| fz_rng := xorshift (fz_rng s) |>).
  unfold rng_below. destruct (Z.eqb_spec n 0); [lia|]. cbn [negb].
  split; [done|]. split; [by apply Z.mod_pos_bound|done].
Qed.

(** C32. Mutations stay in bounds: whatever they draw, [mutate] and [mutate_gtpu]
    end without an access outside the buffer, leave a buffer of the same size, a
    length that it holds, and change nothing else but the generator's state. *)
Theorem mutations_in_bounds size buf len at_ s :
  buffer_of size buf -> 0 <= len <= size -> size <= SIZE_MAX -> 0 <= at_ -> rng_state (fz_rng s) ->
  (exists r s', mutate buf len size s = Some (inr (r, s')) /\ mutated_len size s r s') /\
  (exists buf' s', mutate_gtpu buf len at_ s = Some (inr (buf', s')) /\ mutated size s buf' s').
Proof.
  intros Hb Hl Hsz Hat Hs.
  assert (Hone : forall A (m : F A) (Q : A -> fuzz -> Prop), runs any_weather calm m s Q ->
    exists r s', m s = Some (inr (r, s')) /\ Q r s').
  { intros A m Q H. unfold runs in H. destruct (m s) as [[e|[a s']]|]; [by destruct H as [[]|[]]|exists a, s'|by destruct H].
    split; [done|by apply H]. }
  split; apply Hone; [by apply mutate_ok|by apply mutate_gtpu_ok].
Qed.
