(* ===== verification/Fuzz.v ===== *)
(** The fuzzer (src/fuzz/fuzz_decode.c, second half): the checked decode, the
    lockstep reading of a damaged capture, the comparison with [inet_ntop], the
    reports and [main].  Definitions only; [FuzzProps] holds the theorems. *)
From Stdlib Require Import String.
From S2P Require Export Mutate DecodeProps.
From stdpp Require Export list.
#[global] Open Scope Z_scope.

(** [tot->x++] for an [unsigned long long], and in an array. *)
Definition count_up (f : totals -> totals) : F unit := modify (fun s => s <| fz_tot ::= f |>).

(** ** Temporary files *)
Definition next_device : F device := fun s =>
  Some (inr (default sound (head (fz_devices s)), s <| fz_devices ::= tail |>)).

Definition count_files (n : Z) : F unit :=
  modify (fun s => s <| fz_os ::= fun os => Resources (os_files os + n) (os_blocks os) |>).

(** [tmpfile()]: the stream, on its device, or NULL. *)
Definition tmpfile : F (option ostream) :=
  ok ← attempt;
  if (ok : bool) then
    dev ← next_device;
    _ ← count_files 1;
    mret (Some (ostream_new dev))
  else mret None.

Definition fclose : F unit := count_files (-1).

(** A block from [malloc], and [free] of one. *)
Definition take_block : F unit := modify (fun s => s <| fz_os ::= malloc |>).
Definition free_block : F unit := modify (fun s => s <| fz_os ::= free |>).

Section Fuzzer.
Context `{QSort} (junk : Z -> bytes) (inet_ntop : bytes -> option bytes).

(** ** Decoding with checks *)

(** [exact = malloc(len ? len : 1); memcpy(exact, data, len);] *)
Definition heap_copy (data : bytes) (len : Z) : F bytes :=
  _ ← attempt_or_exit;
  _ ← take_block;
  data ← the (bytes_at data 0 len);
  mret (overwrite (junk (if len =? 0 then 1 else len)) data).

Definition decode_exact (data : bytes) (len wirelen : Z) : F (decode_status * packet_info) :=
  exact ← heap_copy data len;
  r ← the (decode_frame exact len wirelen);
  _ ← free_block;
  mret r.

Definition same_info (a b : packet_info) : bool :=
  status_eqb (pi_status a) (pi_status b) && Bool.eqb (pi_has_l2 a) (pi_has_l2 b) &&
  Bool.eqb (pi_has_l3 a) (pi_has_l3 b) && Bool.eqb (pi_has_l4 a) (pi_has_l4 b) &&
  (pi_ethertype a =? pi_ethertype b) && (pi_vlan_count a =? pi_vlan_count b) &&
  bool_decide (pi_vlan_ids a = pi_vlan_ids b) &&
  (pi_ip_version a =? pi_ip_version b) && (pi_ip_proto a =? pi_ip_proto b) &&
  bool_decide (pi_src_addr a = pi_src_addr b) &&
  bool_decide (pi_dst_addr a = pi_dst_addr b) &&
  bool_decide (pi_frag a = pi_frag b) && (pi_frag_id a =? pi_frag_id b) &&
  (pi_src_port a =? pi_src_port b) && (pi_dst_port a =? pi_dst_port b) &&
  (pi_tcp_flags a =? pi_tcp_flags b) && (pi_icmp_type a =? pi_icmp_type b) &&
  (pi_icmp_code a =? pi_icmp_code b) &&
  Bool.eqb (pi_is_gtpu a) (pi_is_gtpu b) && status_eqb (pi_gtp_status a) (pi_gtp_status b) &&
  Bool.eqb (pi_gtp_v1u a) (pi_gtp_v1u b) && (pi_gtp_flags a =? pi_gtp_flags b) &&
  (pi_gtp_msg_type a =? pi_gtp_msg_type b) &&
  Bool.eqb (pi_gtp_msg_ok a) (pi_gtp_msg_ok b) && (pi_gtp_seq a =? pi_gtp_seq b) &&
  (pi_teid a =? pi_teid b) && (pi_gtp_ext_count a =? pi_gtp_ext_count b) &&
  Bool.eqb (pi_has_inner a) (pi_has_inner b) &&
  Bool.eqb (pi_inner_has_l4 a) (pi_inner_has_l4 b) &&
  Bool.eqb (pi_gtp_nested a) (pi_gtp_nested b) &&
  (pi_inner_version a =? pi_inner_version b) &&
  (pi_inner_proto a =? pi_inner_proto b) &&
  bool_decide (pi_inner_src a = pi_inner_src b) &&
  bool_decide (pi_inner_dst a = pi_inner_dst b) &&
  (pi_inner_src_port a =? pi_inner_src_port b) &&
  (pi_inner_dst_port a =? pi_inner_dst_port b).

Definition check_no_read_past_cap (data : bytes) (len wirelen : Z) (want : packet_info) : F unit :=
  _ ← attempt_or_exit;
  _ ← take_block;
  data ← the (bytes_at data 0 len);
  padded ← fill_random (Z.to_nat PAST_CAP_BYTES) (overwrite (junk (len + PAST_CAP_BYTES)) data) len;
  '(_, got) ← the (decode_frame padded len wirelen);
  _ ← free_block;
  if negb (same_info want got) then fail else mret tt.

Definition decode_checked (data : bytes) (len wirelen : Z) : F (decode_status * packet_info) :=
  '(ds, pi) ← decode_exact data len wirelen;
  if negb (check_invariants pi ds (wirelen =? len)) then fail else
  _ ← check_no_read_past_cap data len wirelen pi;
  mret (ds, pi).

(** Each table of [analysis_account] may need one allocation. *)
Definition account (pi : packet_info) (caplen wirelen ts_ns : Z) : F unit :=
  _ ← (if pi_is_gtpu pi && pi_gtp_msg_ok pi && (pi_gtp_msg_type pi =? GTPU_MSG_GPDU)
       then count_up (update tt_tunnel_gpdus inc) else mret tt);
  al_flow ← attempt;
  al_tunnel ← attempt;
  an ← get fz_an;
  '(rc, an, _) ← the (analysis_account an pi caplen wirelen ts_ns al_flow al_tunnel);
  _ ← modify (fun s => s <| fz_an := an |>);
  if negb (rc =? 0) then fail else mret tt.

(** [data] is the [caplen] bytes at [rec->data]. *)
Definition process_record (rec : pcap_record) (data : bytes) : F unit :=
  if rec_wirelen rec <? rec_caplen rec then fail else
  '(_, pi) ← decode_checked data (rec_caplen rec) (rec_wirelen rec);
  account pi (rec_caplen rec) (rec_wirelen rec) (rec_ts_ns rec).

(** ** The readers *)
Definition pstatus_val (s : pcap_status) : Z :=
  match s with
  | PCAP_OK => 0 | PCAP_EOF => 1 | PCAP_ERR_OPEN => 2 | PCAP_ERR_IO => 3
  | PCAP_ERR_NOMEM => 4 | PCAP_ERR_SHORT_HEADER => 5 | PCAP_ERR_BAD_MAGIC => 6
  | PCAP_ERR_PCAPNG => 7 | PCAP_ERR_BAD_VERSION => 8 | PCAP_ERR_BAD_LINKTYPE => 9
  | PCAP_ERR_TRUNC_RECORD_HDR => 10 | PCAP_ERR_TRUNC_RECORD => 11 | PCAP_ERR_BAD_CAPLEN => 12
  end.

(** The loop that builds the file: the file, the offsets of the record headers and
    the frame buffer. *)
Fixpoint build_records (n : nat) (seeds : list bytes) (be : bool) (file : bytes) (hdrs : list Z)
         (frame : bytes) : F (bytes * list Z) :=
  match n with
  | O => mret (file, hdrs)
  | S n =>
    k ← rng_below (Z.of_nat (length seeds));
    s ← the (seeds !! Z.to_nat k);
    let len := Z.of_nat (length s) in
    frame ← the (write_at frame 0 s);
    r ← rng;
    '(frame, len) ← (if negb (Z.land r 1 =? 0) then mutate frame len (MAX_FRAME + 64)
                     else mret (frame, len));
    r ← rng;
    extra ← (if Z.land r 3 =? 0 then x ← rng_below 1500; mret (u32 x) else mret 0);
    let wire := u32 (u32 len + extra) in
    x ← rng; let sec := u32 x in
    x ← rng; let frac := u32 x in
    let hdrs := hdrs ++ [Z.of_nat (length file)] in
    data ← the (bytes_at frame 0 (u32 len));
    build_records n seeds be (pcap_put_record file be sec frac data wire) hdrs frame
  end.

(** Corrupt a record length field. *)
Definition corrupt_length (be : bool) (hdrs : list Z) (file : bytes) : F bytes :=
  rec_no ← rng_below (Z.of_nat (length hdrs));
  hdr ← the (hdrs !! Z.to_nat rec_no);
  f ← rng_below 2;
  let at_ := hdr + 8 + 4 * f in
  v ← pick interesting32;
  file ← poke file (at_ + 0) (u8 (if be then Z.shiftr v 24 else v));
  file ← poke file (at_ + 1) (u8 (if be then Z.shiftr v 16 else Z.shiftr v 8));
  file ← poke file (at_ + 2) (u8 (if be then Z.shiftr v 8 else Z.shiftr v 16));
  poke file (at_ + 3) (u8 (if be then v else Z.shiftr v 24)).

(** The damage done to the file: a length field, one bit, a cut. *)
Definition damage (be : bool) (hdrs : list Z) (file : bytes) : F bytes :=
  file ← (if Z.of_nat (length hdrs) >? 0 then
            r ← rng;
            if negb (Z.land r 1 =? 0) then corrupt_length be hdrs file else mret file
          else mret file);
  r ← rng;
  file ← (if Z.land r 3 =? 0 then flip_random_bit file (Z.of_nat (length file)) else mret file);
  r ← rng;
  if Z.land r 3 =? 0 then
    len ← rng_below (Z.of_nat (length file) + 1); mret (take (Z.to_nat len) file)
  else mret file.

(** The loop over the records of both readers: the last status and the readers. *)
Fixpoint read_lockstep (fuel : nat) (file_len : Z) (mr fr : pcap_reader) (mrec frec : pcap_record)
  : F (pcap_status * pcap_reader * pcap_reader) :=
  match fuel with
  | O => fun _ => None
  | S fuel =>
    '(ms, mr, mrec) ← the (pcap_next mr mrec);
    '(fs, fr, frec) ← the (pcap_next fr frec);
    if negb (pstatus_eqb ms fs) then fail else
    if negb (pstatus_eqb ms PCAP_OK) then mret (ms, mr, fr) else
    if negb (rec_caplen mrec =? rec_caplen frec) || negb (rec_wirelen mrec =? rec_wirelen frec) ||
       negb (rec_ts_ns mrec =? rec_ts_ns frec) then fail else
    mdata ← the (rec_bytes mr mrec);
    fdata ← the (rec_bytes fr frec);
    if negb (bool_decide (mdata = fdata)) then fail else
    off ← the (match rec_data mrec with Some (InMem off) => Some off | _ => None end);
    if (rec_caplen mrec >? PCAP_MAX_CAPLEN) || (rec_caplen mrec >? file_len) ||
       (off >? size_wrap (file_len - rec_caplen mrec)) then fail else
    _ ← process_record mrec mdata;
    _ ← count_up (update tt_file_records inc);
    read_lockstep fuel file_len mr fr mrec frec
  end.

(** The same bytes as a real file: the [FILE], rewound. *)
Definition write_tmp (exact : bytes) (len : Z) : F FILE :=
  f ← tmpfile;
  f ← (match f with Some f => mret f | None => exit_1 end);
  data ← the (bytes_at exact 0 len);
  let '(n, f) := fwrite f data in
  if negb (n =? len) then exit_1 else
  let '(rc, f) := fflush f in
  if negb (rc =? 0) then exit_1 else mret (File (o_data f) 0 None false).

(** From [exact = malloc(...)] on. *)
Definition read_both (file : bytes) : F unit :=
  let len := Z.of_nat (length file) in
  exact ← heap_copy file len;
  tmp ← write_tmp exact len;
  _ ← count_up (update tt_files inc);
  '(ms, mr) ← the (pcap_open_mem exact len);
  buf ← attempt;
  os ← get fz_os;
  '(fs, fr, os) ← the (pcap_open_stream (Some tmp) (if (buf : bool) then Some (junk PCAP_MAX_CAPLEN) else None) os);
  _ ← modify (fun s => s <| fz_os := os |>);
  if negb (pstatus_eqb ms fs) then fail else
  '(ms, mr, fr) ← (if pstatus_eqb ms PCAP_OK then
      read_lockstep (S (length file)) len mr fr (Pcap_record 0 0 0 None) (Pcap_record 0 0 0 None)
    else mret (ms, mr, fr));
  if negb (r_records mr =? r_records fr) then fail else
  _ ← count_up (update tt_stream_files inc);
  _ ← (if pstatus_val ms <=? pstatus_val PCAP_ERR_BAD_CAPLEN
       then count_up (update tt_file_outcome (alter inc (Z.to_nat (pstatus_val ms)))) else mret tt);
  _ ← modify (fun s => s <| fz_os ::= fun os => (pcap_close fr (pcap_close mr os).2).2 |>);
  free_block.

Definition fuzz_reader (seeds : list bytes) : F unit :=
  nrec ← rng_below (MAX_RECORDS + 1);
  r ← rng; let be := negb (Z.land r 1 =? 0) in
  r ← rng; let nsec := negb (Z.land r 1 =? 0) in
  '(file, hdrs) ← build_records (Z.to_nat nrec) seeds be (pcap_put_global [] be nsec 65535 1) []
                    (junk (MAX_FRAME + 64));
  file ← damage be hdrs file;
  read_both file.

(** ** Addresses *)

(** The loop over the groups, from [a[2 * g]] on. *)
Fixpoint random_groups (n : nat) : F bytes :=
  match n with
  | O => mret []
  | S n =>
    c ← rng_below 4;
    v ← (if (c =? 0) || (c =? 1) then mret 0
         else if c =? 2 then rng_below 16
         else x ← rng; mret (Z.land x 0xFFFF));
    a ← random_groups n;
    mret (u8 (Z.shiftr v 8) :: u8 v :: a)
  end.

(** [compat]: 96 zero bits, then a non-zero group. *)
Definition v4_compatible (a : bytes) : bool :=
  (negb (default 0 (a !! 12%nat) =? 0) || negb (default 0 (a !! 13%nat) =? 0)) &&
  forallb (fun b => b =? 0) (take 12 a).

Definition fuzz_addr : F unit :=
  a ← random_groups 8;
  m ← rng_below 16;
  let a := if m =? 0 then replicate 10 0 ++ [0xff; 0xff] ++ drop 12 a else a in
  mine ← the (addr_format 6 a (junk ADDR_STR_LEN) ADDR_STR_LEN (junk ADDR_STR_LEN));
  mine ← the (c_str mine);
  match inet_ntop a with
  | None => fail_addr a
  | Some ref =>
    if negb (v4_compatible a) && negb (bool_decide (mine = ref)) then fail_addr a
    else count_up (update tt_addrs inc)
  end.
End Fuzzer.

(** ** The seed frames *)
Definition TEST_V4_A : bytes := [10; 0; 0; 1].
Definition TEST_V4_B : bytes := [192; 168; 1; 20].
Definition TEST_V6_A : bytes := [0x20; 0x01; 0x0d; 0xb8; 0; 0; 0; 0; 0; 0; 0; 0; 0; 0; 0; 0x01].
Definition TEST_V6_B : bytes := [0x20; 0x01; 0x0d; 0xb8; 0; 0; 0; 0; 0; 0; 0; 0; 0; 0; 0; 0x02].
Definition TCP_FIN := 0x01.
Definition TCP_SYN := 0x02.
Definition TCP_PSH := 0x08.
Definition TCP_ACK := 0x10.

(** The seeds without GTP-U. *)
Definition plain_seeds : list bytes :=
  [ frame_v4_tcp [] TEST_V4_A TEST_V4_B 40000 443 TCP_SYN 0;
    (let b := put_eth [] ETHERTYPE_IPV4 in
     let b := put_ipv4 b IPPROTO_NUM_TCP TEST_V4_A TEST_V4_B 40 3 0x4000 in
     let b := put_tcp b 443 40000 (Z.lor TCP_PSH TCP_ACK) in
     bb_fill b 0x42 20);
    frame_v4_udp [] TEST_V4_A TEST_V4_B 5353 53 40;
    (let b := put_eth [] ETHERTYPE_IPV4 in
     let b := put_ipv4 b IPPROTO_NUM_ICMP TEST_V4_A TEST_V4_B (8 + 16) 0 0 in
     let b := put_icmp b 8 0 in
     bb_fill b 0x61 16);
    frame_v6_tcp [] TEST_V6_A TEST_V6_B 443 50000 TCP_ACK 32;
    (let b := put_eth [] ETHERTYPE_IPV6 in
     let b := put_ipv6 b 0 TEST_V6_A TEST_V6_B (8 + 8 + 8 + 8) in
     let b := bb_fill (bb_u8 (bb_u8 (bb_u8 (bb_u8 b 44) 0) 1) 4) 0 4 in
     let b := bb_be32 (bb_be16 (bb_u8 (bb_u8 b IPPROTO_NUM_UDP) 0) 1) 7 in
     let b := put_udp b 1000 2000 100 in
     bb_fill b 0 8);
    (let b := put_eth [] ETHERTYPE_IPV6 in
     let b := put_ipv6 b 60 TEST_V6_A TEST_V6_B (16 + 8 + 20) in
     let b := bb_fill (bb_u8 (bb_u8 b 43) 1) 0 14 in
     let b := bb_fill (bb_u8 (bb_u8 b IPPROTO_NUM_TCP) 0) 0 6 in
     put_tcp b 80 60000 (Z.lor TCP_FIN TCP_ACK));
    (let b := put_eth [] ETHERTYPE_IPV6 in
     let b := put_ipv6 b IPPROTO_NUM_ICMPV6 TEST_V6_A TEST_V6_B 8 in
     put_icmp b 128 0);
    (let b := put_eth [] ETHERTYPE_QINQ in
     let b := put_vlan b 300 ETHERTYPE_VLAN in
     let b := put_vlan b 30 ETHERTYPE_IPV4 in
     let b := put_ipv4 b IPPROTO_NUM_UDP TEST_V4_A TEST_V4_B (8 + 12) 0 0 in
     let b := put_udp b 4789 4789 12 in
     bb_fill b 0 12);
    (let b := put_eth [] ETHERTYPE_VLAN in
     let b := put_vlan b 7 ETHERTYPE_IPV6 in
     let b := put_ipv6 b IPPROTO_NUM_UDP TEST_V6_A TEST_V6_B (8 + 4) in
     let b := put_udp b 546 547 4 in
     bb_fill b 0 4);
    (let b := put_eth [] ETHERTYPE_IPV4 in
     let b := put_ipv4 b IPPROTO_NUM_UDP TEST_V4_A TEST_V4_B 24 0 0x2000 in
     let b := put_udp b 4500 4500 200 in
     bb_fill b 0x33 16);
    (let b := put_eth [] ETHERTYPE_IPV4 in
     let b := put_ipv4 b IPPROTO_NUM_UDP TEST_V4_A TEST_V4_B 24 0 185 in
     bb_fill b 0x33 24);
    (let b := put_eth [] ETHERTYPE_ARP in
     bb_fill b 0 28) ].

(** The GTP-U seeds, each with the offset of its GTP-U header. *)
Definition gtpu_seeds : list (bytes * Z) :=
  [ (let b := put_eth [] ETHERTYPE_IPV4 in
     let b := put_ipv4 b IPPROTO_NUM_UDP TEST_V4_A TEST_V4_B (8 + 8 + 40 + 12) 0 0 in
     let b := put_udp b GTPU_PORT GTPU_PORT (8 + 40 + 12) in
     let b := put_gtpu b 0x30 GTPU_MSG_GPDU (40 + 12) 0x12345678 in
     let b := put_ipv4 b IPPROTO_NUM_TCP TEST_V4_B TEST_V4_A (20 + 12) 0 0x4000 in
     let b := put_tcp b 40000 443 (Z.lor TCP_PSH TCP_ACK) in
     bb_fill b 0x42 12, 42);
    (let b := put_eth [] ETHERTYPE_IPV4 in
     let b := put_ipv4 b IPPROTO_NUM_UDP TEST_V4_A TEST_V4_B (8 + 8 + 64) 0 0 in
     let b := put_udp b GTPU_PORT GTPU_PORT (8 + 64) in
     let b := put_gtpu b 0x36 GTPU_MSG_GPDU 64 0xBEEF in
     let b := put_gtpu_opt b 1 0 0x85 in
     let b := bb_u8 (bb_u8 (bb_u8 (bb_u8 b 1) 0x10) 9) 0 in
     let b := put_ipv6 b IPPROTO_NUM_UDP TEST_V6_A TEST_V6_B (8 + 8) in
     let b := put_udp b 50000 53 8 in
     bb_fill b 0 8, 42);
    (let b := put_eth [] ETHERTYPE_VLAN in
     let b := put_vlan b 300 ETHERTYPE_IPV6 in
     let b := put_ipv6 b IPPROTO_NUM_UDP TEST_V6_A TEST_V6_B (8 + 8 + 44) in
     let b := put_udp b GTPU_PORT GTPU_PORT (8 + 44) in
     let b := put_gtpu b 0x34 GTPU_MSG_GPDU 44 0xCAFE0001 in
     let b := put_gtpu_opt b 0 0 0x81 in
     let b := put_gtpu_ext b 2 0x85 in
     let b := put_gtpu_ext b 1 0 in
     let b := put_ipv4 b IPPROTO_NUM_ICMP TEST_V4_B TEST_V4_A 8 0 0 in
     put_icmp b 0 0, 66);
    (let b := put_eth [] ETHERTYPE_IPV4 in
     let b := put_ipv4 b IPPROTO_NUM_UDP TEST_V4_A TEST_V4_B (8 + 8 + 4) 0 0 in
     let b := put_udp b 50000 GTPU_PORT (8 + 4) in
     let b := put_gtpu b 0x32 GTPU_MSG_ECHO_REQUEST 4 0 in
     put_gtpu_opt b 0x0102 0 0, 42);
    (let b := put_eth [] ETHERTYPE_IPV4 in
     let b := put_ipv4 b IPPROTO_NUM_UDP TEST_V4_A TEST_V4_B (8 + 8 + 76) 0 0 in
     let b := put_udp b GTPU_PORT GTPU_PORT (8 + 76) in
     let b := put_gtpu b 0x30 GTPU_MSG_GPDU 76 0x11 in
     let b := put_ipv4 b IPPROTO_NUM_UDP TEST_V4_B TEST_V4_A (8 + 48) 0 0 in
     let b := put_udp b GTPU_PORT GTPU_PORT 48 in
     let b := put_gtpu b 0x30 GTPU_MSG_GPDU 40 0x22 in
     let b := put_ipv4 b IPPROTO_NUM_TCP TEST_V4_A TEST_V4_B 20 0 0 in
     put_tcp b 1 2 TCP_SYN, 42) ].

(** The frames, and [gtp_at]: 0 where there is no GTP-U header. *)
Definition build_seeds : list bytes * list Z :=
  (plain_seeds ++ map fst gtpu_seeds, replicate (length plain_seeds) 0 ++ map snd gtpu_seeds).

(** ** The final checks *)
Section Finish.
Context `{QSort} (junk : Z -> bytes) (inet_ntop : bytes -> option bytes).

Definition say (text : bytes) : F unit := modify (fun s => s <| fz_out ::= fun o => fprintf o text |>).

Definition sum_packets (fs : list flow) : Z := foldl (fun n f => u64 (n + fl_packets f)) 0 fs.

Definition check_tunnel_totals : F unit :=
  an ← get fz_an;
  tot ← get fz_tot;
  let g := st_gtpu (an_stats an) in
  fs ← the (flow_iter (an_tunnels an));
  let packets := sum_packets fs in
  if negb (packets =? tt_tunnel_gpdus tot) then fail else
  if (gs_user_truncated g >? gs_truncated g) || (gs_user_malformed g >? gs_malformed g) then fail else
  say (str "tunnels: " ++ dec packets ++ str " G-PDUs with complete GTP-U headers, all in the tunnel table" ++ newline).

(** The number of entries printed and the stream. *)
Definition print_top (f : ostream) (t : flow_table) (tunnels : bool) : F (Z * ostream) :=
  let n := if ft_count t <? 100 then ft_count t else 100 in
  _ ← attempt_or_exit;
  _ ← take_block;
  top ← the (flow_table_top_n t (Z.to_nat n));
  f ← the (if tunnels then report_top_tunnels junk f top (ft_count t)
           else report_top_flows junk f top (ft_count t));
  _ ← free_block;
  mret (Z.of_nat (length top), f).

(** [while ((c = getc(f)) != EOF) lines += c == '\n';] *)
Definition count_lines (data : bytes) : Z :=
  foldl (fun n c => if c =? 10 then inc n else n) 0 data.

Definition check_csv (t : flow_table)
           (writer : ostream -> flow_table -> bool -> resources -> option (Z * ostream * resources)) : F unit :=
  f ← tmpfile;
  match f with
  | None => fail
  | Some f =>
    alloc ← attempt;
    os ← get fz_os;
    '(rc, f, os) ← the (writer f t alloc os);
    _ ← modify (fun s => s <| fz_os := os |>);
    if negb (rc =? 0) then fail else
    let f := (fflush f).2 in (* [rewind(f)] *)
    _ ← fclose;
    if negb (count_lines (o_data f) =? u64 (ft_count t + 1)) then fail else mret tt
  end.

Definition fuzz_reports : F unit :=
  an ← get fz_an;
  f ← tmpfile;
  match f with
  | None => fail
  | Some f =>
    let info := file_info_zero <| fi_version_major := 2 |> <| fi_version_minor := 4 |> in
    f ← the (report_summary junk f (str "fuzz") info (an_stats an) (ft_count (an_flows an)));
    '(n_flows, f) ← print_top f (an_flows an) false;
    alloc ← attempt;
    os ← get fz_os;
    '(rc, f, os) ← the (report_gtpu f (an_stats an) (an_tunnels an) alloc os);
    _ ← modify (fun s => s <| fz_os := os |>);
    if negb (rc =? 0) then fail else
    '(n_tunnels, f) ← print_top f (an_tunnels an) true;
    if ferror f then fail else
    _ ← fclose;
    _ ← check_csv (an_flows an) (report_csv junk);
    _ ← check_csv (an_tunnels an) (report_tunnels_csv junk);
    say (str "reports: summary, GTP-U section, top " ++ dec n_flows ++ str " flow and top " ++ dec n_tunnels ++
         str " tunnel tables, " ++ dec (ft_count (an_flows an)) ++ str "-row and " ++
         dec (ft_count (an_tunnels an)) ++ str "-row CSVs written" ++ newline)
  end.

(** ** [main] *)

(** A seed, mutated in [work]: the buffer, the length and the wire length. *)
Definition mutated_seed (seeds : list bytes) (gtp_at : list Z) (work : bytes) : F (bytes * Z * Z) :=
  which ← rng_below (Z.of_nat (length seeds));
  s ← the (seeds !! Z.to_nat which);
  gtp ← the (gtp_at !! Z.to_nat which);
  let len := Z.of_nat (length s) in
  work ← the (write_at work 0 s);
  work ← (if negb (gtp =? 0) then
            r ← rng;
            if negb (Z.land r 1 =? 0) then mutate_gtpu work len gtp else mret work
          else mret work);
  '(work, len) ← mutate work len (MAX_FRAME + 64);
  r ← rng;
  wirelen ← (if negb (Z.land r 1 =? 0) then mret len else x ← rng_below 3000; mret (len + x));
  mret (work, len, wirelen).

(** The body of the loop, for iteration [i]: [work] persists from one to the next. *)
Definition fuzz_iteration (seeds : list bytes) (gtp_at : list Z) (i : Z) (work : bytes) : F bytes :=
  '(work, len, wirelen) ← mutated_seed seeds gtp_at work;
  '(ds, pi) ← decode_checked junk work len wirelen;
  _ ← count_up (update tt_frames inc);
  _ ← count_up (update tt_by_status (alter inc (Z.to_nat (status_val ds))));
  _ ← (if pi_is_gtpu pi then
         _ ← count_up (update tt_gtpu_frames inc);
         _ ← count_up (update tt_gtpu_by_status (alter inc (Z.to_nat (status_val (pi_gtp_status pi)))));
         count_up (update tt_gtpu_inner (fun n => u64 (n + Z.b2z (pi_has_inner pi))))
       else mret tt);
  _ ← account pi (u32 len) (u32 wirelen) i;
  _ ← (if Z.land i 3 =? 0 then fuzz_reader junk seeds else mret tt);
  _ ← fuzz_addr junk inet_ntop;
  mret work.

(** [n] iterations, from number [i] on. *)
Fixpoint fuzz_loop (n : nat) (seeds : list bytes) (gtp_at : list Z) (i : Z) (work : bytes) : F unit :=
  match n with
  | O => mret tt
  | S n =>
    work ← fuzz_iteration seeds gtp_at i work;
    fuzz_loop n seeds gtp_at (i + 1) work
  end.

(** The seed of the generator: it must not start at 0. *)
Definition rng_seed (seed : Z) : Z :=
  let x := u64 (seed * 0x9E3779B97F4A7C15 + 1) in if x =? 0 then 1 else x.

Definition totals_zero : totals :=
  Totals 0 (replicate 28 0) 0 0 (replicate 28 0) 0 0 0 (replicate 13 0) 0 0.

(** A line per non-zero counter of a table. *)
Fixpoint say_counts (counts : list Z) (names : list string) : F unit :=
  match counts, names with
  | n :: counts, name :: names =>
    _ ← (if n >? 0 then say (str "  " ++ left_align 38 (str name) ++ space ++ dec n ++ newline) else mret tt);
    say_counts counts names
  | _, _ => mret tt
  end.

Definition status_names : list string := map decode_status_str (DEC_OK :: problem_statuses).
Definition outcome_names : list string :=
  map pcap_status_str [PCAP_OK; PCAP_EOF; PCAP_ERR_OPEN; PCAP_ERR_IO; PCAP_ERR_NOMEM; PCAP_ERR_SHORT_HEADER;
    PCAP_ERR_BAD_MAGIC; PCAP_ERR_PCAPNG; PCAP_ERR_BAD_VERSION; PCAP_ERR_BAD_LINKTYPE;
    PCAP_ERR_TRUNC_RECORD_HDR; PCAP_ERR_TRUNC_RECORD; PCAP_ERR_BAD_CAPLEN].

(** The report of [main], up to the tunnel totals. *)
Definition say_totals (iterations seed : Z) : F unit :=
  tot ← get fz_tot;
  an ← get fz_an;
  _ ← say (str "fuzz_decode: " ++ dec iterations ++ str " iterations, seed " ++ dec seed ++ newline);
  _ ← say (str "decoder: " ++ dec (tt_frames tot) ++ str " mutated frames" ++ newline);
  _ ← say_counts (tt_by_status tot) status_names;
  _ ← say (str "GTP-U: " ++ dec (tt_gtpu_frames tot) ++ str " of those frames decoded as GTP-U, " ++
           dec (tt_gtpu_inner tot) ++ str " with a valid inner packet" ++ newline);
  _ ← say_counts (tt_gtpu_by_status tot) status_names;
  _ ← say (str "reader: " ++ dec (tt_files tot) ++ str " mutated pcap files (each read from memory and through stdio), " ++
           dec (tt_file_records tot) ++ str " records decoded" ++ newline);
  _ ← say_counts (tt_file_outcome tot) outcome_names;
  _ ← say (str "addresses: " ++ dec (tt_addrs tot) ++ str " IPv6 addresses checked against inet_ntop" ++ newline);
  say (str "flow table: " ++ dec (ft_count (an_flows an)) ++ str " flows, " ++
       dec (st_frag_matched (an_stats an)) ++ str " later fragments matched; tunnel table: " ++
       dec (ft_count (an_tunnels an)) ++ str " tunnels" ++ newline).

(** The number of iterations and the seed, given or not. *)
Definition fuzz_args (argv : list bytes) : Z * Z :=
  (from_option strtoull 200000 (argv !! 1%nat), from_option strtoull 1 (argv !! 2%nat)).

Definition main (argv : list bytes) : F Z :=
  let '(iterations, seed) := fuzz_args argv in
  _ ← modify (fun s => s <| fz_rng := rng_seed seed |>);
  let '(seeds, gtp_at) := build_seeds in
  _ ← modify (fun s => s <| fz_tot := totals_zero |>);
  al1 ← attempt; al2 ← attempt; al3 ← attempt;
  an ← get fz_an;
  '(rc, an) ← the (analysis_init an (Init_allocs al1 al2 al3));
  _ ← modify (fun s => s <| fz_an := an |>);
  if negb (rc =? 0) then exit_1 else
  _ ← fuzz_loop (Z.to_nat iterations) seeds gtp_at 0 (junk (MAX_FRAME + 64));
  _ ← say_totals iterations seed;
  _ ← check_tunnel_totals;
  _ ← fuzz_reports;
  _ ← say (str "result: no crashes, no sanitizer reports, all invariants held" ++ newline);
  _ ← modify (fun s => s <| fz_an ::= analysis_free |>);
  mret 0.
End Finish.
