(* ===== verification/FuzzProps.v ===== *)
(** The parts of the fuzzer (src/fuzz/fuzz_decode.c): whatever it draws, the checked
    decode, the accounting, the two readers in lockstep and the damaged captures
    reach no call of [fail] and leave no buffer.  [FuzzRun] puts them together. *)
From Stdlib Require Import String.
From S2P Require Export MutateProps DecodeLocal AnalysisFits Fuzz.
From stdpp Require Export list sets.
#[global] Open Scope Z_scope.

(** Nothing but the generator and the environment moved. *)
Record kept (s s' : fuzz) : Prop := {
  kp_an : fz_an s' = fz_an s;
  kp_tot : fz_tot s' = fz_tot s;
  kp_os : fz_os s' = fz_os s;
  kp_rng : rng_state (fz_rng s')
}.

Lemma kept_refl s : rng_state (fz_rng s) -> kept s s.
Proof. by split. Qed.
Lemma kept_trans s1 s2 s3 : kept s1 s2 -> kept s2 s3 -> kept s1 s3.
Proof. intros [] []. split; congruence. Qed.
Lemma drawn_kept s s' : drawn s s' -> kept s s'.
Proof. intros (x & Hx & ->). by destruct s. Qed.
Lemma attempted_kept s : rng_state (fz_rng s) -> kept s (s <| fz_attempts ::= tail |>).
Proof. by destruct s. Qed.

(** A block taken and freed. *)
Lemma taken_rng s : rng_state (fz_rng s) -> rng_state (fz_rng (s <| fz_os ::= malloc |>)).
Proof. by destruct s. Qed.
Lemma taken_freed s s' : kept (s <| fz_os ::= malloc |>) s' -> kept s (s' <| fz_os ::= free |>).
Proof.
  intros [A B C D]. destruct s, s'. cbn in *. subst. split; try done. cbn. apply free_malloc.
Qed.

Lemma attempted_rng s : rng_state (fz_rng s) -> rng_state (fz_rng (s <| fz_attempts ::= tail |>)).
Proof. by destruct s. Qed.

(** A memory object with its indeterminate bytes. *)
Definition junk_ok (junk : Z -> bytes) : Prop :=
  forall n, 0 <= n -> length (junk n) = Z.to_nat n /\ Forall is_byte (junk n).

(** Compose the [kept] and [drawn] facts of the context. *)
Ltac keeps :=
  repeat match goal with
  | H : kept ?a ?b |- rng_state (fz_rng ?b) => exact (kp_rng a b H)
  | H : drawn ?a ?b |- rng_state (fz_rng ?b) => exact (drawn_rng a b H)
  | |- rng_state (fz_rng (_ <| fz_attempts ::= tail |>)) => apply attempted_rng
  | |- rng_state (fz_rng (_ <| fz_os ::= malloc |>)) => apply taken_rng
  | |- kept ?a ?a => apply kept_refl
  | H1 : kept ?a ?b |- kept ?a ?c => apply (kept_trans a b c H1)
  | H1 : drawn ?a ?b |- kept ?a ?c => apply (kept_trans a b c (drawn_kept a b H1))
  | |- kept ?a (?a <| fz_attempts ::= tail |>) => apply attempted_kept
  | |- kept ?a ?c => match c with context [a <| fz_attempts ::= tail |>] =>
      apply (kept_trans a (a <| fz_attempts ::= tail |>) c); [apply attempted_kept|] end
  | |- _ => assumption
  end.

Section Checked.
Context (junk : Z -> bytes) (Hjunk : junk_ok junk) (L : luck).
Abbreviation runs := (runs good_weather L).

Lemma take_block_ok s (Q : unit -> fuzz -> Prop) : Q tt (s <| fz_os ::= malloc |>) -> runs take_block s Q.
Proof. intros H. apply runs_modify; [by intros []|done]. Qed.
Lemma free_block_ok s (Q : unit -> fuzz -> Prop) : Q tt (s <| fz_os ::= free |>) -> runs free_block s Q.
Proof. intros H. apply runs_modify; [by intros []|done]. Qed.

(** The [len] bytes at [data]. *)
Definition holds_bytes (data : bytes) (len : Z) (d : bytes) : Prop :=
  bytes_at data 0 len = Some d.

Lemma holds_bytes_len data len d : holds_bytes data len d -> Z.of_nat (length d) = len /\ 0 <= len.
Proof. intros H. destruct (bytes_at_inv _ _ _ _ H) as (_ & H0 & _ & Hl & _). lia. Qed.

Lemma holds_file file : holds_bytes file (caplen_of file) file.
Proof.
  unfold holds_bytes, bytes_at. rewrite decide_True by lia. change (Z.to_nat 0) with 0%nat.
  by rewrite Nat2Z.id, drop_0, firstn_all.
Qed.

Lemma heap_copy_ok data len d s :
  holds_bytes data len d -> rng_state (fz_rng s) ->
  runs (heap_copy junk data len) s (fun exact s' => kept (s <| fz_os ::= malloc |>) s' /\
    exists extra, exact = d ++ extra /\ (d <> [] -> extra = [])).
Proof.
  intros Hd Hs. unfold heap_copy. apply runs_bind, runs_attempt_or_exit. apply runs_bind, take_block_ok.
  apply runs_bind. eapply runs_the; [exact Hd|]. apply runs_ret. split; [by destruct s|].
  eexists. split; [done|]. intros Hne. destruct (holds_bytes_len _ _ _ Hd) as [El H0].
  destruct (Z.eqb_spec len 0) as [E0|E0]; [destruct d; [done|cbn in *; lia]|].
  apply drop_ge. rewrite (proj1 (Hjunk len H0)). lia.
Qed.

Lemma decode_exact_ok data len wirelen d s :
  holds_bytes data len d -> frame_ok d wirelen -> rng_state (fz_rng s) ->
  runs (decode_exact junk data len wirelen) s
    (fun r s' => kept s s' /\ decode_frame d (caplen_of d) wirelen = Some r).
Proof.
  intros Hd Hf Hs. unfold decode_exact. eapply runs_bind_pre; [by eapply heap_copy_ok|].
  intros exact s1 [K1 (extra & -> & _)].
  destruct (decode_frame_packet_ok d wirelen Hf) as (st & pi & E & _).
  destruct (holds_bytes_len _ _ _ Hd) as [El _].
  apply runs_bind. eapply runs_the; [by apply decode_frame_past; rewrite <- El|]. apply runs_bind, free_block_ok, runs_ret.
  split; [by apply taken_freed|done].
Qed.

Lemma same_info_refl pi : same_info pi pi = true.
Proof.
  unfold same_info, status_eqb. rewrite !Bool.eqb_reflx, !Z.eqb_refl.
  repeat rewrite (bool_decide_eq_true_2 _ eq_refl). done.
Qed.

Lemma check_no_read_ok data len wirelen d st pi s :
  holds_bytes data len d -> Forall is_byte d -> decode_frame d (caplen_of d) wirelen = Some (st, pi) ->
  rng_state (fz_rng s) ->
  runs (check_no_read_past_cap junk data len wirelen pi) s (fun _ s' => kept s s').
Proof.
  intros Hd Hb E Hs. destruct (holds_bytes_len _ _ _ Hd) as [El H0]. unfold check_no_read_past_cap.
  apply runs_bind, runs_attempt_or_exit. apply runs_bind, take_block_ok. apply runs_bind. eapply runs_the; [exact Hd|].
  assert (K1 : kept (s <| fz_os ::= malloc |>) (s <| fz_attempts ::= tail |> <| fz_os ::= malloc |>)) by (by destruct s).
  revert K1. generalize (s <| fz_attempts ::= tail |> <| fz_os ::= malloc |>). intros s1 K1.
  destruct (Hjunk (len + PAST_CAP_BYTES)) as [Hjl Hjb]; [unfold PAST_CAP_BYTES; lia|].
  eapply runs_bind_pre.
  { apply (fill_random_ok good_weather L (len + PAST_CAP_BYTES)); [|done|unfold PAST_CAP_BYTES; lia|keeps].
    unfold overwrite. split.
    - rewrite length_app, length_drop. unfold PAST_CAP_BYTES in *. lia.
    - apply Forall_app. split; [done|by apply Forall_drop]. }
  intros padded s2 [[_ D2] Ht].
  assert (Hp : padded = d ++ drop (Z.to_nat len) padded).
  { rewrite <- (take_drop (Z.to_nat len) padded) at 1. f_equal. rewrite Ht. unfold overwrite.
    rewrite <- El, Nat2Z.id. apply take_app_length. }
  apply runs_bind. eapply runs_the; [rewrite Hp; apply decode_frame_past; rewrite <- El; exact E|].
  cbv beta iota. apply runs_bind, free_block_ok. rewrite same_info_refl. cbn [negb]. apply runs_ret, taken_freed. keeps.
Qed.

Lemma decode_checked_ok data len wirelen d s :
  holds_bytes data len d -> frame_ok d wirelen -> len <= wirelen -> rng_state (fz_rng s) ->
  runs (decode_checked junk data len wirelen) s
    (fun r s' => kept s s' /\ decode_frame d (caplen_of d) wirelen = Some r).
Proof.
  intros Hd Hf Hle Hs. unfold decode_checked. eapply runs_bind_pre; [by eapply decode_exact_ok|].
  intros [ds pi] s1 [K1 E].
  destruct (decode_frame_packet_ok d wirelen Hf) as (st' & pi' & E' & Hp).
  rewrite E in E'. injection E' as <- <-.
  rewrite (check_invariants_ok _ _ _ _ (wirelen =? len) Hp).
  2:{ unfold captured_in_full. destruct (holds_bytes_len _ _ _ Hd). lia. }
  cbn [negb]. eapply runs_bind_pre; [eapply check_no_read_ok; [exact Hd|apply Hf|exact E|keeps]|].
  intros ? s2 K2. apply runs_ret. split; [keeps|done].
Qed.
End Checked.

(** ** Accounting *)

(** What the fuzzer has accounted after at most [n] packets. *)
Record fuzz_inv (os : resources) (n : Z) (s : fuzz) : Prop := {
  fv_rng : rng_state (fz_rng s);
  fv_os : fz_os s = os;
  fv_acc : exists ps, accounts_for ps (fz_an s) /\ Forall cap_fits ps /\ Z.of_nat (length ps) <= n /\
             tt_tunnel_gpdus (fz_tot s) = count tunnelled ps;
  fv_flows : ft_count (an_flows (fz_an s)) <= n;
  fv_tunnels : ft_count (an_tunnels (fz_an s)) <= n
}.

Lemma inv_kept os n s s' : kept s s' -> fuzz_inv os n s -> fuzz_inv os n s'.
Proof. intros [E1 E2 E3 E4] []. split; rewrite ?E1, ?E2, ?E3; done. Qed.
Lemma inv_drawn os n s s' : drawn s s' -> fuzz_inv os n s -> fuzz_inv os n s'.
Proof. intros H. by apply inv_kept, drawn_kept. Qed.
Lemma inv_more os n m s : n <= m -> fuzz_inv os n s -> fuzz_inv os m s.
Proof.
  intros Hn [A B (ps & C1 & C2 & C3 & C4) D E]. split; try done; try lia.
  exists ps. split; [done|]. split; [done|]. split; [lia|done].
Qed.

Section Account.
Context (os : resources) (L : luck).
Abbreviation runs := (runs good_weather L).

(** A counter other than the one of the G-PDUs. *)
Lemma count_up_ok n f s :
  (forall t, tt_tunnel_gpdus (f t) = tt_tunnel_gpdus t) -> fuzz_inv os n s ->
  runs (count_up f) s (fun _ s' => fuzz_inv os n s').
Proof.
  intros Hf [A B (ps & C1 & C2 & C3 & C4) D E]. apply runs_modify; [by intros []|].
  split; try done. exists ps. split; [done|]. split; [done|]. split; [done|].
  change (tt_tunnel_gpdus (f (fz_tot s)) = count tunnelled ps). by rewrite Hf.
Qed.

Lemma account_ok n p s :
  fuzz_inv os n s -> n + 1 <= 2 ^ 56 -> cap_fits p ->
  runs (account (decode_of p) (caplen_of (cp_data p)) (cp_wirelen p) (cp_ts_ns p)) s
    (fun _ s' => fuzz_inv os (n + 1) s').
Proof.
  intros [A B (ps & C1 & C2 & C3 & C4) D E] Hn Hp. unfold account.
  eapply runs_bind_pre with (R := fun _ s' => kept (s <| fz_tot := fz_tot s' |>) s' /\
    tt_tunnel_gpdus (fz_tot s') = count tunnelled (ps ++ [p])).
  { rewrite count_snoc, <- C4. fold (tunnelled p).
    assert (Hb : 0 <= count tunnelled ps <= Z.of_nat (length ps)) by apply count_bound.
    apply runs_if; intros Et; change (_ && _ && _) with (tunnelled p) in Et; rewrite Et.
    - apply runs_modify; [by intros []|]. split; [by destruct s|].
      change (inc (tt_tunnel_gpdus (fz_tot s)) = tt_tunnel_gpdus (fz_tot s) + 1).
      rewrite C4. apply wrap_small. unfold is_u. lia.
    - apply runs_ret. split; [by destruct s|]. cbn. lia. }
  intros ? s1 [K1 C4']. apply runs_bind, runs_attempt. intros al1 Hal1.
  apply runs_bind, runs_attempt. intros al2 Hal2. apply runs_bind, runs_get.
  set (s2 := _ <| fz_attempts ::= tail |> <| fz_attempts ::= tail |>).
  assert (E2 : fz_an s2 = fz_an s /\ fz_tot s2 = fz_tot s1 /\ fz_os s2 = os /\ rng_state (fz_rng s2)).
  { destruct K1 as [K1 _ K3 K4]. destruct s, s1. cbn in *. subst. done. }
  clearbody s2. destruct E2 as (-> & Et & Eos & Hr).
  destruct (account_step ps (fz_an s) p al1 al2 C1) as (rc & an & pi & Eacc & Hcase); [apply Hp|lia|].
  apply runs_bind. eapply runs_the; [exact Eacc|]. cbv beta iota.
  apply runs_bind, runs_modify; [by intros []|].
  destruct Hcase as [(-> & Hacc & Hf & Ht)|(-> & _ & Hbad)]; cbn [Z.eqb negb].
  - apply runs_ret. split; try done; try (cbn; lia). exists (ps ++ [p]).
    split; [done|]. split; [apply Forall_app; by split; [|apply Forall_singleton]|].
    split; [rewrite length_app; cbn; lia|]. cbn. by rewrite Et.
  - apply runs_fail. destruct Hbad as [H|[H|[H|H]]]; [by apply Hal1|by apply Hal2|lia|lia].
Qed.
End Account.

(** ** The readers in lockstep *)
Section Readers.
Context (junk : Z -> bytes) (Hjunk : junk_ok junk) (os : resources) (L : luck).
Abbreviation runs := (runs good_weather L).

Lemma process_record_ok n p rec s :
  fuzz_inv os n s -> n + 1 <= 2 ^ 56 -> cap_fits p -> caplen_of (cp_data p) <= cp_wirelen p ->
  rec_caplen rec = caplen_of (cp_data p) -> rec_wirelen rec = cp_wirelen p -> rec_ts_ns rec = cp_ts_ns p ->
  runs (process_record junk rec (cp_data p)) s (fun _ s' => fuzz_inv os (n + 1) s').
Proof.
  intros Hs Hn Hp Hle Ec Ew Et. unfold process_record. rewrite Ec, Ew, Et.
  destruct (Z.ltb_spec (cp_wirelen p) (caplen_of (cp_data p))); [lia|].
  eapply runs_bind_pre.
  { apply (decode_checked_ok junk Hjunk L _ _ _ (cp_data p)); [apply holds_file|apply Hp|done|apply Hs]. }
  intros [ds pi] s1 [K1 E].
  destruct (decode_of_spec p (proj1 Hp)) as (st & E' & _). rewrite E in E'. injection E' as -> ->.
  apply account_ok; [by eapply inv_kept|done|done].
Qed.

(** The two readers at the same place of the same bytes. *)
Record twins (exact : bytes) (mr fr : pcap_reader) : Prop := {
  tw_mem : reader_ok mr;
  tw_file : reader_ok fr;
  tw_mem_error : r_error mr = PCAP_OK;
  tw_file_error : r_error fr = PCAP_OK;
  tw_rest : remaining fr = remaining mr;
  tw_bytes : Forall is_byte (remaining mr);
  tw_info : r_info fr = r_info mr;
  tw_records : r_records fr = r_records mr;
  tw_mem_errno : input_errno mr = None;
  tw_file_errno : input_errno fr = None;
  tw_exact : r_mem mr = exact;
  tw_owns : owns mr = (false, false)
}.

Lemma owns_no_buf r : owns r = (false, false) -> r_buf r = None.
Proof. unfold owns. by destruct (r_buf r), (r_fp r). Qed.

(** What both readers return of the packet [p]. *)
Record both_read (exact : bytes) (p : captured) (mr fr : pcap_reader) (mrec frec : pcap_record) : Prop := {
  br_fields : (rec_caplen mrec = caplen_of (cp_data p) /\ rec_caplen frec = caplen_of (cp_data p)) /\
    (rec_wirelen mrec = cp_wirelen p /\ rec_wirelen frec = cp_wirelen p) /\
    (rec_ts_ns mrec = cp_ts_ns p /\ rec_ts_ns frec = cp_ts_ns p);
  br_mem : rec_bytes mr mrec = Some (cp_data p);
  br_file : rec_bytes fr frec = Some (cp_data p);
  br_inside : exists off, rec_data mrec = Some (InMem off) /\
    (caplen_of (cp_data p) >? PCAP_MAX_CAPLEN) || (caplen_of (cp_data p) >? caplen_of exact) ||
    (off >? size_wrap (caplen_of exact - caplen_of (cp_data p))) = false;
  br_packet : cap_fits p /\ caplen_of (cp_data p) <= cp_wirelen p
}.

(** One call of [pcap_next] on each side, at the same place. *)
Lemma lockstep_step exact mr fr mrec frec :
  twins exact mr fr -> Z.of_nat (length exact) <= SIZE_MAX ->
  match split_record (r_info mr) (remaining mr) with
  | inl _ => exists ms mr' mrec' fr' frec', pcap_next mr mrec = Some (ms, mr', mrec') /\
      pcap_next fr frec = Some (ms, fr', frec') /\ ms <> PCAP_OK /\
      r_records mr' = r_records fr' /\ owns mr' = (false, false) /\ owns fr' = owns fr
  | inr (p, rest) => exists mr' mrec' fr' frec', pcap_next mr mrec = Some (PCAP_OK, mr', mrec') /\
      pcap_next fr frec = Some (PCAP_OK, fr', frec') /\ both_read exact p mr' fr' mrec' frec' /\
      twins exact mr' fr' /\ (length (remaining mr') < length (remaining mr))%nat /\ owns fr' = owns fr
  end.
Proof.
  intros Ht Hsz. pose proof (pcap_next_spec mr mrec (tw_mem _ _ _ Ht) (tw_mem_error _ _ _ Ht) (tw_bytes _ _ _ Ht)) as Hm.
  pose proof (pcap_next_spec fr frec (tw_file _ _ _ Ht) (tw_file_error _ _ _ Ht)) as Hfr.
  rewrite (tw_rest _ _ _ Ht), (tw_info _ _ _ Ht) in Hfr. specialize (Hfr (tw_bytes _ _ _ Ht)).
  destruct (split_record (r_info mr) (remaining mr)) as [st|[p rest]] eqn:Es; cbn [next_post] in Hm, Hfr.
  - destruct Hm as (mr' & mrec' & Em & Hme). destruct Hfr as (fr' & frec' & Ef & Hfe).
    rewrite (tw_mem_errno _ _ _ Ht) in Em. rewrite (tw_file_errno _ _ _ Ht) in Ef.
    exists (end_status st None), mr', mrec', fr', frec'. split; [done|]. split; [done|].
    split; [by apply split_record_not_ok in Es; apply end_status_not_ok|].
    split; [rewrite (eo_records _ _ _ Hme), (eo_records _ _ _ Hfe); symmetry; apply Ht|].
    split; [rewrite (pcap_next_owns _ _ _ _ _ Em); apply Ht|by eapply pcap_next_owns].
  - destruct Hm as (mr' & mrec' & Em & [M1 M2 M3 M4 M5 M6 M7 M8]).
    destruct Hfr as (fr' & frec' & Ef & [F1 F2 F3 F4 F5 F6 F7 F8]).
    exists mr', mrec', fr', frec'. split; [done|]. split; [done|].
    pose proof (pcap_next_owns _ _ _ _ _ Em) as Ho. rewrite (tw_owns _ _ _ Ht) in Ho.
    destruct (rec_bytes_in_mem mr' mrec' (cp_data p) (owns_no_buf _ Ho) M4) as (off & Eoff & H0 & H1 & H2).
    assert (Emem : r_mem mr' = exact) by (etransitivity; [exact (sr_mem _ _ M7)|apply Ht]).
    rewrite Emem, M2 in H2.
    destruct (split_record_bounds _ _ _ _ (tw_bytes _ _ _ Ht) Es) as (B1 & B2 & B3 & B4 & B5).
    pose proof (split_record_shorter _ _ _ _ Es) as Hsh. destruct (split_record_rest _ _ _ _ Es) as [k Hk].
    split; [|split; [|split; [by rewrite M5|by eapply pcap_next_owns]]].
    + split; try done.
      * exists off. split; [done|]. rewrite size_sub_small by lia. unfold PCAP_MAX_CAPLEN. lia.
      * split; [|done]. split; [|done]. split; [done|]. unfold SIZE_MAX, is_u in *. lia.
    + split; try done.
      * etransitivity; [exact (sr_error _ _ M7)|apply Ht].
      * etransitivity; [exact (sr_error _ _ F7)|apply Ht].
      * by rewrite M5, F5.
      * rewrite M5, Hk. by apply Forall_drop, Ht.
      * etransitivity; [exact (sr_info _ _ F7)|]. etransitivity; [apply Ht|]. symmetry. exact (sr_info _ _ M7).
      * rewrite M8, F8. do 2 f_equal. apply Ht.
      * etransitivity; [exact (sr_input _ _ M7)|apply Ht].
      * etransitivity; [exact (sr_input _ _ F7)|apply Ht].
Qed.

Lemma read_lockstep_ok exact fuel n mr fr mrec frec s :
  twins exact mr fr -> (length (remaining mr) < fuel)%nat ->
  fuzz_inv os n s -> n + Z.of_nat (length (remaining mr)) <= 2 ^ 56 ->
  Z.of_nat (length exact) <= SIZE_MAX ->
  runs (read_lockstep junk fuel (caplen_of exact) mr fr mrec frec) s
    (fun r s' => fuzz_inv os (n + Z.of_nat (length (remaining mr))) s' /\
       r_records r.1.2 = r_records r.2 /\ owns r.1.2 = (false, false) /\ owns r.2 = owns fr).
Proof.
  revert n mr fr mrec frec s. induction fuel as [|fuel IH]; intros n mr fr mrec frec s Ht Hf Hs Hn Hsz; [lia|].
  cbn [read_lockstep]. pose proof (lockstep_step exact mr fr mrec frec Ht Hsz) as Hstep. unfold pstatus_eqb.
  destruct (split_record (r_info mr) (remaining mr)) as [st|[p rest]].
  - destruct Hstep as (ms & mr' & mrec' & fr' & frec' & Em & Ef & Hms & Hrest).
    apply runs_bind. eapply runs_the; [exact Em|]. apply runs_bind. eapply runs_the; [exact Ef|]. cbv beta iota.
    rewrite (bool_decide_true (ms = ms)), (bool_decide_false (ms = PCAP_OK)) by done. cbn [negb].
    apply runs_ret. cbn [fst snd]. split; [by eapply inv_more; [|done]; lia|done].
  - destruct Hstep as (mr' & mrec' & fr' & frec' & Em & Ef & Hbr & Ht' & Hl & Hown).
    pose proof (br_fields _ _ _ _ _ _ Hbr) as ([C1 C2] & [W1 W2] & [T1 T2]).
    destruct (br_inside _ _ _ _ _ _ Hbr) as (off & Eoff & Hin).
    apply runs_bind. eapply runs_the; [exact Em|]. apply runs_bind. eapply runs_the; [exact Ef|]. cbv beta iota.
    rewrite !bool_decide_true by done. rewrite C1, C2, W1, W2, T1, T2, !Z.eqb_refl. cbn [negb orb].
    apply runs_bind. eapply runs_the; [by apply Hbr|]. apply runs_bind. eapply runs_the; [by apply Hbr|].
    rewrite bool_decide_true by done. cbn [negb]. apply runs_bind. eapply runs_the; [by rewrite Eoff|]. rewrite Hin.
    eapply runs_bind_pre; [apply (process_record_ok n p); [done|lia|apply Hbr|apply Hbr|done..]|]. intros ? s1 Hs1.
    eapply runs_bind_pre; [by apply (count_up_ok os L (n + 1))|]. intros ? s2 Hs2.
    eapply runs_mono; [apply (IH (n + 1)); [done|lia|done|lia|done]|]. rewrite Hown.
    intros r s3 (I1 & I2). split; [eapply inv_more; [|exact I1]; lia|done].
Qed.

(** Both readers open the same bytes. *)
Lemma open_both_ok exact file alloc os0 :
  Forall is_byte file -> Z.of_nat (length file) <= SIZE_MAX ->
  (file <> [] -> exact = file) -> buffer_ok alloc ->
  exists ms mr fs fr os', pcap_open_mem exact (caplen_of file) = Some (ms, mr) /\
    pcap_open_stream (Some (File file 0 None false)) alloc os0 = Some (fs, fr, os') /\
    r_records mr = 0 /\ owns mr = (false, false) /\ ms = header_status file /\ (is_Some alloc -> ms = fs) /\
    (fs <> PCAP_OK -> r_records fr = 0 /\ (pcap_close fr os').2 = Resources (os_files os0 - 1) (os_blocks os0)) /\
    (ms = PCAP_OK -> fs = PCAP_OK -> twins exact mr fr /\ exact = file /\
       (length (remaining mr) <= length file)%nat /\
       (pcap_close fr os').2 = Resources (os_files os0 - 1) (os_blocks os0)).
Proof.
  intros Hb Hsz Hex Halloc.
  assert (Hfp : stream_ok (File file 0 None false)) by (split; [done|]; cbn; split; [lia|done]).
  destruct (open_stream_spec _ alloc os0 Hfp Halloc) as (fs & fr & os' & Ef & Hfiff & Hfok & Hfbad & _).
  change (stream_rest _) with file in *. cbn [f_errno] in *.
  assert (Hm : exists ms mr, pcap_open_mem exact (caplen_of file) = Some (ms, mr) /\ ms = header_status file /\
    (ms = PCAP_OK -> opened file None mr /\ exact = file)).
  { destruct file as [|b file'].
    - exists PCAP_ERR_SHORT_HEADER. eexists. split; [reflexivity|]. split; [reflexivity|done].
    - rewrite Hex by done. destruct (open_mem_spec (b :: file') Hb Hsz) as (ms & mr & Em & _ & Hok & _).
      exists ms, mr. split; [done|]. split; [by eapply open_mem_status|]. auto. }
  destruct Hm as (ms & mr & Em & Hms & Hmok).
  destruct (open_mem_part _ _ _ _ Em) as (P1 & P2 & P3).
  exists ms, mr, fs, fr, os'. split; [done|]. split; [exact Ef|]. split; [done|]. split; [done|]. split; [done|].
  split; [|split].
  - intros [buf ->]. rewrite Hms. symmetry.
    exact (open_stream_status (File file 0 None false) buf os0 fs fr os' Hfp eq_refl (Halloc _ eq_refl) Ef).
  - intros Hne. destruct (open_stream_failed _ _ _ _ _ _ Ef Hne) as [F1 F2]. split; [done|].
    rewrite close_owns_nothing by done. by apply Hfbad.
  - intros -> ->. destruct (Hmok eq_refl) as [[V1 R1 O1 E1 N1 I1] Hexf].
    destruct (Hfok eq_refl) as [[V2 R2 O2 E2 N2 I2] Hclose].
    split; [|split; [done|split; [rewrite R1, length_drop; lia|by rewrite Hclose]]].
    split; try done; [congruence| | |congruence].
    + rewrite R1. by apply Forall_drop.
    + by eapply valid_header_unique.
Qed.
End Readers.

(** ** A damaged capture *)
Lemma runs_device (L : luck) s (Q : device -> fuzz -> Prop) :
  (forall d, (L -> d = sound) -> Q d (s <| fz_devices ::= tail |>)) -> runs good_weather L next_device s Q.
Proof.
  intros H HL. unfold next_device. split.
  - intros Hl. specialize (HL Hl). destruct HL as [Ha Hf]. destruct s as [? ? ? ? ? ? [|l ls]]; [by split|].
    apply Forall_cons in Hf as [_ Hf]. by split.
  - apply H. intros Hl. specialize (HL Hl). destruct HL as [_ Hf].
    destruct (fz_devices s) as [|l ls]; [done|]. apply Forall_cons in Hf as [-> _]. done.
Qed.

Lemma inv_os os os' n s f :
  fuzz_inv os n s -> (forall x, fz_os (f x) = os' /\ fz_rng (f x) = fz_rng x /\ fz_an (f x) = fz_an x /\
    fz_tot (f x) = fz_tot x) -> fuzz_inv os' n (f s).
Proof. intros [A B C D E] Hf. destruct (Hf s) as (F1 & F2 & F3 & F4). split; rewrite ?F1, ?F2, ?F3, ?F4; done. Qed.

(** One more stream is open. *)
Definition one_more (os : resources) : resources := Resources (os_files os + 1) (os_blocks os).

Lemma one_more_less os : Resources (os_files (one_more os) - 1) (os_blocks (one_more os)) = os.
Proof. destruct os. cbn. f_equal. lia. Qed.

Section Damaged.
Context (junk : Z -> bytes) (Hjunk : junk_ok junk) (os : resources) (L : luck).
Abbreviation runs := (runs good_weather L).

Lemma tmpfile_ok n s :
  fuzz_inv os n s ->
  runs tmpfile s (fun f s' => match f with
    | None => ~ L
    | Some o => (exists l, o = ostream_new l /\ (L -> l = sound)) /\ fuzz_inv (one_more os) n s'
    end).
Proof.
  intros Hs. unfold tmpfile. apply runs_bind, runs_attempt. intros b Hb. destruct b; [|by apply runs_ret, Hb].
  apply runs_bind, runs_device. intros l Hl. apply runs_bind, runs_modify; [by intros []|]. apply runs_ret.
  split; [by exists l|]. destruct Hs as [A B C D E]. split; try done. cbn. by rewrite B.
Qed.

Lemma fclose_ok n s : fuzz_inv (one_more os) n s -> runs fclose s (fun _ s' => fuzz_inv os n s').
Proof.
  intros Hs. apply runs_modify; [by intros []|]. destruct Hs as [A B C D E]. split; try done. cbn. rewrite B.
  apply one_more_less.
Qed.

(** What a stream that took its bytes without an error holds. *)
Lemma tmp_write d file :
  let '(n, f) := fwrite (ostream_new d) file in let '(rc, f') := fflush f in
  (n = Z.of_nat (length file) -> rc = 0 -> o_data f' = file) /\
  (d = sound -> n = Z.of_nat (length file) /\ rc = 0).
Proof.
  unfold fwrite, fprintf, fflush, o_text. destruct d as [[|[k|] fs] [m|]]; cbn;
    rewrite ?app_nil_r; (split; [|done]); try done.
  intros Hn _. rewrite Nat.sub_0_r in Hn. by rewrite take_ge by lia.
Qed.

Lemma write_tmp_ok n file extra s :
  fuzz_inv os n s ->
  runs (write_tmp (file ++ extra) (Z.of_nat (length file))) s
    (fun tmp s' => tmp = File file 0 None false /\ fuzz_inv (one_more os) n s').
Proof.
  intros Hs. unfold write_tmp. eapply runs_bind_pre; [by eapply tmpfile_ok|].
  intros f s1 Hf. apply runs_bind. destruct f as [o|]; [|by apply runs_exit].
  destruct Hf as [(l & -> & Hl) Hs1]. apply runs_ret.
  apply runs_bind. eapply runs_the.
  { unfold bytes_at. rewrite decide_True by (rewrite length_app; lia).
    change (Z.to_nat 0) with 0%nat. rewrite Nat2Z.id, drop_0, take_app_length. reflexivity. }
  pose proof (tmp_write l file) as Hd. destruct (fwrite _ _) as [k f]. destruct (fflush f) as [rc f'].
  destruct Hd as [Hd Hno]. destruct (Z.eqb_spec k (Z.of_nat (length file))) as [Ek|Ek]; cbn [negb].
  2:{ apply runs_exit. intros HL. by apply Ek, Hno, Hl. }
  destruct (Z.eqb_spec rc 0) as [Ec|Ec]; cbn [negb].
  - apply runs_ret. by rewrite Hd.
  - apply runs_exit. intros HL. by apply Ec, Hno, Hl.
Qed.

(** Closing both readers gives back what the file was opened with. *)
Lemma closed_both os' k m f s :
  fuzz_inv os' k s -> owns m = (false, false) -> (pcap_close f os').2 = os ->
  (s <| fz_os ::= fun o => (pcap_close f (pcap_close m o).2).2 |>) = s <| fz_os := os |>.
Proof.
  intros Hs Om Df. transitivity (s <| fz_os := (pcap_close f (pcap_close m (fz_os s)).2).2 |>); [by destruct s|].
  by rewrite (fv_os _ _ _ Hs), (close_owns_nothing m), Df by done.
Qed.

Lemma closed_inv os' k m f s :
  fuzz_inv os' k s -> owns m = (false, false) -> (pcap_close f os').2 = os ->
  fuzz_inv os k (s <| fz_os ::= fun o => (pcap_close f (pcap_close m o).2).2 |>).
Proof.
  intros Hs Om Df. rewrite (closed_both os' k) by done.
  by apply (inv_os _ os _ _ (fun x => x <| fz_os := os |>) Hs).
Qed.

(** Both readers over a file they opened alike: records in lockstep, or nothing. *)
Lemma read_opened_ok os' n file ms mr fr s :
  fuzz_inv os' n s -> n + Z.of_nat (length file) <= 2 ^ 56 -> Z.of_nat (length file) <= SIZE_MAX ->
  (pcap_close fr os').2 = os ->
  (ms = PCAP_OK -> twins file mr fr /\ (length (remaining mr) <= length file)%nat) ->
  (ms <> PCAP_OK -> r_records mr = r_records fr /\ owns mr = (false, false)) ->
  runs (if pstatus_eqb ms PCAP_OK then
      read_lockstep junk (S (length file)) (caplen_of file) mr fr (Pcap_record 0 0 0 None) (Pcap_record 0 0 0 None)
    else mret (ms, mr, fr)) s
    (fun r s' => fuzz_inv os' (n + Z.of_nat (length file)) s' /\
       r_records r.1.2 = r_records r.2 /\ owns r.1.2 = (false, false) /\ (pcap_close r.2 os').2 = os).
Proof.
  intros Hs Hn Hsz Hclose Hok Hno. unfold pstatus_eqb. destruct (bool_decide_reflect (ms = PCAP_OK)) as [Hms|Hms].
  - destruct (Hok Hms) as [Ht Hrem].
    eapply runs_mono; [apply (read_lockstep_ok junk Hjunk os' L file _ n); [done|lia|done|lia|lia]|].
    intros r s6 (I1 & I2 & I3 & I4). split; [eapply inv_more; [|exact I1]; lia|]. split; [done|].
    split; [done|]. by rewrite (close_same_owner r.2 fr) by done.
  - destruct (Hno Hms) as [F1 F2]. apply runs_ret. cbn [fst snd].
    split; [eapply inv_more; [|exact Hs]; lia|done].
Qed.

End Damaged.

Section Read.
Context (junk : Z -> bytes) (Hjunk : junk_ok junk) (os : resources) (L : luck).
Abbreviation runs := (runs good_weather L).

(** A block taken and freed. *)
Lemma inv_taken n s : fuzz_inv os n s -> fuzz_inv (malloc os) n (s <| fz_os ::= malloc |>).
Proof. intros [A B C D E]. split; try done. destruct s. cbn in *. by subst. Qed.
Lemma inv_freed n s : fuzz_inv (malloc os) n s -> fuzz_inv os n (s <| fz_os ::= free |>).
Proof. intros [A B C D E]. split; try done. destruct s. cbn in *. subst. apply free_malloc. Qed.

Lemma read_both_ok n file s :
  fuzz_inv os n s -> Forall is_byte file -> n + Z.of_nat (length file) <= 2 ^ 56 ->
  Z.of_nat (length file) <= SIZE_MAX ->
  runs (read_both junk file) s (fun _ s' => fuzz_inv os (n + Z.of_nat (length file)) s').
Proof.
  intros Hs Hb Hn Hsz. unfold read_both.
  eapply runs_bind_pre; [apply (heap_copy_ok junk Hjunk L file _ file); [apply holds_file|apply Hs]|].
  intros exact s1 (K1 & extra & Eex & Hextra). apply inv_taken in Hs. set (os1 := malloc os) in *.
  eapply runs_bind_pre; [rewrite Eex; eapply (write_tmp_ok os1 L n); by eapply inv_kept|]. intros tmp s2 [-> Hs2].
  eapply runs_bind_pre; [by apply (count_up_ok (one_more os1) L n)|]. intros ? s3 Hs3.
  assert (Hexf : file <> [] -> exact = file) by (intros Hne; rewrite Eex, Hextra by done; apply app_nil_r).
  set (alloc := fun b : bool => if b then Some (junk PCAP_MAX_CAPLEN) else None).
  assert (Hal : forall b, buffer_ok (alloc b)).
  { intros [] buf; [intros [= <-]|done]. destruct (Hjunk PCAP_MAX_CAPLEN) as [Hj _]; [done|]. by rewrite Hj. }
  destruct (open_both_ok exact file (alloc true) (one_more os1) Hb Hsz Hexf (Hal true))
    as (ms & mr & _ & _ & _ & Em & _ & P1 & P2 & _ & _).
  apply runs_bind. eapply runs_the; [exact Em|]. cbv beta iota.
  apply runs_bind, runs_attempt. intros b Hbl. apply runs_bind, runs_get.
  set (s4 := s3 <| fz_attempts ::= tail |>).
  assert (Hs4 : fuzz_inv (one_more os1) n s4) by (eapply inv_kept; [apply attempted_kept, Hs3|done]). clearbody s4.
  rewrite (fv_os _ _ _ Hs4).
  destruct (open_both_ok exact file (alloc b) (one_more os1) Hb Hsz Hexf (Hal b))
    as (ms' & mr' & fs & fr & os' & Em' & Ef & _ & _ & _ & Heq & Hfail & Hok).
  rewrite Em in Em'. injection Em' as <- <-. rewrite one_more_less in Hfail, Hok.
  apply runs_bind. eapply runs_the; [exact Ef|]. cbv beta iota.
  apply runs_bind, runs_modify; [by intros []|].
  set (s5 := s4 <| fz_os := os' |>).
  assert (Hs5 : fuzz_inv os' n s5) by (by apply (inv_os _ os' _ _ (fun x => x <| fz_os := os' |>) Hs4)).
  clearbody s5. clear s4 Hs4.
  unfold pstatus_eqb. destruct (bool_decide_reflect (ms = fs)) as [<-|Hne]; cbn [negb].
  2:{ apply runs_fail. intros HL. apply Hne, Heq. destruct b; [by eexists|by destruct (Hbl eq_refl)]. }
  eapply runs_bind_pre; [apply (read_opened_ok junk Hjunk os1 L os' n file); try done|].
  { destruct (decide (ms = PCAP_OK)) as [Ems|Hno]; [exact (proj2 (proj2 (proj2 (Hok Ems Ems))))|exact (proj2 (Hfail Hno))]. }
  { intros Ems. destruct (Hok Ems Ems) as (Ht & Ex & Hrem & _). rewrite Ex in Ht. done. }
  { intros Hno. destruct (Hfail Hno) as [F1 _]. split; congruence. }
  intros [[ms2 mr2] fr2] s6 (Hs6 & Hrec & Hown & Hclose). cbn [fst snd] in *.
  rewrite Hrec, Z.eqb_refl. cbn [negb].
  eapply runs_bind_pre; [by eapply (count_up_ok os' L _)|]. intros ? s7 Hs7.
  eapply runs_bind_pre with (R := fun _ s' => fuzz_inv os' (n + Z.of_nat (length file)) s').
  { apply runs_if; intros _; [by apply (count_up_ok os' L)|by apply runs_ret]. }
  intros ? s8 Hs8. apply runs_bind, runs_modify; [by intros []|]. apply free_block_ok, inv_freed. by eapply closed_inv.
Qed.
End Read.

(** ** Building and damaging the capture *)
Definition SIZE := MAX_FRAME + 64.

(** The seed frames are bytes and fit the frame buffer. *)
Definition seeds_ok (seeds : list bytes) : Prop :=
  seeds <> [] /\ Forall (fun s => Forall is_byte s /\ Z.of_nat (length s) <= SIZE) seeds.

(** Bytes, with record headers at the offsets of [hdrs]. *)
Definition file_ok (file : bytes) (hdrs : list Z) : Prop :=
  Forall is_byte file /\ Forall (fun h => 0 <= h /\ h + 16 <= Z.of_nat (length file)) hdrs.

Lemma seed_written frame seed :
  buffer_of SIZE frame -> Forall is_byte seed -> Z.of_nat (length seed) <= SIZE ->
  exists frame', write_at frame 0 seed = Some frame' /\ buffer_of SIZE frame'.
Proof.
  intros [Hl Hb] Hs Hls. unfold write_at. rewrite decide_True by lia. eexists. split; [done|].
  split.
  - rewrite !length_app, length_take, length_drop. lia.
  - repeat (apply Forall_app; split); [by apply Forall_take|done|by apply Forall_drop].
Qed.

Lemma front_bytes buf len :
  buffer_of SIZE buf -> 0 <= len <= SIZE ->
  exists d, bytes_at buf 0 len = Some d /\ Forall is_byte d /\ Z.of_nat (length d) = len.
Proof.
  intros [Hl Hb] Hlen. unfold bytes_at. rewrite decide_True by lia. eexists. split; [done|].
  change (Z.to_nat 0) with 0%nat. rewrite drop_0. split; [by apply Forall_take|]. rewrite length_take. lia.
Qed.

Section Build.
Context (W : weather) (L : luck) (seeds : list bytes) (Hseeds : seeds_ok seeds).
Abbreviation runs := (runs W L).

Lemma seed_at k :
  0 <= k -> (k < Z.of_nat (length seeds) \/ Z.of_nat (length seeds) = 0 /\ k = 0) ->
  exists seed, seeds !! Z.to_nat k = Some seed /\ Forall is_byte seed /\ Z.of_nat (length seed) <= SIZE.
Proof.
  destruct Hseeds as [Hne Hs]. intros H0 Hk.
  assert (Hl : (0 < length seeds)%nat) by (destruct seeds; cbn; [done|lia]).
  destruct (lookup_lt_is_Some_2 seeds (Z.to_nat k)) as [seed E]; [lia|].
  exists seed. split; [done|]. exact (Forall_lookup_1 _ _ _ _ Hs E).
Qed.

(** One more record. *)
Lemma record_added be file hdrs sec frac data wire :
  file_ok file hdrs -> is_u 32 sec -> is_u 32 frac -> is_u 32 wire -> Forall is_byte data ->
  Z.of_nat (length data) <= SIZE ->
  file_ok (pcap_put_record file be sec frac data wire) (hdrs ++ [Z.of_nat (length file)]) /\
  Z.of_nat (length (pcap_put_record file be sec frac data wire)) = Z.of_nat (length file) + 16 + Z.of_nat (length data).
Proof.
  intros [Hf Hh] Hs Hfr Hw Hd Hl.
  set (p := Packet_args sec frac data wire).
  assert (E : pcap_put_record file be sec frac data wire = file ++ put_record be [] p) by apply pcap_put_record_app.
  assert (Hp : packet_args_ok p) by (repeat split; try done; try apply Hs; try apply Hfr; try apply Hw;
    unfold SIZE, MAX_FRAME in Hl; cbn [pa_data p]; lia).
  assert (El : length (put_record be [] p) = (16 + length data)%nat).
  { rewrite put_record_eq, !length_app, !length_u32_bytes. cbn [pa_data p]. lia. }
  rewrite E, length_app, El. split; [|lia]. split.
  - apply Forall_app. split; [done|by apply put_record_bytes].
  - rewrite length_app, El. apply Forall_app. split; [|apply Forall_singleton; lia].
    eapply Forall_impl; [exact Hh|]. cbn. lia.
Qed.

Lemma build_records_ok n be file hdrs frame s :
  file_ok file hdrs -> buffer_of SIZE frame -> rng_state (fz_rng s) ->
  runs (build_records n seeds be file hdrs frame) s (fun r s' => drawn s s' /\ file_ok r.1 r.2 /\
    Z.of_nat (length r.1) <= Z.of_nat (length file) + Z.of_nat n * (16 + SIZE) /\
    (length file <= length r.1)%nat).
Proof.
  revert file hdrs frame s. induction n as [|n IH]; intros file hdrs frame s Hf Hb Hs; cbn [build_records].
  { apply runs_ret. cbn [fst snd]. split; [by apply drawn_refl|]. split; [done|lia]. }
  apply runs_bind, runs_below; [done|lia|]. intros k s1 D1 H0 Hk.
  destruct (seed_at k H0 Hk) as (seed & E & Hsb & Hsl). apply runs_bind. eapply runs_the; [exact E|].
  destruct (seed_written frame seed Hb Hsb Hsl) as (frame1 & E1 & Hb1).
  apply runs_bind. eapply runs_the; [exact E1|].
  apply runs_bind, runs_rng; [draws|]. intros r s2 D2 _.
  eapply runs_bind_pre with (R := fun r s' => mutated_len SIZE s2 r s').
  { apply runs_if; intros _; [apply mutate_ok; [done|lia|done|draws]|].
    apply runs_ret, keep_len; [done|lia|apply drawn_refl; draws]. }
  intros [frame2 len] s3 [[Hb2 D3] Hlen]. cbn [fst snd] in *.
  apply runs_bind, runs_rng; [draws|]. intros r2 s4 D4 _.
  eapply runs_bind_pre with (R := fun _ s' => drawn s4 s').
  { apply runs_if; intros _; [|apply runs_ret, drawn_refl; draws].
    apply runs_bind, runs_below; [draws|lia|]. intros x s' D _ _. by apply runs_ret. }
  intros extra s5 D5.
  apply runs_bind, runs_rng; [draws|]. intros sec s6 D6 _.
  apply runs_bind, runs_rng; [draws|]. intros frac s7 D7 _.
  assert (El : u32 len = len) by (apply wrap_small; unfold is_u, SIZE, MAX_FRAME in *; lia).
  rewrite El. destruct (front_bytes frame2 len Hb2 Hlen) as (d & Ed & Hdb & Hdl).
  apply runs_bind. eapply runs_the; [exact Ed|].
  assert (Hu : forall x, is_u 32 (u32 x)) by (intros; apply wrap_is_u; lia).
  destruct (record_added be file hdrs (u32 sec) (u32 frac) d (u32 (len + extra)) Hf (Hu _) (Hu _) (Hu _) Hdb)
    as [Hf' Hl']; [lia|].
  eapply runs_mono; [apply IH; [done|done|draws]|].
  intros q s8 (D8 & F1 & F2 & F3). split; [draws|]. split; [done|]. rewrite Hl' in F2. lia.
Qed.

Lemma corrupt_length_ok be hdrs file s :
  file_ok file hdrs -> hdrs <> [] -> rng_state (fz_rng s) ->
  runs (corrupt_length be hdrs file) s (mutated (Z.of_nat (length file)) s).
Proof.
  intros [Hf Hh] Hne Hs. unfold corrupt_length.
  apply runs_bind, runs_below; [done|lia|]. intros k s1 D1 H0 Hk.
  assert (Hl : (0 < length hdrs)%nat) by (destruct hdrs; cbn; [done|lia]).
  destruct (lookup_lt_is_Some_2 hdrs (Z.to_nat k)) as [h E]; [lia|].
  apply runs_bind. eapply runs_the; [exact E|]. pose proof (Forall_lookup_1 _ _ _ _ Hh E) as [Hh0 Hh1]. cbn in Hh0, Hh1.
  apply runs_bind, runs_below; [draws|lia|]. intros f s2 D2 Hf0 Hf2.
  apply runs_bind. apply (runs_pick W L (fun _ => True)); [draws|done|by apply Forall_true|]. intros v s3 D3 _.
  set (n := Z.of_nat (length file)) in *. assert (Hb : buffer_of n file) by done.
  apply runs_bind. apply (runs_poke W L n); [done|lia|by apply wrap_is_u; lia|]. intros f1 Hb1 _ _.
  apply runs_bind. apply (runs_poke W L n); [done|lia|by apply wrap_is_u; lia|]. intros f2 Hb2 _ _.
  apply runs_bind. apply (runs_poke W L n); [done|lia|by apply wrap_is_u; lia|]. intros f3 Hb3 _ _.
  apply (runs_poke W L n); [done|lia|by apply wrap_is_u; lia|]. intros f4 Hb4 _ _. split; [done|draws].
Qed.

Lemma damage_ok be hdrs file s :
  file_ok file hdrs -> rng_state (fz_rng s) ->
  runs (damage be hdrs file) s (fun file' s' => drawn s s' /\ Forall is_byte file' /\
    (length file' <= length file)%nat).
Proof.
  intros Hf Hs. unfold damage. set (n := Z.of_nat (length file)).
  assert (Hkeep : forall s', drawn s s' -> mutated n s file s') by (intros s' D; split; [split; [done|apply Hf]|done]).
  eapply runs_bind_pre with (R := mutated n s).
  { apply runs_if; intros Hh; [|apply runs_ret, Hkeep, drawn_refl, Hs].
    apply runs_bind, runs_rng; [done|]. intros r s1 D1 _.
    apply runs_if; intros _; [|by apply runs_ret, Hkeep].
    eapply runs_mono; [apply corrupt_length_ok; [done|by destruct hdrs|draws]|].
    intros f s2 [Hb D2]. split; [done|draws]. }
  intros f1 s1 [Hb1 D1]. apply runs_bind, runs_rng; [draws|]. intros r s2 D2 _.
  eapply runs_bind_pre with (R := mutated n s).
  { apply runs_if; intros _; [|apply runs_ret; split; [done|draws]].
    eapply runs_mono; [apply (flip_random_bit_ok W L n); [done|destruct Hb1; lia|draws]|].
    intros f s3 [Hb D3]. split; [done|draws]. }
  intros f2 s3 [[Hl2 Hb2] D3]. apply runs_bind, runs_rng; [draws|]. intros r2 s4 D4 _.
  apply runs_if; intros _.
  - apply runs_bind, runs_below; [draws|lia|]. intros len s5 D5 _ _. apply runs_ret.
    split; [draws|]. split; [by apply Forall_take|]. rewrite length_take. lia.
  - apply runs_ret. split; [draws|]. split; [done|lia].
Qed.
End Build.

(** The longest capture the fuzzer builds, in bytes, and so in packets. *)
Definition CAPTURE := 24 + MAX_RECORDS * (16 + SIZE).

Lemma fuzz_reader_ok junk os L n seeds s :
  junk_ok junk -> seeds_ok seeds -> fuzz_inv os n s -> n + CAPTURE <= 2 ^ 56 ->
  runs good_weather L (fuzz_reader junk seeds) s (fun _ s' => fuzz_inv os (n + CAPTURE) s').
Proof.
  intros Hj Hseeds Hs Hn. unfold fuzz_reader.
  apply runs_bind, runs_below; [apply Hs|done|]. intros nrec s1 D1 H0 Hrec.
  apply runs_bind, runs_rng; [draws|]. intros r1 s2 D2 _.
  apply runs_bind, runs_rng; [draws|]. intros r2 s3 D3 _. set (be := negb _). set (nsec := negb _).
  eapply runs_bind_pre.
  { apply (build_records_ok good_weather L seeds Hseeds); [| |draws].
    - split; [apply global_header_bytes|constructor].
    - destruct (Hj (MAX_FRAME + 64)) as [? ?]; [done|]. split; [unfold SIZE, MAX_FRAME in *; lia|done]. }
  intros [file hdrs] s4 (D4 & Hf & Hl & _). cbn [fst snd] in *.
  assert (Hg : Z.of_nat (length (pcap_put_global [] be nsec 65535 1)) = 24).
  { unfold pcap_put_global. cbv zeta. autorewrite with builder. by destruct be. }
  rewrite Hg in Hl. eapply runs_bind_pre; [apply damage_ok; [done|draws]|]. intros file' s5 (D5 & Hb & Hl5).
  assert (Hlen : Z.of_nat (length file') <= CAPTURE) by (unfold CAPTURE, MAX_RECORDS, SIZE, MAX_FRAME in *; lia).
  eapply runs_mono; [apply (read_both_ok junk Hj os L n); [|done|lia|]|].
  - eapply inv_drawn; [|exact Hs]. draws.
  - unfold CAPTURE, MAX_RECORDS, SIZE, MAX_FRAME, SIZE_MAX in *. lia.
  - intros ? s6 Hs6. eapply inv_more; [|exact Hs6]. lia.
Qed.
