(* ===== verification/FuzzRun.v ===== *)
(** A whole run of the fuzzer (src/fuzz/fuzz_decode.c, [main]): an iteration, the
    loop, the final checks and the reports.  [FuzzProps] holds the parts. *)
From Stdlib Require Import String.
From S2P Require Export FuzzProps AddrText Tables.
From S2P Require Import Fuzz.
From stdpp Require Export list.
#[global] Open Scope Z_scope.

(** [inet_ntop] has no text for the address [a], or one that is not the text RFC 5952
    asks for; in the IPv4-compatible form any text will do.  Nothing is assumed of
    [inet_ntop]: POSIX leaves it a choice, so the fuzzer may stop at such an address. *)
Definition misprinted (inet_ntop : bytes -> option bytes) (a : bytes) : Prop :=
  length a = 16%nat /\ Forall is_byte a /\
  (inet_ntop a = None \/
   v4_compatible a = false /\ exists ref, inet_ntop a = Some ref /\ ~ ipv6_text a ref).

(** A misprinted address excuses the stop. *)
Definition forgiven (inet_ntop : bytes -> option bytes) (L : luck) : Prop :=
  forall a, misprinted inet_ntop a -> excuse L (Unlike a).

Section Steps.
Context (junk : Z -> bytes) (Hjunk : junk_ok junk) (os : resources) (L : luck).
Abbreviation runs := (runs good_weather L).

Lemma say_ok n text s : fuzz_inv os n s -> runs (say text) s (fun _ s' => fuzz_inv os n s').
Proof. intros [A B C D E]. by apply runs_modify; [intros []|]. Qed.

(** ** Addresses *)
Lemma random_groups_ok n s :
  rng_state (fz_rng s) ->
  runs (random_groups n) s (fun a s' => drawn s s' /\ length a = (2 * n)%nat /\ Forall is_byte a).
Proof.
  revert s. induction n as [|n IH]; intros s Hs; cbn [random_groups].
  { apply runs_ret. by split; [apply drawn_refl|]. }
  apply runs_bind, runs_below; [done|lia|]. intros c s1 D1 _ _.
  eapply runs_bind_pre with (R := fun _ s' => drawn s1 s').
  { apply runs_if; intros _; [apply runs_ret, drawn_refl; draws|]. apply runs_if; intros _.
    - apply runs_below; [draws|lia|]. by intros.
    - apply runs_bind, runs_rng; [draws|]. intros x s' D _. by apply runs_ret. }
  intros v s2 D2. eapply runs_bind_pre; [apply IH; draws|]. intros a s3 (D3 & Hl & Hb).
  apply runs_ret. split; [draws|]. split; [cbn; lia|].
  repeat (constructor; [apply wrap_is_u; lia|]). done.
Qed.

(** The address, formatted whatever the two arrays hold. *)
Lemma addr_formatted buf tmp a :
  length a = 16%nat -> Forall is_byte a -> length buf = 46%nat -> length tmp = 46%nat ->
  exists mine, addr_format 6 a buf ADDR_STR_LEN tmp = Some mine /\ c_str mine = Some (addr_str 6 a).
Proof.
  intros Ha Hb Hbuf Htmp. eexists. split; [apply addr_format_ok; [done|done|done|by rewrite Hbuf]|].
  change (ADDR_STR_LEN =? 0) with false. cbv iota. rewrite c_str_printed by (by apply addr_str_no_nul).
  f_equal. apply take_ge. pose proof (addr_str_length a Ha Hb 6). unfold ADDR_STR_LEN. lia.
Qed.

(** The comparison with [inet_ntop]. *)
Lemma compared_ok inet_ntop n a s :
  forgiven inet_ntop L -> length a = 16%nat -> Forall is_byte a -> fuzz_inv os n s ->
  runs (match inet_ntop a with
        | None => fail_addr a
        | Some ref => if negb (v4_compatible a) && negb (bool_decide (addr_str 6 a = ref)) then fail_addr a
                      else count_up (update tt_addrs inc)
        end) s (fun _ s' => fuzz_inv os n s').
Proof.
  intros Hntop Ha Hb Hs. destruct (inet_ntop a) as [ref|] eqn:En.
  2:{ apply runs_fail_addr, Hntop. split; [done|]. split; [done|by left]. }
  destruct (v4_compatible a) eqn:Ec; cbn [negb andb]; [by apply count_up_ok|].
  destruct (bool_decide_reflect (addr_str 6 a = ref)) as [_|Hne]; cbn [negb]; [by apply count_up_ok|].
  apply runs_fail_addr, Hntop. split; [done|]. split; [done|]. right. split; [done|]. exists ref. split; [done|].
  intros Ht. apply Hne. by rewrite (ipv6_text_unique a ref (addr_str 6 a)) by (done || by apply ipv6_str_ok).
Qed.

(** The random address, 16 bytes. *)
Lemma mapped_bytes (m : Z) a :
  length a = (2 * 8)%nat -> Forall is_byte a ->
  let b := if m =? 0 then replicate 10 0 ++ [0xff; 0xff] ++ drop 12 a else a in
  length b = 16%nat /\ Forall is_byte b.
Proof.
  intros Hl Hb. cbv zeta. destruct (m =? 0); [|done]. split; [rewrite !length_app, length_drop; cbn; lia|].
  apply Forall_app; split; [by repeat constructor|].
  apply Forall_app; split; [by repeat constructor|by apply Forall_drop].
Qed.

Lemma addr_array : length (junk ADDR_STR_LEN) = 46%nat.
Proof. by rewrite (proj1 (Hjunk ADDR_STR_LEN ltac:(done))). Qed.

Lemma fuzz_addr_ok inet_ntop n s :
  forgiven inet_ntop L -> fuzz_inv os n s ->
  runs (fuzz_addr junk inet_ntop) s (fun _ s' => fuzz_inv os n s').
Proof.
  intros Hntop Hs. unfold fuzz_addr.
  eapply runs_bind_pre; [apply random_groups_ok, Hs|]. intros a s1 (D1 & Hl & Hb).
  apply runs_bind, runs_below; [draws|lia|]. intros m s2 D2 _ _.
  destruct (mapped_bytes m a Hl Hb) as [Hlb Hbb]. cbv zeta in *. set (b := if m =? 0 then _ else a) in *. clearbody b.
  destruct (addr_formatted _ _ b Hlb Hbb addr_array addr_array) as (mine & E1 & E2).
  apply runs_bind. eapply runs_the; [exact E1|]. apply runs_bind. eapply runs_the; [exact E2|].
  apply compared_ok; [done..|]. eapply inv_drawn; [|exact Hs]. draws.
Qed.

(** ** An iteration *)
Definition BATCH := 1 + CAPTURE.

Definition gtp_ok (gtp_at : list Z) (seeds : list bytes) : Prop :=
  length gtp_at = length seeds /\ Forall (fun at_ => 0 <= at_) gtp_at.

Lemma is_u32_len x : 0 <= x <= 5112 -> u32 x = x.
Proof. intros. apply wrap_small. unfold is_u. lia. Qed.

Lemma mutated_seed_ok seeds gtp_at work s :
  seeds_ok seeds -> gtp_ok gtp_at seeds -> buffer_of SIZE work -> rng_state (fz_rng s) ->
  runs (mutated_seed seeds gtp_at work) s (fun r s' => drawn s s' /\ buffer_of SIZE r.1.1 /\
    0 <= r.1.2 <= SIZE /\ r.1.2 <= r.2 <= 5112).
Proof.
  intros Hseeds [Hgl Hg] Hw Hs. unfold mutated_seed.
  apply runs_bind, runs_below; [apply Hs|lia|]. intros k s1 D1 H0 Hk.
  destruct (seed_at seeds Hseeds k H0 Hk) as (seed & E & Hsb & Hsl). apply runs_bind. eapply runs_the; [exact E|].
  destruct (lookup_lt_is_Some_2 gtp_at (Z.to_nat k)) as [gtp Eg]; [rewrite Hgl; by eapply lookup_lt_Some|].
  apply runs_bind. eapply runs_the; [exact Eg|]. pose proof (Forall_lookup_1 _ _ _ _ Hg Eg) as Hg0. cbn in Hg0.
  destruct (seed_written work seed Hw Hsb Hsl) as (w1 & E1 & Hw1).
  apply runs_bind. eapply runs_the; [exact E1|].
  eapply runs_bind_pre with (R := mutated SIZE s1).
  { assert (Hkeep : forall s', drawn s1 s' -> mutated SIZE s1 w1 s') by (by split).
    apply runs_if; intros _; [|apply runs_ret, Hkeep, drawn_refl; draws].
    apply runs_bind, runs_rng; [draws|]. intros r s' D _. apply runs_if; intros _; [|by apply runs_ret, Hkeep].
    eapply runs_mono; [apply (mutate_gtpu_ok good_weather L SIZE); [done|lia|done|draws]|].
    intros w s'' [Hb D']. split; [done|draws]. }
  intros w2 s2 [Hw2 D2]. eapply runs_bind_pre; [apply (mutate_ok good_weather L SIZE); [done|lia|done|draws]|].
  intros [w3 len] s3 [[Hw3 D3] Hlen]. cbn [fst snd] in *.
  apply runs_bind, runs_rng; [draws|]. intros r s4 D4 _.
  eapply runs_bind_pre with (R := fun wirelen s' => drawn s4 s' /\ len <= wirelen <= len + 3000).
  { apply runs_if; intros _; [apply runs_ret; split; [apply drawn_refl; draws|lia]|].
    apply runs_bind, runs_below; [draws|lia|]. intros x s' D Hx0 Hx. apply runs_ret. split; [done|lia]. }
  intros wirelen s5 [D5 Hwire]. apply runs_ret. cbn [fst snd]. split; [draws|]. split; [done|].
  unfold SIZE, MAX_FRAME in *. lia.
Qed.

Lemma fuzz_iteration_ok inet_ntop n seeds gtp_at i work s :
  forgiven inet_ntop L -> seeds_ok seeds -> gtp_ok gtp_at seeds -> buffer_of SIZE work -> is_u 64 i ->
  fuzz_inv os n s -> n + BATCH <= 2 ^ 56 ->
  runs (fuzz_iteration junk inet_ntop seeds gtp_at i work) s
    (fun work' s' => buffer_of SIZE work' /\ fuzz_inv os (n + BATCH) s').
Proof.
  intros Hntop Hseeds Hg Hw Hi Hs Hn. unfold fuzz_iteration.
  eapply runs_bind_pre; [by apply mutated_seed_ok, Hs|]. intros [[w3 len] wirelen] s5 (D5 & Hw3 & Hlen & Hwire).
  cbn [fst snd] in *. destruct (front_bytes w3 len Hw3 Hlen) as (d & Ed & Hdb & Hdl).
  assert (Hf : frame_ok d wirelen) by (split; [done|unfold SIZE_MAX; lia]).
  eapply runs_bind_pre.
  { apply (decode_checked_ok junk Hjunk L w3 len wirelen d); [exact Ed|done|lia|draws]. }
  intros [ds pi] s6 [K6 Edec].
  assert (Hs6 : fuzz_inv os n s6) by (eapply inv_kept; [exact K6|]; by eapply inv_drawn).
  eapply runs_bind_pre; [by apply (count_up_ok os L n)|]. intros ? s7 Hs7.
  eapply runs_bind_pre; [by apply (count_up_ok os L n)|]. intros ? s8 Hs8.
  eapply runs_bind_pre with (R := fun _ s' => fuzz_inv os n s').
  { apply runs_if; intros _; [|by apply runs_ret].
    eapply runs_bind_pre; [by apply (count_up_ok os L n)|]. intros ? s' Hs'.
    eapply runs_bind_pre; [by apply (count_up_ok os L n)|]. intros ? s'' Hs''. by apply count_up_ok. }
  intros ? s9 Hs9. rewrite !is_u32_len by lia.
  set (p := Captured i wirelen d). assert (Hp : cap_fits p) by done.
  destruct (decode_of_spec p (proj1 Hp)) as (st & E' & _). cbn [cp_data cp_wirelen p] in E'.
  rewrite Edec in E'. injection E' as -> ->.
  eapply runs_bind_pre.
  { rewrite <- Hdl. apply (account_ok os L n p); [done|unfold BATCH, CAPTURE, MAX_RECORDS, SIZE, MAX_FRAME in *; lia|done]. }
  intros ? s10 Hs10.
  eapply runs_bind_pre with (R := fun _ s' => fuzz_inv os (n + BATCH) s').
  { apply runs_if; intros _.
    - eapply runs_mono; [apply (fuzz_reader_ok junk os L (n + 1)); [done..|unfold BATCH in Hn; lia]|].
      intros ? s' Hs'. eapply inv_more; [|exact Hs']. unfold BATCH. lia.
    - apply runs_ret. eapply inv_more; [|exact Hs10]. unfold BATCH, CAPTURE, MAX_RECORDS, SIZE, MAX_FRAME. lia. }
  intros ? s11 Hs11. eapply runs_bind_pre; [by apply (fuzz_addr_ok inet_ntop (n + BATCH))|].
  intros ? s12 Hs12. by apply runs_ret.
Qed.

Lemma fuzz_loop_ok inet_ntop k n seeds gtp_at i work s :
  forgiven inet_ntop L -> seeds_ok seeds -> gtp_ok gtp_at seeds -> buffer_of SIZE work ->
  0 <= i -> i + Z.of_nat k <= 2 ^ 64 -> fuzz_inv os n s -> n + Z.of_nat k * BATCH <= 2 ^ 56 ->
  runs (fuzz_loop junk inet_ntop k seeds gtp_at i work) s
    (fun _ s' => fuzz_inv os (n + Z.of_nat k * BATCH) s').
Proof.
  intros Hntop Hseeds Hg. assert (EB : BATCH = 8537) by reflexivity. revert n i work s. induction k as [|k IH]; intros n i work s Hw Hi Hk Hs Hn; cbn [fuzz_loop].
  { apply runs_ret. by rewrite Z.add_0_r. }
  eapply runs_bind_pre; [apply (fuzz_iteration_ok inet_ntop n); [done..| |done|lia]|].
  { unfold is_u. lia. }
  intros work' s1 [Hw1 Hs1]. eapply runs_mono; [apply (IH (n + BATCH)); [done|lia|lia|done|lia]|].
  intros ? s2 Hs2. eapply inv_more; [|exact Hs2]. lia.
Qed.
End Steps.

(** ** The tunnel totals *)
Lemma sum_packets_from fs a :
  is_u 64 a -> foldl (fun n f => u64 (n + fl_packets f)) a fs = u64 (a + foldr (fun f n => fl_packets f + n) 0 fs).
Proof.
  revert a. induction fs as [|f fs IH]; intros a Ha; cbn [foldl foldr].
  { by rewrite Z.add_0_r, wrap_small. }
  rewrite IH by (apply wrap_is_u; lia). unfold wrap. rewrite Z.add_mod_idemp_l by done. f_equal. lia.
Qed.

Lemma tunnel_packets ps a :
  accounts_for ps a -> Forall cap_ok ps -> Z.of_nat (length ps) < 2 ^ 64 ->
  exists fs, flow_iter (an_tunnels a) = Some fs /\ sum_packets fs = count tunnelled ps.
Proof.
  intros Ha Hps Hlen. pose proof (tunnel_accts_tunnelled ps Hps) as Et.
  assert (Hc : 0 <= count tunnelled ps <= Z.of_nat (length ps)) by apply count_bound.
  destruct (represents_total (an_tunnels a) (tunnel_accts ps)) as (fs & E & Es); [apply Ha|lia|].
  exists fs. split; [done|]. unfold sum_packets. rewrite sum_packets_from, Es, Et by done.
  apply wrap_small. unfold is_u. lia.
Qed.

(** ** The CSVs *)
Lemma count_lines_split text n :
  is_u 64 n ->
  foldl (fun n c => if c =? 10 then inc n else n) n text = u64 (n + Z.of_nat (length (split_on 10 text)) - 1).
Proof.
  revert n. induction text as [|c text IH]; intros n Hn; cbn [foldl split_on length].
  { rewrite wrap_small; [lia|unfold is_u in *; lia]. }
  destruct (c =? 10).
  - rewrite IH by (apply wrap_is_u; lia). unfold inc. cbn [length]. unfold wrap.
    rewrite <- Z.add_sub_assoc, Z.add_mod_idemp_l by done. f_equal. lia.
  - rewrite IH by done. f_equal. destruct (split_on 10 text) eqn:Es; [|cbn [length]; lia].
    destruct text as [|x text]; cbn in Es; [done|]. destruct (x =? 10); [done|].
    by destruct (split_on 10 text).
Qed.

(** The lines of a CSV report: a header, a row per flow and the end of the text. *)
Lemma report_lines `{QSort} {A} cols fields (read : list bytes -> option A) view t rc out fs :
  table_ok t -> report_reads_back cols fields read view (ostream_new sound) t true rc out fs ->
  rc = 0 /\ count_lines (o_data (fflush out).2) = u64 (ft_count t + 1).
Proof.
  intros Ht (Hr & Hrc & _ & _ & Hfl & Hgood & Htext).
  assert (rc = 0) as -> by (apply Hgood; [done|by apply takes_all_new|done]). split; [done|].
  destruct (Htext eq_refl) as (Et & Erows & _). unfold fflush. rewrite Hfl. cbn [ostream_new o_flush sound d_flush snd o_data].
  rewrite Et. set (text := csv_text _ _ _) in *. unfold count_lines. change (o_text (ostream_new sound)) with (@nil Z).
  cbn [app]. rewrite count_lines_split by done. f_equal. rewrite <- (ranked_count t fs Ht Hr).
  apply (f_equal length) in Erows. unfold csv_rows_of in Erows.
  rewrite length_map in Erows. rewrite Erows. cbn [length]. rewrite length_app, length_map. cbn [length]. lia.
Qed.

Section Finish.
Context `{QSort} (junk : Z -> bytes) (Hjunk : junk_ok junk) (os : resources) (L : luck).
Abbreviation runs := (runs good_weather L).

Lemma junk_lengths : forall n, 0 <= n -> length (junk n) = Z.to_nat n.
Proof. intros n Hn. by apply Hjunk. Qed.

Lemma inv_reportable n s : fuzz_inv os n s -> reportable (fz_an s).
Proof. intros [_ _ (ps & Ha & Hps & _) _ _]. by eapply accounts_reportable. Qed.

Lemma caps_ok ps : Forall cap_fits ps -> Forall cap_ok ps.
Proof. intros Hps. eapply Forall_impl; [exact Hps|]. by intros p [? _]. Qed.

Lemma check_tunnel_totals_ok n s :
  fuzz_inv os n s -> n <= 2 ^ 56 -> runs check_tunnel_totals s (fun _ s' => fuzz_inv os n s').
Proof.
  intros Hs Hn. pose proof Hs as [_ _ (ps & Ha & Hps & Hlen & Et) _ _]. apply caps_ok in Hps.
  unfold check_tunnel_totals. apply runs_bind, runs_get. apply runs_bind, runs_get. cbv zeta.
  destruct (tunnel_packets ps (fz_an s) Ha Hps) as (fs & Efs & Esum); [lia|].
  apply runs_bind. eapply runs_the; [exact Efs|]. rewrite Esum, Et, Z.eqb_refl. cbn [negb].
  destruct (accounts_totals ps (fz_an s) Ha Hps) as (Hc & _); [lia|].
  assert (Hu : gs_user_truncated (st_gtpu (an_stats (fz_an s))) <= gs_truncated (st_gtpu (an_stats (fz_an s))) /\
               gs_user_malformed (st_gtpu (an_stats (fz_an s))) <= gs_malformed (st_gtpu (an_stats (fz_an s))))
    by (unfold conserved in Hc; cbv zeta in Hc; apply Hc).
  destruct Hu as [Hut Hum]. rewrite !Z.gtb_ltb.
  rewrite (proj2 (Z.ltb_ge _ _) Hut), (proj2 (Z.ltb_ge _ _) Hum). cbn [orb]. by apply say_ok.
Qed.

Lemma print_entries_ok os1 n f t tunnels s :
  table_ok t -> table_fits t -> fuzz_inv os1 n s ->
  runs (print_top junk f t tunnels) s
    (fun r s' => fuzz_inv os1 n s' /\ exists text, wrote f text r.2).
Proof.
  intros Ht Hfit Hs. unfold print_top. cbv zeta. set (k := if ft_count t <? 100 then ft_count t else 100).
  apply runs_bind, runs_attempt_or_exit. apply runs_bind, take_block_ok.
  destruct (top_n_spec t (Z.to_nat k) Ht) as (top & E & _ & _ & Hin & _).
  apply runs_bind. eapply runs_the; [exact E|].
  assert (Hf : Forall flow_fits top) by (apply Forall_forall; intros g Hg; by eapply Hfit, Hin).
  assert (Hp : exists f', (if tunnels then report_top_tunnels junk f top (ft_count t)
                           else report_top_flows junk f top (ft_count t)) = Some f' /\
                          exists text, wrote f text f').
  { destruct tunnels.
    - destruct (report_top_tunnels_ok junk junk_lengths f top (ft_count t) Hf) as (f' & E' & Hw). eauto.
    - destruct (report_top_flows_ok junk junk_lengths f top (ft_count t) Hf) as (f' & E' & Hw). eauto. }
  destruct Hp as (f' & E' & Hw). apply runs_bind. eapply runs_the; [exact E'|].
  apply runs_bind, free_block_ok, runs_ret. split; [|done]. by apply inv_freed, inv_taken, (inv_kept os1 n s); [apply attempted_kept, Hs|].
Qed.

(** A CSV writer: [report_csv] and [report_tunnels_csv]. *)
Definition csv_writer (t : flow_table)
    (writer : ostream -> flow_table -> bool -> resources -> option (Z * ostream * resources)) : Prop :=
  forall d alloc os, exists rc out, writer (ostream_new d) t alloc os = Some (rc, out, os) /\
    (d = sound -> alloc = true -> rc = 0 /\ count_lines (o_data (fflush out).2) = u64 (ft_count t + 1)).

Lemma report_csv_writer t : table_ok t -> table_fits t -> csv_writer t (report_csv junk).
Proof.
  intros Ht Hf d alloc os1.
  destruct (report_csv_spec junk (ostream_new d) t alloc os1 junk_lengths Ht Hf) as (rc & out & fs & E & Hr).
  exists rc, out. split; [done|]. intros -> ->. by eapply report_lines.
Qed.
Lemma report_tunnels_csv_writer t : table_ok t -> table_fits t -> csv_writer t (report_tunnels_csv junk).
Proof.
  intros Ht Hf d alloc os1.
  destruct (report_tunnels_csv_spec junk (ostream_new d) t alloc os1 junk_lengths Ht Hf) as (rc & out & fs & E & Hr).
  exists rc, out. split; [done|]. intros -> ->. by eapply report_lines.
Qed.

Lemma os_as_it_was os1 n s : fuzz_inv os1 n s -> fuzz_inv os1 n (s <| fz_os := fz_os s |>).
Proof. by destruct s. Qed.

Lemma check_csv_ok n t writer s :
  csv_writer t writer -> fuzz_inv os n s ->
  runs (check_csv t writer) s (fun _ s' => fuzz_inv os n s').
Proof.
  intros Hw Hs. unfold check_csv. eapply runs_bind_pre; [by eapply tmpfile_ok|].
  intros [f|] s1 H1; [|by apply runs_fail]. destruct H1 as [(l & -> & Hl) Hs1].
  apply runs_bind, runs_attempt. intros alloc Hal. destruct (Hw l alloc (fz_os (s1 <| fz_attempts ::= tail |>))) as (rc & out & E & Hok).
  assert (Hgood : L -> rc = 0 /\ count_lines (o_data (fflush out).2) = u64 (ft_count t + 1)).
  { intros HL. apply Hok; [by apply Hl|]. destruct alloc; [done|by destruct (Hal eq_refl)]. }
  apply runs_bind, runs_get. apply runs_bind. eapply runs_the; [exact E|]. cbv beta iota.
  apply runs_bind, runs_modify; [by intros []|].
  destruct (Z.eqb_spec rc 0) as [->|Hne]; cbn [negb]; [|apply runs_fail; intros HL; by apply Hne, Hgood].
  eapply runs_bind_pre; [apply fclose_ok, os_as_it_was; by eapply inv_kept; [apply attempted_kept, Hs1|]|].
  intros ? s2 Hs2. apply runs_if; intros Hc; [|by apply runs_ret].
  apply runs_fail. intros HL. by rewrite (proj2 (Hgood HL)), Z.eqb_refl in Hc.
Qed.

Lemma fuzz_reports_ok n s :
  fuzz_inv os n s -> runs (fuzz_reports junk) s (fun _ s' => fuzz_inv os n s').
Proof.
  intros Hs. destruct (inv_reportable n s Hs) as [R1 R2 _ R3 R4 R5 R6 R7 R8].
  unfold fuzz_reports. apply runs_bind, runs_get. eapply runs_bind_pre; [by eapply tmpfile_ok|].
  intros [f|] s1 H1; [|by apply runs_fail]. destruct H1 as [(l & -> & Hl) Hs1]. cbv zeta.
  match goal with |- context [report_summary junk _ ?p ?i ?st ?c] =>
    destruct (report_summary_ok junk junk_lengths (ostream_new l) p i st c R5 R7 R8) as (f1 & E1 & W1) end.
  apply runs_bind. eapply runs_the; [exact E1|].
  eapply runs_bind_pre; [apply (print_entries_ok (one_more os) n); [exact R1|exact R3|exact Hs1]|].
  intros [n1 f2] s2 [Hs2 [t2 W2]]. cbn [snd] in W2. apply runs_bind, runs_attempt. intros alloc Hal.
  destruct (report_gtpu_ok f2 (an_stats (fz_an s)) (an_tunnels (fz_an s)) alloc (fz_os (s2 <| fz_attempts ::= tail |>)) R2 R6) as (rc & f3 & E3 & Hcase).
  apply runs_bind, runs_get. apply runs_bind. eapply runs_the; [exact E3|]. cbv beta iota.
  apply runs_bind, runs_modify; [by intros []|].
  destruct Hcase as [(-> & _ & Ha)|(-> & W3)]; [by apply runs_fail, Hal|]. cbn [Z.eqb negb].
  eapply runs_bind_pre; [apply (print_entries_ok (one_more os) n); [exact R2|exact R4|apply os_as_it_was; by eapply inv_kept; [apply attempted_kept, Hs2|]]|].
  intros [n2 f4] s3 [Hs3 [t4 W4]]. cbn [snd] in W4. apply runs_if; intros Herr.
  { apply runs_fail. intros HL. revert Herr.
    pose proof (wrote_app _ _ _ _ _ (wrote_app _ _ _ _ _ (wrote_app _ _ _ _ _ W1 W2) W3) W4) as W.
    destruct (wr_all _ _ _ W) as (_ & He & _); [apply takes_all_new; by rewrite (Hl HL)|]. unfold ferror. by rewrite He. }
  eapply runs_bind_pre; [by apply fclose_ok|]. intros ? s4 Hs4.
  eapply runs_bind_pre; [by apply (check_csv_ok n); [apply report_csv_writer|]|]. intros ? s5 Hs5.
  eapply runs_bind_pre; [by apply (check_csv_ok n); [apply report_tunnels_csv_writer|]|]. intros ? s6 Hs6.
  by apply say_ok.
Qed.

Lemma say_counts_ok n counts names s :
  fuzz_inv os n s -> runs (say_counts counts names) s (fun _ s' => fuzz_inv os n s').
Proof.
  revert names s. induction counts as [|c counts IH]; intros [|name names] s Hs; cbn [say_counts]; try by apply runs_ret.
  eapply runs_bind_pre with (R := fun _ s' => fuzz_inv os n s').
  { apply runs_if; intros _; [by apply say_ok|by apply runs_ret]. }
  intros ? s1 Hs1. by apply IH.
Qed.

Lemma say_totals_ok n iterations seed s :
  fuzz_inv os n s -> runs (say_totals iterations seed) s (fun _ s' => fuzz_inv os n s').
Proof.
  intros Hs. unfold say_totals. apply runs_bind, runs_get. apply runs_bind, runs_get. revert s Hs.
  assert (Hbind : forall A B (m : F A) (k : A -> F B) s,
    (forall s, fuzz_inv os n s -> runs m s (fun _ s' => fuzz_inv os n s')) ->
    (forall a s, fuzz_inv os n s -> runs (k a) s (fun _ s' => fuzz_inv os n s')) ->
    fuzz_inv os n s -> runs (m ≫= k) s (fun _ s' => fuzz_inv os n s')).
  { intros A B m k s Hm Hk Hs. eapply runs_bind_pre; [by apply Hm|]. intros a s'. apply Hk. }
  intros s Hs. generalize (fz_tot s) (fz_an s). intros tot an.
  repeat (apply Hbind; [by intros; first [apply say_ok | apply say_counts_ok]|intros ? ? ?|done]).
  by apply say_ok.
Qed.
End Finish.

(** ** [main] *)
Lemma build_seeds_ok : seeds_ok build_seeds.1 /\ gtp_ok build_seeds.2 build_seeds.1.
Proof.
  assert (Hb : forallb (fun s => forallb (fun b => (0 <=? b) && (b <? 2 ^ 8)) s && (Z.of_nat (length s) <=? SIZE))
                 build_seeds.1 = true) by (vm_compute; reflexivity).
  split; split.
  - discriminate.
  - apply Forall_forall. intros s Hs%list_elem_of_In. rewrite forallb_forall in Hb. apply Hb in Hs.
    apply andb_true_iff in Hs as [Hs Hl]. split; [|by apply Z.leb_le].
    apply Forall_forall. intros b Hin%list_elem_of_In. rewrite forallb_forall in Hs. apply Hs in Hin. unfold is_u. lia.
  - reflexivity.
  - assert (Hg : forallb (Z.leb 0) build_seeds.2 = true) by (vm_compute; reflexivity).
    apply Forall_forall. intros x Hx%list_elem_of_In. rewrite forallb_forall in Hg. by apply Z.leb_le, Hg.
Qed.

Lemma rng_seed_ok seed : rng_state (rng_seed seed).
Proof.
  unfold rng_seed. cbv zeta. destruct (Z.eqb_spec (u64 (seed * 0x9E3779B97F4A7C15 + 1)) 0); [by split|].
  split; [apply wrap_is_u; lia|done].
Qed.

Lemma fresh_inv os an x :
  accounts_for [] an -> rng_state (fz_rng x) -> fz_os x = os -> fz_tot x = totals_zero ->
  fuzz_inv os 0 (x <| fz_an := an |>).
Proof.
  intros Ha Hr Ho Ht. assert (Hc : ft_count (an_flows an) = 0 /\ ft_count (an_tunnels an) = 0)
    by (destruct Ha as [_ Hf Htu _]; by split; apply represents_count_nil).
  destruct x. cbn in *. subst. split; try done; cbn; try lia.
  exists []. split; [done|]. split; [constructor|]. split; [cbn; lia|done].
Qed.

(** No file is open and no block allocated that was not before. *)
Definition cleaned_up (s s' : fuzz) : Prop :=
  fz_os s' = fz_os s /\ an_flows (fz_an s') = Flow_table [] 0 0 0 /\
  an_tunnels (fz_an s') = Flow_table [] 0 0 0 /\ an_frags (fz_an s') = Frag_cache None 0.

Lemma fuzz_args_u64 argv : is_u 64 (fuzz_args argv).1 /\ is_u 64 (fuzz_args argv).2.
Proof.
  unfold fuzz_args. cbn [fst snd].
  split; [destruct (argv !! 1%nat)|destruct (argv !! 2%nat)]; try apply strtoull_u64; done.
Qed.

Lemma main_ok `{QSort} junk inet_ntop argv (L : luck) s :
  junk_ok junk -> forgiven inet_ntop L -> (fuzz_args argv).1 <= 2 ^ 40 ->
  runs good_weather L (main junk inet_ntop argv) s (fun rc s' => rc = 0 /\ cleaned_up s s').
Proof.
  intros Hj Hntop. destruct (fuzz_args_u64 argv) as [[Hi0 _] _]. unfold main.
  destruct (fuzz_args argv) as [iterations seed]. cbn [fst snd] in *. intros Hit. generalize build_seeds build_seeds_ok. intros [seeds gtp_at] [Hseeds Hgtp].
  cbn [fst snd] in *.
  apply runs_bind, runs_modify; [by intros []|]. apply runs_bind, runs_modify; [by intros []|].
  apply runs_bind, runs_attempt. intros al1 H1. apply runs_bind, runs_attempt. intros al2 H2.
  apply runs_bind, runs_attempt. intros al3 H3. apply runs_bind, runs_get.
  set (s1 := _ <| fz_attempts ::= tail |>).
  assert (E1 : rng_state (fz_rng s1) /\ fz_os s1 = fz_os s /\ fz_tot s1 = totals_zero)
    by (split; [apply rng_seed_ok|done]).
  clearbody s1. destruct E1 as (Hr & Ho & Ht).
  destruct (analysis_init_spec (fz_an s1) (Init_allocs al1 al2 al3)) as (rc & an & E & Hrc & Hok & Hbad).
  apply runs_bind. eapply runs_the; [exact E|]. cbv beta iota. apply runs_bind, runs_modify; [by intros []|].
  destruct (Z.eqb_spec rc 0) as [->|Hne]; cbn [negb].
  2: { apply runs_exit. intros HL. apply Hne, Hrc.
       destruct al1, al2, al3; first [reflexivity|by destruct (H1 eq_refl HL)|by destruct (H2 eq_refl HL)|by destruct (H3 eq_refl HL)]. }
  set (N := Z.of_nat (Z.to_nat iterations) * BATCH).
  assert (HN : 0 + N <= 2 ^ 56) by (subst N; change BATCH with 8537; lia).
  eapply runs_bind_pre.
  { apply (fuzz_loop_ok junk Hj (fz_os s) L inet_ntop _ 0); [done..| |lia|lia|by apply fresh_inv, Ht; [apply Hok| |]|exact HN].
    destruct (Hj (MAX_FRAME + 64)) as [? ?]; [done|]. split; [unfold SIZE, MAX_FRAME in *; lia|done]. }
  fold N. clearbody N. set (M := 0 + N) in *. clearbody M.
  intros ? s2 Hs2. eapply runs_bind_pre; [apply (say_totals_ok (fz_os s) L M), Hs2|]. intros ? s3 Hs3.
  eapply runs_bind_pre; [apply (check_tunnel_totals_ok (fz_os s) L M); [exact Hs3|exact HN]|]. intros ? s4 Hs4.
  eapply runs_bind_pre; [apply (fuzz_reports_ok junk Hj (fz_os s) L M), Hs4|]. intros ? s5 Hs5.
  eapply runs_bind_pre; [apply (say_ok (fz_os s) L M), Hs5|]. intros ? s6 Hs6.
  apply runs_bind, runs_modify; [by intros []|]. apply runs_ret. split; [done|].
  destruct (analysis_freed (fz_an s6)) as (F1 & F2 & F3); [exact (inv_reportable _ _ _ Hs6)|].
  split; [by destruct Hs6, s6|by destruct s6].
Qed.

(** The fuzzer's luck: what the environment grants in [s], and [inet_ntop] at its worst. *)
Definition luck_of (inet_ntop : bytes -> option bytes) (s : fuzz) : luck :=
  Luck (lucky s) (fun e => exists a, e = Unlike a /\ misprinted inet_ntop a).

(** C8. The fuzzer finds nothing. For any command line that asks for up to 2^40
    iterations, any seed, any [inet_ntop], and whatever the memory it does not
    initialise holds, [main] has no undefined behaviour and terminates.  When every
    allocation and temporary file is granted it never calls [fail] on the decoder, the
    readers, the tables or the reports (the decoder reads nothing past the captured
    bytes and its result satisfies every invariant, the memory and stream readers
    agree on every damaged capture, every G-PDU is in the tunnel table and every CSV
    has one row per entry): it returns 0, having closed the temporary files and freed
    the reader's buffers, the heap copies, the arrays of the reports, the tables and
    the fragment cache.  The one exception is the C library's: it stops in
    [fuzz_addr], at an address for which [inet_ntop] gives no text or one that is not
    the text of RFC 5952 (the IPv4-compatible form apart). *)
Theorem fuzz_finds_nothing `{QSort} junk inet_ntop argv s :
  junk_ok junk -> (fuzz_args argv).1 <= 2 ^ 40 ->
  exists r, main junk inet_ntop argv s = Some r /\
    (lucky s -> (exists s', r = inr (0, s') /\ cleaned_up s s') \/
                (exists a, r = inl (Unlike a) /\ misprinted inet_ntop a)).
Proof.
  intros Hj Hit. pose proof (main_ok junk inet_ntop argv (luck_of inet_ntop s) s Hj) as Hm.
  unfold runs in Hm. specialize (Hm ltac:(by intros a; exists a) Hit (fun Hl => Hl)).
  destruct (main junk inet_ntop argv s) as [[e|[rc s']]|]; [| |done]; eexists; (split; [reflexivity|]); intros Hl.
  - right. destruct Hm as [Hno|(a & -> & Ha)]; [by destruct Hno|]. by exists a.
  - left. destruct Hm as (_ & -> & Hc). by exists s'.
Qed.
