(* ===== verification/FuzzReplay.v ===== *)
(** Replaying a run of the fuzzer (src/fuzz/fuzz_decode.c): the same command line
    gives the same run, whatever the memory it does not initialise holds.

    [agree] relates two runs that differ in the contents of uninitialised memory: they
    draw the same numbers, get the same answers from outside and pass through the same
    states; if one stops early, so does the other. *)
From Stdlib Require Import String.
From S2P Require Export FuzzRun ReportAlike.
From S2P Require Import Fuzz.
From stdpp Require Export list.
#[global] Open Scope Z_scope.

(** ** The relational logic *)
Definition agree {A B} (m1 : F A) (m2 : F B) (s : fuzz) (R : A -> B -> fuzz -> Prop) : Prop :=
  (exists e, m1 s = Some (inl e) /\ m2 s = Some (inl e)) \/
  (exists a b s', m1 s = Some (inr (a, s')) /\ m2 s = Some (inr (b, s')) /\ R a b s').

(** Nothing is assumed of the environment. *)
Definition adrift : luck := Luck False (fun _ => True).
Abbreviation ends := (runs good_weather adrift).

Lemma ends_spec {A} (m : F A) s Q :
  ends m s Q -> (exists e, m s = Some (inl e)) \/ (exists a s', m s = Some (inr (a, s')) /\ Q a s').
Proof.
  intros H. specialize (H ltac:(done)). destruct (m s) as [[e|[a s']]|]; [left; by exists e| |done].
  right. exists a, s'. split; [done|apply H].
Qed.

Lemma agree_runs {A} (m : F A) s Q : ends m s Q -> agree m m s (fun a b s' => a = b /\ Q a s').
Proof.
  intros [(e & E)|(a & s' & E & HQ)]%ends_spec; [left; by exists e|right]. by exists a, a, s'.
Qed.

Lemma agree_mono {A B} (m1 : F A) (m2 : F B) s (R R' : A -> B -> fuzz -> Prop) :
  agree m1 m2 s R -> (forall a b s', R a b s' -> R' a b s') -> agree m1 m2 s R'.
Proof. intros [?|(a & b & s' & E1 & E2 & Hr)] HR; [by left|right]. exists a, b, s'. auto. Qed.

Lemma agree_bind {A B C D} (m1 : F A) (m2 : F B) (k1 : A -> F C) (k2 : B -> F D) s R R' :
  agree m1 m2 s R -> (forall a b s', R a b s' -> agree (k1 a) (k2 b) s' R') -> agree (m1 ≫= k1) (m2 ≫= k2) s R'.
Proof.
  intros [(e & E1 & E2)|(a & b & s' & E1 & E2 & Hr)] Hk; unfold agree, mbind, F_bind; rewrite E1, E2.
  - left. by exists e.
  - by apply Hk.
Qed.

(** The same step on both sides. *)
Lemma agree_same {A C D} (m : F A) (k1 : A -> F C) (k2 : A -> F D) s Q R :
  ends m s Q -> (forall a s', Q a s' -> agree (k1 a) (k2 a) s' R) -> agree (m ≫= k1) (m ≫= k2) s R.
Proof.
  intros H Hk. eapply agree_bind; [by apply agree_runs|]. intros a b s' [<- HQ]. by apply Hk.
Qed.

(** What one of the two runs is known to do. *)
Lemma agree_and {A B} (m1 : F A) (m2 : F B) s R Q :
  agree m1 m2 s R -> ends m1 s Q -> agree m1 m2 s (fun a b s' => R a b s' /\ Q a s').
Proof.
  intros [?|(a & b & s' & E1 & E2 & Hr)] HQ; [by left|right]. exists a, b, s'.
  destruct (ends_spec m1 s Q HQ) as [(e & E)|(x & sx & E & Hx)]; rewrite E in E1; [done|].
  by injection E1 as -> ->.
Qed.

Lemma agree_ret {A B} (a : A) (b : B) s (R : A -> B -> fuzz -> Prop) : R a b s -> agree (mret a) (mret b) s R.
Proof. intros H. right. by exists a, b, s. Qed.

Lemma agree_fail {A B} s (R : A -> B -> fuzz -> Prop) : agree fail fail s R.
Proof. left. by exists Failed. Qed.

Lemma agree_exit {A B} s (R : A -> B -> fuzz -> Prop) : agree exit_1 exit_1 s R.
Proof. left. by exists Exit_1. Qed.

Lemma agree_the {A B C D} (o1 : option A) (o2 : option B) a b (k1 : A -> F C) (k2 : B -> F D) s R :
  o1 = Some a -> o2 = Some b -> agree (k1 a) (k2 b) s R -> agree (the o1 ≫= k1) (the o2 ≫= k2) s R.
Proof. intros -> -> H. exact H. Qed.

Lemma agree_if {A B} (c : bool) (m1 m1' : F A) (m2 m2' : F B) s R :
  (c = true -> agree m1 m2 s R) -> (c = false -> agree m1' m2' s R) ->
  agree (if c then m1 else m1') (if c then m2 else m2') s R.
Proof. destruct c; auto. Qed.

Lemma agree_rng {C D} (k1 : Z -> F C) (k2 : Z -> F D) s R :
  rng_state (fz_rng s) -> (forall x s', drawn s s' -> agree (k1 x) (k2 x) s' R) ->
  agree (rng ≫= k1) (rng ≫= k2) s R.
Proof. intros Hs Hk. eapply agree_same; [by apply (runs_rng _ _ s (fun _ s' => drawn s s'))|]. auto. Qed.

Lemma agree_below {C D} n (k1 : Z -> F C) (k2 : Z -> F D) s R :
  rng_state (fz_rng s) -> 0 <= n ->
  (forall x s', drawn s s' -> 0 <= x -> (x < n \/ n = 0 /\ x = 0) -> agree (k1 x) (k2 x) s' R) ->
  agree (rng_below n ≫= k1) (rng_below n ≫= k2) s R.
Proof.
  intros Hs Hn Hk. eapply agree_same.
  - by apply (runs_below _ _ n s (fun x s' => drawn s s' /\ 0 <= x /\ (x < n \/ n = 0 /\ x = 0))).
  - intros x s' (D' & H0 & Hx). auto.
Qed.

Lemma agree_pick {C D} a (k1 : Z -> F C) (k2 : Z -> F D) s R :
  rng_state (fz_rng s) -> a <> [] -> (forall x s', drawn s s' -> agree (k1 x) (k2 x) s' R) ->
  agree (pick a ≫= k1) (pick a ≫= k2) s R.
Proof.
  intros Hs Ha Hk. eapply agree_same.
  - apply (runs_pick _ _ (fun _ => True) a s (fun _ s' => drawn s s')); try done. by apply Forall_true.
  - auto.
Qed.

Lemma agree_attempt_or_exit {C D} (k1 : unit -> F C) (k2 : unit -> F D) s R :
  agree (k1 tt) (k2 tt) (s <| fz_attempts ::= tail |>) R ->
  agree (attempt_or_exit ≫= k1) (attempt_or_exit ≫= k2) s R.
Proof.
  intros Hk. eapply agree_same;
    [by apply (runs_attempt_or_exit _ s (fun _ s' => s' = s <| fz_attempts ::= tail |>))|]. by intros [] s' ->.
Qed.

Lemma agree_modify f1 f2 s (R : unit -> unit -> fuzz -> Prop) :
  f2 s = f1 s -> R tt tt (f1 s) -> agree (modify f1) (modify f2) s R.
Proof. intros E HR. right. exists tt, tt, (f1 s). unfold modify. by rewrite E. Qed.

Lemma agree_take {C D} (k1 : unit -> F C) (k2 : unit -> F D) s R :
  agree (k1 tt) (k2 tt) (s <| fz_os ::= malloc |>) R -> agree (take_block ≫= k1) (take_block ≫= k2) s R.
Proof. intros Hk. exact Hk. Qed.
Lemma agree_free {C D} (k1 : unit -> F C) (k2 : unit -> F D) s R :
  agree (k1 tt) (k2 tt) (s <| fz_os ::= free |>) R -> agree (free_block ≫= k1) (free_block ≫= k2) s R.
Proof. intros Hk. exact Hk. Qed.
Lemma agree_free_last s (R : unit -> unit -> fuzz -> Prop) :
  R tt tt (s <| fz_os ::= free |>) -> agree free_block free_block s R.
Proof. by apply agree_modify. Qed.

(** ** Buffers *)

(** Two buffers that agree on their first [len] bytes. *)
Definition alike (size len : Z) (b1 b2 : bytes) : Prop :=
  buffer_of size b1 /\ buffer_of size b2 /\ forall j : nat, Z.of_nat j < len -> b1 !! j = b2 !! j.

Lemma alike_less size len len' b1 b2 : len' <= len -> alike size len b1 b2 -> alike size len' b1 b2.
Proof. intros Hl (H1 & H2 & H). split; [done|]. split; [done|]. intros j Hj. apply H. lia. Qed.

Lemma alike_byte size len b1 b2 i : alike size len b1 b2 -> i < len -> byte_at b1 i = byte_at b2 i.
Proof. intros (_ & _ & H) Hi. unfold byte_at. case_decide; [|done]. apply H. lia. Qed.

Lemma alike_front size len b1 b2 :
  alike size len b1 b2 -> 0 <= len <= size -> bytes_at b1 0 len = bytes_at b2 0 len.
Proof.
  intros ([L1 _] & [L2 _] & H) Hl. unfold bytes_at. rewrite !decide_True by lia. f_equal.
  change (Z.to_nat 0) with 0%nat. rewrite !drop_0. apply list_eq. intros j.
  destruct (decide (Z.of_nat j < len)) as [Hj|Hj]; [rewrite !lookup_take_lt by lia; by apply H|].
  by rewrite !lookup_take_ge by lia.
Qed.

Lemma poke_alike size len b1 b2 i v s :
  alike size len b1 b2 -> 0 <= i <= len -> i < size -> is_byte v ->
  agree (poke b1 i v) (poke b2 i v) s (fun b1' b2' s' => s' = s /\ alike size (Z.max len (i + 1)) b1' b2').
Proof.
  intros ([L1 B1] & [L2 B2] & H) Hi Hs Hv. unfold poke. rewrite L1, L2.
  destruct (Z.leb_spec 0 i); [|lia]. destruct (Z.ltb_spec i size); [|lia]. cbn [andb].
  right. eexists _, _, s. split; [done|]. split; [done|]. split; [done|]. split; [|split].
  1,2: split; [by rewrite length_insert|by apply Forall_insert].
  intros j Hj. destruct (decide (j = Z.to_nat i)) as [->|Hne].
  - rewrite !list_lookup_insert_eq by lia. done.
  - rewrite !list_lookup_insert_ne by done. apply H. lia.
Qed.

(** The buffers of two runs, alike on [len] bytes, after random draws. *)
Definition alike_after (size len : Z) (s : fuzz) (b1 b2 : bytes) (s' : fuzz) : Prop :=
  drawn s s' /\ alike size len b1 b2.

Lemma poke_inside size len b1 b2 i v s :
  alike size len b1 b2 -> 0 <= i < len -> len <= size -> is_byte v -> rng_state (fz_rng s) ->
  agree (poke b1 i v) (poke b2 i v) s (alike_after size len s).
Proof.
  intros Hb Hi Hl Hv Hs. eapply agree_mono; [by apply (poke_alike size len); [|lia..|]|].
  intros b1' b2' s' [-> Hb']. split; [by apply drawn_refl|]. eapply alike_less; [|exact Hb']. lia.
Qed.

Lemma after_trans size len s1 s2 s3 b1 b2 : drawn s1 s2 -> alike_after size len s2 b1 b2 s3 -> alike_after size len s1 b1 b2 s3.
Proof. intros D1 [D2 H]. split; [draws|done]. Qed.

Lemma flip_bit_alike size len b1 b2 i s :
  alike size len b1 b2 -> 0 <= i < len -> len <= size -> rng_state (fz_rng s) ->
  agree (flip_bit_at b1 i) (flip_bit_at b2 i) s (alike_after size len s).
Proof.
  intros Hb Hi Hl Hs. unfold flip_bit_at. apply agree_below; [done|lia|]. intros bit s1 D1 _ _.
  destruct (byte_at_Some b1 i) as (b & E & Hbb); [destruct Hb as [[? _] _]; lia|apply Hb|].
  eapply agree_the; [exact E|by rewrite <- (alike_byte size len b1 b2 i) by (done || lia)|].
  eapply agree_mono; [apply (poke_inside size len); [done|lia|done| |draws]|].
  - apply byte_lxor; [done|apply wrap_is_u; lia].
  - intros ? ? ?. by apply after_trans.
Qed.

Lemma flip_random_bit_alike size len b1 b2 s :
  alike size len b1 b2 -> 0 <= len <= size -> rng_state (fz_rng s) ->
  agree (flip_random_bit b1 len) (flip_random_bit b2 len) s (alike_after size len s).
Proof.
  intros Hb Hl Hs. unfold flip_random_bit. destruct (Z.eqb_spec len 0).
  { apply agree_ret. split; [by apply drawn_refl|done]. }
  apply agree_below; [done|lia|]. intros i s1 D1 H0 Hi.
  eapply agree_mono; [apply (flip_bit_alike size len); [done|lia|lia|draws]|]. intros ? ? ?. by apply after_trans.
Qed.

Lemma poke16_alike size len b1 b2 off v s :
  alike size len b1 b2 -> 0 <= off -> off + 1 < len -> len <= size -> rng_state (fz_rng s) ->
  agree (poke16 b1 off v) (poke16 b2 off v) s (alike_after size len s).
Proof.
  intros Hb H0 Ho Hl Hs. unfold poke16.
  eapply agree_bind; [apply (poke_inside size len); [done|lia|done|apply wrap_is_u; lia|done]|].
  intros b1' b2' s1 [D1 Hb']. eapply agree_mono; [apply (poke_inside size len); [done|lia|done|apply wrap_is_u; lia|draws]|].
  intros ? ? ?. by apply after_trans.
Qed.

Lemma fill_random_alike size n b1 b2 at_ s :
  alike size at_ b1 b2 -> 0 <= at_ -> at_ + Z.of_nat n <= size -> rng_state (fz_rng s) ->
  agree (fill_random n b1 at_) (fill_random n b2 at_) s (alike_after size (at_ + Z.of_nat n) s).
Proof.
  revert b1 b2 at_ s. induction n as [|n IH]; intros b1 b2 at_ s Hb H0 Hn Hs; cbn [fill_random].
  { apply agree_ret. split; [by apply drawn_refl|]. by rewrite Z.add_0_r. }
  apply agree_rng; [done|]. intros x s1 D1.
  eapply agree_bind; [apply (poke_alike size at_); [done|lia|lia|apply wrap_is_u; lia]|].
  intros b1' b2' ? [-> Hb']. eapply agree_mono; [apply (IH b1' b2' (at_ + 1)); [|lia|lia|draws]|].
  - eapply alike_less; [|exact Hb']. lia.
  - intros c1 c2 s2 [D2 Hc]. split; [draws|]. eapply alike_less; [|exact Hc]. lia.
Qed.

(** ** Mutations *)
Definition same_frame (size : Z) (s : fuzz) (r1 r2 : bytes * Z) (s' : fuzz) : Prop :=
  drawn s s' /\ r2.2 = r1.2 /\ 0 <= r1.2 <= size /\ alike size r1.2 r1.1 r2.1.

Lemma keep_frame size len s s' b1 b2 :
  drawn s s' -> 0 <= len <= size -> alike size len b1 b2 -> same_frame size s (b1, len) (b2, len) s'.
Proof. done. Qed.

(** Every case of [mutate] that changes bytes in place ends this way. *)
Lemma agree_in_place size len m1 m2 s1 s2 :
  0 <= len <= size -> drawn s1 s2 -> agree m1 m2 s2 (alike_after size len s2) ->
  agree (b ← m1; mret (b, len)) (b ← m2; mret (b, len)) s2 (same_frame size s1).
Proof.
  intros Hl D1 H. eapply agree_bind; [exact H|]. intros b1 b2 s3 [D2 Hb]. apply agree_ret, keep_frame; [draws|done|done].
Qed.

Lemma mutate_round_alike size len b1 b2 s :
  alike size len b1 b2 -> 0 <= len <= size -> size <= SIZE_MAX -> rng_state (fz_rng s) ->
  agree (mutate_round b1 len size) (mutate_round b2 len size) s (same_frame size s).
Proof.
  intros Hb Hl Hsz Hs. unfold mutate_round. apply agree_below; [done|lia|]. intros c s1 D1 _ _.
  assert (H1 : rng_state (fz_rng s1)) by draws.
  assert (Hkeep : agree (mret (b1, len) : F (bytes * Z)) (mret (b2, len) : F (bytes * Z)) s1 (same_frame size s))
    by (by apply agree_ret, keep_frame).
  repeat (apply agree_if; intros ?); try exact Hkeep.
  - apply agree_in_place; [done|done|by apply flip_random_bit_alike].
  - apply agree_below; [done|lia|]. intros i s2 D2 Hi0 Hi. apply agree_rng; [draws|]. intros x s3 D3.
    apply agree_in_place; [done|draws|]. apply poke_inside; [done|lia|lia|apply wrap_is_u; lia|draws].
  - set (m := if len <? 96 then len else 96).
    assert (Hm : m <= len /\ 2 <= m) by (subst m; destruct (Z.ltb_spec len 96); lia).
    apply agree_below; [done|lia|]. intros off s2 D2 Hp Hoff. apply agree_pick; [draws|done|]. intros v s3 D3.
    apply agree_in_place; [done|draws|]. apply poke16_alike; [done|lia|lia|lia|draws].
  - set (m := if len <? 96 then len else 96).
    assert (Hm : m <= len /\ 1 <= m) by (subst m; destruct (Z.ltb_spec len 96); lia).
    apply agree_below; [done|lia|]. intros off s2 D2 Hp Hoff.
    apply agree_below; [draws|lia|]. intros nib s3 D3 _ _. apply agree_rng; [draws|]. intros r s4 D4.
    destruct (byte_at_Some b1 off) as (b & E & Hbb); [destruct Hb as [[? _] _]; lia|apply Hb|].
    eapply agree_the; [exact E|by rewrite <- (alike_byte size len b1 b2 off) by (done || lia)|].
    apply agree_in_place; [done|draws|].
    apply poke_inside; [done|lia|lia|destruct (negb _); apply wrap_is_u; lia|draws].
  - apply agree_below; [done|lia|]. intros n s2 D2 Hp Hn.
    apply agree_ret, keep_frame; [draws|lia|]. eapply alike_less; [|exact Hb]. lia.
  - apply agree_below; [done|lia|]. intros add s2 D2 Hp Hadd. rewrite size_sub_small by lia. cbv zeta.
    set (n := if add >? size - len then size - len else add).
    assert (Hnn : 0 <= n /\ len + n <= size) by (subst n; rewrite Z.gtb_ltb; destruct (Z.ltb_spec (size - len) add); lia).
    eapply agree_bind; [apply (fill_random_alike size); [exact Hb|lia|lia|draws]|].
    intros c1 c2 s3 [D3 Hc]. apply agree_ret, keep_frame; [draws|lia|]. eapply alike_less; [|exact Hc]. lia.
Qed.

Lemma mutate_rounds_alike size n b1 b2 len s :
  alike size len b1 b2 -> 0 <= len <= size -> size <= SIZE_MAX -> rng_state (fz_rng s) ->
  agree (mutate_rounds n b1 len size) (mutate_rounds n b2 len size) s (same_frame size s).
Proof.
  revert b1 b2 len s. induction n as [|n IH]; intros b1 b2 len s Hb Hl Hsz Hs; cbn [mutate_rounds].
  { apply agree_ret, keep_frame; [by apply drawn_refl|done|done]. }
  eapply agree_bind; [by apply mutate_round_alike|].
  intros [c1 len1] [c2 len2] s1 (D1 & El & Hl1 & Hc). cbn [fst snd] in *. subst len2.
  eapply agree_mono; [apply IH; [done|done|done|draws]|]. intros r1 r2 s2 (D2 & Hrest). split; [draws|done].
Qed.

Lemma mutate_alike size b1 b2 len s :
  alike size len b1 b2 -> 0 <= len <= size -> size <= SIZE_MAX -> rng_state (fz_rng s) ->
  agree (mutate b1 len size) (mutate b2 len size) s (same_frame size s).
Proof.
  intros Hb Hl Hsz Hs. unfold mutate. apply agree_below; [done|lia|]. intros n s1 D1 _ _.
  eapply agree_mono; [apply mutate_rounds_alike; [done|done|done|draws]|].
  intros r1 r2 s2 (D2 & Hrest). split; [draws|done].
Qed.

Lemma mutate_gtpu_alike size b1 b2 len at_ s :
  alike size len b1 b2 -> 0 <= len <= size -> 0 <= at_ -> rng_state (fz_rng s) ->
  agree (mutate_gtpu b1 len at_) (mutate_gtpu b2 len at_) s (alike_after size len s).
Proof.
  intros Hb Hl Hat Hs. unfold mutate_gtpu. apply agree_below; [done|lia|]. intros c s1 D1 _ _.
  assert (H1 : rng_state (fz_rng s1)) by draws.
  assert (Hkeep : agree (mret b1 : F bytes) (mret b2 : F bytes) s1 (alike_after size len s)) by (by apply agree_ret).
  assert (Hpost : forall m1 m2 s2, drawn s s2 -> agree m1 m2 s2 (alike_after size len s2) ->
                                   agree m1 m2 s2 (alike_after size len s))
    by (intros m1 m2 s2 D H; eapply agree_mono; [exact H|]; intros ? ? ?; by apply after_trans).
  assert (Hbyte : forall i, 0 <= i < len -> exists b, byte_at b1 i = Some b /\ byte_at b2 i = Some b).
  { intros i Hi. destruct (byte_at_Some b1 i) as (b & E & _); [destruct Hb as [[? _] _]; lia|apply Hb|].
    exists b. by rewrite <- (alike_byte size len b1 b2 i) by (done || lia). }
  repeat (apply agree_if; intros ?); try exact Hkeep.
  - apply Hpost; [done|]. by apply flip_bit_alike; [|lia..|].
  - apply agree_pick; [draws|done|]. intros v s2 D2. apply Hpost; [draws|]. apply poke16_alike; [done|lia|lia|lia|draws].
  - destruct (Hbyte (at_ + 2)) as (x & E1 & E2); [lia|]. eapply agree_the; [exact E1|exact E2|].
    destruct (Hbyte (at_ + 3)) as (y & F1 & F2); [lia|]. eapply agree_the; [exact F1|exact F2|].
    apply agree_below; [done|lia|]. intros delta s2 D2 _ _. apply Hpost; [draws|].
    apply poke16_alike; [done|lia|lia|lia|draws].
  - apply agree_rng; [done|]. intros r s2 D2. eapply agree_same with (Q := fun x s' => is_byte x /\ drawn s2 s').
    { apply runs_if; intros _; [apply runs_ret; split; [done|apply drawn_refl; draws]|].
      apply runs_bind, runs_rng; [draws|]. intros x s3 D3 _. apply runs_ret. split; [apply wrap_is_u; lia|done]. }
    intros x s3 [Hx D3]. apply Hpost; [draws|]. apply poke_inside; [done|lia|lia|done|draws].
  - eapply agree_same; [apply (runs_pick _ _ is_byte ext_len s1 (fun x s' => is_byte x /\ drawn s1 s'));
      [done|done|by repeat constructor|by intros]|].
    intros v s2 [Hv D2]. apply Hpost; [draws|]. apply poke_inside; [done|lia|lia|done|draws].
Qed.

(** ** Decoding and accounting *)
Section TwoMemories.
Context (junk1 junk2 : Z -> bytes) (Hj1 : junk_ok junk1) (Hj2 : junk_ok junk2) (os : resources).

Lemma heap_copy_alike data1 data2 len d s :
  holds_bytes data1 len d -> holds_bytes data2 len d -> rng_state (fz_rng s) ->
  agree (heap_copy junk1 data1 len) (heap_copy junk2 data2 len) s (fun e1 e2 s' => kept (s <| fz_os ::= malloc |>) s' /\
    exists x1 x2, e1 = d ++ x1 /\ e2 = d ++ x2 /\ (d <> [] -> x1 = [] /\ x2 = [])).
Proof.
  intros H1 H2 Hs. unfold heap_copy. apply agree_attempt_or_exit. apply agree_take.
  eapply agree_the; [exact H1|exact H2|]. apply agree_ret. split; [by destruct s|]. eexists _, _. split; [done|]. split; [done|].
  intros Hne. destruct (holds_bytes_len _ _ _ H1) as [El H0].
  destruct (Z.eqb_spec len 0) as [E0|E0]; [destruct d; [done|cbn in *; lia]|].
  split; apply drop_ge; [rewrite (proj1 (Hj1 len H0))|rewrite (proj1 (Hj2 len H0))]; lia.
Qed.

Lemma decode_checked_alike data1 data2 len wirelen d s :
  holds_bytes data1 len d -> holds_bytes data2 len d -> frame_ok d wirelen -> len <= wirelen ->
  rng_state (fz_rng s) ->
  agree (decode_checked junk1 data1 len wirelen) (decode_checked junk2 data2 len wirelen) s
    (fun r1 r2 s' => r1 = r2 /\ kept s s' /\ decode_frame d (caplen_of d) wirelen = Some r1).
Proof.
  intros H1 H2 Hf Hle Hs. unfold decode_checked, decode_exact.
  destruct (decode_frame_packet_ok d wirelen Hf) as (ds & pi & E & Hp).
  destruct (holds_bytes_len _ _ _ H1) as [El H0].
  eapply agree_bind with (R := fun r1 r2 s' => r1 = (ds, pi) /\ r2 = (ds, pi) /\ kept s s').
  { eapply agree_bind; [by eapply heap_copy_alike|]. intros e1 e2 s1 [K1 (x1 & x2 & -> & -> & _)].
    eapply agree_the; [rewrite <- El; by apply decode_frame_past|rewrite <- El; by apply decode_frame_past|].
    apply agree_free, agree_ret. split; [done|]. split; [done|by apply taken_freed]. }
  intros r1 r2 s1 (-> & -> & K1). rewrite (check_invariants_ok _ _ _ _ (wirelen =? len) Hp).
  2:{ unfold captured_in_full. lia. }
  cbn [negb]. eapply agree_bind with (R := fun _ _ s' => kept s s').
  2:{ intros ? ? s2 K2. by apply agree_ret. }
  unfold check_no_read_past_cap. apply agree_attempt_or_exit, agree_take. eapply agree_the; [exact H1|exact H2|].
  assert (Hpad : forall junk, junk_ok junk ->
    buffer_of (len + PAST_CAP_BYTES) (overwrite (junk (len + PAST_CAP_BYTES)) d)).
  { intros junk Hj. destruct (Hj (len + PAST_CAP_BYTES)) as [Hjl Hjb]; [unfold PAST_CAP_BYTES; lia|].
    unfold overwrite, PAST_CAP_BYTES in *. split; [rewrite length_app, length_drop; lia|].
    apply Forall_app. split; [apply Hf|by apply Forall_drop]. }
  assert (K2 : kept (s <| fz_os ::= malloc |>) (s1 <| fz_attempts ::= tail |> <| fz_os ::= malloc |>))
    by (destruct K1 as [A B C D], s, s1; cbn in *; subst; by split).
  revert K2. generalize (s1 <| fz_attempts ::= tail |> <| fz_os ::= malloc |>). intros s2 K2.
  eapply agree_bind.
  { apply agree_and.
    - apply (fill_random_alike (len + PAST_CAP_BYTES)); [|done|unfold PAST_CAP_BYTES; lia|keeps].
      split; [by apply Hpad|]. split; [by apply Hpad|]. intros j Hj. unfold overwrite. by rewrite !lookup_app_l by lia.
    - apply (fill_random_ok good_weather adrift (len + PAST_CAP_BYTES)); [by apply Hpad|done|unfold PAST_CAP_BYTES; lia|keeps]. }
  intros p1 p2 s3 [[D3 ([L1 _] & [L2 _] & Hsame)] [_ Hfront]].
  assert (Ep : p2 = p1).
  { apply list_eq. intros j. destruct (decide (Z.of_nat j < len + PAST_CAP_BYTES)) as [Hj|Hj].
    - symmetry. apply Hsame. unfold PAST_CAP_BYTES in *. lia.
    - by rewrite !lookup_ge_None_2 by lia. }
  assert (Epad : p1 = d ++ drop (Z.to_nat len) p1).
  { rewrite <- (take_drop (Z.to_nat len) p1) at 1. f_equal. rewrite Hfront. unfold overwrite.
    rewrite <- El, Nat2Z.id. apply take_app_length. }
  subst p2. assert (E2 : decode_frame p1 len wirelen = Some (ds, pi))
    by (rewrite Epad, <- El; by apply decode_frame_past).
  eapply agree_the; [exact E2|exact E2|]. cbv beta iota. apply agree_free.
  rewrite same_info_refl. cbn [negb]. apply agree_ret, taken_freed. keeps.
Qed.

Lemma process_record_alike n p rec s :
  fuzz_inv os n s -> n + 1 <= 2 ^ 56 -> cap_fits p -> caplen_of (cp_data p) <= cp_wirelen p ->
  rec_caplen rec = caplen_of (cp_data p) -> rec_wirelen rec = cp_wirelen p -> rec_ts_ns rec = cp_ts_ns p ->
  agree (process_record junk1 rec (cp_data p)) (process_record junk2 rec (cp_data p)) s
    (fun _ _ s' => fuzz_inv os (n + 1) s').
Proof.
  intros Hs Hn Hp Hle Ec Ew Et. unfold process_record. rewrite Ec, Ew, Et.
  destruct (Z.ltb_spec (cp_wirelen p) (caplen_of (cp_data p))); [lia|].
  pose proof (holds_file (cp_data p)) as Hd.
  eapply agree_bind; [by apply (decode_checked_alike _ _ _ _ (cp_data p)); [| |apply Hp| |apply Hs]|].
  intros [ds pi] r2 s1 (<- & K1 & E).
  destruct (decode_of_spec p (proj1 Hp)) as (st & E' & _). rewrite E in E'. injection E' as -> ->.
  eapply agree_mono; [apply agree_runs, (account_ok os adrift n p); [by eapply inv_kept|done|done]|].
  by intros a b s2 [_ Hs2].
Qed.

Lemma count_up_alike n f s :
  (forall t, tt_tunnel_gpdus (f t) = tt_tunnel_gpdus t) -> fuzz_inv os n s ->
  agree (count_up f) (count_up f) s (fun _ _ s' => fuzz_inv os n s').
Proof.
  intros Hf Hs. eapply agree_mono; [by apply agree_runs, (count_up_ok os adrift n)|]. by intros a b s2 [_ Hs2].
Qed.

(** Two pairs of readers at the same place: the memory readers are the same, the
    stream readers differ in their record buffers. *)
Lemma read_lockstep_alike exact fuel n mr fr1 fr2 mrec frec1 frec2 s :
  twins exact mr fr1 -> twins exact mr fr2 -> (length (remaining mr) < fuel)%nat ->
  fuzz_inv os n s -> n + Z.of_nat (length (remaining mr)) <= 2 ^ 56 ->
  Z.of_nat (length exact) <= SIZE_MAX ->
  agree (read_lockstep junk1 fuel (caplen_of exact) mr fr1 mrec frec1)
        (read_lockstep junk2 fuel (caplen_of exact) mr fr2 mrec frec2) s
    (fun r1 r2 s' => fuzz_inv os (n + Z.of_nat (length (remaining mr))) s' /\ r1.1 = r2.1 /\
       (r_records r1.1.2 = r_records r1.2 /\ r_records r1.1.2 = r_records r2.2) /\
       owns r1.1.2 = (false, false) /\ owns r1.2 = owns fr1 /\ owns r2.2 = owns fr2).
Proof.
  revert n mr fr1 fr2 mrec frec1 frec2 s.
  induction fuel as [|fuel IH]; intros n mr fr1 fr2 mrec frec1 frec2 s Ht1 Ht2 Hf Hs Hn Hsz; [lia|].
  cbn [read_lockstep]. pose proof (lockstep_step exact mr fr1 mrec frec1 Ht1 Hsz) as S1.
  pose proof (lockstep_step exact mr fr2 mrec frec2 Ht2 Hsz) as S2. unfold pstatus_eqb.
  destruct (split_record (r_info mr) (remaining mr)) as [st|[p rest]].
  - destruct S1 as (ms & mr' & mrec' & f1 & q1 & Em & E1 & Hms & R1 & O & O1).
    destruct S2 as (ms2 & mr2 & mrec2 & f2 & q2 & Em2 & E2 & _ & R2 & _ & O2).
    rewrite Em in Em2. injection Em2 as <- <- <-.
    eapply agree_the; [exact Em|exact Em|]. eapply agree_the; [exact E1|exact E2|]. cbv beta iota.
    rewrite (bool_decide_true (ms = ms)), (bool_decide_false (ms = PCAP_OK)) by done. cbn [negb].
    apply agree_ret. cbn [fst snd]. split; [by eapply inv_more; [|done]; lia|done].
  - destruct S1 as (mr' & mrec' & f1 & q1 & Em & E1 & B1 & T1 & Hl & O1).
    destruct S2 as (mr2 & mrec2 & f2 & q2 & Em2 & E2 & B2 & T2 & _ & O2).
    rewrite Em in Em2. injection Em2 as <- <-.
    pose proof (br_fields _ _ _ _ _ _ B1) as ([C1 C2] & [W1 W2] & [U1 U2]).
    pose proof (br_fields _ _ _ _ _ _ B2) as ([_ C3] & [_ W3] & [_ U3]).
    destruct (br_inside _ _ _ _ _ _ B1) as (off & Eoff & Hin).
    eapply agree_the; [exact Em|exact Em|]. eapply agree_the; [exact E1|exact E2|]. cbv beta iota.
    rewrite !bool_decide_true by done. rewrite C1, C2, C3, W1, W2, W3, U1, U2, U3, !Z.eqb_refl. cbn [negb orb].
    eapply agree_the; [apply B1|apply B1|]. eapply agree_the; [apply B1|apply B2|].
    rewrite !bool_decide_true by done. cbn [negb]. eapply agree_the; [by rewrite Eoff|by rewrite Eoff|]. rewrite Hin.
    eapply agree_bind; [apply (process_record_alike n p); [done|lia|apply B1|apply B1|done..]|]. intros ? ? s1 Hs1.
    eapply agree_bind; [by apply (count_up_alike (n + 1))|]. intros ? ? s2 Hs2.
    eapply agree_mono; [apply (IH (n + 1)); [done|done|lia|done|lia|done]|]. rewrite O1, O2.
    intros r1 r2 s3 (I1 & I2). split; [eapply inv_more; [|exact I1]; lia|done].
Qed.
End TwoMemories.

(** ** A damaged capture *)
Section Replay.
Context (junk1 junk2 : Z -> bytes) (Hj1 : junk_ok junk1) (Hj2 : junk_ok junk2).

Lemma record_buffer junk : junk_ok junk -> buffer_ok (Some (junk PCAP_MAX_CAPLEN)).
Proof. intros Hj buf [= <-]. destruct (Hj PCAP_MAX_CAPLEN) as [E _]; [done|]. by rewrite E. Qed.

(** The same bytes, opened twice with either memory, the record buffer granted or not. *)
Definition record_block (junk : Z -> bytes) (granted : bool) : option bytes :=
  if granted then Some (junk PCAP_MAX_CAPLEN) else None.

Lemma record_block_ok junk granted : junk_ok junk -> buffer_ok (record_block junk granted).
Proof. intros Hj. destruct granted; [by apply record_buffer|done]. Qed.

Lemma open_streams_alike e1 e2 file os0 granted :
  Forall is_byte file -> Z.of_nat (length file) <= SIZE_MAX -> (file <> [] -> e1 = file /\ e2 = file) ->
  exists fs fr1 fr2 os',
    pcap_open_stream (Some (File file 0 None false)) (record_block junk1 granted) os0 = Some (fs, fr1, os') /\
    pcap_open_stream (Some (File file 0 None false)) (record_block junk2 granted) os0 = Some (fs, fr2, os').
Proof.
  intros Hb Hsz He.
  destruct (open_both_ok e1 file _ os0 Hb Hsz (fun H => proj1 (He H)) (record_block_ok junk1 granted Hj1))
    as (ms1 & mr1 & fs1 & fr1 & os1 & _ & Ef1 & _ & _ & Hms1 & Heq1 & _).
  destruct (open_both_ok e2 file _ os0 Hb Hsz (fun H => proj2 (He H)) (record_block_ok junk2 granted Hj2))
    as (ms2 & mr2 & fs2 & fr2 & os2 & _ & Ef2 & _ & _ & Hms2 & Heq2 & _).
  destruct granted; cbn [record_block] in *.
  - destruct Heq1; [by eexists|]. destruct Heq2; [by eexists|]. assert (ms2 = ms1) as -> by congruence.
    exists ms1, fr1, fr2, os1. split; [done|].
    rewrite (open_stream_same_os (File file 0 None false) (junk1 PCAP_MAX_CAPLEN) (junk2 PCAP_MAX_CAPLEN) os0 ms1 fr1 fr2 os1 os2);
      [done| |by apply record_buffer|by apply record_buffer|done|done].
    split; [done|]. cbn. split; [lia|done].
  - exists fs1, fr1, fr1, os1. done.
Qed.

Lemma open_both_alike e1 e2 file os0 granted :
  Forall is_byte file -> Z.of_nat (length file) <= SIZE_MAX ->
  (file <> [] -> e1 = file /\ e2 = file) ->
  exists ms mr1 mr2 fs fr1 fr2 os',
    pcap_open_mem e1 (caplen_of file) = Some (ms, mr1) /\ pcap_open_mem e2 (caplen_of file) = Some (ms, mr2) /\
    pcap_open_stream (Some (File file 0 None false)) (record_block junk1 granted) os0 = Some (fs, fr1, os') /\
    pcap_open_stream (Some (File file 0 None false)) (record_block junk2 granted) os0 = Some (fs, fr2, os') /\
    (ms = fs ->
    (pcap_close fr1 os').2 = Resources (os_files os0 - 1) (os_blocks os0) /\
    (pcap_close fr2 os').2 = Resources (os_files os0 - 1) (os_blocks os0) /\
    (ms <> PCAP_OK -> r_records mr1 = 0 /\ r_records mr2 = 0 /\ r_records fr1 = 0 /\ r_records fr2 = 0 /\
       owns mr1 = (false, false) /\ owns mr2 = (false, false)) /\
    (ms = PCAP_OK -> mr2 = mr1 /\ twins file mr1 fr1 /\ twins file mr1 fr2 /\
       (length (remaining mr1) <= length file)%nat)).
Proof.
  intros Hb Hsz He.
  destruct (open_streams_alike e1 e2 file os0 granted Hb Hsz He) as (fs & fr1 & fr2 & os1 & F1 & F2).
  destruct (open_both_ok e1 file _ os0 Hb Hsz (fun H => proj1 (He H)) (record_block_ok junk1 granted Hj1))
    as (ms & mr1 & fs1 & q1 & o1 & Em1 & Ef1 & P1 & P2 & Hms & _ & Hbad1 & Hok1).
  destruct (open_both_ok e2 file _ os0 Hb Hsz (fun H => proj2 (He H)) (record_block_ok junk2 granted Hj2))
    as (ms2 & mr2 & fs2 & q2 & o2 & Em2 & Ef2 & Q1 & Q2 & Hms2 & _ & Hbad2 & Hok2).
  rewrite F1 in Ef1. injection Ef1 as <- <- <-. rewrite F2 in Ef2. injection Ef2 as <- <- <-.
  assert (ms2 = ms) as -> by congruence.
  exists ms, mr1, mr2, fs, fr1, fr2, os1. do 4 (split; [done|]). intros <-.
  destruct (decide (ms = PCAP_OK)) as [Hok|Hne].
  - destruct (Hok1 Hok Hok) as (T1 & E1 & L1 & C1). destruct (Hok2 Hok Hok) as (T2 & E2 & _ & C2).
    split; [done|]. split; [done|]. split; [intros Hno; by destruct Hno|]. intros _.
    subst e1 e2. rewrite Em1 in Em2. by injection Em2 as <-.
  - destruct (Hbad1 Hne) as [R1 C1]. destruct (Hbad2 Hne) as [R2 C2].
    split; [done|]. split; [done|]. split; [|done]. intros _. repeat (split; [done|]). done.
Qed.

(** The two runs over a file both opened with status [ms]. *)
Lemma read_opened_alike os os' n file ms mr1 mr2 fr1 fr2 s :
  fuzz_inv os' n s -> n + Z.of_nat (length file) <= 2 ^ 56 -> Z.of_nat (length file) <= SIZE_MAX ->
  (pcap_close fr1 os').2 = os -> (pcap_close fr2 os').2 = os ->
  (ms <> PCAP_OK -> r_records mr1 = 0 /\ r_records mr2 = 0 /\ r_records fr1 = 0 /\ r_records fr2 = 0 /\
     owns mr1 = (false, false) /\ owns mr2 = (false, false)) ->
  (ms = PCAP_OK -> mr2 = mr1 /\ twins file mr1 fr1 /\ twins file mr1 fr2 /\
     (length (remaining mr1) <= length file)%nat) ->
  agree (if pstatus_eqb ms PCAP_OK then
           read_lockstep junk1 (S (length file)) (caplen_of file) mr1 fr1 (Pcap_record 0 0 0 None) (Pcap_record 0 0 0 None)
         else mret (ms, mr1, fr1))
        (if pstatus_eqb ms PCAP_OK then
           read_lockstep junk2 (S (length file)) (caplen_of file) mr2 fr2 (Pcap_record 0 0 0 None) (Pcap_record 0 0 0 None)
         else mret (ms, mr2, fr2)) s
    (fun r1 r2 s' => fuzz_inv os' (n + Z.of_nat (length file)) s' /\ r1.1.1 = r2.1.1 /\
    (r_records r1.1.2 = r_records r1.2 /\ r_records r2.1.2 = r_records r2.2) /\
    (owns r1.1.2 = (false, false) /\ owns r2.1.2 = (false, false)) /\
    (pcap_close r1.2 os').2 = os /\ (pcap_close r2.2 os').2 = os).
Proof.
  intros Hs Hn Hsz C1 C2 Hbad Hok. unfold pstatus_eqb. destruct (bool_decide_reflect (ms = PCAP_OK)) as [Ems|Hne].
  - destruct (Hok Ems) as (-> & T1 & T2 & Hrem).
    eapply agree_mono; [apply (read_lockstep_alike junk1 junk2 Hj1 Hj2 os' file _ n); [done|done|lia|done|lia|lia]|].
    intros r1 r2 s6 (I1 & Er & [R1 R2] & O1 & O2 & O3). split; [eapply inv_more; [|exact I1]; lia|].
    rewrite <- Er. do 3 (split; [done|]).
    by rewrite (close_same_owner r1.2 fr1), (close_same_owner r2.2 fr2) by done.
  - destruct (Hbad Hne) as (R1 & R2 & R3 & R4 & O1 & O2). apply agree_ret. cbn [fst snd].
    split; [eapply inv_more; [|exact Hs]; lia|]. split; [done|]. split; [split; congruence|]. done.
Qed.

Lemma read_both_alike os n file s :
  fuzz_inv os n s -> Forall is_byte file -> n + Z.of_nat (length file) <= 2 ^ 56 ->
  Z.of_nat (length file) <= SIZE_MAX ->
  agree (read_both junk1 file) (read_both junk2 file) s
    (fun _ _ s' => fuzz_inv os (n + Z.of_nat (length file)) s').
Proof.
  intros Hs Hb Hn Hsz. unfold read_both.
  pose proof (holds_file file) as Hd.
  eapply agree_bind; [by apply (heap_copy_alike junk1 junk2 Hj1 Hj2 _ _ _ file); [| |apply Hs]|].
  intros e1 e2 s1 (K1 & x1 & x2 & E1 & E2 & Hx). apply inv_taken in Hs. set (os1 := malloc os) in *.
  assert (He : file <> [] -> e1 = file /\ e2 = file)
    by (intros Hne; destruct (Hx Hne) as [-> ->]; rewrite app_nil_r in *; done).
  assert (Etmp : write_tmp e2 (caplen_of file) = write_tmp e1 (caplen_of file)).
  { unfold write_tmp. assert (Eb : forall x, bytes_at (file ++ x) 0 (caplen_of file) = Some file).
    { intros x. unfold bytes_at. rewrite decide_True by (rewrite length_app; lia).
      change (Z.to_nat 0) with 0%nat. by rewrite Nat2Z.id, drop_0, take_app_length. }
    by rewrite E1, E2, !Eb. }
  rewrite Etmp. eapply agree_same; [rewrite E1; eapply (write_tmp_ok os1 adrift n); by eapply inv_kept|].
  intros tmp s2 [-> Hs2]. eapply agree_same; [by apply (count_up_ok (one_more os1) adrift n)|]. intros ? s3 Hs3.
  destruct (open_both_alike e1 e2 file (one_more os1) true Hb Hsz He)
    as (ms & mr1 & mr2 & _ & _ & _ & _ & M1 & M2 & _).
  eapply agree_the; [exact M1|exact M2|]. cbv beta iota.
  eapply agree_same; [by apply (runs_attempt adrift s3 (fun b s' => s' = s3 <| fz_attempts ::= tail |>))|]. intros b s4 E4.
  assert (Hs4 : fuzz_inv (one_more os1) n s4) by (cbv beta in E4; subst s4; eapply inv_kept; [apply attempted_kept, Hs3|done]).
  clear E4. eapply agree_same; [by apply (runs_get _ _ fz_os s4 (fun o s' => o = one_more os1 /\ s' = s4)); split; [apply Hs4|]|].
  intros o ? [-> ->]. destruct (open_both_alike e1 e2 file (one_more os1) b Hb Hsz He)
    as (ms' & mr1' & mr2' & fs & fr1 & fr2 & os' & M1' & M2' & F1 & F2 & Halike).
  rewrite M1 in M1'. injection M1' as <- <-. rewrite M2 in M2'. injection M2' as <-. rewrite one_more_less in Halike.
  eapply agree_the; [exact F1|exact F2|]. cbv beta iota.
  eapply agree_bind; [apply (agree_modify _ _ s4 (fun _ _ s' => fuzz_inv os' n s')); [done|]|].
  { by apply (inv_os _ os' _ _ (fun x => x <| fz_os := os' |>) Hs4). }
  intros ? ? s5 Hs5.
  unfold pstatus_eqb at 1 3. destruct (bool_decide_reflect (ms = fs)) as [Efs|_]; cbn [negb]; [|by apply agree_fail].
  destruct (Halike Efs) as (C1 & C2 & Hbad & Hok).
  eapply agree_bind; [by apply (read_opened_alike os1 os' n file)|].
  intros [[ms1 m1] f1] [[ms2 m2] f2] s6 (Hs6 & Ems & [R1 R2] & [O1 O2] & D1 & D2). cbn [fst snd] in *. subst ms2.
  rewrite R1, R2, !Z.eqb_refl. cbn [negb].
  eapply agree_bind; [by apply (count_up_alike os')|]. intros ? ? s7 Hs7.
  eapply agree_bind with (R := fun _ _ s' => fuzz_inv os' (n + Z.of_nat (length file)) s').
  { apply agree_if; intros _; [by apply count_up_alike|by apply agree_ret]. }
  intros ? ? s8 Hs8.
  eapply agree_bind; [apply (agree_modify _ _ s8 (fun _ _ s' => fuzz_inv os1 (n + Z.of_nat (length file)) s'))|].
  - by rewrite !(closed_both os1 os' (n + Z.of_nat (length file))).
  - by eapply closed_inv.
  - intros ? ? s9 Hs9. by apply agree_free_last, inv_freed.
Qed.

(** ** Building a capture *)
Lemma seed_written_alike b1 b2 seed :
  buffer_of SIZE b1 -> buffer_of SIZE b2 -> Forall is_byte seed -> Z.of_nat (length seed) <= SIZE ->
  exists c1 c2, write_at b1 0 seed = Some c1 /\ write_at b2 0 seed = Some c2 /\
    alike SIZE (Z.of_nat (length seed)) c1 c2.
Proof.
  intros H1 H2 Hs Hl. destruct (seed_written b1 seed H1 Hs Hl) as (c1 & E1 & C1).
  destruct (seed_written b2 seed H2 Hs Hl) as (c2 & E2 & C2). exists c1, c2. split; [done|]. split; [done|].
  split; [done|]. split; [done|]. intros j Hj. revert E1 E2. unfold write_at.
  do 2 (case_decide; [|done]). intros [= <-] [= <-]. change (Z.to_nat 0) with 0%nat. cbn [take app].
  by rewrite !lookup_app_l by lia.
Qed.

Lemma alike_0 b1 b2 : buffer_of SIZE b1 -> buffer_of SIZE b2 -> alike SIZE 0 b1 b2.
Proof. intros H1 H2. split; [done|]. split; [done|]. intros j Hj. lia. Qed.

Lemma build_records_alike n seeds be file hdrs b1 b2 s :
  seeds_ok seeds -> buffer_of SIZE b1 -> buffer_of SIZE b2 -> rng_state (fz_rng s) ->
  agree (build_records n seeds be file hdrs b1) (build_records n seeds be file hdrs b2) s (fun r1 r2 _ => r2 = r1).
Proof.
  intros Hseeds. revert file hdrs b1 b2 s.
  induction n as [|n IH]; intros file hdrs b1 b2 s H1 H2 Hs; cbn [build_records]; [by apply agree_ret|].
  apply agree_below; [done|lia|]. intros k s1 D1 H0 Hk.
  destruct (seed_at seeds Hseeds k H0 Hk) as (seed & E & Hsb & Hsl). eapply agree_the; [exact E|exact E|].
  destruct (seed_written_alike b1 b2 seed H1 H2 Hsb Hsl) as (c1 & c2 & E1 & E2 & Hc).
  eapply agree_the; [exact E1|exact E2|]. apply agree_rng; [draws|]. intros r s2 D2.
  eapply agree_bind with (R := same_frame SIZE s2).
  { apply agree_if; intros _; [apply mutate_alike; [done|lia|done|draws]|].
    apply agree_ret, keep_frame; [apply drawn_refl; draws|lia|done]. }
  intros [f1 len] [f2 len2] s3 (D3 & El & Hlen & Hf). cbn [fst snd] in *. subst len2.
  apply agree_rng; [draws|]. intros r2 s4 D4.
  eapply agree_same with (Q := fun _ s' => drawn s4 s').
  { apply runs_if; intros _; [|apply runs_ret, drawn_refl; draws].
    apply runs_bind, runs_below; [draws|lia|]. intros x s' D _ _. by apply runs_ret. }
  intros extra s5 D5. apply agree_rng; [draws|]. intros sec s6 D6. apply agree_rng; [draws|]. intros frac s7 D7.
  assert (Eu : u32 len = len) by (apply wrap_small; unfold is_u, SIZE, MAX_FRAME in *; lia). rewrite Eu.
  destruct (front_bytes f1 len (proj1 Hf) Hlen) as (d & Ed & _).
  eapply agree_the; [exact Ed|by rewrite <- (alike_front SIZE len f1 f2)|].
  apply IH; [apply Hf|apply Hf|draws].
Qed.

Lemma fuzz_reader_alike os n seeds s :
  seeds_ok seeds -> fuzz_inv os n s -> n + CAPTURE <= 2 ^ 56 ->
  agree (fuzz_reader junk1 seeds) (fuzz_reader junk2 seeds) s (fun _ _ s' => fuzz_inv os (n + CAPTURE) s').
Proof.
  intros Hseeds Hs Hn. unfold fuzz_reader. apply agree_below; [apply Hs|done|]. intros nrec s1 D1 H0 Hrec.
  apply agree_rng; [draws|]. intros r1 s2 D2. apply agree_rng; [draws|]. intros r2 s3 D3.
  set (be := negb _). set (nsec := negb _).
  assert (Hb : forall junk, junk_ok junk -> buffer_of SIZE (junk (MAX_FRAME + 64)))
    by (intros junk Hj; destruct (Hj (MAX_FRAME + 64)) as [E ?]; [done|]; split; [by rewrite E|done]).
  eapply agree_bind.
  { apply agree_and; [apply build_records_alike; [done|by apply Hb|by apply Hb|draws]|].
    apply (build_records_ok good_weather adrift seeds Hseeds); [|by apply Hb|draws].
    split; [apply global_header_bytes|constructor]. }
  intros [file hdrs] r s4 [-> (D4 & Hf & Hl & _)]. cbn [fst snd] in *.
  assert (Hg : Z.of_nat (length (pcap_put_global [] be nsec 65535 1)) = 24).
  { unfold pcap_put_global. cbv zeta. autorewrite with builder. by destruct be. }
  rewrite Hg in Hl. eapply agree_same; [apply damage_ok; [exact Hf|draws]|]. intros file' s5 (D5 & Hfb & Hl5).
  assert (Hlen : Z.of_nat (length file') <= CAPTURE) by (unfold CAPTURE, MAX_RECORDS, SIZE, MAX_FRAME in *; lia).
  eapply agree_mono; [apply (read_both_alike os n); [|done|lia|]|].
  - eapply inv_drawn; [|exact Hs]. draws.
  - unfold CAPTURE, MAX_RECORDS, SIZE, MAX_FRAME, SIZE_MAX in *. lia.
  - intros ? ? s6 Hs6. eapply inv_more; [|exact Hs6]. lia.
Qed.

(** ** An iteration *)
Lemma fuzz_addr_alike inet_ntop os n s :
  fuzz_inv os n s ->
  agree (fuzz_addr junk1 inet_ntop) (fuzz_addr junk2 inet_ntop) s (fun _ _ s' => fuzz_inv os n s').
Proof.
  intros Hs. unfold fuzz_addr.
  eapply agree_same; [apply random_groups_ok, Hs|]. intros a s1 (D1 & Hl & Hb).
  apply agree_below; [draws|lia|]. intros m s2 D2 _ _.
  destruct (mapped_bytes m a Hl Hb) as [Hlb Hbb]. cbv zeta in *. set (b := if m =? 0 then _ else a) in *. clearbody b.
  pose proof (addr_array junk1 Hj1) as A1. pose proof (addr_array junk2 Hj2) as A2.
  destruct (addr_formatted _ _ b Hlb Hbb A1 A1) as (m1 & E1 & F1).
  destruct (addr_formatted _ _ b Hlb Hbb A2 A2) as (m2 & E2 & F2).
  eapply agree_the; [exact E1|exact E2|]. eapply agree_the; [exact F1|exact F2|].
  eapply agree_mono; [apply agree_runs, (compared_ok os adrift inet_ntop n b); [done..|]|by intros ? ? ? [_ ?]].
  eapply inv_drawn; [|exact Hs]. draws.
Qed.

Lemma mutated_seed_alike seeds gtp_at b1 b2 s :
  seeds_ok seeds -> gtp_ok gtp_at seeds -> buffer_of SIZE b1 -> buffer_of SIZE b2 -> rng_state (fz_rng s) ->
  agree (mutated_seed seeds gtp_at b1) (mutated_seed seeds gtp_at b2) s (fun r1 r2 s' =>
    r2.1.2 = r1.1.2 /\ r2.2 = r1.2 /\ alike SIZE r1.1.2 r1.1.1 r2.1.1).
Proof.
  intros Hseeds [Hgl Hg] H1 H2 Hs. unfold mutated_seed.
  apply agree_below; [done|lia|]. intros k s1 D1 H0 Hk.
  destruct (seed_at seeds Hseeds k H0 Hk) as (seed & E & Hsb & Hsl). eapply agree_the; [exact E|exact E|].
  destruct (lookup_lt_is_Some_2 gtp_at (Z.to_nat k)) as [gtp Eg]; [rewrite Hgl; by eapply lookup_lt_Some|].
  eapply agree_the; [exact Eg|exact Eg|]. pose proof (Forall_lookup_1 _ _ _ _ Hg Eg) as Hg0. cbn in Hg0.
  destruct (seed_written_alike b1 b2 seed H1 H2 Hsb Hsl) as (c1 & c2 & E1 & E2 & Hc).
  eapply agree_the; [exact E1|exact E2|].
  eapply agree_bind with (R := alike_after SIZE (Z.of_nat (length seed)) s1).
  { assert (Hkeep : forall s', drawn s1 s' -> agree (mret c1 : F bytes) (mret c2 : F bytes) s'
      (alike_after SIZE (Z.of_nat (length seed)) s1)) by (intros; by apply agree_ret).
    apply agree_if; intros _; [|apply Hkeep, drawn_refl; draws].
    apply agree_rng; [draws|]. intros r s' D. apply agree_if; intros _; [|by apply Hkeep].
    eapply agree_mono; [apply (mutate_gtpu_alike SIZE); [done|lia|done|draws]|]. intros ? ? ?. by apply after_trans. }
  intros w1 w2 s2 [D2 Hw]. eapply agree_bind; [apply (mutate_alike SIZE); [exact Hw|lia|done|draws]|].
  intros [f1 len] [f2 len2] s3 (D3 & El & Hlen & Hf). cbn [fst snd] in *. subst len2.
  apply agree_rng; [draws|]. intros r s4 D4.
  eapply agree_same with (Q := fun _ _ => True); [|by intros wirelen s5 _; apply agree_ret].
  apply runs_if; intros _; [by apply runs_ret|]. apply runs_bind, runs_below; [draws|lia|].
  intros x s' _ _ _. by apply runs_ret.
Qed.

Lemma fuzz_iteration_alike inet_ntop os n seeds gtp_at i b1 b2 s :
  seeds_ok seeds -> gtp_ok gtp_at seeds -> buffer_of SIZE b1 -> buffer_of SIZE b2 ->
  is_u 64 i -> fuzz_inv os n s -> n + BATCH <= 2 ^ 56 ->
  agree (fuzz_iteration junk1 inet_ntop seeds gtp_at i b1) (fuzz_iteration junk2 inet_ntop seeds gtp_at i b2) s
    (fun c1 c2 s' => (buffer_of SIZE c1 /\ buffer_of SIZE c2) /\ fuzz_inv os (n + BATCH) s').
Proof.
  intros Hseeds Hg H1 H2 Hi Hs Hn. unfold fuzz_iteration.
  eapply agree_bind.
  { apply agree_and; [by apply mutated_seed_alike, Hs|]. by apply mutated_seed_ok, Hs. }
  intros [[w1 len] wirelen] [[w2 len2] wirelen2] s5 [(El & Ew & Hw) (D5 & Hw1 & Hlen & Hwire)].
  cbn [fst snd] in *. subst len2 wirelen2. destruct (front_bytes w1 len Hw1 Hlen) as (d & Ed & Hdb & Hdl).
  assert (Ed2 : bytes_at w2 0 len = Some d) by (by rewrite <- (alike_front SIZE len w1 w2)).
  assert (Hf : frame_ok d wirelen) by (split; [done|unfold SIZE_MAX; lia]).
  eapply agree_bind.
  { apply (decode_checked_alike junk1 junk2 Hj1 Hj2 w1 w2 len wirelen d); [exact Ed|exact Ed2|done|lia|draws]. }
  intros [ds pi] r2 s6 (<- & K6 & Edec).
  assert (Hs6 : fuzz_inv os n s6) by (eapply inv_kept; [exact K6|]; by eapply inv_drawn).
  eapply agree_bind; [by apply (count_up_alike os n)|]. intros ? ? s7 Hs7.
  eapply agree_bind; [by apply (count_up_alike os n)|]. intros ? ? s8 Hs8.
  eapply agree_bind with (R := fun _ _ s' => fuzz_inv os n s').
  { apply agree_if; intros _; [|by apply agree_ret].
    eapply agree_bind; [by apply (count_up_alike os n)|]. intros ? ? s' Hs'.
    eapply agree_bind; [by apply (count_up_alike os n)|]. intros ? ? s'' Hs''. by apply count_up_alike. }
  intros ? ? s9 Hs9. rewrite !is_u32_len by lia.
  set (p := Captured i wirelen d). assert (Hp : cap_fits p) by done.
  destruct (decode_of_spec p (proj1 Hp)) as (st & E' & _). cbn [cp_data cp_wirelen p] in E'.
  rewrite Edec in E'. injection E' as -> ->.
  eapply agree_same.
  { rewrite <- Hdl. apply (account_ok os adrift n p); [done|unfold BATCH, CAPTURE, MAX_RECORDS, SIZE, MAX_FRAME in *; lia|done]. }
  intros ? s10 Hs10. eapply agree_bind with (R := fun _ _ s' => fuzz_inv os (n + BATCH) s').
  { apply agree_if; intros _.
    - eapply agree_mono; [apply (fuzz_reader_alike os (n + 1)); [done..|unfold BATCH in Hn; lia]|].
      intros ? ? s' Hs'. eapply inv_more; [|exact Hs']. unfold BATCH. lia.
    - apply agree_ret. eapply inv_more; [|exact Hs10]. unfold BATCH, CAPTURE, MAX_RECORDS, SIZE, MAX_FRAME. lia. }
  intros ? ? s11 Hs11. eapply agree_bind; [by apply (fuzz_addr_alike inet_ntop os (n + BATCH))|].
  intros ? ? s12 Hs12. apply agree_ret. split; [split; apply Hw|done].
Qed.
End Replay.

(** ** The reports *)
Section Reports.
Context `{QSort} (junk1 junk2 : Z -> bytes) (Hj1 : junk_ok junk1) (Hj2 : junk_ok junk2).

(** Nothing in the reports depends on the memory: the two runs are the same function
    of the state. *)
Lemma print_entries_alike f t tunnels s :
  table_ok t -> table_fits t -> print_top junk1 f t tunnels s = print_top junk2 f t tunnels s.
Proof.
  intros Ht Hfit. unfold print_top. cbv zeta. set (k := if ft_count t <? 100 then _ else _).
  destruct (top_n_spec t (Z.to_nat k) Ht) as (top & E & _ & _ & Hin & _). rewrite E.
  assert (Hf : Forall flow_fits top) by (apply Forall_forall; intros g Hg; by eapply Hfit, Hin).
  pose proof (junk_lengths junk1 Hj1) as J1. pose proof (junk_lengths junk2 Hj2) as J2.
  assert (Eq : (if tunnels then report_top_tunnels junk1 f top (ft_count t) else report_top_flows junk1 f top (ft_count t)) =
               (if tunnels then report_top_tunnels junk2 f top (ft_count t) else report_top_flows junk2 f top (ft_count t)))
    by (destruct tunnels; [by apply report_top_tunnels_alike|by apply report_top_flows_alike]).
  unfold mbind, F_bind. destruct (attempt_or_exit s) as [[e|[[] s1]]|]; [done| |done].
  destruct (take_block s1) as [[e|[[] s2]]|]; [done| |done]. cbn [the]. by rewrite Eq.
Qed.

Lemma check_csv_alike t w1 w2 s :
  (forall f alloc os, w1 f t alloc os = w2 f t alloc os) -> check_csv t w1 s = check_csv t w2 s.
Proof.
  intros Hw. unfold check_csv, mbind, F_bind.
  destruct (tmpfile s) as [[e|[[f|] s1]]|]; [done| |done|done].
  destruct (attempt s1) as [[e|[alloc s2]]|]; [done| |done]. cbn [get]. by rewrite Hw.
Qed.

(** Equal computations agree. *)
Lemma agree_eq {A} (m1 m2 : F A) s Q : m1 s = m2 s -> ends m1 s Q -> agree m1 m2 s (fun a b s' => a = b /\ Q a s').
Proof.
  intros E He. destruct (agree_runs m1 s Q He) as [(e & E1 & E2)|(a & b & s' & E1 & E2 & Hr)].
  - left. exists e. by rewrite <- E.
  - right. exists a, b, s'. by rewrite <- E.
Qed.

Lemma fuzz_reports_alike os n s :
  fuzz_inv os n s -> agree (fuzz_reports junk1) (fuzz_reports junk2) s (fun _ _ s' => fuzz_inv os n s').
Proof.
  intros Hs. eapply agree_mono; [apply agree_eq; [|by apply (fuzz_reports_ok junk1 Hj1 os adrift n)]|by intros ? ? ? [_ ?]].
  destruct (inv_reportable os n s Hs) as [R1 R2 _ R3 R4 _ _ R7 R8].
  pose proof (junk_lengths junk1 Hj1) as J1. pose proof (junk_lengths junk2 Hj2) as J2.
  unfold fuzz_reports, mbind, F_bind. cbn [get].
  destruct (tmpfile s) as [[e|[[f|] s1]]|]; [done| |done|done]. cbv zeta.
  rewrite (report_summary_alike junk1 junk2 J1 J2) by done.
  destruct (report_summary junk2 _ _ _ _ _) as [f1|]; cbn [the]; [|done].
  rewrite (print_entries_alike f1 _ false s1 R1 R3).
  destruct (print_top junk2 f1 _ false s1) as [[e|[[n1 f2] s2]]|]; [done| |done].
  destruct (attempt s2) as [[e|[alloc s3]]|]; [done| |done]. cbn [get].
  destruct (report_gtpu f2 _ _ alloc _) as [[[rc f3] os3]|]; cbn [the]; [|done]. cbn [modify].
  destruct (negb (rc =? 0)); [done|]. rewrite (print_entries_alike f3 _ true _ R2 R4).
  destruct (print_top junk2 f3 _ true _) as [[e|[[n2 f4] s4]]|]; [done| |done].
  destruct (ferror f4); [done|]. destruct (fclose s4) as [[e|[[] s5]]|]; [done| |done].
  rewrite (check_csv_alike _ (report_csv junk1) (report_csv junk2) s5) by (intros; by apply report_csv_alike).
  destruct (check_csv _ (report_csv junk2) s5) as [[e|[[] s6]]|]; [done| |done].
  by rewrite (check_csv_alike _ (report_tunnels_csv junk1) (report_tunnels_csv junk2) s6)
    by (intros; by apply report_tunnels_csv_alike).
Qed.
End Reports.

(** ** The run *)
Lemma fuzz_loop_alike junk1 junk2 inet_ntop os k n seeds gtp_at i b1 b2 s :
  junk_ok junk1 -> junk_ok junk2 -> seeds_ok seeds -> gtp_ok gtp_at seeds ->
  buffer_of SIZE b1 -> buffer_of SIZE b2 -> 0 <= i -> i + Z.of_nat k <= 2 ^ 64 ->
  fuzz_inv os n s -> n + Z.of_nat k * BATCH <= 2 ^ 56 ->
  agree (fuzz_loop junk1 inet_ntop k seeds gtp_at i b1) (fuzz_loop junk2 inet_ntop k seeds gtp_at i b2) s
    (fun _ _ s' => fuzz_inv os (n + Z.of_nat k * BATCH) s').
Proof.
  intros Hj1 Hj2 Hseeds Hg. assert (EB : BATCH = 8537) by reflexivity. revert n i b1 b2 s.
  induction k as [|k IH]; intros n i b1 b2 s H1 H2 Hi Hk Hs Hn; cbn [fuzz_loop].
  { apply agree_ret. by rewrite Z.add_0_r. }
  eapply agree_bind; [apply (fuzz_iteration_alike junk1 junk2 Hj1 Hj2 inet_ntop os n); [done..| |done|lia]|].
  { unfold is_u. lia. }
  intros c1 c2 s1 [[C1 C2] Hs1]. eapply agree_mono; [apply (IH (n + BATCH)); [done|done|lia|lia|done|lia]|].
  intros ? ? s2 Hs2. eapply inv_more; [|exact Hs2]. lia.
Qed.

Lemma main_alike `{QSort} junk1 junk2 inet_ntop argv s :
  junk_ok junk1 -> junk_ok junk2 -> (fuzz_args argv).1 <= 2 ^ 40 ->
  agree (main junk1 inet_ntop argv) (main junk2 inet_ntop argv) s (fun a b _ => a = b).
Proof.
  intros Hj1 Hj2. destruct (fuzz_args_u64 argv) as [[Hi0 _] _]. unfold main.
  destruct (fuzz_args argv) as [iterations seed]. cbn [fst snd] in *. intros Hit.
  generalize build_seeds build_seeds_ok. intros [seeds gtp_at] [Hseeds Hgtp]. cbn [fst snd] in *.
  set (s0 := s <| fz_rng := rng_seed seed |> <| fz_tot := totals_zero |>).
  eapply agree_same; [by apply (runs_modify _ _ _ s (fun _ s' => s' = s <| fz_rng := rng_seed seed |>)); [intros []|]|].
  intros ? ? ->. eapply agree_same; [by apply (runs_modify _ _ _ _ (fun _ s' => s' = s0)); [intros []|]|].
  intros ? ? ->. assert (E0 : rng_state (fz_rng s0) /\ fz_os s0 = fz_os s /\ fz_tot s0 = totals_zero)
    by (split; [apply rng_seed_ok|by destruct s]). clearbody s0. revert s0 E0.
  assert (Hattempt : forall s0, rng_state (fz_rng s0) /\ fz_os s0 = fz_os s /\ fz_tot s0 = totals_zero ->
    ends attempt s0 (fun _ s' => rng_state (fz_rng s') /\ fz_os s' = fz_os s /\ fz_tot s' = totals_zero)).
  { intros s0 E0. apply runs_attempt. intros b _. by destruct s0. }
  intros s0 E0. eapply agree_same; [by apply Hattempt|]. intros al1 s1 E1.
  eapply agree_same; [by apply Hattempt|]. intros al2 s2 E2.
  eapply agree_same; [by apply Hattempt|]. intros al3 s3 (Hr & Ho & Ht).
  eapply agree_same; [by apply (runs_get _ _ fz_an s3 (fun a s' => a = fz_an s3 /\ s' = s3))|]. intros ? ? [-> ->].
  destruct (analysis_init_spec (fz_an s3) (Init_allocs al1 al2 al3)) as (rc & an & E & _ & Hok & _).
  eapply agree_the; [exact E|exact E|]. cbv beta iota.
  eapply agree_same; [by apply (runs_modify _ _ _ s3 (fun _ s' => s' = s3 <| fz_an := an |>)); [intros []|]|].
  intros ? ? ->. destruct (Z.eqb_spec rc 0) as [Erc|_]; cbn [negb]; [|by apply agree_exit].
  set (N := Z.of_nat (Z.to_nat iterations) * BATCH).
  assert (HN : 0 + N <= 2 ^ 56) by (subst N; change BATCH with 8537; lia).
  assert (Hb : forall junk, junk_ok junk -> buffer_of SIZE (junk (MAX_FRAME + 64)))
    by (intros junk Hj; destruct (Hj (MAX_FRAME + 64)) as [El ?]; [done|]; split; [by rewrite El|done]).
  eapply agree_bind.
  { apply (fuzz_loop_alike junk1 junk2 inet_ntop (fz_os s) _ 0); [done..|by apply Hb|by apply Hb|lia|lia| |exact HN].
    by apply fresh_inv, Ht; [apply Hok| |]. }
  fold N. clearbody N. set (M := 0 + N) in *. clearbody M. intros ? ? s4 Hs4.
  eapply agree_same; [apply (say_totals_ok (fz_os s) adrift M), Hs4|]. intros ? s5 Hs5.
  eapply agree_same; [apply (check_tunnel_totals_ok (fz_os s) adrift M); [exact Hs5|exact HN]|]. intros ? s6 Hs6.
  eapply agree_bind; [apply (fuzz_reports_alike junk1 junk2 Hj1 Hj2 (fz_os s) M), Hs6|]. intros ? ? s7 Hs7.
  eapply agree_same; [apply (say_ok (fz_os s) adrift M), Hs7|]. intros ? s8 Hs8.
  eapply agree_same; [by apply (runs_modify _ _ _ s8 (fun _ _ => True)); [intros []|]|]. intros ? s9 _.
  by apply agree_ret.
Qed.

(** C31. A run of the fuzzer can be replayed: for the same command line (that asks for
    up to 2^40 iterations) and the same answers from outside - which allocations and
    temporary files are granted, what their devices take, what [inet_ntop] writes -
    [main] does the same, whatever the memory it does not initialise (the frame
    buffers, the heap blocks, the record buffer of the reader, the arrays of the
    reports) happens to hold: it returns the same value in the same state - the same
    random numbers drawn, counters, tables, resources and standard output - or it
    stops early in the same way. *)
Theorem fuzz_replays `{QSort} junk1 junk2 inet_ntop argv s :
  junk_ok junk1 -> junk_ok junk2 -> (fuzz_args argv).1 <= 2 ^ 40 ->
  exists r, main junk1 inet_ntop argv s = Some r /\ main junk2 inet_ntop argv s = Some r.
Proof.
  intros Hj1 Hj2 Hit.
  destruct (main_alike junk1 junk2 inet_ntop argv s Hj1 Hj2 Hit) as [(e & E1 & E2)|(a & b & s' & E1 & E2 & <-)];
    rewrite E1, E2; by eexists.
Qed.
