(* ===== verification/TestDecode.v ===== *)
(** The repository's own tests of the decoder (src/tests/test_decode.c), run on the
    model: every test is the test function statement by statement, with [EXPECT] for
    [CHECK], and evaluates to [true].  They tie the definitions of [Decode] and
    [Builder] to the behaviour the C code is tested for. *)
From Stdlib Require Import String.
From S2P Require Export Fuzz.
#[global] Open Scope Z_scope.

Declare Scope test_scope.
Delimit Scope test_scope with test.
Notation "'EXPECT' c ; k" := (if c then k else false)
  (at level 10, c at level 99, k at level 200, format "'EXPECT'  c ; '//' k") : test_scope.
#[global] Open Scope test_scope.

(** ** Helpers of the tests *)
Definition TCP_RST := 0x04.
(** After [bb_init] and [bb_free]. *)
Definition bb_empty : bytes := [].
Definition blen (b : bytes) : Z := Z.of_nat (length b).

(** [memcmp(addr, expected, sizeof expected) == 0]. *)
Definition same_addr (addr expected : bytes) : bool := memcmp (take (length expected) addr) expected =? 0.

(** [decode_frame] on exactly [caplen] bytes; the count of statuses, which no frame
    has, stands for undefined behaviour. *)
Definition decode_snap (b : bytes) (caplen wirelen : Z) : decode_status * packet_info :=
  default (DEC_STATUS_COUNT, packet_info_zero) (decode_frame (take (Z.to_nat caplen) b) caplen wirelen).

Definition decode_all (b : bytes) : decode_status * packet_info := decode_snap b (blen b) (blen b).

Definition put_hopopts (b : bytes) (next : Z) : bytes :=
  let b := bb_u8 b next in
  let b := bb_u8 b 0 in
  let b := bb_u8 b 1 in
  let b := bb_u8 b 4 in
  bb_fill b 0 4.

Definition put_frag6 (b : bytes) (next offset8 : Z) (more : bool) : bytes :=
  let b := bb_u8 b next in
  let b := bb_u8 b 0 in
  let b := bb_be16 b (Z.lor (Z.shiftl offset8 3) (if more then 1 else 0)) in
  bb_be32 b 0xCAFEF00D.

Definition build_dstopts_chain (b : bytes) (count : nat) : bytes :=
  let b := put_eth b ETHERTYPE_IPV6 in
  let b := put_ipv6 b 60 TEST_V6_A TEST_V6_B (8 * count + 8) in
  let b := foldl (fun b i => put_hopopts b (if i + 1 <? Z.of_nat count then 60 else IPPROTO_NUM_UDP))
                 b (seqZ 0 (Z.of_nat count)) in
  put_udp b 1 2 0.

Definition check_all_prefixes (b : bytes) : bool :=
  forallb (fun len =>
    let '(snapped, _) := decode_snap b (Z.of_nat len) (blen b) in
    let '(whole, _) := decode_snap b (Z.of_nat len) (Z.of_nat len) in
    EXPECT status_val snapped <? status_val DEC_STATUS_COUNT;
    EXPECT status_val whole <? status_val DEC_STATUS_COUNT;
    if bool_decide (len = length b) then
      EXPECT status_eqb snapped DEC_OK;
      status_eqb whole DEC_OK
    else
      EXPECT negb (decode_status_is_truncation whole);
      status_eqb snapped DEC_OK || decode_status_is_truncation snapped)
  (seq 0 (length b + 1)).

(** ** The tests *)
Definition test_ipv4_tcp : bool :=
  let b := bb_empty in
  let b := frame_v4_tcp b TEST_V4_A TEST_V4_B 51234 443 (Z.lor TCP_SYN TCP_ACK) 10 in
  let '(st, pi) := decode_all b in EXPECT status_eqb st DEC_OK;
  EXPECT pi_has_l2 pi && pi_has_l3 pi && pi_has_l4 pi;
  EXPECT pi_ethertype pi =? ETHERTYPE_IPV4;
  EXPECT pi_vlan_count pi =? 0;
  EXPECT pi_ip_version pi =? 4;
  EXPECT pi_ip_proto pi =? IPPROTO_NUM_TCP;
  EXPECT same_addr (pi_src_addr pi) TEST_V4_A;
  EXPECT same_addr (pi_dst_addr pi) TEST_V4_B;
  EXPECT pi_src_port pi =? 51234;
  EXPECT pi_dst_port pi =? 443;
  EXPECT pi_tcp_flags pi =? (Z.lor TCP_SYN TCP_ACK);
  EXPECT bool_decide (pi_frag pi = FRAG_NONE);
  true.

Definition test_ipv4_udp : bool :=
  let b := bb_empty in
  let b := frame_v4_udp b TEST_V4_B TEST_V4_A 5353 53 32 in
  let '(st, pi) := decode_all b in EXPECT status_eqb st DEC_OK;
  EXPECT pi_ip_proto pi =? IPPROTO_NUM_UDP;
  EXPECT pi_src_port pi =? 5353;
  EXPECT pi_dst_port pi =? 53;
  EXPECT pi_tcp_flags pi =? 0;
  EXPECT pi_has_l4 pi;
  true.

Definition test_icmp : bool :=
  let b := bb_empty in
  let b := put_eth b ETHERTYPE_IPV4 in
  let b := put_ipv4 b IPPROTO_NUM_ICMP TEST_V4_A TEST_V4_B (8 + 56)%nat 0 0 in
  let b := put_icmp b 8 0 in
  let b := bb_fill b 0x61 56 in
  let '(st, pi) := decode_all b in EXPECT status_eqb st DEC_OK;
  EXPECT pi_has_l4 pi;
  EXPECT pi_ip_proto pi =? IPPROTO_NUM_ICMP;
  EXPECT pi_icmp_type pi =? 8;
  EXPECT pi_icmp_code pi =? 0;
  EXPECT pi_src_port pi =? 0;
  EXPECT pi_dst_port pi =? 0;
  true.

Definition test_icmpv6 : bool :=
  let b := bb_empty in
  let b := put_eth b ETHERTYPE_IPV6 in
  let b := put_ipv6 b IPPROTO_NUM_ICMPV6 TEST_V6_A TEST_V6_B 8 in
  let b := put_icmp b 129 0 in
  let '(st, pi) := decode_all b in EXPECT status_eqb st DEC_OK;
  EXPECT pi_ip_version pi =? 6;
  EXPECT pi_ip_proto pi =? IPPROTO_NUM_ICMPV6;
  EXPECT pi_icmp_type pi =? 129;
  EXPECT pi_icmp_code pi =? 0;
  true.

Definition test_ipv6_tcp : bool :=
  let b := bb_empty in
  let b := frame_v6_tcp b TEST_V6_A TEST_V6_B 443 60000 (Z.lor (Z.lor TCP_FIN TCP_PSH) TCP_ACK) 100 in
  let '(st, pi) := decode_all b in EXPECT status_eqb st DEC_OK;
  EXPECT pi_ethertype pi =? ETHERTYPE_IPV6;
  EXPECT pi_ip_version pi =? 6;
  EXPECT same_addr (pi_src_addr pi) TEST_V6_A;
  EXPECT same_addr (pi_dst_addr pi) TEST_V6_B;
  EXPECT pi_src_port pi =? 443;
  EXPECT pi_dst_port pi =? 60000;
  EXPECT pi_tcp_flags pi =? (Z.lor (Z.lor TCP_FIN TCP_PSH) TCP_ACK);
  true.

Definition test_single_vlan : bool :=
  let b := bb_empty in
  let b := put_eth b ETHERTYPE_VLAN in
  let b := bb_be16 b (Z.lor (Z.shiftl 5 13) 100) in
  let b := bb_be16 b ETHERTYPE_IPV4 in
  let b := put_ipv4 b IPPROTO_NUM_UDP TEST_V4_A TEST_V4_B 8 0 0 in
  let b := put_udp b 1000 2000 0 in
  let '(st, pi) := decode_all b in EXPECT status_eqb st DEC_OK;
  EXPECT pi_vlan_count pi =? 1;
  EXPECT nth 0 (pi_vlan_ids pi) 0 =? 100;
  EXPECT pi_ethertype pi =? ETHERTYPE_IPV4;
  EXPECT pi_src_port pi =? 1000;
  EXPECT pi_dst_port pi =? 2000;
  true.

Definition test_double_vlan : bool :=
  let b := bb_empty in
  let b := put_eth b ETHERTYPE_QINQ in
  let b := put_vlan b 200 ETHERTYPE_VLAN in
  let b := put_vlan b 100 ETHERTYPE_IPV6 in
  let b := put_ipv6 b IPPROTO_NUM_TCP TEST_V6_A TEST_V6_B 20 in
  let b := put_tcp b 22 50000 TCP_ACK in
  let '(st, pi) := decode_all b in EXPECT status_eqb st DEC_OK;
  EXPECT pi_vlan_count pi =? 2;
  EXPECT nth 0 (pi_vlan_ids pi) 0 =? 200;
  EXPECT nth 1 (pi_vlan_ids pi) 0 =? 100;
  EXPECT pi_ethertype pi =? ETHERTYPE_IPV6;
  EXPECT pi_src_port pi =? 22;
  EXPECT pi_dst_port pi =? 50000;
  true.

Definition test_vlan_errors : bool :=
  let b := bb_empty in
  let b := put_eth b ETHERTYPE_VLAN in
  let b := put_vlan b 1 ETHERTYPE_VLAN in
  let b := put_vlan b 2 ETHERTYPE_VLAN in
  let b := put_vlan b 3 ETHERTYPE_IPV4 in
  let b := put_ipv4 b IPPROTO_NUM_UDP TEST_V4_A TEST_V4_B 8 0 0 in
  let b := put_udp b 1 2 0 in
  let '(st, pi) := decode_all b in EXPECT status_eqb st DEC_BAD_VLAN_DEPTH;
  EXPECT pi_vlan_count pi =? 2;
  EXPECT negb (pi_has_l3 pi);
  let b := bb_empty in
  let b := put_eth b ETHERTYPE_VLAN in
  let b := bb_be16 b 7 in
  let '(st, pi) := decode_snap b (blen b) (blen b + 100) in EXPECT status_eqb st DEC_TRUNC_VLAN;
  let '(st, pi) := decode_all b in EXPECT status_eqb st DEC_BAD_SHORT_FRAME;
  true.

Definition test_complete_short_frame_is_malformed : bool :=
  let b := bb_empty in
  let b := bb_fill b 0x02 10 in
  let '(st, pi) := decode_all b in EXPECT status_eqb st DEC_BAD_SHORT_FRAME;
  let '(st, pi) := decode_snap b (blen b) 60 in EXPECT status_eqb st DEC_TRUNC_ETHERNET;
  let b := bb_empty in
  let b := put_eth b ETHERTYPE_IPV4 in
  let b := bb_be32 b 0x45000028 in
  let b := bb_fill b 0 6 in
  let '(st, pi) := decode_all b in EXPECT status_eqb st DEC_BAD_SHORT_FRAME;
  EXPECT pi_has_l2 pi && negb (pi_has_l3 pi);
  let '(st, pi) := decode_snap b (blen b) 1514 in EXPECT status_eqb st DEC_TRUNC_IPV4;
  let b := bb_empty in
  let b := put_eth b ETHERTYPE_IPV6 in
  let b := bb_u8 b 0x60 in
  let b := bb_fill b 0 29 in
  let '(st, pi) := decode_all b in EXPECT status_eqb st DEC_BAD_SHORT_FRAME;
  let '(st, pi) := decode_snap b (blen b) 1514 in EXPECT status_eqb st DEC_TRUNC_IPV6;
  let b := bb_empty in
  let b := put_eth b ETHERTYPE_QINQ in
  let b := put_vlan b 10 ETHERTYPE_VLAN in
  let b := bb_u8 b 0 in
  let '(st, pi) := decode_all b in EXPECT status_eqb st DEC_BAD_SHORT_FRAME;
  EXPECT pi_vlan_count pi =? 1;
  let '(st, pi) := decode_snap b (blen b) 1514 in EXPECT status_eqb st DEC_TRUNC_VLAN;
  true.

Definition test_ipv4_options : bool :=
  EXPECT forallb (fun words : nat =>
    let b := bb_empty in
    let b := put_eth b ETHERTYPE_IPV4 in
    let b := put_ipv4 b IPPROTO_NUM_TCP TEST_V4_A TEST_V4_B 20 words 0 in
    let b := put_tcp b 1111 2222 TCP_RST in
    let '(st, pi) := decode_all b in EXPECT status_eqb st DEC_OK;
    EXPECT pi_src_port pi =? 1111;
    EXPECT pi_dst_port pi =? 2222;
    EXPECT pi_tcp_flags pi =? TCP_RST;
    true) (seq 1 10);
  true.

Definition test_ipv4_options_snapped : bool :=
  let b := bb_empty in
  let b := put_eth b ETHERTYPE_IPV4 in
  let b := put_ipv4 b IPPROTO_NUM_TCP TEST_V4_A TEST_V4_B 20 3 0 in
  let b := put_tcp b 1111 2222 TCP_ACK in
  let '(st, pi) := decode_snap b (14 + 24) (blen b) in EXPECT status_eqb st DEC_TRUNC_IPV4;
  EXPECT negb (pi_has_l3 pi);
  true.

Definition test_ipv4_nonfirst_fragment : bool :=
  let b := bb_empty in
  let b := put_eth b ETHERTYPE_IPV4 in
  let b := put_ipv4 b IPPROTO_NUM_UDP TEST_V4_A TEST_V4_B 16 0 185 in
  let b := put_udp b 4444 5555 8 in
  let b := bb_fill b 0 8 in
  let '(st, pi) := decode_all b in EXPECT status_eqb st DEC_OK;
  EXPECT pi_has_l3 pi;
  EXPECT negb (pi_has_l4 pi);
  EXPECT bool_decide (pi_frag pi = FRAG_LATER);
  EXPECT pi_ip_proto pi =? IPPROTO_NUM_UDP;
  EXPECT pi_src_port pi =? 0;
  EXPECT pi_dst_port pi =? 0;
  true.

Definition test_ipv4_first_fragment : bool :=
  let b := bb_empty in
  let b := put_eth b ETHERTYPE_IPV4 in
  let b := put_ipv4 b IPPROTO_NUM_UDP TEST_V4_A TEST_V4_B 1480 0 0x2000 in
  let b := put_udp b 4444 5555 2992 in
  let b := bb_fill b 0 1472 in
  let '(st, pi) := decode_all b in EXPECT status_eqb st DEC_OK;
  EXPECT bool_decide (pi_frag pi = FRAG_FIRST);
  EXPECT pi_has_l4 pi;
  EXPECT pi_src_port pi =? 4444;
  EXPECT pi_dst_port pi =? 5555;
  true.

Definition test_ipv6_hopbyhop_fragment : bool :=
  let b := bb_empty in
  let b := put_eth b ETHERTYPE_IPV6 in
  let b := put_ipv6 b 0 TEST_V6_A TEST_V6_B (8 + 8 + 8 + 16)%nat in
  let b := put_hopopts b 44 in
  let b := put_frag6 b IPPROTO_NUM_UDP 0 true in
  let b := put_udp b 3478 3479 100 in
  let b := bb_fill b 0x11 16 in
  let '(st, pi) := decode_all b in EXPECT status_eqb st DEC_OK;
  EXPECT bool_decide (pi_frag pi = FRAG_FIRST);
  EXPECT pi_ip_proto pi =? IPPROTO_NUM_UDP;
  EXPECT pi_has_l4 pi;
  EXPECT pi_src_port pi =? 3478;
  EXPECT pi_dst_port pi =? 3479;
  let b := bb_empty in
  let b := put_eth b ETHERTYPE_IPV6 in
  let b := put_ipv6 b 0 TEST_V6_A TEST_V6_B (8 + 8 + 16)%nat in
  let b := put_hopopts b 44 in
  let b := put_frag6 b IPPROTO_NUM_UDP 3 false in
  let b := bb_fill b 0x22 16 in
  let '(st, pi) := decode_all b in EXPECT status_eqb st DEC_OK;
  EXPECT bool_decide (pi_frag pi = FRAG_LATER);
  EXPECT pi_ip_proto pi =? IPPROTO_NUM_UDP;
  EXPECT negb (pi_has_l4 pi);
  EXPECT pi_src_port pi =? 0;
  true.

Definition test_ipv6_dstopts_routing : bool :=
  let b := bb_empty in
  let b := put_eth b ETHERTYPE_IPV6 in
  let b := put_ipv6 b 60 TEST_V6_A TEST_V6_B (16 + 8 + 20)%nat in
  let b := bb_u8 b 43 in
  let b := bb_u8 b 1 in
  let b := bb_fill b 0 14 in
  let b := bb_u8 b IPPROTO_NUM_TCP in
  let b := bb_u8 b 0 in
  let b := bb_fill b 0 6 in
  let b := put_tcp b 8080 50001 TCP_SYN in
  let '(st, pi) := decode_all b in EXPECT status_eqb st DEC_OK;
  EXPECT pi_ip_proto pi =? IPPROTO_NUM_TCP;
  EXPECT pi_src_port pi =? 8080;
  EXPECT pi_tcp_flags pi =? TCP_SYN;
  true.

Definition test_ipv6_ext_chain_limit : bool :=
  let b := bb_empty in
  let b := build_dstopts_chain b 8 in
  let '(st, pi) := decode_all b in EXPECT status_eqb st DEC_OK;
  EXPECT pi_dst_port pi =? 2;
  let b := bb_empty in
  let b := build_dstopts_chain b 9 in
  let '(st, pi) := decode_all b in EXPECT status_eqb st DEC_BAD_IPV6_EXT;
  true.

Definition test_ipv6_ext_overrun : bool :=
  let b := bb_empty in
  let b := put_eth b ETHERTYPE_IPV6 in
  let b := put_ipv6 b 0 TEST_V6_A TEST_V6_B 16 in
  let b := bb_u8 b 59 in
  let b := bb_u8 b 5 in
  let b := bb_fill b 0 14 in
  let '(st, pi) := decode_all b in EXPECT status_eqb st DEC_BAD_IPV6_EXT;
  let b := bb_empty in
  let b := put_eth b ETHERTYPE_IPV6 in
  let b := put_ipv6 b 0 TEST_V6_A TEST_V6_B 48 in
  let b := bb_u8 b 59 in
  let b := bb_u8 b 5 in
  let b := bb_fill b 0 46 in
  let '(st, pi) := decode_snap b (14 + 40 + 20) (blen b) in EXPECT status_eqb st DEC_TRUNC_IPV6_EXT;
  true.

Definition test_bad_ihl : bool :=
  EXPECT forallb (fun ihl : nat =>
    let b := bb_empty in
    let b := frame_v4_tcp b TEST_V4_A TEST_V4_B 1 2 TCP_SYN 0 in
    let b := <[14%nat := u8 (Z.lor 0x40 (Z.of_nat ihl))]> b in
    let '(st, pi) := decode_all b in EXPECT status_eqb st DEC_BAD_IPV4_IHL;
    EXPECT negb (pi_has_l3 pi);
    true) (seq 0 5);
  true.

Definition test_bad_ipv4_total_len : bool :=
  let b := bb_empty in
  let b := frame_v4_tcp b TEST_V4_A TEST_V4_B 1 2 TCP_SYN 0 in
  let b := <[16%nat := u8 0]> b in
  let b := <[17%nat := u8 19]> b in
  let '(st, pi) := decode_all b in EXPECT status_eqb st DEC_BAD_IPV4_TOTAL_LEN;
  let b := <[16%nat := u8 0x05]> b in
  let b := <[17%nat := u8 0xDC]> b in
  let '(st, pi) := decode_all b in EXPECT status_eqb st DEC_BAD_IPV4_TOTAL_LEN;
  true.

Definition test_ipv4_total_len_zero_tso : bool :=
  let b := bb_empty in
  let b := frame_v4_tcp b TEST_V4_A TEST_V4_B 50000 443 (Z.lor TCP_PSH TCP_ACK) 3000 in
  let b := <[16%nat := u8 0]> b in
  let b := <[17%nat := u8 0]> b in
  let '(st, pi) := decode_all b in EXPECT status_eqb st DEC_OK;
  EXPECT pi_has_l4 pi;
  EXPECT pi_src_port pi =? 50000;
  EXPECT pi_dst_port pi =? 443;
  let '(st, pi) := decode_snap b (14 + 20 + 20) (blen b) in EXPECT status_eqb st DEC_OK;
  let '(st, pi) := decode_snap b (14 + 20 + 10) (14 + 20 + 10) in EXPECT status_eqb st DEC_BAD_L4_LEN;
  true.

Definition test_fragment_ids : bool :=
  let b := bb_empty in
  let b := put_eth b ETHERTYPE_IPV4 in
  let b := put_ipv4 b IPPROTO_NUM_UDP TEST_V4_A TEST_V4_B 16 0 185 in
  let b := bb_fill b 0 16 in
  let '(st, pi) := decode_all b in EXPECT status_eqb st DEC_OK;
  EXPECT pi_frag_id pi =? 0x1234;
  let b := bb_empty in
  let b := put_eth b ETHERTYPE_IPV6 in
  let b := put_ipv6 b 44 TEST_V6_A TEST_V6_B (8 + 16)%nat in
  let b := bb_u8 b IPPROTO_NUM_UDP in
  let b := bb_u8 b 0 in
  let b := bb_be16 b (Z.shiftl 3 3) in
  let b := bb_be32 b 0xCAFEF00D in
  let b := bb_fill b 0 16 in
  let '(st, pi) := decode_all b in EXPECT status_eqb st DEC_OK;
  EXPECT bool_decide (pi_frag pi = FRAG_LATER);
  EXPECT pi_frag_id pi =? 0xCAFEF00D;
  true.

Definition test_ipv6_broken_chain_has_no_proto : bool :=
  let b := bb_empty in
  let b := put_eth b ETHERTYPE_IPV6 in
  let b := put_ipv6 b 43 TEST_V6_A TEST_V6_B 8 in
  let b := bb_u8 b IPPROTO_NUM_TCP in
  let b := bb_u8 b 3 in
  let b := bb_fill b 0 6 in
  let '(st, pi) := decode_all b in EXPECT status_eqb st DEC_BAD_IPV6_EXT;
  EXPECT pi_has_l3 pi;
  EXPECT pi_ip_proto pi =? 0;
  EXPECT negb (pi_has_l4 pi);
  true.

Definition test_bad_tcp_doff : bool :=
  let doff_at := (14 + 20 + 12)%nat in
  let b := bb_empty in
  let b := frame_v4_tcp b TEST_V4_A TEST_V4_B 1 2 TCP_SYN 0 in
  let b := <[doff_at%nat := u8 (Z.shiftl 4 4)]> b in
  let '(st, pi) := decode_all b in EXPECT status_eqb st DEC_BAD_TCP_DOFF;
  EXPECT negb (pi_has_l4 pi);
  let b := <[doff_at%nat := u8 0]> b in
  let '(st, pi) := decode_all b in EXPECT status_eqb st DEC_BAD_TCP_DOFF;
  let b := <[doff_at%nat := u8 (Z.shiftl 15 4)]> b in
  let '(st, pi) := decode_all b in EXPECT status_eqb st DEC_BAD_TCP_DOFF;
  true.

Definition test_ipv6_payload_exceeds_caplen : bool :=
  let b := bb_empty in
  let b := put_eth b ETHERTYPE_IPV6 in
  let b := put_ipv6 b IPPROTO_NUM_UDP TEST_V6_A TEST_V6_B 1000 in
  let b := put_udp b 53 53 992 in
  let b := bb_fill b 0 20 in
  let '(st, pi) := decode_all b in EXPECT status_eqb st DEC_BAD_IPV6_PAYLOAD_LEN;
  EXPECT negb (pi_has_l3 pi);
  true.

Definition test_snaplen_truncation_is_not_malformed : bool :=
  let b := bb_empty in
  let b := frame_v6_tcp b TEST_V6_A TEST_V6_B 443 55555 TCP_ACK 1000 in
  let '(st, pi) := decode_snap b (14 + 40 + 20) (blen b) in EXPECT status_eqb st DEC_OK;
  EXPECT pi_src_port pi =? 443;
  let '(st, pi) := decode_snap b (14 + 40 + 10) (blen b) in EXPECT status_eqb st DEC_TRUNC_TCP;
  let b := bb_empty in
  let b := frame_v4_udp b TEST_V4_A TEST_V4_B 123 123 1000 in
  let '(st, pi) := decode_snap b (14 + 20 + 8) (blen b) in EXPECT status_eqb st DEC_OK;
  EXPECT pi_dst_port pi =? 123;
  let '(st, pi) := decode_snap b (14 + 20 + 4) (blen b) in EXPECT status_eqb st DEC_TRUNC_UDP;
  true.

Definition test_ip_payload_too_short_for_l4 : bool :=
  let b := bb_empty in
  let b := put_eth b ETHERTYPE_IPV4 in
  let b := put_ipv4 b IPPROTO_NUM_TCP TEST_V4_A TEST_V4_B 10 0 0 in
  let b := bb_fill b 0 10 in
  let '(st, pi) := decode_all b in EXPECT status_eqb st DEC_BAD_L4_LEN;
  EXPECT pi_has_l3 pi;
  EXPECT negb (pi_has_l4 pi);
  true.

Definition test_bad_udp_len : bool :=
  let b := bb_empty in
  let b := frame_v4_udp b TEST_V4_A TEST_V4_B 1 2 10 in
  let b := <[(14 + 20 + 5)%nat := u8 4]> b in
  let '(st, pi) := decode_all b in EXPECT status_eqb st DEC_BAD_UDP_LEN;
  let b := <[(14 + 20 + 5)%nat := u8 100]> b in
  let '(st, pi) := decode_all b in EXPECT status_eqb st DEC_BAD_UDP_LEN;
  true.

Definition test_wrong_ip_version : bool :=
  let b := bb_empty in
  let b := frame_v4_tcp b TEST_V4_A TEST_V4_B 1 2 TCP_SYN 0 in
  let b := <[14%nat := u8 0x65]> b in
  let '(st, pi) := decode_all b in EXPECT status_eqb st DEC_BAD_IPV4_VERSION;
  let b := bb_empty in
  let b := frame_v6_tcp b TEST_V6_A TEST_V6_B 1 2 TCP_SYN 0 in
  let b := <[14%nat := u8 0x40]> b in
  let '(st, pi) := decode_all b in EXPECT status_eqb st DEC_BAD_IPV6_VERSION;
  true.

Definition test_truncated_ethernet : bool :=
  let b := bb_empty in
  let b := frame_v4_tcp b TEST_V4_A TEST_V4_B 1 2 TCP_SYN 0 in
  EXPECT forallb (fun len : nat =>
    let '(st, pi) := decode_snap b (Z.of_nat len) (blen b) in EXPECT status_eqb st DEC_TRUNC_ETHERNET;
    EXPECT negb (pi_has_l2 pi);
    true) (seq 0 14);
  let '(st, pi) := decode_snap b (14 + 19) (blen b) in EXPECT status_eqb st DEC_TRUNC_IPV4;
  true.

Definition test_non_ip_frame : bool :=
  let b := bb_empty in
  let b := put_eth b ETHERTYPE_ARP in
  let b := bb_fill b 0 28 in
  let '(st, pi) := decode_all b in EXPECT status_eqb st DEC_OK;
  EXPECT pi_has_l2 pi;
  EXPECT negb (pi_has_l3 pi);
  EXPECT pi_ethertype pi =? ETHERTYPE_ARP;
  true.

Definition test_ethernet_padding : bool :=
  let b := bb_empty in
  let b := frame_v4_udp b TEST_V4_A TEST_V4_B 7 9 2 in
  let b := bb_fill b 0 (60 - length b)%nat in
  EXPECT blen b =? 60;
  let '(st, pi) := decode_all b in EXPECT status_eqb st DEC_OK;
  EXPECT pi_dst_port pi =? 9;
  true.

Definition test_other_l4_protocol : bool :=
  let b := bb_empty in
  let b := put_eth b ETHERTYPE_IPV4 in
  let b := put_ipv4 b 47 TEST_V4_A TEST_V4_B 4 0 0 in
  let b := bb_fill b 0 4 in
  let '(st, pi) := decode_all b in EXPECT status_eqb st DEC_OK;
  EXPECT pi_has_l3 pi;
  EXPECT negb (pi_has_l4 pi);
  EXPECT pi_ip_proto pi =? 47;
  true.

Definition test_every_prefix_is_safe : bool :=
  let b := bb_empty in
  let b := put_eth b ETHERTYPE_QINQ in
  let b := put_vlan b 10 ETHERTYPE_VLAN in
  let b := put_vlan b 20 ETHERTYPE_IPV4 in
  let b := put_ipv4 b IPPROTO_NUM_TCP TEST_V4_A TEST_V4_B 20 2 0 in
  let b := put_tcp b 1 2 TCP_SYN in
  EXPECT check_all_prefixes b;
  let b := bb_empty in
  let b := put_eth b ETHERTYPE_IPV6 in
  let b := put_ipv6 b 0 TEST_V6_A TEST_V6_B (8 + 8 + 8)%nat in
  let b := put_hopopts b 44 in
  let b := put_frag6 b IPPROTO_NUM_UDP 0 true in
  let b := put_udp b 1 2 100 in
  EXPECT check_all_prefixes b;
  true.

(** The statuses by their number: the cast of the loop index. *)
Definition all_statuses : list decode_status :=
  [DEC_OK; DEC_TRUNC_ETHERNET; DEC_TRUNC_VLAN; DEC_TRUNC_IPV4; DEC_TRUNC_IPV6;
   DEC_TRUNC_IPV6_EXT; DEC_TRUNC_TCP; DEC_TRUNC_UDP; DEC_TRUNC_ICMP; DEC_TRUNC_GTPU;
   DEC_TRUNC_GTPU_EXT; DEC_TRUNC_GTPU_INNER; DEC_BAD_SHORT_FRAME; DEC_BAD_VLAN_DEPTH;
   DEC_BAD_IPV4_VERSION; DEC_BAD_IPV4_IHL; DEC_BAD_IPV4_TOTAL_LEN; DEC_BAD_IPV6_VERSION;
   DEC_BAD_IPV6_PAYLOAD_LEN; DEC_BAD_IPV6_EXT; DEC_BAD_L4_LEN; DEC_BAD_TCP_DOFF; DEC_BAD_UDP_LEN;
   DEC_BAD_GTPU_LEN; DEC_BAD_GTPU_EXT_LEN; DEC_BAD_GTPU_EXT; DEC_BAD_GTPU_INNER;
   DEC_BAD_GTPU_INNER_SHORT].

Definition test_status_strings : bool :=
  EXPECT forallb (fun i : nat =>
    let s := decode_status_str (nth i all_statuses DEC_STATUS_COUNT) in
    EXPECT negb (String.eqb s "") && negb (String.eqb s "unknown");
    forallb (fun j : nat =>
      negb (String.eqb s (decode_status_str (nth j all_statuses DEC_STATUS_COUNT)))) (seq 0 i))
    (seq 0 (Z.to_nat (status_val DEC_STATUS_COUNT)));
  EXPECT negb (decode_status_is_truncation DEC_OK);
  EXPECT decode_status_is_truncation DEC_TRUNC_ETHERNET;
  EXPECT decode_status_is_truncation DEC_TRUNC_ICMP;
  EXPECT decode_status_is_truncation DEC_TRUNC_GTPU;
  EXPECT decode_status_is_truncation DEC_TRUNC_GTPU_INNER;
  EXPECT negb (decode_status_is_truncation DEC_BAD_SHORT_FRAME);
  EXPECT negb (decode_status_is_truncation DEC_BAD_VLAN_DEPTH);
  EXPECT negb (decode_status_is_truncation DEC_BAD_UDP_LEN);
  EXPECT negb (decode_status_is_truncation DEC_BAD_GTPU_INNER);
  EXPECT negb (decode_status_is_truncation DEC_BAD_GTPU_INNER_SHORT);
  true.

(** [run_decode_tests]: they all pass. *)
Definition run_decode_tests : list bool :=
  [test_ipv4_tcp; test_ipv4_udp; test_icmp; test_icmpv6; test_ipv6_tcp; test_single_vlan;
   test_double_vlan; test_vlan_errors; test_complete_short_frame_is_malformed; test_ipv4_options;
   test_ipv4_options_snapped; test_ipv4_nonfirst_fragment; test_ipv4_first_fragment;
   test_ipv6_hopbyhop_fragment; test_ipv6_dstopts_routing; test_ipv6_ext_chain_limit;
   test_ipv6_ext_overrun; test_bad_ihl; test_bad_ipv4_total_len; test_ipv4_total_len_zero_tso;
   test_fragment_ids; test_ipv6_broken_chain_has_no_proto; test_bad_tcp_doff;
   test_ipv6_payload_exceeds_caplen; test_snaplen_truncation_is_not_malformed;
   test_ip_payload_too_short_for_l4; test_bad_udp_len; test_wrong_ip_version;
   test_truncated_ethernet; test_non_ip_frame; test_ethernet_padding; test_other_l4_protocol;
   test_every_prefix_is_safe; test_status_strings].

Example decode_tests_pass : forallb id run_decode_tests = true.
Proof. vm_compute. reflexivity. Qed.
