(* ===== verification/TestGtpu.v ===== *)
(** The repository's own tests of GTP-U decoding (src/tests/test_gtpu.c), run on the
    model as those of [TestDecode] are.  Those of the counters, of the tunnel table
    and of the reports are in [TestTunnels]. *)
From Stdlib Require Import String.
From S2P Require Export TestDecode.
#[global] Open Scope Z_scope.

(** ** Helpers of the tests *)
Definition RAN : bytes := [172; 16; 1; 11].
Definition CORE : bytes := [172; 16; 0; 1].
Definition UE : bytes := [100; 64; 0; 7].
Definition SERVER : bytes := [198; 51; 100; 20].

(** Bytes in front of the GTP-U header in an untagged IPv4 frame. *)
Definition GTP_AT := 14 + 20 + 8.

Definition inner_v4_tcp (b : bytes) (payload : nat) : bytes :=
  let b := put_ipv4 b IPPROTO_NUM_TCP UE SERVER (20 + payload) 0 0x4000 in
  let b := put_tcp b 40000 443 TCP_SYN in
  bb_fill b 0xAB payload.

Definition gtpu_frame4 (b src dst : bytes) (sport dport flags type teid : Z) (rest : bytes) : bytes :=
  let b := put_eth b ETHERTYPE_IPV4 in
  let b := put_ipv4 b IPPROTO_NUM_UDP src dst (8 + 8 + length rest) 0 0 in
  let b := put_udp b sport dport (8 + length rest) in
  let b := put_gtpu b flags type (length rest) teid in
  bb_bytes b rest.

Definition gtpu_uplink (b : bytes) (flags type teid : Z) (rest : bytes) : bytes :=
  gtpu_frame4 b RAN CORE GTPU_PORT GTPU_PORT flags type teid rest.

Definition build_ext_chain (b : bytes) (count : nat) : bytes :=
  let rest := put_gtpu_opt [] 0 0 0x85 in
  let rest := foldl (fun rest i => put_gtpu_ext rest 1 (if i + 1 <? Z.of_nat count then 0x85 else 0))
                    rest (seqZ 0 (Z.of_nat count)) in
  let rest := inner_v4_tcp rest 0 in
  gtpu_uplink b 0x34 GTPU_MSG_GPDU 1 rest.

(** Every prefix of a message as a whole datagram, and every snapshot of the frame. *)
Definition check_gtpu_prefixes (msg : bytes) : bool :=
  EXPECT forallb (fun k =>
    let b := put_eth [] ETHERTYPE_IPV4 in
    let b := put_ipv4 b IPPROTO_NUM_UDP RAN CORE (8 + k) 0 0 in
    let b := put_udp b GTPU_PORT GTPU_PORT k in
    let b := bb_bytes b (take k msg) in
    let '(st, pi) := decode_all b in EXPECT status_eqb st DEC_OK;
    EXPECT Bool.eqb (pi_is_gtpu pi) (bool_decide (8 <= k)%nat);
    EXPECT negb (decode_status_is_truncation (pi_gtp_status pi));
    if bool_decide (k = length msg) then status_eqb (pi_gtp_status pi) DEC_OK
    else if bool_decide (8 <= k)%nat then negb (status_eqb (pi_gtp_status pi) DEC_OK) else true)
  (seq 0 (length msg + 1));
  let b := put_eth [] ETHERTYPE_IPV4 in
  let b := put_ipv4 b IPPROTO_NUM_UDP RAN CORE (8 + length msg) 0 0 in
  let b := put_udp b GTPU_PORT GTPU_PORT (length msg) in
  let b := bb_bytes b msg in
  forallb (fun len =>
    let '(st, pi) := decode_snap b (Z.of_nat len) (blen b) in
    EXPECT status_eqb st DEC_OK || decode_status_is_truncation st;
    EXPECT status_eqb (pi_gtp_status pi) DEC_OK || decode_status_is_truncation (pi_gtp_status pi);
    if bool_decide (len = length b)
    then pi_is_gtpu pi && status_eqb (pi_gtp_status pi) DEC_OK && pi_has_inner pi else true)
  (seq 0 (length b + 1)).

(** ** The tests *)
Definition test_gtpu_gpdu_ipv4_tcp : bool :=
  let inner := bb_empty in
  let b := bb_empty in
  let inner := inner_v4_tcp inner 0 in
  let b := gtpu_uplink b 0x30 GTPU_MSG_GPDU 0xDEADBEEF inner in
  EXPECT blen b =? (GTP_AT + 8 + 40);
  let '(st, pi) := decode_all b in EXPECT status_eqb st DEC_OK;
  EXPECT same_addr (pi_src_addr pi) RAN;
  EXPECT same_addr (pi_dst_addr pi) CORE;
  EXPECT pi_ip_proto pi =? IPPROTO_NUM_UDP;
  EXPECT pi_src_port pi =? GTPU_PORT;
  EXPECT pi_dst_port pi =? GTPU_PORT;
  EXPECT pi_is_gtpu pi;
  EXPECT pi_gtp_v1u pi;
  EXPECT status_eqb (pi_gtp_status pi) DEC_OK;
  EXPECT pi_gtp_flags pi =? 0x30;
  EXPECT pi_gtp_msg_type pi =? GTPU_MSG_GPDU;
  EXPECT pi_teid pi =? 0xDEADBEEF;
  EXPECT pi_gtp_ext_count pi =? 0;
  EXPECT pi_has_inner pi;
  EXPECT pi_inner_has_l4 pi;
  EXPECT pi_inner_version pi =? 4;
  EXPECT pi_inner_proto pi =? IPPROTO_NUM_TCP;
  EXPECT same_addr (pi_inner_src pi) UE;
  EXPECT same_addr (pi_inner_dst pi) SERVER;
  EXPECT pi_inner_src_port pi =? 40000;
  EXPECT pi_inner_dst_port pi =? 443;
  EXPECT negb (pi_gtp_nested pi);
  true.

Definition test_gtpu_inner_ipv6_udp : bool :=
  let inner := bb_empty in
  let b := bb_empty in
  let inner := put_ipv6 inner IPPROTO_NUM_UDP TEST_V6_A TEST_V6_B (8 + 20)%nat in
  let inner := put_udp inner 5353 53 20 in
  let inner := bb_fill inner 0 20 in
  let b := gtpu_uplink b 0x30 GTPU_MSG_GPDU 7 inner in
  let '(st, pi) := decode_all b in EXPECT status_eqb st DEC_OK;
  EXPECT status_eqb (pi_gtp_status pi) DEC_OK;
  EXPECT pi_has_inner pi && pi_inner_has_l4 pi;
  EXPECT pi_inner_version pi =? 6;
  EXPECT pi_inner_proto pi =? IPPROTO_NUM_UDP;
  EXPECT same_addr (pi_inner_src pi) TEST_V6_A;
  EXPECT same_addr (pi_inner_dst pi) TEST_V6_B;
  EXPECT pi_inner_src_port pi =? 5353;
  EXPECT pi_inner_dst_port pi =? 53;
  EXPECT pi_ip_version pi =? 4;
  true.

Definition test_gtpu_optional_fields : bool :=
  let rest := bb_empty in
  let b := bb_empty in
  let rest := put_gtpu_opt rest 0xBEEF 0 0 in
  let rest := inner_v4_tcp rest 0 in
  let b := gtpu_uplink b 0x32 GTPU_MSG_GPDU 1 rest in
  let '(st, pi) := decode_all b in EXPECT status_eqb st DEC_OK;
  EXPECT status_eqb (pi_gtp_status pi) DEC_OK;
  EXPECT pi_gtp_seq pi =? 0xBEEF;
  EXPECT pi_has_inner pi && pi_inner_has_l4 pi;
  EXPECT pi_inner_src_port pi =? 40000;
  let b := bb_empty in
  let rest := bb_empty in
  let rest := put_gtpu_opt rest 0xBEEF 7 0 in
  let rest := inner_v4_tcp rest 0 in
  let b := gtpu_uplink b 0x31 GTPU_MSG_GPDU 1 rest in
  let '(st, pi) := decode_all b in EXPECT status_eqb st DEC_OK;
  EXPECT status_eqb (pi_gtp_status pi) DEC_OK;
  EXPECT pi_gtp_seq pi =? 0;
  EXPECT pi_has_inner pi;
  let b := bb_empty in
  let rest := bb_empty in
  let rest := put_gtpu_opt rest 1 0 0x85 in
  let rest := inner_v4_tcp rest 0 in
  let b := gtpu_uplink b 0x32 GTPU_MSG_GPDU 1 rest in
  let '(st, pi) := decode_all b in EXPECT status_eqb st DEC_OK;
  EXPECT status_eqb (pi_gtp_status pi) DEC_OK;
  EXPECT pi_gtp_ext_count pi =? 0;
  EXPECT pi_has_inner pi;
  EXPECT pi_inner_proto pi =? IPPROTO_NUM_TCP;
  true.

Definition test_gtpu_one_extension : bool :=
  let rest := bb_empty in
  let b := bb_empty in
  let rest := put_gtpu_opt rest 0 0 0x85 in
  let rest := bb_u8 rest 1 in
  let rest := bb_u8 rest 0x10 in
  let rest := bb_u8 rest 9 in
  let rest := bb_u8 rest 0 in
  let rest := inner_v4_tcp rest 0 in
  let b := gtpu_uplink b 0x34 GTPU_MSG_GPDU 0x0A0B0C0D rest in
  EXPECT blen b =? (GTP_AT + 8 + 4 + 4 + 40);
  let '(st, pi) := decode_all b in EXPECT status_eqb st DEC_OK;
  EXPECT status_eqb (pi_gtp_status pi) DEC_OK;
  EXPECT Z.land (pi_gtp_flags pi) GTPU_FLAG_E =? GTPU_FLAG_E;
  EXPECT pi_gtp_ext_count pi =? 1;
  EXPECT pi_teid pi =? 0x0A0B0C0D;
  EXPECT pi_has_inner pi && pi_inner_has_l4 pi;
  EXPECT pi_inner_dst_port pi =? 443;
  true.

Definition test_gtpu_extension_chain : bool :=
  let rest := bb_empty in
  let b := bb_empty in
  let rest := put_gtpu_opt rest 5 0 0x81 in
  let rest := put_gtpu_ext rest 2 0x85 in
  let rest := put_gtpu_ext rest 1 0 in
  let rest := inner_v4_tcp rest 0 in
  let b := gtpu_uplink b 0x36 GTPU_MSG_GPDU 3 rest in
  let '(st, pi) := decode_all b in EXPECT status_eqb st DEC_OK;
  EXPECT status_eqb (pi_gtp_status pi) DEC_OK;
  EXPECT pi_gtp_ext_count pi =? 2;
  EXPECT pi_gtp_seq pi =? 5;
  EXPECT pi_has_inner pi && pi_inner_has_l4 pi;
  EXPECT pi_inner_proto pi =? IPPROTO_NUM_TCP;
  EXPECT pi_inner_src_port pi =? 40000;
  true.

Definition test_gtpu_extension_length_zero : bool :=
  let rest := bb_empty in
  let b := bb_empty in
  let rest := put_gtpu_opt rest 0 0 0x85 in
  let rest := bb_u8 rest 0 in
  let rest := bb_u8 rest 0x10 in
  let rest := bb_u8 rest 9 in
  let rest := bb_u8 rest 0 in
  let rest := inner_v4_tcp rest 0 in
  let b := gtpu_uplink b 0x34 GTPU_MSG_GPDU 1 rest in
  let '(st, pi) := decode_all b in EXPECT status_eqb st DEC_OK;
  EXPECT pi_is_gtpu pi && pi_gtp_v1u pi;
  EXPECT status_eqb (pi_gtp_status pi) DEC_BAD_GTPU_EXT_LEN;
  EXPECT pi_gtp_ext_count pi =? 0;
  EXPECT negb (pi_has_inner pi);
  let '(st, pi) := decode_snap b (blen b) (blen b + 500) in EXPECT status_eqb st DEC_OK;
  EXPECT status_eqb (pi_gtp_status pi) DEC_BAD_GTPU_EXT_LEN;
  true.

Definition test_gtpu_extension_overrun : bool :=
  let rest := bb_empty in
  let b := bb_empty in
  let rest := put_gtpu_opt rest 0 0 0x85 in
  let rest := bb_u8 rest 3 in
  let rest := bb_fill rest 0 3 in
  let b := gtpu_uplink b 0x34 GTPU_MSG_GPDU 1 rest in
  let '(st, pi) := decode_all b in EXPECT status_eqb st DEC_OK;
  EXPECT status_eqb (pi_gtp_status pi) DEC_BAD_GTPU_EXT;
  EXPECT negb (pi_has_inner pi);
  let b := bb_empty in
  let rest := bb_empty in
  let rest := put_gtpu_opt rest 0 0 0x85 in
  let rest := put_gtpu_ext rest 1 0x85 in
  let b := gtpu_uplink b 0x34 GTPU_MSG_GPDU 1 rest in
  let '(st, pi) := decode_all b in EXPECT status_eqb st DEC_OK;
  EXPECT status_eqb (pi_gtp_status pi) DEC_BAD_GTPU_EXT;
  EXPECT pi_gtp_ext_count pi =? 1;
  let b := bb_empty in
  let rest := bb_empty in
  let rest := put_gtpu_opt rest 0 0 0x85 in
  let rest := put_gtpu_ext rest 3 0 in
  let rest := inner_v4_tcp rest 0 in
  let b := gtpu_uplink b 0x34 GTPU_MSG_GPDU 1 rest in
  let '(st, pi) := decode_snap b (GTP_AT + 8 + 4 + 6) (blen b) in EXPECT status_eqb st DEC_OK;
  EXPECT status_eqb (pi_gtp_status pi) DEC_TRUNC_GTPU_EXT;
  let '(st, pi) := decode_all b in EXPECT status_eqb st DEC_OK;
  EXPECT status_eqb (pi_gtp_status pi) DEC_OK;
  EXPECT pi_has_inner pi;
  let b := bb_empty in
  let rest := bb_empty in
  let b := build_ext_chain b 16 in
  let '(st, pi) := decode_all b in EXPECT status_eqb st DEC_OK;
  EXPECT status_eqb (pi_gtp_status pi) DEC_OK;
  EXPECT pi_gtp_ext_count pi =? 16;
  EXPECT pi_has_inner pi;
  let b := bb_empty in
  let b := build_ext_chain b 17 in
  let '(st, pi) := decode_all b in EXPECT status_eqb st DEC_OK;
  EXPECT status_eqb (pi_gtp_status pi) DEC_BAD_GTPU_EXT;
  EXPECT pi_gtp_ext_count pi =? 16;
  EXPECT negb (pi_has_inner pi);
  true.

Definition test_gtpu_length_vs_payload : bool :=
  let inner := bb_empty in
  let rest := bb_empty in
  let b := bb_empty in
  let inner := inner_v4_tcp inner 100 in
  let b := gtpu_uplink b 0x30 GTPU_MSG_GPDU 1 inner in
  let b := alter (fun v => u8 (v + 1)) (Z.to_nat (GTP_AT + 3)) b in
  let '(st, pi) := decode_all b in EXPECT status_eqb st DEC_OK;
  EXPECT status_eqb (pi_gtp_status pi) DEC_BAD_GTPU_LEN;
  EXPECT pi_gtp_v1u pi;
  EXPECT pi_teid pi =? 1;
  EXPECT negb (pi_has_inner pi);
  let '(st, pi) := decode_snap b (GTP_AT + 8 + 40) (blen b) in EXPECT status_eqb st DEC_OK;
  EXPECT status_eqb (pi_gtp_status pi) DEC_BAD_GTPU_LEN;
  let b := alter (fun v => u8 (v - 1)) (Z.to_nat (GTP_AT + 3)) b in
  let '(st, pi) := decode_snap b (GTP_AT + 4) (blen b) in EXPECT status_eqb st DEC_OK;
  EXPECT status_eqb (pi_gtp_status pi) DEC_TRUNC_GTPU;
  EXPECT pi_is_gtpu pi && negb (pi_gtp_v1u pi);
  let '(st, pi) := decode_snap b (GTP_AT + 8 + 10) (blen b) in EXPECT status_eqb st DEC_OK;
  EXPECT status_eqb (pi_gtp_status pi) DEC_TRUNC_IPV4;
  EXPECT negb (pi_has_inner pi);
  let '(st, pi) := decode_snap b (GTP_AT + 8 + 30) (blen b) in EXPECT status_eqb st DEC_OK;
  EXPECT status_eqb (pi_gtp_status pi) DEC_TRUNC_TCP;
  EXPECT pi_has_inner pi && negb (pi_inner_has_l4 pi);
  let '(st, pi) := decode_snap b (GTP_AT + 8 + 40) (blen b) in EXPECT status_eqb st DEC_OK;
  EXPECT status_eqb (pi_gtp_status pi) DEC_OK;
  EXPECT pi_inner_has_l4 pi;
  let b := bb_empty in
  let rest := bb_bytes rest (take 60 inner) in
  let b := gtpu_uplink b 0x30 GTPU_MSG_GPDU 1 rest in
  let '(st, pi) := decode_all b in EXPECT status_eqb st DEC_OK;
  EXPECT status_eqb (pi_gtp_status pi) DEC_BAD_IPV4_TOTAL_LEN;
  EXPECT negb (pi_has_inner pi);
  let b := bb_empty in
  let rest := bb_empty in
  let rest := bb_be16 rest 0x1234 in
  let b := gtpu_uplink b 0x32 GTPU_MSG_GPDU 1 rest in
  let '(st, pi) := decode_all b in EXPECT status_eqb st DEC_OK;
  EXPECT status_eqb (pi_gtp_status pi) DEC_BAD_GTPU_LEN;
  let '(st, pi) := decode_snap b (blen b) (blen b + 100) in EXPECT status_eqb st DEC_OK;
  EXPECT status_eqb (pi_gtp_status pi) DEC_BAD_GTPU_LEN;
  true.

Definition test_gtpu_not_v1u : bool :=
  let flags := [0x50; 0x20; 0x10; 0xF0] in
  let inner := bb_empty in
  let b := bb_empty in
  let inner := inner_v4_tcp inner 0 in
  EXPECT forallb (fun flag =>
    let b := gtpu_uplink b flag GTPU_MSG_GPDU 0x1234 inner in
    let '(st, pi) := decode_all b in EXPECT status_eqb st DEC_OK;
    EXPECT pi_is_gtpu pi;
    EXPECT negb (pi_gtp_v1u pi);
    EXPECT status_eqb (pi_gtp_status pi) DEC_OK;
    EXPECT pi_teid pi =? 0;
    EXPECT pi_gtp_msg_type pi =? 0;
    EXPECT negb (pi_has_inner pi);
    true) flags;
  true.

Definition test_gtpu_echo : bool :=
  let rest := bb_empty in
  let b := bb_empty in
  let rest := put_gtpu_opt rest 0x0102 0 0 in
  let b := gtpu_frame4 b RAN CORE 50000 GTPU_PORT 0x32 GTPU_MSG_ECHO_REQUEST 0 rest in
  let '(st, pi) := decode_all b in EXPECT status_eqb st DEC_OK;
  EXPECT pi_is_gtpu pi && pi_gtp_v1u pi;
  EXPECT status_eqb (pi_gtp_status pi) DEC_OK;
  EXPECT pi_gtp_msg_type pi =? GTPU_MSG_ECHO_REQUEST;
  EXPECT pi_gtp_seq pi =? 0x0102;
  EXPECT pi_teid pi =? 0;
  EXPECT negb (pi_has_inner pi);
  let b := bb_empty in
  let rest := bb_empty in
  let rest := put_gtpu_opt rest 0x0102 0 0 in
  let rest := bb_u8 rest 14 in
  let rest := bb_u8 rest 0 in
  let b := gtpu_frame4 b CORE RAN GTPU_PORT 50000 0x32 GTPU_MSG_ECHO_RESPONSE 0 rest in
  let '(st, pi) := decode_all b in EXPECT status_eqb st DEC_OK;
  EXPECT status_eqb (pi_gtp_status pi) DEC_OK;
  EXPECT pi_gtp_msg_type pi =? GTPU_MSG_ECHO_RESPONSE;
  EXPECT pi_gtp_seq pi =? 0x0102;
  EXPECT negb (pi_has_inner pi);
  true.

Definition test_gtpu_signalling_messages : bool :=
  let rest := bb_empty in
  let b := bb_empty in
  let rest := put_gtpu_opt rest 0 0 0 in
  let rest := bb_u8 rest 16 in
  let rest := bb_be32 rest 0xDEADBEEF in
  let rest := bb_u8 rest 133 in
  let rest := bb_be16 rest 4 in
  let rest := bb_bytes rest RAN in
  let b := gtpu_frame4 b CORE RAN GTPU_PORT GTPU_PORT 0x32 GTPU_MSG_ERROR_INDICATION 0 rest in
  let '(st, pi) := decode_all b in EXPECT status_eqb st DEC_OK;
  EXPECT status_eqb (pi_gtp_status pi) DEC_OK;
  EXPECT pi_gtp_msg_type pi =? GTPU_MSG_ERROR_INDICATION;
  EXPECT negb (pi_has_inner pi);
  let b := bb_empty in
  let rest := bb_empty in
  let b := gtpu_frame4 b CORE RAN GTPU_PORT GTPU_PORT 0x30 GTPU_MSG_END_MARKER 0x5678 rest in
  EXPECT blen b =? (GTP_AT + 8);
  let '(st, pi) := decode_all b in EXPECT status_eqb st DEC_OK;
  EXPECT status_eqb (pi_gtp_status pi) DEC_OK;
  EXPECT pi_gtp_msg_type pi =? GTPU_MSG_END_MARKER;
  EXPECT pi_teid pi =? 0x5678;
  let b := bb_empty in
  let rest := put_gtpu_opt rest 0 0 0 in
  let rest := bb_u8 rest 141 in
  let rest := bb_u8 rest 1 in
  let rest := bb_u8 rest 0x85 in
  let b := gtpu_uplink b 0x32 31 0 rest in
  let '(st, pi) := decode_all b in EXPECT status_eqb st DEC_OK;
  EXPECT status_eqb (pi_gtp_status pi) DEC_OK;
  EXPECT pi_gtp_msg_type pi =? 31;
  EXPECT negb (pi_has_inner pi);
  true.

Definition test_gtpu_inner_not_ip : bool :=
  let rest := bb_empty in
  let b := bb_empty in
  let rest := bb_fill rest 0x00 20 in
  let b := gtpu_uplink b 0x30 GTPU_MSG_GPDU 1 rest in
  let '(st, pi) := decode_all b in EXPECT status_eqb st DEC_OK;
  EXPECT status_eqb (pi_gtp_status pi) DEC_BAD_GTPU_INNER;
  EXPECT negb (pi_has_inner pi);
  let b := bb_empty in
  let rest := <[0%nat := u8 0x50]> rest in
  let b := gtpu_uplink b 0x30 GTPU_MSG_GPDU 1 rest in
  let '(st, pi) := decode_all b in EXPECT status_eqb st DEC_OK;
  EXPECT status_eqb (pi_gtp_status pi) DEC_BAD_GTPU_INNER;
  let b := bb_empty in
  let rest := bb_empty in
  let b := gtpu_uplink b 0x30 GTPU_MSG_GPDU 1 rest in
  let '(st, pi) := decode_all b in EXPECT status_eqb st DEC_OK;
  EXPECT status_eqb (pi_gtp_status pi) DEC_BAD_GTPU_INNER;
  let b := bb_empty in
  let rest := inner_v4_tcp rest 0 in
  let b := gtpu_uplink b 0x30 GTPU_MSG_GPDU 1 rest in
  let '(st, pi) := decode_snap b (GTP_AT + 8) (blen b) in EXPECT status_eqb st DEC_OK;
  EXPECT status_eqb (pi_gtp_status pi) DEC_TRUNC_GTPU_INNER;
  let '(st, pi) := decode_snap b (GTP_AT + 8 + 12) (blen b) in EXPECT status_eqb st DEC_OK;
  EXPECT status_eqb (pi_gtp_status pi) DEC_TRUNC_IPV4;
  let b := bb_empty in
  let rest := take 12 rest in
  let b := gtpu_uplink b 0x30 GTPU_MSG_GPDU 1 rest in
  let '(st, pi) := decode_all b in EXPECT status_eqb st DEC_OK;
  EXPECT status_eqb (pi_gtp_status pi) DEC_BAD_GTPU_INNER_SHORT;
  true.

Definition test_gtpu_inner_too_short : bool :=
  let inner := bb_empty in
  let rest := bb_empty in
  let b := bb_empty in
  let inner := inner_v4_tcp inner 0 in
  let rest := bb_bytes rest (take 10 inner) in
  let b := gtpu_uplink b 0x30 GTPU_MSG_GPDU 1 rest in
  let '(st, pi) := decode_all b in EXPECT status_eqb st DEC_OK;
  EXPECT status_eqb (pi_gtp_status pi) DEC_BAD_GTPU_INNER_SHORT;
  EXPECT pi_gtp_msg_ok pi;
  EXPECT negb (pi_has_inner pi);
  EXPECT String.eqb (decode_status_str (pi_gtp_status pi)) "G-PDU payload too short for IP header";
  let b := bb_empty in
  let rest := bb_empty in
  let inner := bb_empty in
  let inner := put_ipv6 inner IPPROTO_NUM_UDP TEST_V6_A TEST_V6_B 8 in
  let inner := put_udp inner 5353 53 0 in
  let rest := bb_bytes rest (take 30 inner) in
  let b := gtpu_uplink b 0x30 GTPU_MSG_GPDU 1 rest in
  let '(st, pi) := decode_all b in EXPECT status_eqb st DEC_OK;
  EXPECT status_eqb (pi_gtp_status pi) DEC_BAD_GTPU_INNER_SHORT;
  let b := bb_empty in
  let rest := bb_empty in
  let rest := bb_bytes rest inner in
  let b := gtpu_uplink b 0x30 GTPU_MSG_GPDU 1 rest in
  let '(st, pi) := decode_snap b (GTP_AT + 8 + 30) (blen b) in EXPECT status_eqb st DEC_OK;
  EXPECT status_eqb (pi_gtp_status pi) DEC_TRUNC_IPV6;
  let b := bb_empty in
  let rest := bb_empty in
  let inner := bb_empty in
  let b := put_eth b ETHERTYPE_IPV4 in
  let b := bb_fill b 0x45 10 in
  let '(st, pi) := decode_all b in EXPECT status_eqb st DEC_BAD_SHORT_FRAME;
  true.

Definition test_gtpu_msg_ok : bool :=
  let inner := bb_empty in
  let rest := bb_empty in
  let b := bb_empty in
  let inner := inner_v4_tcp inner 100 in
  let b := gtpu_uplink b 0x30 GTPU_MSG_GPDU 0x100 inner in
  let '(st, pi) := decode_all b in EXPECT status_eqb st DEC_OK;
  EXPECT status_eqb (pi_gtp_status pi) DEC_OK;
  EXPECT pi_gtp_msg_ok pi;
  let '(st, pi) := decode_snap b (GTP_AT + 8 + 30) (blen b) in EXPECT status_eqb st DEC_OK;
  EXPECT status_eqb (pi_gtp_status pi) DEC_TRUNC_TCP;
  EXPECT pi_gtp_msg_ok pi;
  EXPECT pi_teid pi =? 0x100;
  let '(st, pi) := decode_snap b (GTP_AT + 8 + 10) (blen b) in EXPECT status_eqb st DEC_OK;
  EXPECT status_eqb (pi_gtp_status pi) DEC_TRUNC_IPV4;
  EXPECT pi_gtp_msg_ok pi;
  let '(st, pi) := decode_snap b (GTP_AT + 8) (blen b) in EXPECT status_eqb st DEC_OK;
  EXPECT status_eqb (pi_gtp_status pi) DEC_TRUNC_GTPU_INNER;
  EXPECT pi_gtp_msg_ok pi;
  let '(st, pi) := decode_snap b (GTP_AT + 7) (blen b) in EXPECT status_eqb st DEC_OK;
  EXPECT status_eqb (pi_gtp_status pi) DEC_TRUNC_GTPU;
  EXPECT negb (pi_gtp_v1u pi) && negb (pi_gtp_msg_ok pi);
  let b := <[Z.to_nat (GTP_AT + 8 + 20 + 12) := u8 0x30]> b in
  let '(st, pi) := decode_all b in EXPECT status_eqb st DEC_OK;
  EXPECT status_eqb (pi_gtp_status pi) DEC_BAD_TCP_DOFF;
  EXPECT pi_gtp_msg_ok pi;
  let b := <[Z.to_nat (GTP_AT + 8 + 20 + 12) := u8 0x50]> b in
  let b := alter (fun v => u8 (v + 1)) (Z.to_nat (GTP_AT + 3)) b in
  let '(st, pi) := decode_all b in EXPECT status_eqb st DEC_OK;
  EXPECT status_eqb (pi_gtp_status pi) DEC_BAD_GTPU_LEN;
  EXPECT pi_gtp_v1u pi && negb (pi_gtp_msg_ok pi);
  let b := bb_empty in
  let rest := put_gtpu_opt rest 0 0 0x85 in
  let rest := put_gtpu_ext rest 3 0 in
  let rest := bb_bytes rest inner in
  let b := gtpu_uplink b 0x34 GTPU_MSG_GPDU 0x300 rest in
  let '(st, pi) := decode_snap b (GTP_AT + 8 + 4 + 6) (blen b) in EXPECT status_eqb st DEC_OK;
  EXPECT status_eqb (pi_gtp_status pi) DEC_TRUNC_GTPU_EXT;
  EXPECT pi_gtp_v1u pi && negb (pi_gtp_msg_ok pi);
  let b := <[Z.to_nat (GTP_AT + 8 + 4) := u8 0]> b in
  let '(st, pi) := decode_all b in EXPECT status_eqb st DEC_OK;
  EXPECT status_eqb (pi_gtp_status pi) DEC_BAD_GTPU_EXT_LEN;
  EXPECT negb (pi_gtp_msg_ok pi);
  let b := bb_empty in
  let rest := bb_empty in
  let b := gtpu_uplink b 0x30 GTPU_MSG_END_MARKER 0x200 rest in
  let '(st, pi) := decode_all b in EXPECT status_eqb st DEC_OK;
  EXPECT pi_gtp_msg_ok pi;
  let b := bb_empty in
  let b := gtpu_uplink b 0x20 GTPU_MSG_GPDU 0x200 inner in
  let '(st, pi) := decode_all b in EXPECT status_eqb st DEC_OK;
  EXPECT pi_is_gtpu pi && negb (pi_gtp_v1u pi) && negb (pi_gtp_msg_ok pi);
  true.

Definition test_gtpu_in_gtpu_not_decoded : bool :=
  let inner_rest := bb_empty in
  let inner_msg := bb_empty in
  let inner := bb_empty in
  let b := bb_empty in
  let inner_rest := put_gtpu_opt inner_rest 0 0 0x85 in
  let inner_rest := bb_fill inner_rest 0 4 in
  let inner_rest := inner_v4_tcp inner_rest 0 in
  let inner_msg := put_gtpu inner_msg 0x34 GTPU_MSG_GPDU (length inner_rest)%nat 0x99 in
  let inner_msg := bb_bytes inner_msg inner_rest in
  let inner := put_ipv4 inner IPPROTO_NUM_UDP UE SERVER (8 + length inner_msg)%nat 0 0 in
  let inner := put_udp inner GTPU_PORT GTPU_PORT (length inner_msg)%nat in
  let inner := bb_bytes inner inner_msg in
  let b := gtpu_uplink b 0x30 GTPU_MSG_GPDU 0x11 inner in
  let '(st, pi) := decode_all b in EXPECT status_eqb st DEC_OK;
  EXPECT status_eqb (pi_gtp_status pi) DEC_OK;
  EXPECT pi_teid pi =? 0x11;
  EXPECT pi_has_inner pi && pi_inner_has_l4 pi;
  EXPECT pi_inner_proto pi =? IPPROTO_NUM_UDP;
  EXPECT pi_inner_src_port pi =? GTPU_PORT;
  EXPECT pi_inner_dst_port pi =? GTPU_PORT;
  EXPECT pi_gtp_nested pi;
  true.

Definition test_gtpu_port_detection : bool :=
  let rest := bb_empty in
  let b := bb_empty in
  let rest := inner_v4_tcp rest 0 in
  let b := gtpu_frame4 b CORE RAN GTPU_PORT 40000 0x30 GTPU_MSG_GPDU 1 rest in
  let '(st, pi) := decode_all b in EXPECT status_eqb st DEC_OK;
  EXPECT pi_is_gtpu pi && pi_has_inner pi;
  let b := bb_empty in
  let b := gtpu_frame4 b RAN CORE 40000 GTPU_PORT 0x30 GTPU_MSG_GPDU 1 rest in
  let '(st, pi) := decode_all b in EXPECT status_eqb st DEC_OK;
  EXPECT pi_is_gtpu pi && pi_has_inner pi;
  let b := bb_empty in
  let b := gtpu_frame4 b RAN CORE 2123 2123 0x30 GTPU_MSG_GPDU 1 rest in
  let '(st, pi) := decode_all b in EXPECT status_eqb st DEC_OK;
  EXPECT negb (pi_is_gtpu pi) && negb (pi_has_inner pi);
  EXPECT status_eqb (pi_gtp_status pi) DEC_OK;
  let b := bb_empty in
  let b := frame_v4_udp b RAN CORE GTPU_PORT GTPU_PORT 7 in
  let '(st, pi) := decode_all b in EXPECT status_eqb st DEC_OK;
  EXPECT negb (pi_is_gtpu pi);
  let b := bb_empty in
  let rest := bb_empty in
  let b := gtpu_uplink b 0x30 GTPU_MSG_END_MARKER 9 rest in
  let '(st, pi) := decode_all b in EXPECT status_eqb st DEC_OK;
  EXPECT pi_is_gtpu pi;
  EXPECT status_eqb (pi_gtp_status pi) DEC_OK;
  let b := bb_empty in
  let b := frame_v4_tcp b RAN CORE 40000 GTPU_PORT TCP_ACK 20 in
  let '(st, pi) := decode_all b in EXPECT status_eqb st DEC_OK;
  EXPECT negb (pi_is_gtpu pi);
  let b := bb_empty in
  let b := put_eth b ETHERTYPE_IPV4 in
  let b := put_ipv4 b IPPROTO_NUM_UDP RAN CORE (8 + 8 + 40)%nat 0 0x2000 in
  let b := put_udp b GTPU_PORT GTPU_PORT (8 + 40 + 1400)%nat in
  let b := put_gtpu b 0x30 GTPU_MSG_GPDU (40 + 1400)%nat 1 in
  let b := inner_v4_tcp b 0 in
  let '(st, pi) := decode_all b in EXPECT status_eqb st DEC_OK;
  EXPECT bool_decide (pi_frag pi = FRAG_FIRST);
  EXPECT negb (pi_is_gtpu pi);
  EXPECT decode_is_gtpu_port pi;
  true.

Definition test_gtpu_outer_ipv6_vlan : bool :=
  let ue6 := [0x20; 0x01; 0x0d; 0xb8; 0x01; 0; 0; 7; 0; 0; 0; 0; 0; 0; 0; 1] in
  let srv6 := [0x20; 0x01; 0x0d; 0xb8; 0; 0xff; 0; 0; 0; 0; 0; 0; 0; 0; 0; 0x20] in
  let rest := bb_empty in
  let b := bb_empty in
  let rest := put_gtpu_opt rest 0 0 0x85 in
  let rest := bb_u8 rest 1 in
  let rest := bb_u8 rest 0x00 in
  let rest := bb_u8 rest 5 in
  let rest := bb_u8 rest 0 in
  let rest := put_ipv6 rest IPPROTO_NUM_ICMPV6 srv6 ue6 8 in
  let rest := put_icmp rest 129 0 in
  let b := put_eth b ETHERTYPE_VLAN in
  let b := put_vlan b 300 ETHERTYPE_IPV6 in
  let b := put_ipv6 b IPPROTO_NUM_UDP TEST_V6_A TEST_V6_B (8 + 8 + length rest)%nat in
  let b := put_udp b GTPU_PORT GTPU_PORT (8 + length rest)%nat in
  let b := put_gtpu b 0x34 GTPU_MSG_GPDU (length rest)%nat 0xCAFE in
  let b := bb_bytes b rest in
  let '(st, pi) := decode_all b in EXPECT status_eqb st DEC_OK;
  EXPECT pi_vlan_count pi =? 1;
  EXPECT pi_ip_version pi =? 6;
  EXPECT pi_is_gtpu pi;
  EXPECT status_eqb (pi_gtp_status pi) DEC_OK;
  EXPECT pi_teid pi =? 0xCAFE;
  EXPECT pi_gtp_ext_count pi =? 1;
  EXPECT pi_has_inner pi && pi_inner_has_l4 pi;
  EXPECT pi_inner_version pi =? 6;
  EXPECT pi_inner_proto pi =? IPPROTO_NUM_ICMPV6;
  EXPECT same_addr (pi_inner_dst pi) ue6;
  EXPECT pi_inner_src_port pi =? 0;
  true.

Definition test_gtpu_every_prefix : bool :=
  let rest := bb_empty in
  let msg := bb_empty in
  let rest := put_gtpu_opt rest 9 0 0x81 in
  let rest := put_gtpu_ext rest 2 0x85 in
  let rest := put_gtpu_ext rest 1 0 in
  let rest := put_ipv6 rest 0 TEST_V6_A TEST_V6_B (8 + 8 + 4)%nat in
  let rest := bb_u8 rest IPPROTO_NUM_UDP in
  let rest := bb_u8 rest 0 in
  let rest := bb_fill rest 0 6 in
  let rest := put_udp rest 443 50000 4 in
  let rest := bb_fill rest 0x5A 4 in
  let msg := put_gtpu msg 0x36 GTPU_MSG_GPDU (length rest)%nat 0x01020304 in
  let msg := bb_bytes msg rest in
  EXPECT check_gtpu_prefixes msg;
  let msg := bb_empty in
  let rest := bb_empty in
  let rest := inner_v4_tcp rest 10 in
  let msg := put_gtpu msg 0x30 GTPU_MSG_GPDU (length rest)%nat 0x42 in
  let msg := bb_bytes msg rest in
  EXPECT check_gtpu_prefixes msg;
  true.

(** The decoding part of [run_gtpu_tests]: they all pass. *)
Definition gtpu_tests : list bool :=
  [test_gtpu_gpdu_ipv4_tcp; test_gtpu_inner_ipv6_udp; test_gtpu_optional_fields;
   test_gtpu_one_extension; test_gtpu_extension_chain; test_gtpu_extension_length_zero;
   test_gtpu_extension_overrun; test_gtpu_length_vs_payload; test_gtpu_not_v1u; test_gtpu_echo;
   test_gtpu_signalling_messages; test_gtpu_inner_not_ip; test_gtpu_inner_too_short;
   test_gtpu_msg_ok; test_gtpu_in_gtpu_not_decoded; test_gtpu_port_detection;
   test_gtpu_outer_ipv6_vlan; test_gtpu_every_prefix].

Example gtpu_tests_pass : forallb id gtpu_tests = true.
Proof. vm_compute. reflexivity. Qed.
