(* ===== verification/TestFlow.v ===== *)
(** The repository's own tests of flow keys, the flow table, address text and the
    fragment cache (src/tests/test_flow.c), run on the model as those of [TestDecode]
    are.  Left out are [test_table_growth], [test_iteration_visits_all],
    [test_top_n_matches_full_sort] and [test_frag_cache_many]: their hundreds or
    thousands of packets are too many for tables that are lists.  [FlowProps],
    [TopN], [FlowTheorems] and [Frag] prove what they sample. *)
From Stdlib Require Import String.
From S2P Require Export TestDecode.
#[global] Open Scope Z_scope.

(** [RUN p <- call; rest]: the result of a call of the model, a failed test where it
    has undefined behaviour. *)
Notation "'RUN' p <- c ; k" := (match c with Some p => k | _ => false end)
  (at level 10, p pattern, c at level 99, k at level 200, format "'RUN'  p  <-  c ; '//' k") : test_scope.

(** ** Helpers of the tests *)
Definition make_pkt (version proto : Z) (src : bytes) (sport : Z) (dst : bytes) (dport flags : Z) : packet_info :=
  packet_info_zero <| pi_has_l2 := true |> <| pi_has_l3 := true |> <| pi_has_l4 := true |>
    <| pi_ip_version := u8 version |> <| pi_ip_proto := u8 proto |>
    <| pi_src_addr ::= fun a => overwrite a src |> <| pi_dst_addr ::= fun a => overwrite a dst |>
    <| pi_src_port := u16 sport |> <| pi_dst_port := u16 dport |> <| pi_tcp_flags := u8 flags |>.

(** A call that must return 0. *)
Definition add (t : flow_table) (p : packet_info) (wire_len ts_ns : Z) : option flow_table :=
  '(rc, t) ← flow_table_add_packet t p wire_len ts_ns true;
  if rc =? 0 then Some t else None.

Fixpoint add_all (t : flow_table) (calls : list (packet_info * Z * Z)) : option flow_table :=
  match calls with
  | [] => Some t
  | (p, wire_len, ts_ns) :: calls => t ← add t p wire_len ts_ns; add_all t calls
  end.

Definition new_table (hint : Z) : option flow_table :=
  '(rc, t) ← flow_table_init hint true;
  if rc =? 0 then Some t else None.

(** [flow_table_find] and the flow it points at. *)
Definition find_flow (t : flow_table) (key : flow_key) : option (option flow) :=
  found ← flow_table_find t key;
  match found with Some i => f ← slot_at (ft_slots t) i; Some (Some f) | None => Some None end.

Definition nth_flow_pkt (i : Z) : packet_info :=
  let src := [10; u8 (Z.shiftr i 16); u8 (Z.shiftr i 8); u8 i] in
  make_pkt 4 6 src (u16 (1024 + i mod 50000)) TEST_V4_B 443 TCP_ACK.

Definition add_flow_with_bytes (t : flow_table) (id bytes packets : Z) : option flow_table :=
  let p := nth_flow_pkt id in
  add_all t (map (fun k =>
    let part := bytes / packets + (if k + 1 =? packets then bytes mod packets else 0) in
    (p, u32 part, 100 + id)) (seqZ 0 packets)).

Fixpoint add_flows (t : flow_table) (flows : list (Z * Z * Z)) : option flow_table :=
  match flows with
  | [] => Some t
  | (id, bytes, packets) :: flows => t ← add_flow_with_bytes t id bytes packets; add_flows t flows
  end.

(** ** The tests *)
Definition test_flow_key_normalization : bool :=
  let ab := make_pkt 4 6 TEST_V4_A 40000 TEST_V4_B 80 0 in
  let ba := make_pkt 4 6 TEST_V4_B 80 TEST_V4_A 40000 0 in
  RUN (k1, r1) <- flow_key_from_packet ab;
  RUN (k2, r2) <- flow_key_from_packet ba;
  EXPECT bool_decide (k1 = k2);
  EXPECT Bool.eqb r1 false;
  EXPECT Bool.eqb r2 true;
  EXPECT same_addr (fk_addr_a k1) TEST_V4_A;
  EXPECT fk_port_a k1 =? 40000;
  let ab := make_pkt 4 17 TEST_V4_A 9000 TEST_V4_A 53 0 in
  let ba := make_pkt 4 17 TEST_V4_A 53 TEST_V4_A 9000 0 in
  RUN (k1, r1) <- flow_key_from_packet ab;
  RUN (k2, r2) <- flow_key_from_packet ba;
  EXPECT bool_decide (k1 = k2);
  EXPECT fk_port_a k1 =? 53;
  EXPECT negb (Bool.eqb r1 r2);
  true.

Definition test_flow_key_requires_l3 : bool :=
  let pi := packet_info_zero <| pi_has_l2 := true |> in
  EXPECT bool_decide (flow_key_from_packet pi = None);
  true.

Definition test_bidirectional_merge : bool :=
  let syn := make_pkt 4 6 TEST_V4_A 40000 TEST_V4_B 80 TCP_SYN in
  let synack := make_pkt 4 6 TEST_V4_B 80 TEST_V4_A 40000 (Z.lor TCP_SYN TCP_ACK) in
  let ack := make_pkt 4 6 TEST_V4_A 40000 TEST_V4_B 80 TCP_ACK in
  let fin := make_pkt 4 6 TEST_V4_B 80 TEST_V4_A 40000 (Z.lor TCP_FIN TCP_ACK) in
  RUN t <- new_table 0;
  RUN t <- add_all t [(syn, 74, 1000); (synack, 74, 2000); (ack, 66, 3000); (fin, 66, 4000)];
  EXPECT ft_count t =? 1;
  RUN (key, rev) <- flow_key_from_packet synack;
  RUN (Some f) <- find_flow t key;
  EXPECT fl_packets f =? 4;
  EXPECT fl_bytes f =? 74 + 74 + 66 + 66;
  EXPECT fl_first_ts_ns f =? 1000;
  EXPECT fl_last_ts_ns f =? 4000;
  EXPECT fl_tcp_flags f =? Z.lor (Z.lor TCP_SYN TCP_ACK) TCP_FIN;
  EXPECT Bool.eqb (fl_first_from_b f) false;
  RUN t <- add t synack 60 5000;
  let syn := make_pkt 4 6 TEST_V4_B 443 TEST_V4_A 1234 TCP_SYN in
  RUN t <- add t syn 60 6000;
  EXPECT ft_count t =? 2;
  RUN (key, rev) <- flow_key_from_packet syn;
  RUN (Some f) <- find_flow t key;
  EXPECT Bool.eqb (fl_first_from_b f) true;
  true.

Definition test_distinct_flows : bool :=
  RUN t <- new_table 64;
  RUN t <- add t (make_pkt 4 6 TEST_V4_A 1000 TEST_V4_B 80 0) 60 1;
  RUN t <- add t (make_pkt 4 6 TEST_V4_A 1001 TEST_V4_B 80 0) 60 2;
  RUN t <- add t (make_pkt 4 17 TEST_V4_A 1000 TEST_V4_B 80 0) 60 3;
  RUN t <- add t (make_pkt 6 6 TEST_V6_A 1000 TEST_V6_B 80 0) 60 4;
  RUN t <- add t (make_pkt 4 6 TEST_V4_B 80 TEST_V4_A 1000 0) 60 5;
  EXPECT ft_count t =? 4;
  true.

Definition test_out_of_order_timestamps : bool :=
  let p := make_pkt 4 17 TEST_V4_A 5 TEST_V4_B 6 0 in
  let r := make_pkt 4 17 TEST_V4_B 6 TEST_V4_A 5 0 in
  RUN t <- new_table 0;
  RUN t <- add t p 100 5000;
  RUN t <- add t r 100 3000;
  RUN t <- add t p 100 9000;
  RUN t <- add t p 100 7000;
  RUN (Some f, pos) <- flow_table_next t 0;
  EXPECT fl_first_ts_ns f =? 3000;
  EXPECT fl_last_ts_ns f =? 9000;
  EXPECT Bool.eqb (fl_first_from_b f) true;
  true.

Definition test_top_n_ordering : bool :=
  RUN t <- new_table 0;
  RUN t <- add_flows t [(1, 500, 1); (2, 100, 1); (3, 900, 3); (4, 300, 1); (5, 700, 2); (6, 100, 2)];
  RUN top <- flow_table_top_n t 3;
  EXPECT bool_decide (length top = 3%nat);
  EXPECT bool_decide (map fl_bytes top = [900; 700; 500]);
  RUN top <- flow_table_top_n t 10;
  EXPECT bool_decide (length top = 6%nat);
  EXPECT bool_decide (drop 3 (map fl_bytes top) = [300; 100; 100]);
  EXPECT bool_decide (drop 4 (map fl_packets top) = [2; 1]);
  RUN top <- flow_table_top_n t 0;
  EXPECT bool_decide (length top = 0%nat);
  true.

Definition junk_buffer : bytes := replicate 46 0xAA.

(** [addr_format] into a buffer of [ADDR_STR_LEN] bytes, of which it may use [len]. *)
Definition formats (version : Z) (addr : bytes) (len : Z) (expect : string) : bool :=
  RUN buf <- addr_format version addr junk_buffer len junk_buffer;
  RUN text <- c_str buf;
  bool_decide (text = str expect).

Definition check_v6 (expect : string) (addr : bytes) : bool := formats 6 addr ADDR_STR_LEN expect.

Definition test_addr_format : bool :=
  let v4 := [192; 0; 2; 255] in
  let zero := replicate 16 0 in
  let loop := [0; 0; 0; 0; 0; 0; 0; 0; 0; 0; 0; 0; 0; 0; 0; 1] in
  let single := [0x20; 0x01; 0x0d; 0xb8; 0; 0; 0; 1; 0; 1; 0; 1; 0; 1; 0; 1] in
  let longest := [0x20; 0x01; 0; 0; 0; 0; 0; 1; 0; 0; 0; 0; 0; 0; 0; 1] in
  let tie := [0; 1; 0; 0; 0; 0; 0; 2; 0; 0; 0; 0; 0; 3; 0; 4] in
  let trailing := [0xfe; 0x80; 0; 0; 0; 0; 0; 0; 0; 0; 0; 0; 0; 0; 0; 0] in
  let full := [0xab; 0xcd; 0x00; 0x12; 0x10; 0x00; 0xff; 0xff; 0x00; 0x0a; 0x00; 0xb0; 0x0c; 0x00; 0xde; 0xad] in
  EXPECT formats 4 v4 ADDR_STR_LEN "192.0.2.255";
  EXPECT check_v6 "::" zero;
  EXPECT check_v6 "::1" loop;
  EXPECT check_v6 "2001:db8:0:1:1:1:1:1" single;
  EXPECT check_v6 "2001:0:0:1::1" longest;
  EXPECT check_v6 "1::2:0:0:3:4" tie;
  EXPECT check_v6 "fe80::" trailing;
  EXPECT check_v6 "abcd:12:1000:ffff:a:b0:c00:dead" full;
  EXPECT check_v6 "2001:db8::1" TEST_V6_A;
  EXPECT formats 4 v4 4 "192";
  true.

Definition test_addr_format_v4_mapped : bool :=
  let mapped := [0; 0; 0; 0; 0; 0; 0; 0; 0; 0; 0xff; 0xff; 192; 0; 2; 1] in
  let mapped0 := [0; 0; 0; 0; 0; 0; 0; 0; 0; 0; 0xff; 0xff; 0; 0; 0; 0] in
  let near := [0; 0; 0; 0; 0; 0; 0; 0; 0; 0; 0xff; 0xfe; 1; 2; 3; 4] in
  let not_zero := [0; 0; 0; 0; 0; 0; 0; 0; 0; 1; 0xff; 0xff; 1; 2; 3; 4] in
  let compat := [0; 0; 0; 0; 0; 0; 0; 0; 0; 0; 0; 0; 1; 2; 3; 4] in
  EXPECT check_v6 "::ffff:192.0.2.1" mapped;
  EXPECT check_v6 "::ffff:0.0.0.0" mapped0;
  EXPECT check_v6 "::fffe:102:304" near;
  EXPECT check_v6 "::1:ffff:102:304" not_zero;
  EXPECT check_v6 "::102:304" compat;
  true.

Definition frag_pkt (kind : frag_kind) (id sport dport : Z) : packet_info :=
  packet_info_zero <| pi_status := DEC_OK |> <| pi_has_l2 := true |> <| pi_has_l3 := true |>
    <| pi_has_l4 := negb (bool_decide (kind = FRAG_LATER)) |>
    <| pi_ip_version := 4 |> <| pi_ip_proto := IPPROTO_NUM_UDP |>
    <| pi_src_addr ::= fun a => overwrite a TEST_V4_A |> <| pi_dst_addr ::= fun a => overwrite a TEST_V4_B |>
    <| pi_frag := kind |> <| pi_frag_id := u32 id |>
    <| pi_src_port := u16 sport |> <| pi_dst_port := u16 dport |>.

Definition test_frag_cache : bool :=
  let first := frag_pkt FRAG_FIRST 77 4444 5555 in
  let later := frag_pkt FRAG_LATER 77 0 0 in
  let other_id := frag_pkt FRAG_LATER 78 0 0 in
  let other_dst := frag_pkt FRAG_LATER 77 0 0 in
  let early := frag_pkt FRAG_LATER 90 0 0 in
  let bad := frag_pkt FRAG_LATER 77 0 0 in
  let '(rc, c) := frag_cache_init true in
  EXPECT rc =? 0;
  RUN (matched, c, early) <- frag_cache_apply c early;
  EXPECT negb matched && (pi_src_port early =? 0);
  RUN (matched, c, first) <- frag_cache_apply c first;
  EXPECT negb matched;
  RUN (matched, c, later) <- frag_cache_apply c later;
  EXPECT (matched : bool);
  EXPECT pi_src_port later =? 4444;
  EXPECT pi_dst_port later =? 5555;
  EXPECT negb (pi_has_l4 later);
  RUN (matched, c, other_id) <- frag_cache_apply c other_id;
  EXPECT negb matched;
  EXPECT pi_src_port other_id =? 0;
  let other_dst := other_dst <| pi_dst_addr ::= <[3%nat := 99]> |> in
  RUN (matched, c, other_dst) <- frag_cache_apply c other_dst;
  EXPECT negb matched;
  let bad := bad <| pi_status := DEC_BAD_UDP_LEN |> in
  RUN (matched, c, bad) <- frag_cache_apply c bad;
  EXPECT negb matched;
  true.

(** [run_flow_tests], without those four: they all pass. *)
Definition flow_tests : list bool :=
  [test_flow_key_normalization; test_flow_key_requires_l3; test_bidirectional_merge; test_distinct_flows;
   test_out_of_order_timestamps; test_top_n_ordering;
   test_addr_format; test_addr_format_v4_mapped; test_frag_cache].

Example flow_tests_pass : forallb id flow_tests = true.
Proof. vm_compute. reflexivity. Qed.
