(* ===== verification/TestPcap.v ===== *)
(** The repository's own tests of the pcap reader (src/tests/test_pcap.c), run on the
    model as those of [TestDecode] are: those on captures in memory.  The tests that
    go through a file, or that need a record of 262144 bytes, are left to the
    theorems of [PcapProps]. *)
From S2P Require Export TestFlow.
#[global] Open Scope Z_scope.

Definition payload8 : bytes := [1; 2; 3; 4; 5; 6; 7; 8].

(** The record [pcap_next] fills in, with whatever was in it. *)
Definition any_record : pcap_record := Pcap_record 1 2 3 None.

(** ** The tests *)
Definition check_variant (big_endian nsec : bool) : bool :=
  let b := bb_empty in
  let b := pcap_put_global b big_endian nsec 65535 1 in
  let b := pcap_put_record b big_endian 1700000000 123456 payload8 60 in
  RUN (st, r) <- pcap_open_mem b (blen b); EXPECT pstatus_eqb st PCAP_OK;
  EXPECT Bool.eqb (fi_big_endian (r_info r)) big_endian;
  EXPECT Bool.eqb (fi_nsec (r_info r)) nsec;
  EXPECT fi_snaplen (r_info r) =? 65535;
  EXPECT fi_linktype (r_info r) =? 1;
  let rec := any_record in
  RUN (st, r, rec) <- pcap_next r rec; EXPECT pstatus_eqb st PCAP_OK;
  EXPECT rec_caplen rec =? 8;
  EXPECT rec_wirelen rec =? 60;
  EXPECT bool_decide (rec_bytes r rec = Some payload8);
  EXPECT rec_ts_ns rec =? 1700000000 * 1000000000 + (if nsec then 123456 else 123456000);
  RUN (st, r, rec) <- pcap_next r rec; EXPECT pstatus_eqb st PCAP_EOF;
  true.

Definition test_magic_le_usec : bool := check_variant false false.

Definition test_magic_be_usec : bool := check_variant true false.

Definition test_magic_le_nsec : bool := check_variant false true.

Definition test_magic_be_nsec : bool := check_variant true true.

Definition test_bad_magic : bool :=
  let hdr := replicate 24 0x55 in
  RUN (st, r) <- pcap_open_mem hdr 24; EXPECT pstatus_eqb st PCAP_ERR_BAD_MAGIC;
  RUN (st, r) <- pcap_open_mem hdr 6; EXPECT pstatus_eqb st PCAP_ERR_BAD_MAGIC;
  true.

Definition test_pcapng_rejected : bool :=
  let shb := [0x0A; 0x0D; 0x0D; 0x0A; 0x1C; 0; 0; 0; 0x4D; 0x3C; 0x2B; 0x1A] ++ replicate 12 0 in
  RUN (st, r) <- pcap_open_mem shb 24; EXPECT pstatus_eqb st PCAP_ERR_PCAPNG;
  true.

Definition test_bad_version_and_linktype : bool :=
  let b := bb_empty in
  let b := pcap_put_global b false false 65535 1 in
  let b := <[4%nat := u8 1]> b in
  RUN (st, r) <- pcap_open_mem b (blen b); EXPECT pstatus_eqb st PCAP_ERR_BAD_VERSION;
  let b := bb_empty in
  let b := pcap_put_global b false false 65535 101 in
  RUN (st, r) <- pcap_open_mem b (blen b); EXPECT pstatus_eqb st PCAP_ERR_BAD_LINKTYPE;
  let b := bb_empty in
  let b := pcap_put_global b true false 65535 0x14000001 in
  RUN (st, r) <- pcap_open_mem b (blen b); EXPECT pstatus_eqb st PCAP_OK;
  EXPECT fi_linktype (r_info r) =? 1;
  true.

Definition test_truncated_global_header : bool :=
  let b := pcap_put_global bb_empty false false 65535 1 in
  EXPECT forallb (fun cut : nat =>
    RUN (st, r) <- pcap_open_mem (if bool_decide (cut = 0%nat) then [] else b) (Z.of_nat cut);
    pstatus_eqb st PCAP_ERR_SHORT_HEADER) (seq 0 (Z.to_nat PCAP_GLOBAL_HDR_LEN));
  true.

Definition test_truncated_record_header : bool :=
  let b := bb_empty in
  let b := pcap_put_global b false false 65535 1 in
  let b := pcap_put_record b false 1 0 payload8 8 in
  let b := bb_fill b 0 7 in
  RUN (st, r) <- pcap_open_mem b (blen b); EXPECT pstatus_eqb st PCAP_OK;
  let rec := any_record in
  RUN (st, r, rec) <- pcap_next r rec; EXPECT pstatus_eqb st PCAP_OK;
  RUN (st, r, rec) <- pcap_next r rec; EXPECT pstatus_eqb st PCAP_ERR_TRUNC_RECORD_HDR;
  EXPECT r_records r =? 1;
  true.

Definition test_truncated_record_data : bool :=
  let b := bb_empty in
  let b := pcap_put_global b false false 65535 1 in
  let b := pcap_put_record b false 1 0 payload8 8 in
  let b := bb_u32 b 2 false in
  let b := bb_u32 b 0 false in
  let b := bb_u32 b 60 false in
  let b := bb_u32 b 60 false in
  let b := bb_fill b 0xEE 30 in
  RUN (st, r) <- pcap_open_mem b (blen b); EXPECT pstatus_eqb st PCAP_OK;
  let rec := any_record in
  RUN (st, r, rec) <- pcap_next r rec; EXPECT pstatus_eqb st PCAP_OK;
  RUN (st, r, rec) <- pcap_next r rec; EXPECT pstatus_eqb st PCAP_ERR_TRUNC_RECORD;
  RUN (st, r, rec) <- pcap_next r rec; EXPECT pstatus_eqb st PCAP_ERR_TRUNC_RECORD;
  true.

Definition test_oversized_caplen : bool :=
  let b := bb_empty in
  let b := pcap_put_global b true false 65535 1 in
  let b := bb_u32 b 1 true in
  let b := bb_u32 b 0 true in
  let b := bb_u32 b (PCAP_MAX_CAPLEN + 1) true in
  let b := bb_u32 b (PCAP_MAX_CAPLEN + 1) true in
  RUN (st, r) <- pcap_open_mem b (blen b); EXPECT pstatus_eqb st PCAP_OK;
  let rec := any_record in
  RUN (st, r, rec) <- pcap_next r rec; EXPECT pstatus_eqb st PCAP_ERR_BAD_CAPLEN;
  let b := bb_empty in
  let b := pcap_put_global b false false 65535 1 in
  let b := bb_u32 b 1 false in
  let b := bb_u32 b 0 false in
  let b := bb_u32 b 0xFFFFFFFF false in
  let b := bb_u32 b 0xFFFFFFFF false in
  RUN (st, r) <- pcap_open_mem b (blen b); EXPECT pstatus_eqb st PCAP_OK;
  RUN (st, r, rec) <- pcap_next r rec; EXPECT pstatus_eqb st PCAP_ERR_BAD_CAPLEN;
  true.

Definition test_wirelen_below_caplen_raised : bool :=
  let frame := replicate 108 0 in
  let b := bb_empty in
  let b := pcap_put_global b false false 65535 1 in
  let b := pcap_put_record b false 1 0 frame 10 in
  let b := pcap_put_record b false 2 0 (take 60 frame) 1514 in
  RUN (st, r) <- pcap_open_mem b (blen b); EXPECT pstatus_eqb st PCAP_OK;
  let rec := any_record in
  RUN (st, r, rec) <- pcap_next r rec; EXPECT pstatus_eqb st PCAP_OK;
  EXPECT rec_caplen rec =? 108;
  EXPECT rec_wirelen rec =? 108;
  RUN (st, r, rec) <- pcap_next r rec; EXPECT pstatus_eqb st PCAP_OK;
  EXPECT rec_caplen rec =? 60;
  EXPECT rec_wirelen rec =? 1514;
  RUN (st, r, rec) <- pcap_next r rec; EXPECT pstatus_eqb st PCAP_EOF;
  true.

Definition test_empty_capture : bool :=
  let b := bb_empty in
  let b := pcap_put_global b false true 262144 1 in
  RUN (st, r) <- pcap_open_mem b (blen b); EXPECT pstatus_eqb st PCAP_OK;
  let rec := any_record in
  RUN (st, r, rec) <- pcap_next r rec; EXPECT pstatus_eqb st PCAP_EOF;
  EXPECT r_records r =? 0;
  true.

(** [run_pcap_tests], without the four left out: they all pass. *)
Definition pcap_tests : list bool :=
  [test_magic_le_usec; test_magic_be_usec; test_magic_le_nsec; test_magic_be_nsec;
   test_bad_magic; test_pcapng_rejected; test_bad_version_and_linktype;
   test_truncated_global_header; test_truncated_record_header; test_truncated_record_data;
   test_oversized_caplen; test_wirelen_below_caplen_raised; test_empty_capture].

Example pcap_tests_pass : forallb id pcap_tests = true.
Proof. vm_compute. reflexivity. Qed.
