(* ===== verification/TestReport.v ===== *)
(** The repository's own tests of the pipeline and of the reports
    (src/tests/test_report.c), run on the model as those of [TestDecode] are: captures
    go through the reader, the decoder, the fragment cache, the counters and the flow
    table, and the summary, the table and the CSV are compared as texts. *)
From Stdlib Require Import String.
From S2P Require Export TestFlow.
#[global] Open Scope Z_scope.

Definition SEC := 1000000000.

(** A process that holds nothing. *)
Definition idle : resources := Resources 0 0.

(** What was written to a temporary file. *)
Definition temp_file : ostream := ostream_new sound.
Definition slurp (f : ostream) : bytes := o_data (fflush f).2.

(** [strncmp(text, s, strlen(s)) == 0] and [strstr(text, s) != NULL]. *)
Fixpoint starts_with (s text : bytes) : bool :=
  match s, text with
  | [], _ => true
  | x :: s, y :: text => (x =? y) && starts_with s text
  | _ :: _, [] => false
  end.
Fixpoint contains (s text : bytes) : bool :=
  starts_with s text || match text with [] => false | _ :: text => contains s text end.

(** Lines, each with its end. *)
Definition lines (ls : list string) : bytes := concat (map (fun l => str l ++ newline) ls).

Definition junk0 (n : Z) : bytes := replicate (Z.to_nat n) 0xEE.

(** A structure that was not initialised, then [analysis_init] that must return 0. *)
Definition new_analysis : option analysis :=
  '(rc, an) ← analysis_init (Analysis stats_init (Flow_table [] 0 0 0) (Flow_table [] 0 0 0) (Frag_cache None 0))
                (Init_allocs true true true);
  if rc =? 0 then Some an else None.

(** The reader opened on [cap] and run through the analysis. *)
Definition run_pipeline (cap : bytes) : option (pcap_status * analysis * pcap_reader) :=
  '(st, r) ← pcap_open_mem cap (blen cap);
  if negb (pstatus_eqb st PCAP_OK) then None else
  an ← new_analysis;
  analysis_run (S (length cap)) an r (Pcap_record 1 2 3 None) [].

Definition analyze_capture (cap : bytes) : option analysis :=
  '(st, an, r) ← run_pipeline cap;
  if pstatus_eqb st PCAP_EOF then Some an else None.

(** A test on a capture built before it. *)
Definition on (cap : bytes) (test : bytes -> bool) : bool := test cap.

Definition by_status (s : stats) (st : decode_status) : Z := default 0 (st_by_status s !! Z.to_nat (status_val st)).

(** ** The tests *)
Definition test_tcp_flags_string : bool :=
  let text flags := buf ← format_tcp_flags flags (junk0 9); c_str buf in
  EXPECT bool_decide (text (Z.lor TCP_SYN TCP_ACK) = Some (str "SA"));
  EXPECT bool_decide (text 0xFF = Some (str "FSRPAUEC"));
  EXPECT bool_decide (text 0 = Some (str ""));
  EXPECT bool_decide (text (Z.lor (Z.lor TCP_FIN TCP_PSH) TCP_ACK) = Some (str "FPA"));
  true.

Definition test_csv_output : bool :=
  let expect := lines [
    "src_addr,src_port,dst_addr,dst_port,protocol,ip_version,packets,bytes,first_ts,last_ts,duration_s,tcp_flags";
    "2001:db8::2,53,2001:db8::1,5353,UDP,6,1,200,1700000001.000000000,1700000001.000000000,0.000000000,";
    "10.0.0.1,40000,192.168.1.20,80,TCP,4,2,148,1700000000.000000001,1700000000.500000001,0.500000000,SA"]%string in
  RUN t <- new_table 0;
  RUN t <- add_all t [
    (make_pkt 4 6 TEST_V4_A 40000 TEST_V4_B 80 TCP_SYN, 74, 1700000000 * SEC + 1);
    (make_pkt 4 6 TEST_V4_B 80 TEST_V4_A 40000 (Z.lor TCP_SYN TCP_ACK), 74, 1700000000 * SEC + SEC / 2 + 1);
    (make_pkt 6 17 TEST_V6_B 53 TEST_V6_A 5353 0, 200, 1700000001 * SEC)];
  RUN (rc, f, _) <- report_csv junk0 temp_file t true idle; EXPECT rc =? 0;
  bool_decide (slurp f = expect).

Definition test_csv_empty : bool :=
  RUN t <- new_table 0;
  RUN (rc, f, _) <- report_csv junk0 temp_file t true idle; EXPECT rc =? 0;
  EXPECT starts_with (str "src_addr,") (slurp f);
  bool_decide (list_find (.= 10) (slurp f) = Some ((length (slurp f) - 1)%nat, 10)).

Definition add_frame (cap : bytes) (t : Z) (fr : bytes) (caplen wirelen : Z) : bytes :=
  pcap_put_record cap false t 0 (take (Z.to_nat caplen) fr) wirelen.

Definition build_mixed_capture (cap : bytes) : bytes :=
  let cap := pcap_put_global cap false false 65535 1 in
  let fr := frame_v4_tcp bb_empty TEST_V4_A TEST_V4_B 40000 80 TCP_SYN 0 in
  let cap := add_frame cap 10 fr (blen fr) (blen fr) in
  let fr := frame_v4_tcp bb_empty TEST_V4_B TEST_V4_A 80 40000 (Z.lor TCP_SYN TCP_ACK) 0 in
  let cap := add_frame cap 11 fr (blen fr) (blen fr) in
  let fr := frame_v4_tcp bb_empty TEST_V4_A TEST_V4_B 40000 80 TCP_ACK 100 in
  let cap := add_frame cap 12 fr (blen fr) (blen fr) in
  let fr := put_eth bb_empty ETHERTYPE_IPV6 in
  let fr := put_ipv6 fr IPPROTO_NUM_UDP TEST_V6_A TEST_V6_B (8 + 30) in
  let fr := put_udp fr 5353 53 30 in
  let fr := bb_fill fr 0 30 in
  let cap := add_frame cap 13 fr (blen fr) (blen fr) in
  let fr := put_eth bb_empty ETHERTYPE_IPV6 in
  let fr := put_ipv6 fr IPPROTO_NUM_UDP TEST_V6_B TEST_V6_A (8 + 90) in
  let fr := put_udp fr 53 5353 90 in
  let fr := bb_fill fr 0 90 in
  let cap := add_frame cap 14 fr (blen fr) (blen fr) in
  let fr := put_eth bb_empty ETHERTYPE_IPV4 in
  let fr := put_ipv4 fr IPPROTO_NUM_ICMP TEST_V4_A TEST_V4_B 8 0 0 in
  let fr := put_icmp fr 8 0 in
  let cap := add_frame cap 15 fr (blen fr) (blen fr) in
  let fr := put_eth bb_empty ETHERTYPE_ARP in
  let fr := bb_fill fr 0 46 in
  let cap := add_frame cap 16 fr (blen fr) (blen fr) in
  let fr := put_eth bb_empty ETHERTYPE_VLAN in
  let fr := put_vlan fr 100 ETHERTYPE_IPV4 in
  let fr := put_ipv4 fr IPPROTO_NUM_UDP TEST_V4_A TEST_V4_B 8 0 0 in
  let fr := put_udp fr 1000 2000 0 in
  let cap := add_frame cap 17 fr (blen fr) (blen fr) in
  let fr := put_eth bb_empty ETHERTYPE_IPV4 in
  let fr := put_ipv4 fr IPPROTO_NUM_UDP TEST_V4_A TEST_V4_B 16 0 185 in
  let fr := bb_fill fr 0x77 16 in
  let cap := add_frame cap 18 fr (blen fr) (blen fr) in
  let fr := frame_v4_tcp bb_empty TEST_V4_A TEST_V4_B 1 2 TCP_SYN 0 in
  let fr := <[14%nat := 0x43]> fr in
  let cap := add_frame cap 19 fr (blen fr) (blen fr) in
  let fr := frame_v4_tcp bb_empty TEST_V4_A TEST_V4_B 3 4 TCP_ACK 100 in
  add_frame cap 20 fr (14 + 20 + 10) (blen fr).

Definition test_pipeline_counts : bool := on (build_mixed_capture bb_empty) (fun cap =>
  RUN (st, an, r) <- run_pipeline cap; EXPECT pstatus_eqb st PCAP_EOF;
  let s := an_stats an in
  EXPECT st_packets s =? 11;
  EXPECT st_ipv4 s =? 7;
  EXPECT st_ipv6 s =? 2;
  EXPECT st_non_ip s =? 1;
  EXPECT st_tcp s =? 4;
  EXPECT st_udp s =? 4;
  EXPECT st_icmp s =? 1;
  EXPECT st_icmpv6 s =? 0;
  EXPECT st_vlan_tagged s =? 1;
  EXPECT st_frag_later s =? 1;
  EXPECT st_frag_matched s =? 0;
  EXPECT st_truncated s =? 1;
  EXPECT st_malformed s =? 1;
  EXPECT by_status s DEC_TRUNC_TCP =? 1;
  EXPECT by_status s DEC_BAD_IPV4_IHL =? 1;
  EXPECT st_first_ts_ns s =? 10 * SEC;
  EXPECT st_last_ts_ns s =? 20 * SEC;
  EXPECT st_captured_bytes s <? st_wire_bytes s;
  EXPECT ft_count (an_flows an) =? 5;
  true).

Definition test_pipeline_truncated_file : bool := on (build_mixed_capture bb_empty) (fun cap =>
  let cap := take (length cap - 5) cap in
  RUN (st, an, r) <- run_pipeline cap; EXPECT pstatus_eqb st PCAP_ERR_TRUNC_RECORD;
  EXPECT st_packets (an_stats an) =? 10;
  true).

Definition test_short_complete_frames_counted_malformed : bool :=
  let v4 := put_eth bb_empty ETHERTYPE_IPV4 in
  let v4 := bb_be32 v4 0x45000028 in
  let v4 := bb_fill v4 0 6 in
  let v6 := put_eth bb_empty ETHERTYPE_IPV6 in
  let v6 := bb_u8 v6 0x60 in
  let v6 := bb_fill v6 0 29 in
  let vl := put_eth bb_empty ETHERTYPE_VLAN in
  let vl := bb_be16 vl 5 in
  let cap := pcap_put_global bb_empty false false 65535 1 in
  let cap := pcap_put_record cap false 1 0 v4 (blen v4) in
  let cap := pcap_put_record cap false 1 0 v6 (blen v6) in
  let cap := pcap_put_record cap false 1 0 vl (blen vl) in
  let cap := pcap_put_record cap false 1 0 v4 1514 in
  let cap := pcap_put_record cap false 1 0 v6 1514 in
  let cap := pcap_put_record cap false 1 0 vl 1514 in
  RUN an <- analyze_capture cap;
  let s := an_stats an in
  EXPECT st_packets s =? 6;
  EXPECT st_truncated s =? 3;
  EXPECT st_malformed s =? 3;
  EXPECT by_status s DEC_BAD_SHORT_FRAME =? 3;
  EXPECT by_status s DEC_TRUNC_IPV4 =? 1;
  EXPECT by_status s DEC_TRUNC_IPV6 =? 1;
  EXPECT by_status s DEC_TRUNC_VLAN =? 1;
  EXPECT ft_count (an_flows an) =? 0;
  true.

Definition test_fragment_attribution : bool :=
  let cap := pcap_put_global bb_empty false false 65535 1 in
  let fr := put_eth bb_empty ETHERTYPE_IPV4 in
  let fr := put_ipv4 fr IPPROTO_NUM_UDP TEST_V4_A TEST_V4_B 1480 0 0x2000 in
  let fr := put_udp fr 4444 5555 3000 in
  let fr := bb_fill fr 0 1472 in
  let cap := pcap_put_record cap false 1 0 fr (blen fr) in
  let fr := put_eth bb_empty ETHERTYPE_IPV4 in
  let fr := put_ipv4 fr IPPROTO_NUM_UDP TEST_V4_A TEST_V4_B 1480 0 (Z.lor 0x2000 185) in
  let fr := bb_fill fr 0 1480 in
  let cap := pcap_put_record cap false 2 0 fr (blen fr) in
  let fr := put_eth bb_empty ETHERTYPE_IPV4 in
  let fr := put_ipv4 fr IPPROTO_NUM_UDP TEST_V4_A TEST_V4_B 48 0 370 in
  let fr := bb_fill fr 0 48 in
  let cap := pcap_put_record cap false 3 0 fr (blen fr) in
  let fr := <[(14 + 4)%nat := 0x99]> fr in
  let fr := <[(14 + 5)%nat := 0x99]> fr in
  let cap := pcap_put_record cap false 4 0 fr (blen fr) in
  RUN an <- analyze_capture cap;
  EXPECT st_frag_first (an_stats an) =? 1;
  EXPECT st_frag_later (an_stats an) =? 3;
  EXPECT st_frag_matched (an_stats an) =? 2;
  EXPECT ft_count (an_flows an) =? 2;
  let key_pkt := make_pkt 4 IPPROTO_NUM_UDP TEST_V4_A 4444 TEST_V4_B 5555 0 in
  RUN (key, rev) <- flow_key_from_packet key_pkt;
  RUN found <- find_flow (an_flows an) key;
  RUN f <- found; EXPECT fl_packets f =? 3;
  EXPECT fl_bytes f =? (14 + 20 + 1480) * 2 + (14 + 20 + 48);
  true.

Definition test_broken_ipv6_chain_stats : bool :=
  let fr := put_eth bb_empty ETHERTYPE_IPV6 in
  let fr := put_ipv6 fr 0 TEST_V6_A TEST_V6_B 8 in
  let fr := bb_u8 fr IPPROTO_NUM_UDP in
  let fr := bb_u8 fr 4 in
  let fr := bb_fill fr 0 6 in
  let cap := pcap_put_global bb_empty false false 65535 1 in
  let cap := pcap_put_record cap false 1 0 fr (blen fr) in
  RUN an <- analyze_capture cap;
  let s := an_stats an in
  EXPECT st_ipv6 s =? 1;
  EXPECT st_malformed s =? 1;
  EXPECT by_status s DEC_BAD_IPV6_EXT =? 1;
  EXPECT st_tcp s + st_udp s + st_icmp s + st_icmpv6 s + st_other_l4 s =? 0;
  true.

Definition test_summary_and_table : bool := on (build_mixed_capture bb_empty) (fun cap =>
  RUN (st, an, r) <- run_pipeline cap; EXPECT pstatus_eqb st PCAP_EOF;
  RUN f <- report_summary junk0 temp_file (str "mixed.pcap") (r_info r) (an_stats an) (ft_count (an_flows an));
  RUN top <- flow_table_top_n (an_flows an) 3;
  RUN f <- report_top_flows junk0 f top (ft_count (an_flows an));
  let text := slurp f in
  EXPECT contains (str "Packets:     11" ++ newline) text;
  EXPECT contains (str "IPv4 7 (63.6%), IPv6 2 (18.2%), non-IP 1") text;
  EXPECT contains (str "1 truncated, 1 malformed") text;
  EXPECT contains (str "truncated TCP header") text;
  EXPECT contains (str "IPv4 header length < 20") text;
  EXPECT contains (str "Top 3 of 5 flows by bytes") text;
  EXPECT contains (str "  1  TCP") text;
  EXPECT contains (str "10.0.0.1:40000") text;
  EXPECT contains (str "[2001:db8::1]:5353") text;
  true).

(** [run_report_tests]: they all pass. *)
Definition report_tests : list bool :=
  [test_tcp_flags_string; test_csv_output; test_csv_empty; test_pipeline_counts; test_pipeline_truncated_file;
   test_short_complete_frames_counted_malformed; test_fragment_attribution; test_broken_ipv6_chain_stats;
   test_summary_and_table].

Example report_tests_pass : forallb id report_tests = true.
Proof. vm_compute. reflexivity. Qed.
