(* ===== verification/TestTunnels.v ===== *)
(** The rest of the repository's GTP-U tests (src/tests/test_gtpu.c), run on the model
    as those of [TestDecode] are: the counters, the tunnel table, captures cut by a
    snapshot length, the tunnel CSV and the text of the report. *)
From Stdlib Require Import String.
From S2P Require Export TestGtpu TestReport.
#[global] Open Scope Z_scope.

Definition RAN2 : bytes := [172; 16; 1; 12].

Definition add_record (cap fr : bytes) (sec : Z) : bytes := pcap_put_record cap false sec 0 fr (blen fr).

(** A frame of which only the first [caplen] bytes were captured. *)
Definition add_record_snap (cap fr : bytes) (sec caplen : Z) : bytes :=
  pcap_put_record cap false sec 0 (take (Z.to_nat caplen) fr) (blen fr).

Definition build_gtpu_capture (cap : bytes) : bytes :=
  let cap := pcap_put_global cap false false 65535 1 in
  let rest := inner_v4_tcp bb_empty 100 in
  let cap := add_record cap (gtpu_uplink bb_empty 0x30 GTPU_MSG_GPDU 0x100 rest) 100 in
  let rest := inner_v4_tcp bb_empty 0 in
  let cap := add_record cap (gtpu_uplink bb_empty 0x30 GTPU_MSG_GPDU 0x100 rest) 101 in
  let rest := inner_v4_tcp bb_empty 500 in
  let cap := add_record cap (gtpu_frame4 bb_empty CORE RAN GTPU_PORT GTPU_PORT 0x30 GTPU_MSG_GPDU 0x200 rest) 102 in
  let rest := inner_v4_tcp bb_empty 0 in
  let cap := add_record cap (gtpu_frame4 bb_empty RAN2 CORE GTPU_PORT GTPU_PORT 0x30 GTPU_MSG_GPDU 0x100 rest) 103 in
  let cap := add_record cap (gtpu_frame4 bb_empty CORE RAN GTPU_PORT GTPU_PORT 0x30 GTPU_MSG_GPDU 0x100 rest) 104 in
  let rest := put_gtpu_opt bb_empty 7 0 0 in
  let cap := add_record cap (gtpu_frame4 bb_empty RAN CORE 50000 GTPU_PORT 0x32 GTPU_MSG_ECHO_REQUEST 0 rest) 105 in
  let rest := bb_u8 rest 14 in
  let rest := bb_u8 rest 0 in
  let cap := add_record cap (gtpu_frame4 bb_empty CORE RAN GTPU_PORT 50000 0x32 GTPU_MSG_ECHO_RESPONSE 0 rest) 106 in
  let cap := add_record cap (gtpu_frame4 bb_empty CORE RAN GTPU_PORT GTPU_PORT 0x30 GTPU_MSG_END_MARKER 0x200 bb_empty) 107 in
  let rest := put_gtpu_opt bb_empty 0 0 0x85 in
  let rest := bb_fill rest 0 4 in
  let rest := inner_v4_tcp rest 0 in
  let cap := add_record cap (gtpu_uplink bb_empty 0x34 GTPU_MSG_GPDU 0x300 rest) 108 in
  let rest := inner_v4_tcp bb_empty 0 in
  let cap := add_record cap (gtpu_uplink bb_empty 0x20 GTPU_MSG_GPDU 0x600 rest) 109 in
  let rest := put_gtpu_opt bb_empty 0 0 0 in
  let rest := bb_u8 rest 16 in
  let rest := bb_be32 rest 0x100 in
  let cap := add_record cap (gtpu_frame4 bb_empty CORE RAN GTPU_PORT GTPU_PORT 0x32 GTPU_MSG_ERROR_INDICATION 0 rest) 110 in
  let cap := add_record cap (gtpu_uplink bb_empty 0x32 31 0 rest) 111 in
  let rest := put_gtpu_opt bb_empty 0 0 0x85 in
  let rest := put_gtpu_ext rest 1 0 in
  let rest := put_ipv6 rest IPPROTO_NUM_UDP TEST_V6_A TEST_V6_B (8 + 20) in
  let rest := put_udp rest 50000 443 20 in
  let rest := bb_fill rest 0 20 in
  let cap := add_record cap (gtpu_uplink bb_empty 0x34 GTPU_MSG_GPDU 0x400 rest) 112 in
  let msg := put_gtpu bb_empty 0x30 GTPU_MSG_GPDU 40 0x999 in
  let msg := inner_v4_tcp msg 0 in
  let rest := put_ipv4 bb_empty IPPROTO_NUM_UDP UE SERVER (8 + length msg) 0 0 in
  let rest := put_udp rest GTPU_PORT GTPU_PORT (length msg) in
  let rest := bb_bytes rest msg in
  let cap := add_record cap (gtpu_uplink bb_empty 0x30 GTPU_MSG_GPDU 0x500 rest) 113 in
  let fr := put_eth bb_empty ETHERTYPE_IPV4 in
  let fr := put_ipv4 fr IPPROTO_NUM_UDP RAN CORE (8 + 8 + 40) 0 0x2000 in
  let fr := put_udp fr GTPU_PORT GTPU_PORT (8 + 40 + 1400) in
  let fr := put_gtpu fr 0x30 GTPU_MSG_GPDU (40 + 1400) 0x700 in
  let fr := inner_v4_tcp fr 0 in
  add_record cap fr 114.

Definition gtpu_by_status (g : gtpu_stats) (st : decode_status) : Z :=
  default 0 (gs_by_status g !! Z.to_nat (status_val st)).

(** The fields of a packet that [tunnel_key_from_packet] looks at. *)
Definition key_packet (src dst : bytes) (teid : Z) : packet_info :=
  packet_info_zero <| pi_is_gtpu := true |> <| pi_gtp_v1u := true |>
    <| pi_ip_version := 4 |> <| pi_ip_proto := IPPROTO_NUM_UDP |> <| pi_teid := teid |>
    <| pi_src_addr ::= fun a => overwrite a src |> <| pi_dst_addr ::= fun a => overwrite a dst |>.

(** The tunnel of [key_packet], with what it must count. *)
Definition tunnel_is (t : flow_table) (src dst : bytes) (teid packets bytes : Z) : bool :=
  RUN key <- tunnel_key_from_packet (key_packet src dst teid);
  RUN found <- find_flow t key;
  RUN f <- found;
  (fl_packets f =? packets) && (fl_bytes f =? bytes).
Definition no_tunnel (t : flow_table) (src dst : bytes) (teid : Z) : bool :=
  RUN key <- tunnel_key_from_packet (key_packet src dst teid);
  RUN found <- find_flow t key;
  bool_decide (found = None).

Definition gpdu_pkt (src dst : bytes) (teid : Z) : packet_info :=
  packet_info_zero <| pi_has_l2 := true |> <| pi_has_l3 := true |> <| pi_has_l4 := true |>
    <| pi_ip_version := 4 |> <| pi_ip_proto := IPPROTO_NUM_UDP |>
    <| pi_src_addr ::= fun a => overwrite a src |> <| pi_dst_addr ::= fun a => overwrite a dst |>
    <| pi_src_port := GTPU_PORT |> <| pi_dst_port := GTPU_PORT |>
    <| pi_is_gtpu := true |> <| pi_gtp_v1u := true |> <| pi_gtp_msg_type := GTPU_MSG_GPDU |> <| pi_teid := teid |>.

(** ** The tests *)
Definition test_gtpu_stats : bool := on (build_gtpu_capture bb_empty) (fun cap =>
  RUN an <- analyze_capture cap;
  let g := st_gtpu (an_stats an) in
  EXPECT st_packets (an_stats an) =? 15;
  EXPECT st_malformed (an_stats an) =? 0;
  EXPECT st_udp (an_stats an) =? 15;
  EXPECT gs_packets g =? 14;
  EXPECT gs_fragmented g =? 1;
  EXPECT gs_not_v1u g =? 1;
  EXPECT gs_gpdu g =? 8;
  EXPECT gs_echo_request g =? 1;
  EXPECT gs_echo_response g =? 1;
  EXPECT gs_error_indication g =? 1;
  EXPECT gs_end_marker g =? 1;
  EXPECT gs_other_type g =? 1;
  EXPECT gs_with_seq g =? 4;
  EXPECT gs_with_ext g =? 1;
  EXPECT gs_inner_ipv4 g =? 6;
  EXPECT gs_inner_ipv6 g =? 1;
  EXPECT gs_inner_tcp g =? 5;
  EXPECT gs_inner_udp g =? 2;
  EXPECT gs_nested g =? 1;
  EXPECT gs_truncated g =? 0;
  EXPECT gs_malformed g =? 1;
  EXPECT gtpu_by_status g DEC_BAD_GTPU_EXT_LEN =? 1;
  EXPECT ft_count (an_flows an) =? 3;
  true).

Definition test_tunnel_table : bool := on (build_gtpu_capture bb_empty) (fun cap =>
  RUN an <- analyze_capture cap;
  let t := an_tunnels an in
  EXPECT ft_count t =? 6;
  RUN (rc, teids, _) <- flow_table_distinct_teids t true idle; EXPECT rc =? 0;
  EXPECT teids =? 4;
  RUN top <- flow_table_top_n t 10;
  EXPECT bool_decide (length top = 6%nat);
  RUN f <- top !! 0%nat; EXPECT fk_teid (fl_key f) =? 0x200;
  EXPECT fl_packets f =? 1;
  EXPECT fl_bytes f =? 590;
  EXPECT same_addr (fk_addr_a (fl_key f)) CORE;
  RUN f <- top !! 1%nat; EXPECT fk_teid (fl_key f) =? 0x100;
  EXPECT fl_packets f =? 2;
  EXPECT fl_bytes f =? 190 + 90;
  EXPECT same_addr (fk_addr_a (fl_key f)) RAN;
  EXPECT tunnel_is t CORE RAN 0x100 1 90;
  EXPECT no_tunnel t RAN CORE 0x300;
  bool_decide (tunnel_key_from_packet ((key_packet RAN CORE 0x300) <| pi_gtp_v1u := false |>) = None)).

(** The capture of [test_tunnel_snap_cut]. *)
Definition snap_cut_capture : bytes :=
  let cap := pcap_put_global bb_empty false false 65535 1 in
  let inner := inner_v4_tcp bb_empty 100 in
  let fr := gtpu_uplink bb_empty 0x30 GTPU_MSG_GPDU 0x100 inner in
  let cap := add_record cap fr 1 in
  let cap := add_record_snap cap fr 2 (GTP_AT + 8 + 30) in
  let cap := add_record_snap cap fr 3 (GTP_AT + 8 + 10) in
  let cap := add_record_snap cap fr 4 (GTP_AT + 8) in
  let inner := put_ipv6 bb_empty IPPROTO_NUM_UDP TEST_V6_A TEST_V6_B (8 + 20) in
  let inner := put_udp inner 5353 53 20 in
  let inner := bb_fill inner 0 20 in
  let fr := gtpu_frame4 bb_empty CORE RAN GTPU_PORT GTPU_PORT 0x30 GTPU_MSG_GPDU 0x200 inner in
  let cap := add_record_snap cap fr 5 (GTP_AT + 8 + 20) in
  let inner := inner_v4_tcp bb_empty 0 in
  let rest := put_gtpu_opt bb_empty 0 0 0x85 in
  let rest := put_gtpu_ext rest 3 0 in
  let rest := bb_bytes rest inner in
  let fr := gtpu_uplink bb_empty 0x34 GTPU_MSG_GPDU 0x300 rest in
  let cap := add_record_snap cap fr 6 (GTP_AT + 8 + 4 + 6) in
  let fr := gtpu_uplink bb_empty 0x30 GTPU_MSG_GPDU 0x100 inner in
  let fr := <[Z.to_nat (GTP_AT + 8 + 20 + 12) := 0x30]> fr in
  let cap := add_record cap fr 7 in
  let fr := gtpu_uplink bb_empty 0x30 GTPU_MSG_GPDU 0x400 (take 10 inner) in
  let cap := add_record cap fr 8 in
  let rest := bb_be16 bb_empty 0x0102 in
  let rest := bb_u8 rest 0 in
  let fr := gtpu_frame4 bb_empty RAN CORE 50000 GTPU_PORT 0x32 GTPU_MSG_ECHO_REQUEST 0 rest in
  add_record cap fr 9.

Definition test_tunnel_snap_cut : bool := on snap_cut_capture (fun cap =>
  RUN an <- analyze_capture cap;
  EXPECT st_packets (an_stats an) =? 9;
  EXPECT st_truncated (an_stats an) =? 0;
  EXPECT st_malformed (an_stats an) =? 0;
  EXPECT ft_count (an_flows an) =? 2;
  let t := an_tunnels an in
  EXPECT ft_count t =? 3;
  RUN (rc, teids, _) <- flow_table_distinct_teids t true idle; EXPECT rc =? 0;
  EXPECT teids =? 3;
  EXPECT tunnel_is t RAN CORE 0x100 5 (4 * 190 + 90);
  EXPECT tunnel_is t RAN CORE 0x400 1 60;
  EXPECT no_tunnel t RAN CORE 0x300;
  EXPECT tunnel_is t CORE RAN 0x200 1 118;
  let g := st_gtpu (an_stats an) in
  EXPECT gs_packets g =? 9;
  EXPECT gs_gpdu g =? 8;
  EXPECT gs_echo_request g =? 1;
  EXPECT gs_with_seq g =? 1;
  EXPECT gs_truncated g =? 5;
  EXPECT gs_user_truncated g =? 4;
  EXPECT gs_malformed g =? 3;
  EXPECT gs_user_malformed g =? 2;
  EXPECT gtpu_by_status g DEC_TRUNC_TCP =? 1;
  EXPECT gtpu_by_status g DEC_TRUNC_IPV4 =? 1;
  EXPECT gtpu_by_status g DEC_TRUNC_GTPU_INNER =? 1;
  EXPECT gtpu_by_status g DEC_TRUNC_IPV6 =? 1;
  EXPECT gtpu_by_status g DEC_TRUNC_GTPU_EXT =? 1;
  EXPECT gtpu_by_status g DEC_BAD_TCP_DOFF =? 1;
  EXPECT gtpu_by_status g DEC_BAD_GTPU_INNER_SHORT =? 1;
  EXPECT gtpu_by_status g DEC_BAD_GTPU_LEN =? 1;
  EXPECT gs_inner_ipv4 g =? 3;
  EXPECT gs_inner_ipv6 g =? 0;
  EXPECT gs_inner_tcp g =? 3;
  RUN (rc, out, _) <- report_gtpu temp_file (an_stats an) t true idle; EXPECT rc =? 0;
  let text := slurp out in
  EXPECT contains (lines ["  Tunnels:   3 (3 distinct TEIDs)"]%string) text;
  EXPECT contains (lines
    ["  Problems:  1 truncated, 1 malformed in GTP-U headers (not added to tunnels)";
     "             4 truncated, 2 malformed in user packets (still added to tunnels)"]%string) text;
  EXPECT contains (str "    G-PDU payload too short for IP header") text;
  negb (contains (str "frame too short") text)).

Definition test_tunnels_csv : bool :=
  let expect := lines [
    "teid,src_addr,dst_addr,ip_version,packets,bytes,first_ts,last_ts,duration_s";
    "0xabcdef01,172.16.0.1,172.16.1.11,4,1,1000,1700000001.000000000,1700000001.000000000,0.000000000";
    "0x00000001,172.16.1.11,172.16.0.1,4,2,300,1700000000.000000001,1700000000.500000001,0.500000000"]%string in
  let add t p wire_len ts_ns := flow_table_add_tunnel t p wire_len ts_ns true in
  RUN t <- new_table 0;
  let p := gpdu_pkt RAN CORE 1 in
  RUN (rc, t) <- add t p 100 (1700000000 * SEC + 1); EXPECT rc =? 0;
  RUN (rc, t) <- add t p 200 (1700000000 * SEC + SEC / 2 + 1); EXPECT rc =? 0;
  let p := gpdu_pkt CORE RAN 0xABCDEF01 in
  RUN (rc, t) <- add t p 1000 (1700000001 * SEC); EXPECT rc =? 0;
  let p := p <| pi_is_gtpu := false |> in
  RUN (rc, t) <- add t p 5000 (1700000002 * SEC); EXPECT rc =? 0;
  EXPECT ft_count t =? 2;
  RUN (rc, f, _) <- report_tunnels_csv junk0 temp_file t true idle; EXPECT rc =? 0;
  bool_decide (slurp f = expect).

Definition test_gtpu_report_text : bool := on (build_gtpu_capture bb_empty) (fun cap =>
  RUN an <- analyze_capture cap;
  RUN (rc, f, _) <- report_gtpu temp_file (an_stats an) (an_tunnels an) true idle; EXPECT rc =? 0;
  RUN top <- flow_table_top_n (an_tunnels an) 2;
  RUN f <- report_top_tunnels junk0 f top (ft_count (an_tunnels an));
  let text := slurp f in
  EXPECT contains (newline ++ lines ["GTP-U:       14 packets on UDP port 2152"]%string) text;
  EXPECT contains (lines ["  Messages:  G-PDU 8, echo request 1, echo response 1, error indication 1, end marker 1, other 1"]%string) text;
  EXPECT contains (lines ["  Options:   sequence number in 4, extension headers in 1"]%string) text;
  EXPECT contains (lines ["  Inner IP:  IPv4 6, IPv6 1; TCP 5, UDP 2, ICMP 0, ICMPv6 0, other 0"]%string) text;
  EXPECT contains (lines ["  Tunnels:   6 (4 distinct TEIDs)"]%string) text;
  EXPECT contains (lines ["  Skipped:   1 GTP' or other version, 1 GTP-U in GTP-U, 1 fragmented datagrams on port 2152"]%string) text;
  EXPECT contains (lines
    ["  Problems:  0 truncated, 1 malformed in GTP-U headers (not added to tunnels)";
     "             0 truncated, 0 malformed in user packets (still added to tunnels)"]%string) text;
  EXPECT contains (str "    GTP-U extension header length 0") text;
  EXPECT contains (str "Top 2 of 6 GTP-U tunnels by bytes") text;
  EXPECT contains (str "  1  0x00000200  172.16.0.1   172.16.1.11") text;
  RUN t <- new_table 0;
  RUN (rc, f, _) <- report_gtpu temp_file stats_init t true idle; EXPECT rc =? 0;
  bool_decide (slurp f = [])).

(** The pipeline part of [run_gtpu_tests]: they all pass. *)
Definition tunnel_tests : list bool :=
  [test_gtpu_stats; test_tunnel_table; test_tunnel_snap_cut; test_tunnels_csv; test_gtpu_report_text].

Example tunnel_tests_pass : forallb id tunnel_tests = true.
Proof. vm_compute. reflexivity. Qed.
