(* ===== verification/Witnesses.v ===== *)
(** The properties at work: each theorem applied to concrete frames, captures and
    packets, its hypotheses discharged by computation. *)
From S2P Require Import AnalyzeProps DecodeMono DecodeLocal.
From stdpp Require Import list.
#[local] Open Scope Z_scope.

(** ** Concrete data *)
Definition V4_A : bytes := [10; 0; 0; 1].
Definition V4_B : bytes := [192; 168; 1; 20].

(** A DNS query, its reply, and a query captured for its first 30 bytes only. *)
Definition query : bytes := frame_v4_udp [] V4_A V4_B 4660 53 4.
Definition answer : bytes := frame_v4_udp [] V4_B V4_A 53 4660 8.
Definition snapped : bytes := take 30 query.

(** A G-PDU that carries [query] without its Ethernet header. *)
Definition gpdu : bytes :=
  let inner := drop 14 query in
  put_gtpu (put_udp (put_ipv4 (put_eth [] 0x0800) 17 V4_A V4_B (8 + 8 + length inner) 0 0)
              2152 2152 (8 + length inner)) 0x30 255 (length inner) 7 ++ inner.

(** The two fragments of a UDP datagram. *)
Definition fragment1 : bytes :=
  put_udp (put_ipv4 (put_eth [] 0x0800) 17 V4_A V4_B 24 0 0x2000) 4660 53 32 ++ replicate 16 0xCD.
Definition fragment2 : bytes :=
  put_ipv4 (put_eth [] 0x0800) 17 V4_A V4_B 16 0 2 ++ replicate 16 0xCD.

Definition cap (f : bytes) : captured := Captured 1000 (caplen_of f) f.
Definition pi_of (f : bytes) : packet_info := decode_of (cap f).

(** ** Discharging the hypotheses *)
Lemma bytes_ok l : forallb (fun b => (0 <=? b) && (b <? 256)) l = true -> Forall is_byte l.
Proof.
  intros H. apply Forall_forall. intros x Hx. rewrite forallb_forall in H.
  apply list_elem_of_In, H in Hx. unfold is_u. lia.
Qed.

Ltac concrete_bytes := apply bytes_ok; vm_compute; reflexivity.
Ltac concrete_frame := split; [concrete_bytes|split; vm_compute; [|split]; done].

Lemma query_ok : frame_ok query 46.
Proof. concrete_frame. Qed.
Lemma gpdu_ok : frame_ok gpdu 82.
Proof. concrete_frame. Qed.
Lemma snapped_ok : frame_ok snapped 46.
Proof. concrete_frame. Qed.

Lemma pi_of_decode f st :
  (st, pi_of f) = default (DEC_STATUS_COUNT, pi_of f) (decode_frame f (caplen_of f) (caplen_of f)) ->
  is_Some (decode_frame f (caplen_of f) (caplen_of f)) ->
  decode_frame f (caplen_of f) (caplen_of f) = Some (st, pi_of f).
Proof. intros E [r H]. rewrite H in E |- *. by rewrite E. Qed.

(** ** The decoder *)
Lemma decode_frame_safe_witness :
  frame_ok gpdu 82 /\
  exists st pi, decode_frame gpdu (caplen_of gpdu) 82 = Some (st, pi) /\ pi_status pi = st.
Proof. split; [exact gpdu_ok|]. exact (decode_frame_safe gpdu 82 gpdu_ok). Defined.

Lemma decode_frame_invariants_witness :
  decode_frame gpdu (caplen_of gpdu) 82 = Some (DEC_OK, pi_of gpdu) /\
  check_invariants (pi_of gpdu) DEC_OK (caplen_of gpdu >=? 82) = true.
Proof.
  assert (E : decode_frame gpdu (caplen_of gpdu) 82 = Some (DEC_OK, pi_of gpdu))
    by (vm_compute; reflexivity).
  split; [exact E|]. exact (decode_frame_invariants gpdu 82 DEC_OK (pi_of gpdu) gpdu_ok E).
Defined.

Lemma decode_frame_fields_witness :
  l2_wf (pi_of gpdu) /\ inner_wf (pi_of gpdu) /\ pi_teid (pi_of gpdu) = 7.
Proof.
  assert (E : decode_frame gpdu (caplen_of gpdu) 82 = Some (DEC_OK, pi_of gpdu))
    by (vm_compute; reflexivity).
  destruct (decode_frame_fields gpdu 82 DEC_OK (pi_of gpdu) gpdu_ok E)
    as (H1 & _ & _ & _ & H2 & _). split; [exact H1|]. split; [exact H2|]. vm_compute. reflexivity.
Defined.

Lemma decode_frame_local_witness :
  exists r, decode_frame (query ++ [1; 2; 3]) (caplen_of query) 46 = Some r /\
            decode_frame (query ++ replicate 64 0xFF) (caplen_of query) 46 = Some r.
Proof. exact (decode_frame_local query [1; 2; 3] (replicate 64 0xFF) 46 query_ok). Defined.

Lemma decode_frame_snapshot_witness :
  exists st pi, decode_frame (take 30 query) (Z.of_nat 30) 46 = Some (st, pi) /\
    (decode_status_is_truncation st = true \/
     decode_status_is_truncation (pi_gtp_status pi) = true \/
     decode_frame query (caplen_of query) 46 = Some (st, pi)).
Proof.
  destruct (decode_frame (take 30 query) (Z.of_nat 30) 46) as [[st pi]|] eqn:E.
  - exists st, pi. split; [reflexivity|].
    apply (decode_frame_snapshot query 30 46 st pi query_ok); [vm_compute; lia|vm_compute; done|exact E].
  - vm_compute in E. discriminate.
Defined.

(** ** The reader *)
Definition packets : list packet_args :=
  [Packet_args 1 500 query 46; Packet_args 2 0 answer 50; Packet_args 3 7 gpdu 82].
Definition capture : bytes := pcap_file true true 65535 packets.
Definition disk : FILE := File capture 0 None false.
Definition failing_disk : FILE := File (take 100 capture) 0 (Some 5) false.
Definition buffer : bytes := replicate (Z.to_nat PCAP_MAX_CAPLEN) 0.

Lemma capture_bytes : Forall is_byte capture.
Proof. concrete_bytes. Qed.

Lemma packets_ok : Forall packet_args_ok packets.
Proof.
  repeat (apply Forall_cons; split); try apply Forall_nil; try done;
    (split; [vm_compute; split; done|]); (split; [vm_compute; split; done|]);
    (split; [vm_compute; split; done|]); (split; [concrete_bytes|vm_compute; done]).
Qed.

Lemma buffer_length : Z.of_nat (length buffer) = PCAP_MAX_CAPLEN.
Proof. unfold buffer. rewrite length_replicate. reflexivity. Qed.

(** A reader that has just read the header of [capture]. *)
Definition reader1 : pcap_reader :=
  match pcap_open_mem capture (Z.of_nat (length capture)) with Some (_, r) => r | None => reader_zero end.
Definition record0 : pcap_record := Pcap_record 0 0 0 None.

Lemma capture_header : exists info, valid_header capture info.
Proof.
  exists (File_info true true 2 4 65535 1). unfold valid_header. vm_compute. repeat split; try done; lia.
Qed.

Lemma reader1_ok : opened capture None reader1.
Proof.
  destruct (open_mem_spec capture capture_bytes) as (st & r & E & Hiff & Hok & _);
    [vm_compute; done|].
  unfold reader1. rewrite E. apply Hok, Hiff, capture_header.
Qed.

Lemma reader1_bytes : Forall is_byte (remaining reader1).
Proof. rewrite (opn_rest _ _ _ reader1_ok). apply Forall_drop, capture_bytes. Qed.

Lemma stream_is_ok fp : f_data fp = take (length (f_data fp)) capture -> f_pos fp = 0 ->
  f_error fp = false -> stream_ok fp.
Proof.
  intros Hd Hp He. split; [rewrite Hd; apply Forall_take, capture_bytes|]. rewrite Hp.
  split; [lia|done].
Qed.

Lemma pcap_open_file_ok_witness :
  exists r os, pcap_open_file (inl disk) (Some buffer) (Resources 0 0) = Some (PCAP_OK, r, os) /\
               pcap_close r os = (reader_reset, Resources 0 0).
Proof.
  destruct (pcap_open_file_ok (inl disk) (Some buffer) (Resources 0 0))
    as (st & r & os & E & Hiff & Hok & _).
  - intros fp [= <-]. apply stream_is_ok; [|reflexivity|reflexivity]. symmetry. apply firstn_all.
  - intros b [= <-]. apply buffer_length.
  - assert (st = PCAP_OK) as ->.
    { apply Hiff. destruct capture_header as [info H]. exists disk, info.
      split; [reflexivity|]. split; [by eexists|exact H]. }
    exists r, os. split; [exact E|]. apply (Hok eq_refl).
Defined.

Lemma pcap_open_mem_ok_witness :
  exists r, pcap_open_mem capture (Z.of_nat (length capture)) = Some (PCAP_OK, r) /\
            opened capture None r.
Proof.
  destruct (pcap_open_mem_ok capture capture_bytes) as (st & r & E & Hiff & Hok & _);
    [vm_compute; done|].
  assert (st = PCAP_OK) as -> by (apply Hiff, capture_header). exists r. auto.
Defined.

Lemma pcap_next_refines_witness :
  next_post reader1 (split_record (r_info reader1) (remaining reader1)) (pcap_next reader1 record0).
Proof.
  exact (pcap_next_refines reader1 record0 (opn_ok _ _ _ reader1_ok) (opn_error _ _ _ reader1_ok)
           reader1_bytes).
Defined.

Lemma pcap_next_bounds_witness :
  exists r rec l, pcap_next reader1 record0 = Some (PCAP_OK, r, rec) /\
    rec_bytes r rec = Some l /\ rec_caplen rec = Z.of_nat (length l).
Proof.
  destruct (pcap_next reader1 record0) as [[[st r] rec]|] eqn:E.
  - assert (st = PCAP_OK) as ->.
    { assert (H : match pcap_next reader1 record0 with Some (s, _, _) => s | None => PCAP_EOF end = PCAP_OK)
        by (vm_compute; reflexivity). by rewrite E in H. }
    destruct (pcap_next_bounds reader1 record0 r rec (opn_ok _ _ _ reader1_ok)
                (opn_error _ _ _ reader1_ok) reader1_bytes E) as (l & H1 & H2 & _).
    exists r, rec, l. auto.
  - exfalso. assert (H : is_Some (pcap_next reader1 record0)) by (vm_compute; by eexists).
    rewrite E in H. by destruct H.
Defined.

Lemma pcap_file_memory_witness :
  exists st1 r1 os1 st2 r2,
    pcap_open_file (inl (File capture 0 None false)) (Some buffer) (Resources 0 0) = Some (st1, r1, os1) /\
    pcap_open_mem capture (Z.of_nat (length capture)) = Some (st2, r2) /\
    st1 = st2.
Proof.
  destruct (pcap_file_memory capture buffer (Resources 0 0) capture_bytes)
    as (st1 & r1 & os1 & st2 & r2 & H1 & H2 & H3 & _); [vm_compute; done|apply buffer_length|].
  exists st1, r1, os1, st2, r2. auto.
Defined.

Lemma pcap_roundtrip_witness :
  exists r, pcap_open_mem capture (Z.of_nat (length capture)) = Some (PCAP_OK, r) /\
    exists r', read_all (S (length capture)) r record0 =
               Some (map (captured_of true) packets, PCAP_EOF, r').
Proof.
  destruct (pcap_roundtrip true true 65535 packets) as (r & E & H);
    [vm_compute; split; done|exact packets_ok|vm_compute; done|].
  exists r. split; [exact E|exact (H record0)].
Defined.

Lemma pcap_truncation_witness :
  exists r1 r2, pcap_open_mem (take 100 capture) (Z.of_nat 100) = Some (PCAP_OK, r1) /\
    pcap_open_mem capture (Z.of_nat (length capture)) = Some (PCAP_OK, r2).
Proof.
  destruct (pcap_truncation capture 100 capture_bytes) as (r1 & r2 & E1 & E2 & _);
    [vm_compute; done|vm_compute; split; lia|exact capture_header|].
  exists r1, r2. auto.
Defined.

Lemma pcap_io_error_witness :
  exists r, input_errno r = Some 5 /\ remaining r = drop 24 (take 100 capture) /\
    exists st r', read_all 200 r record0 =
        Some ((capture_of (r_info r) (remaining r)).1, st, r') /\
      (is_end (capture_of (r_info r) (remaining r)).2 = true -> st = PCAP_ERR_IO) /\
      is_end st = false /\ r_error r' = st.
Proof.
  destruct (open_stream_spec failing_disk (Some buffer) (Resources 1 0))
    as (st & r & os & E & Hiff & Hok & _).
  - apply stream_is_ok; vm_compute; reflexivity.
  - intros b [= <-]. apply buffer_length.
  - assert (st = PCAP_OK) as ->.
    { apply Hiff. split; [by eexists|]. destruct capture_header as [info H]. exists info.
      change (stream_rest failing_disk) with (take 100 capture).
      rewrite <- valid_header_take, take_take. by rewrite valid_header_take. }
    destruct (Hok eq_refl) as [[V R O X N I] _].
    exists r. split; [exact I|]. split; [exact R|].
    apply (pcap_io_error r record0 5 200 O X); [|exact I|].
    + rewrite R. apply Forall_drop, Forall_take, capture_bytes.
    + rewrite R. vm_compute. lia.
Defined.

(** ** The flow table *)
Definition calls : list (add_call * bool) :=
  [(Add_packet (pi_of query) 46 10, true); (Add_packet (pi_of answer) 50 20, true);
   (Add_packet (pi_of gpdu) 82 30, true)].

Lemma cap_ok_of f : frame_ok f (caplen_of f) -> cap_ok (cap f).
Proof. done. Qed.

Lemma query_addrs : addrs_ok (pi_of query).
Proof. apply decode_of_addrs, cap_ok_of. concrete_frame. Qed.
Lemma answer_addrs : addrs_ok (pi_of answer).
Proof. apply decode_of_addrs, cap_ok_of. concrete_frame. Qed.
Lemma gpdu_addrs : addrs_ok (pi_of gpdu).
Proof. apply decode_of_addrs, cap_ok_of. concrete_frame. Qed.

Lemma calls_ok c : c ∈ calls -> addrs_ok (add_pi c.1).
Proof.
  intros Hc. apply elem_of_cons in Hc as [->|Hc]; [exact query_addrs|].
  apply elem_of_cons in Hc as [->|Hc]; [exact answer_addrs|].
  apply elem_of_cons in Hc as [->|Hc]; [exact gpdu_addrs|]. by apply elem_of_nil in Hc.
Qed.

Definition table0 : flow_table :=
  match flow_table_init 4 true with Some (_, t) => t | None => Flow_table [] 0 0 0 end.
Definition table1 : flow_table :=
  match add_run table0 calls with Some (_, t) => t | None => table0 end.

Lemma table0_ok : table_ok table0 /\ tmap table0 = ∅.
Proof. destruct (init_spec 4) as (t & E & Ht & Hm & _). unfold table0. by rewrite E. Qed.

Lemma table1_ok : table_ok table1.
Proof.
  destruct table0_ok as [Ht Hm].
  destruct (add_run_spec table0 [] calls (represents_empty _ Ht Hm) calls_ok)
    as (rcs & t & E & _ & [Ht1 _] & _). unfold table1. by rewrite E.
Qed.

Definition key1 : flow_key := pi_key (pi_of query).
Lemma key1_wf : key_wf key1.
Proof. apply pi_key_wf, query_addrs. Qed.

Lemma flow_key_canonical_witness :
  exists k r r', flow_key_from_packet (pi_of query) = Some (k, r) /\
                 flow_key_from_packet (pi_of answer) = Some (k, r').
Proof.
  destruct (flow_key_canonical (pi_of query) (pi_of answer) query_addrs answer_addrs) as [_ H].
  destruct H as (k & r & k' & r' & E & E' & Hiff); [vm_compute; reflexivity|vm_compute; reflexivity|].
  assert (k = k') as <-.
  { apply Hiff. split; [vm_compute; reflexivity|]. split; [vm_compute; reflexivity|].
    right. vm_compute. repeat split. }
  exists k, r, r'. auto.
Defined.

Lemma flow_key_reply_witness :
  exists rev', flow_key_from_packet (reply (pi_of query)) = Some (key1, rev') /\ rev' = true.
Proof.
  destruct (flow_key_reply (pi_of query) key1 false query_addrs) as (rev' & E & H);
    [vm_compute; reflexivity|].
  exists rev'. split; [exact E|]. destruct H as [->|(_ & _ & Ha & _)]; [reflexivity|].
  vm_compute in Ha. discriminate.
Defined.

Lemma tunnel_key_directional_witness :
  exists k, tunnel_key_from_packet (pi_of gpdu) = Some k /\ fk_teid k = 7 /\
            tunnel_key_from_packet (pi_of query) = None.
Proof.
  eexists. split; [vm_compute; reflexivity|]. split; [reflexivity|].
  apply (tunnel_key_directional (pi_of query) (pi_of gpdu) query_addrs gpdu_addrs).
  left. vm_compute. reflexivity.
Defined.

Lemma flow_accounting_witness :
  exists t0 rcs t, flow_table_init 4 true = Some (0, t0) /\ add_run t0 calls = Some (rcs, t) /\
    Forall (fun rc => rc = 0) rcs /\ length rcs = 3%nat.
Proof.
  destruct (flow_accounting 4 calls calls_ok) as (t0 & rcs & t & E0 & E & Hl & _ & Hz & _).
  exists t0, rcs, t. split; [exact E0|]. split; [exact E|]. split; [|exact Hl].
  apply Hz; [repeat constructor|vm_compute; discriminate].
Defined.

Lemma flow_table_find_or_insert_refines_witness :
  exists p inserted t', flow_table_find_or_insert table1 key1 true = Some (p, inserted, t') /\
    table_ok t' /\ inserted = false /\ p <> None.
Proof.
  destruct (flow_table_find_or_insert_refines table1 key1 true table1_ok key1_wf)
    as (p & ins & t' & E & Ht & Hp). exists p, ins, t'.
  assert (H : match flow_table_find_or_insert table1 key1 true with
              | Some (Some _, false, _) => true | _ => false end = true) by (vm_compute; reflexivity).
  rewrite E in H. destruct p as [i|]; [|discriminate]. destruct ins; [discriminate|]. auto.
Defined.

Lemma flow_table_iteration_witness :
  exists fs, flow_iter table1 = Some fs /\ NoDup (map fl_key fs) /\ length fs = 2%nat.
Proof.
  destruct (flow_table_iteration table1 table1_ok) as (fs & E & Hnd & Hl & _).
  exists fs. split; [exact E|]. split; [exact Hnd|].
  assert (Hc : ft_count table1 = 2) by (vm_compute; reflexivity). rewrite Hc in Hl. lia.
Defined.

Lemma flow_table_top_n_ranks_witness :
  exists top, flow_table_top_n table1 1 = Some top /\ length top = 1%nat /\
              NoDup (map fl_key top).
Proof.
  destruct (flow_table_top_n_ranks table1 1 table1_ok) as (top & E & Hl & Hnd & _).
  exists top. split; [exact E|]. split; [|exact Hnd]. rewrite Hl. vm_compute. reflexivity.
Defined.

Lemma flow_table_distinct_teids_counts_witness :
  exists count, flow_table_distinct_teids table1 true (Resources 0 0) = Some (0, count, Resources 0 0) /\
    exists ids : gset Z, count = Z.of_nat (size ids) /\
      forall x, x ∈ ids <-> exists k f, tmap table1 !! k = Some f /\ fk_teid k = x.
Proof.
  destruct (flow_table_distinct_teids_counts table1 true (Resources 0 0) table1_ok) as (rc & n & E & Hrc & H).
  assert (Hne : rc <> -1) by (intros ->; destruct Hrc as [Hrc _]; by destruct Hrc as [_ ?]).
  destruct (H Hne) as [-> Hids]. exists n. split; [exact E|exact Hids].
Defined.

(** ** Fragments *)
Definition frag_packets : list packet_info := [pi_of query; pi_of fragment1; pi_of fragment2].

Lemma frag_packets_ok : Forall frag_pi_ok frag_packets.
Proof.
  repeat (apply Forall_cons; split); try apply Forall_nil; try done;
    apply decode_of_addrs, cap_ok_of; concrete_frame.
Qed.

Lemma frag_cache_attributes_witness :
  exists c0, frag_cache_init true = (0, c0) /\
  exists c, frag_run c0 frag_packets = Some (frag_spec [] frag_packets, c) /\
            map fst (frag_spec [] frag_packets) = [false; false; true].
Proof.
  destruct (frag_cache_attributes frag_packets frag_packets_ok) as (c0 & E & c & H).
  exists c0. split; [exact E|]. exists c. split; [exact H|]. vm_compute. reflexivity.
Defined.

Lemma frag_cache_hit_witness :
  exists c0 outs c r, frag_cache_init true = (0, c0) /\
    frag_run c0 ([pi_of query] ++ pi_of fragment1 :: [] ++ [pi_of fragment2]) =
      Some (outs ++ [(true, with_ports (pi_of fragment2) r)], c) /\ pi_src_port r = 4660.
Proof.
  destruct (frag_cache_hit [pi_of query] (pi_of fragment1) [] (pi_of fragment2) frag_packets_ok)
    as (c0 & outs & c & r & E & H & _ & Hr).
  - vm_compute. reflexivity.
  - vm_compute. reflexivity.
  - vm_compute. repeat split.
  - intros r Hr. destruct (proj1 (elem_of_nil r) Hr).
  - exists c0, outs, c, r. split; [exact E|]. split; [exact H|].
    destruct Hr as [->|Hr]; [vm_compute; reflexivity|destruct (proj1 (elem_of_nil r) Hr)].
Defined.

(** ** Counters *)
Definition seen : list sample :=
  [Sample (pi_of query) 46 46 10; Sample (pi_of gpdu) 82 82 20].

Lemma seen_decoded : Forall decoded seen.
Proof.
  repeat (apply Forall_cons; split); try apply Forall_nil; try done.
  - exists query, 46, DEC_OK. split; [exact query_ok|vm_compute; reflexivity].
  - exists gpdu, 82, DEC_OK. split; [exact gpdu_ok|vm_compute; reflexivity].
Qed.

Lemma stats_add_counts_witness :
  foldl add_sample stats_init seen = stats_of 0 seen /\ st_udp (stats_of 0 seen) = 2.
Proof.
  split; [apply (stats_add_counts seen); vm_compute; reflexivity|vm_compute; reflexivity].
Defined.

Lemma stats_conservation_witness : conserved (foldl add_sample stats_init seen).
Proof. apply (stats_conservation seen); [vm_compute; reflexivity|exact seen_decoded]. Defined.

(** ** The pipeline *)
Definition blank : analysis :=
  Analysis stats_init (Flow_table [] 0 0 0) (Flow_table [] 0 0 0) (Frag_cache None 0).

Lemma reader1_short : (length (remaining reader1) < 1000)%nat.
Proof. rewrite (opn_rest _ _ _ reader1_ok). vm_compute. lia. Qed.

Lemma reader1_packets :
  Z.of_nat (length (capture_of (r_info reader1) (remaining reader1)).1) = 3.
Proof. vm_compute. reflexivity. Qed.

Lemma analysis_run_refines_witness :
  exists a st a' r', analysis_init blank (Init_allocs true true true) = Some (0, a) /\
    analysis_run 1000 a reader1 record0 [] = Some (st, a', r') /\
    (accounts_for (capture_of (r_info reader1) (remaining reader1)).1 a' \/ st = PCAP_ERR_NOMEM).
Proof.
  destruct (init_accounts blank) as (a & E & _).
  destruct (analysis_run_refines blank a reader1 record0 [] 1000 E (opn_ok _ _ _ reader1_ok)
              (opn_error _ _ _ reader1_ok) reader1_bytes)
    as (st & a' & r' & H & Hcase).
  - exact reader1_short.
  - rewrite reader1_packets. done.
  - exists a, st, a', r'. split; [exact E|]. split; [exact H|].
    destruct Hcase as [[_ Ha]|[Hst _]]; [left; exact Ha|right; exact Hst].
Defined.

Definition status_of (m : option (pcap_status * analysis * pcap_reader)) : option pcap_status :=
  '(st, _, _) ← m; Some st.

Definition run1_status : option pcap_status :=
  x ← analysis_init blank (Init_allocs true true true);
  status_of (analysis_run 1000 x.2 reader1 record0 []).

Lemma status_of_Some m st : status_of m = Some st -> exists a r, m = Some (st, a, r).
Proof. destruct m as [[[? a] r]|]; [|done]. cbn. intros [= ->]. eauto. Qed.

Lemma bind_init {B} (m : option (Z * analysis)) (f : analysis -> option B) a v :
  m = Some (0, a) -> (x ← m; f x.2) = v -> f a = v.
Proof. by intros ->. Qed.

Lemma run1_computed : run1_status = Some PCAP_EOF.
Proof. vm_compute. reflexivity. Qed.

Lemma run1_ends a :
  analysis_init blank (Init_allocs true true true) = Some (0, a) ->
  exists a' r', analysis_run 1000 a reader1 record0 [] = Some (PCAP_EOF, a', r').
Proof.
  intros E. apply status_of_Some.
  exact (bind_init _ (fun a => status_of (analysis_run 1000 a reader1 record0 [])) a _ E run1_computed).
Qed.

Lemma analysis_run_totals_witness :
  exists a a' r', analysis_init blank (Init_allocs true true true) = Some (0, a) /\
    analysis_run 1000 a reader1 record0 [] = Some (PCAP_EOF, a', r') /\
    conserved (an_stats a') /\ st_packets (an_stats a') = 3.
Proof.
  destruct (init_accounts blank) as (a & E & _). destruct (run1_ends a E) as (a' & r' & H).
  exists a, a', r'. split; [exact E|]. split; [exact H|].
  destruct (analysis_run_totals blank a reader1 record0 [] 1000 PCAP_EOF a' r' E
              (opn_ok _ _ _ reader1_ok) (opn_error _ _ _ reader1_ok) reader1_bytes reader1_short)
    as (Hc & Hp & _); [rewrite reader1_packets; done|exact H|discriminate|].
  split; [exact Hc|]. rewrite Hp. exact reader1_packets.
Defined.
