(* ===== verification/OutputWitnesses.v ===== *)
(** The properties of the output and of the program at work: addresses, CSV files
    and whole runs on concrete inputs. *)
From Stdlib Require Import String.
From S2P Require Import Determinism AddrText Witnesses.
From stdpp Require Import list.
#[local] Open Scope Z_scope.

(** ** Addresses *)

(** 2001:db8::1:0:0:1, its second run of zero groups as long as its first. *)
Definition V6 : bytes := [0x20; 0x01; 0x0d; 0xb8; 0; 0; 0; 0; 0; 1; 0; 0; 0; 0; 0; 1].
Definition text_buffer : bytes := replicate 46 0xAA.

Lemma V6_bytes : Forall is_byte V6.
Proof. concrete_bytes. Qed.

Lemma addr_format_text_witness :
  exists text, addr_text 6 V6 text /\
    addr_format 6 V6 text_buffer ADDR_STR_LEN text_buffer = Some (printed text_buffer ADDR_STR_LEN text) /\
    c_str (printed text_buffer ADDR_STR_LEN text) = Some (str "2001:db8::1:0:0:1").
Proof.
  destruct (addr_format_text 6 V6 text_buffer ADDR_STR_LEN text_buffer eq_refl V6_bytes eq_refl)
    as (text & Ht & _ & _ & E); [vm_compute; split; discriminate|].
  exists text. split; [exact Ht|]. split; [exact E|].
  assert (Hc : (buf ← addr_format 6 V6 text_buffer ADDR_STR_LEN text_buffer; c_str buf) =
    Some (str "2001:db8::1:0:0:1")) by (vm_compute; reflexivity).
  rewrite E in Hc. exact Hc.
Defined.

Lemma addr_text_roundtrip_witness :
  exists buf text, addr_format 6 V6 text_buffer ADDR_STR_LEN text_buffer = Some buf /\
    c_str buf = Some text /\ read_ipv6 text = V6.
Proof. exact (proj2 (addr_text_roundtrip V6 text_buffer text_buffer eq_refl V6_bytes eq_refl eq_refl)). Defined.

(** ** CSV files *)
Definition zeros (n : Z) : bytes := replicate (Z.to_nat n) 0.

Lemma zeros_length n : 0 <= n -> length (zeros n) = Z.to_nat n.
Proof. intros _. apply length_replicate. Qed.

Lemma fits_entries t : Forall flow_fits (entries (ft_slots t)) -> table_fits t.
Proof.
  intros H k f Hk. unfold tmap, slots_map in Hk. apply elem_of_list_to_map_2 in Hk.
  unfold entry_list in Hk. apply list_elem_of_fmap in Hk as (g & [= -> ->] & Hg).
  rewrite Forall_forall in H. by apply H.
Qed.

Ltac concrete_flow :=
  split; vm_compute; try (split; [reflexivity|]); try (split; discriminate || reflexivity);
  try (by left); try (by right); try concrete_bytes.

Lemma table1_fits : table_fits table1.
Proof.
  apply fits_entries.
  let l := eval vm_compute in (entries (ft_slots table1)) in
  change (entries (ft_slots table1)) with l at 1.
  repeat (apply Forall_cons; split); try apply Forall_nil. all: concrete_flow.
Qed.

Lemma report_csv_reads_back_witness :
  exists out' fs, report_csv zeros (ostream_new sound) table1 true (Resources 0 0) = Some (0, out', Resources 0 0) /\
    ranked table1 fs /\ read_csv (csv_line csv_cols) read_row (o_text out') = Some (map view_of fs).
Proof.
  destruct (report_csv_reads_back zeros (ostream_new sound) table1 true (Resources 0 0) zeros_length table1_ok table1_fits)
    as (rc & out' & fs & E & Hr & _ & _ & _ & _ & Hgood & Hread).
  rewrite (Hgood eq_refl (takes_all_new sound eq_refl) eq_refl) in *.
  destruct (Hread eq_refl) as (Et & _ & Hv). exists out', fs.
  split; [exact E|]. split; [exact Hr|]. rewrite Et. exact Hv.
Defined.

Lemma report_tunnels_csv_reads_back_witness :
  exists out' fs, report_tunnels_csv zeros (ostream_new sound) table1 true (Resources 0 0) = Some (0, out', Resources 0 0) /\
    ranked table1 fs /\
    read_csv (csv_line tunnel_csv_cols) read_tunnel_row (o_text out') = Some (map tunnel_view_of fs).
Proof.
  destruct (report_tunnels_csv_reads_back zeros (ostream_new sound) table1 true (Resources 0 0) zeros_length table1_ok table1_fits)
    as (rc & out' & fs & E & Hr & _ & _ & _ & _ & Hgood & Hread).
  rewrite (Hgood eq_refl (takes_all_new sound eq_refl) eq_refl) in *.
  destruct (Hread eq_refl) as (Et & _ & Hv). exists out', fs.
  split; [exact E|]. split; [exact Hr|]. rewrite Et. exact Hv.
Defined.

(** ** Whole runs *)
Definition pcap_name : bytes := str "a.pcap".
Definition desk : env := Env
  (fun path => if same_string path pcap_name then inl disk else inr 2)
  (fun path => inl sound) (Some buffer) (Init_allocs true true true) [] true true true true true
  (fun _ => str "No such file or directory") zeros.
Definition world0 : world := World (ostream_new sound) (ostream_new sound) (Resources 0 0) [] blank.

Definition argv1 : list bytes :=
  [str "pcapstat"; str "-n"; str "2"; str "--csv"; str "f.csv"; str "--tunnels-csv"; str "t.csv"; pcap_name].
Definition options1 : options := Options 2 (Some (str "f.csv")) (Some (str "t.csv")) (Some pcap_name).

Lemma buffer_is_ok : buffer_ok (Some buffer).
Proof. intros b E. assert (Hb : buffer = b) by congruence. rewrite <- Hb. exact buffer_length. Qed.

Lemma desk_ok : env_ok desk 1000.
Proof.
  split.
  - exact zeros_length.
  - intros path fp. cbn [e_open desk]. destruct (same_string path pcap_name); [|discriminate].
    intros [= <-]. split; [apply stream_is_ok; reflexivity|]. split; [vm_compute; lia|vm_compute; reflexivity].
  - exact buffer_is_ok.
Qed.

Lemma argv1_ok : command argv1 options1 pcap_name.
Proof.
  split; [|vm_compute; repeat split; discriminate].
  apply (parse_args_sound _ _ world0). vm_compute. reflexivity.
Qed.

Definition packets1 : list captured := (capture_of (r_info reader1) (remaining reader1)).1.

Lemma reads1 : reads desk pcap_name (r_info reader1) packets1 PCAP_EOF.
Proof.
  destruct reader1_ok as [V R _ _ _ _]. exists disk, PCAP_EOF.
  split; [reflexivity|]. split; [exact V|]. split; [|reflexivity].
  unfold packets1. rewrite R.
  assert (H : (capture_of (r_info reader1) (drop 24 capture)).2 = PCAP_EOF) by (vm_compute; reflexivity).
  change (stream_rest disk) with capture. revert H. by destruct (capture_of _ _) as [ps st]; cbn; intros ->.
Qed.

Lemma memory1 : memory_suffices desk.
Proof. split; [by eexists|]. split; [reflexivity|constructor]. Qed.
Lemma reports1 : reports_succeed desk options1 world0.
Proof. split; try done. constructor. Qed.

Lemma main_total_witness :
  exists st w', main desk 1000 argv1 world0 = Some (st, w') /\ w_os w' = Resources 0 0.
Proof.
  destruct (main_total desk 1000 argv1 world0 desk_ok) as (st & w' & E & _ & Hos & _).
  exists st, w'. split; [exact E|exact Hos].
Defined.

Lemma main_reports_witness :
  exists w' an, main desk 1000 argv1 world0 = Some (EXIT_OK, w') /\ accounts_for packets1 an /\
    fully_reported options1 pcap_name (r_info reader1) an world0 w'.
Proof.
  apply (main_reports desk 1000 argv1 world0 options1 pcap_name (r_info reader1) packets1 PCAP_EOF
    desk_ok argv1_ok reads1); [vm_compute; discriminate|exact memory1|exact reports1].
Defined.

Lemma run1_succeeds : exists w', main desk 1000 argv1 world0 = Some (EXIT_OK, w').
Proof.
  destruct (main_reports_spec desk 1000 argv1 world0 options1 pcap_name (r_info reader1) packets1 PCAP_EOF
    desk_ok argv1_ok reads1) as (w' & _ & E & _); [vm_compute; discriminate|exact memory1|exact reports1|].
  exists w'. exact E.
Qed.

Lemma main_success_witness :
  exists w', main desk 1000 argv1 world0 = Some (EXIT_OK, w') /\
    exists o pcap info ps an, command argv1 o pcap /\ reads desk pcap info ps PCAP_EOF /\ accounts_for ps an /\
      fully_reported o pcap info an world0 w'.
Proof.
  destruct run1_succeeds as [w' E]. exists w'. split; [exact E|].
  destruct (main_success desk 1000 argv1 world0 w' desk_ok E) as [[_ [H|H]]|H]; [| |exact H]; exfalso;
    apply list_elem_of_In in H; vm_compute in H; intuition discriminate.
Defined.

(** The same desk with other bytes in its uninitialised arrays, more fuel and an
    analysis that held something before. *)
Definition marks (n : Z) : bytes := replicate (Z.to_nat n) 0xAA.
Definition other_desk : env := Env (e_open desk) (e_create desk) (Some buffer) (Init_allocs true true true) []
  true true true true true (e_strerror desk) marks.
Definition other_world : world := World (ostream_new sound) (ostream_new sound) (Resources 0 0) []
  (Analysis stats_init table1 table1 (Frag_cache None 0)).

Lemma other_desk_ok : env_ok other_desk 2000.
Proof.
  split.
  - intros n _. apply length_replicate.
  - intros path fp E. destruct (eo_stream _ _ desk_ok path fp E) as (H1 & H2 & H3). split; [exact H1|].
    split; [|exact H3]. apply Nat.lt_trans with 1000%nat; [exact H2|apply Nat.ltb_lt; reflexivity].
  - exact buffer_is_ok.
Qed.

Lemma main_deterministic_witness :
  exists st w1 w2, main desk 1000 argv1 world0 = Some (st, w1) /\ main other_desk 2000 argv1 other_world = Some (st, w2) /\
    o_data (w_out w1) = o_data (w_out w2) /\ same_file (str "f.csv") w1 w2.
Proof.
  destruct (main_deterministic _ _ desk other_desk 1000 2000 argv1 world0 other_world options1 pcap_name (r_info reader1)
    packets1 PCAP_EOF desk_ok other_desk_ok argv1_ok reads1 reads1) as (st & w1 & w2 & E1 & E2 & (text & T1 & T2) & _ & Hcsv);
    [vm_compute; discriminate|exact memory1|exact memory1|exact reports1|split; try done; constructor|constructor|constructor|].
  exists st, w1, w2. split; [exact E1|]. split; [exact E2|]. split; [by rewrite T1, T2|].
  apply Hcsv. left. reflexivity.
Defined.

(** A negative count is a usage error. *)
Definition argv2 : list bytes := [str "pcapstat"; str "-n"; str "-1"; pcap_name].

Lemma argv2_bad o pcap : ~ command argv2 o pcap.
Proof. intros [H _]. apply (parse_args_complete _ _ world0) in H. vm_compute in H. discriminate. Qed.

Lemma main_usage_witness :
  exists st w', main desk 1000 argv2 world0 = Some (st, w') /\ stops (drop 1 argv2) world0 st w'.
Proof. exact (main_usage desk 1000 argv2 world0 argv2_bad). Defined.
