(* ===== verification/Findings.v ===== *)
(** Two behaviours the modelling turned up, on concrete inputs: an output error that
    does not reach the exit status, and IPv6 fragments that are not matched. *)
From Stdlib Require Import String.
From S2P Require Import MainProps Witnesses OutputWitnesses.
From stdpp Require Import list.
#[local] Open Scope Z_scope.

(** ** A lost line of the report *)

(** The first write to the standard output fails and loses its text; the later ones
    and the final [fflush] succeed. *)
Definition world_full_once : world :=
  World (ostream_new (Device [Some 0%nat] None)) (ostream_new sound) (Resources 0 0) [] blank.

(** The run loses text, and [main] returns 0 all the same: it looks at [fflush]
    but not at [ferror]. *)
Lemma lost_output_exit_0 :
  exists w', main desk 1000 argv1 world_full_once = Some (EXIT_OK, w') /\ o_error (w_out w') = true.
Proof.
  assert (H : match main desk 1000 argv1 world_full_once with
              | Some (st, w') => (st =? EXIT_OK) && o_error (w_out w') | None => false end = true)
    by (vm_compute; reflexivity).
  destruct (main desk 1000 argv1 world_full_once) as [[st w']|]; [|discriminate].
  apply andb_true_iff in H as [Hst Ho]. apply Z.eqb_eq in Hst. subst st. exists w'. by split.
Qed.

(** ** Fragments with destination options *)
Definition V6_A : bytes := [0x20; 0x01; 0x0d; 0xb8; 0; 0; 0; 0; 0; 0; 0; 0; 0; 0; 0; 1].
Definition V6_B : bytes := [0x20; 0x01; 0x0d; 0xb8; 0; 0; 0; 0; 0; 0; 0; 0; 0; 0; 0; 2].

(** An IPv6 header, then a fragment header: next header 60 (destination options),
    the offset and the M flag, identification 7. *)
Definition fragment_of (offset_flags : Z) (payload : bytes) : bytes :=
  put_ipv6 (put_eth [] 0x86DD) 44 V6_A V6_B (8 + length payload) ++
  [60; 0; Z.shiftr offset_flags 8; Z.land offset_flags 0xFF; 0; 0; 0; 7] ++ payload.

(** The first fragment, with the options and the UDP header, and the second one. *)
Definition options_first : bytes :=
  fragment_of 1 ([17; 0; 1; 4; 0; 0; 0; 0] ++ put_udp [] 1000 2000 100).
Definition options_later : bytes := fragment_of 16 (replicate 16 0xCD).

(** Two fragments of one datagram: the same addresses and identification, and the
    decoder takes both for fragments.  But it gives the first one the protocol UDP
    and the later one the protocol 60, so the later one stays without ports. *)
Lemma options_fragments_unmatched :
  let p := pi_of options_first in let q := pi_of options_later in
  (pi_frag p = FRAG_FIRST /\ pi_frag q = FRAG_LATER /\ pi_frag_id p = pi_frag_id q /\
   pi_src_addr p = pi_src_addr q /\ pi_dst_addr p = pi_dst_addr q) /\
  pi_ip_proto p = 17 /\ pi_src_port p = 1000 /\ pi_ip_proto q = 60 /\
  (frag_run (frag_cache_init true).2 [p; q] ≫= fun r => Some (map fst r.1)) = Some [false; false].
Proof. vm_compute. repeat split. Qed.
