(* ===== verification/FuzzWitnesses.v ===== *)
(** The properties of the fuzzer at work: its mutations, and a run of a thousand
    iterations in a world where everything succeeds, in two memories. *)
From Stdlib Require Import String.
From S2P Require Import FuzzReplay Witnesses Fuzz.
From stdpp Require Import list.
#[local] Open Scope Z_scope.

(** A fuzzer about to start: nothing allocated, no file open, an environment that
    grants everything. *)
Definition fuzzer0 : fuzz :=
  Fuzz (rng_seed 1) (Analysis stats_init (Flow_table [] 0 0 0) (Flow_table [] 0 0 0) (Frag_cache None 0))
    totals_zero (Resources 0 0) (ostream_new sound) [] [].

Lemma fuzzer0_lucky : lucky fuzzer0.
Proof. split; constructor. Qed.

(** The query in a buffer with room to grow. *)
Definition work0 : bytes := query ++ replicate 50 0.

Lemma work0_buffer : buffer_of 96 work0.
Proof. split; [reflexivity|]. concrete_bytes. Qed.

Lemma mutations_in_bounds_witness :
  exists r s', mutate work0 46 96 fuzzer0 = Some (inr (r, s')) /\ mutated_len 96 fuzzer0 r s'.
Proof.
  apply (mutations_in_bounds 96 work0 46 42 fuzzer0 work0_buffer); [split; discriminate|discriminate|discriminate|].
  exact (rng_seed_ok 1).
Defined.

(** ** A run *)

(** Memory comes zeroed, and [inet_ntop] is a formatter that follows RFC 5952. *)
Definition zeroed (n : Z) : bytes := replicate (Z.to_nat n) 0.
Definition ntop (a : bytes) : option bytes := Some (ipv6_str a).

Lemma zeroed_ok : junk_ok zeroed.
Proof. intros n _. split; [apply length_replicate|]. apply Forall_replicate. split; [discriminate|reflexivity]. Qed.
Lemma ntop_ok a : ~ misprinted ntop a.
Proof.
  intros (Ha & Hb & [[=]|(_ & ref & [= <-] & Hno)]). by apply Hno, ipv6_str_ok.
Qed.

Definition argv_1000 : list bytes := [str "fuzz_decode"; str "1000"; str "7"].

Example argv_1000_read : fuzz_args argv_1000 = (1000, 7).
Proof. reflexivity. Qed.

Lemma fuzz_finds_nothing_witness :
  exists s', main zeroed ntop argv_1000 fuzzer0 = Some (inr (0, s')) /\ cleaned_up fuzzer0 s'.
Proof.
  destruct (fuzz_finds_nothing zeroed ntop argv_1000 fuzzer0 zeroed_ok) as (r & E & Hr); [vm_compute; discriminate|].
  destruct (Hr fuzzer0_lucky) as [(s' & Er & Hc)|(a & _ & Ha)].
  - rewrite Er in E. exists s'. split; [exact E|exact Hc].
  - destruct (ntop_ok a Ha).
Defined.

(** The same run in memory full of ones. *)
Definition dirty (n : Z) : bytes := replicate (Z.to_nat n) 255.

Lemma dirty_ok : junk_ok dirty.
Proof. intros n _. split; [apply length_replicate|]. apply Forall_replicate. split; [discriminate|reflexivity]. Qed.

(** An environment where the hundredth call that may fail fails, and the second
    temporary file takes 100 bytes. *)
Definition fuzzer_unlucky : fuzz :=
  Fuzz (rng_seed 1) (Analysis stats_init (Flow_table [] 0 0 0) (Flow_table [] 0 0 0) (Frag_cache None 0))
    totals_zero (Resources 0 0) (ostream_new sound) (replicate 99 true ++ [false])
    [sound; Device [Some 100%nat] None].

Lemma fuzz_replays_witness :
  main zeroed ntop argv_1000 fuzzer0 = main dirty ntop argv_1000 fuzzer0 /\
  main zeroed (fun _ => None) argv_1000 fuzzer_unlucky = main dirty (fun _ => None) argv_1000 fuzzer_unlucky.
Proof.
  destruct (fuzz_replays zeroed dirty ntop argv_1000 fuzzer0 zeroed_ok dirty_ok) as (r & E1 & E2); [vm_compute; discriminate|].
  destruct (fuzz_replays zeroed dirty (fun _ => None) argv_1000 fuzzer_unlucky zeroed_ok dirty_ok) as (r' & E3 & E4);
    [vm_compute; discriminate|].
  split; [rewrite E1, E2; reflexivity|rewrite E3, E4; reflexivity].
Defined.
