(* ===== verification/BytebufWitnesses.v ===== *)
(** The properties of the builder's memory at work: a capture built, written and
    read back, with and without memory. *)
From S2P Require Import Witnesses BytebufProps.
From stdpp Require Import list.
#[local] Open Scope Z_scope.
Open Scope builder_scope.

(** A state before the first call; the buffer is uninitialised. *)
Definition fresh (grants : list bool) : bstate := Bstate (Bytebuf (Some [None]) 77 99) grants 3.
Definition calls : list call := capture_calls true true 65535 packets.

Definition final (r : halt + bstate) : bytebuf :=
  match r with inr s => bs_buf s | inl _ => Bytebuf None 0 0 end.

(** 40 bytes of headers and two packets: the block grows by doubling. *)
Example calls_capacity : bb_cap (final ((bb_init;; perform_all calls) (fresh []))) = 256.
Proof. vm_compute. reflexivity. Qed.

(** The second growth is refused: the program aborts with its message. *)
Example calls_abort : (bb_init;; perform_all calls) (fresh [true; false]) = inl (Aborted out_of_memory).
Proof. vm_compute. reflexivity. Qed.

(** A full disk, a disk that fills up while the file is closed, and a good one. *)
Example calls_written :
  let b := final ((bb_init;; perform_all calls) (fresh [])) in
  fst <$> bb_write_file b (inl (Device [Some 10%nat] None)) = Some (-1) /\
  fst <$> bb_write_file b (inl (Device [] (Some 0%nat))) = Some (-1) /\
  fst <$> bb_write_file b (inl sound) = Some 0 /\
  bb_write_file b (inr 2) = Some (-1, None).
Proof. vm_compute. done. Qed.

(** Zero units of a GTP-U extension header are outside the documented range: a lone
    header then asks for nearly 2^64 bytes and [reserve] never returns. *)
Example gtpu_ext_hangs : (bb_init;; put_gtpu_ext 0 0) (fresh []) = inl Hangs.
Proof. lazy. reflexivity. Qed.

Lemma builder_calls_ok : Forall call_ok calls.
Proof. apply capture_calls_ok. Qed.

Lemma builder_appends_witness :
  exists s', (bb_init;; perform_all calls) (fresh [true; true]) = inr s' /\
    contents (bs_buf s') = Some capture /\
    exists s'', bb_free s' = inr s'' /\ contents (bs_buf s'') = Some [] /\ bs_blocks s'' = 3.
Proof.
  assert (Hmax : Z.of_nat (length (concat (map call_bytes calls))) <= 2 ^ 63) by (vm_compute; discriminate).
  assert (Hr : is_Some (match (bb_init;; perform_all calls) (fresh [true; true]) with
                        | inr s => Some s | inl _ => None end)) by (vm_compute; eauto).
  pose proof (builder_appends calls (fresh [true; true]) builder_calls_ok Hmax) as H.
  destruct ((bb_init;; perform_all calls) (fresh [true; true])) as [|s']; [by destruct Hr|].
  destruct H as (Hc & _ & Hf). exists s'. split; [reflexivity|]. split; [|exact Hf].
  rewrite Hc. vm_compute. reflexivity.
Defined.

Lemma capture_file_roundtrip_witness :
  exists out r os', snd <$> bb_write_file (final ((bb_init;; perform_all calls) (fresh []))) (inl sound) = Some (Some out) /\
    pcap_open_file (inl (File (o_data out) 0 None false)) (Some (replicate (Z.to_nat PCAP_MAX_CAPLEN) 0)) (Resources 0 0) =
      Some (PCAP_OK, r, os') /\
    exists r', read_all (S (length (o_data out))) r record0 = Some (map (captured_of true) packets, PCAP_EOF, r').
Proof.
  assert (Hr : is_Some (match (bb_init;; perform_all calls) (fresh []) with
                        | inr s => Some s | inl _ => None end)) by (vm_compute; eauto).
  pose proof (capture_file_roundtrip true true 65535 packets (fresh []) (replicate (Z.to_nat PCAP_MAX_CAPLEN) 0) (Resources 0 0)
    ltac:(vm_compute; split; done) packets_ok ltac:(vm_compute; discriminate)
    ltac:(by rewrite length_replicate, Z2Nat.id)) as H.
  fold calls in H. destruct ((bb_init;; perform_all calls) (fresh [])) as [|s']; [by destruct Hr|].
  destruct (H (inl sound)) as (rc & f & E & H0 & H1). destruct (H1 (H0 eq_refl)) as (out & -> & r & os' & Eo & Hread).
  exists out, r, os'. split; [by cbn [final]; rewrite E|]. split; [exact Eo|exact (Hread record0)].
Defined.
