(* ===== verification/PacketWitnesses.v ===== *)
(** The round trip of packets on concrete frames: a tagged GTP-U tunnel with a packet
    inside, IPv6 fragments, and padding. *)
From S2P Require Import PacketTheorems.
#[local] Open Scope Z_scope.

Definition A4 : bytes := [10; 0; 0; 1].
Definition B4 : bytes := [192; 168; 1; 20].
Definition A6 : bytes := [0x20; 0x01; 0x0d; 0xb8; 0; 0; 0; 0; 0; 0; 0; 0; 0; 0; 0; 1].
Definition B6 : bytes := [0x20; 0x01; 0x0d; 0xb8; 0; 0; 0; 0; 0; 0; 0; 0; 0; 0; 0; 2].

(** A G-PDU with a sequence number and a container extension header around an IPv6
    packet with hop-by-hop options, over tagged IPv4 with an option word. *)
Definition user_packet : ip := V6 A6 B6 [Options 0 [1; 4; 0; 0; 0; 0]] (Tcp 40000 443 0x18 [1; 2; 3]).
Definition g_pdu : gtpu := {|
  g_e := true; g_s := true; g_pn := false; g_spare := false;
  g_type := 255; g_teid := 0x11223344; g_seq := 513; g_npdu := 0;
  g_exts := [(0x85, 1%nat)]; g_inner := Some user_packet; g_rest := []
|}.
Definition tunnel_ip : ip :=
  V4 A4 B4 1 true false 0 (Udp 2152 2152 (length (gtpu_bytes g_pdu)) (gtpu_bytes g_pdu)).
Definition tunnel_frame : frame := Frame [(0x88A8, 100); (0x8100, 7)] (Tunnel tunnel_ip g_pdu) [0; 0; 0].

(** A later IPv6 fragment: no ports. *)
Definition later_frame : frame :=
  Frame [] (Ip (V6 A6 B6 [Fragment 0 100 0 true 77] (Udp 1000 2000 900 [5; 6; 7; 8]))) [].

(** Validity of a concrete frame, by computation. *)
Ltac valid :=
  cbv [frame_valid net_valid l4_valid ext_valid carries_gtpu];
  cbn [fr_vlans fr_net fr_trailer ip_body ip_kind g_type g_teid g_seq g_npdu g_exts g_e g_inner g_rest fst snd];
  repeat lazymatch goal with
  | |- ip_valid _ => fail
  | |- gtpu_valid _ => fail
  | |- _ /\ _ => split
  | |- Forall _ [] => apply List.Forall_nil
  | |- Forall _ (_ :: _) => apply List.Forall_cons
  | |- Forall _ ?l => let l' := eval hnf in l in progress change l with l'
  | |- is_u _ _ => split; vm_compute; [discriminate|reflexivity]
  | |- (_ <= _)%nat => vm_compute; lia
  | |- _ = _ => vm_compute; reflexivity
  | |- _ <= _ => vm_compute; discriminate
  | |- _ < _ => vm_compute; reflexivity
  | |- _ <> _ => vm_compute; discriminate
  | |- _ -> _ => intros
  | |- _ <-> _ => split
  end.

Lemma user_packet_valid : ip_valid user_packet.
Proof. unfold ip_valid, user_packet. valid. by left. Qed.

Lemma g_pdu_valid : gtpu_valid g_pdu.
Proof.
  unfold gtpu_valid, g_pdu. valid; [done|done|].
  match goal with H : Some _ = Some _ |- _ => injection H as <- end. apply user_packet_valid.
Qed.

Lemma tunnel_ip_valid : ip_valid tunnel_ip.
Proof.
  unfold ip_valid, tunnel_ip. valid.
Qed.

Lemma tunnel_frame_valid : frame_valid tunnel_frame.
Proof.
  unfold tunnel_frame, tunnel_ip. valid; [apply tunnel_ip_valid|by left|apply g_pdu_valid].
Qed.

Lemma later_frame_valid : frame_valid later_frame.
Proof.
  unfold later_frame. valid; [unfold ip_valid; valid; discriminate|]. by intros [? _].
Qed.

(** What the grammar promises for the tunnel: the outer packet, the tunnel and the
    packet inside. *)
Example tunnel_frame_fields :
  let pi := frame_result tunnel_frame in
  (pi_vlan_ids pi, pi_ip_proto pi, pi_dst_port pi) = ([100; 7], 17, 2152) /\
  (pi_gtp_seq pi, pi_teid pi, pi_gtp_ext_count pi) = (513, 0x11223344, 1) /\
  (pi_inner_version pi, pi_inner_proto pi, pi_inner_src_port pi, pi_inner_dst_port pi) = (6, 6, 40000, 443) /\
  pi_inner_dst pi = B6.
Proof. vm_compute. repeat split. Qed.

Example later_frame_fields :
  let pi := frame_result later_frame in
  pi_frag pi = FRAG_LATER /\ pi_frag_id pi = 77 /\ pi_ip_proto pi = 17 /\ pi_has_l4 pi = false.
Proof. vm_compute. repeat split. Qed.

Lemma decode_built_frame_witness :
  decode_frame (frame_bytes tunnel_frame) 144 144 = Some (DEC_OK, frame_result tunnel_frame) /\
  decode_frame (frame_bytes later_frame) 74 74 = Some (DEC_OK, frame_result later_frame).
Proof.
  split.
  - exact (decode_built_frame tunnel_frame tunnel_frame_valid).
  - exact (decode_built_frame later_frame later_frame_valid).
Defined.
