(* ===== verification/EndToEndWitnesses.v ===== *)
(** The program from end to end on a concrete capture: a first and a later fragment of
    one datagram around a tagged GTP-U tunnel. *)
From Stdlib Require Import String.
From S2P Require Import EndToEnd Reorder PacketWitnesses Witnesses OutputWitnesses.
From stdpp Require Import list.
#[local] Open Scope Z_scope.

(** The first fragment of the datagram [later_frame] belongs to. *)
Definition first_frame : frame :=
  Frame [] (Ip (Packets.V6 A6 B6 [Fragment 0 0 0 true 77] (Udp 1000 2000 900 [5; 6; 7; 8]))) [0; 0].

Lemma first_frame_valid : frame_valid first_frame.
Proof. unfold first_frame. valid; [unfold ip_valid; valid; discriminate|]. by intros [? _]. Qed.

Definition traffic : list event :=
  [Event 10 500 first_frame; Event 11 0 tunnel_frame; Event 12 7 later_frame].

Lemma traffic_valid : Forall event_valid traffic.
Proof.
  repeat apply List.Forall_cons; [..|apply List.Forall_nil]; (split; [split; vm_compute; [discriminate|reflexivity]|];
    split; [split; vm_compute; [discriminate|reflexivity]|]; split; [|vm_compute; discriminate]).
  - exact first_frame_valid.
  - exact tunnel_frame_valid.
  - exact later_frame_valid.
Qed.

(** The later fragment joins the flow of the first: two flows from three packets. *)
Example traffic_ports :
  map (fun v => (v.1, pi_src_port v.2, pi_dst_port v.2)) (traffic_attributed traffic) =
  [(false, 1000, 2000); (false, 2152, 2152); (true, 1000, 2000)].
Proof. vm_compute. reflexivity. Qed.

(** A desk on which one file lies, that may end in a read error. *)
Definition file_desk (data : bytes) (err : option Z) : env := Env
  (fun path => if same_string path pcap_name then inl (File data 0 err false) else inr 2)
  (fun path => inl sound) (Some buffer) (Init_allocs true true true) [] true true true true true
  (fun _ => str "No such file or directory") zeros.

Lemma file_desk_ok data err : Forall is_byte data -> (length data <= 500)%nat -> env_ok (file_desk data err) 1000.
Proof.
  intros Hb Hl. split.
  - exact zeros_length.
  - intros path fp. cbn [e_open file_desk]. destruct (same_string path pcap_name); [|discriminate].
    intros [= <-]. cbn [f_data]. split; [|split; lia]. split; [exact Hb|]. cbn [f_pos f_data f_error]. split; [lia|reflexivity].
  - exact buffer_is_ok.
Qed.

(** The first [k] bytes of the capture of the traffic. *)
Definition traffic_bytes : bytes := traffic_file true false 65535 traffic.
Definition traffic_desk (k : nat) (err : option Z) : env := file_desk (take k traffic_bytes) err.

Lemma traffic_desk_ok k err : env_ok (traffic_desk k err) 1000.
Proof.
  apply file_desk_ok.
  - apply Forall_take, pcap_file_bytes, args_valid, traffic_valid.
  - rewrite length_take. apply Nat.le_trans with (length traffic_bytes); [apply Nat.le_min_r|vm_compute; lia].
Qed.

Lemma traffic_memory k err : memory_suffices (traffic_desk k err).
Proof. split; [by eexists|]. split; [reflexivity|constructor]. Qed.
Lemma traffic_reports k err : reports_succeed (traffic_desk k err) options1 world0.
Proof. split; try done; constructor. Qed.
Lemma snaplen_u32 : is_u 32 65535.
Proof. split; vm_compute; [discriminate|reflexivity]. Qed.

Lemma traffic_is_reported_witness :
  exists w' an, main (traffic_desk 500 None) 1000 argv1 world0 = Some (EXIT_OK, w') /\
    reported false traffic an /\ fully_reported options1 pcap_name (traffic_info true false 65535) an world0 w'.
Proof.
  apply (traffic_is_reported (traffic_desk 500 None) 1000 argv1 world0 options1 pcap_name true false 65535 traffic
    (traffic_desk_ok 500 None) argv1_ok (traffic_memory 500 None) (traffic_reports 500 None) snaplen_u32 traffic_valid).
  - vm_compute; discriminate.
  - vm_compute; reflexivity.
Defined.

(** Five bytes short of the end: the last frame is cut, and the first two are
    reported. *)
Definition short_length : nat := (length traffic_bytes - 5)%nat.

Lemma cut_traffic_is_reported_witness :
  exists w' an, main (traffic_desk short_length None) 1000 argv1 world0 = Some (EXIT_INPUT, w') /\
    reported false (take 2 traffic) an /\
    fully_reported options1 pcap_name (traffic_info true false 65535) an
      (told world0 pcap_name PCAP_ERR_TRUNC_RECORD 2) w'.
Proof.
  apply (cut_traffic_is_reported (traffic_desk short_length None) 1000 argv1 world0 options1 pcap_name true false 65535
    traffic short_length None (traffic_desk_ok _ None) argv1_ok (traffic_memory _ None) (traffic_reports _ None)
    snaplen_u32 traffic_valid).
  - vm_compute; discriminate.
  - vm_compute; lia.
  - constructor.
Defined.

(** Two frames in either order. *)
Definition forth : list event := [Event 10 500 first_frame; Event 11 0 tunnel_frame].
Definition back : list event := rev forth.
Definition desk_of (evs : list event) : env := file_desk (traffic_file false true 65535 evs) None.

Lemma forth_valid : Forall event_valid forth.
Proof. change forth with (take 2 traffic). apply Forall_take, traffic_valid. Qed.
Lemma back_valid : Forall event_valid back.
Proof. apply Forall_rev, forth_valid. Qed.

Lemma desk_of_ok evs :
  Forall event_valid evs -> (length (traffic_file false true 65535 evs) <= 500)%nat -> env_ok (desk_of evs) 1000.
Proof. intros Hv. apply file_desk_ok, pcap_file_bytes, args_valid, Hv. Qed.

Definition packets_of (evs : list event) : list captured := map (fun ev => captured_of true (event_args ev)) evs.

Lemma desk_of_reads evs :
  Forall event_valid evs -> reads (desk_of evs) pcap_name (traffic_info false true 65535) (packets_of evs) PCAP_EOF.
Proof. intros Hv. apply whole_traffic_reads; [exact snaplen_u32|exact Hv|reflexivity]. Qed.

Lemma reordered_capture_witness :
  exists st w1 w2, main (desk_of forth) 1000 argv1 world0 = Some (st, w1) /\
    main (desk_of back) 1000 argv1 world0 = Some (st, w2) /\
    o_data (w_out w1) = o_data (w_out w2) /\ same_file (str "f.csv") w1 w2.
Proof.
  destruct (reordered_capture _ _ (desk_of forth) (desk_of back) 1000 1000 argv1 world0 world0 options1 pcap_name
    (traffic_info false true 65535) (packets_of forth) (packets_of back) PCAP_EOF)
    as (st & w1 & w2 & E1 & E2 & (text & T1 & T2) & _ & Hcsv).
  - apply desk_of_ok; [exact forth_valid|vm_compute; lia].
  - apply desk_of_ok; [exact back_valid|vm_compute; lia].
  - exact argv1_ok.
  - apply desk_of_reads, forth_valid.
  - apply desk_of_reads, back_valid.
  - vm_compute. discriminate.
  - unfold packets_of, back. apply fmap_Permutation, Permutation_rev.
  - repeat constructor.
  - apply distinct_ties. vm_compute. repeat constructor; set_solver.
  - split; [by eexists|]. split; [reflexivity|constructor].
  - split; [by eexists|]. split; [reflexivity|constructor].
  - split; try done; constructor.
  - split; try done; constructor.
  - constructor.
  - constructor.
  - exists st, w1, w2. split; [exact E1|]. split; [exact E2|]. split; [by rewrite T1, T2|].
    apply Hcsv. left. reflexivity.
Defined.
